(* ===== verification/_CoqProject ===== *)
-Q . S2P
Prelude.v
Effects.v
Kube.v
Crypto.v
ApiTypes.v
Meta.v
Metadata.v
StateStore.v
ObjectSyncer.v
Samples.v
StateStoreProofs.v
ObjectSyncerProofs.v
Limits.v
Projection.v
Templating.v
Related.v
RelatedProofs.v
Syncer.v
SyncerProofs.v
MergePatch.v
Triples.v
World.v
Convergence.v
Mutation.v
Control.v
Discovery.v
ApiResourceSchema.v
ApiExport.v
Publishing.v
MultiCluster.v
SyncController.v
SyncControllerProofs.v
SyncManager.v
SyncManagerLive.v
Flags.v
Cmd.v
Toolkit.v
Memory.v
DeepCopy.v
Informers.v
ApplyConfig.v
ApplyConfigProofs.v
