(* ===== verification/Prelude.v ===== *)
(** * A verification of the kcp api-syncagent

    The agent publishes resources of a Kubernetes cluster (the service
    cluster) in kcp and keeps the objects that users create in their kcp
    workspaces in sync with copies on the service cluster.  What is published
    is configured by PublishedResource objects.

    ** The program and its model

    A PublishedResource passes through three controllers.  The
    APIResourceSchema controller ([internal/controller/apiresourceschema])
    finds the CRD of the published kind ([internal/discovery]), projects it to
    what kcp users see ([internal/projection]) and stores the result in kcp
    under a name made of its hash.  The APIExport controller
    ([internal/controller/apiexport]) lists the finished schemas and the
    permission claims in the APIExport.  The sync manager
    ([internal/controller/syncmanager]) waits until kcp serves the resource
    and starts a sync controller ([internal/controller/sync]) through the
    dynamic multicluster manager ([internal/kcp/multicluster.go]).  The sync
    controller hands every object of every workspace to a resource syncer
    ([internal/sync]), which finds or creates the copy, applies the configured
    mutations ([internal/mutation]), synchronises spec and status, remembers
    what was synchronised in a Secret, and treats related objects likewise.

    Handlers are sequential Go functions that send requests and branch on the
    answers.  They are modelled as trees of requests (Effects.v): [exec p tr o]
    holds of every trace [tr] of requests and answers, whatever an API server,
    a stale cache or a broken network answers, so theorems about [exec] hold
    for all of these.  [run] executes a handler against one concrete server
    and provides the witnesses.  Loops are folds over lists and recursion is
    structural, so every handler terminates by construction.  The few string
    functions with fuel ([chunks] of Crypto.v, the replacers of Templating.v)
    get the length of their input, and every round consumes a byte.  An error
    is a value of [outcome], and so is a panic.

    ** Files

    - Prelude.v: errors and panics as values, strings, lists, sorting, the
      tactics and hint databases that the other files use.
    - Effects.v: programs that send requests, their executions, the
      predicate [always] on all requests of a program, and [traced] on
      requests together with what was exchanged before them.
    - Kube.v: Kubernetes objects, clients and the requests of the sync code
      ([kube]); the class [JsonLib] of JSON functions with its laws.
    - Crypto.v: [internal/crypto/hash.go]: SHA-1, SHA-3, hexadecimal and JSON
      encoding, written out, so that names are the strings the program makes.
    - ApiTypes.v: [sdk/apis/syncagent/v1alpha1].
    - Meta.v, Metadata.v: [internal/sync/meta.go], [metadata.go], [types.go],
      [deletion_policy.go], [context.go]: object keys, labels, annotations,
      finalizers, the three-way diff of metadata.
    - StateStore.v, StateStoreProofs.v: [internal/sync/state_store.go].  The
      class [SecretStore] is what the store promises to its clients.
    - ObjectSyncer.v, ObjectSyncerProofs.v: [internal/sync/object_syncer.go].
    - Samples.v: concrete servers and objects for witnesses.
    - Limits.v: the labels and names that the sync code makes up, held against
      the rules of the API server.
    - Projection.v: [internal/projection/projection.go].
    - Templating.v: [internal/sync/templating].
    - Related.v, RelatedProofs.v: [internal/sync/syncer_related.go].  The label
      selectors of a PublishedResource are shared by all reconciliations and
      written by the code, so they are memory that programs read and write.
    - Syncer.v, SyncerProofs.v: [internal/sync/syncer.go].  The class
      [StoreFactory] is what [Process] needs of the state store.
    - MergePatch.v: JSON merge patches (RFC 7386) as functions on documents;
      the class [PatchLaws] is what the program relies on of the library that
      creates them.
    - Triples.v: total correctness of a program run against one server.
    - World.v: the class [ApiServers]: what the two clusters do with the
      requests of [Process], as laws on a state with the object, its copy and
      the Secret.
    - Convergence.v: repeated calls of [Process] against such clusters.
    - Mutation.v: [internal/mutation] and its transformers.
    - Control.v: the requests of the controllers ([control]).
    - Discovery.v: [internal/discovery] and the functions of the projection
      that call it.
    - ApiResourceSchema.v: the schema controller and
      [internal/kcp/apiresourceschema.go].
    - ApiExport.v: the export controller and the generated reconciling code
      in [internal/resources/reconciling] that it runs in.
    - Publishing.v: the schema controller and the export controller at work on
      the same clusters; the class [ControlPlane] is what these do.
    - MultiCluster.v: [internal/kcp/multicluster.go] as a transition system of
      goroutines, two read-write locks and two maps.
    - SyncController.v, SyncControllerProofs.v: [internal/controller/sync].
    - SyncManager.v: [internal/controller/syncmanager]; handlers pass the map
      of cancel functions along, which survives errors.
    - SyncManagerLive.v: the class [ManagerPlane] of clusters that answer the
      sync manager, and that it then starts what is ready.
    - Flags.v: [internal/log/zap.go], [internal/options] and
      [internal/version/app.go].
    - Cmd.v: [cmd/api-syncagent], [internal/kubeconfig] and
      [internal/controllerutil]: options, resolution of the sync endpoint,
      the order in which the parts are set up, event filters.
    - Toolkit.v: [cmd/pubres-toolkit]: the command that prints what a
      PublishedResource would publish.
    - Memory.v: memory of a Go program: variables, backing arrays and maps at
      locations, the statements that copy them, and what it means that a copy
      is deep.
    - DeepCopy.v: the generated [zz_generated.deepcopy.go] of
      [sdk/apis/syncagent/v1alpha1] and [internal/sync/apis/dummy/v1alpha1],
      statement by statement, over the struct types written out.
    - Informers.v: [sdk/informers] and [sdk/listers]: factories whose methods
      hold a lock, as a transition system with the goroutines they start.
    - ApplyConfig.v, ApplyConfigProofs.v: [sdk/applyconfiguration]: builders
      of documents for server-side apply, the documents, and how the types in
      [sdk/apis/syncagent/v1alpha1] are read from them.

    ** What is shown

    - Calls of [Process] bring every object that is not being deleted to
      rest: after at most four of them the copy leads back to the object, the
      statuses agree, and further calls only read; the copy then has the fields of the object, unless it
      had been changed or adopted behind the back of the remembered state
      ([Process_converges]).  Each call is a transition that an abstract life
      cycle allows ([Process_lifecycle]).  A deleted object is released after
      at most two calls, and a copy that its labels led to does not exist any
      more, unless others hold that copy back ([deletion_completes]).  Every
      label and name that is made up on the way is valid, if what goes into
      it unhashed is ([made_up_values_valid]).
    - A pass of the object syncer sends requests in phases: no copy before the
      finalizer is on the source, no finalizer released before the copy is
      gone, deletions only of the copy ([Sync_requests]).  If it asks for no
      requeue it wrote nothing but a status that differed ([Sync_settled]).
      Copies lead back to their source and are found by its key ([copy_event_finds_source],
      [linkToSource_selected]), and the state store returns what was stored
      ([stateStore_roundtrip]).
    - A reconciliation synchronises only what the filter selects
      ([Reconcile_filtered]); what it creates, replaces or deletes in kcp are
      objects of the kind of a related resource from the service cluster
      ([Reconcile_spares_kcp]); it cleans related resources up first
      ([Process_cleans_related_first]), and when nothing is resolved, prunes
      copies only after a live confirmation or with their primary
      ([empty_prune_confirmed]).
    - Whatever the order in which the schema controller and the export
      controller are run, everything gets published, and they come to rest
      ([publishing_converges]).
    - Publishing: discovery and projection give valid CRDs
      ([RetrieveCRD_fallback], [ProjectCRD_sound],
      [ProjectPublishedResource_publishable]); schemas are only added
      (lemma [Reconcile_only_adds]); the reconciler of the APIExport refines a
      specification on sets and settles ([APIExport_refines],
      [APIExport_settles]); what the export controller writes is determined
      by what it has read ([Reconcile_exports]); names of schemas are parsed
      back ([schemaName_roundtrip]).
    - The sync manager starts a controller for everything that is ready, once,
      and waits for the rest ([ready_gets_started], [Reconcile_starts]).
    - Every generated deep copy returns a value with the same content that
      shares no memory with the original ([DeepCopy_independent]): the other
      files may treat API objects as immutable values where the code copies
      before it writes, and model memory where it does not.
    - Informers are shared and run once ([informers_run_once]); what is
      described with apply configurations is read back, and exactly the empty
      lists of short names and categories cannot be described
      ([apply_roundtrip]).
    - Compiled mutations equal their interpretation and do not panic
      ([NewMutator_correct], [applyMutations_no_panic]).
    - The goroutines of the multicluster manager have one data race, the
      unlocked look-up of [Engage], and no other ([only_data_race],
      [clusters_read_unlocked]); its locks, in which a waiting writer keeps
      new readers out, do not deadlock ([no_deadlock]), and running
      controllers know all clusters ([controllers_engaged]).
    - Retargeting the URL of a kubeconfig replaces exactly the workspace and
      can be undone ([retarget_roundtrip]).
    - Some theorems show where the code does not do what it means to do:
      [controllers_never_stopped], [namespace_filter_panics],
      [reengaged_cluster_lost], [templateLabelSelector_sticky], [confirmOriginEmpty_forgets_path],
      [syncLive_ssa], [adoption_keeps_content] (an adopted object is taken for
      synchronised), [last_label_unlinks] (a merge patch removes the labels of
      the copy), [transform_ignored] (an option of the informer factories
      that has no effect).

    ** Assumptions

    Third-party code is a parameter, given as a class of operations with the
    laws the program relies on: [JsonLib] and [JsonLaws], [TemplateEngine],
    [TextLib] (gjson, regexp, selectors), [MutationLib], [DiscoveryLib] and
    [DiscoveryLaws], [SchemaLib], [ReconcilerLib] and [ReconcilerLaws] (the
    reconciler framework), [KubeVersions] (version comparison), [Matcher]
    (label selectors), [OptionsLib], [PatchLib] and [PatchLaws] (merge
    patches; instance [TreePatch]), [Externs] and [ExternLaws] (deep copies
    of apimachinery types; instances in [SampleMemory]), [InformerLib],
    [ApplyTypes], [ApplyJson] and [ApplyJsonLaws] (JSON of client-go types;
    instances in [SampleApply]).  Convergence is shown for clusters that
    satisfy [ApiServers] and change nothing of their own accord, in the
    update mode without server-side apply, for a resource without mutations
    and related resources ([plain] of World.v); [SampleWorld] is such a
    cluster.  Likewise [ControlPlane] and [ReconcilerRuns] (instances in
    [SamplePlane]) for [publishing_converges], and [ManagerPlane] (instance in
    [SampleServing]) for [ready_gets_started].  The order in which Go iterates
    over maps and sets is a parameter too ([MapRange], [SetRange], [ClaimRange],
    [InformerRange]), and so is the order in which [slices.SortFunc] puts
    entries with equal keys ([SliceSort]).  The
    theorems that assume something are applied at concrete instances.

    ** Not modelled

    The client sets ([sdk/clientset]): generated wrappers without state of
    their own, which construct REST clients with client-go and hand every call
    to them, or to the object tracker of a library in the fakes for tests.
    The parsing of command lines, the output of the logger, and the
    registration of controllers, schemes and flags, which is code that only
    calls libraries.  Apply configurations are values: that a configuration is
    changed after it was handed to another one is not covered.
    Timestamps are numbers; time does not pass within a handler. *)

From Stdlib Require Export Ascii.
From stdpp Require Export base gmap strings list fin_maps sorting pretty.

(** ** Notation scope, hint databases *)

Declare Scope go_scope.
Delimit Scope go_scope with go.
Global Open Scope go_scope.

Create HintDb syncagent.
Create Rewrite HintDb syncagent_len.

(** ** Go errors and results

    A Go function of result type [(T, error)] becomes a function into
    [outcome T].  [Panic] is a run-time panic (nil dereference, explicit
    [panic]).  [Wrapped msg cause] is [fmt.Errorf("msg: %w", cause)]. *)

Inductive StatusReason : Type :=
| StatusReasonNotFound
| StatusReasonAlreadyExists
| StatusReasonConflict
| StatusReasonOther (code : string).

Inductive gerror : Type :=
| ErrorString (msg : string)
| APIStatus (reason : StatusReason)
| Wrapped (msg : string) (cause : gerror).

Inductive outcome (A : Type) : Type :=
| Ok (a : A)
| Err (e : gerror)
| Panic (msg : string).
Arguments Ok {A} a.
Arguments Err {A} e.
Arguments Panic {A} msg.

#[export] Instance StatusReason_eq_dec : EqDecision StatusReason.
Proof. solve_decision. Defined.

#[export] Instance gerror_eq_dec : EqDecision gerror.
Proof. solve_decision. Defined.

#[export] Instance outcome_eq_dec `{EqDecision A} : EqDecision (outcome A).
Proof. solve_decision. Defined.

(** [errors.As] looks through wrapped errors, and so do the predicates of
    the API error package. *)
Fixpoint reasonForError (e : gerror) : option StatusReason :=
  match e with
  | ErrorString _ => None
  | APIStatus r => Some r
  | Wrapped _ c => reasonForError c
  end.

Definition IsNotFound (e : gerror) : bool :=
  bool_decide (reasonForError e = Some StatusReasonNotFound).

Definition IsAlreadyExists (e : gerror) : bool :=
  bool_decide (reasonForError e = Some StatusReasonAlreadyExists).

Definition errNotFound : gerror := APIStatus StatusReasonNotFound.
Definition errAlreadyExists : gerror := APIStatus StatusReasonAlreadyExists.

Definition obind {A B} (m : outcome A) (k : A -> outcome B) : outcome B :=
  match m with
  | Ok a => k a
  | Err e => Err e
  | Panic s => Panic s
  end.

(** [if err != nil { return ..., fmt.Errorf("msg: %w", err) }] *)
Definition wrapErr {A} (msg : string) (m : outcome A) : outcome A :=
  match m with
  | Err e => Err (Wrapped msg e)
  | _ => m
  end.

Notation "'let!' x := m 'in' k" := (obind m (fun x => k))
  (at level 10, x pattern, m at level 100, k at level 200) : go_scope.

Definition is_ok {A} (m : outcome A) : bool :=
  match m with Ok _ => true | _ => false end.

Fixpoint omapM {A B} (f : A -> outcome B) (l : list A) : outcome (list B) :=
  match l with
  | [] => Ok []
  | x :: l' => let! y := f x in let! ys := omapM f l' in Ok (y :: ys)
  end.

Fixpoint ofoldM {A B} (f : B -> A -> outcome B) (b : B) (l : list A) : outcome B :=
  match l with
  | [] => Ok b
  | x :: l' => let! b' := f b x in ofoldM f b' l'
  end.

(** ** The functions of Go's [strings] package the program uses

    Go strings are byte strings, and so is [string].  [TrimSpace] and
    [ToLower] follow the ASCII fast path of the Go functions. *)

Definition HasPrefix (s p : string) : bool := String.prefix p s.

Fixpoint Contains (s sub : string) : bool :=
  HasPrefix s sub ||
  match s with
  | EmptyString => false
  | String _ s' => Contains s' sub
  end.

(** [strings.Cut] for a one-byte separator. *)
Fixpoint Cut (c : ascii) (s : string) : option (string * string) :=
  match s with
  | EmptyString => None
  | String a s' =>
      if decide (a = c) then Some (EmptyString, s')
      else match Cut c s' with
           | Some (x, y) => Some (String a x, y)
           | None => None
           end
  end.

(** [strings.SplitN(s, sep, n)] for a one-byte separator and [0 <= n]. *)
Fixpoint SplitN (c : ascii) (n : nat) (s : string) : list string :=
  match n with
  | 0 => []
  | S n' =>
      match n' with
      | 0 => [s]
      | _ => match Cut c s with
             | Some (x, y) => x :: SplitN c n' y
             | None => [s]
             end
      end
  end.

(** [strings.Split]: as many parts as there are separators, plus one. *)
Definition Split (c : ascii) (s : string) : list string :=
  SplitN c (S (S (String.length s))) s.

Definition Join (l : list string) (sep : string) : string := String.concat sep l.

Fixpoint TrimLeftSpace (s : string) : string :=
  match s with
  | EmptyString => EmptyString
  | String a s' => if Ascii.is_space a then TrimLeftSpace s' else s
  end.

Definition TrimSpace (s : string) : string :=
  String.rev (TrimLeftSpace (String.rev (TrimLeftSpace s))).

Definition ToLowerByte (a : ascii) : ascii :=
  let n := Ascii.nat_of_ascii a in
  if (Nat.leb 65 n && Nat.leb n 90)%bool then Ascii.ascii_of_nat (n + 32) else a.

Fixpoint ToLower (s : string) : string :=
  match s with
  | EmptyString => EmptyString
  | String a s' => String (ToLowerByte a) (ToLower s')
  end.

(** [s[:n]] *)
Definition take_string (n : nat) (s : string) : string := String.substring 0 n s.

(** [s[n:]] *)
Fixpoint drop_string (n : nat) (s : string) : string :=
  match n, s with
  | S n', String _ s' => drop_string n' s'
  | _, _ => s
  end.

Definition char_in (c : ascii) (s : string) : bool :=
  match Cut c s with Some _ => true | None => false end.

(** ** Sorting

    [slices.SortStableFunc] with a comparator is a stable insertion sort on
    [le] (comparator result at most zero), and so is [slices.SortFunc] where
    the comparator separates what is sorted.  Where it does not, the order
    of entries with equal keys is left open: [SliceSort]. *)

Section Sort.
Context {A : Type} (le : A -> A -> bool).

Fixpoint insert_sorted (x : A) (l : list A) : list A :=
  match l with
  | [] => [x]
  | y :: l' => if le x y then x :: y :: l' else y :: insert_sorted x l'
  end.

Fixpoint SortFunc (l : list A) : list A :=
  match l with
  | [] => []
  | x :: l' => insert_sorted x (SortFunc l')
  end.

End Sort.

(** ** Tactics *)

(** Case analysis on the scrutinee of a match or conditional, keeping the
    equation, and clean up. *)
Ltac case_step :=
  match goal with
  | |- context [match ?x with _ => _ end] => destruct x eqn:?; simplify_eq/=
  end.

Ltac case_step_in H :=
  match type of H with
  | context [match ?x with _ => _ end] => destruct x eqn:?; simplify_eq/=
  end.

Ltac outcome_inv H :=
  repeat first
    [ progress (simplify_eq/=)
    | match type of H with
      | obind ?m _ = Ok _ => let E := fresh "E" in destruct m eqn:E; simpl in H
      | context [obind ?m _] => let E := fresh "E" in destruct m eqn:E; simpl in H
      end ].

(** ** Lemmas on outcomes *)

Lemma obind_ok_inv {A B} (m : outcome A) (k : A -> outcome B) b :
  obind m k = Ok b -> exists a, m = Ok a /\ k a = Ok b.
Proof. destruct m; naive_solver. Qed.

Lemma is_ok_inv {A} (m : outcome A) : is_ok m = true -> exists a, m = Ok a.
Proof. destruct m; simpl; intros; [eauto|discriminate..]. Qed.

Lemma wrapErr_ok_inv {A} msg (m : outcome A) a : wrapErr msg m = Ok a <-> m = Ok a.
Proof. destruct m; simpl; naive_solver. Qed.

Lemma omapM_length {A B} (f : A -> outcome B) l ys :
  omapM f l = Ok ys -> length ys = length l.
Proof.
  revert ys. induction l as [|x l IH]; intros ys H; simpl in H; [naive_solver|].
  apply obind_ok_inv in H as (y & _ & H). apply obind_ok_inv in H as (ys' & H' & ?).
  simplify_eq/=. by rewrite (IH _ H').
Qed.

(** ** Lemmas on strings *)

Lemma string_app_assoc (a b c : string) : (a +:+ b) +:+ c = a +:+ (b +:+ c).
Proof. induction a as [|x a IH]; [done|]. unfold String.app in *. simpl. by f_equal. Qed.

Lemma prefix_app (p s : string) : String.prefix p (p +:+ s) = true.
Proof.
  unfold String.app. induction p as [|a p IH]; simpl; [by destruct s|].
  destruct (Ascii.ascii_dec a a); [done|congruence].
Qed.

Lemma prefix_true_app (p s : string) :
  String.prefix p s = true -> exists r, s = p +:+ r.
Proof.
  revert s. induction p as [|a p IH]; intros s H; [by exists s|].
  destruct s as [|b s]; simpl in H; [done|].
  destruct (Ascii.ascii_dec a b) as [->|]; [|done].
  destruct (IH _ H) as [r ->]. by exists r.
Qed.

Lemma HasPrefix_spec (s p : string) :
  HasPrefix s p = true <-> exists r, s = p +:+ r.
Proof.
  unfold HasPrefix. split; [apply prefix_true_app|]. intros [r ->]. apply prefix_app.
Qed.

Lemma string_length_app a b : String.length (a +:+ b) = String.length a + String.length b.
Proof. unfold String.app. induction a as [|x a IH]; simpl; [done|]. by rewrite IH. Qed.

Lemma drop_string_app p s : drop_string (String.length p) (p +:+ s) = s.
Proof. unfold String.app. induction p as [|x p IH]; simpl; [by destruct s|done]. Qed.

Lemma Cut_Some c s x y :
  Cut c s = Some (x, y) -> s = x +:+ String c y /\ char_in c x = false.
Proof.
  revert x y. induction s as [|a s IH]; intros x y H; simpl in H; [done|].
  case_decide as Ha; [by simplify_eq|].
  destruct (Cut c s) as [[x' y']|] eqn:E; simplify_eq.
  destruct (IH _ _ eq_refl) as [-> Hx]. split; [done|].
  unfold char_in in *. simpl. rewrite decide_False by done. by destruct (Cut c x') as [[]|].
Qed.

Lemma Cut_app c x y :
  char_in c x = false -> Cut c (x +:+ String c y) = Some (x, y).
Proof.
  unfold char_in, String.app. induction x as [|a x IH]; simpl; intros H.
  - by rewrite decide_True.
  - case_decide as Ha; [done|].
    destruct (Cut c x) as [[]|] eqn:E; [done|]. by rewrite IH.
Qed.

Lemma Cut_None c s : Cut c s = None <-> char_in c s = false.
Proof. unfold char_in. destruct (Cut c s) as [[]|]; naive_solver. Qed.

Lemma char_in_cons c x s : char_in c (String x s) = bool_decide (x = c) || char_in c s.
Proof.
  unfold char_in. cbn [Cut]. destruct (decide (x = c)) as [->|Hx]; [by rewrite bool_decide_true|].
  rewrite bool_decide_false by done. by destruct (Cut c s) as [[]|].
Qed.

Lemma char_in_app c a b : char_in c (a +:+ b) = char_in c a || char_in c b.
Proof.
  induction a as [|x a IH]; [done|]. change (String x a +:+ b) with (String x (a +:+ b)).
  by rewrite !char_in_cons, IH, orb_assoc.
Qed.

(** Where the last dash is. *)
Lemma dash_split a b a' b' :
  char_in "-"%char b = false -> char_in "-"%char b' = false ->
  a +:+ "-" +:+ b = a' +:+ "-" +:+ b' -> a = a' /\ b = b'.
Proof.
  intros Hb Hb'. change (a +:+ String "-" b = a' +:+ String "-" b' -> a = a' /\ b = b').
  revert a'. induction a as [|x a IH]; intros [|x' a'] H.
  - by injection H as ->.
  - injection H as Hx H. exfalso. revert Hb. rewrite H, (char_in_app _ a' (String "-" b')), char_in_cons. by rewrite orb_true_r.
  - injection H as Hx H. exfalso. revert Hb'. rewrite <- H, (char_in_app _ a (String "-" b)), char_in_cons. by rewrite orb_true_r.
  - injection H as Hx H. destruct (IH a' H) as [-> ->]. by subst.
Qed.

(** Joining with a separator that occurs in none of the parts is injective
    on lists of equal length. *)
Lemma Join_cons2 (x y : string) l sep : Join (x :: y :: l) sep = x +:+ sep +:+ Join (y :: l) sep.
Proof. done. Qed.

Lemma Join_inj c (l1 l2 : list string) :
  length l1 = length l2 ->
  Forall (fun s => char_in c s = false) l1 ->
  Forall (fun s => char_in c s = false) l2 ->
  Join l1 (String c EmptyString) = Join l2 (String c EmptyString) -> l1 = l2.
Proof.
  revert l2. induction l1 as [|x [|x' l1] IH]; intros [|y [|y' l2]] Hlen H1 H2 HJ;
    try discriminate Hlen; [done|by unfold Join in HJ; simplify_eq/=|].
  rewrite !Join_cons2 in HJ. apply Forall_cons in H1 as [Hx H1], H2 as [Hy H2].
  pose proof (f_equal (Cut c) HJ) as HC.
  change (String c "" +:+ ?s) with (String c s) in HC.
  rewrite !Cut_app in HC by done. injection HC as -> HJ'.
  f_equal. apply IH; auto.
Qed.

(** ** Lemmas on sorting *)

Section SortFacts.
Context {A : Type} (le : A -> A -> bool).

Lemma insert_sorted_Permutation x l : insert_sorted le x l ≡ₚ x :: l.
Proof.
  induction l as [|y l IH]; simpl; [done|].
  destruct (le x y); [done|]. rewrite IH. apply Permutation_swap.
Qed.

Lemma SortFunc_Permutation l : SortFunc le l ≡ₚ l.
Proof. induction l as [|x l IH]; simpl; [done|]. by rewrite insert_sorted_Permutation, IH. Qed.

Lemma SortFunc_elem_of x l : x ∈ SortFunc le l <-> x ∈ l.
Proof. by rewrite SortFunc_Permutation. Qed.

Lemma SortFunc_length l : length (SortFunc le l) = length l.
Proof. by rewrite SortFunc_Permutation. Qed.

(** A list that is already sorted is left alone. *)
Lemma SortFunc_sorted_id l : Sorted (fun a b => le a b = true) l -> SortFunc le l = l.
Proof.
  induction 1 as [|x l Hs IH Hhd]; simpl; [done|]. rewrite IH.
  destruct Hhd as [|y l Hxy]; simpl; [done|]. by rewrite Hxy.
Qed.

Context (le_total : forall a b, le a b = true \/ le b a = true).

Lemma insert_sorted_Sorted x l :
  Sorted (fun a b => le a b = true) l -> Sorted (fun a b => le a b = true) (insert_sorted le x l).
Proof.
  induction 1 as [|y l Hs IH Hhd]; simpl; [by repeat constructor|].
  destruct (le x y) eqn:E; [by repeat constructor|].
  constructor; [done|]. assert (le y x = true) as Hyx by (destruct (le_total x y); congruence).
  destruct Hhd as [|z l Hyz]; simpl; [by constructor|]. destruct (le x z); by constructor.
Qed.

Lemma SortFunc_Sorted l : Sorted (fun a b => le a b = true) (SortFunc le l).
Proof. induction l; simpl; [constructor|by apply insert_sorted_Sorted]. Qed.

Lemma SortFunc_idemp l : SortFunc le (SortFunc le l) = SortFunc le l.
Proof. apply SortFunc_sorted_id, SortFunc_Sorted. Qed.

Context (le_trans : forall a b c, le a b = true -> le b c = true -> le a c = true).

(** When the comparator separates the members of the list, the order in
    which they arrive does not matter. *)
Lemma SortFunc_unique l1 l2 :
  l1 ≡ₚ l2 ->
  (forall a b, a ∈ l1 -> b ∈ l1 -> le a b = true -> le b a = true -> a = b) ->
  SortFunc le l1 = SortFunc le l2.
Proof.
  intros HP Hanti.
  assert (Transitive (fun a b => le a b = true)) by (intros a b c; eauto).
  apply (Sorted_unique_strong (fun a b => le a b = true)); auto using SortFunc_Sorted.
  - intros a b Ha Hb. rewrite SortFunc_elem_of in Ha, Hb.
    rewrite <- HP in Hb. eauto.
  - by rewrite !SortFunc_Permutation.
Qed.

End SortFacts.

(** [slices.SortFunc]: the result is a sorted permutation, and a slice that is
    in order stays as it is. *)
Class SliceSort : Type := SortSlice : forall A, (A -> A -> bool) -> list A -> list A.
#[global] Arguments SortSlice {_ A} le l.

Class SliceSortLaws (SO : SliceSort) : Prop := {
  SortSlice_Permutation A (le : A -> A -> bool) l : SortSlice le l ≡ₚ l;
  SortSlice_Sorted A (le : A -> A -> bool) l :
    (forall a b, le a b = true \/ le b a = true) ->
    (forall a b c, le a b = true -> le b c = true -> le a c = true) ->
    Sorted (fun a b => le a b = true) (SortSlice le l);
  SortSlice_sorted_id A (le : A -> A -> bool) l :
    Sorted (fun a b => le a b = true) l -> SortSlice le l = l
}.

Definition stableSort : SliceSort := @SortFunc.
Lemma stableSort_laws : SliceSortLaws stableSort.
Proof.
  split; unfold SortSlice, stableSort.
  - intros. apply SortFunc_Permutation.
  - intros. by apply SortFunc_Sorted.
  - intros. by apply SortFunc_sorted_id.
Qed.

(** A sorted permutation of separated entries is the only one. *)
Lemma sorted_perm_unique {A} (le : A -> A -> bool) l1 l2 :
  (forall a b c, le a b = true -> le b c = true -> le a c = true) ->
  (forall a b, a ∈ l1 -> b ∈ l1 -> le a b = true -> le b a = true -> a = b) ->
  Sorted (fun a b => le a b = true) l1 -> Sorted (fun a b => le a b = true) l2 -> l1 ≡ₚ l2 -> l1 = l2.
Proof.
  intros Htrans Hanti H1 H2 HP. assert (Transitive (fun a b => le a b = true)) by (intros a b c; eauto).
  apply (Sorted_unique_strong (fun a b => le a b = true)); auto. intros a b Ha Hb. rewrite <- HP in Hb. eauto.
Qed.

Lemma string_leb_total a b : String.leb a b = true \/ String.leb b a = true.
Proof. apply String.leb_total. Qed.

Lemma string_leb_trans a b c :
  String.leb a b = true -> String.leb b c = true -> String.leb a c = true.
Proof.
  intros H1 H2. apply Is_true_true. pose proof (transitivity (R := String.le) (x := a) (y := b) (z := c)) as H.
  apply H; by apply Is_true_true.
Qed.

#[export] Hint Resolve string_leb_total string_leb_trans : syncagent.

(** ** Lemmas on maps *)

Lemma map_union_lookup_r {V} (m1 m2 : gmap string V) k :
  m1 !! k = None -> (m1 ∪ m2) !! k = m2 !! k.
Proof. intros H. by rewrite lookup_union, H, (left_id None _). Qed.

(** ** Lemmas on lists *)

Lemma omap_cons {A B} (f : A -> option B) x l :
  omap f (x :: l) = match f x with Some y => y :: omap f l | None => omap f l end.
Proof. done. Qed.

(** ** Sets of strings

    The order in which the elements of a set come out of [UnsortedList], as
    Go ranges over a map. *)
Class SetRange : Type := UnsortedList : gset string -> list string.
Class SetRangeLaws (R : SetRange) : Prop := UnsortedList_perm s : UnsortedList s ≡ₚ elements s.
