(* ===== verification/Effects.v ===== *)
(** Programs that talk to API servers.

    The agent's handlers are sequential Go functions that issue requests
    (reads and writes through clients, events through recorders) and branch
    on the answers.  A handler is a value of [M S A]: a tree whose nodes are
    requests of a signature [S] and whose branches are the possible answers.
    Nothing is assumed about the answers: [exec p tr out] holds of every
    sequence of answers an API server, a stale cache or a broken network
    could give, and [run] executes a program against one concrete server. *)

From S2P Require Import Prelude.

(** ** Signatures and programs *)

Record sig : Type := Sig { req : Type; resp : req -> Type }.

Inductive prog (S : sig) (A : Type) : Type :=
| Ret (a : A)
| Call (r : req S) (k : resp S r -> prog S A).
Arguments Ret {S A} a.
Arguments Call {S A} r k.

Record event (S : sig) : Type := Ev { ev_req : req S; ev_resp : resp S ev_req }.
Arguments Ev {S} ev_req ev_resp.
Arguments ev_req {S} e.
Arguments ev_resp {S} e.

Definition M (S : sig) (A : Type) : Type := prog S (outcome A).

Section Programs.
Context {S : sig}.

Fixpoint pbind {A B} (p : prog S A) (k : A -> prog S B) : prog S B :=
  match p with
  | Ret a => k a
  | Call r c => Call r (fun x => pbind (c x) k)
  end.

Definition retM {A} (a : A) : M S A := Ret (Ok a).
Definition failM {A} (e : gerror) : M S A := Ret (Err e).
Definition panicM {A} (msg : string) : M S A := Ret (Panic msg).
Definition liftO {A} (o : outcome A) : M S A := Ret o.

Definition bindM {A B} (m : M S A) (k : A -> M S B) : M S B :=
  pbind m (fun o => match o with
                    | Ok a => k a
                    | Err e => Ret (Err e)
                    | Panic s => Ret (Panic s)
                    end).

(** The error of [m] as a value: [x, err := m]. *)
Definition tryM {A} (m : M S A) : M S (A + gerror) :=
  pbind m (fun o => Ret match o with
                        | Ok a => Ok (inl a)
                        | Err e => Ok (inr e)
                        | Panic s => Panic s
                        end).

(** [if err != nil { return fmt.Errorf("msg: %w", err) }] *)
Definition wrapM {A} (msg : string) (m : M S A) : M S A :=
  pbind m (fun o => Ret (wrapErr msg o)).

(** [for _, x := range l { ... }] with the loop-carried variables in [B]. *)
Fixpoint foldM {A B} (f : B -> A -> M S B) (b : B) (l : list A) : M S B :=
  match l with
  | [] => retM b
  | x :: l' => bindM (f b x) (fun b' => foldM f b' l')
  end.

(** ** Executions *)

Inductive exec {A} : prog S A -> list (event S) -> A -> Prop :=
| exec_ret a : exec (Ret a) [] a
| exec_call r k x tr a : exec (k x) tr a -> exec (Call r k) (Ev r x :: tr) a.

(** A server: how it answers a request and moves to its next state. *)
Definition server (W : Type) : Type := forall r : req S, W -> resp S r * W.

Fixpoint run {W A} (h : server W) (p : prog S A) (w : W) : list (event S) * A * W :=
  match p with
  | Ret a => ([], a, w)
  | Call r k =>
      let '(x, w') := h r w in
      let '(tr, a, w'') := run h (k x) w' in
      (Ev r x :: tr, a, w'')
  end.

(** Every request of every execution satisfies [P]. *)
Fixpoint always {A} (P : req S -> Prop) (p : prog S A) : Prop :=
  match p with
  | Ret _ => True
  | Call r k => P r /\ forall x, always P (k x)
  end.

End Programs.

Notation "'let*' x := m 'in' k" := (bindM m (fun x => k))
  (at level 10, x pattern, m at level 100, k at level 200) : go_scope.

(** Programs are taken apart by the lemmas below, not by reduction. *)
#[global] Arguments bindM {S A B} m k : simpl never.
#[global] Arguments tryM {S A} m : simpl never.
#[global] Arguments wrapM {S A} msg m : simpl never.

Definition requests {S} (tr : list (event S)) : list (req S) := ev_req <$> tr.

(** ** Lemmas *)

Section Facts.
Context {S : sig}.

Lemma exec_inv {A} (p : prog S A) tr a :
  exec p tr a ->
  match p with
  | Ret b => tr = [] /\ a = b
  | Call r k => exists x tr', tr = Ev r x :: tr' /\ exec (k x) tr' a
  end.
Proof. destruct 1; eauto. Qed.

Lemma exec_ret_inv {A} (a b : A) (tr : list (event S)) :
  exec (Ret a) tr b -> tr = [] /\ b = a.
Proof. apply (exec_inv (Ret a)). Qed.

Lemma exec_call_inv {A} (r : req S) (k : resp S r -> prog S A) tr a :
  exec (Call r k) tr a -> exists x tr', tr = Ev r x :: tr' /\ exec (k x) tr' a.
Proof. apply (exec_inv (Call r k)). Qed.

Lemma exec_pbind_inv {A B} (p : prog S A) (k : A -> prog S B) tr b :
  exec (pbind p k) tr b ->
  exists tr1 tr2 a, tr = tr1 ++ tr2 /\ exec p tr1 a /\ exec (k a) tr2 b.
Proof.
  revert tr. induction p as [a|r c IH]; intros tr H; simpl in H.
  - exists [], tr, a. eauto using exec.
  - apply exec_call_inv in H as (x & tr' & -> & H).
    apply IH in H as (tr1 & tr2 & a & -> & H1 & H2).
    exists (Ev r x :: tr1), tr2, a. eauto using exec.
Qed.

Lemma exec_pbind {A B} (p : prog S A) (k : A -> prog S B) tr1 tr2 a b :
  exec p tr1 a -> exec (k a) tr2 b -> exec (pbind p k) (tr1 ++ tr2) b.
Proof. induction 1; simpl; eauto using exec. Qed.

(** A sequence succeeds only through both of its parts, and fails or panics
    where one of them does. *)
Lemma exec_bindM_inv {A B} (m : M S A) (k : A -> M S B) tr o :
  exec (bindM m k) tr o ->
  (exists tr1 tr2 a, tr = tr1 ++ tr2 /\ exec m tr1 (Ok a) /\ exec (k a) tr2 o) \/
  (exists e, o = Err e /\ exec m tr (Err e)) \/
  (exists s, o = Panic s /\ exec m tr (Panic s)).
Proof.
  intros (tr1 & tr2 & [a|e|s] & -> & H1 & H2)%exec_pbind_inv; [left; eauto 10|right..].
  - left. apply exec_ret_inv in H2 as [-> ->]. rewrite app_nil_r. eauto.
  - right. apply exec_ret_inv in H2 as [-> ->]. rewrite app_nil_r. eauto.
Qed.

Lemma exec_bindM_ok_inv {A B} (m : M S A) (k : A -> M S B) tr b :
  exec (bindM m k) tr (Ok b) ->
  exists tr1 tr2 a, tr = tr1 ++ tr2 /\ exec m tr1 (Ok a) /\ exec (k a) tr2 (Ok b).
Proof. intros [?|[(? & ? & _)|(? & ? & _)]]%exec_bindM_inv; naive_solver. Qed.

Lemma exec_bindM {A B} (m : M S A) (k : A -> M S B) tr1 tr2 a o :
  exec m tr1 (Ok a) -> exec (k a) tr2 o -> exec (bindM m k) (tr1 ++ tr2) o.
Proof. intros H1 H2. unfold bindM. eapply exec_pbind; eauto. Qed.

Lemma exec_wrapM_inv {A} msg (m : M S A) tr o :
  exec (wrapM msg m) tr o -> exists o', exec m tr o' /\ o = wrapErr msg o'.
Proof.
  intros (tr1 & tr2 & o' & -> & H1 & [-> ->]%exec_ret_inv)%exec_pbind_inv.
  rewrite app_nil_r. eauto.
Qed.

Lemma exec_wrapM_ok_inv {A} msg (m : M S A) tr a :
  exec (wrapM msg m) tr (Ok a) -> exec m tr (Ok a).
Proof. intros (o & H & Ho)%exec_wrapM_inv. destruct o; naive_solver. Qed.

Lemma exec_wrapM {A} msg (m : M S A) tr o :
  exec m tr o -> exec (wrapM msg m) tr (wrapErr msg o).
Proof.
  intros H. rewrite <- (app_nil_r tr). eapply exec_pbind; eauto using exec.
Qed.

Lemma exec_tryM_inv {A} (m : M S A) tr o :
  exec (tryM m) tr o ->
  exists o', exec m tr o' /\
    o = match o' with Ok a => Ok (inl a) | Err e => Ok (inr e) | Panic s => Panic s end.
Proof.
  intros (tr1 & tr2 & o' & -> & H1 & [-> ->]%exec_ret_inv)%exec_pbind_inv.
  rewrite app_nil_r. eauto.
Qed.

Lemma Forall_requests_app (P : req S -> Prop) (tr1 tr2 : list (event S)) :
  Forall P (requests (tr1 ++ tr2)) <-> Forall P (requests tr1) /\ Forall P (requests tr2).
Proof. unfold requests. rewrite fmap_app. apply Forall_app. Qed.

(** Executing against a server gives an execution. *)
Lemma run_exec {W A} (h : server W) (p : prog S A) w tr a w' :
  run h p w = (tr, a, w') -> exec p tr a.
Proof.
  revert w tr. induction p as [b|r k IH]; intros w tr H; simpl in H.
  - simplify_eq. constructor.
  - destruct (h r w) as [x w1]. destruct (run h (k x) w1) as [[tr1 a1] w2] eqn:E.
    simplify_eq. constructor. eauto.
Qed.

Lemma run_pbind {W A B} (h : server W) (p : prog S A) (k : A -> prog S B) w :
  run h (pbind p k) w =
  let '(tr1, a, w1) := run h p w in
  let '(tr2, b, w2) := run h (k a) w1 in (tr1 ++ tr2, b, w2).
Proof.
  revert w. induction p as [a|r c IH]; intros w; simpl.
  - by destruct (run h (k a) w) as [[??]?].
  - destruct (h r w) as [x w1]. rewrite IH.
    destruct (run h (c x) w1) as [[??]?]. by destruct (run h _ _) as [[??]?].
Qed.

Lemma run_execution {W A} (h : server W) (p : prog S A) w :
  exec p (run h p w).1.1 (run h p w).1.2.
Proof. destruct (run h p w) as [[tr a] w'] eqn:E. by eapply run_exec. Qed.

Lemma run_bindM_ok {W A B} (h : server W) (m : M S A) (k : A -> M S B) w tr a w1 :
  run h m w = (tr, Ok a, w1) ->
  run h (bindM m k) w = let '(tr2, b, w2) := run h (k a) w1 in (tr ++ tr2, b, w2).
Proof. intros H. unfold bindM. by rewrite run_pbind, H. Qed.

Lemma run_wrapM_ok {W A} (h : server W) msg (m : M S A) w tr a w1 :
  run h m w = (tr, Ok a, w1) -> run h (wrapM msg m) w = (tr, Ok a, w1).
Proof. intros H. unfold wrapM. rewrite run_pbind, H. simpl. by rewrite app_nil_r. Qed.

(** Sequences that start without a request. *)
Lemma bindM_retM {A B} (a : A) (k : A -> M S B) : bindM (retM a) k = k a.
Proof. done. Qed.

Lemma bindM_liftO {A B} (a : A) (k : A -> M S B) : bindM (liftO (Ok a)) k = k a.
Proof. done. Qed.

(** Running a computed result: the program goes on, or stops with it. *)
Lemma exec_bindM_liftO_inv {A B} (o : outcome A) (k : A -> M S B) tr r :
  exec (bindM (liftO o) k) tr r ->
  match o with
  | Ok a => exec (k a) tr r
  | Err e => tr = [] /\ r = Err e
  | Panic m => tr = [] /\ r = Panic m
  end.
Proof. destruct o; intros H; [done|by apply exec_ret_inv in H..]. Qed.

Lemma wrapM_retM {A} msg (a : A) : wrapM msg (retM a) = retM (S := S) a.
Proof. done. Qed.

(** *** [always] *)

Lemma always_exec {A} (P : req S -> Prop) (p : prog S A) tr a :
  always P p -> exec p tr a -> Forall P (requests tr).
Proof.
  intros Hp H. induction H as [|r k x tr a H IH]; [constructor|].
  destruct Hp as [Hr Hk]. constructor; [done|]. by apply IH.
Qed.

Lemma always_mono {A} (P Q : req S -> Prop) (p : prog S A) :
  (forall r, P r -> Q r) -> always P p -> always Q p.
Proof. intros HPQ. induction p; simpl; naive_solver. Qed.

Lemma always_pbind {A B} P (p : prog S A) (k : A -> prog S B) :
  always P p -> (forall a, always P (k a)) -> always P (pbind p k).
Proof. intros Hp Hk. induction p as [a|r c IH]; simpl in *; naive_solver. Qed.

Lemma always_bindM {A B} P (m : M S A) (k : A -> M S B) :
  always P m -> (forall a, always P (k a)) -> always P (bindM m k).
Proof. intros Hm Hk. apply always_pbind; [done|]. intros [a| |]; simpl; auto. Qed.

(** The continuation may rely on what the first part can answer. *)
Lemma always_bindM_exec {A B} P (m : M S A) (k : A -> M S B) :
  always P m -> (forall tr a, exec m tr (Ok a) -> always P (k a)) -> always P (bindM m k).
Proof.
  unfold bindM. induction m as [[a|e|msg]|r c IH]; intros Hm Hk; simpl in *; auto using exec_ret.
  - eapply Hk, exec_ret.
  - destruct Hm as [Hr Hc]. split; [done|]. intros x. apply IH; [done|].
    intros tr a Hx. eapply Hk. by constructor.
Qed.

Lemma always_wrapM {A} P msg (m : M S A) : always P m -> always P (wrapM msg m).
Proof. intros Hm. by apply always_pbind. Qed.

Lemma always_tryM {A} P (m : M S A) : always P m -> always P (tryM m).
Proof. intros Hm. by apply always_pbind. Qed.

Lemma always_foldM {A B} P (f : B -> A -> M S B) b l :
  (forall b x, x ∈ l -> always P (f b x)) -> always P (foldM f b l).
Proof.
  revert b. induction l as [|x l IH]; intros b Hf; simpl; [done|].
  apply always_bindM; [apply Hf; set_solver|]. intros b'. apply IH. set_solver.
Qed.

Lemma always_call {A} (P : req S -> Prop) r (k : resp S r -> prog S A) :
  P r -> (forall x, always P (k x)) -> always P (Call r k).
Proof. done. Qed.

(** *** [traced] *)

(** Each request satisfies [P] of what was exchanged before it. *)
Fixpoint traced {A} (P : list (event S) -> req S -> Prop) (h : list (event S)) (p : prog S A) : Prop :=
  match p with
  | Ret _ => True
  | Call r k => P h r /\ forall x, traced P (h ++ [Ev r x]) (k x)
  end.

Lemma traced_exec {A} P h (p : prog S A) tr a tr1 ev tr2 :
  traced P h p -> exec p tr a -> tr = tr1 ++ ev :: tr2 -> P (h ++ tr1) (ev_req ev).
Proof.
  intros Hp H. revert h tr1 Hp. induction H as [|r k x tr a H IH]; intros h tr1 Hp; [by destruct tr1|].
  destruct Hp as [Hr Hk]. destruct tr1 as [|ev1 tr1]; intros [= <- ->]; [by rewrite app_nil_r|].
  specialize (IH _ tr1 (Hk x) eq_refl). by rewrite <- (assoc_L (++)) in IH.
Qed.

Lemma traced_always {A} (P : list (event S) -> req S -> Prop) (Q : req S -> Prop) h (p : prog S A) :
  (forall h r, Q r -> P h r) -> always Q p -> traced P h p.
Proof. intros HQ. revert h. induction p as [|r k IH]; intros h Hp; [done|]. destruct Hp. split; auto. Qed.

Lemma traced_mono {A} (P Q : list (event S) -> req S -> Prop) h (p : prog S A) :
  (forall h' r, P (h ++ h') r -> Q (h ++ h') r) -> traced P h p -> traced Q h p.
Proof.
  revert h. induction p as [|r k IH]; intros h HPQ Hp; [done|]. destruct Hp as [Hr Hk]. split.
  - specialize (HPQ [] r). rewrite app_nil_r in HPQ. auto.
  - intros x. apply IH; [|done]. intros h'. rewrite <- !(assoc_L (++)). apply HPQ.
Qed.

Lemma traced_pbind {A B} P h (p : prog S A) (k : A -> prog S B) :
  traced P h p -> (forall tr a, exec p tr a -> traced P (h ++ tr) (k a)) -> traced P h (pbind p k).
Proof.
  revert h. induction p as [a|r c IH]; intros h Hp Hk; simpl.
  - rewrite <- (app_nil_r h). apply Hk. constructor.
  - destruct Hp as [Hr Hc]. split; [done|]. intros x. apply IH; [done|].
    intros tr a H. rewrite <- (assoc_L (++)). apply Hk. by constructor.
Qed.

Lemma traced_bindM {A B} P h (m : M S A) (k : A -> M S B) :
  traced P h m -> (forall tr a, exec m tr (Ok a) -> traced P (h ++ tr) (k a)) -> traced P h (bindM m k).
Proof. intros Hm Hk. apply traced_pbind; [done|]. intros tr [a| |] H; simpl; auto. Qed.

Lemma traced_wrapM {A} P h msg (m : M S A) : traced P h m -> traced P h (wrapM msg m).
Proof. intros Hm. by apply traced_pbind. Qed.

Lemma traced_tryM {A} P h (m : M S A) : traced P h m -> traced P h (tryM m).
Proof. intros Hm. by apply traced_pbind. Qed.

Lemma traced_foldM {A B} P h (f : B -> A -> M S B) b l :
  (forall h' b x, x ∈ l -> traced P (h ++ h') (f b x)) -> traced P h (foldM f b l).
Proof.
  revert h b. induction l as [|x l IH]; intros h b Hf; simpl; [done|]. apply traced_bindM.
  - rewrite <- (app_nil_r h). apply Hf. by left.
  - intros tr b' _. apply IH. intros h' b'' y Hy. rewrite <- (assoc_L (++)). apply Hf. by right.
Qed.

Lemma traced_call {A} (P : list (event S) -> req S -> Prop) h r (k : resp S r -> prog S A) :
  P h r -> (forall x, traced P (h ++ [Ev r x]) (k x)) -> traced P h (Call r k).
Proof. done. Qed.

End Facts.

#[global] Arguments always {S A} P p : simpl never.
#[global] Arguments traced {S A} P h p : simpl never.

Create Rewrite HintDb syncagent_run.
#[export] Hint Rewrite @bindM_retM @bindM_liftO @wrapM_retM : syncagent_run.
#[export] Hint Constructors exec : syncagent.
#[export] Hint Resolve always_bindM always_wrapM always_tryM always_call : syncagent.

(** Take an execution of a program apart, one layer at a time. *)
Ltac exec_step :=
  match goal with
  | H : exec (let _ := _ in _) _ _ |- _ => cbv zeta in H
  | H : exec (Ret _) _ _ |- _ => apply exec_ret_inv in H as [? ?]; simplify_eq
  | H : exec (retM _) _ _ |- _ => apply exec_ret_inv in H as [? ?]; simplify_eq
  | H : exec (failM _) _ _ |- _ => apply exec_ret_inv in H as [? ?]; simplify_eq
  | H : exec (panicM _) _ _ |- _ => apply exec_ret_inv in H as [? ?]; simplify_eq
  | H : exec (liftO _) _ _ |- _ => apply exec_ret_inv in H as [? ?]; simplify_eq
  | H : exec (Call _ _) _ _ |- _ =>
      let x := fresh "x" in let tr := fresh "tr" in
      apply exec_call_inv in H as (x & tr & ? & H); simplify_eq
  | H : exec (bindM _ _) _ (Ok _) |- _ =>
      let tr1 := fresh "tr" in let tr2 := fresh "tr" in let a := fresh "a" in
      let H1 := fresh "Hx" in
      apply exec_bindM_ok_inv in H as (tr1 & tr2 & a & ? & H1 & H); simplify_eq
  | H : exec (wrapM _ _) _ (Ok _) |- _ => apply exec_wrapM_ok_inv in H
  | H : exec (tryM _) _ (Ok _) |- _ =>
      let o := fresh "o" in let E := fresh "Eo" in
      apply exec_tryM_inv in H as (o & H & E); destruct o; simplify_eq/=
  end.
Ltac exec_inv := repeat (exec_step; simpl in *).

(** Prove an [always] by walking over the program. *)
Ltac always_step :=
  match goal with
  | |- always _ (let _ := _ in _) => cbv zeta
  | |- always _ (bindM _ _) => apply always_bindM; [|intros ?]
  | |- always _ (wrapM _ _) => apply always_wrapM
  | |- always _ (tryM _) => apply always_tryM
  | |- always _ (foldM _ _ _) => apply always_foldM; intros ? ? ?
  | |- always _ (Call _ _) => apply always_call; [|intros ?]
  | |- always _ (Ret _) => exact I
  | |- always _ (retM _) => exact I
  | |- always _ (failM _) => exact I
  | |- always _ (panicM _) => exact I
  | |- always _ (liftO _) => exact I
  | |- always _ (match ?x with _ => _ end) => destruct x eqn:?
  end.
(** The same for [traced], where what was exchanged so far does not matter. *)
Ltac traced_step :=
  match goal with
  | |- traced _ _ (let _ := _ in _) => cbv zeta
  | |- traced _ _ (bindM _ _) => apply traced_bindM; [|intros ? ? ?]
  | |- traced _ _ (wrapM _ _) => apply traced_wrapM
  | |- traced _ _ (tryM _) => apply traced_tryM
  | |- traced _ _ (Call _ _) => apply traced_call; [|intros ?]
  | |- traced _ _ (Ret _) => exact I
  | |- traced _ _ (retM _) => exact I
  | |- traced _ _ (failM _) => exact I
  | |- traced _ _ (panicM _) => exact I
  | |- traced _ _ (liftO _) => exact I
  | |- traced _ _ (match ?x with _ => _ end) => destruct x eqn:?
  end.
Ltac always_solve := repeat (always_step; simpl); eauto with syncagent.
