(* ===== verification/Kube.v ===== *)
(** Kubernetes objects and the API the sync code talks to.

    The types of the Kubernetes client libraries are represented by the
    fields the program reads or writes: [Unstructured] is
    [unstructured.Unstructured] (a JSON object with its [apiVersion], [kind]
    and [metadata] taken out of the top-level map), [ObjectMeta] its metadata.
    An absent label or annotation map ([nil] for [GetLabels]) and an empty one
    are different, as they are in the JSON.  [kube] is the signature of the
    requests the sync code sends through [ctrlruntimeclient.Client], together
    with its accesses to shared memory; answers are not constrained.  [JsonLib] are the JSON functions of third-party
    packages. *)

From S2P Require Import Prelude Effects.

(** ** JSON values *)

Inductive value : Type :=
| VNull
| VBool (b : bool)
| VNum (n : Z)
| VStr (s : string)
| VArr (l : list value)
| VObj (m : gmap string value).

#[export] Instance value_eq_dec : EqDecision value.
Proof.
  refine (fix go (x y : value) : Decision (x = y) :=
    let e : EqDecision value := go in
    match x, y with
    | VNull, VNull => left eq_refl
    | VBool a, VBool b => cast_if (decide (a = b))
    | VNum a, VNum b => cast_if (decide (a = b))
    | VStr a, VStr b => cast_if (decide (a = b))
    | VArr a, VArr b => cast_if (decide (a = b))
    | VObj a, VObj b => cast_if (decide (a = b))
    | _, _ => right _
    end); clear e go; abstract congruence.
Defined.

(** ** Names of API types *)

Record GroupVersionKind : Type := GVK { gvk_group : string; gvk_version : string; gvk_kind : string }.
Record GroupVersionResource : Type :=
  GVR { gvr_group : string; gvr_version : string; gvr_resource : string }.
Record GroupKind : Type := GK { gk_group : string; gk_kind : string }.
Record GroupResource : Type := GR { gr_group : string; gr_resource : string }.
Record NamespacedName : Type := NN { nn_namespace : string; nn_name : string }.

#[export] Instance GroupVersionKind_eq_dec : EqDecision GroupVersionKind.
Proof. solve_decision. Defined.
#[export] Instance GroupVersionResource_eq_dec : EqDecision GroupVersionResource.
Proof. solve_decision. Defined.
#[export] Instance GroupResource_eq_dec : EqDecision GroupResource.
Proof. solve_decision. Defined.
#[export] Instance NamespacedName_eq_dec : EqDecision NamespacedName.
Proof. solve_decision. Defined.

#[export] Instance NamespacedName_countable : Countable NamespacedName.
Proof.
  apply (inj_countable' (fun n => (nn_namespace n, nn_name n)) (fun p => NN p.1 p.2)). by intros [].
Defined.

#[export] Instance GroupResource_countable : Countable GroupResource.
Proof.
  apply (inj_countable' (fun g => (gr_group g, gr_resource g)) (fun p => GR p.1 p.2)). by intros [].
Defined.

(** [GroupVersion.String()], the form of an [apiVersion]. *)
Definition groupVersionString (group version : string) : string :=
  if decide (group = "") then version else group +:+ "/" +:+ version.

(** [NamespacedName.String()] *)
Definition namespacedNameString (n : NamespacedName) : string :=
  nn_namespace n +:+ "/" +:+ nn_name n.

(** ** Objects *)

Record OwnerReference : Type :=
  OwnerRef { or_apiVersion : string; or_kind : string; or_name : string; or_uid : string }.

#[export] Instance OwnerReference_eq_dec : EqDecision OwnerReference.
Proof. solve_decision. Defined.

Record ObjectMeta : Type := Meta {
  om_name : string;
  om_namespace : string;
  om_labels : option (gmap string string);
  om_annotations : option (gmap string string);
  om_finalizers : option (list string);
  om_deletionTimestamp : option Z;
  om_creationTimestamp : option Z;
  om_generation : Z;
  om_ownerReferences : list OwnerReference;
  om_resourceVersion : string;
  om_managedFields : list value;
  om_uid : string;
  om_selfLink : string;
  (* metadata the program never touches, like generateName *)
  om_other : gmap string value
}.

#[export] Instance ObjectMeta_eq_dec : EqDecision ObjectMeta.
Proof. solve_decision. Defined.

Record Unstructured : Type := Obj {
  u_apiVersion : string;
  u_kind : string;
  u_meta : ObjectMeta;
  (* the other top-level fields: spec, status, data, ... *)
  u_content : gmap string value
}.

#[export] Instance Unstructured_eq_dec : EqDecision Unstructured.
Proof. solve_decision. Defined.

Definition emptyMeta : ObjectMeta :=
  Meta "" "" None None None None None 0 [] "" [] "" "" ∅.

(** *** Accessors of [unstructured.Unstructured] *)

Definition GetAPIVersion (o : Unstructured) : string := u_apiVersion o.
Definition GetKind (o : Unstructured) : string := u_kind o.
Definition GetName (o : Unstructured) : string := om_name (u_meta o).
Definition GetNamespace (o : Unstructured) : string := om_namespace (u_meta o).
Definition GetLabels (o : Unstructured) : option (gmap string string) := om_labels (u_meta o).
Definition GetAnnotations (o : Unstructured) : option (gmap string string) := om_annotations (u_meta o).
Definition GetFinalizers (o : Unstructured) : list string := default [] (om_finalizers (u_meta o)).
Definition GetDeletionTimestamp (o : Unstructured) : option Z := om_deletionTimestamp (u_meta o).
Definition GetOwnerReferences (o : Unstructured) : list OwnerReference := om_ownerReferences (u_meta o).

(** [m[k]] and [v, ok := m[k]] on a map that may be nil. *)
Definition lookup_map (m : option (gmap string string)) (k : string) : option string := m ≫= lookup k.
Definition index_map (m : option (gmap string string)) (k : string) : string := default "" (lookup_map m k).

Definition with_meta (f : ObjectMeta -> ObjectMeta) (o : Unstructured) : Unstructured :=
  Obj (u_apiVersion o) (u_kind o) (f (u_meta o)) (u_content o).

Definition with_content (f : gmap string value -> gmap string value) (o : Unstructured) : Unstructured :=
  Obj (u_apiVersion o) (u_kind o) (u_meta o) (f (u_content o)).

Definition SetAPIVersion (v : string) (o : Unstructured) : Unstructured :=
  Obj v (u_kind o) (u_meta o) (u_content o).
Definition SetKind (k : string) (o : Unstructured) : Unstructured :=
  Obj (u_apiVersion o) k (u_meta o) (u_content o).
Definition SetGroupVersionKind (g : GroupVersionKind) (o : Unstructured) : Unstructured :=
  SetKind (gvk_kind g) (SetAPIVersion (groupVersionString (gvk_group g) (gvk_version g)) o).

Definition SetName (n : string) : Unstructured -> Unstructured := with_meta (fun m =>
  Meta n (om_namespace m) (om_labels m) (om_annotations m) (om_finalizers m) (om_deletionTimestamp m)
    (om_creationTimestamp m) (om_generation m) (om_ownerReferences m) (om_resourceVersion m)
    (om_managedFields m) (om_uid m) (om_selfLink m) (om_other m)).
Definition SetNamespace (n : string) : Unstructured -> Unstructured := with_meta (fun m =>
  Meta (om_name m) n (om_labels m) (om_annotations m) (om_finalizers m) (om_deletionTimestamp m)
    (om_creationTimestamp m) (om_generation m) (om_ownerReferences m) (om_resourceVersion m)
    (om_managedFields m) (om_uid m) (om_selfLink m) (om_other m)).
Definition SetLabels (l : option (gmap string string)) : Unstructured -> Unstructured := with_meta (fun m =>
  Meta (om_name m) (om_namespace m) l (om_annotations m) (om_finalizers m) (om_deletionTimestamp m)
    (om_creationTimestamp m) (om_generation m) (om_ownerReferences m) (om_resourceVersion m)
    (om_managedFields m) (om_uid m) (om_selfLink m) (om_other m)).
Definition SetAnnotations (a : option (gmap string string)) : Unstructured -> Unstructured := with_meta (fun m =>
  Meta (om_name m) (om_namespace m) (om_labels m) a (om_finalizers m) (om_deletionTimestamp m)
    (om_creationTimestamp m) (om_generation m) (om_ownerReferences m) (om_resourceVersion m)
    (om_managedFields m) (om_uid m) (om_selfLink m) (om_other m)).
Definition SetFinalizers (f : option (list string)) : Unstructured -> Unstructured := with_meta (fun m =>
  Meta (om_name m) (om_namespace m) (om_labels m) (om_annotations m) f (om_deletionTimestamp m)
    (om_creationTimestamp m) (om_generation m) (om_ownerReferences m) (om_resourceVersion m)
    (om_managedFields m) (om_uid m) (om_selfLink m) (om_other m)).
Definition SetCreationTimestamp (t : option Z) : Unstructured -> Unstructured := with_meta (fun m =>
  Meta (om_name m) (om_namespace m) (om_labels m) (om_annotations m) (om_finalizers m) (om_deletionTimestamp m)
    t (om_generation m) (om_ownerReferences m) (om_resourceVersion m)
    (om_managedFields m) (om_uid m) (om_selfLink m) (om_other m)).
Definition SetGeneration (g : Z) : Unstructured -> Unstructured := with_meta (fun m =>
  Meta (om_name m) (om_namespace m) (om_labels m) (om_annotations m) (om_finalizers m) (om_deletionTimestamp m)
    (om_creationTimestamp m) g (om_ownerReferences m) (om_resourceVersion m)
    (om_managedFields m) (om_uid m) (om_selfLink m) (om_other m)).
Definition SetOwnerReferences (r : list OwnerReference) : Unstructured -> Unstructured := with_meta (fun m =>
  Meta (om_name m) (om_namespace m) (om_labels m) (om_annotations m) (om_finalizers m) (om_deletionTimestamp m)
    (om_creationTimestamp m) (om_generation m) r (om_resourceVersion m)
    (om_managedFields m) (om_uid m) (om_selfLink m) (om_other m)).
Definition SetResourceVersion (v : string) : Unstructured -> Unstructured := with_meta (fun m =>
  Meta (om_name m) (om_namespace m) (om_labels m) (om_annotations m) (om_finalizers m) (om_deletionTimestamp m)
    (om_creationTimestamp m) (om_generation m) (om_ownerReferences m) v
    (om_managedFields m) (om_uid m) (om_selfLink m) (om_other m)).
Definition SetManagedFields (f : list value) : Unstructured -> Unstructured := with_meta (fun m =>
  Meta (om_name m) (om_namespace m) (om_labels m) (om_annotations m) (om_finalizers m) (om_deletionTimestamp m)
    (om_creationTimestamp m) (om_generation m) (om_ownerReferences m) (om_resourceVersion m)
    f (om_uid m) (om_selfLink m) (om_other m)).
Definition SetUID (u : string) : Unstructured -> Unstructured := with_meta (fun m =>
  Meta (om_name m) (om_namespace m) (om_labels m) (om_annotations m) (om_finalizers m) (om_deletionTimestamp m)
    (om_creationTimestamp m) (om_generation m) (om_ownerReferences m) (om_resourceVersion m)
    (om_managedFields m) u (om_selfLink m) (om_other m)).
Definition SetSelfLink (l : string) : Unstructured -> Unstructured := with_meta (fun m =>
  Meta (om_name m) (om_namespace m) (om_labels m) (om_annotations m) (om_finalizers m) (om_deletionTimestamp m)
    (om_creationTimestamp m) (om_generation m) (om_ownerReferences m) (om_resourceVersion m)
    (om_managedFields m) (om_uid m) l (om_other m)).

Definition emptyObject : Unstructured := Obj "" "" emptyMeta ∅.

(** [ctrlruntimeclient.ObjectKeyFromObject] *)
Definition ObjectKeyFromObject (o : Unstructured) : NamespacedName := NN (GetNamespace o) (GetName o).

(** ** Selectors *)

Record LabelSelectorRequirement : Type :=
  SelReq { lsr_key : string; lsr_operator : string; lsr_values : list string }.

Record LabelSelector : Type :=
  LSel { MatchLabels : gmap string string; MatchExpressions : list LabelSelectorRequirement }.

(** A [labels.Selector]: built from a label set, or converted from a
    [metav1.LabelSelector]. *)
Inductive Selector : Type :=
| SelectorFromSet (s : gmap string string)
| SelectorFromLabelSelector (s : LabelSelector).

Definition Everything : Selector := SelectorFromSet ∅.

(** ** Clients *)

Inductive cluster : Type := ServiceCluster | KcpCluster.

Inductive readPath : Type := CachedRead | LiveRead.

(** A [ctrlruntimeclient.Client]: the cluster it talks to, and whether its
    reads come from an informer cache or from the API server. *)
Record client : Type := Client { cl_cluster : cluster; cl_read : readPath }.

#[export] Instance cluster_eq_dec : EqDecision cluster.
Proof. solve_decision. Defined.
#[export] Instance readPath_eq_dec : EqDecision readPath.
Proof. solve_decision. Defined.
#[export] Instance client_eq_dec : EqDecision client.
Proof. solve_decision. Defined.

Inductive DeletionPropagation : Type :=
| DeletePropagationOrphan
| DeletePropagationBackground
| DeletePropagationForeground
| DeletePropagationUnset.

#[export] Instance DeletionPropagation_eq_dec : EqDecision DeletionPropagation.
Proof. solve_decision. Defined.

Record Namespace : Type := Ns { ns_name : string; ns_labels : option (gmap string string) }.

Inductive EventType : Type := EventTypeNormal | EventTypeWarning.

(** ** JSON functions of third-party packages

    [MarshalJSON] and [UnmarshalJSON] are the methods of
    [unstructured.Unstructured], [CreateMergePatch] is
    [jsonpatch.CreateMergePatch], [SemanticDeepEqual] is
    [equality.Semantic.DeepEqual]. *)

Class JsonLib : Type := {
  bytes : Type;
  bytes_eq_dec :: EqDecision bytes;
  (* the two bytes of the empty object *)
  braces : bytes;
  TrimSpaceBytes : bytes -> bytes;
  MarshalJSON : Unstructured -> outcome bytes;
  (* [None] is a nil slice *)
  UnmarshalJSON : option bytes -> outcome Unstructured;
  CreateMergePatch : bytes -> bytes -> outcome bytes;
  SemanticDeepEqual : value -> value -> bool;
  SemanticDeepEqualMap : option (gmap string string) -> option (gmap string string) -> bool
}.

(** What the program relies on. *)
Class JsonLaws (J : JsonLib) : Prop := {
  marshal_roundtrip : forall o b, MarshalJSON o = Ok b -> UnmarshalJSON (Some (TrimSpaceBytes b)) = Ok o;
  unmarshal_nil : exists e, UnmarshalJSON None = Err e;
  merge_patch_same : forall b, CreateMergePatch b b = Ok braces;
  semantic_refl : forall v, SemanticDeepEqual v v = true;
  semantic_map_refl : forall m, SemanticDeepEqualMap m m = true
}.

(** The label selectors of a PublishedResource live in one object that all
    reconciliations share; a location names the selector of a related
    resource, either the one for its namespaces or the one for its objects. *)
Record selectorLoc : Type := SelLoc { sl_identifier : string; sl_namespace : bool }.

#[export] Instance selectorLoc_eq_dec : EqDecision selectorLoc.
Proof. solve_decision. Defined.

Section Signature.
Context {J : JsonLib}.

Record Secret : Type := MkSecret {
  sec_name : NamespacedName;
  sec_labels : gmap string string;
  sec_data : option (gmap string bytes)
}.

Inductive patch : Type :=
| MergeFrom (original : Unstructured)
| RawMergePatch (data : bytes).

Record ListOptions : Type := ListOpts {
  lo_selector : Selector;
  lo_namespace : string;
  lo_limit : nat
}.

(** The requests.  A write carries the object that is sent; its answer is
    the object that the client stores back into the caller's variable. *)
Inductive kreq : Type :=
| RGet (c : client) (gvk : string * string) (key : NamespacedName)
| RList (c : client) (gvk : string * string) (opts : ListOptions)
| RCreate (c : client) (obj : Unstructured)
| RUpdate (c : client) (obj : Unstructured)
| RStatusUpdate (c : client) (obj : Unstructured)
| RPatch (c : client) (obj : Unstructured) (p : patch)
| RApply (c : client) (obj : Unstructured) (fieldOwner : string) (forceOwnership : bool)
| RDelete (c : client) (obj : Unstructured) (policy : DeletionPropagation)
| RKindFor (c : client) (gvr : GroupVersionResource)
| RGetNamespace (c : client) (name : string)
| RCreateNamespace (c : client) (name : string)
| RListNamespaces (c : client) (sel : Selector)
| RGetSecret (c : client) (key : NamespacedName)
| RCreateSecret (c : client) (s : Secret)
| RUpdateSecret (c : client) (s : Secret)
| REvent (obj : option Unstructured) (ty : EventType) (reason msg : string)
| RReadSelector (l : selectorLoc)
| RWriteSelector (l : selectorLoc) (matchLabels : gmap string string)
(* the workspace of a reconciliation, and its LogicalCluster object *)
| RGetCluster (name : string)
| RGetLogicalCluster (c : client) (name : string).

Definition kresp (r : kreq) : Type :=
  match r with
  | RGet _ _ _ | RCreate _ _ | RUpdate _ _ | RStatusUpdate _ _ | RPatch _ _ _ | RApply _ _ _ _ =>
      outcome Unstructured
  | RList _ _ _ => outcome (list Unstructured)
  | RDelete _ _ _ | RCreateNamespace _ _ | RCreateSecret _ _ | RUpdateSecret _ _ => outcome unit
  | RKindFor _ _ => outcome GroupVersionKind
  | RGetNamespace _ _ => outcome Namespace
  | RListNamespaces _ _ => outcome (list Namespace)
  | RGetSecret _ _ => outcome Secret
  | REvent _ _ _ _ => unit
  | RReadSelector _ => LabelSelector
  | RWriteSelector _ _ => unit
  | RGetCluster _ => outcome unit
  | RGetLogicalCluster _ _ => outcome (option (gmap string string))
  end.

Definition kube : sig := Sig kreq kresp.

(** A request as a program. *)
Definition clientGet c gvk key : M kube Unstructured := Call (S := kube) (RGet c gvk key) Ret.
Definition clientList c gvk opts : M kube (list Unstructured) := Call (S := kube) (RList c gvk opts) Ret.
Definition clientCreate c obj : M kube Unstructured := Call (S := kube) (RCreate c obj) Ret.
Definition clientUpdate c obj : M kube Unstructured := Call (S := kube) (RUpdate c obj) Ret.
Definition clientStatusUpdate c obj : M kube Unstructured := Call (S := kube) (RStatusUpdate c obj) Ret.
Definition clientPatch c obj p : M kube Unstructured := Call (S := kube) (RPatch c obj p) Ret.
Definition clientApply c obj owner force : M kube Unstructured :=
  Call (S := kube) (RApply c obj owner force) Ret.
Definition clientDelete c obj policy : M kube unit := Call (S := kube) (RDelete c obj policy) Ret.
Definition KindFor c gvr : M kube GroupVersionKind := Call (S := kube) (RKindFor c gvr) Ret.
Definition getNamespace c name : M kube Namespace := Call (S := kube) (RGetNamespace c name) Ret.
Definition createNamespace c name : M kube unit := Call (S := kube) (RCreateNamespace c name) Ret.
Definition listNamespaces c sel : M kube (list Namespace) := Call (S := kube) (RListNamespaces c sel) Ret.
Definition getSecret c key : M kube Secret := Call (S := kube) (RGetSecret c key) Ret.
Definition createSecret c s : M kube unit := Call (S := kube) (RCreateSecret c s) Ret.
Definition updateSecret c s : M kube unit := Call (S := kube) (RUpdateSecret c s) Ret.
Definition emitEvent obj ty reason msg : M kube unit :=
  Call (S := kube) (REvent obj ty reason msg) (fun _ => Ret (Ok tt)).

Definition readSelector l : M kube LabelSelector :=
  Call (S := kube) (RReadSelector l) (fun s => Ret (Ok s)).
Definition writeSelector l matchLabels : M kube unit :=
  Call (S := kube) (RWriteSelector l matchLabels) (fun _ => Ret (Ok tt)).

Definition getCluster name : M kube unit := Call (S := kube) (RGetCluster name) Ret.
Definition getLogicalClusterAnnotations c name : M kube (option (gmap string string)) :=
  Call (S := kube) (RGetLogicalCluster c name) Ret.

(** *** Classification of requests *)

(** The cluster a request writes to, if it writes an object. *)
Definition writes_to (r : kreq) : option cluster :=
  match r with
  | RCreate c _ | RUpdate c _ | RStatusUpdate c _ | RPatch c _ _ | RApply c _ _ _ | RDelete c _ _
  | RCreateNamespace c _ | RCreateSecret c _ | RUpdateSecret c _ => Some (cl_cluster c)
  | _ => None
  end.

Definition is_delete (r : kreq) : bool := match r with RDelete _ _ _ => true | _ => false end.

(** Requests that bring an object into being, replace it or remove it. *)
Definition is_placement (r : kreq) : bool :=
  match r with
  | RCreate _ _ | RUpdate _ _ | RApply _ _ _ _ | RDelete _ _ _ => true
  | _ => false
  end.

(** Writes to the object itself, its status subresource aside. *)
Definition is_object_write (r : kreq) : bool :=
  match r with
  | RCreate _ _ | RUpdate _ _ | RPatch _ _ _ | RApply _ _ _ _ | RDelete _ _ _ => true
  | _ => false
  end.

Definition is_status_write (r : kreq) : bool := match r with RStatusUpdate _ _ => true | _ => false end.

End Signature.

(** ** An implementation of the JSON functions

    Encoded documents are kept as trees: this is the instance at which the
    theorems that assume [JsonLaws] are evaluated. *)

Module TreeJson.

Inductive doc : Type :=
| DObject (o : Unstructured)
| DMergePatch (base revision : doc)
| DBraces.

#[export] Instance doc_eq_dec : EqDecision doc.
Proof. solve_decision. Defined.

#[export] Instance lib : JsonLib := {|
  bytes := doc;
  braces := DBraces;
  TrimSpaceBytes := fun b => b;
  MarshalJSON := fun o => Ok (DObject o);
  UnmarshalJSON := fun b => match b with
                            | Some (DObject o) => Ok o
                            | _ => Err (ErrorString "unexpected end of JSON input")
                            end;
  CreateMergePatch := fun a b => Ok (if decide (a = b) then DBraces else DMergePatch a b);
  SemanticDeepEqual := fun a b => bool_decide (a = b);
  SemanticDeepEqualMap := fun a b => bool_decide (default ∅ a = default ∅ b)
|}.

#[export] Instance laws : JsonLaws lib.
Proof.
  split; simpl; intros; simplify_eq; eauto.
  - by rewrite decide_True.
  - by apply bool_decide_eq_true.
  - by apply bool_decide_eq_true.
Qed.

End TreeJson.

(** ** Lemmas *)

Lemma index_map_insert_eq m k v : index_map (Some (<[k:=v]> m)) k = v.
Proof. unfold index_map, lookup_map. simpl. by rewrite lookup_insert_eq. Qed.
