(* ===== verification/Crypto.v ===== *)
(** Hashing: [internal/crypto/hash.go] and the hash helpers of
    [internal/sync/templating/templating.go].

    The Go code delegates to [crypto/sha1], [crypto/sha3], [encoding/hex] and
    [encoding/json]; all four are written out here, so that labels, Secret
    names and object names computed by the model are the strings the program
    computes.  [Module Sha1] and [Module Sha3] hold the digests, [Module JsonEnc]
    the part of the JSON encoder that the hashed values need. *)

From S2P Require Import Prelude.
From Stdlib Require Import NArith.

(** ** Bytes and hexadecimal *)

Definition byte_of_ascii (a : ascii) : N := Ascii.N_of_ascii a.

Fixpoint bytes_of_string (s : string) : list N :=
  match s with
  | EmptyString => []
  | String a s' => byte_of_ascii a :: bytes_of_string s'
  end.

Definition hex_digit (n : N) : ascii :=
  match n with
  | 0 => "0" | 1 => "1" | 2 => "2" | 3 => "3" | 4 => "4" | 5 => "5" | 6 => "6" | 7 => "7"
  | 8 => "8" | 9 => "9" | 10 => "a" | 11 => "b" | 12 => "c" | 13 => "d" | 14 => "e" | _ => "f"
  end%N%char.

(** [hex.EncodeToString] *)
Fixpoint EncodeToString (bs : list N) : string :=
  match bs with
  | [] => EmptyString
  | b :: bs' =>
      String (hex_digit (N.shiftr b 4)) (String (hex_digit (N.land b 15)) (EncodeToString bs'))
  end.

(** [n] big-endian bytes of a number. *)
Fixpoint be_bytes (n : nat) (v : N) : list N :=
  match n with
  | 0 => []
  | S n' => N.land (N.shiftr v (8 * N.of_nat n')) 255 :: be_bytes n' v
  end.

Fixpoint be_number (bs : list N) (acc : N) : N :=
  match bs with
  | [] => acc
  | b :: bs' => be_number bs' (N.lor (N.shiftl acc 8) b)
  end.

(** Consecutive groups of [k] elements, [fuel] many at most. *)
Fixpoint chunks {A} (fuel k : nat) (l : list A) : list (list A) :=
  match fuel, l with
  | 0, _ | _, [] => []
  | S fuel', _ => take k l :: chunks fuel' k (drop k l)
  end.

(** ** SHA-1 (FIPS 180-4) *)

Module Sha1.

Definition mask32 : N := 4294967295.

Definition add32 (a b : N) : N := N.land (a + b) mask32.

Definition rotl (w : N) (n : N) : N :=
  N.land (N.lor (N.shiftl w n) (N.shiftr w (32 - n))) mask32.

Definition not32 (w : N) : N := N.lxor w mask32.

(** A single one bit, zeros up to 56 modulo 64, the bit length. *)
Definition pad (msg : list N) : list N :=
  let len := length msg in
  let zeros := (119 - len mod 64) mod 64 in
  msg ++ [128%N] ++ replicate zeros 0%N ++ be_bytes 8 (8 * N.of_nat len).

(** The schedule, most recent word first. *)
Fixpoint extend (n : nat) (ws : list N) : list N :=
  match n with
  | 0 => ws
  | S n' =>
      let g i := nth i ws 0%N in
      extend n' (rotl (N.lxor (N.lxor (g 2) (g 7)) (N.lxor (g 13) (g 15))) 1 :: ws)
  end.

Definition schedule (block : list N) : list N :=
  reverse (extend 64 (reverse ((fun b => be_number b 0) <$> chunks 16 4 block))).

Record state := St { sa : N; sb : N; sc : N; sd : N; se : N }.

Definition init : state :=
  St 1732584193 4023233417 2562383102 271733878 3285377520.

Definition round (t : nat) (s : state) (w : N) : state :=
  let 'St a b c d e := s in
  let '(f, k) :=
    if Nat.ltb t 20 then (N.lor (N.land b c) (N.land (not32 b) d), 1518500249%N)
    else if Nat.ltb t 40 then (N.lxor (N.lxor b c) d, 1859775393%N)
    else if Nat.ltb t 60 then
      (N.lor (N.lor (N.land b c) (N.land b d)) (N.land c d), 2400959708%N)
    else (N.lxor (N.lxor b c) d, 3395469782%N) in
  St (add32 (add32 (add32 (add32 (rotl a 5) f) e) k) w) a (rotl b 30) c d.

Fixpoint rounds (t : nat) (s : state) (ws : list N) : state :=
  match ws with
  | [] => s
  | w :: ws' => rounds (S t) (round t s w) ws'
  end.

Definition compress (s : state) (block : list N) : state :=
  let r := rounds 0 s (schedule block) in
  St (add32 (sa s) (sa r)) (add32 (sb s) (sb r)) (add32 (sc s) (sc r))
     (add32 (sd s) (sd r)) (add32 (se s) (se r)).

Definition digest (msg : list N) : list N :=
  let padded := pad msg in
  let s := foldl compress init (chunks (length padded) 64 padded) in
  be_bytes 4 (sa s) ++ be_bytes 4 (sb s) ++ be_bytes 4 (sc s) ++
  be_bytes 4 (sd s) ++ be_bytes 4 (se s).

End Sha1.

(** ** SHA3-256 (FIPS 202): Keccak-f[1600] with rate 136 and suffix 01 *)

Module Sha3.

Definition mask64 : N := 18446744073709551615.

Definition rotl (w : N) (n : N) : N :=
  N.land (N.lor (N.shiftl w n) (N.shiftr w (64 - n))) mask64.

Definition lane (st : list N) (x y : nat) : N := nth (x mod 5 + 5 * (y mod 5)) st 0%N.

(** Rotation offsets, lane [x + 5 * y]. *)
Definition offsets : list N :=
  [0; 1; 62; 28; 27; 36; 44; 6; 55; 20; 3; 10; 43; 25; 39; 41; 45; 15; 21; 8; 18; 2; 61; 56; 14]%N.

Definition round_constants : list N :=
  [1; 32898; 9223372036854808714; 9223372039002292224; 32907; 2147483649;
   9223372039002292353; 9223372036854808585; 138; 136; 2147516425; 2147483658;
   2147516555; 9223372036854775947; 9223372036854808713; 9223372036854808579;
   9223372036854808578; 9223372036854775936; 32778; 9223372039002259466;
   9223372039002292353; 9223372036854808704; 2147483649; 9223372039002292232]%N.

Definition theta (st : list N) : list N :=
  let col x := N.lxor (lane st x 0) (N.lxor (lane st x 1)
                 (N.lxor (lane st x 2) (N.lxor (lane st x 3) (lane st x 4)))) in
  let cs := col <$> seq 0 5 in
  let d x := N.lxor (nth ((x + 4) mod 5) cs 0%N) (rotl (nth ((x + 1) mod 5) cs 0%N) 1) in
  imap (fun i w => N.lxor w (d (i mod 5))) st.

(** rho and pi: [B[y, 2x+3y] = rot(A[x, y])]; lane (x', y') of the result
    comes from [x = x' + 3 y'], [y = x']. *)
Definition rho_pi (st : list N) : list N :=
  (fun i =>
     let x' := i mod 5 in let y' := i / 5 in
     let x := (x' + 3 * y') mod 5 in let y := x' in
     rotl (lane st x y) (nth (x + 5 * y) offsets 0%N)) <$> seq 0 25.

Definition chi (st : list N) : list N :=
  (fun i =>
     let x := i mod 5 in let y := i / 5 in
     N.lxor (lane st x y) (N.land (N.lxor (lane st (x + 1) y) mask64) (lane st (x + 2) y)))
  <$> seq 0 25.

Definition iota (rc : N) (st : list N) : list N :=
  match st with
  | [] => []
  | w :: st' => N.lxor w rc :: st'
  end.

Definition keccak_f (st : list N) : list N :=
  foldl (fun s rc => iota rc (chi (rho_pi (theta s)))) st round_constants.

Definition rate : nat := 136.

Definition pad (msg : list N) : list N :=
  let q := rate - length msg mod rate in
  if Nat.eqb q 1 then msg ++ [134%N]
  else msg ++ [6%N] ++ replicate (q - 2) 0%N ++ [128%N].

Definition le_lane (bs : list N) : N := be_number (reverse bs) 0.

Definition absorb (st : list N) (block : list N) : list N :=
  let ws := le_lane <$> chunks 17 8 block in
  keccak_f (imap (fun i w => N.lxor w (nth i ws 0%N)) st).

Definition digest (msg : list N) : list N :=
  let padded := pad msg in
  let st := foldl absorb (replicate 25 0%N) (chunks (length padded) rate padded) in
  mjoin ((fun w => reverse (be_bytes 8 w)) <$> take 4 st).

End Sha3.

(** ** JSON encoding of strings and flat objects

    [encoding/json] with its default HTML escaping, on ASCII; bytes from 128
    on, which are parts of well-formed UTF-8 sequences in Kubernetes
    identifiers if they occur at all, are copied. *)

Module JsonEnc.

Definition dquote : ascii := ascii_of_nat 34.
Definition backslash : ascii := ascii_of_nat 92.

Definition escape_byte (a : ascii) : string :=
  let n := byte_of_ascii a in
  (if n =? 34 then String backslash (String dquote EmptyString)
   else if n =? 92 then String backslash (String backslash EmptyString)
   else if n =? 8 then String backslash "b"
   else if n =? 12 then String backslash "f"
   else if n =? 10 then String backslash "n"
   else if n =? 13 then String backslash "r"
   else if n =? 9 then String backslash "t"
   else if (n <? 32) || (n =? 38) || (n =? 60) || (n =? 62) then
     String backslash ("u00" +:+ EncodeToString [n])
   else String a EmptyString)%N.

Fixpoint escape (s : string) : string :=
  match s with
  | EmptyString => EmptyString
  | String a s' => escape_byte a +:+ escape s'
  end.

Definition quote (s : string) : string := String dquote (escape s +:+ String dquote EmptyString).

Definition field (kv : string * string) : string := quote kv.1 +:+ ":" +:+ kv.2.

(** An object whose members are given in the order in which they are
    written, each with its already encoded value. *)
Definition object (members : list (string * string)) : string :=
  "{" +:+ Join (field <$> members) "," +:+ "}".

End JsonEnc.

(** ** [internal/crypto/hash.go] *)

(** The argument of [Hash(data any)]: a string or byte slice is hashed as
    it is; any other value is written by [json.NewEncoder(...).Encode],
    which appends a newline. *)
Inductive hashable : Type :=
| HString (s : string)
| HBytes (s : string)
| HJson (encoded : string).

Definition hash_input (d : hashable) : string :=
  match d with
  | HString s | HBytes s => s
  | HJson j => j +:+ String (ascii_of_nat 10) EmptyString
  end.

Definition Hash (d : hashable) : string :=
  EncodeToString (Sha1.digest (bytes_of_string (hash_input d))).

Definition ShortHash (d : hashable) : string := take_string 20 (Hash d).

(** ** [templating.go]: [sha3sum], [sha3short] *)

Definition sha3sum (input : string) : string :=
  EncodeToString (Sha3.digest (bytes_of_string input)).

Definition sha3short (input : string) (lengths : list Z) : outcome string :=
  let! n := match lengths with
            | [] => Ok 20%Z
            | [n] => Ok n
            | _ => Err (ErrorString "sha3short: expected at most one length argument")
            end in
  if (n <=? 0)%Z then Err (ErrorString "sha3short: invalid length")
  else
    let hash := sha3sum input in
    let n' := Nat.min (Z.to_nat n) (String.length hash) in
    Ok (take_string n' hash).

(** ** Known answers *)

Example sha1_abc : Hash (HString "abc") = "a9993e364706816aba3e25717850c26c9cd0d89d".
Proof. vm_compute. reflexivity. Qed.

(** Two blocks. *)
Example sha1_two_blocks :
  Hash (HString "abcdbcdecdefdefgefghfghighijhijkijkljklmklmnlmnomnopnopq")
  = "84983e441c3bd26ebaae4aa1f95129e5e54670f1".
Proof. vm_compute. reflexivity. Qed.

(** The values the naming tests of the repository expect. *)
Example sha3short_objname : sha3short "objname" [] = Ok "73d08a1ba188f1340dae".
Proof. vm_compute. reflexivity. Qed.

Example sha3short_objnamespace : sha3short "objnamespace" [] = Ok "2928c2aa0e510f017f07".
Proof. vm_compute. reflexivity. Qed.

(** ** Lengths and alphabet of the digests *)

Definition is_hex (a : ascii) : bool :=
  let n := Ascii.nat_of_ascii a in
  ((48 <=? n) && (n <=? 57) || (97 <=? n) && (n <=? 102))%nat%bool.

Fixpoint all_hex (s : string) : bool :=
  match s with
  | EmptyString => true
  | String a s' => is_hex a && all_hex s'
  end.

Lemma be_bytes_length n v : length (be_bytes n v) = n.
Proof. induction n; simpl; congruence. Qed.

Lemma EncodeToString_length bs : String.length (EncodeToString bs) = 2 * length bs.
Proof. induction bs as [|b bs IH]; simpl; [done|]. rewrite IH. lia. Qed.

Lemma hex_digit_is_hex n : is_hex (hex_digit n) = true.
Proof. destruct n as [|p]; [done|]. do 5 (try destruct p as [p|p|]); done. Qed.

Lemma EncodeToString_all_hex bs : all_hex (EncodeToString bs) = true.
Proof. induction bs as [|b bs IH]; simpl; [done|]. by rewrite !hex_digit_is_hex. Qed.

Lemma sha1_digest_length msg : length (Sha1.digest msg) = 20.
Proof. unfold Sha1.digest. by rewrite !length_app, !be_bytes_length. Qed.

Lemma take_string_length n s : n <= String.length s -> String.length (take_string n s) = n.
Proof.
  unfold take_string. revert s. induction n as [|n IH]; intros s Hs; [by destruct s|].
  destruct s as [|a s]; simpl in *; [lia|]. f_equal. apply IH. lia.
Qed.

Lemma take_string_all_hex n s : all_hex s = true -> all_hex (take_string n s) = true.
Proof.
  unfold take_string. revert s. induction n as [|n IH]; intros s Hs; [by destruct s|].
  destruct s as [|a s]; simpl in *; [done|]. apply andb_true_iff in Hs as [-> Hs].
  simpl. by apply IH.
Qed.

Lemma Hash_length d : String.length (Hash d) = 40.
Proof. unfold Hash. by rewrite EncodeToString_length, sha1_digest_length. Qed.

Lemma Hash_all_hex d : all_hex (Hash d) = true.
Proof. apply EncodeToString_all_hex. Qed.

Lemma ShortHash_length d : String.length (ShortHash d) = 20.
Proof. apply take_string_length. rewrite Hash_length. lia. Qed.

Lemma ShortHash_all_hex d : all_hex (ShortHash d) = true.
Proof. apply take_string_all_hex, Hash_all_hex. Qed.

Lemma iota_length rc st : length (Sha3.iota rc st) = length st.
Proof. by destruct st. Qed.

Lemma chi_length st : length (Sha3.chi st) = 25.
Proof. unfold Sha3.chi. by rewrite length_fmap, length_seq. Qed.

Lemma keccak_rounds_length rcs st :
  length st = 25 ->
  length (foldl (fun s rc => Sha3.iota rc (Sha3.chi (Sha3.rho_pi (Sha3.theta s)))) st rcs) = 25.
Proof.
  revert st. induction rcs as [|rc rcs IH]; intros st Hst; [done|].
  cbn [foldl]. apply IH. rewrite iota_length. apply chi_length.
Qed.

Lemma keccak_f_length st : length st = 25 -> length (Sha3.keccak_f st) = 25.
Proof. apply keccak_rounds_length. Qed.

Lemma foldl_absorb_length blocks st :
  length st = 25 -> length (foldl Sha3.absorb st blocks) = 25.
Proof.
  revert st. induction blocks as [|b bs IH]; intros st Hst; [done|].
  cbn [foldl]. apply IH. unfold Sha3.absorb. apply keccak_f_length. by rewrite length_imap.
Qed.

Lemma length_mjoin_const {A B} k (f : A -> list B) l :
  (forall a, length (f a) = k) -> length (mjoin (f <$> l)) = k * length l.
Proof.
  intros Hf. induction l as [|a l IH]; [by rewrite Nat.mul_0_r|].
  rewrite fmap_cons. change (mjoin (f a :: (f <$> l))) with (f a ++ mjoin (f <$> l)).
  rewrite length_app, IH, Hf. simpl. lia.
Qed.

Lemma sha3_digest_length msg : length (Sha3.digest msg) = 32.
Proof.
  unfold Sha3.digest.
  set (st := foldl _ _ _).
  assert (length st = 25) as Hst by (apply foldl_absorb_length, length_replicate).
  rewrite (length_mjoin_const 8); [|by intros w; rewrite length_reverse, be_bytes_length].
  rewrite length_take, Hst. done.
Qed.

Lemma sha3sum_length s : String.length (sha3sum s) = 64.
Proof. unfold sha3sum. by rewrite EncodeToString_length, sha3_digest_length. Qed.

Lemma sha3sum_all_hex s : all_hex (sha3sum s) = true.
Proof. apply EncodeToString_all_hex. Qed.

#[export] Hint Rewrite Hash_length ShortHash_length sha3sum_length : syncagent_len.
#[export] Hint Resolve Hash_all_hex ShortHash_all_hex sha3sum_all_hex : syncagent.

(** Keep the digests folded when terms are compared; [vm_compute] still
    evaluates them. *)
#[global] Opaque Hash ShortHash sha3sum.
