(* ===== verification/ApiTypes.v ===== *)
(** The agent's own API, [sdk/apis/syncagent/v1alpha1/published_resource.go]:
    [PublishedResource] and the types it is made of, with the fields of the
    Go structs.  An optional pointer is an [option]; Go string enums stay
    strings, with their constants. *)

From S2P Require Import Prelude Kube.

(** ** Placeholders of the deprecated naming scheme *)

Definition PlaceholderRemoteClusterName : string := "$remoteClusterName".
Definition PlaceholderRemoteNamespace : string := "$remoteNamespace".
Definition PlaceholderRemoteNamespaceHash : string := "$remoteNamespaceHash".
Definition PlaceholderRemoteName : string := "$remoteName".
Definition PlaceholderRemoteNameHash : string := "$remoteNameHash".

(** ** Naming and mutation *)

Record ResourceNaming : Type := MkNaming { rn_Name : string; rn_Namespace : string }.

Record ResourceDeleteMutation : Type := MkDeleteMutation { dm_Path : string }.
Record ResourceRegexMutation : Type :=
  MkRegexMutation { rm_Path : string; rm_Pattern : string; rm_Replacement : string }.
Record ResourceTemplateMutation : Type := MkTemplateMutation { tm_Path : string; tm_Template : string }.
Record ResourceCELMutation : Type := MkCELMutation { cm_Path : string; cm_Expression : string }.

Record ResourceMutation : Type := MkMutation {
  mut_Delete : option ResourceDeleteMutation;
  mut_Regex : option ResourceRegexMutation;
  mut_Template : option ResourceTemplateMutation;
  mut_CEL : option ResourceCELMutation
}.

Record ResourceMutationSpec : Type :=
  MkMutationSpec { ms_Spec : list ResourceMutation; ms_Status : list ResourceMutation }.

(** ** Related resources *)

Abbreviation RelatedResourceOrigin := string (only parsing).
Definition RelatedResourceOriginService : RelatedResourceOrigin := "service".
Definition RelatedResourceOriginKcp : RelatedResourceOrigin := "kcp".

Abbreviation RelatedResourceCleanupPolicy := string (only parsing).
Definition RelatedResourceCleanupPolicyOrphan : RelatedResourceCleanupPolicy := "Orphan".
Definition RelatedResourceCleanupPolicyOnPrimaryDeletion : RelatedResourceCleanupPolicy := "OnPrimaryDeletion".
Definition RelatedResourceCleanupPolicyMatchOrigin : RelatedResourceCleanupPolicy := "MatchOrigin".

Record RegularExpression : Type := MkRegex { re_Pattern : string; re_Replacement : string }.
Record TemplateExpression : Type := MkTemplate { te_Template : string }.

Record RelatedResourceSelectorRewrite : Type :=
  MkRewrite { rw_Regex : option RegularExpression; rw_Template : option TemplateExpression }.

Record RelatedResourceObjectSelector : Type :=
  MkObjectSelector { sel_LabelSelector : LabelSelector; sel_Rewrite : RelatedResourceSelectorRewrite }.

Record RelatedResourceObjectReference : Type :=
  MkReference { ref_Path : string; ref_Regex : option RegularExpression }.

Record RelatedResourceObjectSpec : Type := MkObjectSpec {
  os_Selector : option RelatedResourceObjectSelector;
  os_Reference : option RelatedResourceObjectReference;
  os_Template : option TemplateExpression
}.

Record RelatedResourceObject : Type :=
  MkRelatedObject { ro_Spec : RelatedResourceObjectSpec; ro_Namespace : option RelatedResourceObjectSpec }.

Record RelatedResourceProjection : Type :=
  MkRelatedProjection { rp_Group : string; rp_Version : string; rp_Resource : string }.

Record RelatedResourceWatch : Type :=
  MkWatch { w_ByOwner : option unit; w_BySelector : option LabelSelector }.

Record RelatedResourceSpec : Type := MkRelated {
  rr_Identifier : string;
  rr_Origin : RelatedResourceOrigin;
  rr_Group : string;
  rr_Version : string;
  rr_Resource : string;
  rr_Kind : string;
  rr_IdentityHash : string;
  rr_Cleanup : bool;
  rr_CleanupPolicy : RelatedResourceCleanupPolicy;
  rr_Projection : option RelatedResourceProjection;
  rr_Object : RelatedResourceObject;
  rr_Mutation : option ResourceMutationSpec;
  rr_Watch : option RelatedResourceWatch;
  rr_SyncStatus : bool
}.

Definition EffectiveCleanupPolicy (r : RelatedResourceSpec) : RelatedResourceCleanupPolicy :=
  if decide (rr_CleanupPolicy r <> "") then rr_CleanupPolicy r
  else if rr_Cleanup r then RelatedResourceCleanupPolicyOnPrimaryDeletion
  else RelatedResourceCleanupPolicyOrphan.

(** ** The published resource *)

Record SourceResourceDescriptor : Type := MkSource {
  sr_APIGroup : string;
  sr_Version : string;
  sr_Versions : list string;
  sr_Kind : string
}.

Abbreviation ResourceScope := string (only parsing).
Definition ClusterScoped : ResourceScope := "Cluster".
Definition NamespaceScoped : ResourceScope := "Namespaced".

Record ResourceProjection : Type := MkProjection {
  pj_Group : string;
  pj_Version : string;
  pj_Versions : gmap string string;
  pj_Scope : ResourceScope;
  pj_Kind : string;
  pj_Plural : string;
  pj_ShortNames : option (list string);
  pj_Categories : option (list string)
}.

Record ResourceFilter : Type :=
  MkFilter { f_Namespace : option LabelSelector; f_Resource : option LabelSelector }.

Record SynchronizationSpec : Type := MkSynchronization { sy_Enabled : bool }.

Record PublishedResourceSpec : Type := MkPubResSpec {
  ps_Resource : SourceResourceDescriptor;
  ps_Filter : option ResourceFilter;
  ps_Naming : option ResourceNaming;
  ps_EnableWorkspacePaths : bool;
  ps_Projection : option ResourceProjection;
  ps_Mutation : option ResourceMutationSpec;
  ps_Related : list RelatedResourceSpec;
  ps_Synchronization : option SynchronizationSpec
}.

Record PublishedResourceStatus : Type := MkPubResStatus { pst_ResourceSchemaName : string }.

Record PublishedResource : Type := MkPubRes {
  pr_Meta : ObjectMeta;
  pr_Spec : PublishedResourceSpec;
  pr_Status : PublishedResourceStatus
}.

Definition pr_Name (p : PublishedResource) : string := om_name (pr_Meta p).

(** The cleanup policy field wins over the deprecated flag; without either
    the copies are orphaned. *)
Lemma EffectiveCleanupPolicy_cases r :
  EffectiveCleanupPolicy r =
    (if decide (rr_CleanupPolicy r = "") then
       if rr_Cleanup r then "OnPrimaryDeletion" else "Orphan"
     else rr_CleanupPolicy r).
Proof. unfold EffectiveCleanupPolicy. by repeat case_decide. Qed.
