(* ===== verification/Meta.v ===== *)
(** Labels, annotations, finalizers and object keys: [internal/sync/types.go],
    [internal/sync/meta.go] and [internal/sync/deletion_policy.go]. *)

From S2P Require Import Prelude Effects Kube Crypto ApiTypes.

(** ** [types.go] *)

Definition deletionFinalizer : string := "syncagent.kcp.io/cleanup".
Definition remoteObjectClusterLabel : string := "syncagent.kcp.io/remote-object-cluster".
Definition remoteObjectNamespaceHashLabel : string := "syncagent.kcp.io/remote-object-namespace-hash".
Definition remoteObjectNameHashLabel : string := "syncagent.kcp.io/remote-object-name-hash".
Definition remoteObjectNamespaceAnnotation : string := "syncagent.kcp.io/remote-object-namespace".
Definition remoteObjectNameAnnotation : string := "syncagent.kcp.io/remote-object-name".
Definition remoteObjectWorkspacePathAnnotation : string := "syncagent.kcp.io/remote-object-workspace-path".
Definition agentNameLabel : string := "syncagent.kcp.io/agent-name".
Definition objectStateLabelName : string := "syncagent.kcp.io/object-state".
Definition objectStateLabelValue : string := "true".
Definition relatedObjectAnnotationPrefix : string := "related-resources.syncagent.kcp.io/".
Definition relatedOwnerLabel : string := "syncagent.kcp.io/related-owner".
Definition relatedIdentifierLabel : string := "syncagent.kcp.io/related-identifier".
Definition relatedPrimaryNamespaceAnnotation : string := "syncagent.kcp.io/related-primary-namespace".
Definition relatedPrimaryNameAnnotation : string := "syncagent.kcp.io/related-primary-name".

Definition OwnedBy (obj : Unstructured) (agentName : string) : bool :=
  bool_decide (index_map (GetLabels obj) agentNameLabel = agentName).

(** ** [deletion_policy.go] *)

Definition deletionPropagationPolicyAnnotation : string := "syncagent.kcp.io/deletion-propagation-policy".
Definition deletionPropagationBackground : string := "background".
Definition deletionPropagationForeground : string := "foreground".
Definition deletionPropagationOrphan : string := "orphan".

Definition deletionPropagationPolicy (obj : Unstructured) : DeletionPropagation :=
  let v := index_map (GetAnnotations obj) deletionPropagationPolicyAnnotation in
  if decide (v = deletionPropagationForeground) then DeletePropagationForeground
  else if decide (v = deletionPropagationOrphan) then DeletePropagationOrphan
  else DeletePropagationBackground.

Definition relatedDeletionPropagationPolicy (origin : RelatedResourceOrigin) (obj : Unstructured)
  : DeletionPropagation :=
  if decide (origin <> RelatedResourceOriginKcp) then DeletePropagationBackground
  else deletionPropagationPolicy obj.

Definition normalizeDeletionPropagationPolicy (policy : DeletionPropagation) : DeletionPropagation :=
  match policy with
  | DeletePropagationForeground | DeletePropagationOrphan => policy
  | _ => DeletePropagationBackground
  end.

(** ** [meta.go]: stamping labels and annotations *)

(** The desired entries overwrite the existing ones. *)
Definition ensureLabels (desired : gmap string string) (obj : Unstructured) : Unstructured :=
  let labels := default ∅ (GetLabels obj) in
  SetLabels (Some (desired ∪ labels)) obj.

Definition ensureAnnotations (desired : gmap string string) (obj : Unstructured) : Unstructured :=
  let annotations := default ∅ (GetAnnotations obj) in
  SetAnnotations (Some (desired ∪ annotations)) obj.

(** ** [meta.go]: object keys *)

Record objectKey : Type := ObjectKey {
  k_ClusterName : string;
  k_WorkspacePath : string;
  k_Namespace : string;
  k_Name : string
}.

#[export] Instance objectKey_eq_dec : EqDecision objectKey.
Proof. solve_decision. Defined.

Definition newObjectKey (obj : Unstructured) (clusterName workspacePath : string) : objectKey :=
  ObjectKey clusterName workspacePath (GetNamespace obj) (GetName obj).

Definition objectKey_String (k : objectKey) : string :=
  let result := k_Name k in
  let result := if decide (k_Namespace k <> "") then k_Namespace k +:+ "/" +:+ result else result in
  if decide (k_ClusterName k <> "") then k_ClusterName k +:+ "|" +:+ result else result.

(** The JSON form of a [logicalcluster.Path] is chosen by that package. *)
Class PathJSON : Type := path_json : string -> string.

Definition objectKey_JSON `{PathJSON} (k : objectKey) : string :=
  JsonEnc.object [("ClusterName", JsonEnc.quote (k_ClusterName k));
                  ("WorkspacePath", path_json (k_WorkspacePath k));
                  ("Namespace", JsonEnc.quote (k_Namespace k));
                  ("Name", JsonEnc.quote (k_Name k))].

Definition objectKey_Key `{PathJSON} (k : objectKey) : string := Hash (HJson (objectKey_JSON k)).

Definition objectKey_Labels (k : objectKey) : gmap string string :=
  let s := {[ remoteObjectClusterLabel := k_ClusterName k;
              remoteObjectNameHashLabel := Hash (HString (k_Name k)) ]} in
  if decide (k_Namespace k <> "")
  then <[remoteObjectNamespaceHashLabel := Hash (HString (k_Namespace k))]> s
  else s.

Definition objectKey_Annotations (k : objectKey) : gmap string string :=
  let s := {[ remoteObjectNameAnnotation := k_Name k ]} in
  let s := if decide (k_Namespace k <> "")
           then <[remoteObjectNamespaceAnnotation := k_Namespace k]> s else s in
  if decide (k_WorkspacePath k <> "")
  then <[remoteObjectWorkspacePathAnnotation := k_WorkspacePath k]> s else s.

(** ** [meta.go]: provenance of related copies *)

Definition NUL : string := String (ascii_of_nat 0) EmptyString.

Definition relatedOwnerHash (clusterName publishedResourceName namespace name : string) : string :=
  Hash (HString (Join [clusterName; publishedResourceName; namespace; name] NUL)).

Definition relatedCopyLabels (primary : Unstructured)
    (clusterName publishedResourceName identifier agentName : string) : gmap string string :=
  let set := {[ relatedOwnerLabel := relatedOwnerHash clusterName publishedResourceName
                                       (GetNamespace primary) (GetName primary);
                relatedIdentifierLabel := identifier ]} in
  if decide (agentName <> "") then <[agentNameLabel := agentName]> set else set.

Definition relatedCopyAnnotations (primary : Unstructured) : gmap string string :=
  let set := {[ relatedPrimaryNameAnnotation := GetName primary ]} in
  if decide (GetNamespace primary <> "")
  then <[relatedPrimaryNamespaceAnnotation := GetNamespace primary]> set else set.

Definition relatedCopySelector (primary : Unstructured)
    (clusterName publishedResourceName identifier agentName : string) : Selector :=
  SelectorFromSet (relatedCopyLabels primary clusterName publishedResourceName identifier agentName).

(** ** [meta.go]: finalizers *)

(** [sets.List(sets.New(l...))]: sorted, without duplicates. *)
Definition sets_List (l : gset string) : list string := SortFunc String.leb (elements l).

Section Finalizers.
Context {J : JsonLib}.

(** Both answers also carry the object as the caller sees it afterwards:
    the client writes the server's object back into [obj].  The source
    tests and inserts [deletionFinalizer], whatever [finalizer] is. *)
Definition ensureFinalizer (c : client) (obj : Unstructured) (finalizer : string)
  : M kube (bool * Unstructured) :=
  let finalizers : gset string := list_to_set (GetFinalizers obj) in
  if decide (deletionFinalizer ∈ finalizers) then retM (false, obj)
  else
    let original := obj in
    let obj := SetFinalizers (Some (sets_List ({[deletionFinalizer]} ∪ finalizers))) obj in
    let* obj := clientPatch c obj (MergeFrom original) in
    retM (true, obj).

Definition removeFinalizer (c : client) (obj : Unstructured) (finalizer : string)
  : M kube (bool * Unstructured) :=
  let finalizers : gset string := list_to_set (GetFinalizers obj) in
  if decide (deletionFinalizer ∉ finalizers) then retM (false, obj)
  else
    let original := obj in
    let obj := SetFinalizers (Some (sets_List (finalizers ∖ {[deletionFinalizer]}))) obj in
    let* obj := clientPatch c obj (MergeFrom original) in
    retM (true, obj).

End Finalizers.

(** ** Lookups in the computed maps *)

Lemma objectKey_Labels_lookup k l :
  objectKey_Labels k !! l =
    if decide (l = remoteObjectClusterLabel) then Some (k_ClusterName k)
    else if decide (l = remoteObjectNameHashLabel) then Some (Hash (HString (k_Name k)))
    else if decide (l = remoteObjectNamespaceHashLabel /\ k_Namespace k <> "")
    then Some (Hash (HString (k_Namespace k)))
    else None.
Proof.
  unfold objectKey_Labels.
  destruct (decide (l = remoteObjectClusterLabel)) as [->|H1];
    [by case_decide; simplify_map_eq|].
  destruct (decide (l = remoteObjectNameHashLabel)) as [->|H2];
    [by case_decide; simplify_map_eq|].
  destruct (decide (l = remoteObjectNamespaceHashLabel)) as [->|H3];
    repeat case_decide; simplify_map_eq; naive_solver.
Qed.

Lemma objectKey_Annotations_lookup k a :
  objectKey_Annotations k !! a =
    if decide (a = remoteObjectNameAnnotation) then Some (k_Name k)
    else if decide (a = remoteObjectNamespaceAnnotation /\ k_Namespace k <> "")
    then Some (k_Namespace k)
    else if decide (a = remoteObjectWorkspacePathAnnotation /\ k_WorkspacePath k <> "")
    then Some (k_WorkspacePath k)
    else None.
Proof.
  unfold objectKey_Annotations.
  destruct (decide (a = remoteObjectNameAnnotation)) as [->|H1];
    [by repeat case_decide; simplify_map_eq|].
  destruct (decide (a = remoteObjectNamespaceAnnotation)) as [->|H2];
    [by repeat case_decide; simplify_map_eq; naive_solver|].
  destruct (decide (a = remoteObjectWorkspacePathAnnotation)) as [->|H3];
    repeat case_decide; simplify_map_eq; naive_solver.
Qed.

Lemma relatedCopyLabels_lookup primary cn pr ident agent l :
  relatedCopyLabels primary cn pr ident agent !! l =
    if decide (l = relatedOwnerLabel)
    then Some (relatedOwnerHash cn pr (GetNamespace primary) (GetName primary))
    else if decide (l = relatedIdentifierLabel) then Some ident
    else if decide (l = agentNameLabel /\ agent <> "") then Some agent
    else None.
Proof.
  unfold relatedCopyLabels.
  destruct (decide (l = relatedOwnerLabel)) as [->|H1]; [by case_decide; simplify_map_eq|].
  destruct (decide (l = relatedIdentifierLabel)) as [->|H2]; [by case_decide; simplify_map_eq|].
  destruct (decide (l = agentNameLabel)) as [->|H3];
    repeat case_decide; simplify_map_eq; naive_solver.
Qed.

Lemma ensureLabels_lookup desired obj l :
  lookup_map (GetLabels (ensureLabels desired obj)) l =
    match desired !! l with Some v => Some v | None => lookup_map (GetLabels obj) l end.
Proof.
  unfold lookup_map, ensureLabels, GetLabels. simpl. rewrite lookup_union.
  destruct (om_labels (u_meta obj)) as [g|]; simpl; rewrite ?lookup_empty;
    destruct (desired !! l); simpl; try done; by destruct (g !! l).
Qed.

Lemma ensureAnnotations_lookup desired obj l :
  lookup_map (GetAnnotations (ensureAnnotations desired obj)) l =
    match desired !! l with Some v => Some v | None => lookup_map (GetAnnotations obj) l end.
Proof.
  unfold lookup_map, ensureAnnotations, GetAnnotations. simpl. rewrite lookup_union.
  destruct (om_annotations (u_meta obj)) as [g|]; simpl; rewrite ?lookup_empty;
    destruct (desired !! l); simpl; try done; by destruct (g !! l).
Qed.

(** ** Which objects a key selects *)

(** [labels.SelectorFromSet] matches the objects that carry every label of
    the set. *)
Definition set_matches (s : gmap string string) (obj : Unstructured) : Prop :=
  s ⊆ default ∅ (GetLabels obj).

Lemma default_empty_lookup (m : option (gmap string string)) l :
  default ∅ m !! l = lookup_map m l.
Proof. destruct m; simpl; [done|]. apply lookup_empty. Qed.

Lemma set_matches_spec s obj :
  set_matches s obj <-> forall l v, s !! l = Some v -> lookup_map (GetLabels obj) l = Some v.
Proof.
  unfold set_matches. rewrite map_subseteq_spec. by setoid_rewrite default_empty_lookup.
Qed.

Lemma objectKey_Labels_subseteq k1 k2 :
  objectKey_Labels k1 ⊆ objectKey_Labels k2 <->
    k_ClusterName k1 = k_ClusterName k2 /\
    Hash (HString (k_Name k1)) = Hash (HString (k_Name k2)) /\
    (k_Namespace k1 = "" \/
     (k_Namespace k2 <> "" /\ Hash (HString (k_Namespace k1)) = Hash (HString (k_Namespace k2)))).
Proof.
  rewrite map_subseteq_spec. setoid_rewrite objectKey_Labels_lookup. split.
  - intros H. pose proof (H remoteObjectClusterLabel _ eq_refl) as H1.
    pose proof (H remoteObjectNameHashLabel _ eq_refl) as H2.
    simpl in H1, H2. split_and!; [congruence|congruence|].
    destruct (decide (k_Namespace k1 = "")) as [|Hns]; [by left|right].
    specialize (H remoteObjectNamespaceHashLabel). rewrite !decide_False in H by done.
    rewrite decide_True in H by done. specialize (H _ eq_refl).
    rewrite !decide_False in H by done. case_decide as Hd; [|discriminate]. destruct Hd. split; [done|congruence].
  - intros (Hc & Hn & Hns) l v. rewrite Hc, Hn.
    destruct Hns as [Hns|[Hns' Hns]]; repeat case_decide; try tauto; congruence.
Qed.

Lemma relatedCopyLabels_subseteq p1 cn1 pr1 id1 ag1 p2 cn2 pr2 id2 ag2 :
  relatedCopyLabels p1 cn1 pr1 id1 ag1 ⊆ relatedCopyLabels p2 cn2 pr2 id2 ag2 <->
    relatedOwnerHash cn1 pr1 (GetNamespace p1) (GetName p1)
    = relatedOwnerHash cn2 pr2 (GetNamespace p2) (GetName p2) /\
    id1 = id2 /\ (ag1 = "" \/ ag1 = ag2).
Proof.
  rewrite map_subseteq_spec. setoid_rewrite relatedCopyLabels_lookup. split.
  - intros H. pose proof (H relatedOwnerLabel _ eq_refl) as H1.
    pose proof (H relatedIdentifierLabel _ eq_refl) as H2. simpl in H1, H2.
    split_and!; [congruence|congruence|].
    destruct (decide (ag1 = "")) as [|Hag]; [by left|right].
    specialize (H agentNameLabel). rewrite !decide_False in H by done.
    rewrite decide_True in H by done. specialize (H _ eq_refl).
    rewrite !decide_False in H by done. case_decide as Hd; [congruence|discriminate].
  - intros (Hc & Hn & Hag) l v. rewrite Hc, Hn.
    destruct Hag as [Hag|Hag]; repeat case_decide; try tauto; try congruence.
Qed.

(** ** Finalizer sets *)

Lemma sets_List_elem_of x (s : gset string) : x ∈ sets_List s <-> x ∈ s.
Proof. unfold sets_List. by rewrite SortFunc_elem_of, elem_of_elements. Qed.

Lemma sets_List_NoDup (s : gset string) : NoDup (sets_List s).
Proof. unfold sets_List. rewrite SortFunc_Permutation. apply NoDup_elements. Qed.

Lemma sets_List_Sorted (s : gset string) : Sorted (fun a b => String.leb a b = true) (sets_List s).
Proof. apply SortFunc_Sorted, string_leb_total. Qed.
