(* ===== verification/Metadata.v ===== *)
(** Metadata of synchronised objects: [internal/sync/metadata.go].

    [stripMetadata] and the filters decide what leaves a cluster,
    [threeWayDiffMetadata] what has to be repaired on a copy, and
    [RemoteNameForLocalObject] reads the link from a copy back to its
    original. *)

From S2P Require Import Prelude Kube Crypto Meta.

(** ** Filters *)

Definition unsyncableLabels : gset string :=
  {[remoteObjectClusterLabel; remoteObjectNamespaceHashLabel; remoteObjectNameHashLabel]}.

Definition filterLabels (original : gmap string string) (forbidList : gset string)
  : gmap string string :=
  filter (fun kv => kv.1 ∉ forbidList) original.

Definition filterUnsyncableLabels (original : gmap string string) : gmap string string :=
  let filtered := filterLabels original unsyncableLabels in
  filter (fun kv => HasPrefix kv.1 "claimed.internal.apis.kcp.io/" = false) filtered.

Definition unsyncableAnnotations : gset string :=
  {["kcp.io/cluster"; "kubectl.kubernetes.io/last-applied-configuration";
    deletionPropagationPolicyAnnotation; remoteObjectNamespaceAnnotation;
    remoteObjectNameAnnotation; remoteObjectWorkspacePathAnnotation]}.

Definition filterUnsyncableAnnotations (original : gmap string string) : gmap string string :=
  let filtered := filterLabels original unsyncableAnnotations in
  filter (fun kv => HasPrefix kv.1 relatedObjectAnnotationPrefix = false) filtered.

(** ** [stripMetadata] *)

(** [setNestedMapOmitempty] writes a non-empty map and removes the field
    otherwise.  Its error is the case of a [metadata] that is not an object,
    which the typed metadata of the model excludes. *)
Definition omitempty (m : gmap string string) : option (gmap string string) :=
  if decide (size m = 0) then None else Some m.

Definition stripAnnotations (obj : Unstructured) : outcome Unstructured :=
  match GetAnnotations obj with
  | None => Ok obj
  | Some annotations => Ok (SetAnnotations (omitempty (filterUnsyncableAnnotations annotations)) obj)
  end.

Definition stripLabels (obj : Unstructured) : outcome Unstructured :=
  match GetLabels obj with
  | None => Ok obj
  | Some labels => Ok (SetLabels (omitempty (filterUnsyncableLabels labels)) obj)
  end.

Definition stripMetadata (obj : Unstructured) : outcome Unstructured :=
  let obj := SetCreationTimestamp None obj in
  let obj := SetFinalizers None obj in
  let obj := SetGeneration 0 obj in
  let obj := SetOwnerReferences [] obj in
  let obj := SetResourceVersion "" obj in
  let obj := SetManagedFields [] obj in
  let obj := SetUID "" obj in
  let obj := SetSelfLink "" obj in
  let! obj := wrapErr "failed to strip annotations" (stripAnnotations obj) in
  wrapErr "failed to strip labels" (stripLabels obj).

(** ** [RemoteNameForLocalObject] *)

Record Request : Type := Req { rq_ClusterName : string; rq_NamespacedName : NamespacedName }.

#[export] Instance Request_eq_dec : EqDecision Request.
Proof. solve_decision. Defined.

Definition RemoteNameForLocalObject (localObj : Unstructured) : option Request :=
  let labels := GetLabels localObj in
  let annotations := GetAnnotations localObj in
  let clusterName := index_map labels remoteObjectClusterLabel in
  let namespace := index_map annotations remoteObjectNamespaceAnnotation in
  let name := index_map annotations remoteObjectNameAnnotation in
  if decide (clusterName = "" \/ name = "") then None
  else Some (Req clusterName (NN namespace name)).

(** ** [threeWayDiffMetadata] *)

(** The entries of [desired] that the destination lacks or has with
    another value; the loop of the source, for labels and annotations
    alike.  The source's map is only allocated when there is an entry. *)
Definition missing (dest : option (gmap string string)) (desired : gmap string string)
  : gmap string string :=
  filter (fun kv => lookup_map dest kv.1 <> Some kv.2) desired.

Definition diff_map (source dest : option (gmap string string)) (desired : gmap string string)
  : option (gmap string string) :=
  let m := missing dest desired in
  if decide (m = ∅) then source else Some (m ∪ default ∅ source).

Definition threeWayDiffMetadata (sourceObj destObj : Unstructured)
    (desiredLabels desiredAnnotations : gmap string string) : Unstructured :=
  let sourceObj := SetLabels (diff_map (GetLabels sourceObj) (GetLabels destObj) desiredLabels) sourceObj in
  SetAnnotations (diff_map (GetAnnotations sourceObj) (GetAnnotations destObj) desiredAnnotations) sourceObj.

(** ** Lemmas: filters *)

Lemma lookup_filter_key (P : string -> bool) (m : gmap string string) k :
  filter (fun kv => P kv.1 = false) m !! k = if P k then None else m !! k.
Proof.
  destruct (P k) eqn:E.
  - apply map_lookup_filter_None. right. intros x _. simpl. congruence.
  - rewrite map_lookup_filter. destruct (m !! k) as [v|] eqn:Em; simpl; [|done].
    by rewrite option_guard_True.
Qed.

Lemma filterLabels_lookup m (s : gset string) k :
  filterLabels m s !! k = if decide (k ∈ s) then None else m !! k.
Proof.
  unfold filterLabels. case_decide as H.
  - apply map_lookup_filter_None. right. intros x _. simpl. tauto.
  - rewrite map_lookup_filter. destruct (m !! k) as [v|] eqn:Em; simpl; [|done].
    by rewrite option_guard_True.
Qed.

(** Which labels stay in the cluster they are in. *)
Definition label_kept (k : string) : bool :=
  bool_decide (k ∉ unsyncableLabels) && negb (HasPrefix k "claimed.internal.apis.kcp.io/").

Definition annotation_kept (k : string) : bool :=
  bool_decide (k ∉ unsyncableAnnotations) && negb (HasPrefix k relatedObjectAnnotationPrefix).

Lemma filterUnsyncableLabels_lookup m k :
  filterUnsyncableLabels m !! k = if label_kept k then m !! k else None.
Proof.
  unfold filterUnsyncableLabels, label_kept.
  rewrite (lookup_filter_key (fun k => HasPrefix k "claimed.internal.apis.kcp.io/")).
  rewrite filterLabels_lookup.
  case_decide; [rewrite bool_decide_false by tauto|rewrite bool_decide_true by done];
    by destruct (HasPrefix _ _).
Qed.

Lemma filterUnsyncableAnnotations_lookup m k :
  filterUnsyncableAnnotations m !! k = if annotation_kept k then m !! k else None.
Proof.
  unfold filterUnsyncableAnnotations, annotation_kept.
  rewrite (lookup_filter_key (fun k => HasPrefix k relatedObjectAnnotationPrefix)).
  rewrite filterLabels_lookup.
  case_decide; [rewrite bool_decide_false by tauto|rewrite bool_decide_true by done];
    by destruct (HasPrefix _ _).
Qed.

Lemma filterUnsyncableLabels_idemp m :
  filterUnsyncableLabels (filterUnsyncableLabels m) = filterUnsyncableLabels m.
Proof. apply map_eq. intros k. rewrite !filterUnsyncableLabels_lookup. by destruct (label_kept k). Qed.

Lemma filterUnsyncableAnnotations_idemp m :
  filterUnsyncableAnnotations (filterUnsyncableAnnotations m) = filterUnsyncableAnnotations m.
Proof.
  apply map_eq. intros k. rewrite !filterUnsyncableAnnotations_lookup.
  by destruct (annotation_kept k).
Qed.

Lemma omitempty_lookup m k : lookup_map (omitempty m) k = m !! k.
Proof.
  unfold omitempty, lookup_map. case_decide as H; simpl; [|done].
  apply map_size_empty_inv in H as ->. by rewrite lookup_empty.
Qed.

Lemma omitempty_default m : default ∅ (omitempty m) = m.
Proof. unfold omitempty. case_decide as H; simpl; [|done]. by apply map_size_empty_inv in H. Qed.

(** ** [stripMetadata] as one update of the metadata *)

Definition strip_labels_map (m : option (gmap string string)) : option (gmap string string) :=
  m ≫= fun l => omitempty (filterUnsyncableLabels l).
Definition strip_annotations_map (m : option (gmap string string)) : option (gmap string string) :=
  m ≫= fun a => omitempty (filterUnsyncableAnnotations a).

Definition stripped (o : Unstructured) : Unstructured :=
  Obj (u_apiVersion o) (u_kind o)
    (Meta (GetName o) (GetNamespace o)
       (strip_labels_map (GetLabels o)) (strip_annotations_map (GetAnnotations o))
       None (GetDeletionTimestamp o) None 0 [] "" [] "" "" (om_other (u_meta o)))
    (u_content o).

Lemma stripMetadata_eq o : stripMetadata o = Ok (stripped o).
Proof.
  destruct o as [av k [nm ns lb an fz dt ct gn ow rv mf ui sl ot] c].
  unfold stripMetadata, stripped, strip_labels_map, strip_annotations_map.
  destruct lb, an; reflexivity.
Qed.

Lemma strip_labels_map_lookup m k :
  lookup_map (strip_labels_map m) k = if label_kept k then lookup_map m k else None.
Proof.
  destruct m as [m|]; simpl; [|by destruct (label_kept k)].
  unfold strip_labels_map. simpl. by rewrite omitempty_lookup, filterUnsyncableLabels_lookup.
Qed.

Lemma strip_annotations_map_lookup m k :
  lookup_map (strip_annotations_map m) k = if annotation_kept k then lookup_map m k else None.
Proof.
  destruct m as [m|]; simpl; [|by destruct (annotation_kept k)].
  unfold strip_annotations_map. simpl. by rewrite omitempty_lookup, filterUnsyncableAnnotations_lookup.
Qed.

(** Maps that are absent instead of empty, as [omitempty] leaves them. *)
Definition canonical (m : option (gmap string string)) : Prop := m <> Some ∅.

Lemma omitempty_canonical m : canonical (omitempty m).
Proof.
  unfold canonical, omitempty. case_decide as H; [done|]. intros [= ->]. by rewrite map_size_empty in H.
Qed.

Lemma canonical_eq m1 m2 :
  canonical m1 -> canonical m2 -> (forall k, lookup_map m1 k = lookup_map m2 k) -> m1 = m2.
Proof.
  unfold canonical. intros H1 H2 Hk. destruct m1 as [m1|], m2 as [m2|]; simpl in *.
  - f_equal. by apply map_eq.
  - exfalso. apply H1. f_equal. apply map_eq. intros k. rewrite Hk. by rewrite lookup_empty.
  - exfalso. apply H2. f_equal. apply map_eq. intros k. rewrite <- Hk. by rewrite lookup_empty.
  - done.
Qed.

Lemma strip_labels_map_canonical m : canonical (strip_labels_map m).
Proof. destruct m; simpl; [apply omitempty_canonical|done]. Qed.

Lemma strip_annotations_map_canonical m : canonical (strip_annotations_map m).
Proof. destruct m; simpl; [apply omitempty_canonical|done]. Qed.

Lemma strip_labels_map_idemp m : strip_labels_map (strip_labels_map m) = strip_labels_map m.
Proof.
  apply canonical_eq; auto using strip_labels_map_canonical. intros k.
  rewrite !strip_labels_map_lookup. by destruct (label_kept k).
Qed.

Lemma strip_annotations_map_idemp m :
  strip_annotations_map (strip_annotations_map m) = strip_annotations_map m.
Proof.
  apply canonical_eq; auto using strip_annotations_map_canonical. intros k.
  rewrite !strip_annotations_map_lookup. by destruct (annotation_kept k).
Qed.

Lemma stripped_idemp o : stripped (stripped o) = stripped o.
Proof.
  unfold stripped, GetLabels, GetAnnotations. simpl.
  by rewrite strip_labels_map_idemp, strip_annotations_map_idemp.
Qed.

(** ** Lemmas: the three-way diff *)

Lemma missing_lookup dest desired k :
  missing dest desired !! k =
    match desired !! k with
    | Some v => if decide (lookup_map dest k = Some v) then None else Some v
    | None => None
    end.
Proof.
  unfold missing. rewrite map_lookup_filter. destruct (desired !! k) as [v|]; simpl; [|done].
  case_decide; [by rewrite option_guard_False by tauto|by rewrite option_guard_True].
Qed.

Lemma diff_map_lookup source dest desired k :
  lookup_map (diff_map source dest desired) k =
    match desired !! k with
    | Some v => if decide (lookup_map dest k = Some v) then lookup_map source k else Some v
    | None => lookup_map source k
    end.
Proof.
  unfold diff_map. pose proof (missing_lookup dest desired k) as Hm.
  case_decide as H.
  - rewrite H, lookup_empty in Hm. destruct (desired !! k); [|done]. by case_decide.
  - unfold lookup_map at 1. simpl. rewrite lookup_union, Hm, default_empty_lookup.
    destruct (desired !! k); [case_decide|]; by destruct (lookup_map source k).
Qed.

Lemma diff_map_noop source dest desired :
  desired ⊆ default ∅ dest -> diff_map source dest desired = source.
Proof.
  intros H. unfold diff_map. rewrite decide_True; [done|].
  apply map_eq. intros k. rewrite missing_lookup, lookup_empty.
  destruct (desired !! k) as [v|] eqn:E; [|done].
  rewrite decide_True; [done|]. rewrite <- default_empty_lookup.
  by apply (lookup_weaken desired).
Qed.

(** Entries the filter drops again leave no trace in what is remembered. *)
Lemma strip_labels_diff_map source dest desired :
  (forall k v, desired !! k = Some v -> label_kept k = false) ->
  strip_labels_map (diff_map source dest desired) = strip_labels_map source.
Proof.
  intros H. apply canonical_eq; auto using strip_labels_map_canonical. intros k.
  rewrite !strip_labels_map_lookup, diff_map_lookup.
  destruct (desired !! k) as [v|] eqn:E; [|done]. by rewrite (H _ _ E).
Qed.

Lemma strip_annotations_diff_map source dest desired :
  (forall k v, desired !! k = Some v -> annotation_kept k = false) ->
  strip_annotations_map (diff_map source dest desired) = strip_annotations_map source.
Proof.
  intros H. apply canonical_eq; auto using strip_annotations_map_canonical. intros k.
  rewrite !strip_annotations_map_lookup, diff_map_lookup.
  destruct (desired !! k) as [v|] eqn:E; [|done]. by rewrite (H _ _ E).
Qed.

Lemma objectKey_Labels_unsyncable key k v :
  objectKey_Labels key !! k = Some v -> label_kept k = false.
Proof.
  rewrite objectKey_Labels_lookup. intros H.
  repeat case_decide; simplify_eq; destruct_and?; subst; done.
Qed.

Lemma objectKey_Annotations_unsyncable key k v :
  objectKey_Annotations key !! k = Some v -> annotation_kept k = false.
Proof.
  rewrite objectKey_Annotations_lookup. intros H.
  repeat case_decide; simplify_eq; destruct_and?; subst; done.
Qed.

#[export] Hint Resolve objectKey_Labels_unsyncable objectKey_Annotations_unsyncable : syncagent.
