(* ===== verification/StateStore.v ===== *)
(** The object state store: [internal/sync/state_store.go], with the
    [syncSide] of [internal/sync/object_syncer.go].

    The store remembers, in one Secret per primary object on the service
    cluster, the last state of every object that was synchronised for it;
    [objectSyncer] uses it through the interface [ObjectStateStore]. *)

From S2P Require Import Prelude Effects Kube Crypto Meta Metadata.

(** ** [syncSide] *)

Record syncSide : Type := Side {
  sd_clusterName : string;
  sd_workspacePath : string;
  sd_client : client;
  (* [None] is a nil pointer *)
  sd_object : option Unstructured
}.

Definition with_object (o : option Unstructured) (s : syncSide) : syncSide :=
  Side (sd_clusterName s) (sd_workspacePath s) (sd_client s) o.

(** [logicalcluster.None] *)
Definition NoPath : string := "".

Section Store.
Context {J : JsonLib} {PJ : PathJSON}.

(** Using a method of a nil object panics. *)
Definition deref (o : option Unstructured) : M kube Unstructured :=
  match o with
  | Some o => retM o
  | None => panicM "invalid memory address or nil pointer dereference"
  end.

(** ** The interface *)

Record ObjectStateStore : Type := MkStore {
  Store_Get : syncSide -> M kube (option Unstructured);
  Store_Put : Unstructured -> string -> list string -> M kube unit
}.

Record backend : Type := MkBackend {
  Backend_Get : Unstructured -> string -> M kube (option bytes);
  Backend_Put : Unstructured -> string -> bytes -> M kube unit
}.

(** ** [objectStateStore] *)

Definition removeKeys (keys : list string) : Unstructured -> Unstructured :=
  with_content (fun data => foldl (fun d key => delete key d) data keys).

Definition snapshotObject (obj : Unstructured) (subresources : list string) : outcome bytes :=
  let! obj := stripMetadata obj in
  let obj := removeKeys subresources obj in
  let! marshalled := MarshalJSON obj in
  Ok (TrimSpaceBytes marshalled).

Definition objectStateStore_Get (b : backend) (source : syncSide) : M kube (option Unstructured) :=
  let* obj := deref (sd_object source) in
  let* data := Backend_Get b obj (sd_clusterName source) in
  match UnmarshalJSON data with
  | Ok lastKnown => retM (Some lastKnown)
  | Err _ => retM None
  | Panic s => panicM s
  end.

Definition objectStateStore_Put (b : backend) (obj : Unstructured) (clusterName : string)
    (subresources : list string) : M kube unit :=
  let* encoded := liftO (snapshotObject obj subresources) in
  Backend_Put b obj clusterName encoded.

Definition newObjectStateStore (b : backend) : ObjectStateStore :=
  MkStore (objectStateStore_Get b) (objectStateStore_Put b).

(** ** [kubernetesBackend] *)

Record kubernetesBackend : Type := MkKubernetesBackend {
  kb_secretName : NamespacedName;
  kb_labels : gmap string string;
  kb_stateCluster : syncSide
}.

(** The members of a Go map are encoded in the order of their keys. *)
Definition hashObject (obj : Unstructured) : string :=
  ShortHash (HJson (JsonEnc.object
    [("apiVersion", JsonEnc.quote (GetAPIVersion obj));
     ("kind", JsonEnc.quote (GetKind obj));
     ("name", JsonEnc.quote (GetName obj));
     ("namespace", JsonEnc.quote (GetNamespace obj))])).

Definition newKubernetesBackend (namespace : string) (primaryObject stateCluster : syncSide)
  : M kube kubernetesBackend :=
  let* obj := deref (sd_object primaryObject) in
  let shortKeyHash := hashObject obj in
  let secretLabels :=
    <[objectStateLabelName := objectStateLabelValue]>
      (objectKey_Labels (newObjectKey obj (sd_clusterName primaryObject) (sd_workspacePath primaryObject))) in
  retM (MkKubernetesBackend
    (NN namespace ("obj-state-" +:+ sd_clusterName primaryObject +:+ "-" +:+ shortKeyHash))
    secretLabels stateCluster).

Definition emptySecret : Secret := MkSecret (NN "" "") ∅ None.

(** [ctrlruntimeclient.IgnoreNotFound]: a Secret that does not exist is
    read as the zero value. *)
Definition getSecretOrEmpty (c : client) (key : NamespacedName) : M kube Secret :=
  let* r := tryM (getSecret c key) in
  match r with
  | inl s => retM s
  | inr e => if IsNotFound e then retM emptySecret else failM e
  end.

Definition kubernetesBackend_Get (b : kubernetesBackend) (obj : Unstructured) (clusterName : string)
  : M kube (option bytes) :=
  let* secret := getSecretOrEmpty (sd_client (kb_stateCluster b)) (kb_secretName b) in
  let sourceKey := objectKey_Key (newObjectKey obj clusterName NoPath) in
  retM (default ∅ (sec_data secret) !! sourceKey).

Definition kubernetesBackend_Put (b : kubernetesBackend) (obj : Unstructured) (clusterName : string)
    (data : bytes) : M kube unit :=
  let c := sd_client (kb_stateCluster b) in
  let* secret := getSecretOrEmpty c (kb_secretName b) in
  let sourceKey := objectKey_Key (newObjectKey obj clusterName NoPath) in
  let sdata := <[sourceKey := data]> (default ∅ (sec_data secret)) in
  if decide (nn_namespace (sec_name secret) = "")
  then createSecret c (MkSecret (kb_secretName b) (kb_labels b) (Some sdata))
  else updateSecret c (MkSecret (sec_name secret) (kb_labels b) (Some sdata)).

Definition kubernetesBackend_iface (b : kubernetesBackend) : backend :=
  MkBackend (kubernetesBackend_Get b) (kubernetesBackend_Put b).

Definition newKubernetesStateStoreCreator (namespace : string) (primaryObject stateCluster : syncSide)
  : M kube ObjectStateStore :=
  let* b := newKubernetesBackend namespace primaryObject stateCluster in
  retM (newObjectStateStore (kubernetesBackend_iface b)).

End Store.

(** ** Lemmas *)

Section StoreFacts.
Context {J : JsonLib} {PJ : PathJSON}.

Lemma deref_inv o tr u : exec (deref o) tr (Ok u) -> tr = [] /\ o = Some u.
Proof. destruct o; simpl; intros; exec_inv; naive_solver. Qed.

Lemma removeKeys_content keys o k :
  u_content (removeKeys keys o) !! k = if decide (k ∈ keys) then None else u_content o !! k.
Proof.
  unfold removeKeys, with_content. simpl. generalize (u_content o).
  induction keys as [|x keys IH]; intros m; cbn [foldl].
  - rewrite decide_False; [done|]. set_solver.
  - rewrite IH. destruct (decide (k ∈ keys)), (decide (k ∈ x :: keys)) as [Hin|Hin];
      try done; [set_solver| |].
    + assert (k = x) as -> by set_solver. by rewrite lookup_delete_eq.
    + rewrite lookup_delete_ne; [done|set_solver].
Qed.

(** The object a snapshot is taken of. *)
Definition snapshot (obj : Unstructured) (subresources : list string) : Unstructured :=
  removeKeys subresources (stripped obj).

Lemma snapshotObject_eq obj subs :
  snapshotObject obj subs = let! m := MarshalJSON (snapshot obj subs) in Ok (TrimSpaceBytes m).
Proof. unfold snapshotObject. by rewrite stripMetadata_eq. Qed.

Lemma snapshotObject_decodes {L : JsonLaws J} obj subs b :
  snapshotObject obj subs = Ok b -> UnmarshalJSON (Some b) = Ok (snapshot obj subs).
Proof.
  rewrite snapshotObject_eq. intros (m & Hm & Hb)%obind_ok_inv. simplify_eq.
  by apply marshal_roundtrip.
Qed.

(** The Secret a successful write leaves behind. *)
Definition secret_written (r : kreq) : option Secret :=
  match r with
  | RCreateSecret _ s | RUpdateSecret _ s => Some s
  | _ => None
  end.

Lemma getSecretOrEmpty_inv c key tr s :
  exec (getSecretOrEmpty c key) tr (Ok s) ->
  exists x, tr = [Ev (S := kube) (RGetSecret c key) x] /\
    (x = Ok s \/ exists e, x = Err e /\ IsNotFound e = true /\ s = emptySecret).
Proof.
  unfold getSecretOrEmpty, getSecret. intros H. exec_inv; [by eauto|].
  destruct (IsNotFound _) eqn:E; exec_inv; eauto 10.
Qed.

Lemma kubernetesBackend_Put_inv b obj cn data tr :
  exec (kubernetesBackend_Put b obj cn data) tr (Ok tt) ->
  exists (old s : Secret) (ev : event kube),
    secret_written (ev_req ev) = Some s /\ last tr = Some ev /\
    sec_labels s = kb_labels b /\
    sec_data s = Some (<[objectKey_Key (newObjectKey obj cn NoPath) := data]> (default ∅ (sec_data old))) /\
    (exists x, head tr = Some (Ev (S := kube) (RGetSecret (sd_client (kb_stateCluster b)) (kb_secretName b)) x) /\
       (x = Ok old \/ exists e, x = Err e /\ IsNotFound e = true /\ old = emptySecret)).
Proof.
  unfold kubernetesBackend_Put. intros H. exec_step.
  apply getSecretOrEmpty_inv in Hx as (x & -> & Hx).
  case_decide; unfold createSecret, updateSecret in H; exec_inv; simplify_eq/=;
    eexists a, _, _; split_and!; try reflexivity; eauto.
Qed.

Lemma objectStateStore_Get_exec b src obj s tr :
  sd_object src = Some obj ->
  exec (objectStateStore_Get (kubernetesBackend_iface b) src) tr (Ok s) ->
  exists sec, exec (getSecretOrEmpty (sd_client (kb_stateCluster b)) (kb_secretName b)) tr (Ok sec) /\
    s = match UnmarshalJSON (default ∅ (sec_data sec) !! objectKey_Key (newObjectKey obj (sd_clusterName src) NoPath)) with
        | Ok u => Some u | _ => None end.
Proof.
  unfold objectStateStore_Get. intros Ho H. rewrite Ho in H. simpl in H.
  apply exec_bindM_ok_inv in H as (tr0 & tr' & obj' & -> & H0 & H). exec_step.
  apply exec_bindM_ok_inv in H as (tr1 & tr2 & data & -> & H1 & H2).
  apply exec_bindM_ok_inv in H1 as (tr3 & tr4 & sec & -> & H1 & H3). do 2 exec_step.
  exists sec. destruct (UnmarshalJSON _); exec_inv; rewrite ?app_nil_r; eauto.
Qed.

End StoreFacts.

(** ** What a store promises to its clients *)

(** A store touches nothing but Secrets, and those through one client. *)
Definition secret_request {J : JsonLib} (c : client) (r : kreq) : Prop :=
  match r with
  | RGetSecret c' _ | RCreateSecret c' _ | RUpdateSecret c' _ => c' = c
  | _ => False
  end.

Class SecretStore {J : JsonLib} (c : client) (st : ObjectStateStore) : Prop := {
  store_get_requests side : always (S := kube) (secret_request c) (Store_Get st side);
  store_put_requests obj cn subs : always (S := kube) (secret_request c) (Store_Put st obj cn subs)
}.

Lemma getSecretOrEmpty_requests {J : JsonLib} c key :
  always (S := kube) (secret_request c) (getSecretOrEmpty c key).
Proof. unfold getSecretOrEmpty, getSecret. always_solve. Qed.

#[export] Instance kubernetes_secret_store {J : JsonLib} {PJ : PathJSON} b :
  SecretStore (sd_client (kb_stateCluster b)) (newObjectStateStore (kubernetesBackend_iface b)).
Proof.
  split; intros; simpl.
  - unfold objectStateStore_Get, deref. repeat (always_step; simpl); try exact I.
    unfold kubernetesBackend_Get. repeat (always_step; simpl). apply getSecretOrEmpty_requests.
  - unfold objectStateStore_Put, createSecret, updateSecret. repeat (always_step; simpl); try exact I.
    unfold kubernetesBackend_Put, createSecret, updateSecret.
    repeat (always_step; simpl); try done. apply getSecretOrEmpty_requests.
Qed.
