(* ===== verification/ObjectSyncer.v ===== *)
(** The object syncer: [internal/sync/object_syncer.go] and the context
    values of [internal/sync/context.go].

    One [objectSyncer] synchronises one source object to one destination
    object.  Every method is a program over the requests of [kube].  Go
    passes objects by pointer: a method that changes the object behind a
    [syncSide] returns the side with the changed object, and [Sync] returns
    what its caller sees in its own two pointers afterwards. *)

From S2P Require Import Prelude Effects Kube Crypto Meta Metadata StateStore.

(** ** [context.go] *)

Record context : Type := Ctx {
  ctx_clusterName : option string;
  ctx_workspacePath : option string;
  ctx_recorder : bool
}.

Definition Background : context := Ctx None None false.

Definition WithClusterName (c : context) (cluster : string) : context :=
  Ctx (Some cluster) (ctx_workspacePath c) (ctx_recorder c).
Definition clusterFromContext (c : context) : string := default "" (ctx_clusterName c).
Definition WithWorkspacePath (c : context) (path : string) : context :=
  Ctx (ctx_clusterName c) (Some path) (ctx_recorder c).
Definition workspacePathFromContext (c : context) : string := default NoPath (ctx_workspacePath c).
Definition WithEventRecorder (c : context) : context :=
  Ctx (ctx_clusterName c) (ctx_workspacePath c) true.
Definition recorderFromContext (c : context) : bool := ctx_recorder c.

(** ** The syncer's configuration *)

(** [mutation.Mutator] *)
Record Mutator : Type := MkMutator {
  MutateSpec : Unstructured -> option Unstructured -> outcome Unstructured;
  MutateStatus : Unstructured -> option Unstructured -> outcome Unstructured
}.

Definition objectCreatorFunc : Type := Unstructured -> outcome Unstructured.

Inductive syncSideType : Type := syncSideSource | syncSideDestination.

Section Syncer.
Context {J : JsonLib}.

Record objectSyncer : Type := MkObjectSyncer {
  syn_agentName : string;
  syn_destCreator : objectCreatorFunc;
  syn_subresources : list string;
  syn_syncStatusBack : bool;
  syn_syncStatusForward : bool;
  syn_blockSourceDeletion : bool;
  syn_metadataOnDestination : bool;
  syn_destLabels : gmap string string;
  syn_destAnnotations : gmap string string;
  syn_mutator : option Mutator;
  syn_stateStore : ObjectStateStore;
  syn_eventObjSide : syncSideType;
  syn_forceDelete : bool;
  syn_deletionPropagationPolicy : DeletionPropagation;
  syn_useServerSideApply : bool
}.

Section Methods.
Context (s : objectSyncer) (ctx : context).

Definition recordEvent (source dest : syncSide) (eventtype : EventType) (reason msg : string)
  : M kube unit :=
  let obj := match syn_eventObjSide s with
             | syncSideDestination => sd_object dest
             | syncSideSource => sd_object source
             end in
  if recorderFromContext ctx then emitEvent obj eventtype reason msg
  else panicM "invalid memory address or nil pointer dereference".

(** ** Helpers *)

Definition removeSubresources (obj : Unstructured) : Unstructured :=
  removeKeys (syn_subresources s) obj.

Definition createMergePatch (base revision : Unstructured) : outcome bytes :=
  let base := removeSubresources base in
  let revision := removeSubresources revision in
  let! baseJSON := wrapErr "failed to marshal base" (MarshalJSON base) in
  let! revisionJSON := wrapErr "failed to marshal revision" (MarshalJSON revision) in
  CreateMergePatch baseJSON revisionJSON.

Definition isIrrelevantTopLevelField (fieldName : string) : bool :=
  bool_decide (fieldName = "kind" \/ fieldName = "apiVersion" \/ fieldName = "metadata"
               \/ fieldName ∈ syn_subresources s).

Definition labelWithAgent (obj : Unstructured) : Unstructured :=
  if decide (syn_agentName s <> "") then ensureLabels {[agentNameLabel := syn_agentName s]} obj else obj.

Definition ensureDestMetadata (obj : Unstructured) : Unstructured :=
  let obj := if decide (0 < size (syn_destLabels s)) then ensureLabels (syn_destLabels s) obj else obj in
  if decide (0 < size (syn_destAnnotations s)) then ensureAnnotations (syn_destAnnotations s) obj else obj.

Definition fieldManager : string :=
  let base := "api-syncagent" in
  if decide (syn_agentName s = "") then base else base +:+ "/" +:+ syn_agentName s.

(** ** [ensureDestMetadataPersisted] *)

Definition ensureDestMetadataPersisted (dest : syncSide) : M kube (bool * syncSide) :=
  if decide (size (syn_destLabels s) = 0 /\ size (syn_destAnnotations s) = 0) then retM (false, dest)
  else
    let* original := deref (sd_object dest) in
    let obj := ensureDestMetadata original in
    if SemanticDeepEqualMap (GetLabels original) (GetLabels obj) &&
       SemanticDeepEqualMap (GetAnnotations original) (GetAnnotations obj)
    then retM (false, with_object (Some obj) dest)
    else
      let* obj := wrapM "failed to restamp destination metadata"
                    (clientPatch (sd_client dest) obj (MergeFrom original)) in
      retM (true, with_object (Some obj) dest).

(** ** [applyMutations] *)

Definition applyMutations (source dest : syncSide) : M kube (syncSide * syncSide) :=
  match syn_mutator s with
  | None => retM (source, dest)
  | Some mutator =>
      let* src := deref (sd_object source) in
      let* destObject := liftO match sd_object dest with
                               | Some o => Ok o
                               | None => wrapErr "failed to create destination object" (syn_destCreator s src)
                               end in
      let* sourceObj := liftO (wrapErr "failed to apply spec mutation rules"
                                 (MutateSpec mutator src (Some destObject))) in
      let source := with_object (Some sourceObj) source in
      match sd_object dest with
      | None => retM (source, dest)
      | Some o =>
          let* destObject := liftO (wrapErr "failed to apply status mutation rules"
                                      (MutateStatus mutator o (Some sourceObj))) in
          retM (source, with_object (Some destObject) dest)
      end
  end.

(** ** [syncObjectSpec] *)

(** The fields of the source that the full update copies. *)
Definition copiedContent (src : Unstructured) : gmap string value :=
  filter (fun kv => isIrrelevantTopLevelField kv.1 = false) (u_content src).

Definition fullUpdate (src srcCopy destObj : Unstructured) : Unstructured :=
  let destObj := with_content (fun destContent => copiedContent src ∪ destContent) destObj in
  let destObj := ensureLabels (filterUnsyncableLabels (default ∅ (GetLabels srcCopy))) destObj in
  ensureAnnotations (filterUnsyncableAnnotations (default ∅ (GetAnnotations srcCopy))) destObj.

Definition syncObjectSpec (source dest : syncSide) : M kube (bool * syncSide) :=
  let* lastKnownSourceState :=
    wrapM "failed to determine last known state" (Store_Get (syn_stateStore s) source) in
  let* src := deref (sd_object source) in
  let* sourceObjCopy := liftO (wrapErr "failed to strip metadata from source object" (stripMetadata src)) in
  let* destObj := deref (sd_object dest) in
  let* (requeue, dest, sourceObjCopy) :=
    match lastKnownSourceState with
    | Some lastKnown =>
        let lastKnown := SetAPIVersion (GetAPIVersion sourceObjCopy) lastKnown in
        let lastKnown := SetKind (GetKind sourceObjCopy) lastKnown in
        let sourceObjCopy :=
          if syn_metadataOnDestination s then
            let sourceKey := newObjectKey src (sd_clusterName source) (sd_workspacePath source) in
            threeWayDiffMetadata sourceObjCopy destObj
              (objectKey_Labels sourceKey) (objectKey_Annotations sourceKey)
          else sourceObjCopy in
        let* rawPatch := liftO (wrapErr "failed to calculate patch" (createMergePatch lastKnown sourceObjCopy)) in
        if decide (rawPatch <> braces) then
          let* destObj := wrapM "failed to patch destination object"
                            (clientPatch (sd_client dest) destObj (RawMergePatch rawPatch)) in
          retM (true, with_object (Some destObj) dest, sourceObjCopy)
        else retM (false, dest, sourceObjCopy)
    | None =>
        let* destObj := wrapM "failed to update destination object"
                          (clientUpdate (sd_client dest) (fullUpdate src sourceObjCopy destObj)) in
        retM (true, with_object (Some destObj) dest, sourceObjCopy)
    end in
  if (requeue : bool) then
    let* _ := recordEvent source dest EventTypeNormal "ObjectSynced"
                "The current desired state of the object has been synchronized." in
    let* _ := wrapM "failed to update sync state"
                (Store_Put (syn_stateStore s) sourceObjCopy (sd_clusterName source) (syn_subresources s)) in
    retM (true, dest)
  else retM (false, dest).

(** ** Status *)

(** [content["status"]]: an absent key reads as nil. *)
Definition statusOf (o : Unstructured) : value := default VNull (u_content o !! "status").
Definition setStatus (v : value) : Unstructured -> Unstructured := with_content (insert "status" v).

Definition syncObjectStatus (source dest : syncSide) : M kube (bool * syncSide) :=
  if negb (syn_syncStatusBack s) then retM (false, source)
  else
    let* src := deref (sd_object source) in
    let* dst := deref (sd_object dest) in
    if negb (SemanticDeepEqual (statusOf src) (statusOf dst)) then
      let* src := wrapM "failed to update source object status"
                    (clientStatusUpdate (sd_client source) (setStatus (statusOf dst) src)) in
      let source := with_object (Some src) source in
      let* _ := recordEvent source dest EventTypeNormal "ObjectStatusSynced"
                  "The current object status has been updated." in
      retM (false, source)
    else retM (false, source).

Definition syncObjectStatusForward (source dest : syncSide) : M kube syncSide :=
  match syn_syncStatusForward s, sd_object dest with
  | true, Some dst =>
      let* src := deref (sd_object source) in
      if negb (SemanticDeepEqual (statusOf src) (statusOf dst)) then
        let dst := setStatus (statusOf src) dst in
        let* r := tryM (clientStatusUpdate (sd_client dest) dst) in
        match r with
        | inl dst => retM (with_object (Some dst) dest)
        | inr err =>
            let dest := with_object (Some dst) dest in
            if IsNotFound err then
              let* _ := recordEvent source dest EventTypeWarning "StatusSubresourceMissing"
                          "Cannot sync status: the destination resource does not have a status subresource. Set syncStatus: false or add subresources.status to the CRD." in
              retM dest
            else failM (Wrapped "failed to update destination object status" err)
        end
      else retM dest
  | _, _ => retM dest
  end.

(** ** [syncObjectContents] *)

(** The sides come back as the caller sees them. *)
Definition syncObjectContents (source dest : syncSide) : M kube (bool * syncSide * syncSide) :=
  let* (requeue, dest) := syncObjectSpec source dest in
  let* dest := syncObjectStatusForward source dest in
  if (requeue : bool) then retM (true, source, dest)
  else
    let* (requeue, source) := syncObjectStatus source dest in
    retM (requeue, source, dest).

(** ** Namespaces *)

Definition ensureNamespace (c : client) (namespace : string) : M kube unit :=
  if decide (namespace = "") then retM tt
  else
    let* r := tryM (getNamespace c namespace) in
    let* name := match r with
                 | inl ns => retM (ns_name ns)
                 | inr e => if IsNotFound e then retM "" else failM (Wrapped "failed to check" e)
                 end in
    if decide (name = "") then
      let* r := tryM (createNamespace c namespace) in
      match r with
      | inl _ => retM tt
      | inr e => if IsAlreadyExists e then retM tt else failM (Wrapped "failed to create" e)
      end
    else retM tt.

(** ** Creating and adopting the destination object *)

Definition adoptExistingDestinationObject (dest : syncSide) (existingDestObj : Unstructured)
    (sourceKey : objectKey) : M kube Unstructured :=
  match GetDeletionTimestamp existingDestObj with
  | Some _ => retM existingDestObj
  | None =>
      let* existing := wrapM "failed to get current destination object"
        (clientGet (sd_client dest) (GetAPIVersion existingDestObj, GetKind existingDestObj)
           (ObjectKeyFromObject existingDestObj)) in
      let existing := ensureLabels (objectKey_Labels sourceKey) existing in
      let existing := ensureAnnotations (objectKey_Annotations sourceKey) existing in
      let existing := labelWithAgent existing in
      let existing := ensureDestMetadata existing in
      wrapM "failed to upsert current destination object labels" (clientUpdate (sd_client dest) existing)
  end.

(** The object to place on the destination: projected and renamed, without
    runtime metadata, with the metadata that links it to its source. *)
Definition linkToSource (source : syncSide) (src destObj : Unstructured) : Unstructured :=
  let sourceObjKey := newObjectKey src (sd_clusterName source) (sd_workspacePath source) in
  let destObj :=
    if syn_metadataOnDestination s then
      labelWithAgent (ensureAnnotations (objectKey_Annotations sourceObjKey)
                        (ensureLabels (objectKey_Labels sourceObjKey) destObj))
    else destObj in
  ensureDestMetadata destObj.

Definition ensureDestinationObject (source dest : syncSide) : M kube unit :=
  let* src := deref (sd_object source) in
  let* destObj := liftO (wrapErr "failed to create destination object" (syn_destCreator s src)) in
  let* _ := wrapM "failed to ensure destination namespace"
              (ensureNamespace (sd_client dest) (GetNamespace destObj)) in
  let* destObj := liftO (wrapErr "failed to strip metadata from destination object" (stripMetadata destObj)) in
  let sourceObjKey := newObjectKey src (sd_clusterName source) (sd_workspacePath source) in
  let destObj := linkToSource source src destObj in
  let* r := tryM (clientCreate (sd_client dest) destObj) in
  let* destObj :=
    match r with
    | inl created => retM created
    | inr err =>
        if negb (IsAlreadyExists err) then failM (Wrapped "failed to create destination object" err)
        else wrapM "failed to adopt destination object"
               (adoptExistingDestinationObject dest destObj sourceObjKey)
    end in
  let dest := with_object (Some destObj) dest in
  let* _ := recordEvent source dest EventTypeNormal "ObjectPlaced" "Object has been placed." in
  wrapM "failed to update sync state"
    (Store_Put (syn_stateStore s) src (sd_clusterName source) (syn_subresources s)).

(** ** Server-side apply *)

Definition is_deleting (o : Unstructured) : bool :=
  match GetDeletionTimestamp o with Some _ => true | None => false end.

Definition applyServerSide (source dest : syncSide) : M kube syncSide :=
  let* src := deref (sd_object source) in
  let* desired := liftO (wrapErr "failed to create destination object" (syn_destCreator s src)) in
  let* _ := wrapM "failed to ensure destination namespace"
              (ensureNamespace (sd_client dest) (GetNamespace desired)) in
  let* desired := liftO (wrapErr "failed to strip metadata from destination object" (stripMetadata desired)) in
  let desired := linkToSource source src desired in
  let desired := removeSubresources desired in
  if match sd_object dest with Some o => is_deleting o | None => false end then retM dest
  else
    let created := match sd_object dest with None => true | Some _ => false end in
    let* desired := wrapM "failed to server-side apply destination object"
                      (clientApply (sd_client dest) desired fieldManager true) in
    let* _ := if created
              then recordEvent source (Side "" "" (sd_client dest) (Some desired))
                     EventTypeNormal "ObjectPlaced" "Object has been placed."
              else retM tt in
    retM (with_object (Some desired) dest).

(** ** Deletion *)

Definition handleDeletion (source dest : syncSide) : M kube (bool * syncSide) :=
  if negb (syn_blockSourceDeletion s) then retM (false, source)
  else
    match sd_object dest with
    | Some dst =>
        let* _ :=
          if is_deleting dst then retM tt
          else
            let* _ := recordEvent source dest EventTypeNormal "ObjectCleanup"
                        "Object deletion has been started." in
            wrapM "failed to delete destination object"
              (clientDelete (sd_client dest) dst
                 (normalizeDeletionPropagationPolicy (syn_deletionPropagationPolicy s))) in
        retM (true, source)
    | None =>
        let* src := deref (sd_object source) in
        let* (updated, src) := wrapM "failed to remove cleanup finalizer from source object"
                                  (removeFinalizer (sd_client source) src deletionFinalizer) in
        let source := with_object (Some src) source in
        let* _ := if (updated : bool)
                  then recordEvent source dest EventTypeNormal "ObjectDeleted"
                         "Object deletion has been completed, finalizer has been removed."
                  else retM tt in
        retM (updated, source)
    end.

(** ** [Sync] *)

(** What a caller's pointer shows: with a mutator the syncer works on a
    copy, without one on the caller's object. *)
Definition caller_view (original final : option Unstructured) : option Unstructured :=
  match syn_mutator s with
  | None => final
  | Some _ => original
  end.

Record synced : Type := Synced {
  sy_requeue : bool;
  sy_source : option Unstructured;
  sy_dest : option Unstructured
}.

(** The part after the finalizer is in place. *)
Definition syncLive (source dest : syncSide) : M kube synced :=
  let source0 := sd_object source in
  let dest0 := sd_object dest in
  let* (source, dest) := wrapM "failed to apply mutations" (applyMutations source dest) in
  if syn_useServerSideApply s then
    let* newDest := wrapM "failed to apply destination object" (applyServerSide source dest) in
    match sd_object newDest with
    | None => retM (Synced false (caller_view source0 (sd_object source)) dest0)
    | Some o =>
        if is_deleting o then retM (Synced false (caller_view source0 (sd_object source)) dest0)
        else
          let* (requeue, source) := syncObjectStatus source newDest in
          retM (Synced requeue (caller_view source0 (sd_object source)) dest0)
    end
  else
    match sd_object dest with
    | None =>
        let* _ := wrapM "failed to create destination object" (ensureDestinationObject source dest) in
        retM (Synced true source0 None)
    | Some dst =>
        if is_deleting dst then retM (Synced false source0 dest0)
        else
          let* (restamped, dest) :=
            wrapM "failed to ensure destination metadata" (ensureDestMetadataPersisted dest) in
          if (restamped : bool) then retM (Synced true source0 (caller_view dest0 (sd_object dest)))
          else
            let* (requeue, source, dest) :=
              wrapM "failed to synchronize object state" (syncObjectContents source dest) in
            retM (Synced requeue (caller_view source0 (sd_object source)) (caller_view dest0 (sd_object dest)))
    end.

Definition Sync (source dest : syncSide) : M kube synced :=
  let* src := deref (sd_object source) in
  if is_deleting src || syn_forceDelete s then
    let* (requeue, source) := handleDeletion source dest in
    retM (Synced requeue (sd_object source) (sd_object dest))
  else
    let* (updated, src) :=
      if syn_blockSourceDeletion s
      then wrapM "failed to add cleanup finalizer to source object"
             (ensureFinalizer (sd_client source) src deletionFinalizer)
      else retM (false, src) in
    let source := with_object (Some src) source in
    if (updated : bool) then
      let* _ := recordEvent source dest EventTypeNormal "ObjectAccepted"
                  "Object has been seen by the service provider." in
      retM (Synced true (sd_object source) (sd_object dest))
    else syncLive source dest.

End Methods.
End Syncer.

Arguments objectSyncer {J}.
