(* ===== verification/Samples.v ===== *)
(** Concrete servers and objects on which theorems are evaluated. *)

From S2P Require Import Prelude Effects Kube Crypto ApiTypes Meta Metadata StateStore ObjectSyncer.

(** ** A server without memory

    Every write is accepted and answered with the object that was sent;
    nothing can be read back. *)

Definition echo {J : JsonLib} : server (S := kube) unit := fun r _ =>
  (match r return kresp r with
   | RGet _ _ _ => Err errNotFound
   | RList _ _ _ => Ok []
   | RCreate _ o | RUpdate _ o | RStatusUpdate _ o | RPatch _ o _ | RApply _ o _ _ => Ok o
   | RDelete _ _ _ | RCreateNamespace _ _ | RCreateSecret _ _ | RUpdateSecret _ _ => Ok tt
   | RKindFor _ g => Ok (GVK (gvr_group g) (gvr_version g) (gvr_resource g))
   | RGetNamespace _ _ => Err errNotFound
   | RListNamespaces _ _ => Ok []
   | RGetSecret _ _ => Err errNotFound
   | REvent _ _ _ _ => tt
   | RReadSelector _ => LSel ∅ []
   | RWriteSelector _ _ => tt
   | RGetCluster _ => Ok tt
   | RGetLogicalCluster _ _ => Ok None
   end, tt).

(** A server that keeps Secrets and forgets everything else. *)
Definition secretKey (n : NamespacedName) : string * string := (nn_namespace n, nn_name n).

Definition secretServer {J : JsonLib} : server (S := kube) (gmap (string * string) Secret) := fun r w =>
  match r return kresp r * gmap (string * string) Secret with
  | RGetSecret c n => (match w !! secretKey n with Some s => Ok s | None => Err errNotFound end, w)
  | RCreateSecret c s =>
      match w !! secretKey (sec_name s) with
      | Some _ => (Err errAlreadyExists, w)
      | None => (Ok tt, <[secretKey (sec_name s) := s]> w)
      end
  | RUpdateSecret c s =>
      match w !! secretKey (sec_name s) with
      | Some _ => (Ok tt, <[secretKey (sec_name s) := s]> w)
      | None => (Err errNotFound, w)
      end
  | r => ((echo r tt).1, w)
  end.

Module Sample.

Definition json := TreeJson.lib.
#[export] Existing Instance TreeJson.lib.
#[export] Instance path : PathJSON := JsonEnc.quote.

Definition meta (namespace name : string) (finalizers : option (list string)) (deletion : option Z) : ObjectMeta :=
  Meta name namespace (Some {[ "app" := "demo" ]}) None finalizers deletion (Some 100%Z) 3 [] "17" [] "uid-1" "" ∅.

Definition backup (namespace : string) (finalizers : option (list string)) (deletion : option Z) : Unstructured :=
  Obj "eksempel.no/v1" "Backup" (meta namespace "nightly" finalizers deletion)
    {[ "spec" := VObj {[ "schedule" := VStr "0 3 * * *" ]}; "status" := VObj {[ "phase" := VStr "Done" ]} ]}.

Definition kcpClient : client := Client KcpCluster CachedRead.
Definition serviceClient : client := Client ServiceCluster CachedRead.

Definition kcpSide (o : Unstructured) : syncSide := Side "2gz9" "root:team" kcpClient (Some o).
Definition serviceSide (o : option Unstructured) : syncSide := Side "" "" serviceClient o.

Definition stateBackend : kubernetesBackend :=
  MkKubernetesBackend (NN "kcp-system" "obj-state-2gz9-x") ∅ (serviceSide None).

Definition store : ObjectStateStore := newObjectStateStore (kubernetesBackend_iface stateBackend).

(** A store in memory that always answers the same. *)
Definition memoryStore (last : option Unstructured) : ObjectStateStore :=
  MkStore (fun _ => retM last) (fun _ _ _ => retM tt).

Definition creator : objectCreatorFunc := fun o => Ok (SetNamespace "tenant" o).

Definition syncer (ssa metadata : bool) (last : option Unstructured) : objectSyncer :=
  MkObjectSyncer "agent" creator ["status"] true false true metadata ∅ ∅ None (memoryStore last)
    syncSideSource false DeletePropagationUnset ssa.

#[export] Instance syncer_store ssa metadata last :
  SecretStore serviceClient (syn_stateStore (syncer ssa metadata last)).
Proof. by split. Qed.

Definition ctx : context := WithEventRecorder Background.

End Sample.
