(* ===== verification/StateStoreProofs.v ===== *)
(** Properties of the object state store: what is written can be read back,
    and entries of other objects survive. *)

From S2P Require Import Prelude Effects Kube Crypto Meta Metadata StateStore ObjectSyncer Samples.

(** ** Servers that keep a Secret *)

(** [look] is the Secret [n] that the server holds in a state. *)
Class SecretKeeper {J : JsonLib} {W} (h : server (S := kube) W) (c : client) (n : NamespacedName)
    (look : W -> option Secret) : Prop := {
  keeper_get w :
    h (RGetSecret c n) w = (match look w with Some s => Ok s | None => Err errNotFound end, w);
  keeper_create w s :
    sec_name s = n -> look w = None -> exists w', h (RCreateSecret c s) w = (Ok tt, w') /\ look w' = Some s;
  keeper_update w s :
    sec_name s = n -> look w <> None -> exists w', h (RUpdateSecret c s) w = (Ok tt, w') /\ look w' = Some s
}.

#[export] Instance secretServer_keeper {J : JsonLib} c n :
  SecretKeeper secretServer c n (lookup (secretKey n)).
Proof.
  split; simpl; intros; subst.
  - done.
  - rewrite H0. eexists. split; [done|]. apply lookup_insert_eq.
  - destruct (_ !! _); [|done]. eexists. split; [done|]. apply lookup_insert_eq.
Qed.

Section RoundTrip.
Context {J : JsonLib} {PJ : PathJSON}.
Context {W : Type} (h : server (S := kube) W) (b : kubernetesBackend) (look : W -> option Secret).
Context {HK : SecretKeeper h (sd_client (kb_stateCluster b)) (kb_secretName b) look}.

(** The Secrets of a state, seen through the backend. *)
Definition entries (w : W) : gmap string bytes := default ∅ (look w ≫= sec_data).

(** Every state the server reaches holds the Secret under its own name. *)
Definition named (w : W) : Prop := forall sec, look w = Some sec -> sec_name sec = kb_secretName b.

Definition storeKey (obj : Unstructured) (cn : string) : string :=
  objectKey_Key (newObjectKey obj cn NoPath).

Lemma run_getSecretOrEmpty w :
  exists tr, run h (getSecretOrEmpty (sd_client (kb_stateCluster b)) (kb_secretName b)) w
    = (tr, Ok (default emptySecret (look w)), w).
Proof.
  unfold getSecretOrEmpty, getSecret, tryM, bindM. simpl. rewrite keeper_get.
  destruct (look w); simpl; eauto.
Qed.

Lemma run_backend_Get w obj cn :
  exists tr, run h (kubernetesBackend_Get b obj cn) w = (tr, Ok (entries w !! storeKey obj cn), w).
Proof.
  unfold kubernetesBackend_Get. destruct (run_getSecretOrEmpty w) as [tr H].
  erewrite run_bindM_ok by exact H. simpl. eexists. do 3 f_equal. unfold entries, storeKey.
  by destruct (look w).
Qed.

Lemma run_backend_Put w obj cn data :
  nn_namespace (kb_secretName b) <> "" -> named w ->
  exists tr w', run h (kubernetesBackend_Put b obj cn data) w = (tr, Ok tt, w') /\
    named w' /\ entries w' = <[storeKey obj cn := data]> (entries w).
Proof.
  intros Hns Hw. unfold kubernetesBackend_Put. destruct (run_getSecretOrEmpty w) as [tr H].
  erewrite run_bindM_ok by exact H. cbv zeta.
  set (sdata := <[_ := _]> _).
  assert (sdata = <[storeKey obj cn := data]> (entries w)) as Hdata
    by (unfold sdata, entries; by destruct (look w)).
  assert (forall s w', look w' = Some s -> sec_name s = kb_secretName b -> sec_data s = Some sdata ->
    named w' /\ entries w' = <[storeKey obj cn := data]> (entries w)) as Hpost.
  { intros s w' Hl Hn Hd. split; [by intros ? [= <-]%(eq_trans (eq_sym Hl))|].
    unfold entries at 1. by rewrite Hl; simpl; rewrite Hd. }
  destruct (look w) as [sec|] eqn:El; simpl.
  - rewrite decide_False by (by rewrite Hw). unfold updateSecret. simpl.
    destruct (keeper_update w (MkSecret (sec_name sec) (kb_labels b) (Some sdata))) as (w' & Hu & Hl);
      [exact (Hw _ El)|congruence|].
    rewrite Hu. do 2 eexists. split; [done|]. apply (Hpost _ _ Hl); [exact (Hw _ El)|done].
  - unfold createSecret. simpl.
    destruct (keeper_create w (MkSecret (kb_secretName b) (kb_labels b) (Some sdata))) as (w' & Hu & Hl); auto.
    rewrite Hu. do 2 eexists. split; [done|]. apply (Hpost _ _ Hl); auto.
Qed.

Lemma run_store_Get w side obj :
  sd_object side = Some obj ->
  exists tr, run h (objectStateStore_Get (kubernetesBackend_iface b) side) w
    = (tr, match UnmarshalJSON (entries w !! storeKey obj (sd_clusterName side)) with
           | Ok u => Ok (Some u) | Err _ => Ok None | Panic m => Panic m end, w).
Proof.
  intros Ho. unfold objectStateStore_Get. rewrite Ho. cbn [deref]. rewrite bindM_retM.
  destruct (run_backend_Get w obj (sd_clusterName side)) as [tr H].
  erewrite run_bindM_ok by exact H. destruct (UnmarshalJSON _); simpl; eauto.
Qed.

(** C7: storing the state of an object succeeds whether or not the Secret
    exists; afterwards the store answers with exactly the snapshot that was
    taken, for the same object in the same cluster, whatever else the object
    looks like by then; and what it answers for objects under other keys is
    what it answered before. *)
Theorem stateStore_roundtrip {L : JsonLaws J} w obj cn subs data :
  nn_namespace (kb_secretName b) <> "" -> named w ->
  snapshotObject obj subs = Ok data ->
  let st := newObjectStateStore (kubernetesBackend_iface b) in
  exists tr w', run h (Store_Put st obj cn subs) w = (tr, Ok tt, w') /\ named w' /\
    forall side obj', sd_object side = Some obj' ->
      if decide (storeKey obj' (sd_clusterName side) = storeKey obj cn)
      then (run h (Store_Get st side) w').1.2 = Ok (Some (snapshot obj subs))
      else (run h (Store_Get st side) w').1.2 = (run h (Store_Get st side) w).1.2.
Proof.
  intros Hns Hw Hsnap st. unfold st, newObjectStateStore. cbn [Store_Put Store_Get].
  unfold objectStateStore_Put. rewrite Hsnap, bindM_liftO. cbn [kubernetesBackend_iface Backend_Put].
  destruct (run_backend_Put w obj cn data Hns Hw) as (tr & w' & Hput & Hw' & He).
  exists tr, w'. split_and!; [done..|]. intros side obj' Ho.
  destruct (run_store_Get w' side obj' Ho) as [tr1 ->], (run_store_Get w side obj' Ho) as [tr2 ->].
  rewrite He. simpl. case_decide as Hk.
  - rewrite Hk, lookup_insert_eq. by rewrite (snapshotObject_decodes _ _ _ Hsnap).
  - by rewrite lookup_insert_ne by done.
Qed.

End RoundTrip.

(** The round trip on an empty server. *)
Lemma stateStore_roundtrip_witness :
  exists tr w',
    run secretServer (Store_Put Sample.store (Sample.backup "ns" None None) "2gz9" ["status"]) ∅
      = (tr, Ok tt, w') /\
    (run secretServer (Store_Get Sample.store (Sample.kcpSide (Sample.backup "ns" (Some ["x"]) None))) w').1.2
      = Ok (Some (snapshot (Sample.backup "ns" None None) ["status"])).
Proof.
  destruct (stateStore_roundtrip (J := TreeJson.lib) (PJ := Sample.path) (L := TreeJson.laws) secretServer
    (MkKubernetesBackend (NN "kcp-system" "obj-state-2gz9-x") ∅ (Sample.serviceSide None))
    (lookup (secretKey (NN "kcp-system" "obj-state-2gz9-x"))) ∅
    (Sample.backup "ns" None None) "2gz9" ["status"]
    (TreeJson.DObject (snapshot (Sample.backup "ns" None None) ["status"])))
    as (tr & w' & H1 & _ & H2); [discriminate|by intros ? ?|reflexivity|].
  exists tr, w'. split; [exact H1|].
  specialize (H2 (Sample.kcpSide (Sample.backup "ns" (Some ["x"]) None)) _ eq_refl).
  rewrite decide_True in H2 by reflexivity. exact H2.
Defined.
