(* ===== verification/ObjectSyncerProofs.v ===== *)
(** Properties of the object syncer: what it may touch, in which order it
    acts, when it reports that it is done, and what it remembers. *)

From S2P Require Import Prelude Effects Kube Crypto Meta Metadata StateStore ObjectSyncer Samples.

(** ** Shared lemmas *)

Section Basics.
Context {J : JsonLib} (s : objectSyncer) (ctx : context).

Lemma deref_always P o : always (S := kube) P (deref o).
Proof. by destruct o. Qed.

Lemma recordEvent_always P source dest ty reason msg :
  (forall obj, P (REvent obj ty reason msg)) ->
  always (S := kube) P (recordEvent s ctx source dest ty reason msg).
Proof. intros H. unfold recordEvent, emitEvent. always_solve. Qed.

Lemma ensureNamespace_always (P : kreq -> Prop) c ns :
  P (RGetNamespace c ns) -> P (RCreateNamespace c ns) -> always (S := kube) P (ensureNamespace c ns).
Proof. intros. unfold ensureNamespace, getNamespace, createNamespace. always_solve. Qed.

(** The sides differ from the caller's by their objects alone. *)
Definition same_side (a b : syncSide) : Prop :=
  sd_client a = sd_client b /\ sd_clusterName a = sd_clusterName b /\
  sd_workspacePath a = sd_workspacePath b.

Lemma applyMutations_sides source dest tr source' dest' :
  exec (applyMutations s source dest) tr (Ok (source', dest')) ->
  tr = [] /\ same_side source' source /\ same_side dest' dest /\
  (is_Some (sd_object dest') <-> is_Some (sd_object dest)).
Proof.
  unfold applyMutations. intros H. destruct (syn_mutator s) as [mut|]; [|by exec_inv].
  exec_step. apply deref_inv in Hx as [-> _]. repeat exec_step.
  destruct (sd_object dest) eqn:Ed; repeat exec_step; simpl; split_and!; try done.
  by rewrite Ed.
Qed.

Lemma same_side_refl a : same_side a a.
Proof. done. Qed.

Lemma same_side_with_object o a : same_side (with_object o a) a.
Proof. done. Qed.

Lemma syncObjectSpec_side source dest tr b dest' :
  exec (syncObjectSpec s ctx source dest) tr (Ok (b, dest')) -> same_side dest' dest.
Proof.
  unfold syncObjectSpec. intros H. repeat exec_step.
  destruct a3 as [[b' d'] c']. assert (same_side d' dest) as Hd.
  { destruct a as [o|]; repeat exec_step; [|done]. case_decide; repeat exec_step; done. }
  destruct b'; repeat exec_step; done.
Qed.

Lemma syncObjectStatusForward_side source dest tr dest' :
  exec (syncObjectStatusForward s ctx source dest) tr (Ok dest') -> same_side dest' dest.
Proof.
  unfold syncObjectStatusForward. intros H.
  destruct (syn_syncStatusForward s), (sd_object dest); repeat exec_step; try done.
  destruct (negb _); repeat exec_step; try done.
  destruct (IsNotFound _); repeat exec_step; done.
Qed.

Definition claimSource (source : syncSide) (src : Unstructured) : M kube (bool * Unstructured) :=
  if syn_blockSourceDeletion s
  then wrapM "failed to add cleanup finalizer to source object"
         (ensureFinalizer (sd_client source) src deletionFinalizer)
  else retM (false, src).

Lemma claimSource_false source src tr src' :
  exec (claimSource source src) tr (Ok (false, src')) ->
  tr = [] /\ src' = src /\ (syn_blockSourceDeletion s = true -> deletionFinalizer ∈ GetFinalizers src).
Proof.
  unfold claimSource. intros H. destruct (syn_blockSourceDeletion s); [|by exec_inv].
  unfold ensureFinalizer in H. exec_step. case_decide as Hf; repeat exec_step.
  split_and!; [done..|]. set_solver.
Qed.

Lemma with_object_id side : with_object (sd_object side) side = side.
Proof. by destruct side. Qed.

End Basics.

#[local] Hint Resolve same_side_refl same_side_with_object : core.

Section Footprint.
Context {J : JsonLib} (s : objectSyncer) (ctx : context) (stateClient : client).
Context {HS : SecretStore stateClient (syn_stateStore s)}.

(** ** The requests one pass may send *)

(** What a pass over [source] and [dest] may ask of the servers. *)
Definition pass_request (source dest : syncSide) (r : kreq) : Prop :=
  match r with
  | RGet c _ _ | RCreate c _ | RUpdate c _ | RGetNamespace c _ | RCreateNamespace c _ =>
      c = sd_client dest
  | RApply c _ owner force =>
      c = sd_client dest /\ syn_useServerSideApply s = true /\ owner = fieldManager s /\ force = true
  | RStatusUpdate c _ =>
      (c = sd_client source /\ syn_syncStatusBack s = true) \/
      (c = sd_client dest /\ syn_syncStatusForward s = true)
  | RPatch c _ _ => c = sd_client dest
  | RGetSecret c _ | RCreateSecret c _ | RUpdateSecret c _ => c = stateClient
  | REvent _ _ _ _ => True
  | _ => False
  end.

Lemma secret_is_pass_request source dest r : secret_request stateClient r -> pass_request source dest r.
Proof. by destruct r. Qed.

Lemma store_get_pass source dest side :
  always (S := kube) (pass_request source dest) (Store_Get (syn_stateStore s) side).
Proof. eapply always_mono; [apply secret_is_pass_request|apply store_get_requests]. Qed.

Lemma store_put_pass source dest obj cn subs :
  always (S := kube) (pass_request source dest) (Store_Put (syn_stateStore s) obj cn subs).
Proof. eapply always_mono; [apply secret_is_pass_request|apply store_put_requests]. Qed.

#[local] Hint Resolve store_get_pass store_put_pass deref_always recordEvent_always
  ensureNamespace_always : core.
#[local] Hint Extern 2 (pass_request _ _ _) => simpl : core.

Ltac pass :=
  repeat (always_step; simpl); auto; try done.

Lemma pass_request_same source dest source' dest' r :
  same_side source' source -> same_side dest' dest ->
  pass_request source' dest' r -> pass_request source dest r.
Proof. intros [Hs _] [Hd _]. unfold pass_request. by rewrite Hs, Hd. Qed.

Lemma ensureDestMetadataPersisted_pass source dest :
  always (S := kube) (pass_request source dest) (ensureDestMetadataPersisted s dest).
Proof. unfold ensureDestMetadataPersisted, clientPatch. pass. Qed.

Lemma ensureDestinationObject_pass source dest :
  always (S := kube) (pass_request source dest) (ensureDestinationObject s ctx source dest).
Proof.
  unfold ensureDestinationObject, adoptExistingDestinationObject, clientCreate, clientGet, clientUpdate.
  pass.
Qed.

Lemma applyServerSide_pass source dest :
  syn_useServerSideApply s = true ->
  always (S := kube) (pass_request source dest) (applyServerSide s ctx source dest).
Proof. intros. unfold applyServerSide, clientApply. pass. Qed.

Lemma syncObjectStatus_pass source dest :
  always (S := kube) (pass_request source dest) (syncObjectStatus s ctx source dest).
Proof.
  unfold syncObjectStatus, clientStatusUpdate. destruct (syn_syncStatusBack s) eqn:?; pass.
Qed.

Lemma syncObjectStatusForward_pass source dest :
  always (S := kube) (pass_request source dest) (syncObjectStatusForward s ctx source dest).
Proof.
  unfold syncObjectStatusForward, clientStatusUpdate.
  destruct (syn_syncStatusForward s) eqn:?; pass.
Qed.

Lemma syncObjectSpec_pass source dest :
  always (S := kube) (pass_request source dest) (syncObjectSpec s ctx source dest).
Proof. unfold syncObjectSpec, clientPatch, clientUpdate. pass. Qed.

Lemma always_same source dest source' dest' {A} (m : M kube A) :
  same_side source' source -> same_side dest' dest ->
  always (S := kube) (pass_request source' dest') m -> always (S := kube) (pass_request source dest) m.
Proof. intros ??. apply always_mono. intros r. by apply pass_request_same. Qed.

Lemma syncObjectContents_pass source dest :
  always (S := kube) (pass_request source dest) (syncObjectContents s ctx source dest).
Proof.
  unfold syncObjectContents.
  apply always_bindM_exec; [apply syncObjectSpec_pass|]. intros tr [b d] H1%syncObjectSpec_side.
  apply always_bindM_exec.
  { eapply (always_same _ _ source d); [done|exact H1|]. apply syncObjectStatusForward_pass. }
  intros tr' d' H2%syncObjectStatusForward_side.
  destruct b; [done|]. apply always_bindM; [|by intros []].
  eapply (always_same _ _ source d'); [done| |apply syncObjectStatus_pass].
  unfold same_side in *. naive_solver congruence.
Qed.

Lemma syncLive_pass source dest :
  always (S := kube) (pass_request source dest) (syncLive s ctx source dest).
Proof.
  unfold syncLive. apply always_bindM_exec.
  { unfold applyMutations. pass. }
  intros tr [src' dst'] (_ & Hs & Hd & _)%exec_wrapM_ok_inv%applyMutations_sides.
  eapply always_same; [exact Hs|exact Hd|].
  destruct (syn_useServerSideApply s) eqn:Hssa.
  - apply always_bindM_exec; [by apply always_wrapM, applyServerSide_pass|].
    intros tr' d H%exec_wrapM_ok_inv. destruct (sd_object d); [|done].
    destruct (is_deleting _); [done|]. apply always_bindM; [|by intros []].
    eapply (always_same _ _ src' d); [done| |apply syncObjectStatus_pass].
    revert H. unfold applyServerSide. intros H. repeat exec_step.
    destruct (match _ with Some _ => _ | None => _ end); repeat exec_step; done.
  - destruct (sd_object dst') eqn:Eo.
    + destruct (is_deleting _); [done|]. apply always_bindM_exec.
      { apply always_wrapM, ensureDestMetadataPersisted_pass. }
      intros tr' [b d] H%exec_wrapM_ok_inv. destruct b; [done|].
      assert (same_side d dst') as Hd'.
      { revert H. unfold ensureDestMetadataPersisted. intros H. case_decide; repeat exec_step; [done|].
        destruct (_ && _); repeat exec_step; done. }
      apply always_bindM; [|by intros [[]]]. apply always_wrapM.
      eapply (always_same _ _ src' d); [done|exact Hd'|]. apply syncObjectContents_pass.
    + pass. apply ensureDestinationObject_pass.
Qed.

(** ** The requests of [Sync] *)

Definition deletion_wanted (src : Unstructured) : bool := is_deleting src || syn_forceDelete s.

Definition with_finalizer (src : Unstructured) : Unstructured :=
  SetFinalizers (Some (sets_List ({[deletionFinalizer]} ∪ list_to_set (GetFinalizers src)))) src.
Definition without_finalizer (src : Unstructured) : Unstructured :=
  SetFinalizers (Some (sets_List (list_to_set (GetFinalizers src) ∖ {[deletionFinalizer]}))) src.

(** The phases of a pass: the source is claimed, or the two objects are
    synchronised, or the copy is deleted, or the source is released. *)
Inductive sync_request (source dest : syncSide) (src : Unstructured) : kreq -> Prop :=
| sr_event obj ty reason msg : sync_request source dest src (REvent obj ty reason msg)
| sr_claim :
    syn_blockSourceDeletion s = true -> deletion_wanted src = false ->
    deletionFinalizer ∉ GetFinalizers src ->
    sync_request source dest src (RPatch (sd_client source) (with_finalizer src) (MergeFrom src))
| sr_pass r :
    deletion_wanted src = false ->
    (syn_blockSourceDeletion s = true -> deletionFinalizer ∈ GetFinalizers src) ->
    pass_request source dest r -> sync_request source dest src r
| sr_delete dst :
    syn_blockSourceDeletion s = true -> deletion_wanted src = true ->
    sd_object dest = Some dst -> is_deleting dst = false ->
    sync_request source dest src
      (RDelete (sd_client dest) dst (normalizeDeletionPropagationPolicy (syn_deletionPropagationPolicy s)))
| sr_release :
    syn_blockSourceDeletion s = true -> deletion_wanted src = true ->
    sd_object dest = None -> deletionFinalizer ∈ GetFinalizers src ->
    sync_request source dest src (RPatch (sd_client source) (without_finalizer src) (MergeFrom src)).

#[local] Hint Constructors sync_request : core.

Lemma handleDeletion_requests source dest src :
  sd_object source = Some src -> deletion_wanted src = true ->
  always (S := kube) (sync_request source dest src) (handleDeletion s ctx source dest).
Proof.
  intros Hsrc Hdel. unfold handleDeletion. destruct (syn_blockSourceDeletion s) eqn:Hb; [|done]. simpl.
  destruct (sd_object dest) as [dst|] eqn:Ed.
  - unfold clientDelete. repeat (always_step; simpl); auto using recordEvent_always.
  - rewrite Hsrc. simpl. apply always_bindM_exec; [done|]. intros tr a [_ [= ->]]%exec_ret_inv.
    apply always_bindM.
    + unfold removeFinalizer, clientPatch. apply always_wrapM. case_decide as Hf; [done|].
      repeat (always_step; simpl). apply sr_release; auto. set_solver.
    + intros [[] ?]; repeat (always_step; simpl); auto using recordEvent_always.
Qed.

Lemma Sync_always source dest src :
  sd_object source = Some src ->
  always (S := kube) (sync_request source dest src) (Sync s ctx source dest).
Proof.
  intros Hsrc. unfold Sync. rewrite Hsrc.
  apply always_bindM_exec; [done|]. intros tr a [_ [= ->]]%exec_ret_inv.
  fold (deletion_wanted src). destruct (deletion_wanted src) eqn:Hd.
  { apply always_bindM; [by apply handleDeletion_requests|]. by intros []. }
  fold (claimSource s source src). apply always_bindM_exec.
  { unfold claimSource. destruct (syn_blockSourceDeletion s) eqn:Hb; [|done]. apply always_wrapM.
    unfold ensureFinalizer, clientPatch. case_decide as Hf; [done|].
    repeat (always_step; simpl). apply sr_claim; auto. set_solver. }
  intros tr' [b src'] H. destruct b; [pass; auto using recordEvent_always|].
  apply claimSource_false in H as (_ & -> & Hf).
  eapply always_mono; [|apply syncLive_pass]. intros r Hr. apply sr_pass; auto.
Qed.

(** C5: every request of one pass belongs to one phase.  With deletion
    protection, nothing is written to the destination before the source
    carries the cleanup finalizer; the copy is deleted only when the source
    is going away, with the normalised propagation policy; the finalizer is
    removed only once the copy is gone; and apart from its finalizers and
    its status the source is never written. *)
Theorem Sync_requests source dest src tr o :
  sd_object source = Some src ->
  exec (Sync s ctx source dest) tr o ->
  Forall (sync_request source dest src) (requests tr).
Proof. intros Hsrc H. apply (always_exec (S := kube) _ _ _ _ (Sync_always _ _ _ Hsrc) H). Qed.

End Footprint.

(** ** Which objects a pass creates, replaces and deletes *)

(** The object that is meant: its kind, namespace and name. *)
Definition identity (o : Unstructured) : (string * string) * NamespacedName :=
  ((GetAPIVersion o, GetKind o), ObjectKeyFromObject o).

#[global] Arguments identity o : simpl never.

Section Placements.
Context {J : JsonLib} (s : objectSyncer) (ctx : context) (stateClient : client).
Context {HS : SecretStore stateClient (syn_stateStore s)}.

(** The destination object as the status mutations leave it. *)
Definition mutated_dest (dst dst' : Unstructured) : Prop :=
  dst' = dst \/ exists m other, syn_mutator s = Some m /\ MutateStatus m dst (Some other) = Ok dst'.

(** The object is the one the destination creator makes, the destination
    object itself, or one that was just read under the name that the
    destination creator gives. *)
Definition placement (dest : syncSide) (h : list (event kube)) (r : kreq) : Prop :=
  match r with
  | RCreate c o | RApply c o _ _ =>
      c = sd_client dest /\ exists src d, syn_destCreator s src = Ok d /\ identity o = identity d
  | RUpdate c o =>
      c = sd_client dest /\
      ((exists src d o', syn_destCreator s src = Ok d /\
          Ev (S := kube) (RGet c (identity d).1 (identity d).2) (Ok o') ∈ h /\ identity o = identity o') \/
       (exists dst dst', sd_object dest = Some dst /\ mutated_dest dst dst' /\ identity o = identity dst'))
  | RDelete c o _ => c = sd_client dest /\ sd_object dest = Some o
  | _ => True
  end.

Lemma placement_quiet dest h r : is_placement r = false -> placement dest h r.
Proof. by destruct r. Qed.

Lemma traced_quiet {A} dest h (m : M kube A) :
  always (S := kube) (fun r => is_placement r = false) m -> traced (placement dest) h m.
Proof. apply traced_always. intros. by apply placement_quiet. Qed.

Lemma recordEvent_traced dest h source' dest' ty reason msg :
  traced (placement dest) h (recordEvent s ctx source' dest' ty reason msg).
Proof. by apply traced_quiet, recordEvent_always. Qed.

Lemma store_get_traced dest h side : traced (placement dest) h (Store_Get (syn_stateStore s) side).
Proof. apply traced_quiet. eapply always_mono; [|apply store_get_requests]. by intros []. Qed.

Lemma store_put_traced dest h obj cn subs : traced (placement dest) h (Store_Put (syn_stateStore s) obj cn subs).
Proof. apply traced_quiet. eapply always_mono; [|apply store_put_requests]. by intros []. Qed.

Lemma ensureNamespace_traced dest h c ns : traced (placement dest) h (ensureNamespace c ns).
Proof. by apply traced_quiet, ensureNamespace_always. Qed.

Lemma deref_traced dest h o : traced (placement dest) h (deref o).
Proof. apply traced_quiet, deref_always. Qed.

#[local] Hint Resolve recordEvent_traced store_get_traced store_put_traced ensureNamespace_traced deref_traced : core.

Ltac trace := repeat (traced_step; simpl); auto; try done.

(** What is added to an object on the way leaves its identity alone. *)
Lemma ensureLabels_identity l o : identity (ensureLabels l o) = identity o.
Proof. done. Qed.
Lemma ensureAnnotations_identity l o : identity (ensureAnnotations l o) = identity o.
Proof. done. Qed.
Lemma labelWithAgent_identity o : identity (labelWithAgent s o) = identity o.
Proof. unfold labelWithAgent. by case_decide. Qed.
Lemma ensureDestMetadata_identity o : identity (ensureDestMetadata s o) = identity o.
Proof. unfold ensureDestMetadata. by repeat case_decide. Qed.
Lemma removeSubresources_identity o : identity (removeSubresources s o) = identity o.
Proof. done. Qed.
Lemma linkToSource_identity source src o : identity (linkToSource s source src o) = identity o.
Proof.
  unfold linkToSource. rewrite ensureDestMetadata_identity. destruct (syn_metadataOnDestination s); [|done].
  by rewrite labelWithAgent_identity.
Qed.
Lemma stripped_identity o : identity (stripped o) = identity o.
Proof. done. Qed.
Lemma fullUpdate_identity src srcCopy o : identity (fullUpdate s src srcCopy o) = identity o.
Proof. done. Qed.

Lemma applyMutations_dest source dest tr source' dest' :
  exec (applyMutations s source dest) tr (Ok (source', dest')) ->
  sd_client dest' = sd_client dest /\
  forall dst', sd_object dest' = Some dst' -> exists dst, sd_object dest = Some dst /\ mutated_dest dst dst'.
Proof.
  unfold applyMutations, mutated_dest. intros H. destruct (syn_mutator s) as [m|]; [|exec_inv; naive_solver].
  repeat exec_step. destruct (sd_object dest) as [dst|] eqn:Ed; repeat exec_step; simpl.
  - destruct (MutateStatus m dst _) eqn:?; simplify_eq/=. split; [done|]. intros ? [= <-]. naive_solver.
  - split; [done|]. naive_solver.
Qed.

Lemma adopt_traced side dest h src d d' key :
  sd_client side = sd_client dest -> syn_destCreator s src = Ok d -> identity d' = identity d ->
  traced (placement dest) h (adoptExistingDestinationObject s side d' key).
Proof.
  intros Hc Hd He. unfold adoptExistingDestinationObject, clientGet, clientUpdate. destruct (GetDeletionTimestamp d'); [done|].
  apply traced_bindM; [by trace|]. intros tr existing H%exec_wrapM_ok_inv. exec_step. repeat exec_step.
  apply traced_wrapM. trace. split; [done|]. left. exists src, d, existing.
  rewrite ensureDestMetadata_identity, labelWithAgent_identity, ensureAnnotations_identity, ensureLabels_identity.
  split_and!; [done| |done]. apply elem_of_app. right. apply list_elem_of_singleton.
  assert (identity d = identity d') as E by (unfold identity, ObjectKeyFromObject; congruence).
  exact (f_equal (fun i => Ev (S := kube) (RGet _ i.1 i.2) (Ok existing)) E).
Qed.

Lemma ensureDestinationObject_traced source side dest h :
  sd_client side = sd_client dest -> traced (placement dest) h (ensureDestinationObject s ctx source side).
Proof.
  intros Hc. unfold ensureDestinationObject, clientCreate. traced_step; [auto|]. apply traced_bindM; [done|].
  intros tr1 d Hd. traced_step; [auto using traced_wrapM|]. rewrite stripMetadata_eq. apply traced_bindM; [done|].
  intros tr2 d' Hd'. repeat exec_step.
  destruct (syn_destCreator s a) as [d0| |] eqn:E; simplify_eq/=.
  assert (identity (linkToSource s source a (stripped d0)) = identity d0) as Hi by (by rewrite linkToSource_identity).
  cbv zeta. trace; [split; [done|]; by exists a, d0|]. by eapply adopt_traced.
Qed.

Lemma applyServerSide_traced source side dest h :
  sd_client side = sd_client dest -> traced (placement dest) h (applyServerSide s ctx source side).
Proof.
  intros Hc. unfold applyServerSide, clientApply. traced_step; [auto|]. apply traced_bindM; [done|].
  intros tr1 d Hd. traced_step; [auto using traced_wrapM|]. rewrite stripMetadata_eq. apply traced_bindM; [done|].
  intros tr2 d' Hd'. repeat exec_step. destruct (syn_destCreator s a) as [d0| |] eqn:E; simplify_eq/=.
  cbv zeta. trace. split; [done|]. exists a, d0. split; [done|].
  by rewrite removeSubresources_identity, linkToSource_identity.
Qed.

(** The destination under way to the content pass. *)
Definition same_dest (dest d : syncSide) : Prop :=
  sd_client d = sd_client dest /\
  forall o, sd_object d = Some o ->
    exists dst dst', sd_object dest = Some dst /\ mutated_dest dst dst' /\ identity o = identity dst'.

Lemma syncObjectSpec_traced source dest d h :
  same_dest dest d -> traced (placement dest) h (syncObjectSpec s ctx source d).
Proof.
  intros [Hc Hd]. unfold syncObjectSpec, clientPatch, clientUpdate. traced_step; [auto using traced_wrapM|].
  traced_step; [auto|]. traced_step; [done|]. apply traced_bindM; [auto|]. intros tr3 o Ho%deref_inv.
  destruct Ho as [-> Ho%Hd]. trace.
Qed.

Lemma ensureDestMetadataPersisted_traced dest d h :
  traced (placement dest) h (ensureDestMetadataPersisted s d).
Proof.
  apply traced_quiet. unfold ensureDestMetadataPersisted, clientPatch. repeat (always_step; simpl); auto using deref_always.
Qed.

Lemma ensureDestMetadataPersisted_same dest d tr d' :
  same_dest dest d -> exec (ensureDestMetadataPersisted s d) tr (Ok (false, d')) -> same_dest dest d'.
Proof.
  intros [Hc Hd] H. unfold ensureDestMetadataPersisted in H. case_decide; repeat exec_step; [done|].
  apply deref_inv in Hx as [-> Ho]. destruct (_ && _); repeat exec_step. split; [done|].
  intros o [= <-]. rewrite ensureDestMetadata_identity. auto.
Qed.

Lemma syncObjectContents_traced source dest d h :
  same_dest dest d -> traced (placement dest) h (syncObjectContents s ctx source d).
Proof.
  intros Hd. unfold syncObjectContents. traced_step; [by apply syncObjectSpec_traced|].
  apply traced_quiet. unfold syncObjectStatusForward, syncObjectStatus, clientStatusUpdate.
  repeat (always_step; simpl); auto using deref_always; by apply recordEvent_always.
Qed.

Lemma syncLive_traced source dest h : traced (placement dest) h (syncLive s ctx source dest).
Proof.
  unfold syncLive. cbv zeta. apply traced_bindM.
  { apply traced_quiet. unfold applyMutations. repeat (always_step; simpl); auto using deref_always. }
  intros tr [src' d] [Hc Hd]%exec_wrapM_ok_inv%applyMutations_dest.
  assert (same_dest dest d) as Hs by (split; naive_solver).
  destruct (syn_useServerSideApply s).
  - traced_step; [by apply traced_wrapM, applyServerSide_traced|]. apply traced_quiet.
    unfold syncObjectStatus, clientStatusUpdate. repeat (always_step; simpl); auto using deref_always.
    by apply recordEvent_always.
  - destruct (sd_object d).
    + destruct (is_deleting _); [done|]. apply traced_bindM; [by apply traced_wrapM, ensureDestMetadataPersisted_traced|].
      intros tr' [[] d'] H%exec_wrapM_ok_inv; [done|]. apply ensureDestMetadataPersisted_same with (dest := dest) in H; [|done].
      traced_step; [by apply traced_wrapM, syncObjectContents_traced|]. by destruct a as [[??]?].
    + traced_step; [by apply traced_wrapM, ensureDestinationObject_traced|done].
Qed.

Lemma Sync_traced source dest h : traced (placement dest) h (Sync s ctx source dest).
Proof.
  unfold Sync. traced_step; [auto|]. destruct (_ || _).
  - traced_step; [|by destruct a0]. unfold handleDeletion, clientDelete, removeFinalizer, clientPatch. trace.
  - traced_step; [by unfold ensureFinalizer, clientPatch; trace|]. destruct a0 as [[] src]; cbv zeta; [by trace|].
    apply syncLive_traced.
Qed.

End Placements.

(** ** When a pass is done *)

Section Settled.
Context {J : JsonLib} (s : objectSyncer) (ctx : context) (stateClient : client).
Context {HS : SecretStore stateClient (syn_stateStore s)}.

(** What is left to do for two objects that are in sync: look at the
    remembered state, record events, and bring a status that differs over,
    in the configured direction, through the status subresource alone.  The
    statuses are those of the objects after their mutation. *)
Inductive settled_request (source dest : syncSide) : kreq -> Prop :=
| st_event obj ty reason msg : settled_request source dest (REvent obj ty reason msg)
| st_state r : secret_request stateClient r -> settled_request source dest r
| st_forward src dst dst' :
    syn_syncStatusForward s = true ->
    sd_object source = Some src -> sd_object dest = Some dst ->
    dst' = dst \/ dst' = ensureDestMetadata s dst ->
    SemanticDeepEqual (statusOf src) (statusOf dst) = false ->
    settled_request source dest (RStatusUpdate (sd_client dest) (setStatus (statusOf src) dst'))
| st_back src status :
    syn_syncStatusBack s = true -> sd_object source = Some src ->
    SemanticDeepEqual (statusOf src) status = false ->
    (syn_syncStatusForward s = false -> exists dst, sd_object dest = Some dst /\ status = statusOf dst) ->
    settled_request source dest (RStatusUpdate (sd_client source) (setStatus status src)).

#[local] Hint Constructors settled_request : core.

Lemma settled_exec {A} source dest (m : M kube A) tr o :
  always (S := kube) (settled_request source dest) m -> exec m tr o ->
  Forall (settled_request source dest) (requests tr).
Proof. apply (always_exec (S := kube)). Qed.

Lemma store_get_settled source dest side :
  always (S := kube) (settled_request source dest) (Store_Get (syn_stateStore s) side).
Proof. eapply always_mono; [|apply store_get_requests]. auto. Qed.

Lemma recordEvent_settled source dest source' dest' ty reason msg :
  always (S := kube) (settled_request source dest) (recordEvent s ctx source' dest' ty reason msg).
Proof. apply recordEvent_always. auto. Qed.

#[local] Hint Resolve store_get_settled recordEvent_settled deref_always : core.

Lemma settled_app source dest (tr1 tr2 : list (event kube)) :
  Forall (settled_request source dest) (requests (tr1 ++ tr2)) <->
  Forall (settled_request source dest) (requests tr1) /\ Forall (settled_request source dest) (requests tr2).
Proof. apply (Forall_requests_app (S := kube)). Qed.

(** Read off a decomposed execution that nothing but this was done. *)
Ltac settled :=
  rewrite ?settled_app; split_and?; try apply Forall_nil_2; eauto using settled_exec.

(** The destination as the syncer sees it once its metadata is persisted. *)
Definition restamped (dest d : syncSide) : Prop :=
  sd_client d = sd_client dest /\
  (sd_object d = sd_object dest \/ sd_object d = ensureDestMetadata s <$> sd_object dest).

Lemma ensureDestMetadata_status o : statusOf (ensureDestMetadata s o) = statusOf o.
Proof. unfold ensureDestMetadata. by repeat case_decide. Qed.

Lemma restamped_status dest d dst :
  restamped dest d -> sd_object d = Some dst ->
  exists dst0, sd_object dest = Some dst0 /\ statusOf dst = statusOf dst0 /\
    (dst = dst0 \/ dst = ensureDestMetadata s dst0).
Proof.
  intros [_ [Ho|Ho]] Hd; rewrite Ho in Hd; [eauto|].
  destruct (sd_object dest) as [dst0|]; simplify_eq/=. exists dst0. rewrite ensureDestMetadata_status. auto.
Qed.

Lemma restamp_false dest tr d :
  exec (ensureDestMetadataPersisted s dest) tr (Ok (false, d)) -> tr = [] /\ restamped dest d.
Proof.
  unfold ensureDestMetadataPersisted, restamped. intros H. case_decide; repeat exec_step; [auto|].
  apply deref_inv in Hx as [-> Ho]. destruct (_ && _); repeat exec_step. rewrite Ho. auto.
Qed.

Lemma syncObjectStatusForward_settled source dest d tr d' :
  restamped dest d -> exec (syncObjectStatusForward s ctx source d) tr (Ok d') ->
  Forall (settled_request source dest) (requests tr) /\ (syn_syncStatusForward s = false -> d' = d).
Proof.
  intros Hd H. split.
  - eapply settled_exec; [|exact H]. unfold syncObjectStatusForward, clientStatusUpdate.
    destruct (syn_syncStatusForward s) eqn:?, (sd_object d) as [dst|] eqn:Ed; try done.
    destruct (sd_object source) as [src|] eqn:Es; [|done].
    cbn [deref]. rewrite bindM_retM.
    destruct (restamped_status _ _ _ Hd Ed) as (dst0 & Hd0 & Hst & Hor). rewrite Hst.
    destruct (SemanticDeepEqual _ _) eqn:?; [done|]. cbn [negb].
    repeat (always_step; simpl); auto; try done. destruct Hd as [-> _]. eauto.
  - intros E. unfold syncObjectStatusForward in H. rewrite E in H. by repeat exec_step.
Qed.

Lemma syncObjectStatus_settled source dest d tr o :
  restamped dest d \/ syn_syncStatusForward s = true ->
  exec (syncObjectStatus s ctx source d) tr o -> Forall (settled_request source dest) (requests tr).
Proof.
  intros Hd. apply settled_exec. unfold syncObjectStatus, clientStatusUpdate.
  destruct (syn_syncStatusBack s) eqn:?; [|done]. simpl.
  destruct (sd_object source) as [src|] eqn:Es, (sd_object d) as [dst|] eqn:Ed; try done.
  cbn [deref]. rewrite !bindM_retM. destruct (SemanticDeepEqual _ _) eqn:?; [done|]. cbn [negb].
  repeat (always_step; simpl); auto; try done. apply st_back; auto. intros E. destruct Hd as [Hd|Hd]; [|congruence].
  destruct (restamped_status _ _ _ Hd Ed) as (dst0 & ? & ? & _). eauto.
Qed.

Lemma syncObjectSpec_settled source dest x y tr d :
  exec (syncObjectSpec s ctx source dest) tr (Ok (false, d)) ->
  d = dest /\ Forall (settled_request x y) (requests tr).
Proof.
  unfold syncObjectSpec. intros H. repeat exec_step. destruct a3 as [[b d'] c].
  destruct b; repeat exec_step. destruct a as [o|]; repeat exec_step.
  case_decide; repeat exec_step. split; [done|]. settled.
Qed.

Lemma syncObjectContents_settled source dest d tr x y :
  restamped dest d -> exec (syncObjectContents s ctx source d) tr (Ok (false, x, y)) ->
  Forall (settled_request source dest) (requests tr).
Proof.
  unfold syncObjectContents. intros Hd H. exec_step. destruct a as [b d1]. exec_step.
  destruct b; repeat exec_step. destruct a0. repeat exec_step.
  apply (syncObjectSpec_settled _ _ source dest) in Hx as [-> Hx].
  apply (syncObjectStatusForward_settled _ dest) in Hx0 as [Hx0 He]; [|done].
  settled. eapply syncObjectStatus_settled; [|done].
  destruct (syn_syncStatusForward s); [by right|left]. by rewrite He.
Qed.

Lemma handleDeletion_settled source dest tr source' :
  exec (handleDeletion s ctx source dest) tr (Ok (false, source')) -> requests tr = [].
Proof.
  unfold handleDeletion. intros H. destruct (negb _); [by exec_inv|].
  destruct (sd_object dest); [repeat exec_step|].
  exec_step. exec_step. apply deref_inv in Hx as [-> _]. destruct a0 as [b src']. repeat exec_step.
  unfold removeFinalizer in Hx0. by case_decide; repeat exec_step.
Qed.

(** C6: outside of server-side apply mode, a pass that does not ask for a
    requeue left both objects as they were, but for their status: when the
    source is going away it sent nothing at all; otherwise, besides events
    and the look-up of the remembered state, it sent only status updates, and those
    only when a status is to be synchronised and, after the mutations,
    differs: the source's, with its status replaced by the copy's, or the
    copy's, with its status replaced by the source's. *)
Theorem Sync_settled source dest tr res :
  syn_useServerSideApply s = false ->
  exec (Sync s ctx source dest) tr (Ok res) ->
  sy_requeue res = false ->
  requests tr = [] \/
  exists source' dest', exec (applyMutations s source dest) [] (Ok (source', dest')) /\
    Forall (settled_request source' dest') (requests tr).
Proof.
  intros Hssa H Hrq. unfold Sync in H. exec_step. apply deref_inv in Hx as [-> Ho]. destruct (_ || _).
  { exec_step. destruct a0. exec_step. simpl in Hrq. subst. left.
    rewrite app_nil_r. by eapply handleDeletion_settled. }
  exec_step. destruct a0 as [b src']. destruct b; [by repeat exec_step|].
  fold (claimSource s source a) in Hx. apply claimSource_false in Hx as (-> & -> & _).
  rewrite <- Ho, with_object_id in H.
  unfold syncLive in H. exec_step. destruct a0 as [src1 dst1]. apply exec_wrapM_ok_inv in Hx.
  pose proof (applyMutations_sides _ _ _ _ _ _ Hx) as (-> & _). rewrite Hssa in H.
  destruct (sd_object dst1); [|repeat exec_step; done]. right. exists src1, dst1. split; [exact Hx|].
  destruct (is_deleting _); [repeat exec_step; settled|].
  exec_step. destruct a0 as [b d]. destruct b; [by repeat exec_step|].
  exec_step. apply exec_wrapM_ok_inv, restamp_false in Hx0 as [-> Hd].
  destruct a0 as [[b x] y]. repeat exec_step. simpl in Hrq. subst.
  eapply syncObjectContents_settled in Hx1; [|exact Hd]. settled.
Qed.

End Settled.

(** ** Nothing to do *)

Section Quiescence.
Context {J : JsonLib} {L : JsonLaws J} (s : objectSyncer) (ctx : context).

Lemma removeKeys_idemp keys o : removeKeys keys (removeKeys keys o) = removeKeys keys o.
Proof.
  assert (u_content (removeKeys keys (removeKeys keys o)) = u_content (removeKeys keys o)) as H.
  { apply map_eq. intros x. rewrite !removeKeys_content. by case_decide. }
  unfold removeKeys, with_content in *. simpl in *. by rewrite H.
Qed.

Lemma createMergePatch_settled src b :
  MarshalJSON (snapshot src (syn_subresources s)) = Ok b ->
  createMergePatch s (snapshot src (syn_subresources s)) (stripped src) = Ok braces.
Proof.
  intros Hb. unfold createMergePatch, removeSubresources, snapshot in *.
  rewrite removeKeys_idemp, Hb. simpl. apply merge_patch_same.
Qed.

Lemma threeWayDiffMetadata_settled o dst labels annotations :
  labels ⊆ default ∅ (GetLabels dst) -> annotations ⊆ default ∅ (GetAnnotations dst) ->
  threeWayDiffMetadata o dst labels annotations = o.
Proof.
  intros. unfold threeWayDiffMetadata. rewrite !diff_map_noop by done. by destruct o as [? ? [] ?].
Qed.

Lemma subseteq_empty_size (m : gmap string string) : m ⊆ ∅ -> size m = 0.
Proof. intros H%map_subseteq_size. rewrite map_size_empty in H. lia. Qed.

Lemma ensureLabels_settled desired o : 0 < size desired -> desired ⊆ default ∅ (GetLabels o) -> ensureLabels desired o = o.
Proof.
  intros Hsz H. unfold ensureLabels. destruct o as [av k [] c]. unfold GetLabels in *. simpl in *.
  destruct om_labels as [l|]; simpl in *.
  - by rewrite map_subseteq_union.
  - apply subseteq_empty_size in H. lia.
Qed.

Lemma ensureAnnotations_settled desired o :
  0 < size desired -> desired ⊆ default ∅ (GetAnnotations o) -> ensureAnnotations desired o = o.
Proof.
  intros Hsz H. unfold ensureAnnotations. destruct o as [av k [] c]. unfold GetAnnotations in *. simpl in *.
  destruct om_annotations as [l|]; simpl in *.
  - by rewrite map_subseteq_union.
  - apply subseteq_empty_size in H. lia.
Qed.

(** The copy carries everything the syncer would stamp onto it. *)
Definition stamped (source : syncSide) (src dst : Unstructured) : Prop :=
  let key := newObjectKey src (sd_clusterName source) (sd_workspacePath source) in
  (syn_metadataOnDestination s = true ->
     objectKey_Labels key ⊆ default ∅ (GetLabels dst) /\
     objectKey_Annotations key ⊆ default ∅ (GetAnnotations dst)) /\
  syn_destLabels s ⊆ default ∅ (GetLabels dst) /\
  syn_destAnnotations s ⊆ default ∅ (GetAnnotations dst).

Lemma ensureDestMetadata_settled dst :
  syn_destLabels s ⊆ default ∅ (GetLabels dst) ->
  syn_destAnnotations s ⊆ default ∅ (GetAnnotations dst) ->
  ensureDestMetadata s dst = dst.
Proof.
  intros Hl Ha. unfold ensureDestMetadata.
  assert ((if decide (0 < size (syn_destLabels s)) then ensureLabels (syn_destLabels s) dst else dst) = dst) as ->.
  { case_decide; [by apply ensureLabels_settled|done]. }
  case_decide; [by apply ensureAnnotations_settled|done].
Qed.

Lemma ensureDestMetadataPersisted_settled dest dst :
  sd_object dest = Some dst ->
  syn_destLabels s ⊆ default ∅ (GetLabels dst) ->
  syn_destAnnotations s ⊆ default ∅ (GetAnnotations dst) ->
  ensureDestMetadataPersisted s dest = retM (false, dest).
Proof.
  intros Hd Hl Ha. unfold ensureDestMetadataPersisted. case_decide; [done|].
  rewrite Hd. simpl. rewrite bindM_retM, ensureDestMetadata_settled by done.
  rewrite !semantic_map_refl. simpl. unfold with_object. rewrite <- Hd. by destruct dest.
Qed.

Section Server.
Context {W : Type} (h : server (S := kube) W) (w w' : W).
Context (source dest : syncSide) (src dst : Unstructured).
Hypothesis Hsource : sd_object source = Some src.
Hypothesis Hdest : sd_object dest = Some dst.
Hypothesis Hstamped : stamped source src dst.

Lemma syncObjectSpec_quiescent tr b :
  run h (Store_Get (syn_stateStore s) source) w = (tr, Ok (Some (snapshot src (syn_subresources s))), w') ->
  MarshalJSON (snapshot src (syn_subresources s)) = Ok b ->
  run h (syncObjectSpec s ctx source dest) w = (tr, Ok (false, dest), w').
Proof.
  intros Hget Hb. unfold syncObjectSpec.
  erewrite run_bindM_ok by (by apply run_wrapM_ok).
  rewrite Hsource, Hdest. simpl. rewrite bindM_retM, stripMetadata_eq. simpl. rewrite bindM_liftO, bindM_retM.
  set (copy := if syn_metadataOnDestination s then _ else _).
  assert (copy = stripped src) as ->.
  { unfold copy. destruct Hstamped as [Hm _]. destruct (syn_metadataOnDestination s); [|done].
    apply threeWayDiffMetadata_settled; by apply Hm. }
  change (SetKind _ _) with (snapshot src (syn_subresources s)).
  erewrite createMergePatch_settled by done. simpl. rewrite bindM_liftO, decide_False by (by intros ?).
  rewrite bindM_retM. simpl. by rewrite app_nil_r.
Qed.

(** When the source is what was last synchronised, the copy carries its
    metadata and the statuses agree, a pass reads the remembered state,
    sends no other request at all and asks for no requeue. *)
Lemma Sync_quiescent tr b :
  syn_mutator s = None -> syn_useServerSideApply s = false ->
  deletion_wanted s src = false -> is_deleting dst = false ->
  (syn_blockSourceDeletion s = true -> deletionFinalizer ∈ GetFinalizers src) ->
  statusOf src = statusOf dst ->
  run h (Store_Get (syn_stateStore s) source) w = (tr, Ok (Some (snapshot src (syn_subresources s))), w') ->
  MarshalJSON (snapshot src (syn_subresources s)) = Ok b ->
  run h (Sync s ctx source dest) w = (tr, Ok (Synced false (Some src) (Some dst)), w').
Proof.
  intros Hmut Hssa Hdel Hdd Hfin Hst Hget Hb.
  unfold Sync. rewrite Hsource. simpl. rewrite bindM_retM. unfold deletion_wanted in Hdel. rewrite Hdel.
  assert (claimSource s source src = retM (false, src)) as Hclaim.
  { unfold claimSource, ensureFinalizer. destruct (syn_blockSourceDeletion s); [|done].
    rewrite decide_True; [done|]. set_solver. }
  fold (claimSource s source src). rewrite Hclaim, bindM_retM.
  assert (with_object (Some src) source = source) as ->.
  { unfold with_object. rewrite <- Hsource. by destruct source. }
  unfold syncLive, applyMutations. rewrite Hmut, wrapM_retM, bindM_retM, Hssa, Hdest, Hdd.
  rewrite (ensureDestMetadataPersisted_settled dest dst) by (done || apply Hstamped).
  rewrite wrapM_retM, bindM_retM.
  assert (run h (syncObjectContents s ctx source dest) w = (tr, Ok (false, source, dest), w')) as Hc.
  { unfold syncObjectContents. erewrite run_bindM_ok by (by eapply syncObjectSpec_quiescent).
    unfold syncObjectStatusForward, syncObjectStatus. rewrite Hsource, Hdest.
    destruct (syn_syncStatusForward s), (syn_syncStatusBack s); simpl;
      repeat (rewrite ?bindM_retM, ?Hst, ?semantic_refl; simpl; rewrite ?Hdest; simpl);
      by rewrite app_nil_r. }
  erewrite run_bindM_ok by (by apply run_wrapM_ok). simpl.
  unfold caller_view. rewrite Hmut, Hsource, Hdest, app_nil_r. done.
Qed.

End Server.

End Quiescence.

(** ** The link between a copy and its source *)

Section Link.
Context {J : JsonLib} (s : objectSyncer).

Lemma GetAnnotations_ensureLabels d o : GetAnnotations (ensureLabels d o) = GetAnnotations o.
Proof. done. Qed.
Lemma GetLabels_ensureAnnotations d o : GetLabels (ensureAnnotations d o) = GetLabels o.
Proof. done. Qed.

Lemma labelWithAgent_labels o k :
  k <> agentNameLabel -> lookup_map (GetLabels (labelWithAgent s o)) k = lookup_map (GetLabels o) k.
Proof.
  intros Hk. unfold labelWithAgent. case_decide; [|done]. rewrite ensureLabels_lookup.
  by rewrite lookup_singleton_ne by done.
Qed.

Lemma labelWithAgent_annotations o : GetAnnotations (labelWithAgent s o) = GetAnnotations o.
Proof. unfold labelWithAgent. by case_decide. Qed.

Lemma ensureDestMetadata_labels o k :
  syn_destLabels s !! k = None ->
  lookup_map (GetLabels (ensureDestMetadata s o)) k = lookup_map (GetLabels o) k.
Proof.
  intros Hk. unfold ensureDestMetadata.
  repeat case_decide; rewrite ?GetLabels_ensureAnnotations, ?ensureLabels_lookup, ?Hk; done.
Qed.

Lemma ensureDestMetadata_annotations o k :
  syn_destAnnotations s !! k = None ->
  lookup_map (GetAnnotations (ensureDestMetadata s o)) k = lookup_map (GetAnnotations o) k.
Proof.
  intros Hk. unfold ensureDestMetadata.
  repeat case_decide; rewrite ?ensureAnnotations_lookup, ?Hk, ?GetAnnotations_ensureLabels; done.
Qed.

Lemma objectKey_Labels_keys key k v : objectKey_Labels key !! k = Some v -> k ∈ unsyncableLabels.
Proof.
  rewrite objectKey_Labels_lookup. unfold unsyncableLabels. intros H.
  repeat case_decide; simplify_eq; destruct_and?; subst; set_solver.
Qed.

Lemma objectKey_Annotations_keys key k v :
  objectKey_Annotations key !! k = Some v -> k ∈ unsyncableAnnotations.
Proof.
  rewrite objectKey_Annotations_lookup. unfold unsyncableAnnotations. intros H.
  repeat case_decide; simplify_eq; destruct_and?; subst; set_solver.
Qed.

(** The extra metadata of related copies uses none of the keys that link a
    copy to its source. *)
Definition extra_metadata_free : Prop :=
  (forall k, k ∈ unsyncableLabels -> syn_destLabels s !! k = None) /\
  (forall k, k ∈ unsyncableAnnotations -> syn_destAnnotations s !! k = None).

Section Linked.
Context (source : syncSide) (src o : Unstructured).
Hypothesis Hmeta : syn_metadataOnDestination s = true.
Hypothesis Hfree : extra_metadata_free.
Let key := newObjectKey src (sd_clusterName source) (sd_workspacePath source).

Lemma linkToSource_labels k :
  k ∈ unsyncableLabels ->
  lookup_map (GetLabels (linkToSource s source src (stripped o))) k = objectKey_Labels key !! k.
Proof.
  intros Hk. unfold linkToSource. rewrite Hmeta, ensureDestMetadata_labels by (by apply Hfree).
  rewrite labelWithAgent_labels by (intros ->; unfold unsyncableLabels in Hk; set_solver).
  rewrite GetLabels_ensureAnnotations, ensureLabels_lookup. fold key.
  destruct (objectKey_Labels key !! k) eqn:E; [done|].
  unfold stripped, GetLabels at 1. simpl. rewrite strip_labels_map_lookup.
  assert (label_kept k = false) as ->; [|done].
  unfold label_kept. by rewrite bool_decide_false by tauto.
Qed.

Lemma linkToSource_annotations k :
  k ∈ unsyncableAnnotations ->
  lookup_map (GetAnnotations (linkToSource s source src (stripped o))) k = objectKey_Annotations key !! k.
Proof.
  intros Hk. unfold linkToSource. rewrite Hmeta, ensureDestMetadata_annotations by (by apply Hfree).
  rewrite labelWithAgent_annotations, ensureAnnotations_lookup. fold key.
  destruct (objectKey_Annotations key !! k) eqn:E; [done|].
  rewrite GetAnnotations_ensureLabels. unfold stripped, GetAnnotations at 1. simpl.
  rewrite strip_annotations_map_lookup.
  assert (annotation_kept k = false) as ->; [|done].
  unfold annotation_kept. by rewrite bool_decide_false by tauto.
Qed.

(** The metadata stamped onto a new copy leads back to its source: the
    controller that maps a copy to a reconcile request recovers the cluster,
    namespace and name of the source, whatever labels and annotations the
    source itself carries. *)
Lemma linkToSource_roundtrip :
  sd_clusterName source <> "" -> GetName src <> "" ->
  RemoteNameForLocalObject (linkToSource s source src (stripped o))
    = Some (Req (sd_clusterName source) (ObjectKeyFromObject src)).
Proof.
  intros Hc Hn. unfold RemoteNameForLocalObject, index_map.
  rewrite linkToSource_labels by set_solver. rewrite !linkToSource_annotations by set_solver.
  rewrite objectKey_Labels_lookup, !objectKey_Annotations_lookup. simpl.
  rewrite decide_False by naive_solver. do 2 f_equal. unfold ObjectKeyFromObject. f_equal.
  destruct (decide (GetNamespace src = "")) as [->|]; by repeat case_decide; naive_solver.
Qed.

(** The copy carries the name of the agent. *)
Lemma linkToSource_owned :
  syn_agentName s <> "" -> syn_destLabels s !! agentNameLabel = None ->
  OwnedBy (linkToSource s source src (stripped o)) (syn_agentName s) = true.
Proof.
  intros Ha Hl. unfold OwnedBy. apply bool_decide_eq_true. unfold index_map, linkToSource.
  rewrite Hmeta, ensureDestMetadata_labels by done. unfold labelWithAgent. rewrite decide_True by done.
  rewrite ensureLabels_lookup. by rewrite lookup_singleton_eq.
Qed.

(** C9: the label selector of an object key finds the copy of the source
    with that key, and among sources of the same scope it finds the copy of
    another source only if the names and namespaces collide under SHA-1. *)
Theorem linkToSource_selected key' :
  (k_Namespace key' = "" <-> GetNamespace src = "") ->
  set_matches (objectKey_Labels key') (linkToSource s source src (stripped o)) <->
    k_ClusterName key' = sd_clusterName source /\
    Hash (HString (k_Name key')) = Hash (HString (GetName src)) /\
    Hash (HString (k_Namespace key')) = Hash (HString (GetNamespace src)).
Proof.
  intros Hns. rewrite set_matches_spec.
  transitivity (objectKey_Labels key' ⊆ objectKey_Labels key).
  - rewrite map_subseteq_spec. split; intros H k v Hk; specialize (H k v Hk);
      pose proof (objectKey_Labels_keys _ _ _ Hk) as Hin; revert H; by rewrite linkToSource_labels.
  - rewrite objectKey_Labels_subseteq. unfold key. simpl.
    split; intros (Hc & Hn & H); (split; [exact Hc|split; [exact Hn|]]).
    + destruct H as [E|[_ H]]; [|exact H]. rewrite E. apply Hns in E. by rewrite E.
    + destruct (decide (k_Namespace key' = "")) as [E|E]; [by left|right]. tauto.
Qed.

End Linked.
End Link.

(** ** What is remembered, and what is applied *)

Section Content.
Context {J : JsonLib} (s : objectSyncer) (ctx : context).

Lemma stripped_with_maps o l a :
  strip_labels_map l = strip_labels_map (GetLabels o) ->
  strip_annotations_map a = strip_annotations_map (GetAnnotations o) ->
  stripped (SetAnnotations a (SetLabels l o)) = stripped o.
Proof. intros Hl Ha. unfold stripped, GetLabels, GetAnnotations in *. simpl. by rewrite Hl, Ha. Qed.

Lemma snapshot_threeWay src dst source subs :
  let key := newObjectKey src (sd_clusterName source) (sd_workspacePath source) in
  snapshot (threeWayDiffMetadata (stripped src) dst (objectKey_Labels key) (objectKey_Annotations key)) subs
  = snapshot src subs.
Proof.
  intros key. unfold snapshot. f_equal. rewrite <- (stripped_idemp src) at 2. unfold threeWayDiffMetadata.
  apply stripped_with_maps; [apply strip_labels_diff_map|apply strip_annotations_diff_map];
    eauto with syncagent.
Qed.

(** A spec synchronisation that changed the destination ends by
    remembering the source: what is stored decodes to the snapshot of the
    source, without any of the metadata repairs that were part of the patch. *)
Lemma syncObjectSpec_remembers source dest src tr dest' :
  sd_object source = Some src ->
  exec (syncObjectSpec s ctx source dest) tr (Ok (true, dest')) ->
  exists obj tr1 tr2, tr = tr1 ++ tr2 /\
    exec (Store_Put (syn_stateStore s) obj (sd_clusterName source) (syn_subresources s)) tr2 (Ok tt) /\
    snapshot obj (syn_subresources s) = snapshot src (syn_subresources s) /\
    ObjectKeyFromObject obj = ObjectKeyFromObject src.
Proof.
  intros Hsrc H. unfold syncObjectSpec in H. exec_step. exec_step. rewrite Hsrc in Hx0.
  apply exec_ret_inv in Hx0 as [-> [= ->]]. rewrite stripMetadata_eq in H. do 5 exec_step.
  injection H1 as ->. destruct a2 as [[b d] c].
  assert (c = stripped src \/ exists dst, let key := newObjectKey src (sd_clusterName source) (sd_workspacePath source) in
    c = threeWayDiffMetadata (stripped src) dst (objectKey_Labels key) (objectKey_Annotations key)) as Hc.
  { destruct a as [o|]; repeat exec_step; [|by left].
    case_decide; repeat exec_step; destruct (syn_metadataOnDestination s); eauto. }
  destruct b; repeat exec_step. destruct a2. rewrite !app_assoc, app_nil_r. exists c. eexists _, tr3.
  split_and!; [done|done|..].
  - destruct Hc as [->|[dst ->]]; [|apply snapshot_threeWay].
    unfold snapshot. by rewrite stripped_idemp.
  - by destruct Hc as [->|[dst ->]].
Qed.

(** In server-side apply mode a pass over a claimed source never asks
    for a requeue and never shows the applied object to its caller, not even
    when it has just created it. *)
Lemma syncLive_ssa source dest tr res :
  syn_useServerSideApply s = true ->
  exec (syncLive s ctx source dest) tr (Ok res) ->
  sy_requeue res = false /\ sy_dest res = sd_object dest.
Proof.
  intros Hssa H. unfold syncLive in H. exec_step. destruct a as [src' dst']. rewrite Hssa in H.
  exec_step. destruct (sd_object a); [|by repeat exec_step].
  destruct (is_deleting _); [by repeat exec_step|]. exec_step. destruct a0 as [b x]. repeat exec_step.
  simpl. split; [|done]. unfold syncObjectStatus in Hx1. destruct (negb _); [by repeat exec_step|].
  repeat exec_step. destruct (negb _); by repeat exec_step.
Qed.

(** Linking a copy to its source touches labels and annotations alone. *)
Lemma linkToSource_maps source src o :
  exists l a, linkToSource s source src o = SetAnnotations a (SetLabels l o).
Proof.
  exists (GetLabels (linkToSource s source src o)), (GetAnnotations (linkToSource s source src o)).
  unfold linkToSource, labelWithAgent, ensureDestMetadata.
  destruct (syn_metadataOnDestination s); repeat case_decide; by destruct o as [? ? [] ?].
Qed.

Definition apply_payload (dest : syncSide) (r : kreq) : Prop :=
  match r with
  | RApply c obj owner force =>
      match sd_object dest with Some d => is_deleting d = false | None => True end /\
      c = sd_client dest /\ owner = fieldManager s /\ force = true /\
      (forall k, k ∈ syn_subresources s -> u_content obj !! k = None) /\
      GetFinalizers obj = [] /\ GetOwnerReferences obj = [] /\
      om_resourceVersion (u_meta obj) = "" /\ om_uid (u_meta obj) = "" /\ om_managedFields (u_meta obj) = []
  | _ => True
  end.

Lemma applyServerSide_always source dest :
  always (S := kube) (apply_payload dest) (applyServerSide s ctx source dest).
Proof.
  unfold applyServerSide. apply always_bindM; [apply deref_always|]. intros src.
  apply always_bindM; [done|]. intros d. apply always_bindM; [by apply always_wrapM, ensureNamespace_always|].
  intros _. rewrite stripMetadata_eq. simpl. rewrite bindM_liftO.
  destruct (linkToSource_maps source src (stripped d)) as (l & a & ->).
  destruct (match sd_object dest with Some _ => _ | None => _ end) eqn:Hd; [done|].
  apply always_bindM; [|by intros ?; repeat (always_step; simpl); apply recordEvent_always].
  apply always_wrapM, always_call; [|by intros ?]. simpl.
  split_and!; try done; [by destruct (sd_object dest)|].
  intros k Hk. eapply eq_trans;
    [apply (removeKeys_content (syn_subresources s) (SetAnnotations a (SetLabels l (stripped d))) k)|].
  by rewrite decide_True.
Qed.

(** C10: what is applied in server-side apply mode: never onto an object that
    is being deleted, always under the agent's own field manager, without
    the subresources, and with nothing of the source's runtime metadata. *)
Theorem applyServerSide_payload source dest tr o :
  exec (applyServerSide s ctx source dest) tr o ->
  Forall (apply_payload dest) (requests tr).
Proof. apply (always_exec (S := kube)), applyServerSide_always. Qed.

End Content.

(** ** Witnesses *)

Import Sample.

Definition claimed : Unstructured := backup "ns" (Some [deletionFinalizer]) None.

(** A syncer that has seen nothing yet, one that remembers [claimed], and
    the copy it made. *)
Definition fresh (ssa : bool) : objectSyncer := syncer ssa true None.
Definition knowing (metadata : bool) : objectSyncer :=
  syncer false metadata (Some (snapshot claimed ["status"])).
Definition claimedCopy : Unstructured :=
  linkToSource (knowing true) (kcpSide claimed) claimed (stripped claimed).

Lemma sample_extra_metadata_free : extra_metadata_free (knowing true).
Proof. split; intros k _; apply lookup_empty. Qed.

(** A fresh object is claimed, a claimed one is placed. *)
Lemma Sync_requests_witness :
  let r0 := run echo (Sync (fresh false) ctx (kcpSide (backup "ns" None None)) (serviceSide None)) tt in
  let r1 := run echo (Sync (fresh false) ctx (kcpSide claimed) (serviceSide None)) tt in
  length r0.1.1 = 2 /\
  Forall (sync_request (fresh false) serviceClient (kcpSide (backup "ns" None None)) (serviceSide None)
            (backup "ns" None None)) (requests r0.1.1) /\
  length r1.1.1 = 4 /\
  Forall (sync_request (fresh false) serviceClient (kcpSide claimed) (serviceSide None) claimed)
    (requests r1.1.1).
Proof.
  intros r0 r1. split_and!; [vm_cast_no_check (eq_refl 2)| |vm_cast_no_check (eq_refl 4)|].
  - apply (Sync_requests (fresh false) ctx serviceClient (HS := syncer_store _ _ _)
             (kcpSide (backup "ns" None None)) (serviceSide None) _ _ r0.1.2); [reflexivity|].
    exact (run_execution echo _ tt).
  - apply (Sync_requests (fresh false) ctx serviceClient (HS := syncer_store _ _ _)
             (kcpSide claimed) (serviceSide None) _ _ r1.1.2); [reflexivity|].
    exact (run_execution echo _ tt).
Defined.

Lemma claimedCopy_stamped : stamped (knowing true) (kcpSide claimed) claimed claimedCopy.
Proof.
  split; [intros _; split|split; apply map_empty_subseteq];
    apply map_subseteq_spec; intros k v Hk; rewrite default_empty_lookup; unfold claimedCopy.
  - rewrite linkToSource_labels; auto using sample_extra_metadata_free.
    by eapply objectKey_Labels_keys.
  - rewrite linkToSource_annotations; auto using sample_extra_metadata_free.
    by eapply objectKey_Annotations_keys.
Qed.

Lemma Sync_quiescent_witness :
  run echo (Sync (knowing true) ctx (kcpSide claimed) (serviceSide (Some claimedCopy))) tt
    = ([], Ok (Synced false (Some claimed) (Some claimedCopy)), tt).
Proof.
  apply (Sync_quiescent (L := TreeJson.laws) (knowing true) ctx echo tt tt
    (kcpSide claimed) (serviceSide (Some claimedCopy)) claimed claimedCopy eq_refl eq_refl
    claimedCopy_stamped [] (TreeJson.DObject (snapshot claimed ["status"]))); try reflexivity.
  intros _. by left.
Defined.

(** The copy has got a status: it is brought back, and that is all. *)
Definition readyCopy : Unstructured := setStatus (VStr "Ready") claimed.

Lemma Sync_settled_witness :
  let r := run echo (Sync (knowing false) ctx (kcpSide claimed) (serviceSide (Some readyCopy))) tt in
  existsb is_status_write (requests r.1.1) = true /\
  (requests r.1.1 = [] \/
   exists source' dest',
     exec (applyMutations (knowing false) (kcpSide claimed) (serviceSide (Some readyCopy))) [] (Ok (source', dest')) /\
     Forall (settled_request (knowing false) serviceClient source' dest') (requests r.1.1)).
Proof.
  intros r. split; [vm_cast_no_check (eq_refl true)|].
  apply (Sync_settled (knowing false) ctx serviceClient (HS := syncer_store _ _ _)
    (kcpSide claimed) (serviceSide (Some readyCopy)) r.1.1
    (Synced false (Some (setStatus (VStr "Ready") claimed)) (Some readyCopy)));
    [reflexivity| |reflexivity].
  apply (run_exec echo _ tt _ _ tt). vm_cast_no_check (eq_refl r).
Defined.

Lemma linkToSource_selected_witness :
  set_matches (objectKey_Labels (ObjectKey "2gz9" "" "ns" "nightly")) claimedCopy.
Proof.
  apply (linkToSource_selected (knowing true) (kcpSide claimed) claimed claimed eq_refl
    sample_extra_metadata_free); [|split; [reflexivity|split; reflexivity]].
  split; discriminate.
Defined.

(** Without a remembered state the spec is synchronised by a full update. *)
Lemma syncObjectSpec_remembers_witness :
  let r := run echo (syncObjectSpec (fresh false) ctx (kcpSide claimed) (serviceSide (Some claimed))) tt in
  exists obj tr1 tr2, r.1.1 = tr1 ++ tr2 /\
    exec (Store_Put (memoryStore None) obj "2gz9" ["status"]) tr2 (Ok tt) /\
    snapshot obj ["status"] = snapshot claimed ["status"] /\
    ObjectKeyFromObject obj = ObjectKeyFromObject claimed.
Proof.
  intros r.
  apply (syncObjectSpec_remembers (fresh false) ctx (kcpSide claimed) (serviceSide (Some claimed)) claimed
    r.1.1 (serviceSide (Some (fullUpdate (fresh false) claimed (stripped claimed) claimed)))); [reflexivity|].
  apply (run_exec echo _ tt _ _ tt). vm_cast_no_check (eq_refl r).
Defined.

Lemma syncLive_ssa_witness :
  let r := run echo (syncLive (fresh true) ctx (kcpSide claimed) (serviceSide None)) tt in
  existsb is_object_write (requests r.1.1) = true /\
  exists res, r.1.2 = Ok res /\ sy_requeue res = false /\ sy_dest res = None.
Proof.
  intros r. split; [vm_cast_no_check (eq_refl true)|].
  assert (is_ok r.1.2 = true) as Hok by (vm_cast_no_check (eq_refl true)).
  destruct (is_ok_inv _ Hok) as [res Hr]. exists res. split; [exact Hr|].
  apply (syncLive_ssa (fresh true) ctx (kcpSide claimed) (serviceSide None) r.1.1 res eq_refl).
  rewrite <- Hr. exact (run_execution echo _ tt).
Defined.

Lemma applyServerSide_payload_witness :
  let r := run echo (applyServerSide (fresh true) ctx (kcpSide claimed) (serviceSide None)) tt in
  length r.1.1 = 4 /\ Forall (apply_payload (fresh true) (serviceSide None)) (requests r.1.1).
Proof.
  intros r. split; [vm_cast_no_check (eq_refl 4)|].
  apply (applyServerSide_payload (fresh true) ctx (kcpSide claimed) (serviceSide None) r.1.1 r.1.2).
  exact (run_execution echo _ tt).
Defined.
