(* ===== verification/Limits.v ===== *)
(** The limits of the API server on the names and labels the agent makes up.

    An API server rejects an object whose label values are longer than 63
    characters or contain other characters than letters, digits, dashes,
    underscores and dots, and a Secret whose name is not a DNS subdomain of at
    most 253 characters.  The agent builds such values from names of any
    length: it hashes them. *)

From S2P Require Import Prelude Effects Kube Crypto ApiTypes Meta Metadata StateStore ObjectSyncer ObjectSyncerProofs.
From S2P Require Import Samples.

(** ** The rules *)

Definition in_range (lo hi a : ascii) : bool :=
  (N.leb (Ascii.N_of_ascii lo) (Ascii.N_of_ascii a)) && (N.leb (Ascii.N_of_ascii a) (Ascii.N_of_ascii hi)).

Definition is_lower_alnum (a : ascii) : bool := in_range "a" "z" a || in_range "0" "9" a.
Definition is_alnum (a : ascii) : bool := is_lower_alnum a || in_range "A" "Z" a.
Definition one_of (l : list ascii) (a : ascii) : bool := existsb (Ascii.eqb a) l.

(** Every character satisfies [inner], the first and the last one [outer]. *)
Fixpoint all_chars (inner : ascii -> bool) (s : string) : bool :=
  match s with
  | EmptyString => true
  | String a s' => inner a && all_chars inner s'
  end.
Fixpoint last_char (outer : ascii -> bool) (s : string) : bool :=
  match s with
  | EmptyString => false
  | String a EmptyString => outer a
  | String _ s' => last_char outer s'
  end.
Definition first_char (outer : ascii -> bool) (s : string) : bool :=
  match s with EmptyString => false | String a _ => outer a end.

(** [validation.IsValidLabelValue] *)
Definition valid_label_value (s : string) : bool :=
  Nat.leb (String.length s) 63 &&
  (String.eqb s "" ||
   first_char is_alnum s && last_char is_alnum s &&
   all_chars (fun a => is_alnum a || one_of ["-"; "_"; "."]%char a) s).

(** [validation.IsDNS1123Subdomain]; labels between dots are covered by the
    condition that no dot occurs. *)
Definition valid_dns_label_of (max : nat) (s : string) : bool :=
  Nat.leb (String.length s) max && first_char is_lower_alnum s && last_char is_lower_alnum s &&
  all_chars (fun a => is_lower_alnum a || one_of ["-"]%char a) s.

(** ** Strings *)

Lemma all_chars_app p a b : all_chars p (a +:+ b) = all_chars p a && all_chars p b.
Proof.
  induction a as [|x a IH]; [done|]. change (String x a +:+ b) with (String x (a +:+ b)). simpl.
  by rewrite IH, andb_assoc.
Qed.

Lemma all_chars_impl (p q : ascii -> bool) s :
  (forall a, p a = true -> q a = true) -> all_chars p s = true -> all_chars q s = true.
Proof. intros H. induction s; simpl; [done|]. rewrite !andb_true_iff. naive_solver. Qed.

Lemma last_char_app p a b : b <> "" -> last_char p (a +:+ b) = last_char p b.
Proof.
  intros Hb. induction a as [|x a IH]; [done|]. change (String x a +:+ b) with (String x (a +:+ b)).
  rewrite <- IH. simpl. destruct a; [destruct b|]; done.
Qed.

Lemma all_chars_last p s : s <> "" -> all_chars p s = true -> last_char p s = true.
Proof.
  induction s as [|a s IH]; [done|]. intros _. simpl. rewrite andb_true_iff. intros [Ha Hs].
  destruct s; [done|]. by apply IH.
Qed.

Lemma all_chars_first p s : s <> "" -> all_chars p s = true -> first_char p s = true.
Proof. destruct s; simpl; [done|]. intros _. by rewrite andb_true_iff; intros [? _]. Qed.

Lemma all_hex_chars s : all_hex s = true -> all_chars is_hex s = true.
Proof. induction s; simpl; [done|]. rewrite !andb_true_iff. naive_solver. Qed.

Lemma is_hex_lower a : is_hex a = true -> is_lower_alnum a = true.
Proof. destruct a as [[] [] [] [] [] [] [] []]; vm_compute; congruence. Qed.

Lemma hex_lower s : all_hex s = true -> all_chars is_lower_alnum s = true.
Proof. intros H%all_hex_chars. eapply all_chars_impl; [|exact H]. apply is_hex_lower. Qed.

(** A hash is a valid value. *)
Lemma Hash_valid d : valid_label_value (Hash d) = true.
Proof.
  pose proof (Hash_length d) as Hl. pose proof (hex_lower _ (Hash_all_hex d)) as Hh.
  assert (Hash d <> "") as Hne by (by intros E; rewrite E in Hl).
  assert (all_chars is_alnum (Hash d) = true) as Ha.
  { eapply all_chars_impl; [|exact Hh]. unfold is_alnum. by intros a ->. }
  unfold valid_label_value. rewrite Hl, (all_chars_first _ _ Hne Ha), (all_chars_last _ _ Hne Ha). simpl.
  rewrite (all_chars_impl is_alnum _ (Hash d)); [by rewrite orb_true_r|by intros a ->|done].
Qed.

(** ** Labels *)

Definition labels_valid (m : option (gmap string string)) : Prop :=
  forall k v, lookup_map m k = Some v -> valid_label_value v = true.

Lemma ensureLabels_valid d o :
  labels_valid (Some d) -> labels_valid (GetLabels o) -> labels_valid (GetLabels (ensureLabels d o)).
Proof.
  intros Hd Ho k v. rewrite ensureLabels_lookup. destruct (d !! k) eqn:E; [|by apply Ho].
  intros [= <-]. by apply (Hd k).
Qed.

Lemma objectKey_Labels_valid k : valid_label_value (k_ClusterName k) = true -> labels_valid (Some (objectKey_Labels k)).
Proof.
  intros Hc l v. simpl. rewrite objectKey_Labels_lookup.
  repeat case_decide; intros; simplify_eq; auto using Hash_valid.
Qed.

Lemma relatedCopyLabels_valid primary cluster pr identifier agent :
  valid_label_value identifier = true -> valid_label_value agent = true ->
  labels_valid (Some (relatedCopyLabels primary cluster pr identifier agent)).
Proof.
  intros Hi Ha l v. simpl. rewrite relatedCopyLabels_lookup.
  repeat case_decide; intros; simplify_eq; try done. apply Hash_valid.
Qed.

Section Copy.
Context {J : JsonLib} (s : objectSyncer) (source : syncSide) (src o : Unstructured).
Hypothesis Hcluster : valid_label_value (sd_clusterName source) = true.
Hypothesis Hagent : valid_label_value (syn_agentName s) = true.
Hypothesis Hextra : labels_valid (Some (syn_destLabels s)).

Lemma linkToSource_valid x : labels_valid (GetLabels x) -> labels_valid (GetLabels (linkToSource s source src x)).
Proof.
  intros Hx. unfold linkToSource, ensureDestMetadata.
  set (y := if syn_metadataOnDestination s then _ else _).
  assert (labels_valid (GetLabels y)) as Hy.
  { unfold y. destruct (syn_metadataOnDestination s); [|done]. unfold labelWithAgent.
    assert (labels_valid (GetLabels (ensureLabels (objectKey_Labels
      (newObjectKey src (sd_clusterName source) (sd_workspacePath source))) x))) as Hk.
    { apply ensureLabels_valid; [|done]. by apply objectKey_Labels_valid. }
    case_decide; [|exact Hk]. apply ensureLabels_valid; [|exact Hk].
    intros k v. simpl. rewrite lookup_singleton_Some. by intros [_ <-]. }
  repeat case_decide; try exact Hy; by apply (ensureLabels_valid (syn_destLabels s) y).
Qed.

Lemma stripped_valid : labels_valid (GetLabels o) -> labels_valid (GetLabels (stripped o)).
Proof.
  intros Ho k v. unfold stripped, GetLabels at 1. simpl. rewrite strip_labels_map_lookup.
  destruct (label_kept k); [apply Ho|done].
Qed.

End Copy.

(** ** The name of the Secret *)

Lemma secret_name_valid cluster d :
  valid_dns_label_of 63 cluster = true ->
  valid_dns_label_of 94 ("obj-state-" +:+ cluster +:+ "-" +:+ ShortHash d) = true.
Proof.
  unfold valid_dns_label_of. rewrite !andb_true_iff. intros [[[Hl _] _] Hc].
  pose proof (ShortHash_length d) as HL. pose proof (hex_lower _ (ShortHash_all_hex d)) as Hh.
  assert (ShortHash d <> "") as Hne by (by intros E; rewrite E in HL).
  split_and!.
  - rewrite !string_length_app, HL. simpl. apply Nat.leb_le in Hl. apply Nat.leb_le. lia.
  - done.
  - rewrite !last_char_app; [by apply all_chars_last|done|by destruct (ShortHash d)|].
    destruct cluster; [done|]. discriminate.
  - rewrite !all_chars_app, Hc. rewrite (all_chars_impl is_lower_alnum _ (ShortHash d)); [done|by intros a ->|done].
Qed.

(** C19: what the agent makes up is within the limits of the API server,
    however long the names and namespaces of the objects are that it is made
    of.  What it takes over as it is has to be valid itself: the name of the
    cluster and of the agent, the identifier of the related resource, the
    configured extra labels and the labels that the object has anyway.  Then
    every label of a copy is valid, the labels that mark a related copy are,
    and so are the labels and the name of the Secret that remembers an object;
    that name is a DNS label of at most 94 characters. *)
Theorem made_up_values_valid {J : JsonLib} (s : objectSyncer) (source : syncSide) (src o : Unstructured)
    namespace stateCluster tr b pr identifier :
  valid_dns_label_of 63 (sd_clusterName source) = true ->
  valid_label_value (sd_clusterName source) = true -> valid_label_value (syn_agentName s) = true ->
  valid_label_value identifier = true ->
  labels_valid (Some (syn_destLabels s)) -> labels_valid (GetLabels o) ->
  exec (newKubernetesBackend namespace source stateCluster) tr (Ok b) ->
  labels_valid (GetLabels (linkToSource s source src (stripped o))) /\
  labels_valid (Some (relatedCopyLabels src (sd_clusterName source) pr identifier (syn_agentName s))) /\
  labels_valid (Some (kb_labels b)) /\ valid_dns_label_of 94 (nn_name (kb_secretName b)) = true.
Proof.
  intros Hdns Hc Ha Hid Hx Ho H. split_and!.
  - apply linkToSource_valid; auto using stripped_valid.
  - by apply relatedCopyLabels_valid.
  - unfold newKubernetesBackend in H. repeat exec_step. intros k v. simpl. rewrite lookup_insert_Some.
    intros [[_ <-]|[_ H]]; [done|].
    exact (objectKey_Labels_valid (newObjectKey a (sd_clusterName source) (sd_workspacePath source)) Hc k v H).
  - unfold newKubernetesBackend in H. repeat exec_step. simpl. by apply secret_name_valid.
Qed.

Lemma made_up_values_valid_witness :
  labels_valid (GetLabels claimedCopy) /\
  valid_dns_label_of 94 ("obj-state-2gz9-" +:+ hashObject claimed) = true.
Proof.
  destruct (made_up_values_valid (knowing true) (Sample.kcpSide claimed) claimed claimed "kcp-system"
    (Sample.serviceSide None) []
    (MkKubernetesBackend (NN "kcp-system" ("obj-state-" +:+ "2gz9" +:+ "-" +:+ hashObject claimed))
      (<[objectStateLabelName := objectStateLabelValue]> (objectKey_Labels (newObjectKey claimed "2gz9" "root:team")))
      (Sample.serviceSide None))
    "publish-backups" "settings")
    as (H1 & _ & _ & H2); [reflexivity..| | | |].
  - intros k v. simpl. rewrite lookup_empty. discriminate.
  - intros k v. unfold claimed, Sample.backup, GetLabels. simpl. rewrite lookup_singleton_Some. intros [_ <-]. reflexivity.
  - constructor.
  - split; [exact H1|exact H2].
Defined.
