(* ===== verification/Projection.v ===== *)
(** Projection of CRDs and related resources:
    [internal/projection/projection.go], with the fields of the
    CustomResourceDefinition type that the program reads or writes. *)

From S2P Require Import Prelude Kube ApiTypes.

(** ** CustomResourceDefinitions *)

Record CustomResourceSubresources : Type := MkSubresources {
  sub_Status : bool;
  (* the replica paths of the scale subresource *)
  sub_Scale : option (string * string)
}.

Record CustomResourceDefinitionVersion : Type := MkVersion {
  cv_Name : string;
  cv_Served : bool;
  cv_Storage : bool;
  (* [None]: no schema, [Some None]: a schema without an OpenAPI part *)
  cv_Schema : option (option value);
  cv_Subresources : option CustomResourceSubresources;
  (* printer columns and other fields the program passes through *)
  cv_Other : gmap string value
}.

Record CustomResourceDefinitionNames : Type := MkNames {
  cn_Plural : string;
  cn_Singular : string;
  cn_Kind : string;
  cn_ListKind : string;
  cn_ShortNames : option (list string);
  cn_Categories : option (list string)
}.

Record CustomResourceDefinitionSpec : Type := MkCRDSpec {
  cs_Group : string;
  cs_Names : CustomResourceDefinitionNames;
  cs_Scope : ResourceScope;
  cs_Versions : list CustomResourceDefinitionVersion;
  (* the conversion strategy *)
  cs_Conversion : option string
}.

Record CustomResourceDefinition : Type := MkCRD {
  crd_Name : string;
  crd_Annotations : option (gmap string string);
  crd_Generation : Z;
  (* types of the conditions that are true *)
  crd_Conditions : list string;
  crd_Spec : CustomResourceDefinitionSpec
}.

Definition with_spec (f : CustomResourceDefinitionSpec -> CustomResourceDefinitionSpec)
    (c : CustomResourceDefinition) : CustomResourceDefinition :=
  MkCRD (crd_Name c) (crd_Annotations c) (crd_Generation c) (crd_Conditions c) (f (crd_Spec c)).
Definition set_versions (vs : list CustomResourceDefinitionVersion) : CustomResourceDefinition -> CustomResourceDefinition :=
  with_spec (fun s => MkCRDSpec (cs_Group s) (cs_Names s) (cs_Scope s) vs (cs_Conversion s)).
Definition crd_Versions (c : CustomResourceDefinition) : list CustomResourceDefinitionVersion :=
  cs_Versions (crd_Spec c).
Definition set_version_name (n : string) (v : CustomResourceDefinitionVersion) : CustomResourceDefinitionVersion :=
  MkVersion n (cv_Served v) (cv_Storage v) (cv_Schema v) (cv_Subresources v) (cv_Other v).
Definition set_storage (v : CustomResourceDefinitionVersion) : CustomResourceDefinitionVersion :=
  MkVersion (cv_Name v) (cv_Served v) true (cv_Schema v) (cv_Subresources v) (cv_Other v).

(** [version.CompareKubeAwareVersionStrings] of the Kubernetes libraries. *)
Class KubeVersions : Type := CompareKubeAwareVersionStrings : string -> string -> Z.

(** Kubernetes orders versions totally, and only equal strings compare equal. *)
Class KubeVersionLaws (K : KubeVersions) : Prop := {
  kube_compare_total a b :
    (CompareKubeAwareVersionStrings a b <= 0)%Z \/ (CompareKubeAwareVersionStrings b a <= 0)%Z;
  kube_compare_trans a b c :
    (CompareKubeAwareVersionStrings a b <= 0)%Z -> (CompareKubeAwareVersionStrings b c <= 0)%Z ->
    (CompareKubeAwareVersionStrings a c <= 0)%Z;
  kube_compare_antisym a b :
    (CompareKubeAwareVersionStrings a b <= 0)%Z -> (CompareKubeAwareVersionStrings b a <= 0)%Z -> a = b
}.

Section Projection.
Context {K : KubeVersions}.

(** ** Names of published resources *)

Definition PublishedResourceSourceGK (pubRes : PublishedResource) : GroupKind :=
  GK (sr_APIGroup (ps_Resource (pr_Spec pubRes))) (sr_Kind (ps_Resource (pr_Spec pubRes))).

Definition getStorageVersion (crd : CustomResourceDefinition) : string :=
  match find cv_Storage (crd_Versions crd) with
  | Some v => cv_Name v
  | None => ""
  end.

Definition PublishedResourceSourceGVK (crd : CustomResourceDefinition) (pubRes : PublishedResource)
  : outcome GroupVersionKind :=
  let storageVersion := getStorageVersion crd in
  if decide (storageVersion = "") then Err (ErrorString "CRD does not contain a storage version")
  else
    let sourceGV := PublishedResourceSourceGK pubRes in
    Ok (GVK (gk_group sourceGV) storageVersion (gk_kind sourceGV)).

(** ** The steps of [ProjectCRD] *)

Definition wantedVersion (src : SourceResourceDescriptor) (ver : CustomResourceDefinitionVersion) : bool :=
  if decide (sr_Version src <> "") then bool_decide (cv_Name ver = sr_Version src)
  else if decide (0 < length (sr_Versions src)) then bool_decide (cv_Name ver ∈ sr_Versions src)
  else true.

Definition stripUnwantedVersions (crd : CustomResourceDefinition) (pubRes : PublishedResource)
  : outcome CustomResourceDefinition :=
  let src := ps_Resource (pr_Spec pubRes) in
  if decide (sr_Version src <> "" /\ 0 < length (sr_Versions src))
  then Err (ErrorString "cannot configure both .version and .versions in as the source of a PublishedResource")
  else
    let versions := List.filter (wantedVersion src) (crd_Versions crd) in
    if decide (length versions = 0) then
      Err (ErrorString
        (if decide (sr_Version src <> "") then "CRD does not contain version " +:+ sr_Version src
         else if decide (0 < length (sr_Versions src)) then "CRD does not contain any of versions"
         else "CRD contains no versions"))
    else Ok (set_versions versions crd).

(** The loop that remembers the index of the last served version. *)
Fixpoint scanServed (i : nat) (latest : option nat) (vs : list CustomResourceDefinitionVersion) : option nat :=
  match vs with
  | [] => latest
  | v :: vs' => scanServed (S i) (if cv_Served v then Some i else latest) vs'
  end.

Definition latestServed (vs : list CustomResourceDefinitionVersion) : option nat := scanServed 0 None vs.

Definition adjustStorageVersion (crd : CustomResourceDefinition) : outcome CustomResourceDefinition :=
  let vs := crd_Versions crd in
  match latestServed vs with
  | None => Err (ErrorString "no CRD version selected that is marked as served")
  | Some i => Ok (if existsb cv_Storage vs then crd else set_versions (alter set_storage i vs) crd)
  end.

Definition projectVersionName (versions : gmap string string) (v : CustomResourceDefinitionVersion)
  : CustomResourceDefinitionVersion :=
  let newVersion := default "" (versions !! cv_Name v) in
  if decide (newVersion <> "") then set_version_name newVersion v else v.

(** The name of the first version that repeats an earlier one. *)
Fixpoint firstDuplicate (known : gset string) (vs : list CustomResourceDefinitionVersion) : option string :=
  match vs with
  | [] => None
  | v :: vs' =>
      if decide (cv_Name v ∈ known) then Some (cv_Name v)
      else firstDuplicate ({[cv_Name v]} ∪ known) vs'
  end.

Definition version_le (a b : CustomResourceDefinitionVersion) : bool :=
  (CompareKubeAwareVersionStrings (cv_Name a) (cv_Name b) <=? 0)%Z.

Definition projectCRDVersions (crd : CustomResourceDefinition) (pubRes : PublishedResource)
  : outcome CustomResourceDefinition :=
  match ps_Projection (pr_Spec pubRes) with
  | None => Ok crd
  | Some projection =>
      if decide (pj_Version projection <> "") then
        match crd_Versions crd with
        | [v] => Ok (set_versions [set_version_name (pj_Version projection) v] crd)
        | _ => Err (ErrorString ("cannot project CRD version to a single version " +:+ pj_Version projection))
        end
      else if decide (0 < size (pj_Versions projection)) then
        let vs := projectVersionName (pj_Versions projection) <$> crd_Versions crd in
        match firstDuplicate ∅ vs with
        | Some name =>
            Err (ErrorString ("CRD contains multiple entries for " +:+ name +:+ " after applying mutation rules"))
        | None => Ok (set_versions (SortFunc version_le vs) crd)
        end
      else Ok crd
  end.

Definition projectNames (projection : ResourceProjection) (n : CustomResourceDefinitionNames)
  : CustomResourceDefinitionNames :=
  let n := if decide (pj_Kind projection <> "") then
             let kind := pj_Kind projection in
             MkNames (ToLower kind +:+ "s") (ToLower kind) kind (kind +:+ "List") (cn_ShortNames n) (cn_Categories n)
           else n in
  let n := if decide (pj_Plural projection <> "") then
             MkNames (pj_Plural projection) (cn_Singular n) (cn_Kind n) (cn_ListKind n) (cn_ShortNames n) (cn_Categories n)
           else n in
  let n := match pj_Categories projection with
           | Some c => MkNames (cn_Plural n) (cn_Singular n) (cn_Kind n) (cn_ListKind n) (cn_ShortNames n) (Some c)
           | None => n
           end in
  match pj_ShortNames projection with
  | Some s => MkNames (cn_Plural n) (cn_Singular n) (cn_Kind n) (cn_ListKind n) (Some s) (cn_Categories n)
  | None => n
  end.

Definition projectCRDNames (crd : CustomResourceDefinition) (pubRes : PublishedResource)
  : outcome CustomResourceDefinition :=
  match ps_Projection (pr_Spec pubRes) with
  | None => Ok crd
  | Some projection =>
      let s := crd_Spec crd in
      let group := if decide (pj_Group projection <> "") then pj_Group projection else cs_Group s in
      let names := projectNames projection (cs_Names s) in
      let scope := if decide (pj_Scope projection <> "") then pj_Scope projection else cs_Scope s in
      Ok (MkCRD (cn_Plural names +:+ "." +:+ group) (crd_Annotations crd) (crd_Generation crd) (crd_Conditions crd)
            (MkCRDSpec group names scope (cs_Versions s) (cs_Conversion s)))
  end.

Definition ProjectCRD (crd : CustomResourceDefinition) (pubRes : PublishedResource)
  : outcome CustomResourceDefinition :=
  let! result := stripUnwantedVersions crd pubRes in
  let! result := adjustStorageVersion result in
  let! result := projectCRDVersions result pubRes in
  projectCRDNames result pubRes.

Definition PublishedResourceProjectedGVK (originalCRD : CustomResourceDefinition) (pubRes : PublishedResource)
  : outcome GroupVersionKind :=
  let! projectedCRD := wrapErr "failed to project CRD" (ProjectCRD originalCRD pubRes) in
  let storageVersion := getStorageVersion projectedCRD in
  if decide (storageVersion = "") then Err (ErrorString "projected CRD does not contain a storage version")
  else Ok (GVK (cs_Group (crd_Spec projectedCRD)) storageVersion (cn_Kind (cs_Names (crd_Spec projectedCRD)))).

End Projection.

(** ** Related resources *)

Definition RelatedResourceGVR (rr : RelatedResourceSpec) : GroupVersionResource :=
  if decide (rr_Kind rr = "ConfigMap") then GVR "" "v1" "configmaps"
  else if decide (rr_Kind rr = "Secret") then GVR "" "v1" "secrets"
  else GVR (rr_Group rr) (rr_Version rr) (rr_Resource rr).

Definition RelatedResourceProjectedGVR (rr : RelatedResourceSpec) : GroupVersionResource :=
  let resultGVR := RelatedResourceGVR rr in
  match rr_Projection rr with
  | None => resultGVR
  | Some projection =>
      GVR (if decide (rp_Group projection <> "") then rp_Group projection else gvr_group resultGVR)
          (if decide (rp_Version projection <> "") then rp_Version projection else gvr_version resultGVR)
          (if decide (rp_Resource projection <> "") then rp_Resource projection else gvr_resource resultGVR)
  end.

Definition RelatedResourceKcpGVR (rr : RelatedResourceSpec) : GroupVersionResource :=
  if decide (rr_Origin rr = RelatedResourceOriginKcp) then RelatedResourceGVR rr
  else RelatedResourceProjectedGVR rr.

Definition RelatedResourceServiceGVK (rr : RelatedResourceSpec) : GroupVersionResource :=
  if decide (rr_Origin rr = RelatedResourceOriginService) then RelatedResourceGVR rr
  else RelatedResourceProjectedGVR rr.

(** ** Lemmas *)

Section ProjectionFacts.
Context {K : KubeVersions}.

Definition version_names (vs : list CustomResourceDefinitionVersion) : list string := cv_Name <$> vs.
Definition storage_count (vs : list CustomResourceDefinitionVersion) : nat :=
  length (List.filter cv_Storage vs).

(** What the API server guarantees of a CRD: version names are unique and
    not empty, and at most one version is the storage version. *)
Definition crd_valid (crd : CustomResourceDefinition) : Prop :=
  NoDup (version_names (crd_Versions crd)) /\
  Forall (fun v => cv_Name v <> "") (crd_Versions crd) /\
  storage_count (crd_Versions crd) <= 1.

(** A version of the projected CRD and the version it was made from. *)
Definition same_content (v v' : CustomResourceDefinitionVersion) : Prop :=
  cv_Served v' = cv_Served v /\ cv_Schema v' = cv_Schema v /\
  cv_Subresources v' = cv_Subresources v /\ cv_Other v' = cv_Other v.

Lemma storage_count_perm vs vs' : vs ≡ₚ vs' -> storage_count vs = storage_count vs'.
Proof.
  unfold storage_count. induction 1; simpl; repeat case_match; simpl; congruence.
Qed.

Lemma storage_count_le_filter f vs : storage_count (List.filter f vs) <= storage_count vs.
Proof. unfold storage_count. induction vs as [|v vs IH]; simpl; [done|].
  destruct (f v); simpl; destruct (cv_Storage v); simpl; lia. Qed.

Lemma storage_count_fmap (f : CustomResourceDefinitionVersion -> CustomResourceDefinitionVersion) vs :
  (forall v, cv_Storage (f v) = cv_Storage v) -> storage_count (f <$> vs) = storage_count vs.
Proof.
  intros Hf. unfold storage_count. induction vs as [|v vs IH]; [done|].
  rewrite fmap_cons. simpl. rewrite Hf. destruct (cv_Storage v); simpl; by rewrite IH.
Qed.

Lemma storage_count_pos vs : existsb cv_Storage vs = true <-> 0 < storage_count vs.
Proof.
  unfold storage_count. induction vs as [|v vs IH]; simpl; [split; [done|lia]|].
  destruct (cv_Storage v); simpl; [split; [lia|done]|done].
Qed.

Lemma storage_count_zero vs : existsb cv_Storage vs = false -> storage_count vs = 0.
Proof.
  intros H. destruct (storage_count vs) eqn:E; [done|].
  assert (existsb cv_Storage vs = true) by (apply storage_count_pos; lia). congruence.
Qed.

Lemma List_filter_names f vs :
  NoDup (version_names vs) -> NoDup (version_names (List.filter f vs)).
Proof.
  unfold version_names. induction vs as [|v vs IH]; simpl; [done|].
  rewrite NoDup_cons. intros [Hv Hvs]. destruct (f v); simpl; [|auto].
  rewrite NoDup_cons. split; [|auto]. rewrite list_elem_of_fmap in *. intros (w & Hvw & Hw).
  apply Hv. exists w. split; [done|]. rewrite list_elem_of_In, filter_In in Hw.
  apply list_elem_of_In. tauto.
Qed.

(** The scan finds the last served version, if there is one. *)
Lemma scanServed_spec vs i latest :
  match scanServed i latest vs with
  | Some j =>
      (latest = Some j /\ Forall (fun v => cv_Served v = false) vs) \/
      (exists k v, j = i + k /\ vs !! k = Some v /\ cv_Served v = true)
  | None => latest = None /\ Forall (fun v => cv_Served v = false) vs
  end.
Proof.
  revert i latest. induction vs as [|v vs IH]; intros i latest; simpl.
  { destruct latest; auto. }
  specialize (IH (S i) (if cv_Served v then Some i else latest)).
  destruct (scanServed _ _ _) as [j|].
  - destruct IH as [[Hl Hvs]|(k & w & -> & Hk & Hw)].
    + destruct (cv_Served v) eqn:Ev; [|auto]. right. exists 0, v. simplify_eq. simpl. auto with lia.
    + right. exists (S k), w. simpl. auto with lia.
  - destruct IH as [Hl Hvs]. destruct (cv_Served v) eqn:Ev; [done|]. auto.
Qed.

Lemma latestServed_Some vs j :
  latestServed vs = Some j -> exists v, vs !! j = Some v /\ cv_Served v = true.
Proof.
  intros H. pose proof (scanServed_spec vs 0 None) as Hs. unfold latestServed in H. rewrite H in Hs.
  destruct Hs as [[? _]|(k & v & -> & ? & ?)]; [done|]. eauto.
Qed.

Lemma latestServed_None vs : latestServed vs = None <-> Forall (fun v => cv_Served v = false) vs.
Proof.
  pose proof (scanServed_spec vs 0 None) as Hs. unfold latestServed. split.
  - intros H. rewrite H in Hs. tauto.
  - intros H. destruct (scanServed 0 None vs); [|done].
    destruct Hs as [[? _]|(k & v & _ & Hk & Hv)]; [done|].
    rewrite Forall_lookup in H. specialize (H _ _ Hk). congruence.
Qed.

Lemma storage_count_alter vs i v :
  existsb cv_Storage vs = false -> vs !! i = Some v -> storage_count (alter set_storage i vs) = 1.
Proof.
  unfold storage_count. revert i. induction vs as [|w vs IH]; intros [|i] Hs Hi; simplify_eq/=.
  - apply orb_false_iff in Hs as [_ Hs]. f_equal. by apply (storage_count_zero vs).
  - apply orb_false_iff in Hs as [-> Hs]. by apply IH.
Qed.

Lemma firstDuplicate_None known vs :
  firstDuplicate known vs = None <->
  NoDup (version_names vs) /\ Forall (fun v => cv_Name v ∉ known) vs.
Proof.
  unfold version_names. revert known. induction vs as [|v vs IH]; intros known; simpl;
    [split; [split; constructor|done]|].
  rewrite NoDup_cons, Forall_cons. case_decide as Hv; [split; [done|tauto]|].
  rewrite IH, list_elem_of_fmap, !Forall_forall. set_solver.
Qed.

(** *** The steps *)

Definition wanted_versions (crd : CustomResourceDefinition) (pubRes : PublishedResource) :=
  List.filter (wantedVersion (ps_Resource (pr_Spec pubRes))) (crd_Versions crd).

Definition ambiguous_source (pubRes : PublishedResource) : Prop :=
  let src := ps_Resource (pr_Spec pubRes) in sr_Version src <> "" /\ 0 < length (sr_Versions src).

Lemma stripUnwantedVersions_ok crd pubRes c1 :
  stripUnwantedVersions crd pubRes = Ok c1 <->
  ~ ambiguous_source pubRes /\ wanted_versions crd pubRes <> [] /\
  c1 = set_versions (wanted_versions crd pubRes) crd.
Proof.
  unfold stripUnwantedVersions, ambiguous_source. fold (wanted_versions crd pubRes). cbv zeta.
  case_decide as H1; [split; [done|tauto]|]. case_decide as H2.
  - split; [done|]. intros (_ & H & _). by apply length_zero_iff_nil in H2.
  - split; [|intros (_ & _ & ->); done]. intros [= <-]. split_and!; [done| |done].
    intros E. by rewrite E in H2.
Qed.

Lemma stripUnwantedVersions_err crd pubRes e :
  stripUnwantedVersions crd pubRes = Err e ->
  ambiguous_source pubRes \/ Forall (fun v => cv_Served v = false) (wanted_versions crd pubRes).
Proof.
  unfold stripUnwantedVersions, ambiguous_source. fold (wanted_versions crd pubRes). cbv zeta.
  case_decide as H1; [tauto|]. case_decide as H2; [|done]. intros _. right.
  apply length_zero_iff_nil in H2. rewrite H2. constructor.
Qed.

Lemma stripUnwantedVersions_panic crd pubRes m : stripUnwantedVersions crd pubRes <> Panic m.
Proof. unfold stripUnwantedVersions. by repeat case_decide. Qed.

(** Served version, content and name stay, whatever happens to the storage flag. *)
Lemma crd_Versions_set vs crd : crd_Versions (set_versions vs crd) = vs.
Proof. done. Qed.

Definition same_version (v v' : CustomResourceDefinitionVersion) : Prop :=
  same_content v v' /\ cv_Name v' = cv_Name v.

Lemma same_version_refl v : same_version v v.
Proof. done. Qed.

Lemma Forall2_same_refl vs : Forall2 same_version vs vs.
Proof. induction vs; constructor; auto using same_version_refl. Qed.

Lemma Forall2_alter_storage vs i : Forall2 same_version vs (alter set_storage i vs).
Proof.
  revert i. induction vs as [|v vs IH]; intros [|i]; cbn; try done;
    constructor; auto using Forall2_same_refl, same_version_refl; done.
Qed.

Lemma adjustStorageVersion_ok crd c2 :
  adjustStorageVersion crd = Ok c2 ->
  Exists (fun v => cv_Served v = true) (crd_Versions crd) /\
  Forall2 same_version (crd_Versions crd) (crd_Versions c2) /\
  (storage_count (crd_Versions crd) <= 1 -> storage_count (crd_Versions c2) = 1) /\
  c2 = set_versions (crd_Versions c2) crd.
Proof.
  unfold adjustStorageVersion. destruct (latestServed _) as [i|] eqn:Hl; [|done].
  destruct (latestServed_Some _ _ Hl) as (v & Hi & Hv). intros [= <-]. split.
  { apply Exists_exists. exists v. split; [|done]. by eapply list_elem_of_lookup_2. }
  destruct (existsb cv_Storage (crd_Versions crd)) eqn:He.
  - split_and!; [apply Forall2_same_refl| |by destruct crd as [? ? ? ? []]].
    apply storage_count_pos in He. lia.
  - simpl. split_and!; [apply Forall2_alter_storage| |done].
    intros _. by eapply storage_count_alter.
Qed.

(** The name a version gets. *)
Definition target_name (pubRes : PublishedResource) (v : CustomResourceDefinitionVersion) : string :=
  match ps_Projection (pr_Spec pubRes) with
  | None => cv_Name v
  | Some p =>
      if decide (pj_Version p <> "") then pj_Version p
      else if decide (0 < size (pj_Versions p)) then cv_Name (projectVersionName (pj_Versions p) v)
      else cv_Name v
  end.

Lemma projectVersionName_same vs v :
  same_content v (projectVersionName vs v) /\ cv_Storage (projectVersionName vs v) = cv_Storage v.
Proof. unfold projectVersionName. by case_decide. Qed.

Lemma projectCRDVersions_ok crd pubRes c3 :
  NoDup (version_names (crd_Versions crd)) ->
  projectCRDVersions crd pubRes = Ok c3 ->
  NoDup (version_names (crd_Versions c3)) /\
  storage_count (crd_Versions c3) = storage_count (crd_Versions crd) /\
  exists ws, crd_Versions c3 ≡ₚ ws /\
    Forall2 (fun v v' => same_content v v' /\ cv_Name v' = target_name pubRes v) (crd_Versions crd) ws.
Proof.
  intros Hnd. unfold projectCRDVersions, target_name.
  destruct (ps_Projection (pr_Spec pubRes)) as [p|].
  2: { intros [= <-]. split_and!; [done..|]. eexists. split; [done|]. apply Forall2_same_refl. }
  case_decide as H1.
  { destruct (crd_Versions crd) as [|v [|]] eqn:E; intros; simplify_eq. simpl. split_and!.
    - apply NoDup_singleton.
    - unfold storage_count. simpl. by destruct (cv_Storage v).
    - eexists. split; [done|]. by repeat constructor. }
  case_decide as H2.
  2: { intros [= <-]. split_and!; [done..|]. eexists. split; [done|]. apply Forall2_same_refl. }
  destruct (firstDuplicate _ _) eqn:Hd; intros; simplify_eq. simpl.
  apply firstDuplicate_None in Hd as [Hd _]. set (ws := projectVersionName _ <$> _) in *.
  assert (SortFunc version_le ws ≡ₚ ws) as HP by apply SortFunc_Permutation.
  rewrite crd_Versions_set. split_and!.
  - unfold version_names in *. by rewrite HP.
  - rewrite (storage_count_perm _ _ HP). apply storage_count_fmap. apply projectVersionName_same.
  - exists ws. split; [done|]. unfold ws. clear. induction (crd_Versions crd); constructor; [|done].
    split; [apply projectVersionName_same|done].
Qed.

Lemma projectCRDNames_versions crd pubRes c4 :
  projectCRDNames crd pubRes = Ok c4 -> crd_Versions c4 = crd_Versions crd.
Proof. unfold projectCRDNames. case_match; intros; by simplify_eq. Qed.

Lemma Forall2_same_names vs vs' : Forall2 same_version vs vs' -> version_names vs' = version_names vs.
Proof. unfold version_names. induction 1 as [|v v' vs vs' [_ Hn] _ IH]; [done|]. rewrite !fmap_cons. by rewrite Hn, IH. Qed.

Lemma target_name_same pubRes v v' : cv_Name v = cv_Name v' -> target_name pubRes v = target_name pubRes v'.
Proof.
  unfold target_name, projectVersionName. intros H. case_match; rewrite H; [|done].
  repeat case_decide; done.
Qed.

Lemma Forall2_same_projected pubRes vs vs2 ws :
  Forall2 same_version vs vs2 ->
  Forall2 (fun v v' => same_content v v' /\ cv_Name v' = target_name pubRes v) vs2 ws ->
  Forall2 (fun v v' => same_content v v' /\ cv_Name v' = target_name pubRes v) vs ws.
Proof.
  intros H. revert ws. induction H as [|v v2 vs vs2 [Hc Hn] _ IH]; intros ws Hws;
    inversion Hws as [|? w ? ws' [Hc' Hn'] Hws']; subst; constructor; [|by apply IH].
  split; [unfold same_content in *; naive_solver congruence|].
  rewrite Hn'. by apply target_name_same.
Qed.

Lemma ProjectCRD_stages crd pubRes c' :
  crd_valid crd -> ProjectCRD crd pubRes = Ok c' ->
  NoDup (version_names (crd_Versions c')) /\
  storage_count (crd_Versions c') = 1 /\
  Exists (fun v => cv_Served v = true) (wanted_versions crd pubRes) /\
  exists ws, crd_Versions c' ≡ₚ ws /\
    Forall2 (fun v v' => same_content v v' /\ cv_Name v' = target_name pubRes v)
      (wanted_versions crd pubRes) ws.
Proof.
  intros (Hnd & _ & Hst) H. unfold ProjectCRD in H.
  apply obind_ok_inv in H as (c1 & H1 & H). apply obind_ok_inv in H as (c2 & H2 & H).
  apply obind_ok_inv in H as (c3 & H3 & H4).
  apply stripUnwantedVersions_ok in H1 as (_ & _ & ->).
  apply adjustStorageVersion_ok in H2 as (Hserved & Hsame & Hone & _). simpl in Hserved, Hsame, Hone.
  rewrite (projectCRDNames_versions _ _ _ H4).
  assert (NoDup (version_names (crd_Versions c2))) as Hnd2.
  { rewrite (Forall2_same_names _ _ Hsame). by apply List_filter_names. }
  destruct (projectCRDVersions_ok _ _ _ Hnd2 H3) as (Hnd3 & Hst3 & ws & HP & Hws).
  split_and!; [done| |done|].
  - rewrite Hst3. apply Hone. etransitivity; [apply storage_count_le_filter|done].
  - exists ws. split; [done|]. by eapply Forall2_same_projected.
Qed.

(** ** Properties *)

(** C15: projecting a CRD yields a CRD that can be published: its versions
    are exactly the selected ones, each with the schema, subresources and
    served flag of its origin and the name the projection gives it, in some
    order; their names are unique, one of them is served and exactly one is
    the storage version. *)
Theorem ProjectCRD_sound crd pubRes c' :
  crd_valid crd -> ProjectCRD crd pubRes = Ok c' ->
  NoDup (version_names (crd_Versions c')) /\
  storage_count (crd_Versions c') = 1 /\
  Exists (fun v => cv_Served v = true) (crd_Versions c') /\
  exists ws, crd_Versions c' ≡ₚ ws /\
    Forall2 (fun v v' => same_content v v' /\ cv_Name v' = target_name pubRes v)
      (wanted_versions crd pubRes) ws.
Proof.
  intros Hv H. destruct (ProjectCRD_stages _ _ _ Hv H) as (H1 & H2 & H3 & ws & HP & Hws).
  split_and!; [done..| |eauto].
  rewrite HP. clear -H3 Hws. induction Hws as [|v v' vs ws [Hc _] _ IH]; [by inversion H3|].
  inversion H3; subst; [left|by right; apply IH]. unfold same_content in Hc. naive_solver congruence.
Qed.

(** The ways in which a projection fails. *)
Definition projection_error (crd : CustomResourceDefinition) (pubRes : PublishedResource) : Prop :=
  ambiguous_source pubRes \/
  Forall (fun v => cv_Served v = false) (wanted_versions crd pubRes) \/
  match ps_Projection (pr_Spec pubRes) with
  | Some p =>
      (pj_Version p <> "" /\ length (wanted_versions crd pubRes) <> 1) \/
      (pj_Version p = "" /\ 0 < size (pj_Versions p) /\
       ~ NoDup (target_name pubRes <$> wanted_versions crd pubRes))
  | None => False
  end.

Lemma Forall2_same_targets pubRes vs vs2 :
  Forall2 same_version vs vs2 -> target_name pubRes <$> vs2 = target_name pubRes <$> vs.
Proof.
  induction 1 as [|v v2 vs vs2 [_ Hn] _ IH]; [done|]. rewrite !fmap_cons, IH.
  f_equal. by apply target_name_same.
Qed.

Lemma projectCRDVersions_err crd pubRes :
  is_ok (projectCRDVersions crd pubRes) = false <->
  match ps_Projection (pr_Spec pubRes) with
  | Some p =>
      (pj_Version p <> "" /\ length (crd_Versions crd) <> 1) \/
      (pj_Version p = "" /\ 0 < size (pj_Versions p) /\ ~ NoDup (target_name pubRes <$> crd_Versions crd))
  | None => False
  end.
Proof.
  unfold projectCRDVersions. destruct (ps_Projection (pr_Spec pubRes)) as [p|] eqn:Ep; [|done].
  case_decide as H1.
  { destruct (crd_Versions crd) as [|v [|]]; simpl; split; try done; intros; try tauto; try (left; split; [done|lia]).
  }
  assert (pj_Version p = "") as Hp by (destruct (decide (pj_Version p = "")); tauto).
  case_decide as H2; [|simpl; split; [done|tauto]].
  assert (target_name pubRes <$> crd_Versions crd
          = version_names (projectVersionName (pj_Versions p) <$> crd_Versions crd)) as ->.
  { unfold version_names. rewrite <- list_fmap_compose. apply list_fmap_ext. intros i v _. simpl.
    unfold target_name. rewrite Ep, decide_False by tauto. by rewrite decide_True. }
  pose proof (firstDuplicate_None ∅ (projectVersionName (pj_Versions p) <$> crd_Versions crd)) as Hd.
  destruct (firstDuplicate _ _) as [n|]; simpl.
  - split; [|done]. intros _. right. split_and!; [done..|]. intros Hnd.
    assert (Some n = None) by (apply Hd; split; [done|]; apply Forall_forall; set_solver). done.
  - split; [done|]. intros [[? _]|(_ & _ & H)]; [done|]. exfalso. apply H. by apply Hd.
Qed.

(** C16: projecting a CRD fails exactly when the source versions are
    configured twice, when no selected version exists or is served, when one
    target version is requested for several versions, or when the renamed
    versions collide; it never panics. *)
Theorem ProjectCRD_fails crd pubRes :
  match ProjectCRD crd pubRes with
  | Ok _ => ~ projection_error crd pubRes
  | Err _ => projection_error crd pubRes
  | Panic _ => False
  end.
Proof.
  unfold ProjectCRD, projection_error.
  destruct (stripUnwantedVersions crd pubRes) as [c1|e|m] eqn:E1; simpl.
  2: apply stripUnwantedVersions_err in E1; tauto.
  2: by apply stripUnwantedVersions_panic in E1.
  apply stripUnwantedVersions_ok in E1 as (Ha & Hne & ->).
  destruct (adjustStorageVersion _) as [c2|e|m] eqn:E2; simpl.
  2: right; left; revert E2; unfold adjustStorageVersion; destruct (latestServed _) eqn:E; [done|];
     by apply latestServed_None in E.
  2: revert E2; unfold adjustStorageVersion; by destruct (latestServed _).
  apply adjustStorageVersion_ok in E2 as (Hserved & Hsame & _). rewrite crd_Versions_set in Hserved, Hsame.
  pose proof (projectCRDVersions_err c2 pubRes) as Herr.
  rewrite (Forall2_same_targets _ _ _ Hsame), <- (Forall2_length _ _ _ Hsame) in Herr.
  assert (~ Forall (fun v => cv_Served v = false) (wanted_versions crd pubRes)) as Hns.
  { intros Hall. apply Exists_exists in Hserved as (v & Hv & Hsv). rewrite Forall_forall in Hall.
    specialize (Hall v Hv). congruence. }
  destruct (projectCRDVersions c2 pubRes) as [c3|e|m] eqn:E3; simpl in *.
  - unfold projectCRDNames. destruct (ps_Projection (pr_Spec pubRes)); intros [?|[?|H]]; try done;
      by apply Herr in H.
  - right. right. by apply Herr.
  - revert E3. unfold projectCRDVersions. by repeat case_match.
Qed.

Lemma target_name_nonempty pubRes v : cv_Name v <> "" -> target_name pubRes v <> "".
Proof.
  unfold target_name, projectVersionName. intros Hv. destruct (ps_Projection _) as [p|]; [|done].
  by repeat (case_decide; simpl).
Qed.

Lemma find_storage vs :
  storage_count vs = 1 -> exists v, find cv_Storage vs = Some v /\ v ∈ vs /\ cv_Storage v = true.
Proof.
  intros H. destruct (find cv_Storage vs) as [v|] eqn:E.
  - exists v. apply find_some in E as [Hin Hv]. by rewrite list_elem_of_In.
  - assert (existsb cv_Storage vs = true) as (v & Hin & Hv)%existsb_exists by (apply storage_count_pos; lia).
    rewrite (find_none _ _ E v Hin) in Hv. done.
Qed.

(** Whenever a valid CRD can be projected, the kind under which it is
    published is determined: group, kind and the storage version of the
    projected CRD.  The error for a missing storage version is unreachable. *)
Lemma PublishedResourceProjectedGVK_total crd pubRes c' :
  crd_valid crd -> ProjectCRD crd pubRes = Ok c' ->
  exists v, v ∈ crd_Versions c' /\ cv_Storage v = true /\
    PublishedResourceProjectedGVK crd pubRes
      = Ok (GVK (cs_Group (crd_Spec c')) (cv_Name v) (cn_Kind (cs_Names (crd_Spec c')))).
Proof.
  intros Hv H. destruct (ProjectCRD_stages _ _ _ Hv H) as (_ & Hone & _ & ws & HP & Hws).
  destruct (find_storage _ Hone) as (v & Hf & Hin & Hst). exists v. split_and!; [done..|].
  unfold PublishedResourceProjectedGVK. rewrite H. simpl. unfold getStorageVersion. rewrite Hf.
  rewrite decide_False; [done|]. rewrite HP in Hin.
  apply list_elem_of_lookup in Hin as [i Hi].
  destruct (Forall2_lookup_r _ _ _ _ _ Hws Hi) as (w & Hw & _ & ->).
  apply target_name_nonempty. destruct Hv as (_ & Hne & _). rewrite Forall_forall in Hne. apply Hne.
  apply list_elem_of_lookup_2, list_elem_of_In in Hw. unfold wanted_versions in Hw.
  apply filter_In in Hw as [Hw _]. by apply list_elem_of_In.
Qed.

End ProjectionFacts.

(** ** Witnesses *)

Module SampleCRD.

(** String comparison satisfies the laws of a version order. *)
#[export] Instance versions : KubeVersions := fun a b => if String.leb a b then 0%Z else 1%Z.

Definition version (name : string) (storage : bool) : CustomResourceDefinitionVersion :=
  MkVersion name true storage (Some (Some (VStr name))) None ∅.

Definition crd : CustomResourceDefinition :=
  MkCRD "backups.eksempel.no" None 1 []
    (MkCRDSpec "eksempel.no" (MkNames "backups" "backup" "Backup" "BackupList" None None) NamespaceScoped
       [version "v1alpha1" false; version "v1beta1" false; version "v1" true] None).

(** Two of the three versions, one of them renamed, without the storage version. *)
Definition pubRes : PublishedResource :=
  MkPubRes emptyMeta
    (MkPubResSpec (MkSource "eksempel.no" "" ["v1alpha1"; "v1beta1"] "Backup") None None false
       (Some (MkProjection "example.com" "" {[ "v1beta1" := "v1" ]} "" "Snapshot" "" None None))
       None [] None)
    (MkPubResStatus "").

Definition projected : CustomResourceDefinition :=
  MkCRD "snapshots.example.com" None 1 []
    (MkCRDSpec "example.com" (MkNames "snapshots" "snapshot" "Snapshot" "SnapshotList" None None) NamespaceScoped
       [set_version_name "v1" (version "v1beta1" true); version "v1alpha1" false] None).

Lemma projected_eq : ProjectCRD crd pubRes = Ok projected.
Proof. vm_compute. reflexivity. Qed.

Lemma crd_is_valid : crd_valid crd.
Proof.
  split_and!; [|repeat constructor; discriminate|vm_compute; lia].
  apply (bool_decide_unpack _). vm_compute. exact I.
Qed.

End SampleCRD.

#[local] Existing Instance SampleCRD.versions.

Lemma ProjectCRD_sound_witness :
  ProjectCRD SampleCRD.crd SampleCRD.pubRes = Ok SampleCRD.projected /\
  storage_count (crd_Versions SampleCRD.projected) = 1.
Proof.
  split; [exact SampleCRD.projected_eq|].
  apply (ProjectCRD_sound SampleCRD.crd SampleCRD.pubRes _ SampleCRD.crd_is_valid SampleCRD.projected_eq).
Defined.

Lemma PublishedResourceProjectedGVK_total_witness :
  exists v, v ∈ crd_Versions SampleCRD.projected /\ cv_Storage v = true /\
    PublishedResourceProjectedGVK SampleCRD.crd SampleCRD.pubRes = Ok (GVK "example.com" (cv_Name v) "Snapshot").
Proof.
  apply (PublishedResourceProjectedGVK_total SampleCRD.crd SampleCRD.pubRes _
           SampleCRD.crd_is_valid SampleCRD.projected_eq).
Defined.
