(* ===== verification/Templating.v ===== *)
(** Go templates and object names: [internal/sync/templating/].

    Templates are parsed and executed by [text/template] with the functions
    of the sprig package, which are not part of the program: the class
    [TemplateEngine] stands for them.  The data a template sees, the legacy
    placeholders and the default naming scheme are the program's. *)

From S2P Require Import Prelude Kube Crypto ApiTypes.

(** ** Contexts *)

Record localObjectNamingContext : Type := MkNamingContext {
  nc_Object : Unstructured;
  nc_ClusterName : string;
  nc_ClusterPath : string
}.

Record relatedObjectContext : Type := MkRelatedContext {
  rc_Side : RelatedResourceOrigin;
  rc_Object : Unstructured;
  rc_ClusterName : string;
  rc_ClusterPath : string
}.

Record relatedObjectLabelContext : Type := MkLabelContext {
  lc_LocalObject : Unstructured;
  lc_RemoteObject : Unstructured;
  lc_ClusterName : string;
  lc_ClusterPath : string
}.

Record relatedObjectLabelRewriteContext : Type := MkRewriteContext {
  wc_Value : string;
  wc_RelatedObject : option Unstructured;
  wc_LocalObject : Unstructured;
  wc_RemoteObject : Unstructured;
  wc_ClusterName : string;
  wc_ClusterPath : string
}.

(** The data of a template. *)
Inductive templateData : Type :=
| NamingData (c : localObjectNamingContext)
| RelatedData (c : relatedObjectContext)
| LabelData (c : relatedObjectLabelContext)
| RewriteData (c : relatedObjectLabelRewriteContext).

Definition newLocalObjectNamingContext (object : Unstructured) (clusterName workspacePath : string)
  : localObjectNamingContext := MkNamingContext object clusterName workspacePath.

Definition NewRelatedObjectContext (object : Unstructured) (side : RelatedResourceOrigin)
    (clusterName clusterPath : string) : relatedObjectContext :=
  MkRelatedContext side object clusterName clusterPath.

Definition NewRelatedObjectLabelContext (localObject remoteObject : Unstructured)
    (clusterName clusterPath : string) : relatedObjectLabelContext :=
  MkLabelContext localObject remoteObject clusterName clusterPath.

Definition NewRelatedObjectLabelRewriteContext (value : string) (localObject remoteObject : Unstructured)
    (relatedObject : option Unstructured) (clusterName clusterPath : string)
  : relatedObjectLabelRewriteContext :=
  MkRewriteContext value relatedObject localObject remoteObject clusterName clusterPath.

(** ** [Render] *)

Class TemplateEngine : Type := {
  template : Type;
  template_Parse : string -> outcome template;
  template_Execute : template -> templateData -> outcome string
}.

Section Templating.
Context {T : TemplateEngine}.

Definition Render (tpl : string) (data : templateData) : outcome string :=
  let! parsed := wrapErr "failed to parse" (template_Parse tpl) in
  let! buf := wrapErr "failed to evaluate" (template_Execute parsed data) in
  Ok (TrimSpace buf).

(** ** [strings.NewReplacer(...).Replace] *)

(** The first pair, in argument order, whose old string starts here. *)
Fixpoint matchFirst (pairs : list (string * string)) (s : string) : option (string * string) :=
  match pairs with
  | [] => None
  | (old, new) :: pairs' =>
      if HasPrefix s old then Some (new, drop_string (String.length old) s) else matchFirst pairs' s
  end.

Fixpoint replaceFrom (fuel : nat) (pairs : list (string * string)) (s : string) : string :=
  match fuel, s with
  | S fuel', String a s' =>
      match matchFirst pairs s with
      | Some (new, rest) => new +:+ replaceFrom fuel' pairs rest
      | None => String a (replaceFrom fuel' pairs s')
      end
  | _, _ => s
  end.

(** Every step consumes a byte, so the length of the input is enough fuel. *)
Definition Replace (pairs : list (string * string)) (s : string) : string :=
  replaceFrom (String.length s) pairs s.

(** ** [naming.go] *)

Definition defaultNamingScheme : ResourceNaming :=
  MkNaming "{{ .Object.metadata.namespace | sha3short }}-{{ .Object.metadata.name | sha3short }}"
    "{{ .ClusterName }}".

(** The pairs of the legacy replacer, in the order of the source. *)
Definition placeholders (object : Unstructured) (clusterName : string) : list (string * string) :=
  [(PlaceholderRemoteClusterName, clusterName);
   (PlaceholderRemoteNamespaceHash, ShortHash (HString (GetNamespace object)));
   (PlaceholderRemoteNamespace, GetNamespace object);
   (PlaceholderRemoteNameHash, ShortHash (HString (GetName object)));
   (PlaceholderRemoteName, GetName object)].

Definition generateLocalObjectIdentifier (pattern : string) (object : Unstructured)
    (clusterName workspacePath : string) : outcome string :=
  if Contains pattern "{{"
  then Render pattern (NamingData (newLocalObjectNamingContext object clusterName workspacePath))
  else Ok (Replace (placeholders object clusterName) pattern).

Definition GenerateLocalObjectName (pr : PublishedResource) (object : Unstructured)
    (clusterName workspacePath : string) : outcome NamespacedName :=
  let naming := default (MkNaming "" "") (ps_Naming (pr_Spec pr)) in
  let pattern := if decide (rn_Namespace naming = "") then rn_Namespace defaultNamingScheme
                 else rn_Namespace naming in
  let! namespace := wrapErr "invalid namespace naming"
                      (generateLocalObjectIdentifier pattern object clusterName workspacePath) in
  let pattern := if decide (rn_Name naming = "") then rn_Name defaultNamingScheme else rn_Name naming in
  let! name := wrapErr "invalid name naming"
                 (generateLocalObjectIdentifier pattern object clusterName workspacePath) in
  Ok (NN namespace name).

End Templating.

(** ** Lemmas *)

(** *** Patterns as sequences of literals and placeholders *)

Inductive token : Type :=
| Lit (s : string)
| RemoteClusterName | RemoteNamespaceHash | RemoteNamespace | RemoteNameHash | RemoteName.

Definition token_text (t : token) : string :=
  match t with
  | Lit s => s
  | RemoteClusterName => PlaceholderRemoteClusterName
  | RemoteNamespaceHash => PlaceholderRemoteNamespaceHash
  | RemoteNamespace => PlaceholderRemoteNamespace
  | RemoteNameHash => PlaceholderRemoteNameHash
  | RemoteName => PlaceholderRemoteName
  end.

Definition token_value (object : Unstructured) (clusterName : string) (t : token) : string :=
  match t with
  | Lit s => s
  | RemoteClusterName => clusterName
  | RemoteNamespaceHash => ShortHash (HString (GetNamespace object))
  | RemoteNamespace => GetNamespace object
  | RemoteNameHash => ShortHash (HString (GetName object))
  | RemoteName => GetName object
  end.

Fixpoint join_tokens (f : token -> string) (ts : list token) : string :=
  match ts with
  | [] => EmptyString
  | t :: ts' => f t +:+ join_tokens f ts'
  end.

(** A literal has no dollar sign, and a placeholder is not followed by text
    that makes it another placeholder. *)
Fixpoint unambiguous (ts : list token) : Prop :=
  match ts with
  | [] => True
  | t :: ts' =>
      let rest := join_tokens token_text ts' in
      match t with
      | Lit s => char_in (ascii_of_nat 36) s = false
      | RemoteNamespace => HasPrefix rest "Hash" = false
      | RemoteName => HasPrefix rest "Hash" = false /\ HasPrefix rest "space" = false
      | _ => True
      end /\ unambiguous ts'
  end.

Section Legacy.
Context (object : Unstructured) (clusterName : string).

Abbreviation pairs := (placeholders object clusterName).

Lemma HasPrefix_head c p a s : a <> c -> HasPrefix (String a s) (String c p) = false.
Proof. intros H. unfold HasPrefix. simpl. by destruct (Ascii.ascii_dec c a). Qed.

Lemma HasPrefix_tail c p s : HasPrefix (String c s) (String c p) = HasPrefix s p.
Proof. unfold HasPrefix. simpl. by destruct (Ascii.ascii_dec c c). Qed.

Lemma matchFirst_literal a s : a <> ascii_of_nat 36 -> matchFirst pairs (String a s) = None.
Proof.
  intros Ha. cbn [placeholders matchFirst]. unfold PlaceholderRemoteClusterName, PlaceholderRemoteNamespaceHash,
    PlaceholderRemoteNamespace, PlaceholderRemoteNameHash, PlaceholderRemoteName.
  by rewrite !HasPrefix_head by done.
Qed.

Lemma HasPrefix_app w s p : HasPrefix (w +:+ s) (w +:+ p) = HasPrefix s p.
Proof.
  induction w as [|a w IH]; [done|].
  change (HasPrefix (String a (w +:+ s)) (String a (w +:+ p)) = HasPrefix s p). by rewrite HasPrefix_tail.
Qed.

Lemma HasPrefix_longer s p q : HasPrefix s p = false -> HasPrefix s (p +:+ q) = false.
Proof.
  intros H. destruct (HasPrefix s (p +:+ q)) eqn:E; [|done].
  apply HasPrefix_spec in E as [r ->]. rewrite string_app_assoc in H.
  assert (HasPrefix (p +:+ (q +:+ r)) p = true) by (apply HasPrefix_spec; eauto). congruence.
Qed.

Lemma matchFirst_hit old new ps rest : matchFirst ((old, new) :: ps) (old +:+ rest) = Some (new, rest).
Proof.
  unfold matchFirst. rewrite drop_string_app.
  assert (HasPrefix (old +:+ rest) old = true) as -> by (apply HasPrefix_spec; eauto). done.
Qed.

Lemma matchFirst_miss old new ps s : HasPrefix s old = false -> matchFirst ((old, new) :: ps) s = matchFirst ps s.
Proof. simpl. by intros ->. Qed.

Lemma matchFirst_placeholder t ts :
  unambiguous (t :: ts) -> (forall s, t <> Lit s) ->
  matchFirst pairs (token_text t +:+ join_tokens token_text ts)
  = Some (token_value object clusterName t, join_tokens token_text ts).
Proof.
  intros [Ht _] Hlit. set (rest := join_tokens token_text ts) in *.
  destruct t; [by destruct (Hlit s)|..]; unfold placeholders, token_text, token_value.
  - apply matchFirst_hit.
  - rewrite matchFirst_miss by reflexivity. apply matchFirst_hit.
  - rewrite matchFirst_miss by reflexivity.
    rewrite matchFirst_miss by exact (eq_trans (HasPrefix_app PlaceholderRemoteNamespace rest "Hash") Ht).
    apply matchFirst_hit.
  - do 3 rewrite matchFirst_miss by reflexivity. apply matchFirst_hit.
  - destruct Ht as [H1 H2]. rewrite matchFirst_miss by reflexivity.
    rewrite matchFirst_miss by exact (eq_trans (HasPrefix_app PlaceholderRemoteName rest "spaceHash")
                                        (HasPrefix_longer rest "space" "Hash" H2)).
    rewrite matchFirst_miss by exact (eq_trans (HasPrefix_app PlaceholderRemoteName rest "space") H2).
    rewrite matchFirst_miss by exact (eq_trans (HasPrefix_app PlaceholderRemoteName rest "Hash") H1).
    apply matchFirst_hit.
Qed.

Lemma replaceFrom_literal s rest fuel :
  char_in (ascii_of_nat 36) s = false -> String.length s <= fuel ->
  replaceFrom fuel pairs (s +:+ rest) = s +:+ replaceFrom (fuel - String.length s) pairs rest.
Proof.
  revert fuel. induction s as [|a s IH]; intros fuel Hs Hf.
  { change (String.length "") with 0. by rewrite Nat.sub_0_r. }
  destruct fuel as [|fuel]; [simpl in Hf; lia|].
  unfold char_in in Hs. cbn [Cut] in Hs. case_decide as Ha; [done|].
  change (String a s +:+ ?x) with (String a (s +:+ x)).
  cbn [replaceFrom]. rewrite matchFirst_literal by done. f_equal.
  cbn [String.length Nat.sub]. apply IH; [|simpl in Hf; lia].
  unfold char_in. by destruct (Cut _ s) as [[]|].
Qed.

Lemma replaceFrom_hit fuel s new rest :
  s <> EmptyString -> matchFirst pairs s = Some (new, rest) ->
  replaceFrom (S fuel) pairs s = new +:+ replaceFrom fuel pairs rest.
Proof. intros Hs Hm. destruct s as [|a s]; [done|]. cbn [replaceFrom]. by rewrite Hm. Qed.

Lemma replaceFrom_tokens ts fuel :
  unambiguous ts -> String.length (join_tokens token_text ts) <= fuel ->
  replaceFrom fuel pairs (join_tokens token_text ts) = join_tokens (token_value object clusterName) ts.
Proof.
  revert fuel. induction ts as [|t ts IH]; intros fuel Hts Hf; [by destruct fuel|].
  cbn [join_tokens] in *. rewrite string_length_app in Hf. pose proof Hts as [Ht Hts'].
  assert ((exists s, t = Lit s) \/ (forall s, t <> Lit s)) as [[s ->]|Hnl] by (destruct t; eauto; by right).
  { cbn [token_text token_value] in *. rewrite replaceFrom_literal by (done || lia).
    by rewrite IH by (done || lia). }
  assert (1 <= String.length (token_text t) /\ token_text t +:+ join_tokens token_text ts <> EmptyString) as [Hl Hne].
  { destruct t; try (by destruct (Hnl s)); split; try done; simpl; lia. }
  destruct fuel as [|fuel]; [lia|].
  rewrite (replaceFrom_hit _ _ _ _ Hne (matchFirst_placeholder t ts Hts Hnl)).
  rewrite IH by (done || lia). done.
Qed.

End Legacy.

(** *** Strings without white space *)

Fixpoint no_space (s : string) : bool :=
  match s with
  | EmptyString => true
  | String a s' => negb (Ascii.is_space a) && no_space s'
  end.

Lemma no_space_app a b : no_space a = true -> no_space b = true -> no_space (a +:+ b) = true.
Proof.
  unfold String.app. induction a as [|x a IH]; simpl; [done|].
  rewrite !andb_true_iff. naive_solver.
Qed.

Lemma all_hex_no_space s : all_hex s = true -> no_space s = true.
Proof.
  induction s as [|a s IH]; simpl; [done|]. rewrite !andb_true_iff. intros [Ha Hs]. split; [|auto].
  clear -Ha. destruct a as [[] [] [] [] [] [] [] []]; vm_compute in Ha |- *; done.
Qed.

Lemma rev_app_rev_app s t u : String.rev_app (String.rev_app s t) u = String.rev_app t (s +:+ u).
Proof. unfold String.app. revert t. induction s as [|a s IH]; intros t; simpl; [done|]. by rewrite IH. Qed.

Lemma rev_app_no_space s t : no_space s = true -> no_space t = true -> no_space (String.rev_app s t) = true.
Proof.
  revert t. induction s as [|a s IH]; intros t; simpl; [done|]. rewrite andb_true_iff. intros [Ha Hs] Ht.
  apply IH; [done|]. simpl. by rewrite Ha.
Qed.

Lemma TrimLeftSpace_no_space s : no_space s = true -> TrimLeftSpace s = s.
Proof. destruct s as [|a s]; simpl; [done|]. by destruct (Ascii.is_space a). Qed.

Lemma TrimSpace_no_space s : no_space s = true -> TrimSpace s = s.
Proof.
  intros Hs. unfold TrimSpace, String.rev. rewrite (TrimLeftSpace_no_space s) by done.
  rewrite TrimLeftSpace_no_space by (by apply rev_app_no_space). rewrite rev_app_rev_app.
  simpl. clear. unfold String.app. induction s; simpl; congruence.
Qed.

Lemma sha3short_default input :
  exists d, sha3short input [] = Ok d /\ String.length d = 20 /\ all_hex d = true.
Proof.
  unfold sha3short. simpl. rewrite sha3sum_length. eexists. split; [done|]. split.
  - apply take_string_length. rewrite sha3sum_length. lia.
  - apply take_string_all_hex, sha3sum_all_hex.
Qed.

(** ** Properties *)

Section Naming.
Context {T : TemplateEngine}.

(** A legacy naming pattern, read as a sequence of literals and
    placeholders, is expanded placeholder by placeholder: the replacer
    neither confuses placeholders that are prefixes of one another nor
    expands text that came out of an earlier expansion. *)
Lemma legacy_naming ts object clusterName workspacePath :
  unambiguous ts -> Contains (join_tokens token_text ts) "{{" = false ->
  generateLocalObjectIdentifier (join_tokens token_text ts) object clusterName workspacePath
  = Ok (join_tokens (token_value object clusterName) ts).
Proof.
  intros Hts Hc. unfold generateLocalObjectIdentifier. rewrite Hc. f_equal.
  by apply replaceFrom_tokens.
Qed.

(** *** The default scheme *)

#[local] Arguments sha3short : simpl never.

(** What [text/template] does with the two default patterns, for an object
    that has a namespace. *)
Class DefaultTemplates : Prop := default_templates : forall c : localObjectNamingContext,
  GetNamespace (nc_Object c) <> "" ->
  (exists t, template_Parse (rn_Namespace defaultNamingScheme) = Ok t /\
     template_Execute t (NamingData c) = Ok (nc_ClusterName c)) /\
  (exists t, template_Parse (rn_Name defaultNamingScheme) = Ok t /\
     template_Execute t (NamingData c) =
       let! ns := sha3short (GetNamespace (nc_Object c)) [] in
       let! name := sha3short (GetName (nc_Object c)) [] in
       Ok (ns +:+ "-" +:+ name)).

(** Without a configured naming scheme, an object is placed in the
    namespace named after its cluster under a name of 41 characters, two
    20-character SHA-3 digests joined by a dash, whatever the length of its
    own name. *)
Lemma default_naming {L : DefaultTemplates} pr object clusterName workspacePath :
  ps_Naming (pr_Spec pr) = None -> GetNamespace object <> "" -> no_space clusterName = true ->
  exists a b, sha3short (GetNamespace object) [] = Ok a /\ sha3short (GetName object) [] = Ok b /\
    String.length a = 20 /\ String.length b = 20 /\ all_hex a = true /\ all_hex b = true /\
    GenerateLocalObjectName pr object clusterName workspacePath = Ok (NN clusterName (a +:+ "-" +:+ b)).
Proof.
  intros Hn Hns Hc.
  destruct (sha3short_default (GetNamespace object)) as (a & Ha & La & Xa).
  destruct (sha3short_default (GetName object)) as (b & Hb & Lb & Xb).
  exists a, b. split_and!; [done..|].
  destruct (default_templates (newLocalObjectNamingContext object clusterName workspacePath) Hns)
    as [(t1 & P1 & E1) (t2 & P2 & E2)].
  unfold GenerateLocalObjectName, generateLocalObjectIdentifier. rewrite Hn. simpl. unfold Render.
  unfold defaultNamingScheme in P1, P2. simpl in P1, P2. rewrite P1. simpl. rewrite E1. simpl.
  rewrite P2. simpl. rewrite E2. cbn [nc_Object newLocalObjectNamingContext]. rewrite Ha. cbn [obind]. rewrite Hb. simpl.
  rewrite !TrimSpace_no_space; [done| |done].
  apply no_space_app; [by apply all_hex_no_space|].
  apply (no_space_app "-"); [done|by apply all_hex_no_space].
Qed.

End Naming.

(** ** Witnesses *)

(** An engine that knows the two default patterns. *)
Module DefaultEngine.

#[export] Instance engine : TemplateEngine := {|
  template := string;
  template_Parse := fun s => Ok s;
  template_Execute := fun t data =>
    match data with
    | NamingData c =>
        if decide (t = rn_Namespace defaultNamingScheme) then Ok (nc_ClusterName c)
        else if decide (t = rn_Name defaultNamingScheme) then
          let! ns := sha3short (GetNamespace (nc_Object c)) [] in
          let! name := sha3short (GetName (nc_Object c)) [] in
          Ok (ns +:+ "-" +:+ name)
        else Err (ErrorString "unsupported template")
    | _ => Err (ErrorString "unsupported template")
    end
|}.

#[export] Instance laws : DefaultTemplates.
Proof. intros c _. split; eexists; (split; [reflexivity|]); done. Qed.

Definition object : Unstructured :=
  Obj "v1" "Thing" (Meta "objname" "objnamespace" None None None None None 0 [] "" [] "" "" ∅) ∅.

Definition pubRes : PublishedResource :=
  MkPubRes emptyMeta (MkPubResSpec (MkSource "" "" [] "") None None false None None [] None) (MkPubResStatus "").

End DefaultEngine.

Lemma default_naming_witness :
  exists a b, sha3short "objnamespace" [] = Ok a /\ sha3short "objname" [] = Ok b /\
    GenerateLocalObjectName (T := DefaultEngine.engine) DefaultEngine.pubRes DefaultEngine.object "2gz9" ""
      = Ok (NN "2gz9" (a +:+ "-" +:+ b)).
Proof.
  destruct (default_naming (L := DefaultEngine.laws) DefaultEngine.pubRes DefaultEngine.object "2gz9" "")
    as (a & b & Ha & Hb & _ & _ & _ & _ & H); [reflexivity|discriminate|reflexivity|].
  exists a, b. split; [exact Ha|]. split; [exact Hb|exact H].
Defined.

Lemma legacy_naming_witness :
  generateLocalObjectIdentifier (T := DefaultEngine.engine) "$remoteClusterName-$remoteNamespace-$remoteName"
    DefaultEngine.object "2gz9" "" = Ok "2gz9-objnamespace-objname".
Proof.
  apply (legacy_naming (T := DefaultEngine.engine)
    [RemoteClusterName; Lit "-"; RemoteNamespace; Lit "-"; RemoteName] DefaultEngine.object "2gz9" "");
    [|reflexivity].
  repeat split.
Defined.
