(* ===== verification/Related.v ===== *)
(** Related resources: [internal/sync/syncer_related.go], with the
    [ResourceSyncer] of [internal/sync/syncer.go].

    A related resource belongs to a primary object and is synchronised in
    the direction its origin gives.  The functions below resolve which
    objects on the origin side belong to it, synchronise each of them, note
    them on the primary, and prune the copies that lost their original.

    Label selectors are templated in place: the source writes the rendered
    labels back into the PublishedResource, which all reconciliations share.
    They are therefore read from and written to shared memory. *)

From S2P Require Import Prelude Effects Kube Crypto ApiTypes Meta Metadata StateStore ObjectSyncer.
From S2P Require Import Projection Templating.

(** ** Libraries *)

(** The packages gjson and regexp, and the conversion of label selectors. *)
Class TextLib {J : JsonLib} : Type := {
  (* [None] when the path does not exist; an array as its elements *)
  gjson_Get : bytes -> string -> option (list string + string);
  (* a compiled pattern as its [ReplaceAllString] *)
  regexp_Compile : string -> outcome (string -> string -> string);
  LabelSelectorAsSelector : LabelSelector -> outcome Selector
}.

(** The order in which a Go [range] visits a map is unspecified. *)
Class MapRange : Type := map_range : gmap string string -> list (string * string).
Class MapRangeLaws (R : MapRange) : Prop := map_range_perm m : map_range m ≡ₚ map_to_list m.

(** ** [ResourceSyncer] *)

Record ResourceSyncer {J : JsonLib} : Type := MkResourceSyncer {
  rs_localClient : client;
  rs_remoteClient : client;
  rs_pubRes : PublishedResource;
  rs_localCRD : CustomResourceDefinition;
  rs_subresources : list string;
  (* whether the uncached readers are configured *)
  rs_localAPIReader : bool;
  rs_remoteAPIReader : bool;
  (* the kind of the objects on the service cluster *)
  rs_destDummy : GroupVersionKind;
  rs_primaryMutator : option Mutator;
  rs_relatedMutators : gmap string (option Mutator);
  rs_agentName : string;
  rs_useServerSideApply : bool;
  rs_newObjectStateStore : syncSide -> syncSide -> M kube ObjectStateStore
}.

Arguments MkResourceSyncer {J}.

Record resolvedObject : Type := Resolved { ro_original : Unstructured; ro_destination : NamespacedName }.

Definition relatedCopyKey (namespace name : string) : string := namespace +:+ "/" +:+ name.

Definition gvkAPIVersion (g : GroupVersionKind) : string := groupVersionString (gvk_group g) (gvk_version g).

Section Related.
Context {J : JsonLib} {T : TemplateEngine} {X : TextLib} {R : MapRange}.

Definition derefO (o : option Unstructured) : outcome Unstructured :=
  match o with
  | Some o => Ok o
  | None => Panic "invalid memory address or nil pointer dereference"
  end.

(** ** Sides *)

Definition remapSyncSides (relatedOrigin relatedDest : syncSide) (origin : RelatedResourceOrigin)
  : syncSide * syncSide :=
  if decide (origin = RelatedResourceOriginKcp) then (relatedDest, relatedOrigin)
  else (relatedOrigin, relatedDest).

Definition oppositeSide (origin : RelatedResourceOrigin) : RelatedResourceOrigin :=
  if decide (origin = RelatedResourceOriginKcp) then RelatedResourceOriginService
  else RelatedResourceOriginKcp.

(** ** Templates, references and rewrites *)

Definition renderIfTemplate (msg s : string) (data : templateData) : outcome string :=
  if Contains s "{{" then wrapErr msg (Render s data) else Ok s.

(** The body of the loop over the labels. *)
Definition renderLabel (data : templateData) (labels : gmap string string) (kv : string * string)
  : outcome (gmap string string) :=
  let! key := renderIfTemplate "failed to evaluate key as template" kv.1 data in
  let! value := renderIfTemplate "failed to evaluate value as template" kv.2 data in
  Ok (if decide (key <> "") then <[key := value]> labels else labels).

Definition templateLabelSelector (relatedOrigin relatedDest : syncSide) (origin : RelatedResourceOrigin)
    (selector : selectorLoc) : M kube LabelSelector :=
  let '(localSide, remoteSide) := remapSyncSides relatedOrigin relatedDest origin in
  let* localObj := deref (sd_object localSide) in
  let* remoteObj := deref (sd_object remoteSide) in
  let data := LabelData (NewRelatedObjectLabelContext localObj remoteObj
                           (sd_clusterName remoteSide) (sd_workspacePath remoteSide)) in
  let* sel := readSelector selector in
  let* newMatchLabels := liftO (ofoldM (renderLabel data) ∅ (map_range (MatchLabels sel))) in
  let* _ := writeSelector selector newMatchLabels in
  retM (LSel newMatchLabels (MatchExpressions sel)).

Definition applyTemplateBothSides (relatedOrigin relatedDest : syncSide) (origin : RelatedResourceOrigin)
    (tpl : TemplateExpression) : outcome (string * string) :=
  let '(_, remoteSide) := remapSyncSides relatedOrigin relatedDest origin in
  let! originObj := derefO (sd_object relatedOrigin) in
  let! originValue := wrapErr "failed to evaluate template on origin side"
    (Render (te_Template tpl) (RelatedData (NewRelatedObjectContext originObj origin
       (sd_clusterName remoteSide) (sd_workspacePath remoteSide)))) in
  let! destObj := derefO (sd_object relatedDest) in
  let! destValue := wrapErr "failed to evaluate template on destination side"
    (Render (te_Template tpl) (RelatedData (NewRelatedObjectContext destObj (oppositeSide origin)
       (sd_clusterName remoteSide) (sd_workspacePath remoteSide)))) in
  Ok (originValue, destValue).

Definition applyTemplate (relatedOrigin relatedDest : syncSide) (origin : RelatedResourceOrigin)
    (tpl : TemplateExpression) (value : string) (originRelatedObject : option Unstructured) : outcome string :=
  let '(localSide, remoteSide) := remapSyncSides relatedOrigin relatedDest origin in
  let! localObj := derefO (sd_object localSide) in
  let! remoteObj := derefO (sd_object remoteSide) in
  Render (te_Template tpl) (RewriteData (NewRelatedObjectLabelRewriteContext value localObj remoteObj
    originRelatedObject (sd_clusterName remoteSide) (sd_workspacePath remoteSide))).

Definition applyRegularExpression (value : string) (re : RegularExpression) : outcome string :=
  if decide (re_Pattern re = "") then Ok (re_Replacement re)
  else
    let! expr := wrapErr ("invalid pattern " +:+ re_Pattern re) (regexp_Compile (re_Pattern re)) in
    Ok (expr value (re_Replacement re)).

Definition applySelectorRewrites (relatedOrigin relatedDest : syncSide) (origin : RelatedResourceOrigin)
    (value : string) (originRelatedObject : option Unstructured) (rewrite : RelatedResourceSelectorRewrite)
  : outcome string :=
  match rw_Regex rewrite, rw_Template rewrite with
  | Some re, _ => applyRegularExpression value re
  | None, Some tpl => applyTemplate relatedOrigin relatedDest origin tpl value originRelatedObject
  | None, None => Err (ErrorString "invalid rewrite: no mechanism configured")
  end.

Definition resolveReference (jsonData : bytes) (ref : RelatedResourceObjectReference) : outcome (list string) :=
  match gjson_Get jsonData (ref_Path ref) with
  | None => Ok []
  | Some result =>
      let values := match result with
                    | inl elems => TrimSpace <$> elems
                    | inr s => [TrimSpace s]
                    end in
      match ref_Regex ref with
      | None => Ok values
      | Some re => omapM (fun value => applyRegularExpression value re) values
      end
  end.

Definition resolveObjectReference (object : option Unstructured) (ref : RelatedResourceObjectReference)
  : outcome (list string) :=
  let! o := derefO object in
  let! data := MarshalJSON o in
  resolveReference data ref.

Fixpoint mapSlicesFrom (mapping : gmap string string) (a b : list string) : outcome (gmap string string) :=
  match a with
  | [] => Ok mapping
  | aItem :: a' =>
      match b with
      | [] => Panic "index out of range"
      | bItem :: b' =>
          mapSlicesFrom (if decide (bItem = "" \/ aItem = "") then mapping else <[aItem := bItem]> mapping) a' b'
      end
  end.

Definition mapSlices (a b : list string) : outcome (gmap string string) := mapSlicesFrom ∅ a b.

(** The reference on both sides, paired up. *)
Definition referenceMap (what : string) (relatedOrigin relatedDest : syncSide) (ref : RelatedResourceObjectReference)
  : outcome (gmap string string) :=
  let! originValues := resolveObjectReference (sd_object relatedOrigin) ref in
  if decide (length originValues = 0) then Ok ∅
  else
    let! destValues := resolveObjectReference (sd_object relatedDest) ref in
    if decide (length destValues <> length originValues)
    then Err (ErrorString ("cannot sync related resources: found a different number of " +:+ what +:+
                           " on the origin and the destination side"))
    else mapSlices originValues destValues.

(** The template on both sides; an empty value selects nothing. *)
Definition templateMap (relatedOrigin relatedDest : syncSide) (origin : RelatedResourceOrigin)
    (tpl : TemplateExpression) : outcome (gmap string string) :=
  let! (originValue, destValue) := wrapErr "failed to apply template"
    (applyTemplateBothSides relatedOrigin relatedDest origin tpl) in
  if decide (originValue = "" \/ destValue = "") then Ok ∅ else Ok {[ originValue := destValue ]}.

(** ** Resolution *)

Definition resolveRelatedResourceOriginNamespaces (relatedOrigin relatedDest : syncSide)
    (identifier : string) (origin : RelatedResourceOrigin) (spec : RelatedResourceObjectSpec)
  : M kube (gmap string string) :=
  match os_Reference spec, os_Selector spec, os_Template spec with
  | Some ref, _, _ => liftO (referenceMap "namespaces" relatedOrigin relatedDest ref)
  | None, Some selSpec, _ =>
      let* labelSelector := wrapM "failed to apply templates to label selector"
        (templateLabelSelector relatedOrigin relatedDest origin (SelLoc identifier true)) in
      let* selector := liftO (wrapErr "invalid selector configured" (LabelSelectorAsSelector labelSelector)) in
      let* namespaces := wrapM "failed to evaluate label selector"
        (listNamespaces (sd_client relatedOrigin) selector) in
      liftO (ofoldM (fun namespaceMap namespace =>
        let! destinationName := wrapErr "failed to rewrite origin namespace"
          (applySelectorRewrites relatedOrigin relatedDest origin (ns_name namespace) None (sel_Rewrite selSpec)) in
        Ok (<[ns_name namespace := destinationName]> namespaceMap)) ∅ namespaces)
  | None, None, Some tpl => liftO (templateMap relatedOrigin relatedDest origin tpl)
  | None, None, None => failM (ErrorString "invalid sourceSpec: no mechanism configured")
  end.

Definition resolveRelatedResourceObjectsInNamespace (relatedOrigin relatedDest : syncSide)
    (relRes : RelatedResourceSpec) (spec : RelatedResourceObjectSpec) (namespace : string)
  : M kube (gmap string string) :=
  match os_Reference spec, os_Selector spec, os_Template spec with
  | Some ref, _, _ => liftO (referenceMap "names" relatedOrigin relatedDest ref)
  | None, Some selSpec, _ =>
      let* originGVK := wrapM "failed to lookup" (KindFor (sd_client relatedOrigin) (RelatedResourceGVR relRes)) in
      let* labelSelector := wrapM "failed to apply templates to label selector"
        (templateLabelSelector relatedOrigin relatedDest (rr_Origin relRes) (SelLoc (rr_Identifier relRes) false)) in
      let* selector := liftO (wrapErr "invalid selector configured" (LabelSelectorAsSelector labelSelector)) in
      let* originObjects := wrapM "failed to select origin objects based on label selector"
        (clientList (sd_client relatedOrigin) (gvkAPIVersion originGVK, gvk_kind originGVK)
           (ListOpts selector namespace 0)) in
      liftO (ofoldM (fun nameMap originObject =>
        let! destinationName := wrapErr "failed to rewrite origin name"
          (applySelectorRewrites relatedOrigin relatedDest (rr_Origin relRes) (GetName originObject)
             (Some originObject) (sel_Rewrite selSpec)) in
        Ok (<[GetName originObject := destinationName]> nameMap)) ∅ originObjects)
  | None, None, Some tpl => liftO (templateMap relatedOrigin relatedDest (rr_Origin relRes) tpl)
  | None, None, None => failM (ErrorString "invalid objectSpec: no mechanism configured")
  end.

(** One pass of the inner loop: fetch an object, or skip it if it is gone. *)
Definition fetchOriginObject (relatedOrigin : syncSide) (relRes : RelatedResourceSpec)
    (originNamespace destNamespace : string) (result : list resolvedObject) (names : string * string)
  : M kube (list resolvedObject) :=
  let* originGVK := wrapM "failed to lookup" (KindFor (sd_client relatedOrigin) (RelatedResourceGVR relRes)) in
  let* r := tryM (clientGet (sd_client relatedOrigin) (gvkAPIVersion originGVK, gvk_kind originGVK)
                    (NN originNamespace names.1)) in
  match r with
  | inl originObj => retM (result ++ [Resolved originObj (NN destNamespace names.2)])
  | inr err => if IsNotFound err then retM result else failM (Wrapped "failed to get origin object" err)
  end.

Definition resolveRelatedResourceObjectsInNamespaces (relatedOrigin relatedDest : syncSide)
    (relRes : RelatedResourceSpec) (spec : RelatedResourceObjectSpec) (namespaceMap : gmap string string)
  : M kube (list resolvedObject) :=
  foldM (fun result namespaces =>
    let* nameMap := wrapM "failed to find objects on origin side"
      (resolveRelatedResourceObjectsInNamespace relatedOrigin relatedDest relRes spec namespaces.1) in
    foldM (fetchOriginObject relatedOrigin relRes namespaces.1 namespaces.2) result (map_range nameMap))
  [] (map_range namespaceMap).

Definition resolveRelatedResourceObjects (relatedOrigin relatedDest : syncSide) (relRes : RelatedResourceSpec)
  : M kube (list resolvedObject) :=
  let* originObj := deref (sd_object relatedOrigin) in
  let* destObj := deref (sd_object relatedDest) in
  let originNamespace := GetNamespace originObj in
  let destNamespace := GetNamespace destObj in
  let inNamespaces (namespaceMap : gmap string string) :=
    wrapM "failed to resolve objects"
      (resolveRelatedResourceObjectsInNamespaces relatedOrigin relatedDest relRes
         (ro_Spec (rr_Object relRes)) namespaceMap) in
  match ro_Namespace (rr_Object relRes) with
  | Some nsSpec =>
      let* namespaceMap := wrapM "failed to resolve namespace"
        (resolveRelatedResourceOriginNamespaces relatedOrigin relatedDest (rr_Identifier relRes)
           (rr_Origin relRes) nsSpec) in
      if decide (size namespaceMap = 0) then retM [] else inNamespaces namespaceMap
  | None =>
      if decide (originNamespace = "")
      then failM (ErrorString "primary object is cluster-scoped and no source namespace configuration was provided")
      else if decide (destNamespace = "")
      then failM (ErrorString "primary object copy is cluster-scoped and no source namespace configuration was provided")
      else inNamespaces {[ originNamespace := destNamespace ]}
  end.

Section Process.
Context (s : ResourceSyncer) (ctx : context).

(** ** [rememberRelatedObjects] *)

(** The JSON of a [relatedObjectAnnotation]; the namespace is [omitempty]. *)
Definition relatedObjectAnnotation (r : resolvedObject) : string :=
  let d := ro_destination r in
  JsonEnc.object
    ((if decide (nn_namespace d = "") then [] else [("namespace", JsonEnc.quote (nn_namespace d))]) ++
     [("name", JsonEnc.quote (nn_name d));
      ("apiVersion", JsonEnc.quote (GetAPIVersion (ro_original r)));
      ("kind", JsonEnc.quote (GetKind (ro_original r)))]).

Definition rememberPrefix (identifier : string) : string :=
  relatedObjectAnnotationPrefix +:+ identifier +:+ ".".

Definition rememberedAnnotations (identifier : string) (resolvedObjects : list resolvedObject)
  : gmap string string :=
  list_to_map (imap (fun idx r => (rememberPrefix identifier +:+ pretty idx, relatedObjectAnnotation r))
                 resolvedObjects).

(** The entries of other identifiers stay. *)
Definition otherAnnotations (prefix : string) (annotations : gmap string string) : gmap string string :=
  filter (fun kv => HasPrefix kv.1 prefix = false) annotations.

Definition annotationsChanged (prefix : string) (annotations desired : gmap string string) : bool :=
  existsb (fun kv => HasPrefix kv.1 prefix && bool_decide (desired !! kv.1 = None)) (map_to_list annotations) ||
  existsb (fun kv => bool_decide (default "" (annotations !! kv.1) <> kv.2)) (map_to_list desired).

(** Also answers with the primary object as the caller sees it. *)
Definition rememberRelatedObjects (remote : syncSide) (identifier : string)
    (resolvedObjects : list resolvedObject) : M kube (bool * syncSide) :=
  if decide (length resolvedObjects = 0) then retM (false, remote)
  else
    let prefix := rememberPrefix identifier in
    let desired := rememberedAnnotations identifier resolvedObjects in
    let* obj := deref (sd_object remote) in
    let annotations := default ∅ (GetAnnotations obj) in
    if negb (annotationsChanged prefix annotations desired) then retM (false, remote)
    else
      let oldState := obj in
      let obj := SetAnnotations (Some (desired ∪ otherAnnotations prefix annotations)) obj in
      let* obj := wrapM "failed to update related data in remote object"
                    (clientPatch (sd_client remote) obj (MergeFrom oldState)) in
      retM (true, with_object (Some obj) remote).

(** ** [pruneRelatedCopies] *)

Definition pruneRelatedCopy (dest : syncSide) (primary : option Unstructured) (keep : gset string)
    (deletionPolicies : gmap string DeletionPropagation) (deleteAll : bool)
    (requeue : bool) (item : Unstructured) : M kube bool :=
  let key := relatedCopyKey (GetNamespace item) (GetName item) in
  if negb deleteAll && bool_decide (key ∈ keep) then retM requeue
  else if is_deleting item then retM true
  else
    let policy := default DeletePropagationUnset (deletionPolicies !! key) in
    let* r := tryM (clientDelete (sd_client dest) item (normalizeDeletionPropagationPolicy policy)) in
    match r with
    | inr err => if IsNotFound err then retM requeue else failM (Wrapped "failed to delete related copy" err)
    | inl _ =>
        let* _ := if recorderFromContext ctx
                  then emitEvent primary EventTypeNormal "ObjectCleanup"
                         ("Deleted orphaned copy " +:+ key +:+ " of a related resource.")
                  else retM tt in
        retM true
    end.

Definition pruneRelatedCopies (dest : syncSide) (primary : option Unstructured) (projectedGVK : GroupVersionKind)
    (selector : Selector) (keep : gset string) (deletionPolicies : gmap string DeletionPropagation)
    (deleteAll : bool) : M kube bool :=
  let* items := wrapM "failed to list related copies"
    (clientList (sd_client dest) (gvkAPIVersion projectedGVK, gvk_kind projectedGVK +:+ "List")
       (ListOpts selector "" 0)) in
  foldM (pruneRelatedCopy dest primary keep deletionPolicies deleteAll) false items.

(** ** [confirmOriginEmpty] *)

(** [liveReadClient]: reads go to the API server, everything else to the
    underlying client. *)
Definition liveReadClient (c : client) : client := Client (cl_cluster c) LiveRead.

(** [(confirmedEmpty, checked)]; the live side has no workspace path. *)
Definition confirmOriginEmpty (origin dest : syncSide) (relRes : RelatedResourceSpec) : M kube (bool * bool) :=
  let reader := if decide (rr_Origin relRes = RelatedResourceOriginService)
                then rs_localAPIReader s else rs_remoteAPIReader s in
  if negb reader then retM (false, false)
  else
    let liveOrigin := Side (sd_clusterName origin) "" (liveReadClient (sd_client origin)) (sd_object origin) in
    let* resolved := resolveRelatedResourceObjects liveOrigin dest relRes in
    retM (bool_decide (length resolved = 0), true).

(** ** [processRelatedResource] *)

Definition resolved_le (a b : resolvedObject) : bool :=
  String.leb (namespacedNameString (ObjectKeyFromObject (ro_original a)))
    (namespacedNameString (ObjectKeyFromObject (ro_original b))).

Definition relatedDestCreator (projectedGVK : GroupVersionKind) (destination : NamespacedName) : objectCreatorFunc :=
  fun source =>
    let dest := SetKind (gvk_kind projectedGVK) (SetAPIVersion (gvkAPIVersion projectedGVK) source) in
    Ok (SetNamespace (nn_namespace destination) (SetName (nn_name destination) dest)).

Definition forwardsDeletion (policy : RelatedResourceCleanupPolicy) : bool :=
  bool_decide (policy = RelatedResourceCleanupPolicyOnPrimaryDeletion \/
               policy = RelatedResourceCleanupPolicyMatchOrigin).

Definition relatedForceDelete (relRes : RelatedResourceSpec) (primaryDeleting : bool) : bool :=
  primaryDeleting &&
  (forwardsDeletion (EffectiveCleanupPolicy relRes) ||
   bool_decide (rr_Origin relRes = RelatedResourceOriginKcp)).

Definition relatedSyncer (stateStore : ObjectStateStore) (relRes : RelatedResourceSpec)
    (primary : Unstructured) (clusterName : string) (projectedGVK : GroupVersionKind) (forceDelete : bool)
    (resolved : resolvedObject) : objectSyncer :=
  MkObjectSyncer ""
    (relatedDestCreator projectedGVK (ro_destination resolved))
    (if rr_SyncStatus relRes then ["status"] else [])
    false
    (rr_SyncStatus relRes)
    (forceDelete || bool_decide (rr_Origin relRes = RelatedResourceOriginKcp))
    false
    (relatedCopyLabels primary clusterName (pr_Name (rs_pubRes s)) (rr_Identifier relRes) (rs_agentName s))
    (relatedCopyAnnotations primary)
    (default None (rs_relatedMutators s !! rr_Identifier relRes))
    stateStore
    (if decide (rr_Origin relRes = RelatedResourceOriginService) then syncSideDestination else syncSideSource)
    forceDelete
    (relatedDeletionPropagationPolicy (rr_Origin relRes) (ro_original resolved))
    (rs_useServerSideApply s).

(** The variables of the loop: requeue, the synced copies, their deletion
    policies, and the resolved objects as the syncer left them. *)
Record loopState : Type := MkLoop {
  ls_requeue : bool;
  ls_synced : gset string;
  ls_deletionPolicies : gmap string DeletionPropagation;
  ls_resolved : list resolvedObject
}.

Definition syncRelatedObject (stateStore : ObjectStateStore) (origin dest : syncSide)
    (relRes : RelatedResourceSpec) (primary : Unstructured) (clusterName : string)
    (projectedGVK : GroupVersionKind) (forceDelete : bool)
    (st : loopState) (resolved : resolvedObject) : M kube loopState :=
  let destination := ro_destination resolved in
  let* r := tryM (clientGet (sd_client dest) (gvkAPIVersion projectedGVK, gvk_kind projectedGVK) destination) in
  let destObject := match r with inl o => Some o | inr _ => None end in
  let sourceSide := Side (sd_clusterName origin) "" (sd_client origin) (Some (ro_original resolved)) in
  let destSide := Side (sd_clusterName dest) "" (sd_client dest) destObject in
  let key := relatedCopyKey (nn_namespace destination) (nn_name destination) in
  let policies := <[key := relatedDeletionPropagationPolicy (rr_Origin relRes) (ro_original resolved)]>
                    (ls_deletionPolicies st) in
  let syncer := relatedSyncer stateStore relRes primary clusterName projectedGVK forceDelete resolved in
  let* res := wrapM "failed to sync related object" (Sync syncer ctx sourceSide destSide) in
  retM (MkLoop (ls_requeue st || sy_requeue res) ({[key]} ∪ ls_synced st) policies
          (ls_resolved st ++ [Resolved (default (ro_original resolved) (sy_source res)) destination])).

(** The prune at the end of a pass. *)
Definition cleanupRelatedCopies (origin dest : syncSide) (relRes : RelatedResourceSpec) (primary : Unstructured)
    (clusterName : string) (projectedGVK : GroupVersionKind) (primaryDeleting : bool)
    (resolvedEmpty : bool) (st : loopState) : M kube bool :=
  let policy := EffectiveCleanupPolicy relRes in
  let selector := relatedCopySelector primary clusterName (pr_Name (rs_pubRes s)) (rr_Identifier relRes)
                    (rs_agentName s) in
  if primaryDeleting && forwardsDeletion policy then
    let* pruneRequeue := wrapM "failed to tear down related copies"
      (pruneRelatedCopies dest (Some primary) projectedGVK selector ∅ (ls_deletionPolicies st) true) in
    retM (ls_requeue st || pruneRequeue)
  else if negb primaryDeleting && bool_decide (policy = RelatedResourceCleanupPolicyMatchOrigin) then
    let prune :=
      let* pruneRequeue := wrapM "failed to prune related copies"
        (pruneRelatedCopies dest (Some primary) projectedGVK selector (ls_synced st) (ls_deletionPolicies st) false) in
      retM (ls_requeue st || pruneRequeue) in
    if resolvedEmpty then
      let* (confirmedEmpty, checked) := wrapM "failed to confirm empty origin before pruning related copies"
        (confirmOriginEmpty origin dest relRes) in
      if negb checked then retM (ls_requeue st)
      else if negb confirmedEmpty then retM true
      else prune
    else prune
  else retM (ls_requeue st).

(** Which side a related resource comes from: [(origin, dest)]. *)
Definition relatedSides (remote local : syncSide) (relRes : RelatedResourceSpec) : syncSide * syncSide :=
  if decide (rr_Origin relRes = RelatedResourceOriginService) then (local, remote) else (remote, local).

(** Also answers with the primary as the caller sees it. *)
Definition processRelatedResource (stateStore : ObjectStateStore) (remote local : syncSide)
    (relRes : RelatedResourceSpec) (primaryDeleting : bool) : M kube (bool * syncSide) :=
  let '(origin, dest) := relatedSides remote local relRes in
  let* resolvedObjects := wrapM "failed to get resolve origin objects"
    (resolveRelatedResourceObjects origin dest relRes) in
  let resolvedObjects := SortFunc resolved_le resolvedObjects in
  let* projectedGVK := wrapM "failed to lookup"
    (KindFor (sd_client dest) (RelatedResourceProjectedGVR relRes)) in
  let* primary := deref (sd_object remote) in
  let* st := foldM (syncRelatedObject stateStore origin dest relRes primary (sd_clusterName remote) projectedGVK
                      (relatedForceDelete relRes primaryDeleting))
               (MkLoop false ∅ ∅ []) resolvedObjects in
  let* (annRequeue, remote) :=
    if decide (rr_Origin relRes = RelatedResourceOriginService)
    then rememberRelatedObjects remote (rr_Identifier relRes) (ls_resolved st)
    else retM (false, remote) in
  if (annRequeue : bool) then retM (true, remote)
  else
    let* requeue := cleanupRelatedCopies origin dest relRes primary (sd_clusterName remote) projectedGVK
                      primaryDeleting (bool_decide (length resolvedObjects = 0)) st in
    retM (requeue, remote).

(** ** [processRelatedResources] *)

Fixpoint processRelated (stateStore : ObjectStateStore) (remote local : syncSide)
    (related : list RelatedResourceSpec) (primaryDeleting : bool) : M kube bool :=
  match related with
  | [] => retM false
  | relRes :: related' =>
      let* (requeue, remote) := wrapM ("failed to process related resource " +:+ rr_Identifier relRes)
        (processRelatedResource stateStore remote local relRes primaryDeleting) in
      if (requeue : bool) then retM true else processRelated stateStore remote local related' primaryDeleting
  end.

Definition processRelatedResources (stateStore : ObjectStateStore) (remote local : syncSide)
    (primaryDeleting : bool) : M kube bool :=
  processRelated stateStore remote local (ps_Related (pr_Spec (rs_pubRes s))) primaryDeleting.

End Process.
End Related.
