(* ===== verification/RelatedProofs.v ===== *)
(** Properties of the related resources: what is deleted and why, what is
    noted on the primary, and what happens to shared selectors. *)

From S2P Require Import Prelude Effects Kube Crypto ApiTypes Meta Metadata StateStore ObjectSyncer.
From S2P Require Import Projection Templating Related Samples ObjectSyncerProofs.

(** ** Requests of the resolution *)

Section Reads.
Context {J : JsonLib} {T : TemplateEngine} {X : TextLib} {R : MapRange}.

(** Resolution reads through the client of the origin side and touches the
    selectors in memory; it changes nothing on any server. *)
Definition resolve_request (c : client) (r : kreq) : Prop :=
  match r with
  | RGet c' _ _ | RList c' _ _ | RKindFor c' _ | RListNamespaces c' _ => c' = c
  | RReadSelector _ | RWriteSelector _ _ => True
  | _ => False
  end.

Lemma templateLabelSelector_requests P o d org loc :
  P (RReadSelector loc) -> (forall m, P (RWriteSelector loc m)) ->
  always (S := kube) P (templateLabelSelector o d org loc).
Proof.
  intros. unfold templateLabelSelector, readSelector, writeSelector.
  destruct (remapSyncSides o d org). repeat (always_step; simpl); auto using deref_always.
Qed.

Lemma resolve_requests origin dest relRes :
  always (S := kube) (resolve_request (sd_client origin)) (resolveRelatedResourceObjects origin dest relRes).
Proof.
  unfold resolveRelatedResourceObjects, resolveRelatedResourceOriginNamespaces,
    resolveRelatedResourceObjectsInNamespaces, resolveRelatedResourceObjectsInNamespace, fetchOriginObject,
    KindFor, clientGet, clientList, listNamespaces.
  repeat (always_step; simpl); auto using deref_always; try (by apply templateLabelSelector_requests).
Qed.

End Reads.

(** ** Pruning *)

Section Prune.
Context {J : JsonLib} (ctx : context).

(** A copy the prune removes. *)
Definition unwanted (keep : gset string) (deleteAll : bool) (item : Unstructured) : bool :=
  deleteAll || bool_decide (relatedCopyKey (GetNamespace item) (GetName item) ∉ keep).

Section Args.
Context (dest : syncSide) (primary : option Unstructured) (keep : gset string)
  (policies : gmap string DeletionPropagation) (deleteAll : bool).

Definition deletes_only (items : list Unstructured) (r : kreq) : Prop :=
  match r with
  | RDelete c item policy =>
      c = sd_client dest /\ item ∈ items /\ unwanted keep deleteAll item = true /\ is_deleting item = false /\
      policy = normalizeDeletionPropagationPolicy
                 (default DeletePropagationUnset (policies !! relatedCopyKey (GetNamespace item) (GetName item)))
  | REvent _ _ _ _ => True
  | _ => False
  end.

Lemma unwanted_guard item :
  negb deleteAll && bool_decide (relatedCopyKey (GetNamespace item) (GetName item) ∈ keep)
  = negb (unwanted keep deleteAll item).
Proof.
  unfold unwanted. destruct deleteAll; simpl; [done|].
  destruct (decide (relatedCopyKey (GetNamespace item) (GetName item) ∈ keep)) as [H|H].
  - rewrite bool_decide_true, bool_decide_false by (done || tauto). done.
  - rewrite bool_decide_false, bool_decide_true by (done || tauto). done.
Qed.

Lemma pruneRelatedCopy_requests items rq item :
  item ∈ items ->
  always (S := kube) (deletes_only items) (pruneRelatedCopy ctx dest primary keep policies deleteAll rq item).
Proof.
  intros Hin. unfold pruneRelatedCopy, clientDelete, emitEvent. rewrite unwanted_guard.
  destruct (unwanted keep deleteAll item) eqn:Hu; [|done]. simpl.
  destruct (is_deleting item) eqn:Hd; [done|]. repeat (always_step; simpl); done.
Qed.

Lemma prune_loop_requests items rq :
  always (S := kube) (deletes_only items)
    (foldM (pruneRelatedCopy ctx dest primary keep policies deleteAll) rq items).
Proof. apply always_foldM. intros b x Hx. by apply pruneRelatedCopy_requests. Qed.

(** Where an unwanted copy stands after the pass that answered [requeue]. *)
Definition disposed (item : Unstructured) (requeue : bool) (tr : list (event kube)) : Prop :=
  (is_deleting item = true /\ requeue = true) \/
  (exists x, Ev (S := kube) (RDelete (sd_client dest) item
              (normalizeDeletionPropagationPolicy
                 (default DeletePropagationUnset
                    (policies !! relatedCopyKey (GetNamespace item) (GetName item))))) x ∈ tr /\
     ((x = Ok tt /\ requeue = true) \/ exists e, x = Err e /\ IsNotFound e = true)).

(** What became of a copy when the loop succeeds. *)
Lemma pruneRelatedCopy_done rq item tr b :
  exec (pruneRelatedCopy ctx dest primary keep policies deleteAll rq item) tr (Ok b) ->
  (rq = true -> b = true) /\
  (unwanted keep deleteAll item = true -> disposed item b tr).
Proof.
  unfold pruneRelatedCopy, clientDelete, disposed. rewrite unwanted_guard. intros H.
  destruct (unwanted keep deleteAll item); simpl in H; [|repeat exec_step; split; [done|discriminate]].
  destruct (is_deleting item); [repeat exec_step; auto|].
  repeat exec_step.
  - destruct a0. split; [done|]. intros _. right. eexists. split; [by left|]. auto.
  - destruct (IsNotFound _) eqn:En; repeat exec_step. split; [done|]. intros _. right.
    eexists. split; [by left|]. right. eauto.
Qed.

Lemma disposed_mono item b b' tr tr' :
  (b = true -> b' = true) -> (forall e, e ∈ tr -> e ∈ tr') -> disposed item b tr -> disposed item b' tr'.
Proof. unfold disposed. intros Hb Htr [[? ?]|(x & Hx & Hr)]; [left; tauto|right]. exists x. naive_solver. Qed.

Lemma prune_loop_done items rq tr b :
  exec (foldM (pruneRelatedCopy ctx dest primary keep policies deleteAll) rq items) tr (Ok b) ->
  (rq = true -> b = true) /\
  forall item, item ∈ items -> unwanted keep deleteAll item = true -> disposed item b tr.
Proof.
  revert rq tr. induction items as [|x items IH]; intros rq tr H; simpl in H.
  { repeat exec_step. split; [done|]. set_solver. }
  exec_step. destruct (IH _ _ H) as [Hmono Hall].
  destruct (pruneRelatedCopy_done _ _ _ _ Hx) as [Hm Hd]. split; [tauto|].
  intros item [->|Hin]%elem_of_cons Hu.
  - eapply disposed_mono; [exact Hmono| |exact (Hd Hu)]. set_solver.
  - eapply (disposed_mono item b b tr1); [done| |by apply Hall]. set_solver.
Qed.

End Args.

(** C13: the prune lists the copies that carry the selector's labels on the
    destination, and deletes on the destination only; it deletes only listed
    copies that are not to be kept and not already going away.  When it
    succeeds, every unwanted copy was deleted, had already vanished, or is
    being deleted, and a requeue is asked for unless all had vanished. *)
Theorem pruneRelatedCopies_exact dest primary gvk selector keep policies deleteAll tr o :
  exec (pruneRelatedCopies ctx dest primary gvk selector keep policies deleteAll) tr o ->
  let list := RList (sd_client dest) (gvkAPIVersion gvk, gvk_kind gvk +:+ "List") (ListOpts selector "" 0) in
  (exists x, tr = [Ev (S := kube) list x] /\ is_ok x = false /\ is_ok o = false) \/
  (exists items tr', tr = Ev (S := kube) list (Ok items) :: tr' /\
     Forall (deletes_only dest keep policies deleteAll items) (requests tr') /\
     forall requeue, o = Ok requeue ->
       forall item, item ∈ items -> unwanted keep deleteAll item = true ->
         disposed dest policies item requeue tr').
Proof.
  intros H list. unfold pruneRelatedCopies in H.
  apply exec_bindM_inv in H as [(tr1 & tr2 & items & -> & H1 & H2)|[(e & -> & H1)|(m & -> & H1)]].
  - right. exec_step. unfold clientList in H1. exec_step. repeat exec_step.
    exists items, tr2. split_and!; [done| |].
    + apply (always_exec (S := kube) _ _ _ _ (prune_loop_requests _ _ _ _ _ _ _) H2).
    + intros rq ->. by apply prune_loop_done in H2 as [_ H2].
  - left. apply exec_wrapM_inv in H1 as (o' & H1 & Ho). unfold clientList in H1. exec_step. repeat exec_step.
    eexists. split_and!; [done| |done]. by destruct x.
  - left. apply exec_wrapM_inv in H1 as (o' & H1 & Ho). unfold clientList in H1. exec_step. repeat exec_step.
    eexists. split_and!; [done| |done]. by destruct x.
Qed.

End Prune.

(** ** What processing a related resource may touch *)

Section Requests.
Context {J : JsonLib} {T : TemplateEngine} {X : TextLib} {R : MapRange}.
Context (s : ResourceSyncer) (ctx : context) (stateClient : client) (stateStore : ObjectStateStore).
Context {HS : SecretStore stateClient stateStore}.

(** The situations in which copies of a related resource may be deleted. *)
Definition may_delete (relRes : RelatedResourceSpec) (primaryDeleting : bool) : Prop :=
  rr_Origin relRes = RelatedResourceOriginKcp \/
  EffectiveCleanupPolicy relRes = RelatedResourceCleanupPolicyMatchOrigin \/
  (EffectiveCleanupPolicy relRes = RelatedResourceCleanupPolicyOnPrimaryDeletion /\ primaryDeleting = true).

Definition related_request (origin dest : syncSide) (relRes : RelatedResourceSpec) (primaryDeleting : bool)
    (r : kreq) : Prop :=
  match r with
  | RGet c _ _ | RList c _ _ | RKindFor c _ | RListNamespaces c _ =>
      c = sd_client origin \/ c = liveReadClient (sd_client origin) \/ c = sd_client dest
  | RCreate c _ | RUpdate c _ | RStatusUpdate c _ | RApply c _ _ _ | RGetNamespace c _ | RCreateNamespace c _ =>
      c = sd_client dest
  | RDelete c _ _ => c = sd_client dest /\ may_delete relRes primaryDeleting
  | RPatch c obj p =>
      c = sd_client dest \/
      (c = sd_client origin /\ may_delete relRes primaryDeleting /\
       exists src f, p = MergeFrom src /\ obj = SetFinalizers f src)
  | RGetSecret c _ | RCreateSecret c _ | RUpdateSecret c _ => c = stateClient
  | REvent _ _ _ _ | RReadSelector _ | RWriteSelector _ _ => True
  | RGetCluster _ | RGetLogicalCluster _ _ => False
  end.

Section Sides.
Context (remote local : syncSide) (relRes : RelatedResourceSpec) (primaryDeleting : bool).

Abbreviation origin := (relatedSides remote local relRes).1.
Abbreviation dest := (relatedSides remote local relRes).2.
Abbreviation allowed := (related_request origin dest relRes primaryDeleting).

Lemma forwardsDeletion_may p :
  forwardsDeletion p = true ->
  p = RelatedResourceCleanupPolicyOnPrimaryDeletion \/ p = RelatedResourceCleanupPolicyMatchOrigin.
Proof. unfold forwardsDeletion. apply bool_decide_eq_true. Qed.

Lemma forced_may_delete : relatedForceDelete relRes primaryDeleting = true -> may_delete relRes primaryDeleting.
Proof.
  unfold relatedForceDelete, may_delete. intros [-> [H|H%bool_decide_eq_true]%orb_true_iff]%andb_true_iff; [|tauto].
  apply forwardsDeletion_may in H. tauto.
Qed.

Lemma resolve_allowed org :
  (sd_client org = sd_client origin \/ sd_client org = liveReadClient (sd_client origin)) ->
  always (S := kube) allowed (resolveRelatedResourceObjects org dest relRes).
Proof.
  intros Hc. eapply always_mono; [|apply resolve_requests].
  intros r. destruct r; simpl; intros H; subst; tauto.
Qed.

Lemma syncRelatedObject_allowed primary cn gvk st resolved :
  always (S := kube) allowed
    (syncRelatedObject s ctx stateStore origin dest relRes primary cn gvk
       (relatedForceDelete relRes primaryDeleting) st resolved).
Proof.
  unfold syncRelatedObject, clientGet. repeat (always_step; simpl); try tauto.
  set (syncer := relatedSyncer _ _ _ _ _ _ _ _).
  eapply always_mono; [|apply (Sync_always syncer ctx stateClient (HS := HS)
    (Side (sd_clusterName origin) "" (sd_client origin) (Some (ro_original resolved))) _ (ro_original resolved) eq_refl)].
  assert (syn_blockSourceDeletion syncer = true -> may_delete relRes primaryDeleting) as Hblock.
  { unfold syncer. simpl. intros [H|H%bool_decide_eq_true]%orb_true_iff; [by apply forced_may_delete|by left]. }
  intros r Hr. destruct Hr as [|Hb _ _|r _ _ Hr|dst Hb _ _ _|Hb _ _ _]; simpl; auto.
  - right. split_and!; eauto.
  - destruct r; simpl in *; try tauto; try naive_solver.
  - right. split_and!; eauto.
Qed.

Lemma prune_allowed primary gvk selector keep policies deleteAll :
  may_delete relRes primaryDeleting ->
  always (S := kube) allowed (pruneRelatedCopies ctx dest primary gvk selector keep policies deleteAll).
Proof.
  intros Hm. unfold pruneRelatedCopies, clientList. apply always_bindM.
  { repeat (always_step; simpl); tauto. }
  intros items. eapply always_mono; [|apply prune_loop_requests].
  intros r. destruct r; simpl; tauto.
Qed.

Lemma cleanup_allowed primary cn gvk empty st :
  always (S := kube) allowed
    (cleanupRelatedCopies s ctx origin dest relRes primary cn gvk primaryDeleting empty st).
Proof.
  unfold cleanupRelatedCopies, confirmOriginEmpty.
  destruct (primaryDeleting && forwardsDeletion (EffectiveCleanupPolicy relRes)) eqn:E1.
  { apply andb_true_iff in E1 as [Hd Hf%forwardsDeletion_may].
    apply always_bindM; [|done]. apply always_wrapM, prune_allowed. unfold may_delete. tauto. }
  destruct (negb primaryDeleting && bool_decide _) eqn:E2; [|done].
  apply andb_true_iff in E2 as [_ Hp%bool_decide_eq_true].
  assert (may_delete relRes primaryDeleting) as Hm by (unfold may_delete; tauto).
  repeat (always_step; simpl); try apply prune_allowed; try apply resolve_allowed; simpl; auto.
Qed.

Lemma processRelatedResource_always :
  always (S := kube) allowed (processRelatedResource s ctx stateStore remote local relRes primaryDeleting).
Proof.
  unfold processRelatedResource. destruct (relatedSides remote local relRes) as [o d] eqn:Es.
  replace o with origin by (by rewrite Es). replace d with dest by (by rewrite Es).
  apply always_bindM; [apply always_wrapM, resolve_allowed; auto|]. intros objs.
  apply always_bindM; [unfold KindFor; repeat (always_step; simpl); tauto|]. intros gvk.
  apply always_bindM; [apply deref_always|]. intros primary.
  apply always_bindM; [apply always_foldM; intros; apply syncRelatedObject_allowed|]. intros st.
  apply always_bindM.
  - case_decide as Ho; [|done]. unfold rememberRelatedObjects, clientPatch.
    assert (sd_client remote = sd_client dest) as Hc by (unfold relatedSides; by rewrite decide_True).
    repeat (always_step; simpl); auto using deref_always.
  - intros [[] ?]; [done|]. apply always_bindM; [apply cleanup_allowed|done].
Qed.

End Sides.
End Requests.

(** ** Which copies are created, replaced and deleted *)

Section Copies.
Context {J : JsonLib} {T : TemplateEngine} {X : TextLib} {R : MapRange}.
Context (s : ResourceSyncer) (ctx : context) (stateClient : client) (stateStore : ObjectStateStore).
Context {HS : SecretStore stateClient stateStore}.

Section Resource.
Context (relRes : RelatedResourceSpec).

(** The object was read as one of the kind of the copies: by its name, or
    among those that carry the labels of the copies of this resource. *)
Definition copy_read (c : client) (gvk : GroupVersionKind) (h : list (event kube)) (o : Unstructured) : Prop :=
  (exists n, Ev (S := kube) (RGet c (gvkAPIVersion gvk, gvk_kind gvk) n) (Ok o) ∈ h) \/
  (exists primary cn items,
     Ev (S := kube) (RList c (gvkAPIVersion gvk, gvk_kind gvk +:+ "List")
       (ListOpts (relatedCopySelector primary cn (pr_Name (rs_pubRes s)) (rr_Identifier relRes) (rs_agentName s))
          "" 0)) (Ok items) ∈ h /\ o ∈ items).

(** The status mutations that are configured for the related resource. *)
Definition related_mutated (o o' : Unstructured) : Prop :=
  o' = o \/ exists m other, rs_relatedMutators s !! rr_Identifier relRes = Some (Some m) /\
                           MutateStatus m o (Some other) = Ok o'.

(** A copy is created with the kind of the copies; one that was read is
    replaced or deleted. *)
Definition copy_placement (c : client) (gvk : GroupVersionKind) (h : list (event kube)) (r : kreq) : Prop :=
  match r with
  | RCreate c' o | RApply c' o _ _ => c' = c /\ (GetAPIVersion o, GetKind o) = (gvkAPIVersion gvk, gvk_kind gvk)
  | RUpdate c' o => c' = c /\ exists o1 o2, copy_read c gvk h o1 /\ related_mutated o1 o2 /\ identity o = identity o2
  | RDelete c' o _ => c' = c /\ copy_read c gvk h o
  | _ => True
  end.

Lemma copy_placement_quiet c gvk h r : is_placement r = false -> copy_placement c gvk h r.
Proof. by destruct r. Qed.

Lemma copy_quiet {A} c gvk h (m : M kube A) :
  always (S := kube) (fun r => is_placement r = false) m -> traced (copy_placement c gvk) h m.
Proof. apply traced_always. intros. by apply copy_placement_quiet. Qed.

Lemma syncRelatedObject_traced origin dest primary cn gvk force st resolved h :
  traced (copy_placement (sd_client dest) gvk) h
    (syncRelatedObject s ctx stateStore origin dest relRes primary cn gvk force st resolved).
Proof.
  unfold syncRelatedObject. cbv zeta. apply traced_bindM; [by unfold clientGet; repeat (traced_step; simpl)|].
  intros tr r Hr. set (syncer := relatedSyncer _ _ _ _ _ _ _ _). set (dst := match r with inl _ => _ | inr _ => _ end).
  assert (forall h' o, dst = Some o -> copy_read (sd_client dest) gvk ((h ++ tr) ++ h') o) as Hread.
  { intros h' o Ho. left. exists (ro_destination resolved). destruct r as [o'|]; simplify_eq/=.
    unfold clientGet in Hr. repeat exec_step. set_solver. }
  apply traced_bindM; [|done]. apply traced_wrapM. eapply traced_mono; [|apply (Sync_traced syncer ctx stateClient (HS := HS))].
  intros h' q. destruct q; simpl; try done.
  - intros (-> & src & d & [= <-] & Hi). split; [done|]. exact (f_equal fst Hi).
  - intros (-> & [(src & d & o' & [= <-] & Hin & Hi)|(o1 & o2 & Ho & Hm & Hi)]); (split; [done|]).
    + exists o', o'. split_and!; [|by left|done]. left. eauto.
    + exists o1, o2. split_and!; [by apply Hread| |done]. destruct Hm as [->|(m & other & Hm & Ho')]; [by left|right].
      exists m, other. split; [|done]. unfold syncer in Hm. simpl in Hm.
      by destruct (rs_relatedMutators s !! rr_Identifier relRes) as [[]|]; simplify_eq/=.
  - intros (-> & src & d & [= <-] & Hi). split; [done|]. exact (f_equal fst Hi).
  - intros (-> & Ho). split; [done|]. by apply Hread.
Qed.

Lemma prune_traced dest primary primary' cn gvk keep policies deleteAll h :
  traced (copy_placement (sd_client dest) gvk) h
    (pruneRelatedCopies ctx dest primary gvk
       (relatedCopySelector primary' cn (pr_Name (rs_pubRes s)) (rr_Identifier relRes) (rs_agentName s))
       keep policies deleteAll).
Proof.
  unfold pruneRelatedCopies. apply traced_bindM; [by unfold clientList; repeat (traced_step; simpl)|].
  intros tr items H%exec_wrapM_ok_inv. unfold clientList in H. repeat exec_step.
  eapply traced_mono; [|eapply (traced_always (S := kube) (fun _ => deletes_only dest keep policies deleteAll items));
    [done|apply prune_loop_requests]].
  intros h' []; simpl; try done. intros (-> & Hin & _). split; [done|]. right.
  exists primary', cn, items. split; [|done]. set_solver.
Qed.

Lemma resolve_quiet origin dest :
  always (S := kube) (fun r => is_placement r = false) (resolveRelatedResourceObjects origin dest relRes).
Proof. eapply always_mono; [|apply resolve_requests]. by intros []. Qed.

Lemma cleanup_traced origin dest primary cn gvk primaryDeleting empty st h :
  traced (copy_placement (sd_client dest) gvk) h
    (cleanupRelatedCopies s ctx origin dest relRes primary cn gvk primaryDeleting empty st).
Proof.
  unfold cleanupRelatedCopies. cbv zeta.
  assert (forall A h (m : M kube A) (k : A -> M kube bool), traced (copy_placement (sd_client dest) gvk) h m ->
    (forall h a, traced (copy_placement (sd_client dest) gvk) h (k a)) ->
    traced (copy_placement (sd_client dest) gvk) h (bindM m k)) as Hbind.
  { intros. apply traced_bindM; auto. }
  destruct (_ && _); [apply Hbind; [apply traced_wrapM, prune_traced|done]|].
  destruct (_ && _); [|done]. destruct empty; [|apply Hbind; [apply traced_wrapM, prune_traced|done]].
  apply Hbind.
  { apply traced_wrapM, copy_quiet. unfold confirmOriginEmpty. case_match; [done|].
    apply always_bindM; [apply resolve_quiet|done]. }
  intros h' [[] []]; simpl; try done. apply Hbind; [apply traced_wrapM, prune_traced|done].
Qed.

(** The kind of the copies is what the cluster answers for their resource. *)
Definition related_placement (c : client) (h : list (event kube)) (r : kreq) : Prop :=
  is_placement r = true ->
  exists gvk, Ev (S := kube) (RKindFor c (RelatedResourceProjectedGVR relRes)) (Ok gvk) ∈ h /\
    copy_placement c gvk h r.

Lemma related_quiet {A} c h (m : M kube A) :
  always (S := kube) (fun r => is_placement r = false) m -> traced (related_placement c) h m.
Proof. apply traced_always. intros h' r Hr Hp. congruence. Qed.

Lemma processRelatedResource_traced remote local primaryDeleting h :
  traced (related_placement (sd_client (relatedSides remote local relRes).2)) h
    (processRelatedResource s ctx stateStore remote local relRes primaryDeleting).
Proof.
  unfold processRelatedResource. destruct (relatedSides remote local relRes) as [origin dest]. simpl.
  apply traced_bindM; [apply traced_wrapM, related_quiet, resolve_quiet|]. intros tr objs _. cbv zeta.
  apply traced_bindM; [by apply traced_wrapM, related_quiet; unfold KindFor; always_solve|].
  intros tr1 gvk H%exec_wrapM_ok_inv. unfold KindFor in H. repeat exec_step.
  set (h1 := (h ++ tr) ++ _). assert (forall h', Ev (S := kube) (RKindFor (sd_client dest)
    (RelatedResourceProjectedGVR relRes)) (Ok gvk) ∈ h1 ++ h') as Hkind by (unfold h1; set_solver).
  apply traced_bindM; [apply related_quiet, deref_always|]. intros tr2 primary _.
  assert (forall A h' (m : M kube A), traced (copy_placement (sd_client dest) gvk) (h1 ++ h') m ->
    traced (related_placement (sd_client dest)) (h1 ++ h') m) as Hm.
  { intros A h' m. apply traced_mono. intros h'' r Hr _. exists gvk. split; [|done].
    rewrite <- (assoc_L (++)). apply Hkind. }
  apply traced_bindM.
  { apply Hm, traced_foldM. intros. apply syncRelatedObject_traced. }
  intros tr3 st _. apply traced_bindM.
  { apply related_quiet. unfold rememberRelatedObjects, clientPatch. repeat (always_step; simpl); auto using deref_always. }
  intros tr4 [[] remote'] _; [done|]. apply traced_bindM; [|done].
  rewrite <- !(assoc_L (++)). apply Hm, cleanup_traced.
Qed.

End Resource.
End Copies.

(** Without a requeue the primary is as it was. *)
Section Unchanged.
Context {J : JsonLib} {T : TemplateEngine} {X : TextLib} {R : MapRange}.
Context (s : ResourceSyncer) (ctx : context).

Lemma rememberRelatedObjects_false remote id objs tr remote' :
  exec (rememberRelatedObjects remote id objs) tr (Ok (false, remote')) -> remote' = remote.
Proof.
  unfold rememberRelatedObjects. intros H. case_decide; [by repeat exec_step|].
  exec_step. destruct (negb _); by repeat exec_step.
Qed.

Lemma processRelatedResource_false st remote local relRes deleting tr remote' :
  exec (processRelatedResource s ctx st remote local relRes deleting) tr (Ok (false, remote')) ->
  remote' = remote.
Proof.
  unfold processRelatedResource. intros H. destruct (relatedSides remote local relRes) as [o d].
  do 5 exec_step. exec_step. destruct a3 as [b r]. destruct b; [by repeat exec_step|].
  exec_step. repeat exec_step.
  case_decide; repeat exec_step; [|done]. by eapply rememberRelatedObjects_false.
Qed.

End Unchanged.

(** ** Properties: deletion *)

Section Deletion.
Context {J : JsonLib} {T : TemplateEngine} {X : TextLib} {R : MapRange}.
Context (s : ResourceSyncer) (ctx : context) (stateClient : client) (stateStore : ObjectStateStore).
Context {HS : SecretStore stateClient stateStore}.

(** C12: processing a related resource writes its copies on the destination
    side only.  The originals are read; the only write to the origin side is
    a change of an original's finalizers, and it happens only for related
    resources whose copies may be deleted.  Copies are deleted only if the
    related resource comes from kcp, or its cleanup policy is MatchOrigin,
    or it is OnPrimaryDeletion and the primary is being deleted. *)
Theorem processRelatedResource_requests remote local relRes primaryDeleting tr o :
  exec (processRelatedResource s ctx stateStore remote local relRes primaryDeleting) tr o ->
  let '(origin, dest) := relatedSides remote local relRes in
  Forall (related_request stateClient origin dest relRes primaryDeleting) (requests tr).
Proof.
  intros H. pose proof (always_exec (S := kube) _ _ _ _
    (processRelatedResource_always s ctx stateClient stateStore remote local relRes primaryDeleting) H) as Ha.
  by destruct (relatedSides remote local relRes).
Qed.

(** Requests that delete nothing. *)
Definition spares (r : kreq) : Prop := is_delete r = false.

Lemma spares_exec {A} (m : M kube A) tr o :
  always (S := kube) spares m -> exec m tr o -> existsb is_delete (requests tr) = false.
Proof.
  intros Hm H. apply (always_exec (S := kube) _ _ _ _ Hm) in H.
  induction H as [|r l Hr _ IH]; simpl; [done|]. by rewrite Hr.
Qed.

Lemma deletes_app (tr1 tr2 : list (event kube)) :
  existsb is_delete (requests (tr1 ++ tr2)) = existsb is_delete (requests tr1) || existsb is_delete (requests tr2).
Proof. unfold requests. by rewrite fmap_app, existsb_app. Qed.

(** A deletion comes after a first step that does not delete, which succeeded. *)
Lemma deletes_after {A B} (m : M kube A) (k : A -> M kube B) tr o :
  always (S := kube) spares m -> exec (bindM m k) tr o -> existsb is_delete (requests tr) = true ->
  exists tr1 tr2 a, tr = tr1 ++ tr2 /\ exec m tr1 (Ok a) /\ exec (k a) tr2 o /\
    existsb is_delete (requests tr1) = false /\ existsb is_delete (requests tr2) = true.
Proof.
  intros Hm H Hdel.
  apply exec_bindM_inv in H as [(tr1 & tr2 & a & -> & H1 & H2)|[(e & -> & H1)|(e & -> & H1)]].
  2, 3: by rewrite (spares_exec _ _ _ Hm H1) in Hdel.
  pose proof (spares_exec _ _ _ Hm H1) as Hq. rewrite deletes_app, Hq in Hdel. by exists tr1, tr2, a.
Qed.

Lemma resolve_spares origin dest relRes :
  always (S := kube) spares (resolveRelatedResourceObjects origin dest relRes).
Proof. eapply always_mono; [|apply resolve_requests]. by intros []. Qed.

Lemma confirmOriginEmpty_spares origin dest relRes :
  always (S := kube) spares (confirmOriginEmpty s origin dest relRes).
Proof. unfold confirmOriginEmpty. case_match; [done|]. apply always_bindM; [apply resolve_spares|done]. Qed.

(** The origin side as a live read sees it. *)
Definition liveOrigin (origin : syncSide) : syncSide :=
  Side (sd_clusterName origin) "" (liveReadClient (sd_client origin)) (sd_object origin).

(** What lets copies be deleted although nothing was resolved: the primary is
    being deleted and the policy says that its copies go with it; or the
    policy is MatchOrigin and, before anything was deleted, a live read found
    nothing either. *)
Definition empty_prune_allowed (origin dest : syncSide) (relRes : RelatedResourceSpec) (primaryDeleting : bool)
    (tr : list (event kube)) : Prop :=
  if primaryDeleting
  then EffectiveCleanupPolicy relRes = RelatedResourceCleanupPolicyOnPrimaryDeletion \/
       EffectiveCleanupPolicy relRes = RelatedResourceCleanupPolicyMatchOrigin
  else EffectiveCleanupPolicy relRes = RelatedResourceCleanupPolicyMatchOrigin /\
       exists tr1 tr2 tr3, tr = tr1 ++ tr2 ++ tr3 /\
         existsb is_delete (requests (tr1 ++ tr2)) = false /\
         exec (resolveRelatedResourceObjects (liveOrigin origin) dest relRes) tr2 (Ok []).

Lemma empty_prune_allowed_later origin dest relRes primaryDeleting (tr0 tr : list (event kube)) :
  existsb is_delete (requests tr0) = false ->
  empty_prune_allowed origin dest relRes primaryDeleting tr ->
  empty_prune_allowed origin dest relRes primaryDeleting (tr0 ++ tr).
Proof.
  unfold empty_prune_allowed. destruct primaryDeleting; [done|].
  intros Hq [Hp (tr1 & tr2 & tr3 & -> & Hq' & H)]. split; [done|].
  exists (tr0 ++ tr1), tr2, tr3. rewrite !(assoc_L (++)). split_and!; [done| |done].
  by rewrite <- (assoc_L (++)), deletes_app, Hq.
Qed.

Lemma cleanup_empty_allowed origin dest relRes primary cn gvk primaryDeleting st tr o :
  exec (cleanupRelatedCopies s ctx origin dest relRes primary cn gvk primaryDeleting true st) tr o ->
  existsb is_delete (requests tr) = true ->
  empty_prune_allowed origin dest relRes primaryDeleting tr.
Proof.
  unfold cleanupRelatedCopies, empty_prune_allowed. intros H Hdel. destruct primaryDeleting; simpl in H.
  { destruct (forwardsDeletion _) eqn:E; [by apply forwardsDeletion_may|]. by repeat exec_step. }
  case_bool_decide as Hp; [|by repeat exec_step]. split; [done|].
  apply deletes_after in H as (tr1 & tr2 & [ce ck] & -> & H1 & H2 & Hq & Hdel2);
    [|by apply always_wrapM, confirmOriginEmpty_spares|done].
  apply exec_wrapM_ok_inv in H1. exists [], tr1, tr2. split_and!; [done..|].
  unfold confirmOriginEmpty in H1.
  destruct (negb (if decide (rr_Origin relRes = RelatedResourceOriginService) then _ else _)); repeat exec_step;
    simpl in H2; [by repeat exec_step|].
  case_bool_decide as Hl; [|by simpl in H2; repeat exec_step].
  apply length_zero_iff_nil in Hl as ->. by rewrite app_nil_r.
Qed.

(** C14: copies are not deleted because nothing was resolved by accident.
    Whatever processing a related resource deletes, it first resolved the
    origin side.  If that gave no object at all, then either the primary is
    being deleted and the cleanup policy is OnPrimaryDeletion or MatchOrigin;
    or the policy is MatchOrigin and, before the first deletion, the
    resolution was repeated against the API server and again found nothing. *)
Theorem empty_prune_confirmed remote local relRes primaryDeleting tr o :
  exec (processRelatedResource s ctx stateStore remote local relRes primaryDeleting) tr o ->
  existsb is_delete (requests tr) = true ->
  let '(origin, dest) := relatedSides remote local relRes in
  exists tr1 tr2 objs, tr = tr1 ++ tr2 /\
    exec (resolveRelatedResourceObjects origin dest relRes) tr1 (Ok objs) /\
    (objs = [] -> empty_prune_allowed origin dest relRes primaryDeleting tr2).
Proof.
  unfold processRelatedResource. destruct (relatedSides remote local relRes) as [origin dest].
  intros H Hdel. apply deletes_after in H as (tr1 & tr2 & objs & -> & H1 & H & _ & Hdel2);
    [|by apply always_wrapM, resolve_spares|done].
  apply exec_wrapM_ok_inv in H1. exists tr1, tr2, objs. split_and!; [done..|]. intros ->.
  apply deletes_after in H as (tr3 & tr4 & gvk & -> & _ & H & Hq3 & Hdel4);
    [|by unfold KindFor; repeat (always_step; simpl)|done].
  apply deletes_after in H as (tr5 & tr6 & primary & -> & _ & H & Hq5 & Hdel6); [|apply deref_always|done].
  do 2 (apply empty_prune_allowed_later; [done|]). change (SortFunc resolved_le []) with (@nil resolvedObject) in H.
  cbn [foldM] in H. rewrite bindM_retM in H. cbn [ls_resolved] in H.
  replace (if decide (rr_Origin relRes = RelatedResourceOriginService) then _ else _)
    with (retM (S := kube) (false, remote)) in H
    by (unfold rememberRelatedObjects; case_decide; [by rewrite decide_True|done]).
  rewrite bindM_retM in H. cbn [length] in H. rewrite bool_decide_true in H by done.
  apply exec_bindM_inv in H as [(tr7 & tr8 & rq & -> & H2 & H)|[(e & -> & H2)|(e & -> & H2)]].
  2, 3: by eapply cleanup_empty_allowed.
  repeat exec_step. rewrite app_nil_r in Hdel6 |- *. by eapply cleanup_empty_allowed.
Qed.

End Deletion.

(** ** Properties: the annotations on the primary *)

Section Remember.
Context {J : JsonLib} {T : TemplateEngine} {X : TextLib} {R : MapRange}.

Lemma HasPrefix_common w a b : HasPrefix (w +:+ a) (w +:+ b) = HasPrefix a b.
Proof.
  destruct (HasPrefix a b) eqn:E.
  - apply HasPrefix_spec in E as [r ->]. apply HasPrefix_spec. exists r. by rewrite string_app_assoc.
  - destruct (HasPrefix (w +:+ a) (w +:+ b)) eqn:E'; [|done]. apply HasPrefix_spec in E' as [r Hr].
    rewrite string_app_assoc in Hr. apply (inj (String.app w)) in Hr.
    assert (HasPrefix a b = true) by (apply HasPrefix_spec; eauto). congruence.
Qed.

(** The keys of one identifier do not have the prefix of another one. *)
Lemma rememberPrefix_other id id' k :
  char_in (ascii_of_nat 46) id = false -> char_in (ascii_of_nat 46) id' = false -> id <> id' ->
  HasPrefix (rememberPrefix id' +:+ k) (rememberPrefix id) = false.
Proof.
  intros Hid Hid' Hne. unfold rememberPrefix. rewrite string_app_assoc, HasPrefix_common, string_app_assoc.
  destruct (HasPrefix _ _) eqn:E; [|done]. apply HasPrefix_spec in E as [r Hr].
  rewrite string_app_assoc in Hr. pose proof (f_equal (Cut (ascii_of_nat 46)) Hr) as HC.
  change ("." +:+ ?x) with (String (ascii_of_nat 46) x) in HC.
  rewrite !Cut_app in HC by done. congruence.
Qed.

Lemma rememberedAnnotations_lookup id objs k v :
  rememberedAnnotations id objs !! k = Some v <->
  exists i r, objs !! i = Some r /\ k = rememberPrefix id +:+ pretty i /\ v = relatedObjectAnnotation r.
Proof.
  unfold rememberedAnnotations.
  assert (forall x, x ∈ imap (fun idx r => (rememberPrefix id +:+ pretty idx, relatedObjectAnnotation r)) objs <->
    exists i r, objs !! i = Some r /\ x = (rememberPrefix id +:+ pretty i, relatedObjectAnnotation r)) as Hin.
  { intros x. rewrite elem_of_lookup_imap. naive_solver. }
  rewrite <- elem_of_list_to_map.
  - rewrite Hin. setoid_rewrite pair_eq. done.
  - rewrite fmap_imap. apply NoDup_alt. intros i j x Hi Hj.
    rewrite list_lookup_imap in Hi, Hj. destruct (objs !! i), (objs !! j); try discriminate.
    cbn in Hi, Hj. assert (rememberPrefix id +:+ pretty i = rememberPrefix id +:+ pretty j) as Hk by congruence.
    by apply (inj (String.app _)), (inj pretty) in Hk.
Qed.

Lemma relatedObjectAnnotation_nonempty r : relatedObjectAnnotation r <> "".
Proof. unfold relatedObjectAnnotation. by case_decide. Qed.

(** The annotations of one identifier are exactly the desired ones. *)
Definition annotations_exact (prefix : string) (annotations desired : gmap string string) : Prop :=
  forall k, HasPrefix k prefix = true -> annotations !! k = desired !! k.

Lemma annotationsChanged_false prefix annotations desired :
  (forall k v, desired !! k = Some v -> HasPrefix k prefix = true /\ v <> "") ->
  annotationsChanged prefix annotations desired = false <-> annotations_exact prefix annotations desired.
Proof.
  intros Hd. unfold annotationsChanged, annotations_exact. rewrite orb_false_iff. split.
  - intros [H1 H2] k Hk. destruct (desired !! k) as [v|] eqn:E.
    + assert (In (k, v) (map_to_list desired)) as Hin by (apply list_elem_of_In, elem_of_map_to_list, E).
      pose proof (existsb_nth) as _. rewrite <- not_true_iff_false in H2. rewrite existsb_exists in H2.
      destruct (annotations !! k) as [w|] eqn:Ea.
      * destruct (decide (w = v)) as [->|Hne]; [done|]. exfalso. apply H2. exists (k, v). split; [done|].
        simpl. rewrite Ea. by apply bool_decide_eq_true.
      * exfalso. apply H2. exists (k, v). split; [done|]. simpl. rewrite Ea. apply bool_decide_eq_true.
        simpl. destruct (Hd _ _ E). congruence.
    + destruct (annotations !! k) as [w|] eqn:Ea; [|done]. exfalso.
      rewrite <- not_true_iff_false, existsb_exists in H1. apply H1. exists (k, w).
      split; [apply list_elem_of_In, elem_of_map_to_list, Ea|]. simpl. rewrite Hk. by apply bool_decide_eq_true.
  - intros H. split; apply not_true_iff_false; rewrite existsb_exists.
    + intros ([k v] & Hin & [Hk Hn%bool_decide_eq_true]%andb_true_iff). simpl in *.
      apply list_elem_of_In, elem_of_map_to_list in Hin. rewrite (H _ Hk) in Hin. congruence.
    + intros ([k v] & Hin & Hn%bool_decide_eq_true). simpl in *.
      apply list_elem_of_In, elem_of_map_to_list in Hin. destruct (Hd _ _ Hin) as [Hk _].
      rewrite (H _ Hk), Hin in Hn. done.
Qed.

Lemma rememberedAnnotations_prefix id objs k v :
  rememberedAnnotations id objs !! k = Some v -> HasPrefix k (rememberPrefix id) = true /\ v <> "".
Proof.
  rewrite rememberedAnnotations_lookup. intros (i & r & _ & -> & ->). split.
  - apply HasPrefix_spec. eauto.
  - apply relatedObjectAnnotation_nonempty.
Qed.

(** The annotations of a related resource on its primary are rebuilt
    exactly: nothing is sent when they already say what was resolved;
    otherwise one patch makes the entries of this identifier one per resolved
    object, indexed in order, drops stale ones, and leaves every other
    annotation alone, those of other identifiers included. *)
Lemma rememberRelatedObjects_exact remote id objs obj tr o :
  sd_object remote = Some obj -> objs <> [] ->
  exec (rememberRelatedObjects remote id objs) tr o ->
  let annotations := default ∅ (GetAnnotations obj) in
  let desired := rememberedAnnotations id objs in
  (annotations_exact (rememberPrefix id) annotations desired /\ tr = [] /\ o = Ok (false, remote)) \/
  (~ annotations_exact (rememberPrefix id) annotations desired /\
   exists a x,
     tr = [Ev (S := kube) (RPatch (sd_client remote) (SetAnnotations (Some a) obj) (MergeFrom obj)) x] /\
     annotations_exact (rememberPrefix id) a desired /\
     (forall k, HasPrefix k (rememberPrefix id) = false -> a !! k = annotations !! k) /\
     (forall id' k, id' <> id -> char_in (ascii_of_nat 46) id = false -> char_in (ascii_of_nat 46) id' = false ->
        a !! (rememberPrefix id' +:+ k) = annotations !! (rememberPrefix id' +:+ k)) /\
     (forall obj', x = Ok obj' -> o = Ok (true, with_object (Some obj') remote))).
Proof.
  intros Hr Hne H annotations desired. unfold rememberRelatedObjects in H.
  rewrite decide_False in H by (by intros ?%length_zero_iff_nil). rewrite Hr in H. cbn [deref] in H.
  rewrite bindM_retM in H. fold annotations desired in H.
  pose proof (annotationsChanged_false (rememberPrefix id) annotations desired
                (rememberedAnnotations_prefix id objs)) as Hch.
  destruct (annotationsChanged _ _ _) eqn:Ec; simpl in H; [right|left; repeat exec_step; tauto].
  split; [intros He; by apply Hch in He|].
  set (a := desired ∪ otherAnnotations (rememberPrefix id) annotations) in *.
  assert (forall k, HasPrefix k (rememberPrefix id) = false -> a !! k = annotations !! k) as Hother.
  { intros k Hk. unfold a, otherAnnotations. rewrite lookup_union, (lookup_filter_key (fun k => HasPrefix k _)), Hk.
    destruct (desired !! k) eqn:E; [|by destruct (annotations !! k)].
    apply rememberedAnnotations_prefix in E as [E _]. congruence. }
  unfold clientPatch in H. exists a.
  assert (exists x, tr = [Ev (S := kube) (RPatch (sd_client remote) (SetAnnotations (Some a) obj) (MergeFrom obj)) x] /\
    (forall obj', x = Ok obj' -> o = Ok (true, with_object (Some obj') remote))) as (x & -> & Hx).
  { apply exec_bindM_inv in H as [(t1 & t2 & obj' & -> & H1 & H2)|[(e & -> & H1)|(m & -> & H1)]];
      apply exec_wrapM_inv in H1 as (o' & H1 & Ho); repeat exec_step; simpl; eexists; (split; [done|]);
      destruct x; naive_solver. }
  exists x. split_and!; [done| |done| |done].
  - intros k Hk. unfold a, otherAnnotations. rewrite lookup_union, (lookup_filter_key (fun k => HasPrefix k _)), Hk.
    by destruct (desired !! k).
  - intros id' k Hid H1 H2. apply Hother. by apply rememberPrefix_other.
Qed.

End Remember.

(** ** Selectors in shared memory *)

(** A memory in which [look] reads the selector at a location. *)
Class SelectorMemory {J : JsonLib} {W} (h : server (S := kube) W) (loc : selectorLoc)
    (look : W -> LabelSelector) : Prop := {
  memory_read w : h (RReadSelector loc) w = (look w, w);
  memory_write w m : exists w', h (RWriteSelector loc m) w = (tt, w') /\
    look w' = LSel m (MatchExpressions (look w))
}.

Section Sticky.
Context {J : JsonLib} {T : TemplateEngine} {X : TextLib} {R : MapRange} {RL : MapRangeLaws R}.
Context {W : Type} (h : server (S := kube) W) (loc : selectorLoc) (look : W -> LabelSelector).
Context {HM : SelectorMemory h loc look}.

(** Labels without template markers, under keys that are not empty. *)
Definition plain_labels (m : gmap string string) : Prop :=
  map_Forall (fun k v => k <> "" /\ Contains k "{{" = false /\ Contains v "{{" = false) m.

Lemma foldl_insert_list (l : list (string * string)) (acc : gmap string string) :
  NoDup l.*1 -> foldl (fun m kv => <[kv.1 := kv.2]> m) acc l = list_to_map l ∪ acc.
Proof.
  revert acc. induction l as [|[k v] l IH]; intros acc Hnd; simpl; [by rewrite (left_id_L ∅ (∪))|].
  apply NoDup_cons in Hnd as [Hk Hnd]. rewrite IH by done. simpl.
  rewrite <- insert_union_l, insert_union_r; [done|]. by apply not_elem_of_list_to_map_1.
Qed.

Lemma render_plain data m acc l :
  (forall k v, (k, v) ∈ l -> m !! k = Some v) -> plain_labels m ->
  ofoldM (renderLabel data) acc l
  = Ok (foldl (fun m kv => <[kv.1 := kv.2]> m) acc l).
Proof.
  intros Hl Hp. revert acc. induction l as [|[k v] l IH]; intros acc; [done|].
  destruct (Hp k v) as (Hk & H1 & H2); [apply Hl; by left|].
  cbn [ofoldM]. unfold renderLabel at 1, renderIfTemplate. cbn [fst snd]. rewrite H1, H2. cbn [obind].
  rewrite decide_True by done.
  cbn [foldl fst snd]. apply IH. intros k' v' Hin. apply Hl. by right.
Qed.

Lemma render_plain_map data m :
  plain_labels m ->
  ofoldM (renderLabel data) ∅ (map_range m) = Ok m.
Proof.
  intros Hp. rewrite (render_plain data m); [|intros k v; by rewrite (map_range_perm m), elem_of_map_to_list|done].
  assert (NoDup (map_range m).*1) as Hnd by (rewrite (map_range_perm m); apply NoDup_fst_map_to_list).
  rewrite foldl_insert_list by done. rewrite (right_id_L ∅ (∪)). f_equal.
  rewrite (list_to_map_proper _ (map_to_list m)) by (done || apply map_range_perm).
  apply list_to_map_to_list.
Qed.

(** A successful rendering leaves its answer in the memory. *)
Lemma run_template_look o d org w tr sel w' :
  run h (templateLabelSelector o d org loc) w = (tr, Ok sel, w') -> look w' = sel.
Proof.
  unfold templateLabelSelector. destruct (remapSyncSides o d org) as [a b].
  destruct (sd_object a), (sd_object b); cbn [deref]; rewrite ?bindM_retM; try (intros H; discriminate H).
  unfold readSelector, writeSelector, bindM. simpl. rewrite memory_read.
  destruct (ofoldM _ _ _) as [m|e|x]; simpl; try (intros H; discriminate H).
  destruct (memory_write w m) as (w1 & Hw & Hl). rewrite Hw. simpl. intros [= _ <- <-]. done.
Qed.

Lemma run_template_plain o d org w uo ud :
  sd_object o = Some uo -> sd_object d = Some ud -> plain_labels (MatchLabels (look w)) ->
  (run h (templateLabelSelector o d org loc) w).1.2 = Ok (look w).
Proof.
  intros Ho Hd Hp. unfold templateLabelSelector.
  assert (exists a b la lb, remapSyncSides o d org = (a, b) /\ sd_object a = Some la /\ sd_object b = Some lb)
    as (a & b & la & lb & -> & -> & ->).
  { unfold remapSyncSides. case_decide; eauto 10. }
  cbn [deref]. rewrite !bindM_retM. unfold readSelector, writeSelector, bindM. simpl. rewrite memory_read.
  rewrite render_plain_map by done. simpl.
  destruct (memory_write w (MatchLabels (look w))) as (w1 & -> & _). simpl. by destruct (look w).
Qed.

(** Once the selector of a related resource has been rendered for one
    primary object, its templates are gone: the rendered labels are what is
    left in the shared PublishedResource, and every later rendering, for
    whatever primary object, answers with them again. *)
Lemma templateLabelSelector_sticky o d org w tr sel w' :
  run h (templateLabelSelector o d org loc) w = (tr, Ok sel, w') ->
  plain_labels (MatchLabels sel) ->
  forall o' d' org', is_Some (sd_object o') -> is_Some (sd_object d') ->
    (run h (templateLabelSelector o' d' org' loc) w').1.2 = Ok sel.
Proof.
  intros H Hp o' d' org' [uo Ho] [ud Hd].
  rewrite <- (run_template_look _ _ _ _ _ _ _ H) in *. by apply (run_template_plain _ _ _ _ uo ud).
Qed.

End Sticky.

(** ** Witnesses *)

Module SampleRelated.

Import Sample.

(** Templates that know two expressions; everything else is literal text. *)
#[export] Instance engine : TemplateEngine := {|
  template := string;
  template_Parse := fun s => Ok s;
  template_Execute := fun t data =>
    match data with
    | RelatedData c => Ok (if decide (t = "settings-{{ .ClusterPath }}") then "settings-" +:+ rc_ClusterPath c else t)
    | LabelData c => Ok (if decide (t = "{{ .RemoteObject.metadata.name }}") then GetName (lc_RemoteObject c) else t)
    | _ => Ok t
    end
|}.

#[export] Instance text : TextLib := {|
  gjson_Get := fun _ _ => None;
  regexp_Compile := fun _ => Err (ErrorString "unsupported");
  LabelSelectorAsSelector := fun s => Ok (SelectorFromLabelSelector s)
|}.

#[export] Instance range : MapRange := map_to_list.
#[export] Instance range_laws : MapRangeLaws range.
Proof. intros m. reflexivity. Qed.

Definition related (origin : RelatedResourceOrigin) (policy : RelatedResourceCleanupPolicy) (tpl : string)
  : RelatedResourceSpec :=
  MkRelated "settings" origin "" "v1" "configmaps" "" "" false policy None
    (MkRelatedObject (MkObjectSpec None None (Some (MkTemplate tpl))) None) None None false.

Definition pubRes (r : RelatedResourceSpec) : PublishedResource :=
  MkPubRes (meta "" "publish-backups" None None)
    (MkPubResSpec (MkSource "eksempel.no" "" [] "Backup") None None false None None [r] None) (MkPubResStatus "").

Definition resourceSyncer (r : RelatedResourceSpec) : ResourceSyncer :=
  MkResourceSyncer serviceClient kcpClient (pubRes r) SampleCRD.crd ["status"] true true
    (GVK "eksempel.no" "v1" "Backup") None ∅ "agent" false (fun _ _ => retM (memoryStore None)).

Definition configMap (name : string) : Unstructured :=
  Obj "v1" "ConfigMap" (Meta name "ns" None None None None None 0 [] "" [] "" "" ∅) {[ "data" := VObj ∅ ]}.

(** A server that has one object and lists one copy. *)
Definition objects (name : string) (copies : list Unstructured) : server (S := kube) unit := fun r w =>
  match r return kresp r * unit with
  | RGet _ _ key => (if decide (nn_name key = name) then Ok (configMap name) else Err errNotFound, tt)
  | RList _ _ _ => (Ok copies, tt)
  | r => echo r tt
  end.

(** A memory for one selector. *)
Definition memory : server (S := kube) LabelSelector := fun r w =>
  match r return kresp r * LabelSelector with
  | RReadSelector _ => (w, w)
  | RWriteSelector _ m => (tt, LSel m (MatchExpressions w))
  | r => ((echo r tt).1, w)
  end.

#[export] Instance memory_laws loc : SelectorMemory memory loc (fun w => w).
Proof. split; [done|]. intros w m. by eexists. Qed.

Definition remote : syncSide := kcpSide (backup "ns" (Some [deletionFinalizer]) None).
Definition local : syncSide := serviceSide (Some (backup "tenant" None None)).

Definition loop0 : loopState := MkLoop false ∅ ∅ [].

End SampleRelated.

Import Sample SampleRelated.

Lemma pruneRelatedCopies_exact_witness :
  let r := run (objects "x" [configMap "a"; configMap "b"])
             (pruneRelatedCopies ctx remote None (GVK "" "v1" "ConfigMap") Everything {["ns/a"]} ∅ false) tt in
  length r.1.1 = 3 /\
  exists items tr', r.1.1 = Ev (S := kube) (RList kcpClient ("v1", "ConfigMapList") (ListOpts Everything "" 0)) (Ok items) :: tr' /\
    Forall (deletes_only remote {["ns/a"]} ∅ false items) (requests tr').
Proof.
  intros r. split; [vm_cast_no_check (eq_refl 3)|].
  destruct (pruneRelatedCopies_exact ctx remote None (GVK "" "v1" "ConfigMap") Everything {["ns/a"]} ∅ false
    r.1.1 r.1.2) as [(x & Hx & Hn & _)|(items & tr' & Htr & Hf & _)].
  - exact (run_execution (objects "x" [configMap "a"; configMap "b"]) _ tt).
  - exfalso. assert (length r.1.1 = 3) as Hl by (vm_cast_no_check (eq_refl 3)).
    rewrite Hx in Hl. discriminate Hl.
  - exists items, tr'. split; [exact Htr|exact Hf].
Defined.

Lemma processRelatedResource_requests_witness :
  let relRes := related "kcp" "" "settings" in
  let r := run (objects "settings" []) (processRelatedResource (resourceSyncer relRes) ctx (memoryStore None)
             remote local relRes false) tt in
  length r.1.1 = 6 /\
  Forall (related_request serviceClient remote local relRes false) (requests r.1.1).
Proof.
  intros relRes r. split; [vm_cast_no_check (eq_refl 6)|].
  apply (processRelatedResource_requests (resourceSyncer relRes) ctx serviceClient (memoryStore None)
    (HS := syncer_store false false None) remote local relRes false r.1.1 r.1.2).
  exact (run_execution (objects "settings" []) _ tt).
Defined.

Lemma empty_prune_confirmed_witness :
  let relRes := related "kcp" "MatchOrigin" "settings" in
  exists tr1 tr2 objs,
    (run (objects "x" [configMap "stale"])
      (processRelatedResource (resourceSyncer relRes) ctx (memoryStore None) remote local relRes false) tt).1.1
      = tr1 ++ tr2 /\
    exec (resolveRelatedResourceObjects remote local relRes) tr1 (Ok objs) /\
    (objs = [] -> empty_prune_allowed remote local relRes false tr2).
Proof.
  intros relRes.
  apply (empty_prune_confirmed (resourceSyncer relRes) ctx (memoryStore None) remote local relRes false _ _
    (run_execution (objects "x" [configMap "stale"]) _ tt)).
  vm_cast_no_check (eq_refl true).
Defined.

Lemma rememberRelatedObjects_exact_witness :
  let r := run echo (rememberRelatedObjects remote "settings" [Resolved (configMap "a") (NN "ns" "a")]) tt in
  length r.1.1 = 1 /\
  ~ annotations_exact (rememberPrefix "settings") ∅
      (rememberedAnnotations "settings" [Resolved (configMap "a") (NN "ns" "a")]).
Proof.
  intros r.
  assert (length r.1.1 = 1) as Hl by (vm_cast_no_check (eq_refl 1)).
  split; [exact Hl|].
  destruct (rememberRelatedObjects_exact remote "settings" [Resolved (configMap "a") (NN "ns" "a")]
    (backup "ns" (Some [deletionFinalizer]) None) r.1.1 r.1.2 eq_refl) as [(_ & H & _)|[H _]].
  - discriminate.
  - exact (run_execution echo _ tt).
  - rewrite H in Hl. discriminate Hl.
  - exact H.
Defined.

(** A selector that is to follow the name of the primary object keeps the
    name of the first one. *)
Lemma templateLabelSelector_sticky_witness :
  let w := LSel {[ "owner" := "{{ .RemoteObject.metadata.name }}" ]} [] in
  let loc := SelLoc "settings" false in
  let other := kcpSide (SetName "weekly" (backup "ns" None None)) in
  (run memory (templateLabelSelector other local "kcp" loc)
     (run memory (templateLabelSelector remote local "kcp" loc) w).2).1.2
  = Ok (LSel {[ "owner" := "nightly" ]} []).
Proof.
  intros w loc other.
  set (r := run memory (templateLabelSelector remote local "kcp" loc) w).
  apply (templateLabelSelector_sticky memory loc (fun w => w) remote local "kcp" w r.1.1
    (LSel {[ "owner" := "nightly" ]} []) r.2).
  - vm_cast_no_check (eq_refl r).
  - apply map_Forall_singleton. split; [discriminate|split; reflexivity].
  - eexists; reflexivity.
  - eexists; reflexivity.
Defined.

(** The live check before a full prune forgets the workspace path: with a
    template that uses it, the check reports that the origin is confirmed to
    be empty although the object exists and the resolution finds it through
    the very same server when the path is kept. *)
Lemma confirmOriginEmpty_forgets_path :
  let relRes := related "kcp" "MatchOrigin" "settings-{{ .ClusterPath }}" in
  let server := objects "settings-root:team" [] in
  let live := Side "2gz9" "root:team" (liveReadClient kcpClient) (sd_object remote) in
  length <$> match (run server (resolveRelatedResourceObjects live local relRes) tt).1.2 with
             | Ok l => Some l | _ => None end = Some 1 /\
  (run server (confirmOriginEmpty (resourceSyncer relRes) remote local relRes) tt).1.2 = Ok (true, true).
Proof. split; vm_compute; reflexivity. Qed.
