(* ===== verification/Syncer.v ===== *)
(** The resource syncer: [internal/sync/syncer.go].

    [Process] is the entry point of a synchronisation: it finds the copy of
    a kcp object on the service cluster, cleans up related resources when
    the object is going away, synchronises the object with its copy and then
    the related resources. *)

From S2P Require Import Prelude Effects Kube Crypto ApiTypes Meta Metadata StateStore ObjectSyncer.
From S2P Require Import Projection Templating Related.

Section Syncer.
Context {J : JsonLib} {PJ : PathJSON} {T : TemplateEngine} {X : TextLib} {R : MapRange} {K : KubeVersions}.

(** ** Construction *)

Definition MutatorCreatorFunc : Type := option ResourceMutationSpec -> outcome (option Mutator).

Definition ResourceSyncerOption : Type := ResourceSyncer -> ResourceSyncer.

Definition WithServerSideApply : ResourceSyncerOption := fun r =>
  MkResourceSyncer (rs_localClient r) (rs_remoteClient r) (rs_pubRes r) (rs_localCRD r) (rs_subresources r)
    (rs_localAPIReader r) (rs_remoteAPIReader r) (rs_destDummy r) (rs_primaryMutator r) (rs_relatedMutators r)
    (rs_agentName r) true (rs_newObjectStateStore r).

Definition WithLiveReaders (local remote : bool) : ResourceSyncerOption := fun r =>
  MkResourceSyncer (rs_localClient r) (rs_remoteClient r) (rs_pubRes r) (rs_localCRD r) (rs_subresources r)
    local remote (rs_destDummy r) (rs_primaryMutator r) (rs_relatedMutators r)
    (rs_agentName r) (rs_useServerSideApply r) (rs_newObjectStateStore r).

(** The subresources of the versions with the given name. *)
Definition subresourcesOf (crd : CustomResourceDefinition) (version : string) : list string :=
  foldl (fun subresources v =>
    if decide (cv_Name v = version) then
      match cv_Subresources v with
      | Some sr =>
          let subresources := match sub_Scale sr with Some _ => subresources ++ ["scale"] | None => subresources end in
          if sub_Status sr then subresources ++ ["status"] else subresources
      | None => subresources
      end
    else subresources) [] (crd_Versions crd).

Definition NewResourceSyncer (localClient remoteClient : client) (pubRes : PublishedResource)
    (localCRD : CustomResourceDefinition) (mutatorCreator : MutatorCreatorFunc)
    (stateNamespace agentName : string) (opts : list ResourceSyncerOption) : outcome ResourceSyncer :=
  let! localGVK := PublishedResourceSourceGVK localCRD pubRes in
  let! _ := PublishedResourceProjectedGVK localCRD pubRes in
  let subresources := subresourcesOf localCRD (gvk_version localGVK) in
  let! primaryMutator := wrapErr "failed to create primary object mutator"
    (mutatorCreator (ps_Mutation (pr_Spec pubRes))) in
  let! relatedMutators := ofoldM (fun mutators rr =>
    let! mutator := wrapErr ("failed to create related object " +:+ rr_Identifier rr +:+ " mutator")
                      (mutatorCreator (rr_Mutation rr)) in
    Ok (<[rr_Identifier rr := mutator]> mutators)) ∅ (ps_Related (pr_Spec pubRes)) in
  Ok (foldl (fun r opt => opt r)
    (MkResourceSyncer localClient remoteClient pubRes localCRD subresources false false localGVK
       primaryMutator relatedMutators agentName false (newKubernetesStateStoreCreator stateNamespace)) opts).

Section Process.
Context (s : ResourceSyncer) (ctx : context).

(** ** Finding and creating the copy *)

Definition findLocalObject (key : objectKey) : M kube (option Unstructured) :=
  let* items := wrapM "failed to find local equivalent"
    (clientList (rs_localClient s) (gvkAPIVersion (rs_destDummy s), gvk_kind (rs_destDummy s) +:+ "List")
       (ListOpts (SelectorFromSet (objectKey_Labels key)) "" 2)) in
  match items with
  | [] => retM None
  | [o] => retM (Some o)
  | _ => failM (ErrorString "expected 1 object matching the selector, but found more")
  end.

Definition newLocalObjectCreator (clusterName workspacePath : string) : objectCreatorFunc := fun remoteObj =>
  let destObj := SetGroupVersionKind (rs_destDummy s) remoteObj in
  let destScope := cs_Scope (crd_Spec (rs_localCRD s)) in
  let! mappedName := wrapErr "failed to generate local object name"
    (GenerateLocalObjectName (rs_pubRes s) remoteObj clusterName workspacePath) in
  Ok (if decide (destScope = ClusterScoped) then SetName (nn_name mappedName) (SetNamespace "" destObj)
      else if decide (destScope = NamespaceScoped)
      then SetName (nn_name mappedName) (SetNamespace (nn_namespace mappedName) destObj)
      else destObj).

(** ** [Process] *)

Definition primarySyncer (stateStore : ObjectStateStore) (remoteObj : Unstructured)
    (clusterName workspacePath : string) : objectSyncer :=
  MkObjectSyncer (rs_agentName s) (newLocalObjectCreator clusterName workspacePath) (rs_subresources s)
    true false true true ∅ ∅ (rs_primaryMutator s) stateStore syncSideSource false
    (deletionPropagationPolicy remoteObj) (rs_useServerSideApply s).

Definition Process (remoteObj : Unstructured) : M kube bool :=
  let clusterName := clusterFromContext ctx in
  let workspacePath := workspacePathFromContext ctx in
  let key := newObjectKey remoteObj clusterName workspacePath in
  let* localObj := wrapM "failed to find local equivalent" (findLocalObject key) in
  let sourceSide := Side clusterName workspacePath (rs_remoteClient s) (Some remoteObj) in
  let destSide := Side "" "" (rs_localClient s) localObj in
  let* stateStore := rs_newObjectStateStore s sourceSide destSide in
  let syncer := primarySyncer stateStore remoteObj clusterName workspacePath in
  let* relRequeue :=
    if is_deleting remoteObj && bool_decide (localObj <> None)
    then wrapM "failed to clean up related resources during primary deletion"
           (processRelatedResources s ctx stateStore sourceSide destSide true)
    else retM false in
  if (relRequeue : bool) then retM true
  else
    let* res := Sync syncer ctx sourceSide destSide in
    if sy_requeue res then retM true
    else
      match sy_dest res with
      | None => retM false
      | Some _ =>
          processRelatedResources s ctx stateStore (with_object (sy_source res) sourceSide)
            (with_object (sy_dest res) destSide) false
      end.

End Process.
End Syncer.

(** ** Lemmas *)

(** What the construction of a state store promises to [Process]: it sends
    nothing, and the store keeps to the Secrets of the service cluster. *)
Class StoreFactory {J : JsonLib} (s : ResourceSyncer) : Prop := {
  factory_quiet a b : always (S := kube) (fun _ => False) (rs_newObjectStateStore s a b);
  factory_store a b tr st :
    exec (rs_newObjectStateStore s a b) tr (Ok st) -> SecretStore (sd_client b) st
}.

Section Facts.
Context {J : JsonLib} {PJ : PathJSON} {T : TemplateEngine} {X : TextLib} {R : MapRange} {K : KubeVersions}.

Lemma kubernetes_factory namespace a b tr st :
  exec (newKubernetesStateStoreCreator namespace a b) tr (Ok st) -> SecretStore (sd_client b) st.
Proof.
  unfold newKubernetesStateStoreCreator, newKubernetesBackend. intros H. repeat exec_step.
  apply (kubernetes_secret_store (MkKubernetesBackend _ _ b)).
Qed.

(** Options change neither the clients nor the PublishedResource nor the
    state store. *)
Definition keeps_store (opt : ResourceSyncerOption) : Prop :=
  forall r, rs_newObjectStateStore (opt r) = rs_newObjectStateStore r /\
            rs_localClient (opt r) = rs_localClient r /\ rs_remoteClient (opt r) = rs_remoteClient r /\
            rs_pubRes (opt r) = rs_pubRes r.

Lemma WithServerSideApply_keeps : keeps_store WithServerSideApply.
Proof. by intros r. Qed.
Lemma WithLiveReaders_keeps a b : keeps_store (WithLiveReaders a b).
Proof. by intros r. Qed.

Lemma NewResourceSyncer_fields lc rc pr crd mc ns agent opts r :
  Forall keeps_store opts -> NewResourceSyncer lc rc pr crd mc ns agent opts = Ok r ->
  rs_newObjectStateStore r = newKubernetesStateStoreCreator ns /\
  rs_localClient r = lc /\ rs_remoteClient r = rc /\ rs_pubRes r = pr.
Proof.
  intros Ho H. unfold NewResourceSyncer in H.
  repeat (apply obind_ok_inv in H as (? & ? & H)). injection H as <-.
  set (r0 := MkResourceSyncer _ _ _ _ _ _ _ _ _ _ _ _ _).
  assert (rs_newObjectStateStore r0 = newKubernetesStateStoreCreator ns /\
          rs_localClient r0 = lc /\ rs_remoteClient r0 = rc /\ rs_pubRes r0 = pr) as Hr0 by done.
  revert Hr0. generalize r0. induction Ho as [|opt opts Hopt _ IH]; intros r1 Hr1; simpl; [done|].
  apply IH. by destruct (Hopt r1) as (-> & -> & -> & ->).
Qed.

Lemma NewResourceSyncer_factory lc rc pr crd mc ns agent opts r :
  Forall keeps_store opts -> NewResourceSyncer lc rc pr crd mc ns agent opts = Ok r -> StoreFactory r.
Proof.
  intros Ho H. destruct (NewResourceSyncer_fields _ _ _ _ _ _ _ _ _ Ho H) as (Hs & _). split; rewrite Hs.
  - intros a b. unfold newKubernetesStateStoreCreator, newKubernetesBackend. by destruct (sd_object a).
  - intros a b tr st. apply kubernetes_factory.
Qed.

End Facts.
