(* ===== verification/SyncerProofs.v ===== *)
(** Properties of [Process]: which requests a synchronisation may send, and
    in which order it tears down an object with its related resources. *)

From S2P Require Import Prelude Effects Kube Crypto ApiTypes Meta Metadata StateStore ObjectSyncer.
From S2P Require Import Projection Templating Related Syncer Samples ObjectSyncerProofs RelatedProofs.

Section Process.
Context {J : JsonLib} {PJ : PathJSON} {T : TemplateEngine} {X : TextLib} {R : MapRange} {K : KubeVersions}.
Context (s : ResourceSyncer) (ctx : context) {SF : StoreFactory s}.

Definition kcpSide (remoteObj : option Unstructured) : syncSide :=
  Side (clusterFromContext ctx) (workspacePathFromContext ctx) (rs_remoteClient s) remoteObj.
Definition serviceSide (localObj : option Unstructured) : syncSide := Side "" "" (rs_localClient s) localObj.

Abbreviation primary st remoteObj :=
  (primarySyncer s st remoteObj (clusterFromContext ctx) (workspacePathFromContext ctx)).

(** A request of the primary's own synchronisation, or one for a related
    resource of the PublishedResource. *)
Inductive process_request (remoteObj : Unstructured) (localObj : option Unstructured) : kreq -> Prop :=
| pr_primary st r :
    sync_request (primary st remoteObj) (rs_localClient s) (kcpSide (Some remoteObj)) (serviceSide localObj)
      remoteObj r ->
    process_request remoteObj localObj r
| pr_related rr deleting r :
    rr ∈ ps_Related (pr_Spec (rs_pubRes s)) ->
    related_request (rs_localClient s) (relatedSides (kcpSide None) (serviceSide None) rr).1
      (relatedSides (kcpSide None) (serviceSide None) rr).2 rr deleting r ->
    process_request remoteObj localObj r.

Lemma related_request_clients c o d o' d' rr deleting r :
  sd_client o = sd_client o' -> sd_client d = sd_client d' ->
  related_request c o d rr deleting r -> related_request c o' d' rr deleting r.
Proof. unfold related_request. intros -> ->. done. Qed.

Lemma processRelated_always P st remote local related deleting :
  SecretStore (rs_localClient s) st ->
  sd_client remote = rs_remoteClient s -> sd_client local = rs_localClient s ->
  (forall rr r, rr ∈ related ->
     related_request (rs_localClient s) (relatedSides (kcpSide None) (serviceSide None) rr).1
       (relatedSides (kcpSide None) (serviceSide None) rr).2 rr deleting r -> P r) ->
  always (S := kube) P (processRelated s ctx st remote local related deleting).
Proof.
  intros HS. revert remote. induction related as [|rr related IH]; intros remote Hr Hl HP; simpl; [done|].
  apply always_bindM_exec.
  - apply always_wrapM. eapply always_mono;
      [|apply (processRelatedResource_always s ctx (rs_localClient s) st remote local rr deleting)].
    intros r Hreq. apply (HP rr); [by left|]. revert Hreq. apply related_request_clients;
      unfold relatedSides; case_decide; simpl; congruence.
  - intros tr [rq remote'] H%exec_wrapM_ok_inv. destruct rq; [done|]. apply processRelatedResource_false in H as ->.
    apply IH; [done..|]. intros rr' r Hin. apply HP. by right.
Qed.

(** *** [Process] after the copy has been looked up *)

Definition continue (remoteObj : Unstructured) (localObj : option Unstructured) : M kube bool :=
  let* st := rs_newObjectStateStore s (kcpSide (Some remoteObj)) (serviceSide localObj) in
  let* relRequeue :=
    if is_deleting remoteObj && bool_decide (localObj <> None)
    then wrapM "failed to clean up related resources during primary deletion"
           (processRelatedResources s ctx st (kcpSide (Some remoteObj)) (serviceSide localObj) true)
    else retM false in
  if (relRequeue : bool) then retM true
  else
    let* res := Sync (primary st remoteObj) ctx (kcpSide (Some remoteObj)) (serviceSide localObj) in
    if sy_requeue res then retM true
    else
      match sy_dest res with
      | None => retM false
      | Some _ =>
          processRelatedResources s ctx st (with_object (sy_source res) (kcpSide (Some remoteObj)))
            (with_object (sy_dest res) (serviceSide localObj)) false
      end.

Definition lookup_request (remoteObj : Unstructured) : kreq :=
  RList (rs_localClient s) (gvkAPIVersion (rs_destDummy s), gvk_kind (rs_destDummy s) +:+ "List")
    (ListOpts (SelectorFromSet (objectKey_Labels
       (newObjectKey remoteObj (clusterFromContext ctx) (workspacePathFromContext ctx)))) "" 2).

Lemma findLocalObject_inv remoteObj tr o :
  exec (findLocalObject s (newObjectKey remoteObj (clusterFromContext ctx) (workspacePathFromContext ctx))) tr o ->
  exists x, tr = [Ev (S := kube) (lookup_request remoteObj) x] /\
    match x with
    | Ok [] => o = Ok None
    | Ok [l] => o = Ok (Some l)
    | _ => is_ok o = false
    end.
Proof.
  unfold findLocalObject, clientList. intros H.
  apply exec_bindM_inv in H as [(t1 & t2 & items & -> & H1 & H2)|[(e & -> & H1)|(m & -> & H1)]];
    apply exec_wrapM_inv in H1 as (o' & H1 & Ho); exec_step; exec_step; exists x.
  - destruct x as [l|?|?]; simplify_eq/=. destruct l as [|y [|]]; by repeat exec_step.
  - split; [done|]. by destruct x as [|?|?]; simplify_eq/=.
  - split; [done|]. by destruct x as [|?|?]; simplify_eq/=.
Qed.

Lemma Process_inv remoteObj tr o :
  exec (Process s ctx remoteObj) tr o ->
  exists x tr', tr = Ev (S := kube) (lookup_request remoteObj) x :: tr' /\
    match x with
    | Ok [] => exec (continue remoteObj None) tr' o
    | Ok [l] => exec (continue remoteObj (Some l)) tr' o
    | _ => tr' = [] /\ is_ok o = false
    end.
Proof.
  unfold Process. intros H.
  apply exec_bindM_inv in H as [(t1 & t2 & l & -> & H1 & H2)|[(e & -> & H1)|(m & -> & H1)]];
    apply exec_wrapM_inv in H1 as (o' & H1 & Ho); apply findLocalObject_inv in H1 as (x & -> & Hx);
    exists x; eexists; (split; [done|]).
  - destruct x as [[|y [|]]|?|?]; simplify_eq/=; try exact H2; by destruct o'.
  - destruct x as [[|y [|]]|?|?]; simplify_eq/=; by destruct o'.
  - destruct x as [[|y [|]]|?|?]; simplify_eq/=; by destruct o'.
Qed.

Lemma continue_always remoteObj localObj :
  always (S := kube) (process_request remoteObj localObj) (continue remoteObj localObj).
Proof.
  unfold continue. apply always_bindM_exec.
  { eapply always_mono; [|apply factory_quiet]. done. }
  intros tr st H%factory_store. simpl in H.
  apply always_bindM.
  { case_match; [|done]. apply always_wrapM. eapply processRelated_always; try done.
    intros rr r Hin Hr. by eapply pr_related. }
  intros []; [done|]. apply always_bindM.
  { eapply always_mono; [|apply (Sync_always (primary st remoteObj) ctx (rs_localClient s) (HS := H)); done].
    intros r Hr. by eapply pr_primary. }
  intros res. destruct (sy_requeue res); [done|]. destruct (sy_dest res); [|done].
  eapply processRelated_always; try done. intros rr r Hin Hr. by eapply pr_related.
Qed.

(** A synchronisation starts with one look-up of the copy by its labels.
    If that fails, or finds more than one object, nothing else is sent and an
    error is reported.  Otherwise every further request is either one of the
    primary's own synchronisation with the copy that was found, or one of a
    related resource of the PublishedResource. *)
Lemma Process_requests remoteObj tr o :
  exec (Process s ctx remoteObj) tr o ->
  exists x tr', tr = Ev (S := kube) (lookup_request remoteObj) x :: tr' /\
    match x with
    | Ok [] => Forall (process_request remoteObj None) (requests tr')
    | Ok [l] => Forall (process_request remoteObj (Some l)) (requests tr')
    | _ => tr' = [] /\ is_ok o = false
    end.
Proof.
  intros (x & tr' & -> & H)%Process_inv. exists x, tr'. split; [done|].
  destruct x as [[|y [|]]|?|?]; try done;
    apply (always_exec (S := kube) _ _ _ _ (continue_always _ _) H).
Qed.

(** Which objects are created, replaced, applied or deleted in kcp: copies of a
    related resource that originates on the service cluster. *)
Definition request_client (r : kreq) : option client :=
  match r with
  | RCreate c _ | RUpdate c _ | RApply c _ _ _ | RDelete c _ _ => Some c
  | _ => None
  end.

Definition kcp_placement (h : list (event kube)) (r : kreq) : Prop :=
  request_client r = Some (rs_remoteClient s) ->
  exists rr gvk, rr ∈ ps_Related (pr_Spec (rs_pubRes s)) /\ rr_Origin rr = RelatedResourceOriginService /\
    Ev (S := kube) (RKindFor (rs_remoteClient s) (RelatedResourceProjectedGVR rr)) (Ok gvk) ∈ h /\
    copy_placement s rr (rs_remoteClient s) gvk h r.

Section Spared.
Hypothesis Hclients : rs_remoteClient s <> rs_localClient s.

Lemma kcp_quiet {A} h (m : M kube A) :
  always (S := kube) (fun r => request_client r <> Some (rs_remoteClient s)) m -> traced kcp_placement h m.
Proof. apply traced_always. intros h' r Hr Hp. congruence. Qed.

Lemma processRelated_traced st remote local related deleting h :
  SecretStore (rs_localClient s) st ->
  sd_client remote = rs_remoteClient s -> sd_client local = rs_localClient s ->
  related ⊆ ps_Related (pr_Spec (rs_pubRes s)) ->
  traced kcp_placement h (processRelated s ctx st remote local related deleting).
Proof.
  intros HS. revert remote h. induction related as [|rr related IH]; intros remote h Hr Hl Hin; simpl; [done|].
  apply traced_bindM.
  - apply traced_wrapM. eapply traced_mono;
      [|apply (processRelatedResource_traced s ctx (rs_localClient s) st rr remote local deleting)].
    intros h' r Hp Hc. destruct Hp as (gvk & Hk & Hp); [by destruct r|]. unfold relatedSides in Hk, Hp.
    case_decide as Ho; simpl in Hk, Hp.
    + rewrite Hr in Hk, Hp. exists rr, gvk. split_and!; [|done..]. set_solver.
    + rewrite Hl in Hp. destruct r; simplify_eq/=; naive_solver congruence.
  - intros tr [rq remote'] H%exec_wrapM_ok_inv. destruct rq; [done|]. apply processRelatedResource_false in H as ->.
    apply IH; [done..|]. set_solver.
Qed.

Lemma Process_traced remoteObj h : traced kcp_placement h (Process s ctx remoteObj).
Proof.
  unfold Process. cbv zeta. apply traced_bindM.
  { apply traced_wrapM, kcp_quiet. unfold findLocalObject, clientList. by repeat (always_step; simpl). }
  intros tr localObj _.
  fold (kcpSide (Some remoteObj)) (serviceSide localObj). apply traced_bindM.
  { apply kcp_quiet. eapply always_mono; [|apply factory_quiet]. done. }
  intros tr1 st H%factory_store. simpl in H. apply traced_bindM.
  { case_match; [|done]. apply traced_wrapM. by apply processRelated_traced. }
  intros tr2 [] _; [done|]. apply traced_bindM.
  { apply kcp_quiet. eapply always_mono; [|apply (Sync_always (primary st remoteObj) ctx (rs_localClient s) (HS := H)); done].
    intros r Hs. destruct Hs as [| |r _ _ Hs| |]; simpl in *; try congruence.
    destruct r; simpl in *; naive_solver congruence. }
  intros tr3 res _. destruct (sy_requeue res); [done|]. destruct (sy_dest res); [|done].
  by apply processRelated_traced.
Qed.

End Spared.

Lemma Sync_deleting_requeues sy source dest src dst tr res :
  sd_object source = Some src -> deletion_wanted sy src = true -> syn_blockSourceDeletion sy = true ->
  sd_object dest = Some dst -> exec (Sync sy ctx source dest) tr (Ok res) -> sy_requeue res = true.
Proof.
  intros Hs Hd Hb Hdst H. unfold Sync in H. rewrite Hs in H. cbn [deref] in H. rewrite bindM_retM in H.
  unfold deletion_wanted in Hd. rewrite Hd in H. apply exec_bindM_ok_inv in H as (t1 & t2 & [rq s'] & -> & H1 & H2).
  unfold handleDeletion in H1. rewrite Hb, Hdst in H1. simpl in H1. repeat exec_step. done.
Qed.

Lemma factory_nil a b tr st : exec (rs_newObjectStateStore s a b) tr (Ok st) -> tr = [].
Proof.
  intros H. pose proof (always_exec (S := kube) _ _ _ _ (factory_quiet a b) H) as Hf.
  destruct tr; [done|]. by inversion Hf.
Qed.

(** C11: when an object is going away, its related resources are cleaned up
    first: the copy is touched, and the finalizer of the object released,
    only by requests that follow a clean-up that had nothing left to do.  If
    the clean-up wants to come back, nothing else is sent. *)
Theorem Process_cleans_related_first remoteObj tr b :
  is_deleting remoteObj = true ->
  exec (Process s ctx remoteObj) tr (Ok b) ->
  exists x tr', tr = Ev (S := kube) (lookup_request remoteObj) x :: tr' /\
  forall lo, x = Ok [lo] ->
    exists st tr1 tr2 requeue, tr' = tr1 ++ tr2 /\
      exec (processRelatedResources s ctx st (kcpSide (Some remoteObj)) (serviceSide (Some lo)) true)
        tr1 (Ok requeue) /\
      if (requeue : bool) then tr2 = []
      else exists res, exec (Sync (primary st remoteObj) ctx (kcpSide (Some remoteObj)) (serviceSide (Some lo)))
             tr2 (Ok res).
Proof.
  intros Hdel (x & tr' & -> & Hc)%Process_inv. exists x, tr'. split; [done|]. intros lo ->.
  unfold continue in Hc. rewrite Hdel in Hc. rewrite bool_decide_true in Hc by done. simpl in Hc.
  apply exec_bindM_ok_inv in Hc as (t0 & t1 & st & -> & H0 & H). apply factory_nil in H0 as ->.
  apply exec_bindM_ok_inv in H as (t2 & t3 & rq & -> & H1 & H). apply exec_wrapM_ok_inv in H1.
  exists st, t2. destruct rq.
  - exists [], true. repeat exec_step. rewrite app_nil_r. auto.
  - apply exec_bindM_ok_inv in H as (t4 & t5 & res & -> & H2 & H).
    assert (deletion_wanted (primary st remoteObj) remoteObj = true) as Hw
      by (unfold deletion_wanted; by rewrite Hdel).
    rewrite (Sync_deleting_requeues (primary st remoteObj) (kcpSide (Some remoteObj)) (serviceSide (Some lo))
               remoteObj lo t4 res eq_refl Hw eq_refl eq_refl H2) in H.
    exists t4, false. repeat exec_step. simpl. rewrite app_nil_r. eauto.
Qed.

End Process.

(** ** Witnesses *)

Module SampleProcess.

#[export] Existing Instance SampleRelated.engine.
#[export] Existing Instance SampleRelated.text.
#[export] Existing Instance SampleRelated.range.
#[export] Existing Instance SampleCRD.versions.
#[export] Existing Instance Sample.path.
#[export] Existing Instance TreeJson.lib.

(** A related resource of the service cluster that goes with its primary. *)
Definition relRes : RelatedResourceSpec := SampleRelated.related "service" "OnPrimaryDeletion" "settings".
Definition syncer : ResourceSyncer := SampleRelated.resourceSyncer relRes.

#[export] Instance factory : StoreFactory syncer.
Proof. split; [done|]. intros a b tr st H. unfold syncer, SampleRelated.resourceSyncer in H. cbn in H. repeat exec_step. by split. Qed.

Definition ctx : context := WithClusterName Sample.ctx "2gz9".
Definition deleted : Unstructured := Sample.backup "ns" (Some [deletionFinalizer]) (Some 7%Z).
Definition server := SampleRelated.objects "settings" [Sample.backup "tenant" None None].
Definition pass := run server (Process syncer ctx deleted) tt.

End SampleProcess.
Import SampleProcess.

Lemma Process_requests_witness :
  exists x tr', SampleProcess.pass.1.1
    = Ev (S := kube) (lookup_request SampleProcess.syncer SampleProcess.ctx SampleProcess.deleted) x :: tr'.
Proof.
  destruct (Process_requests SampleProcess.syncer SampleProcess.ctx (SF := SampleProcess.factory)
    SampleProcess.deleted SampleProcess.pass.1.1 SampleProcess.pass.1.2) as (x & tr' & H & _).
  - exact (run_execution SampleProcess.server _ tt).
  - exists x, tr'. exact H.
Defined.

Lemma Process_cleans_related_first_witness :
  exists x tr', SampleProcess.pass.1.1
    = Ev (S := kube) (lookup_request SampleProcess.syncer SampleProcess.ctx SampleProcess.deleted) x :: tr'.
Proof.
  destruct (Process_cleans_related_first SampleProcess.syncer SampleProcess.ctx (SF := SampleProcess.factory)
    SampleProcess.deleted SampleProcess.pass.1.1 true) as (x & tr' & H & _).
  - reflexivity.
  - assert (SampleProcess.pass.1.2 = Ok true) as <- by (vm_cast_no_check (eq_refl (@Ok bool true))).
    exact (run_execution SampleProcess.server _ tt).
  - exists x, tr'. exact H.
Defined.
