(* ===== verification/MergePatch.v ===== *)
(** JSON merge patches (RFC 7386), the patches the syncer sends.

    The patch itself is computed by a third-party package and applied by an
    API server; [apply_patch] is the standard's own definition of what applying
    one means, and [PatchLaws] is what the standard promises of a patch that
    was created from two documents. *)

From S2P Require Import Prelude Effects Kube Meta Metadata StateStore.

(** ** Induction on JSON values *)

Fixpoint vsize (v : value) : nat :=
  match v with
  | VObj m => S (map_fold (fun _ v n => vsize v + n) 0 m)
  | _ => 0
  end.

Lemma vsize_member m k v : m !! k = Some v -> vsize v < vsize (VObj m).
Proof.
  intros H. simpl. rewrite (map_fold_delete_L _ _ k v) by (done || intros; lia). lia.
Qed.

Lemma value_members_ind (P : value -> Prop) :
  (forall v, (forall m, v <> VObj m) -> P v) ->
  (forall m : gmap string value, (forall k v, m !! k = Some v -> P v) -> P (VObj m)) ->
  forall v, P v.
Proof.
  intros Hleaf Hobj v. induction (Nat.lt_wf_0_projected vsize v) as [v _ IH].
  destruct v; try (by apply Hleaf). apply Hobj. intros k v Hv. eapply IH, vsize_member, Hv.
Qed.

(** The members of a value; a value that is no object has none. *)
Definition members (v : value) : gmap string value := match v with VObj m => m | _ => ∅ end.

Definition is_object (v : value) : bool := match v with VObj _ => true | _ => false end.

(** The value at a path of members. *)
Fixpoint at_path (path : list string) (v : value) : option value :=
  match path with
  | [] => Some v
  | k :: path => members v !! k ≫= at_path path
  end.

(** ** Applying a patch *)

(** What a member of a patch does to the member of the target: [null]
    removes it, everything else is merged into it. *)
Definition merge_member (go : value -> option value -> value) (p : value) (t : option value) : option value :=
  match p with VNull => None | _ => Some (go p t) end.

Fixpoint apply_patch (p : value) (t : option value) : value :=
  match p with
  | VObj mp =>
      VObj (merge (fun f v => match f with Some f => f v | None => v end)
              ((fun p t => merge_member apply_patch p t) <$> mp) (default ∅ (members <$> t)))
  | _ => p
  end.

Lemma apply_patch_leaf p t : is_object p = false -> apply_patch p t = p.
Proof. by destruct p. Qed.

Lemma apply_patch_lookup mp t k :
  members (apply_patch (VObj mp) t) !! k =
    match mp !! k with
    | Some VNull => None
    | Some p => Some (apply_patch p (default ∅ (members <$> t) !! k))
    | None => default ∅ (members <$> t) !! k
    end.
Proof.
  simpl. rewrite lookup_merge, lookup_fmap. unfold diag_None.
  destruct (mp !! k) as [[]|]; simpl; try done; by destruct (_ !! k).
Qed.

Lemma apply_patch_object mp t : apply_patch (VObj mp) t = VObj (members (apply_patch (VObj mp) t)).
Proof. done. Qed.

#[global] Arguments apply_patch : simpl never.

(** ** What a document contains of another *)

(** [covers d b]: every member of [b], at every depth, is in [d] with the
    same value; [d] may have more members.  This is how a copy relates to
    its source when a server adds defaults of its own. *)
Inductive covers : value -> value -> Prop :=
| covers_same v : covers v v
| covers_members md mb :
    (forall k v, mb !! k = Some v -> exists v', md !! k = Some v' /\ covers v' v) ->
    covers (VObj md) (VObj mb).

Definition covers_opt (d b : option value) : Prop :=
  forall v, b = Some v -> exists v', d = Some v' /\ covers v' v.

Lemma covers_object d mb :
  covers d (VObj mb) -> is_object d = true /\ forall k, covers_opt (members d !! k) (mb !! k).
Proof. unfold covers_opt. inversion 1; subst; simpl; split; naive_solver eauto using covers_same. Qed.

Lemma covers_member d b k : covers d b -> covers_opt (members d !! k) (members b !! k).
Proof.
  intros H. destruct b; simpl; try (intros v; rewrite lookup_empty; discriminate).
  by apply covers_object in H as [_ H].
Qed.

Lemma covers_trans a b c : covers a b -> covers b c -> covers a c.
Proof.
  revert a b. induction c as [c Hc|mc IH] using value_members_ind; intros a b Hab Hbc.
  - inversion Hbc; subst; [done|]. by destruct (Hc mb).
  - apply covers_object in Hbc as [Hb Hbc]. destruct b as [| | | | |mb]; try done.
    apply covers_object in Hab as [Ha Hab]. destruct a as [| | | | |ma]; try done.
    constructor. intros k v Hk. destruct (Hbc k v Hk) as (vb & Hkb & Hvb).
    destruct (Hab k vb Hkb) as (va & Hka & Hva). eauto.
Qed.

(** Applying one patch to two documents keeps the one inside the other:
    members the patch does not mention, and members only the larger document
    has, are no obstacle. *)
Lemma apply_patch_covers p d b : covers_opt d b -> covers (apply_patch p d) (apply_patch p b).
Proof.
  revert d b. induction p as [p Hp|mp IH] using value_members_ind; intros d b Hdb.
  - rewrite !apply_patch_leaf by (by destruct p; try done; destruct (Hp m)). constructor.
  - assert (forall k, covers_opt (default ∅ (members <$> d) !! k) (default ∅ (members <$> b) !! k)) as Hk.
    { intros k. destruct b as [b|]; simpl; [|intros v; rewrite lookup_empty; discriminate].
      destruct (Hdb b eq_refl) as (d' & -> & Hd'). by apply covers_member. }
    rewrite (apply_patch_object mp d), (apply_patch_object mp b). constructor. intros k v Hv. rewrite apply_patch_lookup in *.
    destruct (mp !! k) as [p|] eqn:Ep; [|by apply Hk].
    destruct p; simplify_eq; eexists; (split; [reflexivity|]); eapply IH; eauto.
Qed.

(** *** Documents without [null] *)

Fixpoint null_free (v : value) : bool :=
  match v with
  | VNull => false
  | VObj m => map_fold (fun _ v b => null_free v && b) true m
  | _ => true
  end.

Lemma null_free_object m : null_free (VObj m) = true <-> forall k v, m !! k = Some v -> null_free v = true.
Proof.
  simpl. induction m as [|k v m Hk Hf IH] using map_first_key_ind.
  - rewrite map_fold_empty. split; [|done]. intros _ k v. rewrite lookup_empty. discriminate.
  - rewrite map_fold_insert_first_key by done. rewrite andb_true_iff, IH. split.
    + intros [Hv Hm] k' v' [[<- <-]|[Hne Hl]]%lookup_insert_Some; eauto.
    + intros H. split; [apply (H k), lookup_insert_eq|]. intros k' v' Hl.
      apply (H k'). rewrite lookup_insert_ne; [done|]. intros ->. congruence.
Qed.

Lemma null_free_not_null v : null_free v = true -> v <> VNull.
Proof. by intros H ->. Qed.

(** A patch without [null] is the document it makes of nothing. *)
Lemma apply_patch_null_free p : null_free p = true -> apply_patch p None = p.
Proof.
  induction p as [p Hp|mp IH] using value_members_ind; intros Hnf.
  - by rewrite apply_patch_leaf by (by destruct p; try done; destruct (Hp m)).
  - rewrite apply_patch_object. f_equal. apply map_eq. intros k. rewrite apply_patch_lookup.
    simpl. rewrite lookup_empty.
    destruct (mp !! k) as [p|] eqn:Ep; [|done].
    assert (null_free p = true) as Hp by (by apply (proj1 (null_free_object mp) Hnf k)).
    rewrite (IH k p Ep Hp). by destruct p.
Qed.

(** The empty patch changes no object. *)
Lemma apply_patch_empty m : apply_patch (VObj ∅) (Some (VObj m)) = VObj m.
Proof.
  rewrite apply_patch_object. f_equal. apply map_eq. intros k.
  by rewrite apply_patch_lookup, lookup_empty.
Qed.

Lemma at_path_members path k v : at_path (k :: path) v = members v !! k ≫= at_path path.
Proof. done. Qed.

(** ** Single members of a patched document *)

Lemma at_path_app p q v : at_path (p ++ q) v = at_path p v ≫= at_path q.
Proof. revert v. induction p as [|k p IH]; intros v; simpl; [done|]. by destruct (members v !! k); simpl. Qed.

Lemma apply_patch_member p t k :
  is_object p = true ->
  members (apply_patch p t) !! k =
    match members p !! k with
    | Some VNull => None
    | Some q => Some (apply_patch q (t ≫= fun t => members t !! k))
    | None => t ≫= fun t => members t !! k
    end.
Proof.
  destruct p as [| | | | |mp]; try done. intros _. rewrite apply_patch_lookup. simpl.
  destruct t; simpl; rewrite ?lookup_empty; done.
Qed.

Lemma apply_patch_is_object p t : is_object (apply_patch p t) = is_object p.
Proof. by destruct p. Qed.

(** The patch has no value other than an object on the way to [path]. *)
Definition objects_along (path : list string) (p : value) : Prop :=
  forall q k r v, path = q ++ k :: r -> at_path q p = Some v -> is_object v = true.

Lemma objects_along_cons k path p :
  objects_along (k :: path) p <->
  is_object p = true /\ (forall q, members p !! k = Some q -> objects_along path q).
Proof.
  split.
  - intros H. split; [by apply (H [] k path)|]. intros q Hq q' k' r v -> Hv.
    apply (H (k :: q') k' r v); [done|]. simpl. by rewrite Hq.
  - intros [Hp Hq] [|k0 q] k' r v Hpath Hv; simplify_eq/=; [done|].
    destruct (members p !! k0) as [x|] eqn:Ex; [|done]. by eapply (Hq x).
Qed.

(** A member the patch does not mention keeps its value. *)
Lemma apply_patch_kept path p t :
  objects_along path p -> at_path path p = None ->
  at_path path (apply_patch p t) = t ≫= at_path path.
Proof.
  revert p t. induction path as [|k path IH]; intros p t Hpre Hnone; [done|].
  apply objects_along_cons in Hpre as [Hp Hq]. simpl in *. rewrite apply_patch_member by done.
  destruct (members p !! k) as [q|] eqn:Eq; simpl in Hnone; [|by destruct t].
  pose proof (Hq q eq_refl) as Hpre. assert (is_object q = true) as Hobj.
  { destruct path; [done|]. by apply objects_along_cons in Hpre as [? _]. }
  destruct q as [| | | | |mq]; try done. simpl. etransitivity; [by apply (IH (VObj mq))|]. by destruct t.
Qed.

(** A member the document did not have comes from the patch, and then it
    comes into every document. *)
Lemma apply_patch_added path p b t x :
  x <> VNull -> is_object x = false -> at_path path b = None ->
  at_path path (apply_patch p (Some b)) = Some x -> at_path path (apply_patch p t) = Some x.
Proof.
  intros Hnull Hx Hb H. assert (at_path path p = Some x) as Hp.
  { clear t. assert ((Some b ≫= at_path path) = None) as Hb' by done. clear Hb.
    revert H Hb'. generalize (Some b) as t. clear b. revert p.
    induction path as [|k path IH]; intros p t H Ht; simpl in *.
    - destruct p; simplify_eq/=; done.
    - destruct (is_object p) eqn:Hp; [|rewrite apply_patch_leaf in H by done; by destruct p].
      rewrite apply_patch_member in H by done.
      destruct (members p !! k) as [q|] eqn:Eq; simpl in *; [|by destruct t; simplify_eq/=; congruence].
      destruct q; try done; simpl in *; (eapply IH; [exact H|by destruct t]). }
  clear H Hb b. revert p t Hp. induction path as [|k path IH]; intros p t Hp; simpl in *.
  - simplify_eq. by rewrite apply_patch_leaf.
  - destruct (members p !! k) as [q|] eqn:Eq; [|done]. simpl in Hp.
    assert (is_object p = true) as Hobj by (by destruct p).
    rewrite apply_patch_member, Eq by done.
    destruct q; simpl; try (by apply IH). destruct path; simplify_eq/=.
Qed.

(** Where the patched document has an object, so has the patch. *)
Lemma objects_along_result path k p t m :
  at_path path (apply_patch p t) = Some (VObj m) -> objects_along (path ++ [k]) p.
Proof.
  revert p t. induction path as [|k' path IH]; intros p t H; simpl in *.
  - apply objects_along_cons. split; [by destruct p; simplify_eq/=|].
    intros q _ [|] ? ? ? ?; discriminate.
  - assert (is_object p = true) as Hobj.
    { destruct (is_object p) eqn:E; [done|]. rewrite apply_patch_leaf in H by done. by destruct p. }
    apply objects_along_cons. split; [done|]. intros q Hq.
    rewrite apply_patch_member, Hq in H by done. destruct q; simpl in H; try done; by eapply IH.
Qed.

Lemma objects_along_absent path k p :
  objects_along path p -> at_path path p = None -> objects_along (path ++ [k]) p.
Proof.
  intros H Hn q k' r v Hpath Hv. destruct r as [|k'' r].
  - apply app_inj_tail in Hpath as [<- <-]. congruence.
  - destruct (exists_last (l := k'' :: r)) as (r' & x & Hr); [done|]. rewrite Hr in Hpath.
    rewrite app_comm_cons, app_assoc in Hpath. apply app_inj_tail in Hpath as [-> _].
    by eapply (H q k' r').
Qed.

(** ** The document of an object *)

Definition string_map (m : gmap string string) : value := VObj (VStr <$> m).

Definition meta_members (labels annotations : option (gmap string string)) : gmap string value :=
  let m := match labels with Some l => {["labels" := string_map l]} | None => ∅ end in
  match annotations with Some a => <["annotations" := string_map a]> m | None => m end.

(** The part of an object that is synchronised: its labels and annotations
    and its top-level fields. *)
Definition doc (o : Unstructured) : value :=
  VObj (<["metadata" := VObj (meta_members (GetLabels o) (GetAnnotations o))]> (u_content o)).

Definition labels_path : list string := ["metadata"; "labels"].
Definition annotations_path : list string := ["metadata"; "annotations"].

Lemma doc_labels o : at_path labels_path (doc o) = string_map <$> GetLabels o.
Proof.
  simpl. rewrite lookup_insert_eq. simpl. unfold meta_members.
  by destruct (GetLabels o), (GetAnnotations o); simplify_map_eq.
Qed.

Lemma doc_annotations o : at_path annotations_path (doc o) = string_map <$> GetAnnotations o.
Proof.
  simpl. rewrite lookup_insert_eq. simpl. unfold meta_members.
  by destruct (GetLabels o), (GetAnnotations o); simplify_map_eq.
Qed.

Lemma doc_content o k : k <> "metadata" -> members (doc o) !! k = u_content o !! k.
Proof. intros Hk. simpl. by rewrite lookup_insert_ne. Qed.

Lemma string_map_lookup m k : at_path [k] (string_map m) = VStr <$> m !! k.
Proof. simpl. rewrite lookup_fmap. by destruct (m !! k). Qed.

Lemma doc_label o k : at_path (labels_path ++ [k]) (doc o) = VStr <$> lookup_map (GetLabels o) k.
Proof. rewrite at_path_app, doc_labels. destruct (GetLabels o); [apply string_map_lookup|done]. Qed.

Lemma doc_annotation o k : at_path (annotations_path ++ [k]) (doc o) = VStr <$> lookup_map (GetAnnotations o) k.
Proof. rewrite at_path_app, doc_annotations. destruct (GetAnnotations o); [apply string_map_lookup|done]. Qed.

Lemma null_free_string_map m : null_free (string_map m) = true.
Proof.
  apply null_free_object. intros k v Hv. rewrite lookup_fmap in Hv.
  destruct (m !! k); by simplify_eq/=.
Qed.

Lemma null_free_doc o :
  null_free (doc o) = true <-> forall k v, k <> "metadata" -> u_content o !! k = Some v -> null_free v = true.
Proof.
  unfold doc. rewrite null_free_object. split.
  - intros H k v Hk Hv. apply (H k). by rewrite lookup_insert_ne.
  - intros H k v [[<- <-]|[Hk Hv]]%lookup_insert_Some; [|by eapply H].
    apply null_free_object. intros k v Hv.
    assert (exists m, v = string_map m) as [m ->]; [|apply null_free_string_map].
    unfold meta_members in Hv. destruct (GetLabels o), (GetAnnotations o);
      rewrite ?lookup_insert_Some, ?lookup_singleton_Some, ?lookup_empty in Hv; naive_solver.
Qed.

Lemma covers_opt_trans a b c : covers_opt a b -> covers_opt b c -> covers_opt a c.
Proof.
  intros Hab Hbc v Hv. destruct (Hbc v Hv) as (vb & Hb & Hvb). destruct (Hab vb Hb) as (va & Ha & Hva).
  exists va. split; [done|]. by eapply covers_trans.
Qed.

Lemma covers_opt_refl a : covers_opt a a.
Proof. intros v ->. exists v. split; [done|constructor]. Qed.

(** One member of two patched documents. *)
Lemma apply_patch_member_covers p d b k :
  is_object p = true -> covers_opt (members d !! k) (members b !! k) ->
  covers_opt (members (apply_patch p (Some d)) !! k) (members (apply_patch p (Some b)) !! k).
Proof.
  intros Hp Hc. rewrite !apply_patch_member by done. simpl.
  destruct (members p !! k) as [q|]; [|done].
  destruct q; intros v Hv; simplify_eq; eexists; (split; [reflexivity|]); by apply apply_patch_covers.
Qed.

(** ** What is assumed of the created patches *)

(** The JSON value of an encoded patch. *)
Class PatchLib (J : JsonLib) : Type := decode_patch : bytes -> value.

Class PatchLaws (J : JsonLib) {P : PatchLib J} : Prop := {
  (* every object can be encoded, and two encoded objects have a patch *)
  marshal_total o : exists b, MarshalJSON o = Ok b;
  patch_total a b ba bb :
    MarshalJSON a = Ok ba -> MarshalJSON b = Ok bb -> exists p, CreateMergePatch ba bb = Ok p;
  patch_braces : decode_patch braces = VObj ∅;
  (* the patch turns the one document into the other; [null] cannot be
     expressed in a merge patch *)
  patch_exact a b ba bb p :
    MarshalJSON a = Ok ba -> MarshalJSON b = Ok bb -> CreateMergePatch ba bb = Ok p ->
    null_free (doc b) = true -> apply_patch (decode_patch p) (Some (doc a)) = doc b;
  (* it mentions nothing that neither document has *)
  patch_silent a b ba bb p path :
    MarshalJSON a = Ok ba -> MarshalJSON b = Ok bb -> CreateMergePatch ba bb = Ok p ->
    at_path path (doc a) = None -> at_path path (doc b) = None -> at_path path (decode_patch p) = None
}.

(** *** What follows for labels and annotations *)

Section Created.
Context {J : JsonLib} {P : PatchLib J} {L : PatchLaws J}.

Definition created (a b : Unstructured) (p : bytes) : Prop :=
  exists ba bb, MarshalJSON a = Ok ba /\ MarshalJSON b = Ok bb /\ CreateMergePatch ba bb = Ok p.

Context (a b : Unstructured) (p : bytes).
Hypothesis Hp : created a b p.
Hypothesis Hnull : null_free (doc b) = true.

Lemma created_exact : apply_patch (decode_patch p) (Some (doc a)) = doc b.
Proof. destruct Hp as (ba & bb & ? & ? & ?). by eapply patch_exact. Qed.

Lemma created_silent path :
  at_path path (doc a) = None -> at_path path (doc b) = None -> at_path path (decode_patch p) = None.
Proof. destruct Hp as (ba & bb & ? & ? & ?). by eapply patch_silent. Qed.

Lemma created_metadata f : objects_along ["metadata"; f] (decode_patch p).
Proof.
  apply (objects_along_result ["metadata"] f _ (Some (doc a)) (meta_members (GetLabels b) (GetAnnotations b))).
  rewrite created_exact. simpl. by rewrite lookup_insert_eq.
Qed.

(** A label or annotation that neither document has is left alone, unless
    the patch removes the whole map. *)
Lemma created_keeps f k t :
  let q := ["metadata"; f] in
  (exists m, at_path q (doc b) = Some (VObj m)) \/ at_path q (doc a) = None /\ at_path q (doc b) = None ->
  at_path (q ++ [k]) (doc a) = None -> at_path (q ++ [k]) (doc b) = None ->
  at_path (q ++ [k]) (apply_patch (decode_patch p) t) = t ≫= at_path (q ++ [k]).
Proof.
  intros q Hq Ha Hb. apply apply_patch_kept; [|by apply created_silent].
  destruct Hq as [[m Hm]|[Hqa Hqb]].
  - apply (objects_along_result q k _ (Some (doc a)) m). by rewrite created_exact.
  - apply objects_along_absent; [apply created_metadata|by apply created_silent].
Qed.

(** One that is new in the second document is put into every document. *)
Lemma created_adds path x t :
  at_path path (doc a) = None -> at_path path (doc b) = Some (VStr x) ->
  at_path path (apply_patch (decode_patch p) t) = Some (VStr x).
Proof.
  intros Ha Hb. apply (apply_patch_added _ _ (doc a)); try done. by rewrite created_exact.
Qed.

(** A map that is gone in the second document is removed from every
    document, whatever else is in it there. *)
Lemma created_removes f t :
  at_path ["metadata"; f] (doc a) <> None -> at_path ["metadata"; f] (doc b) = None ->
  at_path ["metadata"; f] (apply_patch (decode_patch p) t) = None.
Proof.
  intros Ha Hb. rewrite <- created_exact in Hb. revert Ha Hb.
  pose proof (created_metadata f) as [Hobj Hmd]%objects_along_cons.
  generalize (doc a). intros d. simpl. rewrite !apply_patch_member by done.
  destruct (members (decode_patch p) !! "metadata") as [md|]; simpl; [|intros Ha Hb; by destruct Ha].
  specialize (Hmd md eq_refl). apply objects_along_cons in Hmd as [Hm _].
  assert (forall x : value, match md with VNull => None | _ => Some x end = Some x) as Hs by (by destruct md).
  rewrite !Hs. simpl. rewrite !apply_patch_member by done.
  destruct (members md !! f) as [x|]; [by destruct x|]. simpl.
  destruct (members d !! "metadata"); simpl; intros Ha Hb; by destruct Ha.
Qed.

Lemma created_total : exists p', created a b p'.
Proof.
  clear p Hp. destruct (marshal_total a) as [ba Ha], (marshal_total b) as [bb Hb].
  destruct (patch_total _ _ _ _ Ha Hb) as [p' Hp']. by exists p', ba, bb.
Qed.

End Created.

(** *** An instance *)

Module TreePatch.

Fixpoint diff (b : value) (a : option value) : value :=
  match b, a with
  | VObj mb, Some (VObj ma) =>
      VObj (merge (fun f va => match f, va with
                               | Some f, _ => f va
                               | None, Some _ => Some VNull
                               | None, None => None
                               end)
              ((fun vb va => match va with
                             | None => Some vb
                             | Some va => if decide (va = vb) then None else Some (diff vb (Some va))
                             end) <$> mb) ma)
  | _, _ => b
  end.

Lemma diff_lookup mb ma k :
  members (diff (VObj mb) (Some (VObj ma))) !! k =
    match mb !! k, ma !! k with
    | Some vb, Some va => if decide (va = vb) then None else Some (diff vb (Some va))
    | Some vb, None => Some vb
    | None, Some _ => Some VNull
    | None, None => None
    end.
Proof. simpl. rewrite lookup_merge, lookup_fmap. by destruct (mb !! k), (ma !! k). Qed.

Lemma diff_object mb a : diff (VObj mb) a = VObj (members (diff (VObj mb) a)).
Proof. by destruct a as [[]|]. Qed.

Lemma diff_not_null b a : b <> VNull -> diff b a <> VNull.
Proof. by destruct b, a as [[]|]. Qed.

#[local] Arguments diff : simpl never.

Lemma apply_null_free_on_leaf p t :
  null_free p = true -> default ∅ (members <$> t) = ∅ -> apply_patch p t = p.
Proof.
  intros Hp Ht. rewrite <- (apply_patch_null_free p Hp) at 2. destruct p; try done.
  rewrite (apply_patch_object m t), (apply_patch_object m None). f_equal. apply map_eq. intros k.
  rewrite !apply_patch_lookup. by rewrite Ht.
Qed.

Lemma diff_exact b a : null_free b = true -> apply_patch (diff b a) a = b.
Proof.
  revert a. induction b as [b Hb|mb IH] using value_members_ind; intros a Hnf.
  - assert (diff b a = b) as -> by (destruct b; try done; by destruct (Hb m)).
    apply apply_patch_leaf. destruct b; try done. by destruct (Hb m).
  - assert (is_object (default VNull a) = false \/ exists ma, a = Some (VObj ma)) as [Ha|[ma ->]].
    { destruct a as [[]|]; simpl; eauto. }
    { assert (diff (VObj mb) a = VObj mb) as -> by (by destruct a as [[]|]).
      apply apply_null_free_on_leaf; [done|]. by destruct a as [[]|]. }
    rewrite diff_object, apply_patch_object. f_equal. apply map_eq. intros k.
    rewrite apply_patch_lookup, diff_lookup. simpl.
    destruct (mb !! k) as [vb|] eqn:Eb, (ma !! k) as [va|] eqn:Ea; try done.
    + pose proof (proj1 (null_free_object mb) Hnf k vb Eb) as Hvb. case_decide as Hd; [by subst|].
      pose proof (diff_not_null vb (Some va) (null_free_not_null _ Hvb)).
      destruct (diff vb (Some va)) eqn:Ed; try done; by rewrite <- Ed, (IH k vb Eb).
    + pose proof (proj1 (null_free_object mb) Hnf k vb Eb) as Hvb.
      rewrite (apply_patch_null_free vb Hvb). by destruct vb.
Qed.

Lemma diff_silent b a path :
  at_path path a = None -> at_path path b = None -> at_path path (diff b (Some a)) = None.
Proof.
  revert a path. induction b as [b Hb|mb IH] using value_members_ind; intros a path Ha Hpb.
  - assert (diff b (Some a) = b) as -> by (destruct b; try done; by destruct (Hb m)). done.
  - destruct path as [|k path]; [done|].
    destruct a as [| | | | |ma]; try exact Hpb. simpl in Ha, Hpb.
    rewrite at_path_members, diff_lookup.
    destruct (mb !! k) as [vb|] eqn:Eb, (ma !! k) as [va|] eqn:Ea; simpl in *; try done.
    + case_decide; [done|]. simpl. eauto.
    + destruct path; simpl; [done|]. by rewrite lookup_empty.
Qed.

#[export] Instance patches : PatchLib TreeJson.lib := fun p =>
  match p with
  | TreeJson.DMergePatch (TreeJson.DObject a) (TreeJson.DObject b) => diff (doc b) (Some (doc a))
  | _ => VObj ∅
  end.

#[export] Instance laws : PatchLaws TreeJson.lib.
Proof.
  split; unfold decode_patch; simpl; intros; simplify_eq; eauto.
  - case_decide; simplify_eq; simpl; [apply apply_patch_empty|by apply diff_exact].
  - case_decide; simplify_eq; simpl; [|by apply diff_silent].
    destruct path; [done|]. simpl. by rewrite lookup_empty.
Qed.

End TreePatch.
