(* ===== verification/Triples.v ===== *)
(** Reasoning about a program against one server: total correctness.

    [succeeds h m w Q]: run on [h] from state [w], the program [m] ends
    without an error, and [Q] holds of the events, the result and the state
    it leaves.  Programs always end, so this is termination with a
    postcondition, not a claim about the runs that happen to succeed. *)

From S2P Require Import Prelude Effects.

Section Triples.
Context {S : sig} {W : Type} (h : server (S := S) W).

Definition succeeds {A} (m : M S A) (w : W) (Q : list (event S) -> A -> W -> Prop) : Prop :=
  exists tr a w', run h m w = (tr, Ok a, w') /\ Q tr a w'.

Lemma succeeds_ret {A} (a : A) w (Q : _ -> _ -> _ -> Prop) : Q [] a w -> succeeds (retM a) w Q.
Proof. intros H. by exists [], a, w. Qed.

Lemma succeeds_lift {A} (o : outcome A) a w (Q : _ -> _ -> _ -> Prop) :
  o = Ok a -> Q [] a w -> succeeds (liftO o) w Q.
Proof. intros -> H. by exists [], a, w. Qed.

Lemma succeeds_mono {A} (m : M S A) w (P Q : _ -> _ -> _ -> Prop) :
  succeeds m w P -> (forall tr a w', P tr a w' -> Q tr a w') -> succeeds m w Q.
Proof. intros (tr & a & w' & H & HP) HPQ. exists tr, a, w'. auto. Qed.

Lemma succeeds_bind {A B} (m : M S A) (k : A -> M S B) w Q :
  succeeds m w (fun tr1 a w1 => succeeds (k a) w1 (fun tr2 b w2 => Q (tr1 ++ tr2) b w2)) ->
  succeeds (bindM m k) w Q.
Proof.
  intros (tr1 & a & w1 & H1 & tr2 & b & w2 & H2 & HQ).
  exists (tr1 ++ tr2), b, w2. split; [|done]. by rewrite (run_bindM_ok _ _ _ _ _ _ _ H1), H2.
Qed.

Lemma run_bindM_assoc {A B C} (m : M S A) (f : A -> M S B) (k : B -> M S C) w :
  run h (bindM (bindM m f) k) w = run h (bindM m (fun a => bindM (f a) k)) w.
Proof.
  unfold bindM. revert w. induction m as [[a|e|msg]|r c IH]; intros w; simpl; try done.
  destruct (h r w) as [x w1]. by rewrite IH.
Qed.

Lemma succeeds_assoc {A B C} (m : M S A) (f : A -> M S B) (k : B -> M S C) w Q :
  succeeds (bindM (bindM m f) k) w Q -> succeeds (bindM m (fun a => bindM (f a) k)) w Q.
Proof. unfold succeeds. by rewrite run_bindM_assoc. Qed.

Lemma succeeds_wrap {A} msg (m : M S A) w Q : succeeds m w Q -> succeeds (wrapM msg m) w Q.
Proof. intros (tr & a & w' & H & HQ). exists tr, a, w'. split; [|done]. by apply run_wrapM_ok. Qed.

Lemma succeeds_try {A} (m : M S A) w (Q : _ -> _ -> _ -> Prop) :
  succeeds m w (fun tr a w' => Q tr (inl a) w') -> succeeds (tryM m) w Q.
Proof.
  intros (tr & a & w' & H & HQ). exists tr, (inl a), w'. split; [|done].
  unfold tryM. rewrite run_pbind, H. simpl. by rewrite app_nil_r.
Qed.

Lemma succeeds_try_err {A} (m : M S A) w tr e w' (Q : _ -> _ -> _ -> Prop) :
  run h m w = (tr, Err e, w') -> Q tr (inr e) w' -> succeeds (tryM m) w Q.
Proof.
  intros H HQ. exists tr, (inr e), w'. split; [|done].
  unfold tryM. rewrite run_pbind, H. simpl. by rewrite app_nil_r.
Qed.

(** A part of the state that no request of the program changes. *)
Lemma run_frame {A X} (P : req S -> Prop) (F : W -> X) (m : prog S A) w :
  (forall r w, P r -> F (h r w).2 = F w) -> always P m -> F (run h m w).2 = F w.
Proof.
  intros HF. revert w. induction m as [a|r k IH]; intros w Hm; simpl; [done|].
  destruct Hm as [Hr Hk]. pose proof (HF r w Hr) as Hw. destruct (h r w) as [x w1].
  specialize (IH x w1 (Hk x)). destruct (run h (k x) w1) as [[tr a] w2]. simpl in *. congruence.
Qed.

(** Requests of a kind that leaves the state as it is, up to a preorder. *)
Lemma run_preserves {A} (P : req S -> Prop) (R : relation W) `{!PreOrder R} (m : prog S A) w :
  (forall r w, P r -> R (h r w).2 w) -> always P m -> R (run h m w).2 w.
Proof.
  intros HR. revert w. induction m as [a|r k IH]; intros w Hm; simpl; [reflexivity|].
  destruct Hm as [Hr Hk]. pose proof (HR r w Hr) as H1. destruct (h r w) as [x w1].
  pose proof (IH x w1 (Hk x)) as H2. destruct (run h (k x) w1) as [[tr a] w2]. simpl in *. by transitivity w1.
Qed.

(** Requests of a kind whose answers do not depend on the state. *)
Lemma run_same_answers {A} (P : req S -> Prop) (m : prog S A) w w' :
  (forall r w w', P r -> (h r w).1 = (h r w').1) -> always P m -> (run h m w).1 = (run h m w').1.
Proof.
  intros HP. revert w w'. induction m as [a|r k IH]; intros w w' Hm; simpl; [done|].
  destruct Hm as [Hr Hk]. pose proof (HP r w w' Hr) as Ha.
  destruct (h r w) as [x w1], (h r w') as [x' w1']. simpl in Ha. subst x'. specialize (IH x w1 w1' (Hk x)).
  destruct (run h (k x) w1) as [[tr a] w2], (run h (k x) w1') as [[tr' a'] w2']. simpl in *. by simplify_eq.
Qed.

Lemma succeeds_frame {A X} (P : req S -> Prop) (F : W -> X) (m : M S A) w (Q : _ -> _ -> _ -> Prop) :
  (forall r w, P r -> F (h r w).2 = F w) -> always P m ->
  succeeds m w Q -> succeeds m w (fun tr a w' => Q tr a w' /\ F w' = F w).
Proof.
  intros HF Hm (tr & a & w' & H & HQ). exists tr, a, w'. split_and!; [done..|].
  rewrite <- (run_frame P F m w HF Hm). by rewrite H.
Qed.

Lemma succeeds_always {A} (P : req S -> Prop) (m : M S A) w (Q : _ -> _ -> _ -> Prop) :
  always P m -> succeeds m w Q -> succeeds m w (fun tr a w' => Q tr a w' /\ Forall P (requests tr)).
Proof.
  intros Hm (tr & a & w' & H & HQ). exists tr, a, w'. split_and!; [done..|].
  eapply always_exec, run_exec; done.
Qed.

End Triples.

(** Walk over a sequence: one subgoal for its first part. *)
Ltac run_step :=
  match goal with
  | |- succeeds _ (let _ := _ in _) _ _ => cbv zeta
  | |- succeeds _ (bindM (retM _) _) _ _ => rewrite bindM_retM
  | |- succeeds _ (bindM (liftO (Ok _)) _) _ _ => rewrite bindM_liftO
  | |- succeeds _ (bindM _ _) _ _ => apply succeeds_bind
  | |- succeeds _ (wrapM _ _) _ _ => apply succeeds_wrap
  | |- succeeds _ (retM _) _ _ => apply succeeds_ret
  end.
