(* ===== verification/World.v ===== *)
(** The world around one published object: the API servers that the agent
    talks to, as far as [Process] depends on them.

    [ApiServers] states what the two clusters do with the requests of a
    synchronisation: which object a write leaves behind, which parts of it
    the server may fill in by itself, and that a look-up by labels finds the
    copy that carries them.  Nothing is said about other objects, other
    clients or the timing of caches; reads see the last write. *)

From S2P Require Import Prelude Effects Kube Crypto ApiTypes Meta Metadata StateStore ObjectSyncer.
From S2P Require Import Projection Templating Related Syncer StateStoreProofs ObjectSyncerProofs SyncerProofs.
From S2P Require Import MergePatch Triples.

(** ** What servers keep of an object *)

(** [sent] and [stored] are the same object, with the same labels,
    annotations and finalizers; what servers manage themselves, like the
    resource version, may differ. *)
Record same_meta (sent stored : Unstructured) : Prop := {
  sm_apiVersion : GetAPIVersion stored = GetAPIVersion sent;
  sm_kind : GetKind stored = GetKind sent;
  sm_name : GetName stored = GetName sent;
  sm_namespace : GetNamespace stored = GetNamespace sent;
  sm_labels : GetLabels stored = GetLabels sent;
  sm_annotations : GetAnnotations stored = GetAnnotations sent;
  sm_finalizers : GetFinalizers stored = GetFinalizers sent;
  sm_deletion : GetDeletionTimestamp stored = GetDeletionTimestamp sent;
  sm_other : om_other (u_meta stored) = om_other (u_meta sent)
}.

(** The server may fill in more labels, annotations and fields, and leaves
    the subresources alone. *)
Record admitted (subresources : list string) (sent stored : Unstructured) : Prop := {
  ad_key : ObjectKeyFromObject stored = ObjectKeyFromObject sent;
  ad_labels : default ∅ (GetLabels sent) ⊆ default ∅ (GetLabels stored);
  ad_annotations : default ∅ (GetAnnotations sent) ⊆ default ∅ (GetAnnotations stored);
  ad_deletion : GetDeletionTimestamp stored = GetDeletionTimestamp sent;
  ad_content k : k ∉ subresources -> covers_opt (u_content stored !! k) (u_content sent !! k)
}.

(** [stored] is [old] with the merge patch [p] applied. *)
Record patched (subresources : list string) (p : value) (old stored : Unstructured) : Prop := {
  pa_key : ObjectKeyFromObject stored = ObjectKeyFromObject old;
  pa_deletion : GetDeletionTimestamp stored = GetDeletionTimestamp old;
  pa_label k v : at_path (labels_path ++ [k]) (apply_patch p (Some (doc old))) = Some (VStr v) ->
    lookup_map (GetLabels stored) k = Some v;
  pa_annotation k v : at_path (annotations_path ++ [k]) (apply_patch p (Some (doc old))) = Some (VStr v) ->
    lookup_map (GetAnnotations stored) k = Some v;
  pa_content k : k ∉ subresources -> k <> "metadata" ->
    covers_opt (u_content stored !! k) (members (apply_patch p (Some (doc old))) !! k)
}.

Section World.
Context {J : JsonLib} {PB : PatchLib J} {PJ : PathJSON}.
Context {T : TemplateEngine} {X : TextLib} {R : MapRange} {K : KubeVersions}.
Context (s : ResourceSyncer) (ctx : context) (stateNamespace : string).

(** A syncer as [NewResourceSyncer] builds it for a resource without
    mutations, related resources or server-side apply, whose objects have a
    status subresource. *)
Record plain : Prop := {
  pl_store : rs_newObjectStateStore s = newKubernetesStateStoreCreator stateNamespace;
  pl_namespace : stateNamespace <> "";
  pl_mutator : rs_primaryMutator s = None;
  pl_ssa : rs_useServerSideApply s = false;
  pl_related : ps_Related (pr_Spec (rs_pubRes s)) = [];
  pl_status : "status" ∈ rs_subresources s;
  pl_recorder : recorderFromContext ctx = true
}.

Definition cn : string := clusterFromContext ctx.
Definition wp : string := workspacePathFromContext ctx.

(** The object as the user wrote it; [destName] is the name of its copy. *)
Context (o0 : Unstructured) (destName : NamespacedName).

Definition key0 : objectKey := newObjectKey o0 cn wp.
Definition secretName0 : NamespacedName :=
  NN stateNamespace ("obj-state-" +:+ cn +:+ "-" +:+ hashObject o0).
Definition storeKey0 : string := storeKey o0 cn.

(** ** The servers *)

(** The object in kcp, its copy, and the Secret that remembers it. *)
Context {W : Type} (h : server (S := kube) W).
Context (src : W -> Unstructured) (copy : W -> option Unstructured) (sec : W -> option Secret).

(** The state but for the Secret, and the whole of it, is as before. *)
Definition objects_kept (w w' : W) : Prop := src w' = src w /\ copy w' = copy w.
Definition kept (w w' : W) : Prop := objects_kept w w' /\ sec w' = sec w.

(** The copy that a look-up by the labels of the source finds. *)
Definition found (w : W) : option Unstructured :=
  match copy w with
  | Some o => if decide (objectKey_Labels key0 ⊆ default ∅ (GetLabels o)) then Some o else None
  | None => None
  end.

Class ApiServers : Prop := {
  srv_event w o ty reason msg : kept w (h (REvent o ty reason msg) w).2;
  srv_namespace w n :
    kept w (h (RGetNamespace (rs_localClient s) n) w).2 /\
    match (h (RGetNamespace (rs_localClient s) n) w).1 with
    | Ok _ => True | Err e => IsNotFound e = true | Panic _ => False
    end;
  srv_create_namespace w n :
    kept w (h (RCreateNamespace (rs_localClient s) n) w).2 /\
    match (h (RCreateNamespace (rs_localClient s) n) w).1 with
    | Ok _ => True | Err e => IsAlreadyExists e = true | Panic _ => False
    end;
  (* Secrets *)
  srv_secret :: SecretKeeper h (rs_localClient s) secretName0 sec;
  srv_secret_objects r w :
    secret_request (rs_localClient s) r -> (src (h r w).2, copy (h r w).2) = (src w, copy w);
  (* the object in kcp; of an object that vanishes with its last finalizer,
     [src] is the last state *)
  srv_source_patch w obj :
    ObjectKeyFromObject obj = ObjectKeyFromObject (src w) ->
    exists o' w', h (RPatch (rs_remoteClient s) obj (MergeFrom (src w))) w = (Ok o', w') /\
      src w' = o' /\ copy w' = copy w /\ sec w' = sec w /\
      same_meta obj o' /\ u_content o' = u_content obj;
  srv_source_status w v :
    exists o' w', h (RStatusUpdate (rs_remoteClient s) (setStatus v (src w))) w = (Ok o', w') /\
      src w' = o' /\ copy w' = copy w /\ sec w' = sec w /\
      same_meta (src w) o' /\ statusOf o' = v /\
      forall k, k <> "status" -> u_content o' !! k = u_content (src w) !! k;
  (* the copy *)
  srv_find w :
    ObjectKeyFromObject (src w) = ObjectKeyFromObject o0 ->
    h (lookup_request s ctx (src w)) w = (Ok (match found w with Some o => [o] | None => [] end), w);
  srv_create w obj :
    ObjectKeyFromObject obj = destName -> copy w = None ->
    exists o' w', h (RCreate (rs_localClient s) obj) w = (Ok o', w') /\
      src w' = src w /\ copy w' = Some o' /\ sec w' = sec w /\ admitted (rs_subresources s) obj o';
  srv_create_exists w obj o :
    ObjectKeyFromObject obj = destName -> copy w = Some o ->
    exists e, h (RCreate (rs_localClient s) obj) w = (Err e, w) /\ IsAlreadyExists e = true;
  srv_get w obj o :
    ObjectKeyFromObject obj = destName -> copy w = Some o ->
    h (RGet (rs_localClient s) (GetAPIVersion obj, GetKind obj) (ObjectKeyFromObject obj)) w = (Ok o, w);
  srv_update w obj o :
    ObjectKeyFromObject obj = destName -> copy w = Some o ->
    exists o' w', h (RUpdate (rs_localClient s) obj) w = (Ok o', w') /\
      src w' = src w /\ copy w' = Some o' /\ sec w' = sec w /\ admitted (rs_subresources s) obj o';
  srv_patch w o p :
    copy w = Some o ->
    exists o' w', h (RPatch (rs_localClient s) o (RawMergePatch p)) w = (Ok o', w') /\
      src w' = src w /\ copy w' = Some o' /\ sec w' = sec w /\ patched (rs_subresources s) (decode_patch p) o o';
  (* deletion is not immediate when others hold the copy back *)
  srv_delete w o policy :
    copy w = Some o ->
    exists w', h (RDelete (rs_localClient s) o policy) w = (Ok tt, w') /\
      src w' = src w /\ sec w' = sec w /\
      (copy w' = None \/ exists o', copy w' = Some o' /\ is_deleting o' = true /\ GetLabels o' = GetLabels o)
}.

End World.

(** The servers are known from the context. *)
#[global] Arguments srv_event {J PB s ctx stateNamespace o0 destName W h src copy sec ApiServers}.
#[global] Arguments srv_namespace {J PB s ctx stateNamespace o0 destName W h src copy sec ApiServers}.
#[global] Arguments srv_create_namespace {J PB s ctx stateNamespace o0 destName W h src copy sec ApiServers}.
#[global] Arguments srv_secret {J PB s ctx stateNamespace o0 destName W h src copy sec ApiServers}.
#[global] Arguments srv_secret_objects {J PB s ctx stateNamespace o0 destName W h src copy sec ApiServers}.
#[global] Arguments srv_source_patch {J PB s ctx stateNamespace o0 destName W h src copy sec ApiServers}.
#[global] Arguments srv_source_status {J PB s ctx stateNamespace o0 destName W h src copy sec ApiServers}.
#[global] Arguments srv_find {J PB s ctx stateNamespace o0 destName W h src copy sec ApiServers}.
#[global] Arguments srv_create {J PB s ctx stateNamespace o0 destName W h src copy sec ApiServers}.
#[global] Arguments srv_create_exists {J PB s ctx stateNamespace o0 destName W h src copy sec ApiServers}.
#[global] Arguments srv_get {J PB s ctx stateNamespace o0 destName W h src copy sec ApiServers}.
#[global] Arguments srv_update {J PB s ctx stateNamespace o0 destName W h src copy sec ApiServers}.
#[global] Arguments srv_patch {J PB s ctx stateNamespace o0 destName W h src copy sec ApiServers}.
#[global] Arguments srv_delete {J PB s ctx stateNamespace o0 destName W h src copy sec ApiServers}.
#[global] Arguments pl_store {J PJ s ctx stateNamespace}.
#[global] Arguments pl_namespace {J PJ s ctx stateNamespace}.
#[global] Arguments pl_mutator {J PJ s ctx stateNamespace}.
#[global] Arguments pl_ssa {J PJ s ctx stateNamespace}.
#[global] Arguments pl_related {J PJ s ctx stateNamespace}.
#[global] Arguments pl_status {J PJ s ctx stateNamespace}.
#[global] Arguments pl_recorder {J PJ s ctx stateNamespace}.
