(* ===== verification/Convergence.v ===== *)
(** Synchronisation comes to rest.

    [Process] asks to be called again after most changes, so one call says
    little about where an object ends up.  Here the calls are iterated
    against the servers of [World]: from every state of the object, its copy
    and the remembered state, four passes are enough, the fifth only reads;
    and an object that is deleted is released after its copy is gone. *)

From S2P Require Import Prelude Effects Kube Crypto ApiTypes Meta Metadata StateStore ObjectSyncer.
From S2P Require Import Projection Templating Related Syncer StateStoreProofs ObjectSyncerProofs SyncerProofs.
From S2P Require Import MergePatch Triples World Samples RelatedProofs.

(** ** Snapshots *)

Record same_snapshot (a b : Unstructured) (subresources : list string) : Prop := {
  ss_apiVersion : u_apiVersion a = u_apiVersion b;
  ss_kind : u_kind a = u_kind b;
  ss_name : GetName a = GetName b;
  ss_namespace : GetNamespace a = GetNamespace b;
  ss_labels : strip_labels_map (GetLabels a) = strip_labels_map (GetLabels b);
  ss_annotations : strip_annotations_map (GetAnnotations a) = strip_annotations_map (GetAnnotations b);
  ss_deletion : GetDeletionTimestamp a = GetDeletionTimestamp b;
  ss_other : om_other (u_meta a) = om_other (u_meta b);
  ss_content k : k ∉ subresources -> u_content a !! k = u_content b !! k
}.

Lemma snapshot_same a b sub : snapshot a sub = snapshot b sub <-> same_snapshot a b sub.
Proof.
  split.
  - intros H. pose proof (f_equal u_content H) as Hc.
    injection H as ?????? ? ? _. split; auto.
    intros k Hk. pose proof (f_equal (lookup k) Hc) as Hl. unfold snapshot in Hl.
    rewrite !removeKeys_content, !decide_False in Hl by done. exact Hl.
  - intros [H1 H2 H3 H4 H5 H6 H7 H8 H9].
    assert (u_content (snapshot a sub) = u_content (snapshot b sub)) as Hc.
    { apply map_eq. intros k. unfold snapshot. rewrite !removeKeys_content. case_decide; [done|]. by apply H9. }
    unfold snapshot, removeKeys, with_content in *. simpl in *. rewrite Hc. unfold stripped. simpl. congruence.
Qed.

Lemma snapshot_idemp o sub : snapshot (snapshot o sub) sub = snapshot o sub.
Proof.
  apply snapshot_same. split; try done.
  - apply (strip_labels_map_idemp (GetLabels o)).
  - apply (strip_annotations_map_idemp (GetAnnotations o)).
  - intros k Hk. unfold snapshot. rewrite removeKeys_content, decide_False by done. done.
Qed.

Lemma snapshot_key a b sub cn wp : snapshot a sub = snapshot b sub -> newObjectKey a cn wp = newObjectKey b cn wp.
Proof. intros [_ _ H1 H2 _ _ _ _ _]%snapshot_same. unfold newObjectKey. by rewrite H1, H2. Qed.

Lemma snapshot_objectKey a b sub :
  snapshot a sub = snapshot b sub -> ObjectKeyFromObject a = ObjectKeyFromObject b.
Proof. intros [_ _ H1 H2 _ _ _ _ _]%snapshot_same. unfold ObjectKeyFromObject. by rewrite H1, H2. Qed.

Lemma snapshot_deleting a b sub : snapshot a sub = snapshot b sub -> is_deleting a = is_deleting b.
Proof. intros H%snapshot_same. unfold is_deleting. by rewrite (ss_deletion _ _ _ H). Qed.

Lemma same_meta_snapshot sent stored sub :
  same_meta sent stored -> (forall k, k ∉ sub -> u_content stored !! k = u_content sent !! k) ->
  snapshot stored sub = snapshot sent sub.
Proof. intros [] Hc. apply snapshot_same. split; try done; congruence. Qed.

(** What a snapshot does not have: the metadata that links a copy. *)
Lemma snapshot_label o sub k :
  lookup_map (GetLabels (snapshot o sub)) k = if label_kept k then lookup_map (GetLabels o) k else None.
Proof. apply strip_labels_map_lookup. Qed.
Lemma snapshot_annotation o sub k :
  lookup_map (GetAnnotations (snapshot o sub)) k = if annotation_kept k then lookup_map (GetAnnotations o) k else None.
Proof. apply strip_annotations_map_lookup. Qed.

(** ** The life of a published object *)

(** Where an object that is not being deleted stands: it has not been
    claimed; it has no copy that can be found; the copy has to be updated,
    [true] if the object is remembered as it is; only the status has to be
    copied back; or there is nothing to do. *)
Inductive phase : Type :=
| Unclaimed
| Unplaced
| Outdated (remembered : bool)
| StatusPending
| InSync.

(** The passes of the specification, with their answer: whether they ask to
    be called again. *)
Inductive lifecycle : phase -> bool -> phase -> Prop :=
| lc_claim p : p <> Unclaimed -> lifecycle Unclaimed true p
| lc_place p : p = StatusPending \/ p = InSync -> lifecycle Unplaced true p
| lc_update p : p <> Unclaimed -> p <> Outdated false -> lifecycle (Outdated false) true p
| lc_link p : p = StatusPending \/ p = InSync -> lifecycle (Outdated true) true p
| lc_status : lifecycle StatusPending false InSync
| lc_rest : lifecycle InSync false InSync.

(** How many passes an object is away from rest. *)
Definition distance (p : phase) : nat :=
  match p with
  | Unclaimed => 4
  | Outdated false => 3
  | Unplaced | Outdated true => 2
  | StatusPending => 1
  | InSync => 0
  end.

Lemma lifecycle_progress p b q : lifecycle p b q -> p <> InSync -> distance q < distance p.
Proof.
  intros H Hp. destruct H as [q Hq|q Hq|q Hq Hq'|q Hq| |]; try done; simpl; try lia;
    destruct q as [| |[]| |]; simpl; try lia; naive_solver.
Qed.

(** ** The last label of an object *)

Section Labels.
Context {J : JsonLib} {PB : PatchLib J} {PL : PatchLaws J} (s : objectSyncer) (ctx : context).

(** C18: removing the last label of an object unlinks its copy.  When the
    remembered state has labels that are synchronised and the object has
    none any more, the patch that is sent to the copy removes the copy's
    label map as a whole, whatever is in it: with it go the labels by which
    the copy is found again, which nobody asked to remove. *)
Theorem last_label_unlinks source dest src dst old tr b dest' :
  sd_object source = Some src -> sd_object dest = Some dst -> syn_metadataOnDestination s = true ->
  (forall tr o, exec (Store_Get (syn_stateStore s) source) tr (Ok o) ->
     o = Some (snapshot old (syn_subresources s))) ->
  objectKey_Labels (newObjectKey src (sd_clusterName source) (sd_workspacePath source))
    ⊆ default ∅ (GetLabels dst) ->
  strip_labels_map (GetLabels old) <> None -> strip_labels_map (GetLabels src) = None ->
  null_free (doc (snapshot src (syn_subresources s))) = true ->
  exec (syncObjectSpec s ctx source dest) tr (Ok (b, dest')) ->
  exists p, RPatch (sd_client dest) dst (RawMergePatch p) ∈ requests tr /\
    forall t, at_path labels_path (apply_patch (decode_patch p) t) = None.
Proof.
  intros Hs Hd Hmeta Hlast Hl Hold Hnew Hnull H. unfold syncObjectSpec in H.
  apply exec_bindM_ok_inv in H as (t0 & t1 & last & -> & H0%exec_wrapM_ok_inv & H). apply Hlast in H0 as ->.
  rewrite Hs, Hd, Hmeta in H. cbn [deref] in H. rewrite bindM_retM, stripMetadata_eq in H.
  cbn [wrapErr] in H. rewrite bindM_liftO, bindM_retM in H. cbv zeta iota in H.
  set (rev := threeWayDiffMetadata _ _ _ _) in H.
  set (a := SetKind _ _) in H.
  apply exec_bindM_ok_inv in H as (t2 & t3 & [[rq d'] c] & -> & H & _).
  apply exec_bindM_ok_inv in H as (t4 & t5 & p & -> & H1 & H).
  assert (created (removeKeys (syn_subresources s) a) (removeKeys (syn_subresources s) rev) p) as Hp.
  { exec_step. unfold createMergePatch, removeSubresources in H1.
    destruct (MarshalJSON _) as [ba|?|?] eqn:Ea in H1; try done.
    destruct (MarshalJSON _) as [bb|?|?] eqn:Eb in H1; try done.
    exists ba, bb. split_and!; [done..|]. simpl in H1. by destruct (CreateMergePatch _ _); simplify_eq/=. }
  assert (null_free (doc (removeKeys (syn_subresources s) rev)) = true) as Hnf.
  { apply null_free_doc. intros k v Hk Hv.
    exact (proj1 (null_free_doc (snapshot src (syn_subresources s))) Hnull k v Hk Hv). }
  assert (at_path labels_path (doc (removeKeys (syn_subresources s) a)) <> None) as Ha.
  { rewrite doc_labels. change (GetLabels _) with (strip_labels_map (GetLabels old)).
    by destruct (strip_labels_map _). }
  assert (at_path labels_path (doc (removeKeys (syn_subresources s) rev)) = None) as Hr.
  { rewrite doc_labels. change (GetLabels _) with
      (diff_map (strip_labels_map (GetLabels src)) (GetLabels dst)
        (objectKey_Labels (newObjectKey src (sd_clusterName source) (sd_workspacePath source)))).
    by rewrite diff_map_noop, Hnew. }
  exists p. split; [|intros t; by apply (created_removes _ _ _ Hp Hnf "labels")].
  rewrite decide_True in H.
  - apply exec_bindM_ok_inv in H as (t6 & t7 & o' & -> & Hx%exec_wrapM_ok_inv & _).
    unfold clientPatch in Hx. apply exec_call_inv in Hx as (x & t8 & -> & _).
    unfold requests. rewrite !fmap_app, fmap_cons. set_solver.
  - intros ->. apply Ha. rewrite <- Hr. f_equal.
    pose proof (created_exact _ _ _ Hp Hnf) as He. rewrite patch_braces in He.
    unfold doc in He at 1. rewrite apply_patch_empty in He. exact He.
Qed.

End Labels.

Section Convergence.
Context {J : JsonLib} {JL : JsonLaws J} {PB : PatchLib J} {PL : PatchLaws J} {PJ : PathJSON}.
Context {T : TemplateEngine} {X : TextLib} {R : MapRange} {K : KubeVersions}.
Context (s : ResourceSyncer) (ctx : context) (stateNamespace : string).
Context (Hplain : plain s ctx stateNamespace).
Context (o0 : Unstructured) (destName : NamespacedName).
Context {W : Type} (h : server (S := kube) W).
Context (src : W -> Unstructured) (copy : W -> option Unstructured) (sec : W -> option Secret).
Context {HW : ApiServers s ctx stateNamespace o0 destName h src copy sec}.

Abbreviation subs := (rs_subresources s).
Abbreviation key0 := (key0 ctx o0).
Abbreviation found := (found ctx o0 copy).
Abbreviation kept := (kept src copy sec).
Abbreviation objects_kept := (objects_kept src copy).
Abbreviation lc := (rs_localClient s).

(** One call of [Process] with the object as it is by then. *)
Definition pass (w : W) : list (event kube) * outcome bool * W := run h (Process s ctx (src w)) w.

(** ** The remembered state *)

Definition decoded (w : W) : outcome Unstructured := UnmarshalJSON (entries sec w !! storeKey0 ctx o0).
Definition remembered (w : W) : option Unstructured := match decoded w with Ok u => Some u | _ => None end.
Definition secrets_named (w : W) : Prop := forall x, sec w = Some x -> sec_name x = secretName0 ctx stateNamespace o0.

Definition backend0 (l : option Unstructured) : kubernetesBackend :=
  MkKubernetesBackend (secretName0 ctx stateNamespace o0)
    (<[objectStateLabelName := objectStateLabelValue]> (objectKey_Labels key0)) (serviceSide s l).
Definition store (l : option Unstructured) : ObjectStateStore :=
  newObjectStateStore (kubernetesBackend_iface (backend0 l)).

Lemma storeKey_same o sub : snapshot o sub = snapshot o0 sub -> storeKey o (cn ctx) = storeKey0 ctx o0.
Proof. intros H. unfold storeKey0, storeKey. by rewrite (snapshot_key _ _ _ _ _ H). Qed.

Lemma store_created w l :
  snapshot (src w) subs = snapshot o0 subs ->
  rs_newObjectStateStore s (kcpSide s ctx (Some (src w))) (serviceSide s l) = retM (store l).
Proof.
  intros H. rewrite (pl_store Hplain). unfold newKubernetesStateStoreCreator, newKubernetesBackend. simpl.
  rewrite !bindM_retM. unfold store, backend0, secretName0, World.key0, cn, wp. rewrite (snapshot_key _ _ _ _ _ H).
  apply snapshot_same in H as [H1 H2 H3 H4 _ _ _ _ _]. unfold hashObject, GetAPIVersion, GetKind.
  by rewrite H1, H2, H3, H4.
Qed.

(** Reads that answer in the state they leave. *)
Definition reads (r : kreq) : Prop :=
  match r with RList _ _ _ | RGetSecret _ _ => True | _ => False end.

Lemma store_get w l :
  snapshot (src w) subs = snapshot o0 subs -> (exists e, decoded w = Err e) \/ (exists u, decoded w = Ok u) ->
  succeeds h (Store_Get (store l) (kcpSide s ctx (Some (src w)))) w
    (fun tr a w' => w' = w /\ a = remembered w /\ Forall reads (requests tr)).
Proof.
  intros H Hd. destruct (run_store_Get h (backend0 l) sec w (kcpSide s ctx (Some (src w))) (src w) eq_refl) as [tr Hr].
  change (sd_clusterName _) with (cn ctx) in Hr. rewrite (storeKey_same _ _ H) in Hr. fold (decoded w) in Hr.
  exists tr, (remembered w), w. unfold remembered.
  destruct Hd as [[e He]|[u Hu]]; [rewrite He in *|rewrite Hu in *];
    (split; [exact Hr|split_and!; [done..|]]);
    apply run_exec, (objectStateStore_Get_exec _ _ (src w)) in Hr as (x & Hx & _); try done;
    apply getSecretOrEmpty_inv in Hx as (y & -> & _); by repeat constructor.
Qed.

Lemma store_put w l obj :
  secrets_named w -> snapshot obj subs = snapshot o0 subs ->
  succeeds h (Store_Put (store l) obj (cn ctx) subs) w
    (fun tr _ w' => objects_kept w w' /\ secrets_named w' /\ decoded w' = Ok (snapshot o0 subs) /\
       Forall (secret_request lc) (requests tr)).
Proof.
  intros Hn H.
  assert (always (S := kube) (secret_request lc) (Store_Put (store l) obj (cn ctx) subs)) as Ha.
  { exact (store_put_requests (SecretStore := kubernetes_secret_store (backend0 l)) obj (cn ctx) subs). }
  eapply succeeds_mono.
  { eapply (succeeds_always h); [exact Ha|]. apply (succeeds_frame h (secret_request lc) (fun w => (src w, copy w))); [|exact Ha|].
    { intros r w' Hr. by apply srv_secret_objects. }
    destruct (marshal_total (snapshot obj subs)) as [b Hb].
    assert (snapshotObject obj subs = Ok (TrimSpaceBytes b)) as Hs by (by rewrite snapshotObject_eq, Hb).
    destruct (run_backend_Put h (backend0 l) sec (HK := srv_secret) w obj (cn ctx) (TrimSpaceBytes b)
                (pl_namespace Hplain) Hn) as (tr & w' & Hput & Hn' & He).
    simpl. unfold objectStateStore_Put. rewrite Hs, bindM_liftO. exists tr, tt, w'. split; [exact Hput|].
    instantiate (1 := fun _ _ w' => secrets_named w' /\ decoded w' = Ok (snapshot o0 subs)). split; [exact Hn'|].
    unfold decoded. rewrite He, (storeKey_same _ _ H), lookup_insert_eq, (marshal_roundtrip _ _ Hb).
    by rewrite H. }
  simpl. intros tr a w' [[[? ?] [= ? ?]] ?]. done.
Qed.

(** ** One pass *)

(** Everything a pass of the primary's syncer depends on. *)
Definition sy (w : W) : objectSyncer := primarySyncer s (store (found w)) (src w) (cn ctx) (wp ctx).

Definition kcp (w : W) : syncSide := kcpSide s ctx (Some (src w)).
Definition service (w : W) : syncSide := serviceSide s (found w).

Lemma find_succeeds w (Q : _ -> _ -> _ -> Prop) :
  snapshot (src w) subs = snapshot o0 subs ->
  (forall x, Q [Ev (S := kube) (lookup_request s ctx (src w)) x] (found w) w) ->
  succeeds h (wrapM "failed to find local equivalent" (findLocalObject s (newObjectKey (src w) (cn ctx) (wp ctx)))) w Q.
Proof.
  intros H HQ. apply succeeds_wrap. unfold findLocalObject, clientList.
  pose proof (srv_find (ApiServers := HW) w (snapshot_objectKey _ _ _ H)) as Hf.
  apply succeeds_bind, succeeds_wrap. eexists _, _, _.
  split; [simpl; unfold lookup_request in Hf; unfold cn, wp; by rewrite Hf|].
  destruct (found w); apply succeeds_ret; simpl; apply HQ.
Qed.

Lemma pass_live w (Q : _ -> _ -> _ -> Prop) :
  snapshot (src w) subs = snapshot o0 subs -> is_deleting (src w) = false ->
  succeeds h (Sync (sy w) ctx (kcp w) (service w)) w
    (fun tr res w' => forall x, Q (Ev (S := kube) (lookup_request s ctx (src w)) x :: tr) (sy_requeue res) w') ->
  succeeds h (Process s ctx (src w)) w Q.
Proof.
  intros H Hd HS. unfold Process. apply succeeds_bind, find_succeeds; [done|]. intros x.
  fold (kcpSide s ctx (Some (src w))) (serviceSide s (found w)).
  rewrite (store_created w _ H), bindM_retM, Hd. simpl. rewrite bindM_retM.
  apply succeeds_bind. eapply succeeds_mono; [exact HS|]. simpl. intros tr res w' HQ.
  destruct (sy_requeue res); [by apply succeeds_ret; rewrite app_nil_r|].
  destruct (sy_dest res); [|by apply succeeds_ret; rewrite app_nil_r].
  unfold processRelatedResources. rewrite (pl_related Hplain). simpl.
  apply succeeds_ret. rewrite app_nil_r. apply HQ.
Qed.

(** ** States *)

Lemma kept_trans w1 w2 w3 : kept w1 w2 -> kept w2 w3 -> kept w1 w3.
Proof. intros [[? ?] ?] [[? ?] ?]. split; [split|]; congruence. Qed.

Lemma event_succeeds w syn source dest ty reason msg (Q : _ -> _ -> _ -> Prop) :
  (forall o x w', kept w w' -> Q [Ev (S := kube) (REvent o ty reason msg) x] tt w') ->
  succeeds h (recordEvent syn ctx source dest ty reason msg) w Q.
Proof.
  intros HQ. unfold recordEvent, emitEvent. rewrite (pl_recorder Hplain). cbv zeta.
  generalize (match syn_eventObjSide syn with syncSideSource => sd_object source | _ => sd_object dest end).
  intros o. pose proof (srv_event (ApiServers := HW) w o ty reason msg) as Hk.
  specialize (HQ o (h (REvent o ty reason msg) w).1 _ Hk).
  eexists _, tt, _. split; [|exact HQ]. simpl. by destruct (h (REvent o ty reason msg) w).
Qed.

Definition claimed (w : W) : Prop := deletionFinalizer ∈ GetFinalizers (src w).

Lemma found_copy w o : found w = Some o -> copy w = Some o /\ objectKey_Labels key0 ⊆ default ∅ (GetLabels o).
Proof. unfold World.found. intros H. destruct (copy w); [|done]. case_decide; by simplify_eq. Qed.

Lemma found_kept w w' : copy w' = copy w -> found w' = found w.
Proof. unfold World.found. by intros ->. Qed.

(** A sequence of passes, none of which fails. *)
Inductive reaches : nat -> W -> W -> Prop :=
| reaches_here w : reaches 0 w w
| reaches_pass n w tr b w1 w' : pass w = (tr, Ok b, w1) -> reaches n w1 w' -> reaches (S n) w w'.

(** A pass only reads: it answers [b] and leaves everything as it is. *)
Definition only_reads (w : W) (b : bool) : Prop :=
  exists tr, pass w = (tr, Ok b, w) /\ Forall reads (requests tr).

Section Live.

Hypothesis Hlive : is_deleting o0 = false.
Hypothesis Hnull : null_free (doc (snapshot o0 subs)) = true.
(** The naming rules do not look at the status or at the finalizers. *)
Hypothesis Hname : forall o, snapshot o subs = snapshot o0 subs ->
  exists d, newLocalObjectCreator s (cn ctx) (wp ctx) o = Ok d /\ ObjectKeyFromObject d = destName.

(** Nobody but the agent works on the object; the copy is not going away,
    and what is remembered, if it can be read at all, is some earlier state. *)
Record inv (w : W) : Prop := {
  inv_source : snapshot (src w) subs = snapshot o0 subs;
  inv_secret : secrets_named w;
  inv_copy o : copy w = Some o -> is_deleting o = false /\ ObjectKeyFromObject o = destName;
  inv_remembered : (exists e, decoded w = Err e) \/ (exists old, decoded w = Ok (snapshot old subs))
}.

(** The copy carries the metadata that leads back to the object. *)
Definition linked (o : Unstructured) : Prop :=
  objectKey_Labels key0 ⊆ default ∅ (GetLabels o) /\
  objectKey_Annotations key0 ⊆ default ∅ (GetAnnotations o).

(** The top-level fields that are synchronised. *)
Definition synced_field (k : string) : Prop :=
  (k ∉ subs) /\ k <> "metadata" /\ k <> "kind" /\ k <> "apiVersion".

(** The fields of [x] are in the copy. *)
Definition has_content (o x : Unstructured) : Prop :=
  forall k, synced_field k -> covers_opt (u_content o !! k) (u_content x !! k).

Lemma inv_decodes w : inv w -> (exists e, decoded w = Err e) \/ (exists u, decoded w = Ok u).
Proof. intros [_ _ _ [?|[old ?]]]; eauto. Qed.

Lemma inv_live w : inv w -> is_deleting (src w) = false.
Proof. intros [H _ _ _]. by rewrite (snapshot_deleting _ _ _ H). Qed.

Lemma linked_found w o : copy w = Some o -> linked o -> found w = Some o.
Proof. intros H [Hl _]. unfold World.found. rewrite H. by rewrite decide_True. Qed.

Lemma decoded_kept w w' : sec w' = sec w -> decoded w' = decoded w.
Proof. unfold decoded, entries. by intros ->. Qed.

Lemma inv_kept w w' : kept w w' -> inv w -> inv w'.
Proof.
  intros [[Hs Hc] Hx] [H1 H2 H3 H4]. split; rewrite ?Hs, ?Hc, ?(decoded_kept _ _ Hx); try done.
  unfold secrets_named. by rewrite Hx.
Qed.

Lemma pass_inv w (Q : _ -> _ -> _ -> Prop) :
  inv w ->
  succeeds h (Sync (sy w) ctx (kcp w) (service w)) w
    (fun tr res w' => forall x, Q (Ev (S := kube) (lookup_request s ctx (src w)) x :: tr) (sy_requeue res) w') ->
  succeeds h (Process s ctx (src w)) w Q.
Proof. intros Hi. apply pass_live; [apply (inv_source _ Hi)|by apply inv_live]. Qed.

(** ** The object is claimed *)

Lemma Sync_unclaimed w (Q : _ -> _ -> _ -> Prop) :
  inv w -> ~ claimed w ->
  (forall tr res w', sy_requeue res = true -> inv w' -> claimed w' -> copy w' = copy w -> decoded w' = decoded w ->
     Q tr res w') ->
  succeeds h (Sync (sy w) ctx (kcp w) (service w)) w Q.
Proof.
  intros Hi Hc HQ. unfold Sync, kcp, kcpSide. cbn [sd_object deref].
  rewrite bindM_retM, (inv_live _ Hi). cbn [orb sy primarySyncer syn_forceDelete syn_blockSourceDeletion].
  apply succeeds_bind, succeeds_wrap. unfold ensureFinalizer, clientPatch. cbv zeta.
  rewrite decide_False by (unfold claimed in Hc; set_solver). apply succeeds_bind.
  destruct (srv_source_patch (ApiServers := HW) w (with_finalizer (src w)) eq_refl)
    as (o' & w1 & Hp & Hs & Hcopy & Hsec & Hm & Hct).
  exists [Ev (S := kube) (RPatch (rs_remoteClient s) (with_finalizer (src w)) (MergeFrom (src w))) (Ok o')], o', w1.
  split; [simpl; unfold with_finalizer in Hp; by rewrite Hp|].
  assert (inv w1 /\ claimed w1) as [Hi1 Hc1].
  { destruct Hi as [H1 H2 H3 H4]. split; [split|].
    - rewrite Hs, (same_meta_snapshot _ _ _ Hm) by (by rewrite Hct). done.
    - unfold secrets_named. by rewrite Hsec.
    - by rewrite Hcopy.
    - by rewrite (decoded_kept _ _ Hsec).
    - unfold claimed. rewrite Hs, (sm_finalizers _ _ Hm). unfold with_finalizer, GetFinalizers. simpl.
      apply sets_List_elem_of. set_solver. }
  apply succeeds_ret. apply succeeds_bind, event_succeeds. intros ob x w2 Hk.
  apply succeeds_ret, HQ; [done|by eapply inv_kept| |by destruct Hk as [[_ ->] _]|].
  - unfold claimed. by destruct Hk as [[-> _] _].
  - destruct Hk as [_ Hk]. by rewrite (decoded_kept _ _ Hk), (decoded_kept _ _ Hsec).
Qed.

(** A claimed object goes on to its copy. *)
Lemma Sync_claimed w (Q : _ -> _ -> _ -> Prop) :
  inv w -> claimed w ->
  succeeds h (syncLive (sy w) ctx (kcp w) (service w)) w Q ->
  succeeds h (Sync (sy w) ctx (kcp w) (service w)) w Q.
Proof.
  intros Hi Hc HS. unfold Sync, kcp, kcpSide. cbn [sd_object deref].
  rewrite bindM_retM, (inv_live _ Hi). cbn [orb sy primarySyncer syn_forceDelete syn_blockSourceDeletion].
  apply succeeds_bind, succeeds_wrap. unfold ensureFinalizer. cbv zeta.
  rewrite decide_True by (unfold claimed in Hc; set_solver). by apply succeeds_ret.
Qed.

(** ** The copy is made *)

Lemma namespace_succeeds w n (Q : _ -> _ -> _ -> Prop) :
  (forall tr w', kept w w' -> (forall r, r ∈ requests tr -> is_object_write r = false) -> Q tr tt w') ->
  succeeds h (ensureNamespace lc n) w Q.
Proof.
  intros HQ. unfold ensureNamespace, getNamespace, createNamespace.
  destruct (decide (n = "")); [apply succeeds_ret, HQ; [done|set_solver]|].
  destruct (srv_namespace (ApiServers := HW) w n) as [Hk Ha]. destruct (h (RGetNamespace lc n) w) as [x w1] eqn:E. simpl in Hk, Ha.
  apply succeeds_bind.
  assert (forall tr, (forall r, r ∈ requests tr -> is_object_write r = false) ->
    succeeds h (let* r := tryM (Call (S := kube) (RCreateNamespace lc n) Ret) in
                match r with
                | inl _ => retM tt
                | inr e => if IsAlreadyExists e then retM tt else failM (Wrapped "failed to create" e)
                end) w1 (fun tr2 b w2 => Q (tr ++ tr2) b w2)) as Hcreate.
  { intros tr Htr. destruct (srv_create_namespace (ApiServers := HW) w1 n) as [Hk' Ha'].
    destruct (h (RCreateNamespace lc n) w1) as [x' w2] eqn:E'. simpl in Hk', Ha'.
    assert (forall y, Q (tr ++ [Ev (S := kube) (RCreateNamespace lc n) y]) tt w2) as HQ2.
    { intros y. apply HQ; [by eapply kept_trans|].
      unfold requests. rewrite fmap_app. set_solver. }
    apply succeeds_bind. destruct x' as [[]|e|m]; [| |done].
    - apply succeeds_try. eexists _, tt, w2. split; [simpl; by rewrite E'|]. apply succeeds_ret.
      rewrite app_nil_r. apply HQ2.
    - eapply succeeds_try_err; [simpl; by rewrite E'|]. rewrite Ha'. apply succeeds_ret.
      rewrite app_nil_r. apply HQ2. }
  destruct x as [nsp|e|m]; [| |done].
  - apply succeeds_try. eexists _, nsp, w1. split; [simpl; by rewrite E|].
    rewrite bindM_retM. case_decide; [apply Hcreate; set_solver|].
    apply succeeds_ret. rewrite app_nil_r. apply HQ; [done|set_solver].
  - eapply succeeds_try_err; [simpl; by rewrite E|]. rewrite Ha, bindM_retM.
    rewrite decide_True by done. apply Hcreate. set_solver.
Qed.

Lemma creator_fields o d :
  newLocalObjectCreator s (cn ctx) (wp ctx) o = Ok d ->
  u_content d = u_content o /\ GetDeletionTimestamp d = GetDeletionTimestamp o.
Proof.
  unfold newLocalObjectCreator. intros (n & _ & H)%obind_ok_inv. injection H as <-.
  by repeat case_decide.
Qed.

(** The primary's syncer stamps nothing but the link and the agent's name. *)
Lemma sy_extra_free w : extra_metadata_free (sy w).
Proof. split; intros k _; apply lookup_empty. Qed.

Lemma sy_ensureDestMetadata w o : ensureDestMetadata (sy w) o = o.
Proof. apply ensureDestMetadata_settled; apply map_empty_subseteq. Qed.

Lemma inv_key w : inv w -> newObjectKey (src w) (cn ctx) (wp ctx) = key0.
Proof. intros Hi. apply (snapshot_key _ _ _ _ _ (inv_source _ Hi)). Qed.

Lemma linked_lookup o :
  (forall k v, objectKey_Labels key0 !! k = Some v -> lookup_map (GetLabels o) k = Some v) ->
  (forall k v, objectKey_Annotations key0 !! k = Some v -> lookup_map (GetAnnotations o) k = Some v) ->
  linked o.
Proof. intros. split; apply map_subseteq_spec; intros k v; rewrite default_empty_lookup; auto. Qed.

Lemma new_copy_linked w d : inv w -> linked (linkToSource (sy w) (kcp w) (src w) (stripped d)).
Proof.
  intros Hi. pose proof (inv_key _ Hi) as Hk. apply linked_lookup; intros k v Hv.
  - rewrite linkToSource_labels; [|done|apply sy_extra_free|by eapply objectKey_Labels_keys].
    change (sd_clusterName _) with (cn ctx). change (sd_workspacePath _) with (wp ctx). by rewrite Hk.
  - rewrite linkToSource_annotations; [|done|apply sy_extra_free|by eapply objectKey_Annotations_keys].
    change (sd_clusterName _) with (cn ctx). change (sd_workspacePath _) with (wp ctx). by rewrite Hk.
Qed.

Definition adopted (w : W) (o : Unstructured) : Unstructured :=
  ensureDestMetadata (sy w) (labelWithAgent (sy w)
    (ensureAnnotations (objectKey_Annotations key0) (ensureLabels (objectKey_Labels key0) o))).

Lemma adopted_fields w o :
  u_content (adopted w o) = u_content o /\ ObjectKeyFromObject (adopted w o) = ObjectKeyFromObject o /\
  GetDeletionTimestamp (adopted w o) = GetDeletionTimestamp o.
Proof. unfold adopted. rewrite sy_ensureDestMetadata. unfold labelWithAgent. by case_decide. Qed.

Lemma adopted_linked w o : linked (adopted w o).
Proof.
  unfold adopted. rewrite sy_ensureDestMetadata. apply linked_lookup; intros k v Hv.
  - rewrite labelWithAgent_labels, GetLabels_ensureAnnotations, ensureLabels_lookup, Hv; [done|].
    intros ->. apply objectKey_Labels_keys in Hv. unfold unsyncableLabels in Hv. set_solver.
  - by rewrite labelWithAgent_annotations, ensureAnnotations_lookup, Hv.
Qed.

Lemma admitted_linked sent o : admitted subs sent o -> linked sent -> linked o.
Proof. intros [_ Hl Ha _ _] [H1 H2]. split; by etrans. Qed.

(** What is written when the copy is made: a new copy, or, when an object is
    there already, its metadata. *)
Definition placing (c : option Unstructured) (tr : list (event kube)) : Prop :=
  forall r, r ∈ requests tr -> is_object_write r = true ->
    (exists d, r = RCreate lc d) \/ (exists o u, c = Some o /\ r = RUpdate lc u /\ u_content u = u_content o).

Lemma placing_app c tr1 tr2 : placing c tr1 -> placing c tr2 -> placing c (tr1 ++ tr2).
Proof. intros H1 H2 r. unfold requests. rewrite fmap_app, elem_of_app. intros [|]; auto. Qed.

Lemma placing_quiet c tr : (forall r, r ∈ requests tr -> is_object_write r = false) -> placing c tr.
Proof. intros H r Hr Hw. by rewrite (H r Hr) in Hw. Qed.

Lemma secret_quiet (tr : list (event kube)) :
  Forall (secret_request lc) (requests tr) -> forall r, r ∈ requests tr -> is_object_write r = false.
Proof. intros H r Hr. eapply Forall_forall in H; [|exact Hr]. by destruct r. Qed.

(** The copy that is placed, before the state is remembered. *)
Lemma place_object w w0 d (Q : _ -> _ -> _ -> Prop) :
  inv w -> kept w w0 -> newLocalObjectCreator s (cn ctx) (wp ctx) (src w) = Ok d -> ObjectKeyFromObject d = destName ->
  (forall tr o' w', src w' = src w -> copy w' = Some o' -> sec w' = sec w -> linked o' ->
     is_deleting o' = false -> ObjectKeyFromObject o' = destName ->
     has_content o' (default (src w) (copy w)) -> placing (copy w) tr -> Q tr o' w') ->
  let destObj := linkToSource (sy w) (kcp w) (src w) (stripped d) in
  succeeds h (let* r := tryM (clientCreate lc destObj) in
              match r with
              | inl created => retM created
              | inr err =>
                  if negb (IsAlreadyExists err) then failM (Wrapped "failed to create destination object" err)
                  else wrapM "failed to adopt destination object"
                         (adoptExistingDestinationObject (sy w) (serviceSide s None) destObj key0)
              end) w0 Q.
Proof.
  intros Hi [[Hs0 Hc0] Hx0] Hd Hdn HQ destObj. destruct (creator_fields _ _ Hd) as [Hdc Hdd].
  destruct (linkToSource_maps (sy w) (kcp w) (src w) (stripped d)) as (lb & an & Hmaps).
  assert (ObjectKeyFromObject destObj = destName /\ u_content destObj = u_content (src w) /\
          GetDeletionTimestamp destObj = GetDeletionTimestamp (src w)) as (Hk & Hc & Ht).
  { unfold destObj. rewrite Hmaps. split_and!; [exact Hdn|exact Hdc|exact Hdd]. }
  assert (GetDeletionTimestamp destObj = None) as Ht'.
  { rewrite Ht. pose proof (inv_live _ Hi) as Hl. unfold is_deleting in Hl.
    by destruct (GetDeletionTimestamp (src w)). }
  apply succeeds_bind. unfold clientCreate. rewrite <- Hc0, <- Hs0, <- Hx0 in *.
  destruct (copy w0) as [o|] eqn:Ec.
  - destruct (srv_create_exists (ApiServers := HW) w0 destObj o Hk Ec) as (e & Hcr & He).
    eapply succeeds_try_err; [simpl; by rewrite Hcr|]. rewrite He. simpl. apply succeeds_wrap.
    unfold adoptExistingDestinationObject. rewrite Ht'. apply succeeds_bind, succeeds_wrap.
    unfold clientGet, clientUpdate. eexists _, o, w0.
    split; [simpl; by rewrite (srv_get (ApiServers := HW) w0 destObj o Hk Ec)|].
    destruct (inv_copy _ Hi o (eq_sym Hc0)) as [Hdel Hon]. destruct (adopted_fields w o) as (Hac & Hak & Hat).
    destruct (srv_update (ApiServers := HW) w0 (adopted w o) o (eq_trans Hak Hon) Ec)
      as (o' & w' & Hu & Hs & Hc' & Hx & Had).
    apply succeeds_wrap. eexists _, o', w'. split.
    { change (ensureDestMetadata _ _) with (adopted w o). simpl. by rewrite Hu. }
    apply HQ; try done.
    + eapply admitted_linked, adopted_linked. done.
    + unfold is_deleting in *. by rewrite (ad_deletion _ _ _ Had), Hat.
    + by rewrite (ad_key _ _ _ Had), Hak.
    + simpl. intros k [Hk' _]. rewrite <- Hac. by apply (ad_content _ _ _ Had).
    + intros r Hr. simpl in Hr. set_unfold in Hr.
      destruct Hr as [->|[->|[->|[]]]]; simpl; try done; [left; eauto|right; eauto].
  - destruct (srv_create (ApiServers := HW) w0 destObj Hk Ec) as (o' & w' & Hcr & Hs & Hc' & Hx & Had).
    apply succeeds_try. eexists _, o', w'. split; [simpl; by rewrite Hcr|].
    apply succeeds_ret, HQ; try done.
    + eapply admitted_linked, new_copy_linked; done.
    + unfold is_deleting. by rewrite (ad_deletion _ _ _ Had), Ht'.
    + by rewrite (ad_key _ _ _ Had).
    + simpl. intros k [Hk' _]. rewrite <- Hc. by apply (ad_content _ _ _ Had).
    + intros r Hr. simpl in Hr. set_unfold in Hr. destruct Hr as [->|[]]. left; eauto.
Qed.

Lemma inv_remembers w : 
  snapshot (src w) subs = snapshot o0 subs -> secrets_named w -> decoded w = Ok (snapshot o0 subs) ->
  (forall o, copy w = Some o -> is_deleting o = false /\ ObjectKeyFromObject o = destName) -> inv w.
Proof. intros. split; eauto. Qed.

Lemma Sync_places w (Q : _ -> _ -> _ -> Prop) :
  inv w -> claimed w -> found w = None ->
  (forall tr res w' o', sy_requeue res = true -> inv w' -> claimed w' -> copy w' = Some o' -> linked o' ->
     decoded w' = Ok (snapshot o0 subs) -> has_content o' (default (src w) (copy w)) -> placing (copy w) tr ->
     Q tr res w') ->
  succeeds h (Sync (sy w) ctx (kcp w) (service w)) w Q.
Proof.
  intros Hi Hc Hf HQ. apply Sync_claimed; [done..|]. unfold syncLive, applyMutations.
  cbn [sy primarySyncer syn_mutator syn_useServerSideApply].
  rewrite (pl_mutator Hplain), (pl_ssa Hplain), wrapM_retM, bindM_retM. fold (sy w).
  unfold service, serviceSide. cbn [sd_object]. rewrite Hf. fold (serviceSide s None).
  apply succeeds_bind, succeeds_wrap. unfold ensureDestinationObject. cbn [kcp kcpSide sd_object deref].
  rewrite bindM_retM. destruct (Hname _ (inv_source _ Hi)) as (d & Hd & Hdn).
  change (syn_destCreator (sy w)) with (newLocalObjectCreator s (cn ctx) (wp ctx)).
  rewrite Hd. cbn [wrapErr]. rewrite bindM_liftO. apply succeeds_bind, succeeds_wrap, namespace_succeeds.
  intros tr0 w0 Hk0 Htr0. rewrite stripMetadata_eq. cbn [wrapErr]. rewrite bindM_liftO.
  cbv zeta. change (sd_clusterName (kcp w)) with (cn ctx). change (sd_workspacePath (kcp w)) with (wp ctx).
  rewrite (inv_key _ Hi). change (sd_client (serviceSide s None)) with lc.
  apply succeeds_assoc, succeeds_bind, (place_object w w0 d); [done..|].
  intros tr1 o1 w1 Hs1 Hc1 Hx1 Hl1 Hd1 Hn1 Hcov Hpl. apply succeeds_bind, event_succeeds.
  intros ob x w2 [[Hs2 Hc2] Hx2]. apply succeeds_wrap.
  assert (secrets_named w2) as Hsn.
  { intros y Hy. rewrite Hx2, Hx1 in Hy. by apply (inv_secret _ Hi). }
  eapply succeeds_mono; [apply (store_put w2 (found w) (src w)); [done|apply (inv_source _ Hi)]|].
  intros tr3 [] w3 ([Hs3 Hc3] & Hsn3 & Hdec & Htr3). apply succeeds_ret.
  assert (copy w3 = Some o1) as Hc3' by congruence. assert (src w3 = src w) as Hs3' by congruence.
  eapply HQ; try done.
  - apply inv_remembers; [by rewrite Hs3'; apply (inv_source _ Hi)|done..|].
    intros o Ho. rewrite Hc3' in Ho. by simplify_eq.
  - unfold claimed. by rewrite Hs3'.
  - rewrite app_nil_r. repeat apply placing_app; try done.
    + by apply placing_quiet.
    + apply placing_quiet. intros r Hr. simpl in Hr. by set_unfold in Hr; destruct Hr as [->|[]].
    + by apply placing_quiet, secret_quiet.
Qed.

(** ** The copy is updated *)

(** The two documents the patch is made of: what is remembered, and the
    object as it is now with the metadata its copy lacks. *)
Definition base (w : W) (last : Unstructured) : Unstructured :=
  SetKind (GetKind (src w)) (SetAPIVersion (GetAPIVersion (src w)) last).
Definition revision (w : W) (o : Unstructured) : Unstructured :=
  threeWayDiffMetadata (stripped (src w)) o (objectKey_Labels key0) (objectKey_Annotations key0).

Definition spec_patch (w : W) (last o : Unstructured) : outcome bytes :=
  createMergePatch (sy w) (base w last) (revision w o).

Lemma spec_patch_total w last o :
  exists p, spec_patch w last o = Ok p /\
    created (removeKeys subs (base w last)) (removeKeys subs (revision w o)) p.
Proof.
  destruct (created_total (removeKeys subs (base w last)) (removeKeys subs (revision w o)))
    as (p & ba & bb & Ha & Hb & Hp).
  exists p. split; [|by exists ba, bb]. unfold spec_patch, createMergePatch, removeSubresources.
  change (syn_subresources (sy w)) with subs. rewrite Ha, Hb. simpl. exact Hp.
Qed.

(** What one pass makes of the copy [o]. *)
Definition spec_written (w : W) (o o' : Unstructured) : Prop :=
  match remembered w with
  | None => admitted subs (fullUpdate (sy w) (src w) (stripped (src w)) o) o'
  | Some last => exists p, spec_patch w last o = Ok p /\ patched subs (decode_patch p) o o'
  end.

Definition spec_settled (w : W) (o : Unstructured) : Prop :=
  exists last, remembered w = Some last /\ spec_patch w last o = Ok braces.

Lemma fullUpdate_fields w o :
  ObjectKeyFromObject (fullUpdate (sy w) (src w) (stripped (src w)) o) = ObjectKeyFromObject o /\
  GetDeletionTimestamp (fullUpdate (sy w) (src w) (stripped (src w)) o) = GetDeletionTimestamp o.
Proof. done. Qed.

(** The state of the object is stored and an event is sent. *)
Lemma remember_succeeds w w1 o1 obj source dest (Q : _ -> _ -> _ -> Prop) :
  inv w -> src w1 = src w -> copy w1 = Some o1 -> sec w1 = sec w ->
  is_deleting o1 = false -> ObjectKeyFromObject o1 = destName -> snapshot obj subs = snapshot o0 subs ->
  (forall tr w', inv w' -> src w' = src w -> copy w' = Some o1 -> decoded w' = Ok (snapshot o0 subs) -> Q tr tt w') ->
  succeeds h (let* _ := recordEvent (sy w) ctx source dest EventTypeNormal "ObjectSynced"
                "The current desired state of the object has been synchronized." in
              wrapM "failed to update sync state" (Store_Put (store (found w)) obj (cn ctx) subs)) w1 Q.
Proof.
  intros Hi Hs1 Hc1 Hx1 Hd1 Hn1 Hsnap HQ. apply succeeds_bind, event_succeeds.
  intros ob x w2 [[Hs2 Hc2] Hx2]. apply succeeds_wrap. eapply succeeds_mono.
  { apply (store_put w2 (found w) obj); [|done]. intros y Hy. rewrite Hx2, Hx1 in Hy. by apply (inv_secret _ Hi). }
  intros tr [] w3 ([Hs3 Hc3] & Hsn3 & Hdec & _). apply HQ; [|congruence..].
  apply inv_remembers; [|done..|].
  - rewrite Hs3, Hs2, Hs1. apply (inv_source _ Hi).
  - intros o Ho. assert (o = o1) as -> by congruence. done.
Qed.

Lemma revision_snapshot w o : snapshot (revision w o) subs = snapshot (src w) subs.
Proof.
  unfold snapshot, revision, threeWayDiffMetadata. f_equal.
  etransitivity; [|apply stripped_idemp].
  apply stripped_with_maps; [apply strip_labels_diff_map|apply strip_annotations_diff_map]; eauto with syncagent.
Qed.

Lemma syncObjectSpec_writes w o (Q : _ -> _ -> _ -> Prop) :
  inv w -> found w = Some o -> ~ spec_settled w o ->
  (forall tr dest' w' o', inv w' -> src w' = src w -> copy w' = Some o' -> decoded w' = Ok (snapshot o0 subs) ->
     spec_written w o o' -> sd_object dest' = Some o' -> Q tr (true, dest') w') ->
  succeeds h (syncObjectSpec (sy w) ctx (kcp w) (service w)) w Q.
Proof.
  intros Hi Hf Hns HQ. destruct (found_copy _ _ Hf) as [Hc Hlab]. destruct (inv_copy _ Hi o Hc) as [Hdel Hon].
  unfold syncObjectSpec. apply succeeds_bind, succeeds_wrap. eapply succeeds_mono.
  { apply (store_get w (found w)); [apply (inv_source _ Hi)|by apply inv_decodes]. }
  intros tr0 last w' (-> & -> & _). cbn [kcp kcpSide service serviceSide sd_object deref]. rewrite Hf.
  cbn [deref]. rewrite bindM_retM, stripMetadata_eq. cbn [wrapErr]. rewrite bindM_liftO, bindM_retM.
  change (syn_metadataOnDestination (sy w)) with true. cbv iota.
  change (sd_clusterName _) with (cn ctx). change (sd_workspacePath _) with (wp ctx). rewrite (inv_key _ Hi).
  assert (forall w1 o1 obj dest, src w1 = src w -> copy w1 = Some o1 -> sec w1 = sec w ->
    is_deleting o1 = false -> ObjectKeyFromObject o1 = destName -> spec_written w o o1 ->
    snapshot obj subs = snapshot o0 subs -> sd_object dest = Some o1 ->
    succeeds h (let* _ := recordEvent (sy w) ctx (kcp w) dest EventTypeNormal "ObjectSynced"
                  "The current desired state of the object has been synchronized." in
                let* _ := wrapM "failed to update sync state" (Store_Put (store (found w)) obj (cn ctx) subs) in
                retM (true, dest)) w1 (fun _ b w2 => forall tr, Q tr b w2)) as Hend.
  { intros w1 o1 obj dest Hs1 Hc1 Hx1 Hd1 Hn1 Hw Hsn Hdo. apply succeeds_assoc, succeeds_bind.
    apply (remember_succeeds w w1 o1); try done. intros tr' w2 Hi2 Hs2 Hc2 Hdec. apply succeeds_ret.
    intros tr. by eapply HQ. }
  unfold spec_written, spec_settled in *. destruct (remembered w) as [last|] eqn:Er.
  - destruct (spec_patch_total w last o) as (p & Hp & _).
    fold (revision w o). change (SetKind _ _) with (base w last). fold (spec_patch w last o). rewrite Hp.
    cbn [wrapErr]. apply succeeds_bind. rewrite bindM_liftO. rewrite decide_True by (intros ->; eauto).
    destruct (srv_patch (ApiServers := HW) w o p Hc) as (o1 & w1 & Hpa & Hs1 & Hc1 & Hx1 & Hpd).
    apply succeeds_bind, succeeds_wrap. unfold clientPatch. eexists _, o1, w1.
    split; [simpl; by rewrite Hpa|]. apply succeeds_ret.
    eapply succeeds_mono; [apply (Hend w1 o1 (revision w o) (with_object (Some o1) (service w))); try done|].
    + unfold is_deleting in *. by rewrite (pa_deletion _ _ _ _ Hpd).
    + by rewrite (pa_key _ _ _ _ Hpd).
    + eauto.
    + rewrite revision_snapshot. apply (inv_source _ Hi).
    + intros tr b w2 Hq. apply Hq.
  - apply succeeds_bind, succeeds_bind, succeeds_wrap. unfold clientUpdate.
    destruct (fullUpdate_fields w o) as [Hfk Hft].
    destruct (srv_update (ApiServers := HW) w _ o (eq_trans Hfk Hon) Hc) as (o1 & w1 & Hu & Hs1 & Hc1 & Hx1 & Had).
    eexists _, o1, w1. split; [simpl; by rewrite Hu|]. apply succeeds_ret.
    eapply succeeds_mono; [apply (Hend w1 o1 (stripped (src w)) (with_object (Some o1) (service w))); try done|].
    + unfold is_deleting in *. by rewrite (ad_deletion _ _ _ Had), Hft.
    + by rewrite (ad_key _ _ _ Had).
    + unfold snapshot. rewrite stripped_idemp. apply (inv_source _ Hi).
    + intros tr b w2 Hq. apply Hq.
Qed.

Lemma syncObjectSpec_rests w o (Q : _ -> _ -> _ -> Prop) :
  inv w -> found w = Some o -> spec_settled w o ->
  (forall tr : list (event kube), Forall reads (requests tr) -> Q tr (false, service w) w) ->
  succeeds h (syncObjectSpec (sy w) ctx (kcp w) (service w)) w Q.
Proof.
  intros Hi Hf (last & Er & Hp) HQ.
  unfold syncObjectSpec. apply succeeds_bind, succeeds_wrap. eapply succeeds_mono.
  { apply (store_get w (found w)); [apply (inv_source _ Hi)|by apply inv_decodes]. }
  intros tr0 last' w' (-> & -> & Htr). cbn [kcp kcpSide service serviceSide sd_object deref]. rewrite Hf.
  cbn [deref]. rewrite bindM_retM, stripMetadata_eq. cbn [wrapErr]. rewrite bindM_liftO, bindM_retM.
  change (syn_metadataOnDestination (sy w)) with true. cbv iota.
  change (sd_clusterName _) with (cn ctx). change (sd_workspacePath _) with (wp ctx). rewrite (inv_key _ Hi), Er.
  fold (revision w o). change (SetKind _ _) with (base w last). fold (spec_patch w last o). rewrite Hp.
  cbn [wrapErr]. rewrite bindM_liftO, decide_False by (intros []; done). rewrite bindM_retM.
  apply succeeds_ret. rewrite app_nil_r. by apply HQ.
Qed.

Lemma Sync_found w o (Q : _ -> _ -> _ -> Prop) :
  inv w -> claimed w -> found w = Some o ->
  succeeds h (syncObjectContents (sy w) ctx (kcp w) (service w)) w
    (fun tr r w' => forall res, sy_requeue res = r.1.1 -> Q tr res w') ->
  succeeds h (Sync (sy w) ctx (kcp w) (service w)) w Q.
Proof.
  intros Hi Hc Hf HS. apply Sync_claimed; [done..|]. unfold syncLive, applyMutations.
  cbn [sy primarySyncer syn_mutator syn_useServerSideApply].
  rewrite (pl_mutator Hplain), (pl_ssa Hplain), wrapM_retM, bindM_retM. fold (sy w).
  cbn [service serviceSide sd_object]. rewrite Hf.
  destruct (inv_copy _ Hi o) as [Hd _]; [by apply found_copy|]. rewrite Hd.
  unfold ensureDestMetadataPersisted. rewrite decide_True by done. rewrite wrapM_retM, bindM_retM.
  apply succeeds_bind, succeeds_wrap. eapply succeeds_mono; [exact HS|].
  intros tr [[b x] y] w' HQ. apply succeeds_ret. rewrite app_nil_r. by apply HQ.
Qed.

Lemma Sync_writes w o (Q : _ -> _ -> _ -> Prop) :
  inv w -> claimed w -> found w = Some o -> ~ spec_settled w o ->
  (forall tr res w' o', sy_requeue res = true -> inv w' -> claimed w' -> copy w' = Some o' ->
     decoded w' = Ok (snapshot o0 subs) -> spec_written w o o' -> Q tr res w') ->
  succeeds h (Sync (sy w) ctx (kcp w) (service w)) w Q.
Proof.
  intros Hi Hc Hf Hns HQ. eapply Sync_found; [done..|]. unfold syncObjectContents.
  apply succeeds_bind. eapply syncObjectSpec_writes; [done..|].
  intros tr dest' w' o' Hi' Hs' Hc' Hd' Hw Ho. unfold syncObjectStatusForward.
  change (syn_syncStatusForward (sy w)) with false. cbv iota. rewrite bindM_retM.
  apply succeeds_ret. intros res Hres. eapply HQ; try done. unfold claimed. by rewrite Hs'.
Qed.

(** The statuses agree, as far as the comparison of the source goes. *)
Definition status_settled (w : W) (o : Unstructured) : bool := SemanticDeepEqual (statusOf (src w)) (statusOf o).

Lemma Sync_status w o (Q : _ -> _ -> _ -> Prop) :
  inv w -> claimed w -> found w = Some o -> spec_settled w o -> status_settled w o = false ->
  (forall tr res w', sy_requeue res = false -> inv w' -> claimed w' -> copy w' = copy w -> sec w' = sec w ->
     statusOf (src w') = statusOf o -> same_meta (src w) (src w') -> Q tr res w') ->
  succeeds h (Sync (sy w) ctx (kcp w) (service w)) w Q.
Proof.
  intros Hi Hc Hf Hset Hst HQ. eapply Sync_found; [done..|]. unfold syncObjectContents.
  apply succeeds_bind. eapply syncObjectSpec_rests; [done..|]. intros tr _.
  unfold syncObjectStatusForward. change (syn_syncStatusForward (sy w)) with false. cbv iota. rewrite bindM_retM.
  apply succeeds_bind. unfold syncObjectStatus. change (negb (syn_syncStatusBack (sy w))) with false. cbv iota.
  cbn [kcp kcpSide service serviceSide sd_object deref]. rewrite Hf. cbn [deref]. rewrite !bindM_retM.
  fold (status_settled w o). rewrite Hst. cbn [negb].
  destruct (srv_source_status (ApiServers := HW) w (statusOf o)) as (o' & w1 & Hu & Hs & Hcopy & Hx & Hm & Hso & Hct).
  apply succeeds_bind, succeeds_wrap. unfold clientStatusUpdate. eexists _, o', w1.
  split; [simpl; by rewrite Hu|]. cbv zeta. apply succeeds_bind, event_succeeds. intros ob x w2 Hk.
  apply succeeds_ret. apply succeeds_ret. intros res Hres. pose proof Hk as [[Hs2 Hc2] Hx2].
  assert (inv w1) as Hi1.
  { destruct Hi as [H1 H2 H3 H4]. split.
    - rewrite Hs, (same_meta_snapshot _ _ _ Hm); [done|]. intros k Hk'. apply Hct. intros ->.
      by apply Hk', (pl_status Hplain).
    - unfold secrets_named. by rewrite Hx.
    - by rewrite Hcopy.
    - by rewrite (decoded_kept _ _ Hx). }
  apply HQ; [done|by eapply inv_kept| |congruence..|].
  - unfold claimed. rewrite Hs2, Hs, (sm_finalizers _ _ Hm). exact Hc.
  - rewrite Hs2, Hs. exact Hm.
Qed.

Lemma Sync_rests w o (Q : _ -> _ -> _ -> Prop) :
  inv w -> claimed w -> found w = Some o -> spec_settled w o -> status_settled w o = true ->
  (forall (tr : list (event kube)) res, sy_requeue res = false -> Forall reads (requests tr) -> Q tr res w) ->
  succeeds h (Sync (sy w) ctx (kcp w) (service w)) w Q.
Proof.
  intros Hi Hc Hf Hset Hst HQ. eapply Sync_found; [done..|]. unfold syncObjectContents.
  apply succeeds_bind. eapply syncObjectSpec_rests; [done..|]. intros tr Htr.
  unfold syncObjectStatusForward. change (syn_syncStatusForward (sy w)) with false. cbv iota. rewrite bindM_retM.
  apply succeeds_bind. unfold syncObjectStatus. change (negb (syn_syncStatusBack (sy w))) with false. cbv iota.
  cbn [kcp kcpSide service serviceSide sd_object deref]. rewrite Hf. cbn [deref]. rewrite !bindM_retM.
  fold (status_settled w o). rewrite Hst. cbn [negb]. apply succeeds_ret, succeeds_ret.
  rewrite !app_nil_r. intros res Hres. by apply HQ.
Qed.

(** ** The documents *)

Section Documents.
Context (w : W) (o last : Unstructured).
Hypothesis Hi : inv w.

Abbreviation docBase := (removeKeys subs (base w last)).
Abbreviation docRevision := (removeKeys subs (revision w o)).

Lemma revision_content k : synced_field k -> u_content docRevision !! k = u_content o0 !! k.
Proof.
  intros [Hk _]. rewrite removeKeys_content, decide_False by done.
  pose proof (inv_source _ Hi) as Hs%snapshot_same. by apply (ss_content _ _ _ Hs).
Qed.

Lemma base_content k : synced_field k -> u_content docBase !! k = u_content last !! k.
Proof. intros [Hk _]. by rewrite removeKeys_content, decide_False by done. Qed.

Lemma revision_null_free : null_free (doc docRevision) = true.
Proof.
  apply null_free_doc. intros k v Hk Hv. rewrite removeKeys_content in Hv. case_decide as Hsub; [done|].
  apply (proj1 (null_free_doc (snapshot o0 subs)) Hnull k); [done|].
  unfold snapshot. rewrite removeKeys_content, decide_False by done. simpl in *.
  pose proof (inv_source _ Hi) as Hs%snapshot_same. rewrite <- Hv. symmetry. by apply (ss_content _ _ _ Hs).
Qed.

Lemma revision_labels :
  GetLabels docRevision = diff_map (strip_labels_map (GetLabels (src w))) (GetLabels o) (objectKey_Labels key0).
Proof. done. Qed.
Lemma revision_annotations :
  GetAnnotations docRevision =
    diff_map (strip_annotations_map (GetAnnotations (src w))) (GetAnnotations o) (objectKey_Annotations key0).
Proof. done. Qed.

(** The patch carries the content over. *)
Lemma patched_content p o' :
  created docBase docRevision p -> patched subs (decode_patch p) o o' -> has_content o last -> has_content o' o0.
Proof.
  intros Hp Hpd Hc k Hk. pose proof Hk as (Hsub & Hmd & _).
  rewrite <- (revision_content k Hk), <- (doc_content docRevision k Hmd).
  eapply covers_opt_trans; [by apply (pa_content _ _ _ _ Hpd)|].
  rewrite <- (created_exact _ _ _ Hp revision_null_free).
  pose proof (created_metadata _ _ _ Hp revision_null_free "labels") as [Hobj _]%objects_along_cons.
  apply apply_patch_member_covers; [done|].
  rewrite !doc_content by done. rewrite (base_content k Hk). by apply Hc.
Qed.

Lemma settled_same_doc : spec_patch w last o = Ok braces -> doc docBase = doc docRevision.
Proof.
  intros Hb. destruct (spec_patch_total w last o) as (p & Hp & Hcr). rewrite Hb in Hp. injection Hp as <-.
  rewrite <- (created_exact _ _ _ Hcr revision_null_free), patch_braces. symmetry. apply apply_patch_empty.
Qed.

Lemma settled_content : spec_patch w last o = Ok braces -> has_content o last -> has_content o o0.
Proof.
  intros Hb%settled_same_doc Hc k Hk. pose proof Hk as (_ & Hmd & _).
  rewrite <- (revision_content k Hk), <- (doc_content docRevision k Hmd), <- Hb, (doc_content docBase k Hmd).
  rewrite (base_content k Hk). by apply Hc.
Qed.

End Documents.

(** A remembered state has none of the metadata of a link. *)
Lemma base_no_label w old k v :
  objectKey_Labels key0 !! k = Some v ->
  at_path (labels_path ++ [k]) (doc (removeKeys subs (base w (snapshot old subs)))) = None.
Proof.
  intros Hk. rewrite doc_label. change (GetLabels _) with (GetLabels (snapshot old subs)).
  rewrite snapshot_label. by rewrite (objectKey_Labels_unsyncable _ _ _ Hk).
Qed.
Lemma base_no_annotation w old k v :
  objectKey_Annotations key0 !! k = Some v ->
  at_path (annotations_path ++ [k]) (doc (removeKeys subs (base w (snapshot old subs)))) = None.
Proof.
  intros Hk. rewrite doc_annotation. change (GetAnnotations _) with (GetAnnotations (snapshot old subs)).
  rewrite snapshot_annotation. by rewrite (objectKey_Annotations_unsyncable _ _ _ Hk).
Qed.

(** Nothing to patch: the copy is linked. *)
Lemma settled_linked w o : inv w -> found w = Some o -> spec_settled w o -> linked o.
Proof.
  intros Hi [_ Hl]%found_copy (last & Hr & Hp). split; [done|].
  assert (exists old, last = snapshot old subs) as [old ->].
  { unfold remembered in Hr. destruct (inv_remembered _ Hi) as [[e He]|[old Ho]];
      [rewrite He in Hr|rewrite Ho in Hr]; naive_solver. }
  pose proof (settled_same_doc w o _ Hi Hp) as Hdoc.
  apply map_subseteq_spec. intros k v Hk. rewrite default_empty_lookup.
  pose proof (base_no_annotation w old k v Hk) as Hn. rewrite Hdoc, doc_annotation, revision_annotations in Hn.
  rewrite diff_map_lookup, Hk in Hn. by case_decide.
Qed.

(** A map of the revision is an object, or neither document has one. *)
Lemma map_or_absent (f : string) (a b : value) (ma mb : option (gmap string string)) :
  at_path ["metadata"; f] a = string_map <$> ma -> at_path ["metadata"; f] b = string_map <$> mb ->
  (mb = None -> ma = None) ->
  (exists m, at_path ["metadata"; f] b = Some (VObj m)) \/
  at_path ["metadata"; f] a = None /\ at_path ["metadata"; f] b = None.
Proof.
  intros Ha Hb Hm. rewrite Ha, Hb. destruct mb as [mb|]; [left; eexists; reflexivity|].
  right. by rewrite Hm.
Qed.

(** When the state is remembered, the next patch completes the link. *)
Lemma patched_linked w o o' p :
  inv w -> found w = Some o -> remembered w = Some (snapshot o0 subs) ->
  created (removeKeys subs (base w (snapshot o0 subs))) (removeKeys subs (revision w o)) p ->
  patched subs (decode_patch p) o o' -> linked o'.
Proof.
  intros Hi [_ Hl]%found_copy Hr Hp Hpd. pose proof (inv_source _ Hi) as Hs%snapshot_same.
  pose proof (revision_null_free w o Hi) as Hnf.
  apply linked_lookup; intros k v Hk.
  - apply (pa_label _ _ _ _ Hpd). unfold labels_path at 1.
    assert (lookup_map (GetLabels o) k = Some v) as Hok.
    { rewrite <- default_empty_lookup. by eapply lookup_weaken. }
    rewrite (created_keeps _ _ _ Hp Hnf "labels" k).
    + simpl. change (at_path (labels_path ++ [k]) (doc o) = Some (VStr v)). by rewrite doc_label, Hok.
    + eapply map_or_absent; [apply doc_labels|apply doc_labels|]. rewrite revision_labels, diff_map_noop by done.
      intros Hn. rewrite <- Hn. symmetry. apply (ss_labels _ _ _ Hs).
    + by eapply base_no_label.
    + etransitivity; [apply doc_label|]. rewrite revision_labels, diff_map_noop, strip_labels_map_lookup by done.
      by rewrite (objectKey_Labels_unsyncable _ _ _ Hk).
  - apply (pa_annotation _ _ _ _ Hpd). unfold annotations_path at 1.
    assert (at_path (annotations_path ++ [k]) (doc (removeKeys subs (revision w o))) =
      VStr <$> (if decide (lookup_map (GetAnnotations o) k = Some v) then None else Some v)) as Hrev.
    { rewrite doc_annotation, revision_annotations, diff_map_lookup, Hk, strip_annotations_map_lookup.
      by rewrite (objectKey_Annotations_unsyncable _ _ _ Hk). }
    pose proof (base_no_annotation w o0 k v Hk) as Hbase.
    case_decide as Hok; [|by apply (created_adds _ _ _ Hp Hnf)].
    rewrite (created_keeps _ _ _ Hp Hnf "annotations" k); [|..|done|done].
    + simpl. change (at_path (annotations_path ++ [k]) (doc o) = Some (VStr v)). by rewrite doc_annotation, Hok.
    + eapply map_or_absent; [apply doc_annotations|apply doc_annotations|]. rewrite revision_annotations.
      unfold diff_map. case_decide; [|done]. intros Hn. rewrite <- Hn. symmetry. apply (ss_annotations _ _ _ Hs).
Qed.

(** A linked copy whose object is remembered has nothing to patch. *)
Lemma known_linked_settled w o :
  inv w -> copy w = Some o -> linked o -> decoded w = Ok (snapshot o0 subs) -> spec_settled w o.
Proof.
  intros Hi Hc [Hl Ha] Hd. exists (snapshot o0 subs). split; [unfold remembered; by rewrite Hd|].
  unfold spec_patch. rewrite <- (inv_source _ Hi). change (base w _) with (snapshot (src w) subs).
  unfold revision. rewrite threeWayDiffMetadata_settled by done.
  destruct (marshal_total (snapshot (src w) subs)) as [b Hb]. by apply (createMergePatch_settled (sy w) (src w) b).
Qed.

(** ** The phase of a state *)

Definition spec_settledb (w : W) (o : Unstructured) : bool :=
  match remembered w with
  | Some last => match spec_patch w last o with Ok p => bool_decide (p = braces) | _ => false end
  | None => false
  end.

Lemma spec_settledb_spec w o : spec_settledb w o = true <-> spec_settled w o.
Proof.
  unfold spec_settledb, spec_settled. split.
  - destruct (remembered w) as [last|]; [|done]. intros H. exists last. split; [done|].
    destruct (spec_patch w last o) as [p|?|?]; try done. apply bool_decide_eq_true in H. by subst.
  - intros (last & -> & ->). by apply bool_decide_eq_true.
Qed.

Definition known (w : W) : bool := bool_decide (remembered w = Some (snapshot o0 subs)).

Definition phase_of (w : W) : phase :=
  if decide (claimed w) then
    match found w with
    | Some o =>
        if spec_settledb w o then if status_settled w o then InSync else StatusPending
        else Outdated (known w)
    | None => Unplaced
    end
  else Unclaimed.

Lemma phase_claimed w : claimed w -> phase_of w <> Unclaimed.
Proof. intros Hc. unfold phase_of. rewrite decide_True by done. by repeat case_match. Qed.

Lemma phase_known w : decoded w = Ok (snapshot o0 subs) -> phase_of w <> Outdated false.
Proof.
  intros Hd. unfold phase_of.
  assert (known w = true) as -> by (apply bool_decide_eq_true; unfold remembered; by rewrite Hd).
  by repeat case_match.
Qed.

Lemma phase_settled w o :
  claimed w -> found w = Some o -> spec_settled w o ->
  phase_of w = if status_settled w o then InSync else StatusPending.
Proof. intros Hc Hf Hs%spec_settledb_spec. unfold phase_of. by rewrite decide_True, Hf, Hs by done. Qed.

Lemma phase_linked w o :
  inv w -> claimed w -> copy w = Some o -> linked o -> decoded w = Ok (snapshot o0 subs) ->
  phase_of w = StatusPending \/ phase_of w = InSync.
Proof.
  intros Hi Hc Ho Hl Hd.
  rewrite (phase_settled w o); [|done|by eapply linked_found|by apply known_linked_settled].
  destruct (status_settled w o); auto.
Qed.

(** The copy holds what was last synchronised to it, or will be overwritten;
    a copy that cannot be found by its labels is already up to date. *)
Definition consistent (w : W) : Prop :=
  forall o, copy w = Some o ->
    match found w, remembered w with
    | Some _, Some last => has_content o last
    | Some _, None => True
    | None, _ => has_content o o0
    end.

Lemma consistent_known w o :
  copy w = Some o -> decoded w = Ok (snapshot o0 subs) -> has_content o o0 -> consistent w.
Proof.
  intros Hc Hd Ho o' Hc'. assert (o' = o) as -> by congruence. unfold remembered. rewrite Hd.
  destruct (found w); [|done]. intros k Hk. unfold snapshot. destruct Hk as [Hsub Hk].
  rewrite removeKeys_content, decide_False by done. by apply Ho.
Qed.

Lemma has_content_source w o : inv w -> has_content o (src w) <-> has_content o o0.
Proof.
  intros Hi. pose proof (inv_source _ Hi) as Hs%snapshot_same.
  split; intros H k Hk; specialize (H k Hk); revert H; rewrite (ss_content _ _ _ Hs k); try done; apply Hk.
Qed.

Lemma written_content w o o' :
  inv w -> copy w = Some o -> found w = Some o -> consistent w -> spec_written w o o' -> has_content o' o0.
Proof.
  intros Hi Hc Hf Hcon Hw. specialize (Hcon o Hc). rewrite Hf in Hcon. unfold spec_written in Hw.
  destruct (remembered w) as [last|].
  - destruct Hw as (p & Hp & Hpd). destruct (spec_patch_total w last o) as (p' & Hp' & Hcr).
    rewrite Hp in Hp'. injection Hp' as <-. by eapply patched_content.
  - apply (has_content_source w); [done|]. intros k Hk. destruct Hk as (Hsub & Hmd & Hki & Hav).
    eapply covers_opt_trans; [by apply (ad_content _ _ _ Hw)|].
    assert (u_content (fullUpdate (sy w) (src w) (stripped (src w)) o) !! k =
            copiedContent (sy w) (src w) !! k ∪ u_content o !! k) as ->.
    { simpl. apply lookup_union. }
    assert (copiedContent (sy w) (src w) !! k = u_content (src w) !! k) as ->.
    { unfold copiedContent. rewrite map_lookup_filter. destruct (u_content (src w) !! k); simpl; [|done].
      rewrite option_guard_True; [done|]. unfold isIrrelevantTopLevelField.
      change (syn_subresources (sy w)) with subs. apply bool_decide_eq_false. naive_solver. }
    intros v ->. exists v. split; [|constructor]. by destruct (u_content o !! k).
Qed.

(** ** Every pass makes progress *)

Definition progress (w : W) (b : bool) (w' : W) : Prop :=
  inv w' /\ lifecycle (phase_of w) b (phase_of w') /\ (consistent w -> consistent w').

Lemma progress_claim w (Q : _ -> _ -> _ -> Prop) :
  inv w -> ~ claimed w -> (forall tr b w', progress w b w' -> Q tr b w') ->
  succeeds h (Process s ctx (src w)) w Q.
Proof.
  intros Hi Hc HQ. apply pass_inv; [done|].
  apply Sync_unclaimed; [done..|]. intros tr res w' Hr Hi' Hc' Hco Hd x. apply HQ. split_and!; [done|..].
  - unfold phase_of at 1. rewrite decide_False by done. rewrite Hr. by apply lc_claim, phase_claimed.
  - intros Hcon o. rewrite Hco, (found_kept _ _ Hco). unfold remembered. rewrite Hd. apply Hcon.
Qed.

Lemma progress_place w (Q : _ -> _ -> _ -> Prop) :
  inv w -> claimed w -> found w = None -> (forall tr b w', progress w b w' -> Q tr b w') ->
  succeeds h (Process s ctx (src w)) w Q.
Proof.
  intros Hi Hc Hf HQ. apply pass_inv; [done|].
  apply Sync_places; [done..|]. intros tr res w' o' Hr Hi' Hc' Ho' Hl Hd Hcont _ x. apply HQ. split_and!; [done|..].
  - unfold phase_of at 1. rewrite decide_True, Hf, Hr by done. by eapply lc_place, phase_linked.
  - intros Hcon. apply (consistent_known w' o'); [done..|].
    destruct (copy w) as [o|] eqn:Eo; simpl in Hcont; [|by apply (has_content_source w)].
    specialize (Hcon o Eo). rewrite Hf in Hcon. intros k Hk. eapply covers_opt_trans; eauto.
Qed.

Lemma progress_write w o (Q : _ -> _ -> _ -> Prop) :
  inv w -> claimed w -> found w = Some o -> ~ spec_settled w o ->
  (forall tr b w', progress w b w' -> Q tr b w') -> succeeds h (Process s ctx (src w)) w Q.
Proof.
  intros Hi Hc Hf Hns HQ. apply pass_inv; [done|].
  eapply Sync_writes; [done..|]. intros tr res w' o' Hr Hi' Hc' Ho' Hd Hw x. apply HQ. split_and!; [done|..].
  - assert (phase_of w = Outdated (known w)) as ->.
    { unfold phase_of. rewrite decide_True, Hf by done.
      destruct (spec_settledb w o) eqn:E; [|done]. by apply spec_settledb_spec in E. }
    rewrite Hr. destruct (known w) eqn:Ek; [|by apply lc_update; [apply phase_claimed|apply phase_known]].
    apply bool_decide_eq_true in Ek. unfold spec_written in Hw. rewrite Ek in Hw. destruct Hw as (p & Hp & Hpd).
    destruct (spec_patch_total w (snapshot o0 subs) o) as (p' & Hp' & Hcr). rewrite Hp in Hp'. injection Hp' as <-.
    apply lc_link, (phase_linked w' o'); try done. by apply (patched_linked w o o' p).
  - intros Hcon. apply (consistent_known w' o'); [done..|].
    apply (written_content w o o'); try done. by apply found_copy.
Qed.

Lemma spec_settled_kept w w' o :
  same_meta (src w) (src w') -> inv w -> inv w' -> decoded w' = decoded w ->
  spec_settled w o -> spec_settled w' o.
Proof.
  intros Hm Hi Hi' Hd (last & Hr & Hp). exists last. unfold remembered in *. rewrite Hd. split; [done|].
  rewrite <- Hp. unfold spec_patch, createMergePatch, removeSubresources.
  change (syn_subresources (sy w')) with subs. change (syn_subresources (sy w)) with subs.
  assert (base w' last = base w last) as ->.
  { unfold base. by rewrite (sm_kind _ _ Hm), (sm_apiVersion _ _ Hm). }
  assert (removeKeys subs (revision w' o) = removeKeys subs (revision w o)) as ->; [|done].
  assert (snapshot (src w') subs = snapshot (src w) subs) as Hs by (by rewrite (inv_source _ Hi'), (inv_source _ Hi)).
  unfold revision, threeWayDiffMetadata. change (GetLabels (stripped ?x)) with (GetLabels (snapshot x subs)).
  change (GetAnnotations (SetLabels _ (stripped ?x))) with (GetAnnotations (snapshot x subs)). rewrite Hs.
  change (removeKeys subs (SetAnnotations ?a (SetLabels ?l (stripped ?x))))
    with (SetAnnotations a (SetLabels l (snapshot x subs))). by rewrite Hs.
Qed.

Lemma progress_status w o (Q : _ -> _ -> _ -> Prop) :
  inv w -> claimed w -> found w = Some o -> spec_settled w o -> status_settled w o = false ->
  (forall tr b w', progress w b w' -> Q tr b w') -> succeeds h (Process s ctx (src w)) w Q.
Proof.
  intros Hi Hc Hf Hs Hst HQ. apply pass_inv; [done|].
  eapply Sync_status; [done..|]. intros tr res w' Hr Hi' Hc' Hco Hx Hso Hm y. apply HQ.
  split_and!; [done|..].
  - rewrite (phase_settled w o), Hst, Hr by done.
    rewrite (phase_settled w' o); [|done|by rewrite (found_kept _ _ Hco)|
      by apply (spec_settled_kept w); [..|apply decoded_kept|]].
    unfold status_settled. rewrite Hso, semantic_refl. constructor.
  - intros Hcon o'. rewrite Hco, (found_kept _ _ Hco). unfold remembered. rewrite (decoded_kept _ _ Hx). apply Hcon.
Qed.

Lemma progress_rest w o (Q : _ -> _ -> _ -> Prop) :
  inv w -> claimed w -> found w = Some o -> spec_settled w o -> status_settled w o = true ->
  (forall tr : list (event kube), Forall reads (requests tr) -> progress w false w -> Q tr false w) ->
  succeeds h (Process s ctx (src w)) w Q.
Proof.
  intros Hi Hc Hf Hs Hst HQ. apply pass_inv; [done|].
  eapply Sync_rests; [done..|]. intros tr res Hr Htr x. rewrite Hr. apply HQ; [by constructor|].
  split_and!; [done| |done]. rewrite (phase_settled w o), Hst by done. constructor.
Qed.

Lemma pass_progress w :
  inv w -> exists tr b w', pass w = (tr, Ok b, w') /\ progress w b w'.
Proof.
  intros Hi. change (succeeds h (Process s ctx (src w)) w (fun _ b w' => progress w b w')).
  destruct (decide (claimed w)) as [Hc|Hc]; [|by apply progress_claim].
  destruct (found w) as [o|] eqn:Hf; [|by apply progress_place].
  destruct (spec_settledb w o) eqn:Es.
  - apply spec_settledb_spec in Es.
    destruct (status_settled w o) eqn:Est; [by apply (progress_rest w o)|by apply (progress_status w o)].
  - apply (progress_write w o); try done. rewrite <- spec_settledb_spec. congruence.
Qed.

(** C2: [Process] implements the life of a published object.  In every
    phase a pass succeeds, moves the object to a phase the specification
    allows, and asks to be called again exactly when the specification does:
    always, until only the status is left. *)
Theorem Process_lifecycle w :
  inv w ->
  exists tr b w', pass w = (tr, Ok b, w') /\ inv w' /\
    lifecycle (phase_of w) b (phase_of w') /\ (consistent w -> consistent w').
Proof. apply pass_progress. Qed.

(** ** Convergence *)

Lemma phase_InSync w :
  phase_of w = InSync -> claimed w /\ exists o, found w = Some o /\ spec_settled w o /\ status_settled w o = true.
Proof.
  unfold phase_of. case_decide; [|done]. destruct (found w) as [o|]; [|done].
  destruct (spec_settledb w o) eqn:E; [|done]. destruct (status_settled w o) eqn:E2; [|done].
  apply spec_settledb_spec in E. eauto.
Qed.

Lemma InSync_rests w : inv w -> phase_of w = InSync -> only_reads w false.
Proof.
  intros Hi (Hc & o & Hf & Hs & Hst)%phase_InSync.
  assert (succeeds h (Process s ctx (src w)) w (fun tr b w' => b = false /\ w' = w /\ Forall reads (requests tr)))
    as (tr & b & w' & Hp & -> & -> & Hr); [|by exists tr].
  by apply (progress_rest w o).
Qed.

Lemma reaches_rest n w :
  inv w -> distance (phase_of w) <= n ->
  exists m w', m <= n /\ reaches m w w' /\ inv w' /\ phase_of w' = InSync /\ (consistent w -> consistent w').
Proof.
  revert w. induction n as [|n IH]; intros w Hi Hn.
  - exists 0, w. split_and!; auto using reaches_here; try lia. by destruct (phase_of w) as [| |[]| |]; simpl in Hn; try lia.
  - destruct (decide (distance (phase_of w) = 0)) as [H0|H0].
    { exists 0, w. split_and!; auto using reaches_here; try lia. by destruct (phase_of w) as [| |[]| |]. }
    destruct (pass_progress w Hi) as (tr & b & w1 & Hp & Hi1 & Hl & Hc1).
    apply lifecycle_progress in Hl; [|by intros E; rewrite E in H0].
    destruct (IH w1 Hi1) as (m & w' & Hm & Hre & Hi' & H0' & Hc'); [lia|].
    exists (S m), w'. split_and!; auto; [lia|]. by econstructor.
Qed.

(** C1: an object comes to rest.  Whatever the object looks like, whether it
    has a copy, a copy without the right labels or none, and whatever is
    remembered of it, at most four calls of [Process] are needed, none of
    which fails; the next call only reads and does not ask to be called
    again.  By then the object is protected by the finalizer and its spec is
    what it was, the copy carries the labels and annotations that lead back,
    and the statuses agree.  If the copy held what was remembered, its
    fields now are those of the object. *)
Theorem Process_converges w :
  inv w ->
  exists n w', n <= 4 /\ reaches n w w' /\ only_reads w' false /\
    claimed w' /\ snapshot (src w') subs = snapshot o0 subs /\
    exists o, copy w' = Some o /\ linked o /\
      SemanticDeepEqual (statusOf (src w')) (statusOf o) = true /\
      (consistent w -> has_content o (src w')).
Proof.
  intros Hi. destruct (reaches_rest 4 w Hi) as (n & w' & Hn & Hre & Hi' & H0 & Hcon).
  { destruct (phase_of w) as [| |[]| |]; simpl; lia. }
  exists n, w'. pose proof (phase_InSync _ H0) as (Hc & o & Hf & Hs & Hst).
  split_and!; [done|done|by apply InSync_rests|done|apply (inv_source _ Hi')|].
  exists o. destruct (found_copy _ _ Hf) as [Ho _]. split_and!; [done|by apply (settled_linked w')|done|].
  intros Hc'%Hcon. specialize (Hc' o Ho). rewrite Hf in Hc'. destruct Hs as (last & Hr & Hp).
  rewrite Hr in Hc'. apply (has_content_source w'); [done|]. by eapply settled_content.
Qed.

(** C17: adopting an object does not synchronise it.  When the name of the
    copy is taken by an object without the right labels, the pass that
    adopts it writes nothing of the source's fields: all it sends is the
    existing object with labels and annotations added.  The source is
    remembered as synchronised all the same, so that at most one further
    call, for the status, and the object is at rest with the fields it had. *)
Theorem adoption_keeps_content w o :
  inv w -> claimed w -> copy w = Some o -> found w = None ->
  exists tr w1 n w2, pass w = (tr, Ok true, w1) /\ placing (Some o) tr /\
    n <= 1 /\ reaches n w1 w2 /\ only_reads w2 false /\ copy w2 = copy w1 /\
    remembered w1 = Some (snapshot o0 subs).
Proof.
  intros Hi Hc Ho Hf.
  assert (succeeds h (Process s ctx (src w)) w (fun tr b w1 => b = true /\ inv w1 /\ claimed w1 /\
    decoded w1 = Ok (snapshot o0 subs) /\ placing (Some o) tr /\
    exists o', copy w1 = Some o' /\ linked o')) as (tr & b & w1 & Hp & -> & Hi1 & Hc1 & Hd1 & Hpl & o' & Ho' & Hl').
  { apply pass_inv; [done|]. apply Sync_places; [done..|].
    intros tr res w1 o' Hr Hi1 Hc1 Ho1 Hl Hd _ Hpl x. rewrite Ho in Hpl. split_and!; [done..| |by exists o'].
    apply (placing_app (Some o) [_]); [|done]. intros r Hin. simpl in Hin. by set_unfold in Hin; destruct Hin as [->|[]]. }
  exists tr, w1. pose proof (known_linked_settled w1 o' Hi1 Ho' Hl' Hd1) as Hs.
  pose proof (linked_found w1 o' Ho' Hl') as Hf1.
  assert (remembered w1 = Some (snapshot o0 subs)) as Hrem by (unfold remembered; by rewrite Hd1).
  destruct (status_settled w1 o') eqn:Est.
  - exists 0, w1. split_and!; auto using reaches_here. apply InSync_rests; [done|].
    by rewrite (phase_settled w1 o'), Est.
  - assert (succeeds h (Process s ctx (src w1)) w1 (fun _ _ w2 => inv w2 /\ phase_of w2 = InSync /\ copy w2 = copy w1))
      as (tr2 & b2 & w2 & Hp2 & Hi2 & Hr2 & Hc2).
    { apply pass_inv; [done|]. eapply Sync_status; [done..|].
      intros tr2 res w2 _ Hi2 Hc2 Hco2 Hx2 Hso Hm y. split_and!; [done| |done].
      rewrite (phase_settled w2 o'); [unfold status_settled; by rewrite Hso, semantic_refl|done|
        by rewrite (found_kept _ _ Hco2)|by apply (spec_settled_kept w1); [..|apply decoded_kept|]]. }
    exists 1, w2. split_and!; auto; [|by apply InSync_rests].
    econstructor; [exact Hp2|constructor].
Qed.

End Live.

(** ** Deletion *)

Section Deleting.
Hypothesis Hdeleting : is_deleting o0 = true.

Lemma pass_deleting w (Q : _ -> _ -> _ -> Prop) :
  snapshot (src w) subs = snapshot o0 subs ->
  succeeds h (handleDeletion (sy w) ctx (kcp w) (service w)) w
    (fun tr r w' => r.1 = true /\ forall x, Q (Ev (S := kube) (lookup_request s ctx (src w)) x :: tr) true w') ->
  succeeds h (Process s ctx (src w)) w Q.
Proof.
  intros H HS. unfold Process. apply succeeds_bind, find_succeeds; [done|]. intros x.
  fold (kcpSide s ctx (Some (src w))) (serviceSide s (found w)).
  assert (is_deleting (src w) = true) as Hd by (by rewrite (snapshot_deleting _ _ _ H)).
  rewrite (store_created w _ H), bindM_retM, Hd.
  set (clean := if _ && _ then _ else _). assert (clean = retM false) as ->.
  { unfold clean, processRelatedResources. rewrite (pl_related Hplain). by case_match. }
  rewrite bindM_retM. apply succeeds_bind. fold (sy w). unfold Sync. cbn [kcpSide sd_object deref].
  rewrite bindM_retM, Hd. cbn [orb]. apply succeeds_bind. eapply succeeds_mono; [exact HS|].
  intros tr [b side] w' [Hb HQ]. simpl in Hb. subst b. apply succeeds_ret. cbn [sy_requeue]. apply succeeds_ret.
  rewrite !app_nil_r. apply HQ.
Qed.

(** The copy is there: its deletion is asked for once, then awaited. *)
Lemma pass_deletes_copy w o :
  snapshot (src w) subs = snapshot o0 subs -> found w = Some o -> is_deleting o = false ->
  exists tr w', pass w = (tr, Ok true, w') /\ src w' = src w /\
    (copy w' = None \/ exists o', found w' = Some o' /\ is_deleting o' = true).
Proof.
  intros H Hf Hd. destruct (found_copy _ _ Hf) as [Hc Hl].
  assert (succeeds h (Process s ctx (src w)) w (fun _ b w' => b = true /\ src w' = src w /\
    (copy w' = None \/ exists o', found w' = Some o' /\ is_deleting o' = true)))
    as (tr & b & w' & Hp & -> & Hs & Hco); [|by exists tr, w'].
  apply pass_deleting; [done|]. unfold handleDeletion. change (negb (syn_blockSourceDeletion (sy w))) with false.
  cbv iota. cbn [service serviceSide sd_object]. rewrite Hf, Hd. apply succeeds_bind, succeeds_bind, event_succeeds.
  intros ob x w1 [[Hs1 Hc1] Hx1]. apply succeeds_wrap. unfold clientDelete.
  generalize (normalizeDeletionPropagationPolicy (syn_deletionPropagationPolicy (sy w))). intros policy.
  destruct (srv_delete (ApiServers := HW) w1 o policy) as (w2 & Hdel & Hs2 & Hx2 & Hco2); [congruence|].
  eexists _, tt, w2. split; [simpl; by rewrite Hdel|]. apply succeeds_ret. split; [done|]. intros y.
  split_and!; [done|congruence|]. destruct Hco2 as [?|(o' & Ho' & Hdo' & Hlo')]; [by left|right].
  exists o'. split; [|done]. unfold World.found. rewrite Ho', Hlo'. by rewrite decide_True.
Qed.

Lemma pass_waits w o :
  snapshot (src w) subs = snapshot o0 subs -> found w = Some o -> is_deleting o = true -> only_reads w true.
Proof.
  intros H Hf Hd.
  assert (succeeds h (Process s ctx (src w)) w (fun tr b w' => b = true /\ w' = w /\ Forall reads (requests tr)))
    as (tr & b & w' & Hp & -> & -> & Hr); [|by exists tr].
  apply pass_deleting; [done|]. unfold handleDeletion. change (negb (syn_blockSourceDeletion (sy w))) with false.
  cbv iota. cbn [service serviceSide sd_object]. rewrite Hf, Hd, bindM_retM. apply succeeds_ret. split; [done|].
  intros x. by repeat constructor.
Qed.

(** The copy is gone: the object is released. *)
Lemma pass_releases w :
  snapshot (src w) subs = snapshot o0 subs -> claimed w -> found w = None ->
  exists tr w', pass w = (tr, Ok true, w') /\ ~ claimed w' /\ copy w' = copy w.
Proof.
  intros H Hc Hf.
  assert (succeeds h (Process s ctx (src w)) w (fun _ b w' => b = true /\ ~ claimed w' /\ copy w' = copy w))
    as (tr & b & w' & Hp & -> & Hn & Hco); [|by exists tr, w'].
  apply pass_deleting; [done|]. unfold handleDeletion. change (negb (syn_blockSourceDeletion (sy w))) with false.
  cbv iota. cbn [service serviceSide sd_object]. rewrite Hf. cbn [kcp kcpSide sd_object deref]. rewrite bindM_retM.
  apply succeeds_bind, succeeds_wrap. unfold removeFinalizer, clientPatch. cbv zeta.
  rewrite decide_False by (unfold claimed in Hc; set_solver). apply succeeds_bind.
  destruct (srv_source_patch (ApiServers := HW) w (without_finalizer (src w)) eq_refl)
    as (o' & w1 & Hp & Hs & Hcopy & Hsec & Hm & Hct).
  eexists _, o', w1. split; [simpl; unfold without_finalizer in Hp; by rewrite Hp|].
  apply succeeds_ret, succeeds_bind, event_succeeds. intros ob x w2 [[Hs2 Hc2] _]. apply succeeds_ret.
  split; [done|]. intros y. split_and!; [done| |congruence].
  unfold claimed. rewrite Hs2, Hs, (sm_finalizers _ _ Hm). unfold without_finalizer, GetFinalizers. simpl.
  rewrite sets_List_elem_of. set_solver.
Qed.

(** Nothing is found: the object is released and the other side is left as
    it is. *)
Lemma deletion_releases w :
  snapshot (src w) subs = snapshot o0 subs -> claimed w -> found w = None ->
  exists w', reaches 1 w w' /\ ~ claimed w' /\ found w' = None /\ copy w' = copy w.
Proof.
  intros H Hc Hf. destruct (pass_releases w H Hc Hf) as (tr & w' & Hp & Hn & Hco). exists w'.
  split_and!; [econstructor; [exact Hp|constructor]|done| |done]. by rewrite (found_kept _ _ Hco).
Qed.

(** C3: deleting an object ends.  At most two calls of [Process] later,
    none of which fails, either the object has lost the agent's finalizer or
    its copy is being held back by others.  When it has lost the finalizer, a
    copy that the labels led to at the start no longer exists, and no copy
    is found by the labels; if the labels led to none at the start, whatever
    has the name of the copy is left as it was.  When the copy is held back,
    the object still has the finalizer, and calls do nothing but look and
    ask to be called again. *)
Theorem deletion_completes w :
  snapshot (src w) subs = snapshot o0 subs -> claimed w ->
  exists n w', n <= 2 /\ reaches n w w' /\
    ((~ claimed w' /\ found w' = None /\
      copy w' = match found w with Some _ => None | None => copy w end) \/
     (claimed w' /\ only_reads w' true /\ exists o, found w' = Some o /\ is_deleting o = true)).
Proof.
  intros H Hc. destruct (found w) as [o|] eqn:Hf.
  - destruct (is_deleting o) eqn:Hd.
    { exists 0, w. split_and!; [lia|constructor|]. right. split_and!; eauto using pass_waits. }
    destruct (pass_deletes_copy w o H Hf Hd) as (tr & w1 & Hp & Hs & [Hco|(o' & Hf' & Hd')]).
    + destruct (deletion_releases w1) as (w2 & Hr & Hn & Hf2 & Hco2);
        [by rewrite Hs|unfold claimed; by rewrite Hs|unfold World.found; by rewrite Hco|].
      exists 2, w2. split_and!; [lia|by econstructor|]. left. split_and!; [done..|congruence].
    + exists 1, w1. split_and!; [lia|econstructor; [exact Hp|constructor]|]. right.
      split_and!; [unfold claimed; by rewrite Hs| |eauto]. eapply pass_waits; [by rewrite Hs|done..].
  - destruct (deletion_releases w H Hc Hf) as (w' & Hr & Hn & Hf' & Hco). exists 1, w'.
    split_and!; [lia|done|by left].
Qed.

End Deleting.
End Convergence.

(** ** A world

    Two clusters that keep one object, its copy and the Secrets, and apply
    merge patches as the standard says. *)

Module SampleWorld.

#[export] Existing Instance SampleRelated.engine.
#[export] Existing Instance SampleRelated.text.
#[export] Existing Instance SampleRelated.range.
#[export] Existing Instance SampleCRD.versions.
#[export] Existing Instance Sample.path.
#[export] Existing Instance TreeJson.lib.
#[export] Existing Instance TreeJson.laws.
#[export] Existing Instance TreePatch.patches.
#[export] Existing Instance TreePatch.laws.

Record world : Type := World {
  w_src : Unstructured;
  w_copy : option Unstructured;
  w_secrets : gmap (string * string) Secret
}.

Definition strings (v : value) : gmap string string :=
  omap (fun v => match v with VStr x => Some x | _ => None end) (members v).

Definition patch_object (p : value) (o : Unstructured) : Unstructured :=
  let d := apply_patch p (Some (doc o)) in
  SetLabels (strings <$> at_path labels_path d)
    (SetAnnotations (strings <$> at_path annotations_path d)
      (with_content (fun _ => delete "metadata" (members d)) o)).

Definition clusters : server (S := kube) world := fun r w =>
  match r return kresp r * world with
  | RList _ _ (ListOpts (SelectorFromSet l) _ _) =>
      (Ok (match w_copy w with
           | Some o => if decide (l ⊆ default ∅ (GetLabels o)) then [o] else []
           | None => []
           end), w)
  | RGet _ _ _ => (match w_copy w with Some o => Ok o | None => Err errNotFound end, w)
  | RCreate _ o =>
      match w_copy w with
      | Some _ => (Err errAlreadyExists, w)
      | None => (Ok o, World (w_src w) (Some o) (w_secrets w))
      end
  | RUpdate _ o => (Ok o, World (w_src w) (Some o) (w_secrets w))
  | RPatch _ o (RawMergePatch p) =>
      (Ok (patch_object (decode_patch p) o), World (w_src w) (Some (patch_object (decode_patch p) o)) (w_secrets w))
  | RPatch _ o (MergeFrom _) | RStatusUpdate _ o => (Ok o, World o (w_copy w) (w_secrets w))
  | RDelete _ _ _ => (Ok tt, World (w_src w) None (w_secrets w))
  | RGetSecret c n => ((secretServer (RGetSecret c n) (w_secrets w)).1, w)
  | RCreateSecret c x =>
      let '(a, m) := secretServer (RCreateSecret c x) (w_secrets w) in (a, World (w_src w) (w_copy w) m)
  | RUpdateSecret c x =>
      let '(a, m) := secretServer (RUpdateSecret c x) (w_secrets w) in (a, World (w_src w) (w_copy w) m)
  | r => ((echo r tt).1, w)
  end.

(** A published resource with a naming rule and a status subresource. *)
Definition crd : CustomResourceDefinition :=
  MkCRD "backups.eksempel.no" None 1 []
    (MkCRDSpec "eksempel.no" (MkNames "backups" "backup" "Backup" "BackupList" None None) NamespaceScoped
       [MkVersion "v1" true true None (Some (MkSubresources true None)) ∅] None).

Definition pubRes : PublishedResource :=
  MkPubRes (Sample.meta "" "publish-backups" None None)
    (MkPubResSpec (MkSource "eksempel.no" "v1" [] "Backup") None
       (Some (MkNaming "$remoteNamespace-$remoteName" "$remoteClusterName")) false None None [] None)
    (MkPubResStatus "").

Definition syncer : ResourceSyncer :=
  MkResourceSyncer Sample.serviceClient Sample.kcpClient pubRes crd ["status"] false false
    (GVK "eksempel.no" "v1" "Backup") None ∅ "agent" false (newKubernetesStateStoreCreator "kcp-system").

Lemma syncer_built :
  NewResourceSyncer Sample.serviceClient Sample.kcpClient pubRes crd (fun _ => Ok None) "kcp-system" "agent" []
    = Ok syncer.
Proof. reflexivity. Qed.

Definition ctx : context := WithClusterName Sample.ctx "2gz9".
Definition destName : NamespacedName := NN "2gz9" "ns-nightly".

Lemma syncer_plain : plain syncer ctx "kcp-system".
Proof. split; try done. by left. Qed.

Lemma syncer_names o0 o :
  ObjectKeyFromObject o0 = NN "ns" "nightly" -> snapshot o ["status"] = snapshot o0 ["status"] ->
  exists d, newLocalObjectCreator syncer (cn ctx) (wp ctx) o = Ok d /\ ObjectKeyFromObject d = destName.
Proof.
  intros H0 H. apply snapshot_objectKey in H. rewrite H0 in H. injection H as Hns Hn.
  unfold newLocalObjectCreator.
  assert (GenerateLocalObjectName (rs_pubRes syncer) o (cn ctx) (wp ctx) = Ok destName) as ->.
  { unfold GenerateLocalObjectName, generateLocalObjectIdentifier, placeholders. simpl.
    unfold placeholders. rewrite Hns, Hn. vm_compute. reflexivity. }
  simpl. eexists. split; reflexivity.
Qed.

Lemma strings_lookup v k x : members v !! k = Some (VStr x) -> strings v !! k = Some x.
Proof. intros H. unfold strings. rewrite lookup_omap, H. done. Qed.

Lemma strings_member q k x d :
  at_path (q ++ [k]) d = Some (VStr x) -> lookup_map (strings <$> at_path q d) k = Some x.
Proof.
  rewrite at_path_app. destruct (at_path q d) as [l|]; [|done]. simpl. intros H.
  apply strings_lookup. by destruct (members l !! k).
Qed.

Lemma patch_object_patched subs p o : patched subs p o (patch_object p o).
Proof.
  split; [done|done|..].
  - intros k v. apply strings_member.
  - intros k v. apply strings_member.
  - intros k _ Hk. change (u_content (patch_object p o)) with (delete "metadata" (members (apply_patch p (Some (doc o))))).
    rewrite lookup_delete_ne by done. apply covers_opt_refl.
Qed.

Lemma admitted_refl subs o : admitted subs o o.
Proof. split; try done. intros. apply covers_opt_refl. Qed.

Lemma same_meta_refl o : same_meta o o.
Proof. by split. Qed.

Lemma keeper c n : SecretKeeper clusters c n (fun w => w_secrets w !! secretKey n).
Proof.
  split.
  - intros w. cbn [clusters]. by rewrite (keeper_get (SecretKeeper := secretServer_keeper c n)).
  - intros w x Hn Hl. destruct (keeper_create (SecretKeeper := secretServer_keeper c n) (w_secrets w) x Hn Hl)
      as (m & Hm & Hx). cbn [clusters]. rewrite Hm. by eexists.
  - intros w x Hn Hl. destruct (keeper_update (SecretKeeper := secretServer_keeper c n) (w_secrets w) x Hn Hl)
      as (m & Hm & Hx). cbn [clusters]. rewrite Hm. by eexists.
Qed.

#[export] Instance servers o0 :
  ApiServers syncer ctx "kcp-system" o0 destName clusters w_src w_copy
    (fun w => w_secrets w !! secretKey (secretName0 ctx "kcp-system" o0)).
Proof.
  split; try apply keeper; simpl; try (intros; by repeat split).
  - intros r w Hr. destruct r; simpl in *; try done; by destruct (_ !! _).
  - intros w obj _. eexists _, _. split; [reflexivity|]. split_and!; auto using same_meta_refl.
  - intros w v. eexists _, _. split; [reflexivity|]. split_and!; try done.
    + unfold statusOf, setStatus. simpl. by rewrite lookup_insert_eq.
    + intros k Hk. unfold setStatus. simpl. by rewrite lookup_insert_ne.
  - intros w Hk. unfold found, key0, newObjectKey. injection Hk as Hns Hn. rewrite Hns, Hn. unfold cn, wp.
    destruct (w_copy w); [|done]. by case_decide.
  - intros w obj _ Hc. rewrite Hc. eexists _, _. split_and!; auto using admitted_refl.
  - intros w obj o _ Hc. rewrite Hc. by eexists.
  - intros w obj o _ Hc. by rewrite Hc.
  - intros w obj o _ Hc. eexists _, _. split; [reflexivity|]. split_and!; auto using admitted_refl.
  - intros w o p Hc. eexists _, _. split; [reflexivity|]. split_and!; auto using patch_object_patched.
  - intros w o policy Hc. eexists. split; [reflexivity|]. split_and!; auto.
Qed.

End SampleWorld.

(** ** Witnesses *)

Import SampleWorld.

(** An object that nobody has seen yet, one whose name on the service
    cluster is taken by an unrelated object, and one that is going away. *)
Definition user : Unstructured := Sample.backup "ns" None None.
Definition fresh : world := World user None ∅.

Definition owned : Unstructured := Sample.backup "ns" (Some [deletionFinalizer]) None.
Definition foreign : Unstructured :=
  SetLabels None (SetName "ns-nightly" (SetNamespace "2gz9"
    (with_content (fun _ => {[ "spec" := VObj {[ "schedule" := VStr "never" ]} ]}) owned))).
Definition taken : world := World owned (Some foreign) ∅.

Definition leaving : Unstructured := Sample.backup "ns" (Some [deletionFinalizer]) (Some 7%Z).
Definition going : world := World leaving (Some claimedCopy) ∅.

Abbreviation sampleSec o := (fun w => w_secrets w !! secretKey (secretName0 ctx "kcp-system" o)).

Lemma sample_inv o c :
  (forall o', c = Some o' -> is_deleting o' = false /\ ObjectKeyFromObject o' = destName) ->
  inv syncer ctx "kcp-system" o destName w_src w_copy (sampleSec o) (World o c ∅).
Proof.
  intros Hc. split; [done|by intros x ?|exact Hc|left].
  by eexists.
Qed.

Lemma Process_converges_witness :
  exists n w', n <= 4 /\ reaches syncer ctx clusters w_src n fresh w' /\
    only_reads syncer ctx clusters w_src w' false /\
    exists o, w_copy w' = Some o /\ has_content syncer o (w_src w').
Proof.
  destruct (Process_converges syncer ctx "kcp-system" syncer_plain user destName clusters w_src w_copy
    (sampleSec user) (HW := servers user) eq_refl eq_refl (fun o => syncer_names user o eq_refl) fresh)
    as (n & w' & Hn & Hr & Hq & _ & _ & o & Ho & _ & _ & Hc).
  - by apply sample_inv.
  - exists n, w'. split; [exact Hn|]. split; [exact Hr|]. split; [exact Hq|]. exists o. split; [exact Ho|].
    apply Hc. by intros ? ?.
Defined.

Lemma Process_lifecycle_witness :
  exists tr b w', pass syncer ctx clusters w_src fresh = (tr, Ok b, w') /\
    lifecycle Unclaimed b (phase_of syncer ctx "kcp-system" user w_src w_copy (sampleSec user) w').
Proof.
  destruct (Process_lifecycle syncer ctx "kcp-system" syncer_plain user destName clusters w_src w_copy
    (sampleSec user) (HW := servers user) eq_refl eq_refl (fun o => syncer_names user o eq_refl) fresh)
    as (tr & b & w' & Hp & _ & Hl & _).
  - by apply sample_inv.
  - exists tr, b, w'. split; [exact Hp|]. exact Hl.
Defined.

Lemma taken_unfound : found ctx owned w_copy taken = None.
Proof.
  unfold found. simpl. rewrite decide_False; [done|]. intros H.
  apply map_subseteq_size in H. rewrite map_size_empty in H.
  unfold key0, objectKey_Labels in H. simpl in H. rewrite map_size_insert_None in H; [lia|].
  by rewrite !lookup_insert_ne.
Qed.

(** The unrelated object keeps its own schedule. *)
Lemma adoption_keeps_content_witness :
  exists tr w1 n w2, pass syncer ctx clusters w_src taken = (tr, Ok true, w1) /\
    placing syncer (Some foreign) tr /\ n <= 1 /\ reaches syncer ctx clusters w_src n w1 w2 /\
    only_reads syncer ctx clusters w_src w2 false.
Proof.
  destruct (adoption_keeps_content syncer ctx "kcp-system" syncer_plain owned destName clusters w_src w_copy
    (sampleSec owned) (HW := servers owned) eq_refl eq_refl (fun o => syncer_names owned o eq_refl) taken foreign)
    as (tr & w1 & n & w2 & Hp & Hpl & Hn & Hr & Hq & _ & _).
  - apply sample_inv. intros o' [= <-]. by split.
  - by left.
  - reflexivity.
  - exact taken_unfound.
  - exists tr, w1, n, w2. split; [exact Hp|]. split; [exact Hpl|]. split; [exact Hn|]. split; [exact Hr|exact Hq].
Defined.

Lemma deletion_completes_witness :
  exists n w', n <= 2 /\ reaches syncer ctx clusters w_src n going w' /\
    (w_copy w' = None \/ only_reads syncer ctx clusters w_src w' true).
Proof.
  destruct (deletion_completes syncer ctx "kcp-system" syncer_plain leaving destName clusters w_src w_copy
    (sampleSec leaving) (HW := servers leaving) eq_refl going)
    as (n & w' & Hn & Hr & Hd); [reflexivity|by left|].
  exists n, w'. split; [exact Hn|]. split; [exact Hr|].
  destruct Hd as [(_ & _ & Hc)|(_ & Ho & _)]; [left; rewrite Hc; vm_compute; reflexivity|right; exact Ho].
Defined.

(** The object had the label [app], its copy is linked, the label is removed. *)
Definition unlabelled : Unstructured := SetLabels None (ObjectSyncerProofs.claimed).

Lemma last_label_unlinks_witness :
  let r := run echo (syncObjectSpec (knowing true) Sample.ctx (Sample.kcpSide unlabelled)
             (Sample.serviceSide (Some claimedCopy))) tt in
  exists p, RPatch Sample.serviceClient claimedCopy (RawMergePatch p) ∈ requests r.1.1 /\
    forall t, at_path labels_path (apply_patch (decode_patch p) t) = None.
Proof.
  intros r. assert (is_ok r.1.2 = true) as Hok by (vm_cast_no_check (eq_refl true)).
  destruct (is_ok_inv _ Hok) as [[b dest'] Hr].
  pose proof (run_execution echo _ tt : exec (syncObjectSpec (knowing true) Sample.ctx (Sample.kcpSide unlabelled)
    (Sample.serviceSide (Some claimedCopy))) r.1.1 r.1.2) as Hex. rewrite Hr in Hex.
  clearbody r. clear Hok Hr.
  apply (last_label_unlinks (knowing true) Sample.ctx (Sample.kcpSide unlabelled)
    (Sample.serviceSide (Some claimedCopy)) unlabelled claimedCopy ObjectSyncerProofs.claimed r.1.1 b dest');
    [reflexivity|reflexivity|reflexivity| | | | | |exact Hex].
  - intros tr o H. apply exec_ret_inv in H as [_ H]. by injection H.
  - destruct claimedCopy_stamped as [H _]. exact (proj1 (H eq_refl)).
  - apply (bool_decide_unpack _). vm_compute. exact I.
  - vm_compute. reflexivity.
  - vm_compute. reflexivity.
Defined.
