(* ===== verification/Mutation.v ===== *)
(** Mutation of objects: [internal/mutation/].

    A [ResourceMutationSpec] lists mutations for the two directions of a
    synchronisation.  [NewMutator] compiles each list once, into a chain of
    transformers that the object syncer applies to every object.  JSON
    documents are addressed by the packages gjson and sjson, patterns come
    from regexp, templates from html/template and expressions from cel-go:
    [MutationLib] stands for them.  These functions report failures as
    errors. *)

From S2P Require Import Prelude Effects Kube ApiTypes Meta Metadata StateStore ObjectSyncer Samples.

(** ** Values of CEL expressions *)

(** A [ref.Val]: lists and maps are taken apart by the program, strings can
    be keys, every other value is converted by the CEL library. *)
Inductive refVal {scalar : Type} : Type :=
| CelList (l : list refVal)
| CelMap (m : list (refVal * refVal))
| CelString (s : string)
| CelScalar (x : scalar).
Arguments refVal : clear implicits.

Record celInput : Type := MkCelInput {
  ci_value : value;
  ci_self : Unstructured;
  ci_other : option Unstructured
}.

(** The data of a mutation template. *)
Record templateMutationContext {R : Type} : Type := MkTemplateMutationContext {
  tmc_Value : R;
  tmc_LocalObject : Unstructured;
  tmc_RemoteObject : option Unstructured
}.
Arguments templateMutationContext : clear implicits.
Arguments MkTemplateMutationContext {R}.

(** ** Libraries *)

Class MutationLib : Type := {
  json_Marshal : Unstructured -> string + gerror;
  json_Unmarshal : string -> Unstructured + gerror;
  Result : Type;
  gjson_Find : string -> string -> Result;
  Result_Value : Result -> value;
  Result_String : Result -> string;
  sjson_Set : string -> string -> value -> string + gerror;
  sjson_Delete : string -> string -> string + gerror;
  (* a compiled pattern as its [ReplaceAllString] *)
  mutation_Compile : string -> (string -> string -> string) + gerror;
  html_template : Type;
  html_Parse : string -> html_template + gerror;
  html_Execute : html_template -> templateMutationContext Result -> string + gerror;
  cel_scalar : Type;
  cel_env : Type;
  cel_ast : Type;
  cel_program : Type;
  cel_NewEnv : cel_env + gerror;
  env_Compile : cel_env -> string -> cel_ast + gerror;
  env_Program : cel_env -> cel_ast -> cel_program + gerror;
  prg_Eval : cel_program -> celInput -> refVal cel_scalar + gerror;
  scalar_ConvertToNative : cel_scalar -> value + gerror
}.

(** A library call as the result of a Go call. *)
Definition returned {A} (r : A + gerror) : outcome A :=
  match r with inl a => Ok a | inr e => Err e end.

Section Mutation.
Context {L : MutationLib}.

(** ** [json.go] *)

Definition EncodeObject (obj : option Unstructured) : outcome string :=
  match obj with
  | Some o => returned (json_Marshal o)
  | None => Panic "invalid memory address or nil pointer dereference"
  end.

Definition DecodeObject (encoded : string) : outcome Unstructured := returned (json_Unmarshal encoded).

(** ** [delete.go] *)

Definition deleteTransformer : Type := ResourceDeleteMutation.

Definition NewDelete (mut : ResourceDeleteMutation) : outcome deleteTransformer := Ok mut.

Definition deleteTransformer_ApplyJSON (m : deleteTransformer) (toMutate : string) : outcome string :=
  wrapErr ("failed to delete value @ " +:+ dm_Path m) (returned (sjson_Delete toMutate (dm_Path m))).

(** ** [regex.go] *)

Record regexTransformer : Type := MkRegexTransformer {
  rt_mut : ResourceRegexMutation;
  rt_expr : option (string -> string -> string)
}.

Definition NewRegex (mut : ResourceRegexMutation) : outcome regexTransformer :=
  if decide (rm_Pattern mut <> "") then
    let! expr := wrapErr "invalid pattern" (returned (mutation_Compile (rm_Pattern mut))) in
    Ok (MkRegexTransformer mut (Some expr))
  else Ok (MkRegexTransformer mut None).

Definition regexTransformer_ApplyJSON (m : regexTransformer) (toMutate : string) : outcome string :=
  let path := rm_Path (rt_mut m) in
  match rt_expr m with
  | None => returned (sjson_Set toMutate path (VStr (rm_Replacement (rt_mut m))))
  | Some expr =>
      let strVal := Result_String (gjson_Find toMutate path) in
      let replacement := expr strVal (rm_Replacement (rt_mut m)) in
      returned (sjson_Set toMutate path (VStr replacement))
  end.

(** ** [template.go] *)

Record templateTransformer : Type := MkTemplateTransformer { tt_path : string; tt_tpl : html_template }.

Definition NewTemplate (mut : ResourceTemplateMutation) : outcome templateTransformer :=
  let! tpl := wrapErr "failed to parse template" (returned (html_Parse (tm_Template mut))) in
  Ok (MkTemplateTransformer (tm_Path mut) tpl).

Definition templateTransformer_Apply (m : templateTransformer) (toMutate : Unstructured)
    (otherObj : option Unstructured) : outcome Unstructured :=
  let! encoded := wrapErr "failed to JSON encode object" (EncodeObject (Some toMutate)) in
  let ctx := MkTemplateMutationContext (gjson_Find encoded (tt_path m)) toMutate otherObj in
  let! buf := wrapErr "failed to execute template" (returned (html_Execute (tt_tpl m) ctx)) in
  let replacement := TrimSpace buf in
  let! updated := wrapErr "failed to set updated value"
                    (returned (sjson_Set encoded (tt_path m) (VStr replacement))) in
  DecodeObject updated.

(** ** [cel.go] *)

Record celTransformer : Type := MkCelTransformer { ct_path : string; ct_prg : cel_program }.

Definition NewCEL (mut : ResourceCELMutation) : outcome celTransformer :=
  let! env := wrapErr "failed to create CEL env" (returned cel_NewEnv) in
  let! expr := wrapErr "failed to compile CEL expression" (returned (env_Compile env (cm_Expression mut))) in
  let! prg := wrapErr "failed to create CEL program" (returned (env_Program env expr)) in
  Ok (MkCelTransformer (cm_Path mut) prg).

(** The string a map key converts to. *)
Definition keyToNative (key : refVal cel_scalar) : outcome string :=
  match key with
  | CelString s => Ok s
  | _ => Err (ErrorString "type conversion error")
  end.

Fixpoint celToNative (v : refVal cel_scalar) : outcome value :=
  match v with
  | CelList l =>
      let! result := (fix go l := match l with
                                  | [] => Ok []
                                  | item :: l' => let! x := celToNative item in
                                                  let! xs := go l' in Ok (x :: xs)
                                  end) l in
      Ok (VArr result)
  | CelMap m =>
      let! result := (fix go (m : list (refVal cel_scalar * refVal cel_scalar)) (result : gmap string value) :=
                        match m with
                        | [] => Ok result
                        | (key, item) :: m' =>
                            let! k := keyToNative key in
                            let! x := celToNative item in
                            go m' (<[k := x]> result)
                        end) m ∅ in
      Ok (VObj result)
  | CelString s => Ok (VStr s)
  | CelScalar x => returned (scalar_ConvertToNative x)
  end.

Definition celTransformer_Apply (m : celTransformer) (toMutate : Unstructured)
    (otherObj : option Unstructured) : outcome Unstructured :=
  let! encoded := wrapErr "failed to JSON encode object" (EncodeObject (Some toMutate)) in
  let current := gjson_Find encoded (ct_path m) in
  let input := MkCelInput (Result_Value current) toMutate otherObj in
  let! out := wrapErr "failed to evaluate CEL expression" (returned (prg_Eval (ct_prg m) input)) in
  let! native := wrapErr "failed to convert CEL result to native value" (celToNative out) in
  let! updated := wrapErr "failed to set updated value" (returned (sjson_Set encoded (ct_path m) native)) in
  DecodeObject updated.

(** ** [aggregate.go] *)

Inductive transformer : Type :=
| DeleteTransformer (t : deleteTransformer)
| RegexTransformer (t : regexTransformer)
| TemplateTransformer (t : templateTransformer)
| CelTransformer (t : celTransformer).

(** The interfaces [objectTransformer] and [jsonTransformer]: which of the
    two a transformer implements, with its method. *)
Definition asserted (t : transformer)
  : (Unstructured -> option Unstructured -> outcome Unstructured) + (string -> outcome string) :=
  match t with
  | DeleteTransformer t => inr (deleteTransformer_ApplyJSON t)
  | RegexTransformer t => inr (regexTransformer_ApplyJSON t)
  | TemplateTransformer t => inl (templateTransformer_Apply t)
  | CelTransformer t => inl (celTransformer_Apply t)
  end.

Record AggregateTransformer : Type := MkAggregate { at_transformers : list transformer }.

Definition NewAggregate : AggregateTransformer := MkAggregate [].

Definition AggregateTransformer_Add (m : AggregateTransformer) (t : transformer) : AggregateTransformer :=
  MkAggregate (at_transformers m ++ [t]).

(** One round of the loop in [Apply]. *)
Definition applyTransformer (otherObj : option Unstructured) (toMutate : Unstructured) (t : transformer)
  : outcome Unstructured :=
  match asserted t with
  | inl apply => apply toMutate otherObj
  | inr applyJSON =>
      let! encodedToMutate := wrapErr "failed to JSON encode object" (EncodeObject (Some toMutate)) in
      let! encodedOtherObj := wrapErr "failed to JSON encode object" (EncodeObject otherObj) in
      let! mutated := applyJSON encodedToMutate in
      DecodeObject mutated
  end.

Definition AggregateTransformer_Apply (m : option AggregateTransformer) (toMutate : Unstructured)
    (otherObj : option Unstructured) : outcome Unstructured :=
  match m with
  | None => Ok toMutate
  | Some m => ofoldM (applyTransformer otherObj) toMutate (at_transformers m)
  end.

(** ** [mutator.go] *)

Record mutator : Type := MkMutatorImpl {
  m_spec : option AggregateTransformer;
  m_status : option AggregateTransformer
}.

Definition newTransformer (mut : ResourceMutation) : outcome transformer :=
  match mut_Delete mut, mut_Regex mut, mut_Template mut, mut_CEL mut with
  | Some m, _, _, _ => let! t := NewDelete m in Ok (DeleteTransformer t)
  | None, Some m, _, _ => let! t := NewRegex m in Ok (RegexTransformer t)
  | None, None, Some m, _ => let! t := NewTemplate m in Ok (TemplateTransformer t)
  | None, None, None, Some m => let! t := NewCEL m in Ok (CelTransformer t)
  | None, None, None, None => Err (ErrorString "no valid mutation mechanism provided")
  end.

Definition createAggregatedTransformer (mutations : list ResourceMutation) : outcome AggregateTransformer :=
  ofoldM (fun agg mut => let! trans := newTransformer mut in Ok (AggregateTransformer_Add agg trans))
    NewAggregate mutations.

Definition mutator_MutateSpec (m : option mutator) (toMutate : Unstructured) (otherObj : option Unstructured)
  : outcome Unstructured :=
  match m with
  | None => Ok toMutate
  | Some m => AggregateTransformer_Apply (m_spec m) toMutate otherObj
  end.

Definition mutator_MutateStatus (m : option mutator) (toMutate : Unstructured) (otherObj : option Unstructured)
  : outcome Unstructured :=
  match m with
  | None => Ok toMutate
  | Some m => AggregateTransformer_Apply (m_status m) toMutate otherObj
  end.

(** A [mutator] behind the interface [Mutator]. *)
Definition mutator_iface (m : mutator) : Mutator :=
  MkMutator (mutator_MutateSpec (Some m)) (mutator_MutateStatus (Some m)).

Definition NewMutator (spec : option ResourceMutationSpec) : outcome (option Mutator) :=
  match spec with
  | None => Ok None
  | Some spec =>
      let! specAgg := wrapErr "cannot create transformer for spec"
                        (createAggregatedTransformer (ms_Spec spec)) in
      let! statusAgg := wrapErr "cannot create transformer for status"
                          (createAggregatedTransformer (ms_Status spec)) in
      Ok (Some (mutator_iface (MkMutatorImpl (Some specAgg) (Some statusAgg))))
  end.

End Mutation.

(** ** Reference semantics

    What a list of mutations means, read from left to right without the
    compiled chain: each mutation is compiled where it is applied. *)

Section Spec.
Context {L : MutationLib}.

Definition mutate (otherObj : option Unstructured) (toMutate : Unstructured) (mut : ResourceMutation)
  : outcome Unstructured :=
  let! t := newTransformer mut in applyTransformer otherObj toMutate t.

(** Mutations that work on the encoded document. *)
Definition json_mutation (mut : ResourceMutation) : bool :=
  match mut_Delete mut, mut_Regex mut with None, None => false | _, _ => true end.

(** ** Lemmas *)

Lemma returned_no_panic {A} (r : A + gerror) msg : returned r <> Panic msg.
Proof. by destruct r. Qed.

Lemma obind_no_panic {A B} (m : outcome A) (k : A -> outcome B) msg :
  (forall msg, m <> Panic msg) -> (forall a msg, k a <> Panic msg) -> obind m k <> Panic msg.
Proof. intros Hm Hk. destruct m as [a|e|s]; simpl; [apply Hk|done|]. by destruct (Hm s). Qed.

Lemma wrapErr_no_panic {A} s (m : outcome A) msg : (forall msg, m <> Panic msg) -> wrapErr s m <> Panic msg.
Proof. intros Hm. destruct m; [done..|apply Hm]. Qed.

Lemma ofoldM_no_panic {A B} (f : B -> A -> outcome B) b l msg :
  (forall b a msg, f b a <> Panic msg) -> ofoldM f b l <> Panic msg.
Proof. intros Hf. revert b msg. induction l; intros b msg; simpl; [done|]. by apply obind_no_panic. Qed.

Lemma refVal_ind' {X} (P : refVal X -> Prop) :
  (forall l, Forall P l -> P (CelList l)) -> (forall m, Forall (fun kv => P kv.2) m -> P (CelMap m)) ->
  (forall s, P (CelString s)) -> (forall x, P (CelScalar x)) -> forall v, P v.
Proof.
  intros Hl Hm Hs Hx. fix go 1. intros [l|m|s|x]; [apply Hl|apply Hm|apply Hs|apply Hx].
  - induction l; constructor; auto.
  - induction m as [|[k v] m IH]; constructor; [apply (go v)|exact IH].
Qed.

Lemma celToNative_no_panic v msg : celToNative v <> Panic msg.
Proof.
  revert msg. induction v as [l IH|m IH|s|x] using refVal_ind'; intros msg; simpl; [| |done|apply returned_no_panic].
  - apply obind_no_panic; [|done]. clear msg. induction IH as [|v l Hv _ IH]; intros msg; [done|].
    apply obind_no_panic; [done|]. intros ? ?. by apply obind_no_panic.
  - apply obind_no_panic; [|done]. clear msg. generalize (∅ : gmap string value).
    induction IH as [|[k v] m Hv _ IH]; intros acc msg; [done|].
    apply obind_no_panic; [by destruct k|]. intros. by apply obind_no_panic.
Qed.

(** Walk over a computation that cannot panic. *)
Ltac no_panic :=
  repeat first
    [ progress intros
    | discriminate
    | apply obind_no_panic | apply wrapErr_no_panic | apply returned_no_panic
    | apply celToNative_no_panic
    | case_match ].

Lemma newTransformer_no_panic mut msg : newTransformer mut <> Panic msg.
Proof. unfold newTransformer, NewDelete, NewRegex, NewTemplate, NewCEL. no_panic. Qed.

Lemma applyTransformer_no_panic other o t msg : applyTransformer (Some other) o t <> Panic msg.
Proof.
  unfold applyTransformer, DecodeObject. destruct t as [t|t|t|t]; simpl;
    unfold deleteTransformer_ApplyJSON, regexTransformer_ApplyJSON, templateTransformer_Apply,
      celTransformer_Apply, DecodeObject; simpl; no_panic.
Qed.

(** Compiling a list of mutations: the chain has one transformer per
    mutation, in order. *)
Lemma createAggregatedTransformer_spec muts :
  match createAggregatedTransformer muts with
  | Ok agg => Forall2 (fun mut t => newTransformer mut = Ok t) muts (at_transformers agg)
  | Err _ => Exists (fun mut => is_ok (newTransformer mut) = false) muts
  | Panic _ => False
  end.
Proof.
  unfold createAggregatedTransformer.
  enough (forall acc, match ofoldM (fun agg mut => let! trans := newTransformer mut in
                                    Ok (AggregateTransformer_Add agg trans)) acc muts with
    | Ok agg => exists ts, at_transformers agg = at_transformers acc ++ ts /\
                  Forall2 (fun mut t => newTransformer mut = Ok t) muts ts
    | Err _ => Exists (fun mut => is_ok (newTransformer mut) = false) muts
    | Panic _ => False
    end) as H.
  { specialize (H NewAggregate). destruct (ofoldM _ _ _); [|done..]. by destruct H as (ts & -> & ?). }
  induction muts as [|mut muts IH]; intros acc; simpl; [by exists []; rewrite app_nil_r|].
  destruct (newTransformer mut) as [t|e|m] eqn:E; simpl.
  - specialize (IH (AggregateTransformer_Add acc t)). destruct (ofoldM _ _ _); [|by right|done].
    destruct IH as (ts & -> & HF). exists (t :: ts). simpl. rewrite <- app_assoc. split; [done|]. by constructor.
  - left. by rewrite E.
  - by apply newTransformer_no_panic in E.
Qed.

Lemma chain_meaning muts ts other o :
  Forall2 (fun mut t => newTransformer mut = Ok t) muts ts ->
  ofoldM (applyTransformer other) o ts = ofoldM (mutate other) o muts.
Proof.
  intros H. revert o. induction H as [|mut t muts ts Hm _ IH]; intros o; simpl; [done|].
  unfold mutate at 1. rewrite Hm. simpl. destruct (applyTransformer other o t); simpl; auto.
Qed.

(** C20: compiling mutations once and applying the chain to every object is
    the same as interpreting the configured list from left to right, for
    both directions; compilation fails exactly if one of the mutations is
    empty or does not compile, whether or not an object ever reaches it. *)
Theorem NewMutator_correct spec :
  let fails := Exists (fun mut => is_ok (newTransformer mut) = false) in
  match NewMutator (Some spec) with
  | Ok (Some m) => ~ fails (ms_Spec spec ++ ms_Status spec) /\
      forall o other,
        MutateSpec m o other = ofoldM (mutate other) o (ms_Spec spec) /\
        MutateStatus m o other = ofoldM (mutate other) o (ms_Status spec)
  | Err _ => fails (ms_Spec spec ++ ms_Status spec)
  | _ => False
  end.
Proof.
  unfold NewMutator.
  pose proof (createAggregatedTransformer_spec (ms_Spec spec)) as H1.
  pose proof (createAggregatedTransformer_spec (ms_Status spec)) as H2.
  destruct (createAggregatedTransformer (ms_Spec spec)) as [a|e|m]; simpl; [|apply Exists_app; by left|done].
  destruct (createAggregatedTransformer (ms_Status spec)) as [b|e|m]; simpl; [|apply Exists_app; by right|done].
  split; [|intros o other; split; by apply chain_meaning].
  assert (forall muts ts, Forall2 (fun mut t => newTransformer mut = Ok t) muts ts ->
            Exists (fun mut => is_ok (newTransformer mut) = false) muts -> False) as Hno.
  { induction 1 as [|mut t muts ts Hm _ IH]; inversion 1; subst; [|auto]. by rewrite Hm in *. }
  rewrite Exists_app. intros [?|?]; eauto.
Qed.

Lemma ofoldM_mutate_no_panic other o muts msg : ofoldM (mutate (Some other)) o muts <> Panic msg.
Proof.
  apply ofoldM_no_panic. intros. apply obind_no_panic; eauto using newTransformer_no_panic, applyTransformer_no_panic.
Qed.

(** Without a counterpart, the first mutation that works on the encoded
    document is a nil dereference. *)
Lemma mutate_nil_panics o mut b :
  json_mutation mut = true -> is_ok (newTransformer mut) = true -> json_Marshal o = inl b ->
  mutate None o mut = Panic "invalid memory address or nil pointer dereference".
Proof.
  intros Hj Hok Hb. unfold mutate. apply is_ok_inv in Hok as [t Ht]. rewrite Ht. simpl.
  unfold json_mutation in Hj. unfold newTransformer in Ht.
  destruct (mut_Delete mut) as [d|]; simpl in Ht.
  { simplify_eq. unfold applyTransformer. simpl. by rewrite Hb. }
  destruct (mut_Regex mut) as [r|]; simpl in Ht; [|done].
  destruct (NewRegex r) as [t'| |]; simplify_eq/=. unfold applyTransformer. simpl. by rewrite Hb.
Qed.

Context {J : JsonLib}.

(** C21: the mutations of an object syncer never panic.  A chain with a
    delete or regex mutation dereferences the counterpart of the object it
    mutates, and would panic without one; the syncer creates the counterpart
    in memory when the copy does not exist yet. *)
Theorem applyMutations_no_panic (s : objectSyncer) spec source dest src tr msg :
  NewMutator spec = Ok (syn_mutator s) -> sd_object source = Some src ->
  (forall o msg, syn_destCreator s o <> Panic msg) ->
  ~ exec (applyMutations s source dest) tr (Panic msg).
Proof.
  intros Hm Hs Hc H. unfold applyMutations in H. destruct (syn_mutator s) as [m|] eqn:Em; [|by repeat exec_step].
  destruct spec as [spec|]; [|done]. pose proof (NewMutator_correct spec) as Hn. rewrite Hm in Hn.
  destruct Hn as (_ & Hn). rewrite Hs in H. cbn [deref] in H. rewrite bindM_retM in H.
  apply exec_bindM_liftO_inv in H.
  destruct (match sd_object dest with Some o => Ok o | None => _ end) as [d|e|p] eqn:Ed; [|by destruct H|].
  2: { destruct (sd_object dest); [done|]. by apply wrapErr_no_panic in Ed. }
  apply exec_bindM_liftO_inv in H. destruct (MutateSpec m src (Some d)) as [o|e|p] eqn:E1; simpl in H;
    [|by destruct H|].
  2: { rewrite (proj1 (Hn _ _)) in E1. by apply ofoldM_mutate_no_panic in E1. }
  destruct (sd_object dest) as [o'|]; [|by repeat exec_step].
  apply exec_bindM_liftO_inv in H. destruct (MutateStatus m o' (Some o)) as [o2|e|p] eqn:E2; simpl in H;
    [by repeat exec_step|by destruct H|].
  rewrite (proj2 (Hn _ _)) in E2. by apply ofoldM_mutate_no_panic in E2.
Qed.

End Spec.

(** ** Witnesses *)

(** Documents that consist of a name, with templates and expressions that
    yield it. *)
Module SampleMutation.

#[export] Instance lib : MutationLib := {|
  json_Marshal := fun o => inl (GetName o);
  json_Unmarshal := fun s => inl (SetName s (Sample.backup "ns" None None));
  Result := string;
  gjson_Find := fun doc _ => doc;
  Result_Value := VStr;
  Result_String := fun s => s;
  sjson_Set := fun doc _ v => inl match v with VStr s => s | _ => doc end;
  sjson_Delete := fun _ _ => inl "";
  mutation_Compile := fun p => inl (fun s r => if decide (s = p) then r else s);
  html_template := string;
  html_Parse := inl;
  html_Execute := fun t c => inl (t +:+ tmc_Value c);
  cel_scalar := unit;
  cel_env := unit;
  cel_ast := string;
  cel_program := string;
  cel_NewEnv := inl tt;
  env_Compile := fun _ e => inl e;
  env_Program := fun _ e => inl e;
  prg_Eval := fun e _ => inl (CelString e);
  scalar_ConvertToNative := fun _ => inl VNull
|}.

Definition rules : ResourceMutationSpec :=
  MkMutationSpec
    [MkMutation None (Some (MkRegexMutation "metadata.name" "nightly" "hourly")) None None;
     MkMutation None None (Some (MkTemplateMutation "metadata.name" "a-")) None] [].

Definition mutator : option Mutator :=
  match NewMutator (Some rules) with Ok m => m | _ => None end.

Definition syncer : objectSyncer :=
  MkObjectSyncer "agent" Sample.creator ["status"] true false true true ∅ ∅ mutator (Sample.memoryStore None)
    syncSideSource false DeletePropagationUnset false.

Definition source : syncSide := Sample.kcpSide (Sample.backup "ns" None None).
Definition pass := run echo (applyMutations syncer source (Sample.serviceSide None)) tt.

Example mutated_name :
  match pass.1.2 with Ok (s, _) => GetName <$> sd_object s | _ => None end = Some "a-hourly".
Proof. reflexivity. Qed.

End SampleMutation.

Lemma applyMutations_no_panic_witness :
  ~ exec (applyMutations SampleMutation.syncer SampleMutation.source (Sample.serviceSide None)) []
      (Panic "invalid memory address or nil pointer dereference").
Proof.
  apply (applyMutations_no_panic (L := SampleMutation.lib) SampleMutation.syncer (Some SampleMutation.rules)
           SampleMutation.source (Sample.serviceSide None) (Sample.backup "ns" None None) []).
  - reflexivity.
  - reflexivity.
  - intros o m H. discriminate.
Defined.
