(* ===== verification/Control.v ===== *)
(** What the controllers talk to: discovery, PublishedResources, CRDs and the
    kcp objects they manage.

    The sync code works on arbitrary objects through the signature [kube] of
    Kube.v.  The controllers that publish resources work on a few known
    types; [control] is the signature of their requests.  As in Kube.v, the
    answers are not constrained. *)

From S2P Require Import Prelude Effects Kube ApiTypes Projection.

(** ** Discovery documents *)

Record APIResource : Type := MkAPIResource {
  ar_Name : string;
  ar_SingularName : string;
  ar_Namespaced : bool;
  ar_Group : string;
  ar_Kind : string;
  ar_ShortNames : option (list string);
  ar_Categories : option (list string)
}.

Record APIResourceList : Type := MkAPIResourceList {
  arl_GroupVersion : string;
  arl_APIResources : list APIResource
}.

(** ** Objects in kcp *)

(** The versions of an APIResourceSchema are passed through unread. *)
Record APIResourceSchemaSpec : Type := MkARSSpec {
  as_Group : string;
  as_Names : CustomResourceDefinitionNames;
  as_Scope : string;
  as_Versions : list value;
  as_Conversion : option string
}.

Record APIResourceSchema : Type := MkARS {
  ars_Name : string;
  ars_Labels : option (gmap string string);
  ars_Annotations : option (gmap string string);
  ars_Spec : APIResourceSchemaSpec
}.

Record PermissionClaim : Type := MkClaim {
  pc_Group : string;
  pc_Resource : string;
  pc_All : bool;
  pc_ResourceSelector : list value;
  pc_IdentityHash : string
}.

#[export] Instance PermissionClaim_eq_dec : EqDecision PermissionClaim.
Proof. solve_decision. Defined.

Record APIExport : Type := MkAPIExport {
  ae_Name : string;
  ae_Annotations : option (gmap string string);
  ae_LatestResourceSchemas : list string;
  ae_PermissionClaims : list PermissionClaim;
  (* everything the program passes through *)
  ae_Other : gmap string value
}.

#[export] Instance APIExport_eq_dec : EqDecision APIExport.
Proof. solve_decision. Defined.

(** An APIExportEndpointSlice: the APIExport it belongs to, and the URLs of
    the virtual workspaces. *)
Record APIExportEndpointSlice : Type := MkEndpointSlice {
  es_Name : string;
  es_ExportPath : string;
  es_ExportName : string;
  es_Endpoints : list string
}.

(** A LogicalCluster: the cluster name it reports and its annotations. *)
Record LogicalCluster : Type := MkLogicalCluster {
  lcl_ClusterName : string;
  lcl_Annotations : option (gmap string string)
}.

(** ** Start-up *)

(** [rest.Config]: the host, the certificate authority as data and as a
    file, and everything the program passes through. *)
Record RestConfig : Type := MkRestConfig {
  rc_Host : string;
  rc_CAData : string;
  rc_CAFile : string;
  rc_Other : gmap string string
}.

(** What the start-up sets up through controller-runtime: managers, caches of
    one object of a workspace, runnables and controllers. *)
Inductive setupAction : Type :=
| SetupManager (cfg : RestConfig) (metrics health : string) (leaderElection : bool) (leaderElectionID namespace : string)
| SetupManagedCluster (host apiExport : string)
| SetupEndpointCluster (host endpointSlice : string)
| SetupMultiCluster (host endpointSlice : string)
| AddRunnable (name : string)
| AddController (name : string)
| StartManager.

(** What the toolkit prints, as YAML. *)
Inductive output : Type :=
| PrintCRD (crd : CustomResourceDefinition)
| PrintARS (ars : APIResourceSchema).

(** ** Requests *)

(** The gauge of [internal/metrics/metrics.go]; it holds a number of objects. *)
Record Gauge : Type := MkGauge { gauge_Name : string; gauge_Help : string }.

Definition PublishedResourcesManaged : Gauge :=
  MkGauge "sync_agent_published_resource"
    "Number of PublishedResources currently managed by this syncagent instance.".

(** What an event is about. *)
Inductive eventSubject : Type :=
| AboutPublishedResource (name : string)
| AboutAPIExport (name : string).

(** What a watch does with an event: enqueue the object itself, the source
    of a copy that the agent owns, or the primary objects of a related
    object, found through its owners or by a selector. *)
Inductive watchHandler : Type :=
| EnqueueObject
| EnqueueRemoteName (agentName : string)
| KcpByOwner (ownerGVK : GroupVersionKind)
| KcpBySelector (primary : GroupVersionKind) (sel : LabelSelector)
| ServiceByOwner (ownerGVK : GroupVersionKind)
| ServiceBySelector (primary : GroupVersionKind) (sel : Selector).

Inductive creq : Type :=
(* discovery on the service cluster, or on the cluster at a URL *)
| CServerGroupsAndResources (host : option string)
| CServerPreferredResources
| COpenAPISchema
| CGetCRD (name : string)
| CGetPublishedResource (key : NamespacedName)
| CListPublishedResources (sel : Selector)
| CPatchPublishedResourceStatus (pubRes original : PublishedResource)
| CGetEndpointSlice (host name : string)
| CGetLogicalCluster (host name : string)
| CGetAPIResourceSchema (name : string)
| CCreateAPIResourceSchema (ars : APIResourceSchema)
| CUpdateAPIResourceSchema (ars : APIResourceSchema)
| CGetAPIExport (host : option string) (name : string)
| CCreateAPIExport (e : APIExport)
| CUpdateAPIExport (e : APIExport)
| CEvent (about : eventSubject) (ty : EventType) (reason msg : string)
| CSetGauge (g : Gauge) (n : nat)
(* controllers: contexts that can be cancelled, watches, and the manager
   that runs controllers *)
| CKindFor (c : cluster) (gvr : GroupVersionResource)
| CNewUnmanaged (name : string)
| CMultiClusterWatch (ctrl : nat) (gvk : GroupVersionKind) (h : watchHandler)
| CWatch (ctrl : nat) (gvk : GroupVersionKind) (h : watchHandler)
| CWithCancel
| CCancel (ctx : nat)
| CStartController (ctx ctrl : nat)
(* start-up: the configuration of the service cluster, a kubeconfig file *)
| CGetConfigOrDie
| CLoadKubeconfig (filename : string)
| CSetup (a : setupAction)
(* the toolkit: its environment, files and standard output *)
| CGetenv (name : string)
| CReadPublishedResourceFile (filename : string)
| CReadKubeconfig (filename context : string)
| CPrintln (o : output).

Definition cresp (r : creq) : Type :=
  match r with
  | CServerGroupsAndResources _ | CServerPreferredResources => outcome (list APIResourceList)
  | COpenAPISchema => outcome value
  | CGetCRD _ => outcome CustomResourceDefinition
  | CGetPublishedResource _ => outcome PublishedResource
  | CListPublishedResources _ => outcome (list PublishedResource)
  | CPatchPublishedResourceStatus _ _ => outcome unit
  | CGetEndpointSlice _ _ => outcome APIExportEndpointSlice
  | CGetLogicalCluster _ _ => outcome LogicalCluster
  | CGetAPIResourceSchema _ => outcome APIResourceSchema
  | CCreateAPIResourceSchema _ | CUpdateAPIResourceSchema _ => outcome unit
  | CGetAPIExport _ _ => outcome APIExport
  | CCreateAPIExport _ | CUpdateAPIExport _ => outcome unit
  | CEvent _ _ _ _ => unit
  | CSetGauge _ _ => unit
  | CKindFor _ _ => outcome GroupVersionKind
  | CNewUnmanaged _ => outcome nat
  | CMultiClusterWatch _ _ _ | CWatch _ _ _ => outcome unit
  | CWithCancel => nat
  | CCancel _ => unit
  | CStartController _ _ => outcome unit
  | CGetConfigOrDie => RestConfig
  | CLoadKubeconfig _ => outcome (option RestConfig)
  | CSetup _ => outcome unit
  | CGetenv _ => string
  | CReadPublishedResourceFile _ => outcome PublishedResource
  (* the outer result is that of reading the file, the inner one that of [ClientConfig] *)
  | CReadKubeconfig _ _ => outcome (outcome unit)
  | CPrintln _ => outcome unit
  end.

Definition control : sig := Sig creq cresp.

(** Requests as programs. *)
Definition getCRD name : M control CustomResourceDefinition := Call (S := control) (CGetCRD name) Ret.
Definition ServerGroupsAndResources host : M control (list APIResourceList) :=
  Call (S := control) (CServerGroupsAndResources host) Ret.
Definition ServerPreferredResources : M control (list APIResourceList) :=
  Call (S := control) CServerPreferredResources Ret.
Definition OpenAPISchema : M control value := Call (S := control) COpenAPISchema Ret.
Definition getPublishedResource key : M control PublishedResource :=
  Call (S := control) (CGetPublishedResource key) Ret.
Definition listPublishedResources sel : M control (list PublishedResource) :=
  Call (S := control) (CListPublishedResources sel) Ret.
Definition patchPublishedResourceStatus p original : M control unit :=
  Call (S := control) (CPatchPublishedResourceStatus p original) Ret.
Definition getEndpointSlice host name : M control APIExportEndpointSlice :=
  Call (S := control) (CGetEndpointSlice host name) Ret.
Definition getLogicalCluster host name : M control LogicalCluster :=
  Call (S := control) (CGetLogicalCluster host name) Ret.
Definition getAPIResourceSchema name : M control APIResourceSchema :=
  Call (S := control) (CGetAPIResourceSchema name) Ret.
Definition createAPIResourceSchema ars : M control unit :=
  Call (S := control) (CCreateAPIResourceSchema ars) Ret.
Definition updateAPIResourceSchema ars : M control unit :=
  Call (S := control) (CUpdateAPIResourceSchema ars) Ret.
Definition getAPIExport host name : M control APIExport := Call (S := control) (CGetAPIExport host name) Ret.
Definition createAPIExport e : M control unit := Call (S := control) (CCreateAPIExport e) Ret.
Definition updateAPIExport e : M control unit := Call (S := control) (CUpdateAPIExport e) Ret.
Definition emitControlEvent about ty reason msg : M control unit :=
  Call (S := control) (CEvent about ty reason msg) (fun _ => Ret (Ok tt)).

Definition setGauge g n : M control unit := Call (S := control) (CSetGauge g n) (fun _ => Ret (Ok tt)).

Definition controlKindFor c gvr : M control GroupVersionKind := Call (S := control) (CKindFor c gvr) Ret.
Definition NewUnmanaged name : M control nat := Call (S := control) (CNewUnmanaged name) Ret.
Definition MultiClusterWatch ctrl gvk h : M control unit := Call (S := control) (CMultiClusterWatch ctrl gvk h) Ret.
Definition Watch ctrl gvk h : M control unit := Call (S := control) (CWatch ctrl gvk h) Ret.
Definition WithCancelCause : M control nat := Call (S := control) CWithCancel (fun ctx => Ret (Ok ctx)).
Definition cancelContext ctx : M control unit := Call (S := control) (CCancel ctx) (fun _ => Ret (Ok tt)).
Definition GetConfigOrDie : M control RestConfig := Call (S := control) CGetConfigOrDie (fun cfg => Ret (Ok cfg)).
Definition loadKubeconfig filename : M control (option RestConfig) := Call (S := control) (CLoadKubeconfig filename) Ret.
Definition Getenv name : M control string := Call (S := control) (CGetenv name) (fun v => Ret (Ok v)).
Definition ReadPublishedResourceFile filename : M control PublishedResource :=
  Call (S := control) (CReadPublishedResourceFile filename) Ret.
Definition ReadKubeconfig filename context : M control (outcome unit) := Call (S := control) (CReadKubeconfig filename context) Ret.
(** The encoding may fail. *)
Definition println o : M control unit := Call (S := control) (CPrintln o) Ret.
Definition setup a : M control unit := Call (S := control) (CSetup a) Ret.
Definition StartController ctx ctrl : M control unit := Call (S := control) (CStartController ctx ctrl) Ret.

(** [ctrlruntimeclient.IgnoreNotFound(err)] *)
Definition ignoreNotFound (e : gerror) : option gerror := if IsNotFound e then None else Some e.

(** Requests that only read. *)
Definition control_read (r : creq) : bool :=
  match r with
  | CPatchPublishedResourceStatus _ _ | CCreateAPIResourceSchema _ | CUpdateAPIResourceSchema _
  | CCreateAPIExport _ | CUpdateAPIExport _ | CEvent _ _ _ _ | CSetGauge _ _ => false
  | CNewUnmanaged _ | CMultiClusterWatch _ _ _ | CWatch _ _ _ | CWithCancel | CCancel _ | CStartController _ _ => false
  | CSetup _ | CPrintln _ => false
  | _ => true
  end.

(** What is asked to find a CRD. *)
Definition discovery (q : creq) : bool :=
  match q with
  | CServerGroupsAndResources None | CServerPreferredResources | COpenAPISchema | CGetCRD _ => true
  | _ => false
  end.
