(* ===== verification/Discovery.v ===== *)
(** Discovery of APIs: [internal/discovery/], with the functions of
    [internal/projection/projection.go] that start from a discovered CRD.

    [RetrieveCRD] finds the CRD of a kind, or builds one from the OpenAPI
    schema of the cluster for kinds that have no CRD.  [ResourceProber]
    tells whether a kind is served by every endpoint of an APIExport. *)

From S2P Require Import Prelude Effects Kube ApiTypes Projection Control.

(** ** Libraries

    Functions of the Kubernetes client libraries. *)

Class DiscoveryLib : Type := {
  (* group and version of an [apiVersion] *)
  ParseGroupVersion : string -> (string * string) + gerror;
  NewDiscoveryClientForConfig : option string -> unit + gerror;
  apiextensions_NewForConfig : option string -> unit + gerror;
  openapi_models : Type;
  openapi_model : Type;
  NewOpenAPIData : value -> openapi_models + gerror;
  GetModelsByGKV : openapi_models -> (GroupVersionKind -> option openapi_model) + gerror;
  (* [crdpuller.Convert]: the JSON schema, or a non-empty list of errors *)
  Convert : openapi_model -> value + gerror;
  SetDefaults_CustomResourceDefinition : CustomResourceDefinition -> CustomResourceDefinition;
  IsProtectedCommunityGroup : string -> bool
}.

Definition KubeAPIApprovedAnnotation : string := "api-approved.kubernetes.io".
Definition NonStructuralSchema : string := "NonStructuralSchema".
Definition NoneConverter : string := "None".

(** A library call as a step of a program. *)
Definition callLib {A} (r : A + gerror) : M control A :=
  liftO match r with inl a => Ok a | inr e => Err e end.

(** ** [client.go]: scanning the discovery documents *)

Record discovered : Type := MkDiscovered {
  d_resource : option APIResource;
  d_availableVersions : gset string;
  d_subresourcesPerVersion : gmap string (gset string)
}.

Definition nothingDiscovered : discovered := MkDiscovered None ∅ ∅.

(** The subresource that [res] describes, or the empty string. *)
Definition subresourceOf (res : APIResource) : string :=
  if Contains (ar_Name res) "/" then
    nth 1 (SplitN "/"%char 2 (ar_Name res)) ""
  else "".

Definition scanResource (gk : GroupKind) (version : string) (d : discovered) (res : APIResource) : discovered :=
  if decide (ar_Kind res <> gk_kind gk) then d
  else
    let subresource := subresourceOf res in
    let versions := {[version]} ∪ d_availableVersions d in
    if decide (subresource = "") then MkDiscovered (Some res) versions (d_subresourcesPerVersion d)
    else
      let list := default ∅ (d_subresourcesPerVersion d !! version) in
      MkDiscovered (d_resource d) versions
        (<[version := {[subresource]} ∪ list]> (d_subresourcesPerVersion d)).

Section Discovery.
Context {L : DiscoveryLib} {K : KubeVersions} {R : SetRange}.

Definition parseGV (s : string) : outcome (string * string) :=
  match ParseGroupVersion s with
  | inl gv => Ok gv
  | inr e => Err (Wrapped ("invalid API group version " +:+ s +:+ " reported by Kubernetes") e)
  end.

Definition scanList (gk : GroupKind) (d : discovered) (resList : APIResourceList) : outcome discovered :=
  let! (group, version) := parseGV (arl_GroupVersion resList) in
  if decide (group <> gk_group gk) then Ok d
  else Ok (foldl (scanResource gk version) d (arl_APIResources resList)).

(** ** [client.go]: CRDs *)

Definition filterAnnotations (ann : option (gmap string string)) : gmap string string :=
  let allowlist := [KubeAPIApprovedAnnotation] in
  filter (fun kv => kv.1 ∈ allowlist) (default ∅ ann).

Definition emptySchema : value :=
  VObj {[ "type" := VStr "object"; "x-kubernetes-preserve-unknown-fields" := VBool true ]}.

Definition fillSchema (v : CustomResourceDefinitionVersion) : CustomResourceDefinitionVersion :=
  match cv_Schema v with
  | Some (Some _) => v
  | _ => MkVersion (cv_Name v) (cv_Served v) (cv_Storage v) (Some (Some emptySchema)) (cv_Subresources v) (cv_Other v)
  end.

(** What is kept of a CRD that exists. *)
Definition stripCRD (crd : CustomResourceDefinition) : CustomResourceDefinition :=
  let crd := if decide (NonStructuralSchema ∈ crd_Conditions crd)
             then set_versions (fillSchema <$> crd_Versions crd) crd else crd in
  let s := crd_Spec crd in
  MkCRD (crd_Name crd) (Some (filterAnnotations (crd_Annotations crd))) (crd_Generation crd) []
    (MkCRDSpec (cs_Group s) (cs_Names s) (cs_Scope s) (cs_Versions s) (Some NoneConverter)).

Definition crdName (gk : GroupKind) (resource : APIResource) : string :=
  if decide (gk_group gk = "") then ar_Name resource +:+ ".core"
  else ar_Name resource +:+ "." +:+ gk_group gk.

(** The first list that has the resource decides. *)
Fixpoint preferredVersion (group name : string) (lists : list APIResourceList) : outcome string :=
  match lists with
  | [] => Ok ""
  | resList :: lists' =>
      let! (g, version) := parseGV (arl_GroupVersion resList) in
      if decide (g <> group) then preferredVersion group name lists'
      else if existsb (fun res => bool_decide (ar_Name res = name)) (arl_APIResources resList) then Ok version
      else preferredVersion group name lists'
  end.

Definition getPreferredVersion (resource : APIResource) : M control string :=
  let* result := ServerPreferredResources in
  liftO (preferredVersion (ar_Group resource) (ar_Name resource) result).

Definition versionSubresources (subresources : gset string) : CustomResourceSubresources :=
  MkSubresources (bool_decide ("status" ∈ subresources))
    (if decide ("scale" ∈ subresources) then Some (".spec.replicas", ".status.replicas") else None).

Definition buildVersion (gk : GroupKind) (modelsByGKV : GroupVersionKind -> option openapi_model)
    (d : discovered) (preferred version : string) : outcome CustomResourceDefinitionVersion :=
  let subresources := default ∅ (d_subresourcesPerVersion d !! version) in
  let gvk := GVK (gk_group gk) version (gk_kind gk) in
  match modelsByGKV gvk with
  | None => Err (ErrorString "no models")
  | Some protoSchema =>
      let! schemaProps := match Convert protoSchema with inl v => Ok v | inr e => Err e end in
      Ok (MkVersion version true (bool_decide (version = preferred)) (Some (Some schemaProps))
            (Some (versionSubresources subresources)) ∅)
  end.

Definition kube_le (a b : string) : bool := (CompareKubeAwareVersionStrings a b <=? 0)%Z.

(** The CRD that stands for a kind without a CRD. *)
Definition buildCRD (gk : GroupKind) (resource : APIResource) (d : discovered)
    (modelsByGKV : GroupVersionKind -> option openapi_model) (preferred : string)
  : outcome CustomResourceDefinition :=
  let scope := if ar_Namespaced resource then NamespaceScoped else ClusterScoped in
  let names := MkNames (ar_Name resource) (ar_SingularName resource) (ar_Kind resource) ""
                 (ar_ShortNames resource) (ar_Categories resource) in
  let sortedVersions := SortFunc kube_le (UnsortedList (d_availableVersions d)) in
  let! versions := omapM (buildVersion gk modelsByGKV d preferred) sortedVersions in
  let out := SetDefaults_CustomResourceDefinition
               (MkCRD (crdName gk resource) None 0 [] (MkCRDSpec (gk_group gk) names scope versions None)) in
  Ok (if IsProtectedCommunityGroup (gk_group gk)
      then MkCRD (crd_Name out)
             (Some {[ KubeAPIApprovedAnnotation := "https://github.com/kcp-dev/kubernetes/pull/4" ]})
             (crd_Generation out) (crd_Conditions out) (crd_Spec out)
      else out).

Definition withGroup (group : string) (r : APIResource) : APIResource :=
  MkAPIResource (ar_Name r) (ar_SingularName r) (ar_Namespaced r) group (ar_Kind r) (ar_ShortNames r) (ar_Categories r).

Definition RetrieveCRD (gk : GroupKind) : M control CustomResourceDefinition :=
  let* resourceLists := ServerGroupsAndResources None in
  let* d := liftO (ofoldM (scanList gk) nothingDiscovered resourceLists) in
  match d_resource d with
  | None => failM (ErrorString "could not find the kind in APIs")
  | Some resource =>
      let resource := withGroup (gk_group gk) resource in
      let* found := tryM (getCRD (crdName gk resource)) in
      match found with
      | inl crd => retM (stripCRD crd)
      | inr err =>
          if IsNotFound err then
            let* openapiSchema := OpenAPISchema in
            let* preferred := getPreferredVersion resource in
            if decide (preferred = "") then
              failM (ErrorString "cannot determine storage version because no preferred version exists in the schema")
            else
              let* models := callLib (NewOpenAPIData openapiSchema) in
              let* modelsByGKV := callLib (GetModelsByGKV models) in
              liftO (buildCRD gk resource d modelsByGKV preferred)
          else failM err
      end
  end.

Definition NewClient (host : option string) : outcome unit :=
  match NewDiscoveryClientForConfig host, apiextensions_NewForConfig host with
  | inl _, inl _ => Ok tt
  | inl _, inr e | inr e, _ => Err e
  end.

(** ** [projection.go]: projecting a discovered CRD *)

Definition ProjectPublishedResource (pubRes : PublishedResource) : M control CustomResourceDefinition :=
  let localGK := PublishedResourceSourceGK pubRes in
  let* crd := wrapM "failed to discover resource defined in PublishedResource" (RetrieveCRD localGK) in
  liftO (wrapErr "failed to apply projection rules" (ProjectCRD crd pubRes)).

Definition ProjectPublishedResourceGVK (pubRes : PublishedResource) : M control GroupVersionKind :=
  let localGK := PublishedResourceSourceGK pubRes in
  let* crd := wrapM "failed to discover resource defined in PublishedResource" (RetrieveCRD localGK) in
  liftO (PublishedResourceProjectedGVK crd pubRes).

(** ** [resource_prober.go] *)

Record ResourceProber : Type := MkProber {
  rp_name : string;
  rp_config : string
}.

Definition matchFunc : Type := string -> string -> string -> string -> bool.

Fixpoint matchLists (match_ : matchFunc) (lists : list APIResourceList) : outcome bool :=
  match lists with
  | [] => Ok false
  | resList :: lists' =>
      let! (group, version) := parseGV (arl_GroupVersion resList) in
      if existsb (fun res => match_ group version (ar_Name res) (ar_Kind res)) (arl_APIResources resList)
      then Ok true else matchLists match_ lists'
  end.

Definition hasAPIThingInEndpoint (endpoint : string) (match_ : matchFunc) : M control bool :=
  let host := endpoint +:+ "/clusters/*" in
  let* _ := wrapM "failed to create discovery client" (callLib (NewDiscoveryClientForConfig (Some host))) in
  let* resourceLists := wrapM "failed to discover APIs" (ServerGroupsAndResources (Some host)) in
  liftO (matchLists match_ resourceLists).

Fixpoint hasInAll (match_ : matchFunc) (endpoints : list string) : M control bool :=
  match endpoints with
  | [] => retM true
  | endpoint :: endpoints' =>
      let* has := hasAPIThingInEndpoint endpoint match_ in
      if has then hasInAll match_ endpoints' else retM false
  end.

Definition hasAPIThing (p : ResourceProber) (match_ : matchFunc) : M control bool :=
  let* endpointSlice := wrapM "failed to get APIExportEndpointSlice" (getEndpointSlice (rp_config p) (rp_name p)) in
  hasInAll match_ (es_Endpoints endpointSlice).

Definition HasGVR (p : ResourceProber) (gvr : GroupVersionResource) : M control bool :=
  hasAPIThing p (fun apiGroup version resource _ =>
    bool_decide (apiGroup = gvr_group gvr /\ version = gvr_version gvr /\ resource = gvr_resource gvr)).

Definition HasGVK (p : ResourceProber) (gvk : GroupVersionKind) : M control bool :=
  hasAPIThing p (fun apiGroup version _ kind =>
    bool_decide (apiGroup = gvk_group gvk /\ version = gvk_version gvk /\ kind = gvk_kind gvk)).

End Discovery.

(** ** What the libraries promise *)

Class DiscoveryLaws (L : DiscoveryLib) : Prop := {
  defaults_keep_group c : cs_Group (crd_Spec (SetDefaults_CustomResourceDefinition c)) = cs_Group (crd_Spec c);
  defaults_keep_versions c : crd_Versions (SetDefaults_CustomResourceDefinition c) = crd_Versions c
}.

Section Facts.
Context {L : DiscoveryLib} {K : KubeVersions} {R : SetRange}.

(** The discovery documents list a resource of this kind in this version. *)
Definition serves (gk : GroupKind) (lists : list APIResourceList) (version : string) : Prop :=
  exists resList res, resList ∈ lists /\
    ParseGroupVersion (arl_GroupVersion resList) = inl (gk_group gk, version) /\
    res ∈ arl_APIResources resList /\ ar_Kind res = gk_kind gk.

(** The discovery documents list this resource of the kind, not a subresource. *)
Definition listed (gk : GroupKind) (lists : list APIResourceList) (res : APIResource) : Prop :=
  exists resList version, resList ∈ lists /\
    ParseGroupVersion (arl_GroupVersion resList) = inl (gk_group gk, version) /\
    res ∈ arl_APIResources resList /\ ar_Kind res = gk_kind gk /\ subresourceOf res = "".

(** The cluster prefers this version of a resource: it is the version of the
    first list of the group that has the resource. *)
Definition has_resource (group name : string) (resList : APIResourceList) (version : string) : Prop :=
  ParseGroupVersion (arl_GroupVersion resList) = inl (group, version) /\
  exists res, res ∈ arl_APIResources resList /\ ar_Name res = name.

Definition prefers (group name : string) (lists : list APIResourceList) (version : string) : Prop :=
  exists before resList after, lists = before ++ resList :: after /\ has_resource group name resList version /\
    forall resList' version', resList' ∈ before -> ~ has_resource group name resList' version'.

(** ** Lemmas on the scan *)

Lemma scanResource_versions gk version d res v :
  v ∈ d_availableVersions (scanResource gk version d res) <->
  v ∈ d_availableVersions d \/ (v = version /\ ar_Kind res = gk_kind gk).
Proof. unfold scanResource. repeat case_decide; simpl; set_solver. Qed.

Lemma scanResources_versions gk version ress d v :
  v ∈ d_availableVersions (foldl (scanResource gk version) d ress) <->
  v ∈ d_availableVersions d \/ (v = version /\ exists res, res ∈ ress /\ ar_Kind res = gk_kind gk).
Proof.
  revert d. induction ress as [|res ress IH]; intros d; simpl.
  - split; [by left|]. intros [?|(_ & ? & ?%elem_of_nil & _)]; done.
  - rewrite IH, scanResource_versions. set_solver.
Qed.

Lemma parseGV_ok s gv : parseGV s = Ok gv -> ParseGroupVersion s = inl gv.
Proof. unfold parseGV. destruct (ParseGroupVersion s); naive_solver. Qed.

Lemma scan_versions gk lists d d' v :
  ofoldM (scanList gk) d lists = Ok d' ->
  v ∈ d_availableVersions d' <-> v ∈ d_availableVersions d \/ serves gk lists v.
Proof.
  revert d. induction lists as [|resList lists IH]; intros d H; simpl in H.
  - simplify_eq. split; [by left|]. intros [?|(? & ? & ?%elem_of_nil & _)]; done.
  - apply obind_ok_inv in H as (d1 & H1 & H). rewrite (IH _ H). clear IH H.
    unfold scanList in H1. apply obind_ok_inv in H1 as ([g ver] & Hgv%parseGV_ok & H1).
    assert (serves gk (resList :: lists) v <->
      (serves gk lists v \/ (g = gk_group gk /\ v = ver /\
         exists res, res ∈ arl_APIResources resList /\ ar_Kind res = gk_kind gk))) as ->.
    { unfold serves. split.
      - intros (l & res & Hl & Hp & Hr & Hk). apply elem_of_cons in Hl as [->|Hl]; [|by left; eauto 8].
        right. rewrite Hgv in Hp. simplify_eq. eauto.
      - intros [(l & res & ? & ?)|(-> & -> & res & ? & ?)]; [exists l, res|exists resList, res]; set_solver. }
    case_decide; simplify_eq.
    + naive_solver.
    + rewrite scanResources_versions. naive_solver.
Qed.

Lemma scanResources_resource gk version ress d res :
  d_resource (foldl (scanResource gk version) d ress) = Some res ->
  d_resource d = Some res \/ (res ∈ ress /\ ar_Kind res = gk_kind gk /\ subresourceOf res = "").
Proof.
  revert d. induction ress as [|r ress IH]; intros d; simpl; [by left|]. intros H%IH.
  destruct H as [H|(? & ?)]; [|by right; split; [right|]]. unfold scanResource in H.
  case_decide; [by left|]. destruct (decide (subresourceOf r = "")) as [Hs|].
  - injection H as <-. right. split; [by left|]. split; [|done]. by destruct (decide (ar_Kind r = gk_kind gk)).
  - by left.
Qed.

Lemma scan_resource gk lists d d' res :
  ofoldM (scanList gk) d lists = Ok d' -> d_resource d' = Some res ->
  d_resource d = Some res \/ listed gk lists res.
Proof.
  revert d. induction lists as [|resList lists IH]; intros d H Hr; simpl in H; [simplify_eq; by left|].
  apply obind_ok_inv in H as (d1 & H1 & H). destruct (IH _ H Hr) as [Hd|(l & v & ? & ?)].
  2: { right. exists l, v. split; [by right|done]. }
  unfold scanList in H1. apply obind_ok_inv in H1 as ([g ver] & Hgv%parseGV_ok & H1).
  destruct (decide (g <> gk_group gk)) as [|Hg%dec_stable]; simplify_eq; [by left|].
  apply scanResources_resource in Hd as [?|(? & ? & ?)]; [by left|right].
  exists resList, ver. split; [by left|]. done.
Qed.

Lemma preferredVersion_prefers group name lists version :
  preferredVersion group name lists = Ok version -> version <> "" -> prefers group name lists version.
Proof.
  induction lists as [|resList lists IH]; simpl; intros H Hv; [by simplify_eq|].
  apply obind_ok_inv in H as ([g v] & Hp%parseGV_ok & H).
  assert (preferredVersion group name lists = Ok version -> (forall v', ~ has_resource group name resList v') ->
    prefers group name (resList :: lists) version) as Hlater.
  { intros H' Hno. destruct (IH H' Hv) as (before & l & after & -> & Hl & Hb).
    exists (resList :: before), l, after. split_and!; [done..|]. intros l' v' [->|]%elem_of_cons; eauto. }
  case_decide as Hg.
  - apply Hlater; [done|]. intros v' (Hp' & _). rewrite Hp in Hp'. congruence.
  - subst g. destruct (existsb _ _) eqn:E; simplify_eq.
    + apply existsb_exists in E as (res & Hin%list_elem_of_In & Hn%bool_decide_eq_true).
      exists [], resList, lists. split_and!; [done| |by intros ? ? ?%elem_of_nil].
      split; [done|by exists res].
    + apply Hlater; [done|]. intros v' (_ & res & Hin & Hn). apply not_true_iff_false in E. apply E, existsb_exists.
      exists res. split; [by apply list_elem_of_In|]. by apply bool_decide_eq_true.
Qed.

(** ** The versions of a CRD that was built *)

Lemma omapM_Forall2 {A B} (f : A -> outcome B) l ys :
  omapM f l = Ok ys -> Forall2 (fun x y => f x = Ok y) l ys.
Proof.
  revert ys. induction l as [|x l IH]; intros ys H; simpl in H; simplify_eq; [constructor|].
  apply obind_ok_inv in H as (y & Hy & H). apply obind_ok_inv in H as (ys' & Hys & H). simplify_eq.
  constructor; auto.
Qed.

Lemma buildVersion_ok gk models d preferred v cv :
  buildVersion gk models d preferred v = Ok cv ->
  cv_Name cv = v /\ cv_Served cv = true /\ cv_Storage cv = bool_decide (v = preferred).
Proof.
  unfold buildVersion. destruct (models _); [|done]. destruct (Convert _); simpl; [|done]. by intros [= <-].
Qed.

Definition built_versions (d : discovered) : list string := SortFunc kube_le (UnsortedList (d_availableVersions d)).

Lemma buildCRD_versions `{!DiscoveryLaws L} gk resource d models preferred crd :
  buildCRD gk resource d models preferred = Ok crd ->
  Forall2 (fun v cv => cv_Name cv = v /\ cv_Served cv = true /\ cv_Storage cv = bool_decide (v = preferred))
    (built_versions d) (crd_Versions crd).
Proof.
  unfold buildCRD. intros (vs & Hvs & H)%obind_ok_inv. simplify_eq.
  assert (crd_Versions (if IsProtectedCommunityGroup (gk_group gk) then _ else _) = vs) as ->.
  { destruct (IsProtectedCommunityGroup _); [unfold crd_Versions; cbn [crd_Spec]|]; apply defaults_keep_versions. }
  eapply Forall2_impl; [by apply omapM_Forall2|]. intros v cv. apply buildVersion_ok.
Qed.

Lemma built_names `{!DiscoveryLaws L} gk resource d models preferred crd :
  buildCRD gk resource d models preferred = Ok crd -> version_names (crd_Versions crd) = built_versions d.
Proof.
  intros H%buildCRD_versions. revert H. generalize (built_versions d) (crd_Versions crd).
  induction 1 as [|v cv vs cvs (<- & _) _ IH]; simpl; [done|]. by f_equal.
Qed.

Lemma built_versions_perm `{!SetRangeLaws R} d : built_versions d ≡ₚ elements (d_availableVersions d).
Proof. unfold built_versions. by rewrite SortFunc_Permutation, UnsortedList_perm. Qed.

Lemma storage_count_built preferred vs cvs :
  NoDup vs -> Forall2 (fun v cv => cv_Name cv = v /\ cv_Served cv = true /\ cv_Storage cv = bool_decide (v = preferred))
                vs cvs -> storage_count cvs = if decide (preferred ∈ vs) then 1 else 0.
Proof.
  intros Hnd H. induction H as [|v cv vs cvs (_ & _ & Hst) _ IH]; [by case_decide; [set_solver|]|].
  apply NoDup_cons in Hnd as [Hni Hnd]. unfold storage_count in *. simpl. rewrite Hst.
  case_bool_decide; subst; simpl; rewrite IH by done; repeat case_decide; set_solver.
Qed.

(** ** Taking [RetrieveCRD] apart *)

Lemma callLib_inv {A} (r : A + gerror) tr a : exec (callLib r) tr (Ok a) -> tr = [] /\ r = inl a.
Proof. unfold callLib. destruct r; intros H; by exec_inv. Qed.

Lemma RetrieveCRD_inv gk tr crd :
  exec (RetrieveCRD gk) tr (Ok crd) ->
  exists lists d resource x tr',
    tr = Ev (S := control) (CServerGroupsAndResources None) (Ok lists) ::
         Ev (S := control) (CGetCRD (crdName gk (withGroup (gk_group gk) resource))) x :: tr' /\
    ofoldM (scanList gk) nothingDiscovered lists = Ok d /\ d_resource d = Some resource /\
    match x with
    | Ok c => tr' = [] /\ crd = stripCRD c
    | Err e => IsNotFound e = true /\ exists result models preferred,
                 Ev (S := control) CServerPreferredResources (Ok result) ∈ tr' /\
                 preferredVersion (gk_group gk) (ar_Name resource) result = Ok preferred /\ preferred <> "" /\
                 buildCRD gk (withGroup (gk_group gk) resource) d models preferred = Ok crd
    | Panic _ => False
    end.
Proof.
  unfold RetrieveCRD. intros H. apply exec_bindM_ok_inv in H as (t1 & t2 & lists & -> & H1 & H).
  unfold ServerGroupsAndResources in H1. revert H. repeat exec_step. intros H.
  apply exec_bindM_liftO_inv in H. destruct (ofoldM _ _ lists) as [d| |] eqn:Ed; [|by destruct H..].
  destruct (d_resource d) as [resource|] eqn:Er; [|by exec_inv].
  apply exec_bindM_ok_inv in H as (t3 & t4 & found & -> & H2 & H).
  apply exec_tryM_inv in H2 as (o & H2 & Eo). unfold getCRD in H2. revert H. repeat exec_step. intros H.
  exists lists, d, resource, x, t4. do 3 (split; [done|]).
  destruct x as [c|e|m]; simplify_eq/=; [by exec_inv|].
  destruct (IsNotFound e) eqn:En; [|by exec_inv]. split; [done|].
  apply exec_bindM_ok_inv in H as (t5 & t6 & doc & -> & _ & H).
  apply exec_bindM_ok_inv in H as (t7 & t8 & preferred & -> & Hp & H).
  unfold getPreferredVersion, ServerPreferredResources in Hp. repeat exec_step.
  case_decide; [by exec_inv|].
  apply exec_bindM_ok_inv in H as (t9 & t10 & models & -> & _ & H).
  apply exec_bindM_ok_inv in H as (t11 & t12 & byGKV & -> & _ & H). repeat exec_step.
  eexists _, _, preferred. split; [|eauto]. set_solver.
Qed.

End Facts.

(** ** Properties *)

Section Properties.
Context {L : DiscoveryLib} {K : KubeVersions} {R : SetRange}.
Context {DL : DiscoveryLaws L} {KL : KubeVersionLaws K} {RL : SetRangeLaws R}.

Lemma kube_le_total a b : kube_le a b = true \/ kube_le b a = true.
Proof. unfold kube_le. rewrite !Z.leb_le. apply kube_compare_total. Qed.

Lemma kube_le_trans a b c : kube_le a b = true -> kube_le b c = true -> kube_le a c = true.
Proof. unfold kube_le. rewrite !Z.leb_le. apply kube_compare_trans. Qed.

Lemma kube_le_antisym a b : kube_le a b = true -> kube_le b a = true -> a = b.
Proof. unfold kube_le. rewrite !Z.leb_le. apply kube_compare_antisym. Qed.

(** C27: a kind without a CRD is described by a CRD that has exactly the
    versions in which the cluster serves it, each once, all of them served,
    in the order of Kubernetes versions.  Only the version is stored that
    the cluster prefers for the resource of the kind: the version of the
    first list, among the preferred resources that it reports, that has this
    resource in the group. *)
Theorem RetrieveCRD_fallback gk tr crd :
  exec (RetrieveCRD gk) tr (Ok crd) ->
  exists lists resource x tr',
    tr = Ev (S := control) (CServerGroupsAndResources None) (Ok lists) ::
         Ev (S := control) (CGetCRD (crdName gk resource)) x :: tr' /\
    ar_Group resource = gk_group gk /\
    (exists res, listed gk lists res /\ ar_Name res = ar_Name resource) /\
    forall e, x = Err e ->
      let names := version_names (crd_Versions crd) in
      NoDup names /\ (forall v, v ∈ names <-> serves gk lists v) /\
      Sorted (fun a b => kube_le a b = true) names /\
      exists result preferred,
        Ev (S := control) CServerPreferredResources (Ok result) ∈ tr' /\
        prefers (gk_group gk) (ar_Name resource) result preferred /\
        Forall (fun v => cv_Served v = true /\ cv_Storage v = bool_decide (cv_Name v = preferred))
          (crd_Versions crd).
Proof.
  intros (lists & d & resource & x & tr' & -> & Hd & Hr & Hx)%RetrieveCRD_inv.
  exists lists, (withGroup (gk_group gk) resource), x, tr'. split_and!; [done..| |].
  { exists resource. split; [|done]. by destruct (scan_resource _ _ _ _ _ Hd Hr). }
  intros e ->. destruct Hx as (_ & result & models & preferred & Hin & Hp & Hne & Hb).
  cbv zeta. rewrite (built_names _ _ _ _ _ _ Hb). split_and!.
  - rewrite built_versions_perm. apply NoDup_elements.
  - intros v. rewrite built_versions_perm, elem_of_elements, (scan_versions _ _ _ _ v Hd). set_solver.
  - apply SortFunc_Sorted, kube_le_total.
  - exists result, preferred. split_and!; [done|by apply preferredVersion_prefers|].
    apply buildCRD_versions in Hb. revert Hb.
    generalize (built_versions d) (crd_Versions crd). induction 1 as [|v cv vs cvs (<- & ?) _ IH]; by constructor.
Qed.

(** The order in which Go hands out the elements of a set does not
    matter: the CRD that is built is the same for any two orders. *)
Lemma buildCRD_deterministic (R' : SetRange) (RL' : SetRangeLaws R') gk resource d models preferred :
  buildCRD (R := R) gk resource d models preferred = buildCRD (R := R') gk resource d models preferred.
Proof.
  unfold buildCRD. assert (SortFunc kube_le (UnsortedList (SetRange := R) (d_availableVersions d))
    = SortFunc kube_le (UnsortedList (SetRange := R') (d_availableVersions d))) as ->; [|done].
  apply SortFunc_unique; [exact kube_le_total|exact kube_le_trans|by rewrite !UnsortedList_perm|].
  intros a b _ _. apply kube_le_antisym.
Qed.

(** The answers of a sane cluster: CRDs are valid, and versions have names. *)
Definition sane_event (gk : GroupKind) (ev : event control) : Prop :=
  match ev with
  | Ev (CGetCRD _) (Ok c) => crd_valid c
  | Ev (CServerGroupsAndResources _) (Ok lists) => forall v, serves gk lists v -> v <> ""
  | _ => True
  end.

Lemma stripCRD_valid c : crd_valid c -> crd_valid (stripCRD c).
Proof.
  unfold crd_valid, stripCRD. case_decide; [|done]. unfold crd_Versions. simpl. unfold version_names.
  assert (forall vs : list _, cv_Name <$> (fillSchema <$> vs) = cv_Name <$> vs) as Hn.
  { induction vs as [|v vs IH]; [done|]. cbn. f_equal; [|exact IH]. unfold fillSchema. by repeat case_match. }
  assert (forall vs : list _, storage_count (fillSchema <$> vs) = storage_count vs) as Hs.
  { unfold storage_count. induction vs as [|v vs IH]; simpl; [done|].
    assert (cv_Storage (fillSchema v) = cv_Storage v) as -> by (unfold fillSchema; by repeat case_match).
    destruct (cv_Storage v); cbn; [f_equal|]; exact IH. }
  intros (Hnd & Hne & Hst). rewrite Hn, Hs. split_and!; [done| |done]. apply Forall_fmap.
  eapply Forall_impl; [done|]. intros v. simpl. unfold fillSchema. by repeat case_match.
Qed.

Lemma RetrieveCRD_valid gk tr crd :
  exec (RetrieveCRD gk) tr (Ok crd) -> Forall (sane_event gk) tr -> crd_valid crd.
Proof.
  intros (lists & d & resource & x & tr' & -> & Hd & _ & Hx)%RetrieveCRD_inv Hsane.
  apply Forall_cons in Hsane as [Hl [Hc _]%Forall_cons]. simpl in Hl, Hc.
  destruct x as [c|e|m]; [|destruct Hx as (_ & result & models & preferred & _ & _ & _ & Hb)|done].
  { destruct Hx as (_ & ->). by apply stripCRD_valid. }
  pose proof (buildCRD_versions _ _ _ _ _ _ Hb) as HF.
  assert (NoDup (built_versions d)) as Hnd by (rewrite built_versions_perm; apply NoDup_elements).
  unfold crd_valid. rewrite (built_names _ _ _ _ _ _ Hb), (storage_count_built _ _ _ Hnd HF).
  split_and!; [done| |case_decide; lia].
  apply (Forall_fmap cv_Name (fun s => s <> "") (crd_Versions crd)). fold (version_names (crd_Versions crd)).
  rewrite (built_names _ _ _ _ _ _ Hb). apply Forall_forall. intros v. rewrite built_versions_perm, elem_of_elements, (scan_versions _ _ _ _ v Hd).
  intros [?|?]; [set_solver|auto].
Qed.

(** C28: whatever a published resource refers to, a CRD or a built-in kind,
    its projection can be published when the cluster's answers are sane (its
    CRDs are valid, and the versions it lists have names): the names of the
    versions are unique, at least one version is served, and exactly one
    version, not necessarily a served one, is the storage version.  Finding
    it only reads. *)
Theorem ProjectPublishedResource_publishable pubRes tr o :
  exec (ProjectPublishedResource pubRes) tr o ->
  Forall (fun r => control_read r = true) (requests tr) /\
  forall crd, o = Ok crd -> Forall (sane_event (PublishedResourceSourceGK pubRes)) tr ->
    NoDup (version_names (crd_Versions crd)) /\ storage_count (crd_Versions crd) = 1 /\
    Exists (fun v => cv_Served v = true) (crd_Versions crd).
Proof.
  intros H. split.
  - eapply (always_exec (S := control)); [|exact H]. unfold ProjectPublishedResource, RetrieveCRD, getPreferredVersion.
    repeat always_step; try done.
  - intros crd -> Hsane. unfold ProjectPublishedResource in H.
    apply exec_bindM_ok_inv in H as (t1 & t2 & c & -> & H1%exec_wrapM_ok_inv & H).
    repeat exec_step. apply Forall_app in Hsane as [Hsane _].
    match goal with E : Ok crd = wrapErr _ (ProjectCRD c pubRes) |- _ => symmetry in E; apply wrapErr_ok_inv in E end.
    pose proof (ProjectCRD_sound c pubRes crd (RetrieveCRD_valid _ _ _ H1 Hsane)) as HP. naive_solver.
Qed.

End Properties.

Section Prober.
Context {L : DiscoveryLib}.

(** A discovery document lists this kind. *)
Definition gvk_served (gvk : GroupVersionKind) (lists : list APIResourceList) : Prop :=
  serves (GK (gvk_group gvk) (gvk_kind gvk)) lists (gvk_version gvk).

Lemma matchLists_gvk gvk lists b :
  matchLists (fun apiGroup version _ kind =>
    bool_decide (apiGroup = gvk_group gvk /\ version = gvk_version gvk /\ kind = gvk_kind gvk)) lists = Ok b ->
  if b then gvk_served gvk lists else ~ gvk_served gvk lists.
Proof.
  unfold gvk_served, serves. induction lists as [|resList lists IH]; simpl; intros H; simplify_eq.
  { intros (? & ? & ?%elem_of_nil & _). done. }
  apply obind_ok_inv in H as ([g v] & Hp%parseGV_ok & H).
  destruct (existsb _ _) eqn:E.
  - simplify_eq. apply existsb_exists in E as (res & Hin & Hb). apply list_elem_of_In in Hin.
    apply bool_decide_eq_true in Hb as (-> & -> & Hk). exists resList, res. set_solver.
  - specialize (IH H). destruct b.
    + destruct IH as (l & res & ? & ?). exists l, res. set_solver.
    + intros (l & res & Hl & Hp' & Hr & Hk). apply elem_of_cons in Hl as [->|Hl]; [|apply IH; eauto 8].
      rewrite Hp in Hp'. simplify_eq/=. apply not_true_iff_false in E. apply E, existsb_exists.
      exists res. rewrite <- list_elem_of_In, bool_decide_eq_true. auto.
Qed.

(** Asking one endpoint. *)
Definition probe (endpoint : string) (lists : list APIResourceList) : event control :=
  Ev (S := control) (CServerGroupsAndResources (Some (endpoint +:+ "/clusters/*"))) (Ok lists).

Lemma hasAPIThingInEndpoint_inv endpoint m tr b :
  exec (hasAPIThingInEndpoint endpoint m) tr (Ok b) ->
  exists lists, tr = [probe endpoint lists] /\ matchLists m lists = Ok b.
Proof.
  unfold hasAPIThingInEndpoint, ServerGroupsAndResources. intros H.
  apply exec_bindM_ok_inv in H as (t1 & t2 & [] & -> & H1%exec_wrapM_ok_inv & H). apply callLib_inv in H1 as [-> _].
  repeat exec_step. eauto.
Qed.

(** A kind is reported as available only after every endpoint of the
    slice was asked and listed it; it is reported as missing because of the
    first endpoint that does not list it, and later endpoints are not asked. *)
Lemma HasGVK_everywhere p gvk tr b :
  exec (HasGVK p gvk) tr (Ok b) ->
  exists slice answers,
    tr = Ev (S := control) (CGetEndpointSlice (rp_config p) (rp_name p)) (Ok slice) ::
         zip_with probe (es_Endpoints slice) answers /\
    if b then length answers = length (es_Endpoints slice) /\ Forall (gvk_served gvk) answers
    else length answers <= length (es_Endpoints slice) /\
         exists served missing, answers = served ++ [missing] /\
           Forall (gvk_served gvk) served /\ ~ gvk_served gvk missing.
Proof.
  unfold HasGVK, hasAPIThing, getEndpointSlice. intros H.
  apply exec_bindM_ok_inv in H as (t1 & t2 & slice & -> & H1%exec_wrapM_ok_inv & H).
  revert H. repeat exec_step. intros H. exists slice. revert t2 H.
  induction (es_Endpoints slice) as [|ep eps IH]; intros tr H; simpl in H.
  { exec_inv. by exists []. }
  apply exec_bindM_ok_inv in H as (t1 & t2 & has & -> & H1 & H).
  apply hasAPIThingInEndpoint_inv in H1 as (lists & -> & Hm%matchLists_gvk). destruct has.
  - destruct (IH _ H) as (answers & Htr & HF). simplify_eq/=. exists (lists :: answers). split; [done|].
    destruct b; [destruct HF as [Hlen HF]; simpl; rewrite Hlen; auto|].
    destruct HF as (Hlen & pre & last & -> & Hpre & Hlast). simpl. split; [lia|].
    exists (lists :: pre), last. auto.
  - exec_inv. exists [lists]. split; [by rewrite zip_with_nil_r|]. split; [simpl; lia|]. exists [], lists. auto.
Qed.

End Prober.

(** ** Witnesses *)

Module SampleDiscovery.

#[export] Instance lib : DiscoveryLib := {|
  ParseGroupVersion := fun s => match Cut "/"%char s with Some gv => inl gv | None => inl ("", s) end;
  NewDiscoveryClientForConfig := fun _ => inl tt;
  apiextensions_NewForConfig := fun _ => inl tt;
  openapi_models := unit;
  openapi_model := string;
  NewOpenAPIData := fun _ => inl tt;
  GetModelsByGKV := fun _ => inl (fun gvk => Some (gvk_version gvk));
  Convert := fun v => inl (VStr v);
  SetDefaults_CustomResourceDefinition := fun c => c;
  IsProtectedCommunityGroup := fun _ => false
|}.

#[export] Instance laws : DiscoveryLaws lib.
Proof. by split. Qed.

#[export] Instance range : SetRange := fun s => elements s.
#[export] Instance range_laws : SetRangeLaws range.
Proof. intros s. unfold UnsortedList, range. reflexivity. Qed.

(** Another order, which the set could come out in as well. *)
Definition backwards : SetRange := fun s => reverse (elements s).
Lemma backwards_laws : SetRangeLaws backwards.
Proof. intros s. unfold UnsortedList, backwards. apply reverse_Permutation. Qed.

#[export] Existing Instance SampleCRD.versions.

#[export] Instance version_laws : KubeVersionLaws SampleCRD.versions.
Proof.
  split; unfold CompareKubeAwareVersionStrings, SampleCRD.versions.
  - intros a b. destruct (string_leb_total a b) as [->| ->]; lia.
  - intros a b c. destruct (String.leb a b) eqn:E1, (String.leb b c) eqn:E2; try lia.
    by rewrite (string_leb_trans _ _ _ E1 E2).
  - intros a b. destruct (String.leb a b) eqn:E1, (String.leb b a) eqn:E2; try lia.
    intros _ _. by apply String.leb_antisym.
Qed.

Definition deployments (name : string) : APIResource :=
  MkAPIResource name "deployment" true "" "Deployment" None None.

Definition apis : list APIResourceList :=
  [MkAPIResourceList "apps/v1" [deployments "deployments"; deployments "deployments/status"];
   MkAPIResourceList "apps/v1beta1" [deployments "deployments"];
   MkAPIResourceList "v1" [MkAPIResource "pods" "pod" true "" "Pod" None None]].

(** A cluster without CRDs, whose APIExport has one endpoint. *)
Definition cluster : server (S := control) unit := fun r _ =>
  (match r return cresp r with
   | CServerGroupsAndResources _ | CServerPreferredResources => Ok apis
   | COpenAPISchema => Ok VNull
   | CGetCRD _ => Err errNotFound
   | CGetEndpointSlice _ n => Ok (MkEndpointSlice n "" "" ["https://kcp"])
   | CGetPublishedResource _ => Err errNotFound
   | CListPublishedResources _ => Ok []
   | CGetLogicalCluster _ _ => Err errNotFound
   | CGetAPIResourceSchema _ => Err errNotFound
   | CGetAPIExport _ _ => Err errNotFound
   | CPatchPublishedResourceStatus _ _ | CCreateAPIResourceSchema _ | CUpdateAPIResourceSchema _
   | CCreateAPIExport _ | CUpdateAPIExport _ => Ok tt
   | CEvent _ _ _ _ => tt
   | CSetGauge _ _ => tt
   | CKindFor _ g => Ok (GVK (gvr_group g) (gvr_version g) (gvr_resource g))
   | CNewUnmanaged _ => Ok 0
   | CMultiClusterWatch _ _ _ | CWatch _ _ _ => Ok tt
   | CWithCancel => 0
   | CCancel _ => tt
   | CStartController _ _ => Ok tt
   | CGetConfigOrDie => MkRestConfig "https://service" "" "" ∅
   | CLoadKubeconfig _ => Ok (Some (MkRestConfig "https://kcp/clusters/root:provider" "" "" ∅))
   | CSetup _ => Ok tt
   | CGetenv _ => ""
   | CReadPublishedResourceFile _ => Err errNotFound
   | CReadKubeconfig _ _ => Ok (Ok tt)
   | CPrintln _ => Ok tt
   end, tt).

Definition gk : GroupKind := GK "apps" "Deployment".
Definition pubRes : PublishedResource :=
  MkPubRes emptyMeta (MkPubResSpec (MkSource "apps" "v1beta1" [] "Deployment") None None false None None [] None)
    (MkPubResStatus "").

Definition retrieved := run cluster (RetrieveCRD gk) tt.
Definition projectedRun := run cluster (ProjectPublishedResource pubRes) tt.
Definition prober : ResourceProber := MkProber "slice" "https://kcp/clusters/root".
Definition probed (version : string) := run cluster (HasGVK prober (GVK "apps" version "Deployment")) tt.

End SampleDiscovery.
Import SampleDiscovery.

(** The look-up of the CRD was answered with an error. *)
Definition crd_missing (ev : event control) : bool :=
  match ev with Ev (CGetCRD _) (Err _) => true | _ => false end.

Lemma RetrieveCRD_fallback_witness :
  exists crd lists resource, retrieved.1.2 = Ok crd /\
    (exists res, listed gk lists res /\ ar_Name res = ar_Name resource) /\
    exists result preferred,
      Ev (S := control) CServerPreferredResources (Ok result) ∈ retrieved.1.1 /\
      prefers "apps" (ar_Name resource) result preferred /\
      Forall (fun v => cv_Served v = true /\ cv_Storage v = bool_decide (cv_Name v = preferred)) (crd_Versions crd).
Proof.
  destruct (is_ok_inv retrieved.1.2) as [crd Hcrd]; [vm_cast_no_check (eq_refl true)|].
  destruct (RetrieveCRD_fallback gk retrieved.1.1 crd) as (lists & resource & x & tr' & H & _ & Hres & HF).
  { rewrite <- Hcrd. exact (run_execution cluster _ tt). }
  assert (crd_missing <$> retrieved.1.1 !! 1 = Some true) as Hx by reflexivity.
  rewrite H in Hx. simpl in Hx. destruct x as [c|e|m]; try discriminate Hx.
  destruct (HF e eq_refl) as (_ & _ & _ & result & preferred & Hin & Hp & Hv).
  exists crd, lists, resource. split; [exact Hcrd|]. split; [exact Hres|]. exists result, preferred.
  split; [|split; [exact Hp|exact Hv]]. rewrite H. right. right. exact Hin.
Defined.

Lemma sane_apis v : serves gk apis v -> v <> "".
Proof.
  intros (l & res & Hl & Hp & _). unfold apis in Hl. set_unfold in Hl.
  destruct Hl as [->|[->|[->|[]]]]; vm_compute in Hp; by simplify_eq.
Qed.

Lemma ProjectPublishedResource_publishable_witness :
  exists crd, projectedRun.1.2 = Ok crd /\ storage_count (crd_Versions crd) = 1.
Proof.
  destruct (is_ok_inv projectedRun.1.2) as [crd Hcrd]; [vm_cast_no_check (eq_refl true)|].
  exists crd. split; [exact Hcrd|].
  apply (ProjectPublishedResource_publishable pubRes projectedRun.1.1 projectedRun.1.2
           (run_execution cluster _ tt)); [exact Hcrd|].
  assert (projectedRun.1.1 =
    [Ev (S := control) (CServerGroupsAndResources None) (Ok apis);
     Ev (S := control) (CGetCRD "deployments.apps") (Err errNotFound);
     Ev (S := control) COpenAPISchema (Ok VNull);
     Ev (S := control) CServerPreferredResources (Ok apis)]) as -> by reflexivity.
  repeat constructor. exact sane_apis.
Defined.
