(* ===== verification/ApiResourceSchema.v ===== *)
(** APIResourceSchemas: [internal/kcp/apiresourceschema.go] and the
    controller [internal/controller/apiresourceschema/controller.go].

    For every PublishedResource the controller projects the CRD it refers
    to, makes sure that an APIResourceSchema with that content exists in kcp
    and notes its name in the status.  The name contains a hash of the
    content, so schemas are never changed, only added. *)

From S2P Require Import Prelude Effects Kube Crypto ApiTypes Projection Control Discovery.

(** The JSON form of a CRD's spec, and kcp's conversion of a CRD. *)
Class SchemaLib : Type := {
  crd_spec_json : CustomResourceDefinitionSpec -> string;
  CRDToAPIResourceSchema : CustomResourceDefinition -> string -> APIResourceSchemaSpec + gerror
}.

(** ** [types.go] *)

Definition AgentNameAnnotation : string := "syncagent.kcp.io/agent-name".
Definition AgentNameLabel : string := "syncagent.kcp.io/agent-name".
Definition SourceGenerationAnnotation : string := "syncagent.kcp.io/source-generation".

Section Schemas.
Context {SL : SchemaLib}.

(** ** [apiresourceschema.go] *)

Definition CreateAPIResourceSchema (crd : CustomResourceDefinition) (name agentName : string)
  : outcome APIResourceSchema :=
  match CRDToAPIResourceSchema crd "irrelevant" with
  | inr e => Err (Wrapped "failed to convert CRD" e)
  | inl converted =>
      Ok (MkARS name
            (Some {[ AgentNameLabel := agentName ]})
            (Some {[ SourceGenerationAnnotation := pretty (crd_Generation crd); AgentNameAnnotation := agentName ]})
            (MkARSSpec (as_Group converted) (as_Names converted) (as_Scope converted) (as_Versions converted)
               (if decide (1 < length (as_Versions converted)) then Some "None" else None)))
  end.

Definition withoutConversion (s : CustomResourceDefinitionSpec) : CustomResourceDefinitionSpec :=
  MkCRDSpec (cs_Group s) (cs_Names s) (cs_Scope s) (cs_Versions s) None.

Definition GetAPIResourceSchemaName (crd : CustomResourceDefinition) : string :=
  let spec := withoutConversion (crd_Spec crd) in
  let checksum := Hash (HJson (crd_spec_json spec)) in
  "v" +:+ take_string 8 checksum +:+ "." +:+ cn_Plural (cs_Names spec) +:+ "." +:+ cs_Group spec.

(** ** The controller *)

Context {L : DiscoveryLib} {K : KubeVersions} {R : SetRange}.

Record Reconciler : Type := MkReconciler {
  r_restConfig : option string;
  r_agentName : string;
  r_prFilter : Selector
}.

(** A PublishedResource whose source is the kind of the CRD. *)
Definition publishes (crd : CustomResourceDefinition) (pr : PublishedResource) : bool :=
  let src := ps_Resource (pr_Spec pr) in
  bool_decide (sr_APIGroup src = cs_Group (crd_Spec crd) /\ sr_Kind src = cn_Kind (cs_Names (crd_Spec crd))).

Definition prKey (pr : PublishedResource) : NamespacedName := NN (om_namespace (pr_Meta pr)) (om_name (pr_Meta pr)).

Definition enqueueMatchingPublishedResources (r : Reconciler) (crd : CustomResourceDefinition)
  : M control (list NamespacedName) :=
  let* pubResources := tryM (listPublishedResources (r_prFilter r)) in
  match pubResources with
  | inr _ => retM []
  | inl items => retM (prKey <$> List.filter (publishes crd) items)
  end.

Definition validAgent (agentName : string) (ars : APIResourceSchema) : bool :=
  bool_decide (index_map (ars_Annotations ars) AgentNameAnnotation = agentName) &&
  bool_decide (index_map (ars_Labels ars) AgentNameLabel = agentName).

Definition fixAgent (agentName : string) (ars : APIResourceSchema) : APIResourceSchema :=
  MkARS (ars_Name ars)
    (Some (<[AgentNameLabel := agentName]> (default ∅ (ars_Labels ars))))
    (Some (<[AgentNameAnnotation := agentName]> (default ∅ (ars_Annotations ars))))
    (ars_Spec ars).

Definition withSchemaName (name : string) (pr : PublishedResource) : PublishedResource :=
  MkPubRes (pr_Meta pr) (pr_Spec pr) (MkPubResStatus name).

(** Make sure that the schema exists and carries the agent's name. *)
Definition ensureSchema (r : Reconciler) (projectedCRD : CustomResourceDefinition) (arsName : string)
  : M control unit :=
  let* found := tryM (getAPIResourceSchema arsName) in
  match found with
  | inr err =>
      if IsNotFound err then
        let* ars := liftO (wrapErr "failed to construct APIResourceSchema"
                             (CreateAPIResourceSchema projectedCRD arsName (r_agentName r))) in
        wrapM "failed to create APIResourceSchema" (createAPIResourceSchema ars)
      else failM (Wrapped "failed to check for APIResourceSchema" err)
  | inl ars =>
      if validAgent (r_agentName r) ars then retM tt
      else wrapM "failed to update APIResourceSchema" (updateAPIResourceSchema (fixAgent (r_agentName r) ars))
  end.

(** The status is the only part that can differ from the copy made before. *)
Definition updateStatus (pubResource : PublishedResource) (arsName : string) : M control unit :=
  if decide (pst_ResourceSchemaName (pr_Status pubResource) <> arsName) then
    let original := pubResource in
    let pubResource := withSchemaName arsName pubResource in
    wrapM "failed to update PublishedResource status" (patchPublishedResourceStatus pubResource original)
  else retM tt.

Definition reconcile (r : Reconciler) (pubResource : PublishedResource) : M control unit :=
  let* _ := liftO (wrapErr "failed to create discovery client" (NewClient (r_restConfig r))) in
  let* projectedCRD := wrapM "failed to apply projection rules" (ProjectPublishedResource pubResource) in
  let arsName := GetAPIResourceSchemaName projectedCRD in
  let* _ := ensureSchema r projectedCRD arsName in
  updateStatus pubResource arsName.

Definition Reconcile (r : Reconciler) (request : NamespacedName) : M control unit :=
  let* found := tryM (getPublishedResource request) in
  match found with
  | inr err => match ignoreNotFound err with None => retM tt | Some e => failM e end
  | inl pubResource =>
      if decide (is_Some (om_deletionTimestamp (pr_Meta pubResource))) then retM tt
      else
        let* result := tryM (reconcile r pubResource) in
        match result with
        | inl _ => retM tt
        | inr err =>
            let* _ := emitControlEvent (AboutPublishedResource (pr_Name pubResource)) EventTypeWarning
                        "ReconcilingError" "" in
            failM err
        end
  end.

(** ** Names *)

Lemma GetAPIResourceSchemaName_checksum crd :
  exists checksum, GetAPIResourceSchemaName crd
    = "v" +:+ checksum +:+ "." +:+ cn_Plural (cs_Names (crd_Spec crd)) +:+ "." +:+ cs_Group (crd_Spec crd) /\
    String.length checksum = 8 /\ all_hex checksum = true.
Proof.
  eexists. split; [reflexivity|]. split.
  - apply take_string_length. rewrite Hash_length. lia.
  - apply take_string_all_hex, Hash_all_hex.
Qed.

(** ** Properties *)

(** The schema after [ensureSchema], as its requests show it. *)
Definition schema_events (r : Reconciler) (crd : CustomResourceDefinition) (name : string)
    (x : outcome APIResourceSchema) : option (list (event control)) :=
  match x with
  | Ok ars =>
      Some (if validAgent (r_agentName r) ars then []
            else [Ev (S := control) (CUpdateAPIResourceSchema (fixAgent (r_agentName r) ars)) (Ok tt)])
  | Err e =>
      if IsNotFound e then
        match CreateAPIResourceSchema crd name (r_agentName r) with
        | Ok ars => Some [Ev (S := control) (CCreateAPIResourceSchema ars) (Ok tt)]
        | _ => None
        end
      else None
  | Panic _ => None
  end.

Definition status_events (pubRes : PublishedResource) (name : string) : list (event control) :=
  if decide (pst_ResourceSchemaName (pr_Status pubRes) = name) then []
  else [Ev (S := control) (CPatchPublishedResourceStatus (withSchemaName name pubRes) pubRes) (Ok tt)].

Lemma ensureSchema_exact r crd name tr :
  exec (ensureSchema r crd name) tr (Ok tt) ->
  exists x evs, tr = Ev (S := control) (CGetAPIResourceSchema name) x :: evs /\ schema_events r crd name x = Some evs.
Proof.
  unfold ensureSchema, getAPIResourceSchema. intros H.
  apply exec_bindM_ok_inv in H as (t1 & t2 & found & -> & H1 & H).
  apply exec_tryM_inv in H1 as (o & H1 & Eo). revert H. repeat exec_step. intros H. exists x, t2. split; [done|].
  destruct x as [ars|e|m]; simplify_eq/=.
  - destruct (validAgent _ ars); [by exec_inv|]. unfold updateAPIResourceSchema in H. by repeat exec_step.
  - destruct (IsNotFound e); [|by exec_inv]. apply exec_bindM_liftO_inv in H.
    destruct (CreateAPIResourceSchema _ _ _) as [ars| |]; simpl in H; [|by destruct H..].
    unfold createAPIResourceSchema in H. by repeat exec_step.
Qed.

Lemma updateStatus_exact pubRes name tr :
  exec (updateStatus pubRes name) tr (Ok tt) -> tr = status_events pubRes name.
Proof.
  unfold updateStatus, status_events, patchPublishedResourceStatus. intros H.
  repeat case_decide; try done; by repeat exec_step.
Qed.

(** C29: a successful reconciliation is determined by what the cluster says:
    it reads, looks the schema up under the name that the projected content
    has, creates it if it does not exist or repairs its agent metadata, and
    only then notes the name in the status, if it is not there yet. *)
Theorem reconcile_exact r pubRes tr :
  exec (reconcile r pubRes) tr (Ok tt) ->
  exists crd reads x evs, let name := GetAPIResourceSchemaName crd in
    exec (ProjectPublishedResource pubRes) reads (Ok crd) /\
    tr = reads ++ Ev (S := control) (CGetAPIResourceSchema name) x :: evs ++ status_events pubRes name /\
    schema_events r crd name x = Some evs.
Proof.
  unfold reconcile. intros H.
  apply exec_bindM_liftO_inv in H. destruct (wrapErr _ _) as [[]| |]; [|by destruct H..].
  apply exec_bindM_ok_inv in H as (reads & t1 & crd & -> & Hp%exec_wrapM_ok_inv & H).
  apply exec_bindM_ok_inv in H as (t2 & t3 & [] & -> & H1 & H2).
  apply ensureSchema_exact in H1 as (x & evs & -> & Hx). apply updateStatus_exact in H2 as ->.
  exists crd, reads, x, evs. split_and!; [done| |done]. done.
Qed.

(** Writes of the controller: schemas are created under the name of their
    content, existing ones keep everything but the agent's name, and a status
    is changed to the name of a schema. *)
Definition schema_write (r : Reconciler) (q : creq) : Prop :=
  match q with
  | CCreateAPIResourceSchema ars =>
      exists crd, CreateAPIResourceSchema crd (GetAPIResourceSchemaName crd) (r_agentName r) = Ok ars
  | CUpdateAPIResourceSchema ars =>
      exists old, validAgent (r_agentName r) old = false /\ ars = fixAgent (r_agentName r) old
  | CPatchPublishedResourceStatus new old => exists crd, new = withSchemaName (GetAPIResourceSchemaName crd) old
  | CEvent _ ty _ _ => ty = EventTypeWarning
  | _ => control_read q = true
  end.

Lemma reads_are_allowed r q : control_read q = true -> schema_write r q.
Proof. by destruct q. Qed.

Lemma ProjectPublishedResource_reads pubRes : always (S := control) (fun q => control_read q = true) (ProjectPublishedResource pubRes).
Proof. unfold ProjectPublishedResource, RetrieveCRD, getPreferredVersion. repeat always_step; try done. Qed.

Lemma reconcile_writes r pubRes : always (S := control) (schema_write r) (reconcile r pubRes).
Proof.
  unfold reconcile. repeat always_step.
  - eapply (always_mono (S := control)); [apply reads_are_allowed|apply ProjectPublishedResource_reads].
  - unfold ensureSchema, getAPIResourceSchema. always_step; [repeat always_step; done|].
    repeat case_match; try exact I.
    + apply always_wrapM. split; [|done]. eexists. eauto.
    + apply always_bindM_exec; [done|]. intros tr ars Ha. apply exec_ret_inv in Ha as [_ Ha].
      symmetry in Ha. apply wrapErr_ok_inv in Ha. apply always_wrapM. split; [|done]. by exists a0.
  - unfold updateStatus. case_decide; [|done]. apply always_wrapM. split; [|done]. by exists a0.
Qed.

(** Whatever the answers are, the controller only adds schemas, each
    under the name of its content, repairs the agent's name on existing ones
    without touching anything else of them, and changes nothing of a
    PublishedResource but the schema name in its status.  It leaves a
    PublishedResource that is being deleted alone. *)
Lemma Reconcile_only_adds r request tr o :
  exec (Reconcile r request) tr o ->
  Forall (schema_write r) (requests tr) /\
  exists x tr', tr = Ev (S := control) (CGetPublishedResource request) x :: tr' /\
    forall pubRes, x = Ok pubRes -> is_Some (om_deletionTimestamp (pr_Meta pubRes)) -> o = Ok tt /\ tr' = [].
Proof.
  intros H. split.
  - eapply (always_exec (S := control)); [|exact H]. unfold Reconcile, getPublishedResource.
    repeat (always_step; simpl); try done. apply reconcile_writes.
  - unfold Reconcile, getPublishedResource, tryM, bindM in H. simpl in H.
    apply exec_call_inv in H as (x & tr' & -> & H). exists x, tr'. split; [done|]. intros pubRes -> Hd.
    simpl in H. rewrite decide_True in H by done. by apply exec_ret_inv in H as [-> ->].
Qed.

Lemma CreateAPIResourceSchema_name crd name agent ars :
  CreateAPIResourceSchema crd name agent = Ok ars -> ars_Name ars = name.
Proof. unfold CreateAPIResourceSchema. destruct (CRDToAPIResourceSchema _ _); [by intros [= <-]|done]. Qed.

(** A schema whose content is the same keeps its name, whatever happened to
    the metadata and the conversion of the CRD. *)
Lemma GetAPIResourceSchemaName_content crd crd' :
  withoutConversion (crd_Spec crd) = withoutConversion (crd_Spec crd') ->
  GetAPIResourceSchemaName crd = GetAPIResourceSchemaName crd'.
Proof. unfold GetAPIResourceSchemaName. by intros ->. Qed.

End Schemas.

(** ** Witnesses *)

Module SampleSchema.

#[export] Existing Instance SampleDiscovery.lib.
#[export] Existing Instance SampleDiscovery.range.
#[export] Existing Instance SampleCRD.versions.

#[export] Instance lib : SchemaLib := {|
  crd_spec_json := fun s => JsonEnc.quote (cs_Group s);
  CRDToAPIResourceSchema := fun c _ =>
    let s := crd_Spec c in
    inl (MkARSSpec (cs_Group s) (cs_Names s) (cs_Scope s) (VStr <$> (cv_Name <$> cs_Versions s)) (cs_Conversion s))
|}.

Definition reconciler : Reconciler := MkReconciler None "agent" Everything.
Definition pass := run SampleDiscovery.cluster (reconcile reconciler SampleDiscovery.pubRes) tt.
Definition full := run SampleDiscovery.cluster (Reconcile reconciler (NN "" "deployments")) tt.

End SampleSchema.
Import SampleSchema.

Lemma reconcile_exact_witness :
  exists crd reads x evs, let name := GetAPIResourceSchemaName crd in
    pass.1.1 = reads ++ Ev (S := control) (CGetAPIResourceSchema name) x ::
               evs ++ status_events SampleDiscovery.pubRes name.
Proof.
  destruct (reconcile_exact reconciler SampleDiscovery.pubRes pass.1.1) as (crd & reads & x & evs & _ & H & _).
  - assert (pass.1.2 = Ok tt) as <- by (vm_cast_no_check (eq_refl (@Ok unit tt))).
    exact (run_execution SampleDiscovery.cluster _ tt).
  - exists crd, reads, x, evs. exact H.
Defined.

Lemma Reconcile_only_adds_witness : Forall (schema_write reconciler) (requests full.1.1).
Proof.
  exact (proj1 (Reconcile_only_adds reconciler (NN "" "deployments") _ _
                  (run_execution SampleDiscovery.cluster _ tt))).
Defined.
