(* ===== verification/ApiExport.v ===== *)
(** The APIExport: [internal/controller/apiexport/].

    The controller keeps one APIExport in kcp up to date with all
    PublishedResources: the schemas it exports and the permission claims the
    agent needs.  It shares the APIExport with administrators and other
    agents, and so only ever adds what is missing.

    Go sets are ranged over in an unspecified order: [SetRange] for
    strings, [ClaimRange] for claims.  [slices.SortFunc] leaves the order of
    entries with equal keys open: [SliceSort]. *)

From S2P Require Import Prelude Effects Kube Crypto ApiTypes Meta Projection Control Discovery ApiResourceSchema.

(** ** [reconciler.go]: data *)

Record permissionClaim : Type := MkPermissionClaim {
  cl_Group : string;
  cl_Resource : string;
  cl_IdentityHash : string
}.

#[export] Instance permissionClaim_eq_dec : EqDecision permissionClaim.
Proof. solve_decision. Defined.

#[export] Instance permissionClaim_countable : Countable permissionClaim.
Proof.
  apply (inj_countable' (fun c => (cl_Group c, cl_Resource c, cl_IdentityHash c))
           (fun p => MkPermissionClaim p.1.1 p.1.2 p.2)). by intros [].
Defined.

Definition permissionClaim_String (c : permissionClaim) : string :=
  if decide (cl_Group c = "") then cl_Resource c else cl_Group c +:+ "/" +:+ cl_Resource c.

Class ClaimRange : Type := UnsortedClaims : gset permissionClaim -> list permissionClaim.
Class ClaimRangeLaws (C : ClaimRange) : Prop := UnsortedClaims_perm s : UnsortedClaims s ≡ₚ elements s.

(** [GroupResource.String()] *)
Definition groupResourceString (g : GroupResource) : string :=
  if decide (gr_group g = "") then gr_resource g else gr_resource g +:+ "." +:+ gr_group g.

(** ** [reconciler.go]: schema names *)

Definition parseSchemaName (name : string) : outcome GroupVersionResource :=
  match SplitN "."%char 3 name with
  | [version; resource; group] => Ok (GVR group version resource)
  | _ => Err (ErrorString ("invalid schema name " +:+ name +:+ ", must consist of version.resource.group"))
  end.

Definition gvrGroupResource (g : GroupVersionResource) : GroupResource := GR (gvr_group g) (gvr_resource g).

(** A name that does not parse has the empty resource. *)
Definition parseResourceGroup (schema : string) : string :=
  groupResourceString (gvrGroupResource match parseSchemaName schema with Ok g => g | _ => GVR "" "" "" end).

Section Merge.
Context {R : SetRange} {SO : SliceSort}.

Definition schema_le (a b : string) : bool := String.leb (parseResourceGroup a) (parseResourceGroup b).

Definition mergeResourceSchemas (existing : list string) (configured : gset string) : list string :=
  let result := UnsortedList configured in
  let knownResources : gset string := list_to_set (parseResourceGroup <$> result) in
  let result := result ++ List.filter (fun s => bool_decide (parseResourceGroup s ∉ knownResources)) existing in
  SortSlice schema_le result.

Definition createSchemaEvents (obj : string) (oldSchemas newSchemas : list string) : M control unit :=
  let oldSet : gset string := list_to_set oldSchemas in
  let newSet : gset string := list_to_set newSchemas in
  let added := sets_List (newSet ∖ oldSet) in
  let* _ := (if decide (0 < length added) then
               emitControlEvent (AboutAPIExport obj) EventTypeNormal "AddingResourceSchemas"
                 ("Added new resource schema(s) " +:+ Join added ", " +:+ ".")
             else retM tt) in
  let removed := sets_List (oldSet ∖ newSet) in
  if decide (0 < length removed) then
    emitControlEvent (AboutAPIExport obj) EventTypeWarning "RemovingResourceSchemas"
      ("Removed resource schema(s) " +:+ Join removed ", " +:+ ".")
  else retM tt.

(** ** [reconciler.go]: permission claims *)

Context {C : ClaimRange}.

Definition claim_le (a b : permissionClaim) : bool :=
  if decide (cl_Group a <> cl_Group b) then String.leb (cl_Group a) (cl_Group b)
  else String.leb (cl_Resource a) (cl_Resource b).

Definition permission_le (a b : PermissionClaim) : bool :=
  if decide (pc_Group a <> pc_Group b) then String.leb (pc_Group a) (pc_Group b)
  else if decide (pc_Resource a <> pc_Resource b) then String.leb (pc_Resource a) (pc_Resource b)
  else true.

(** Claims with the properties of ours: everything, without a selector. *)
Definition unrestricted (c : PermissionClaim) : bool :=
  pc_All c && bool_decide (length (pc_ResourceSelector c) = 0).

Definition trimClaim (c : PermissionClaim) : permissionClaim :=
  MkPermissionClaim (pc_Group c) (pc_Resource c) (pc_IdentityHash c).

Definition fullClaim (c : permissionClaim) : PermissionClaim :=
  MkClaim (cl_Group c) (cl_Resource c) true [] (cl_IdentityHash c).

Definition existingClaims (e : APIExport) : gset permissionClaim :=
  list_to_set (trimClaim <$> List.filter unrestricted (ae_PermissionClaims e)).

Definition claimsToAdd (e : APIExport) (claimed : gset permissionClaim) : list permissionClaim :=
  SortFunc claim_le (UnsortedClaims (claimed ∖ existingClaims e)).

(** The function that [createAPIExportReconciler] returns. *)
Definition createAPIExportReconciler (availableResourceSchemas : gset string)
    (claimedResourceKinds : gset permissionClaim) (agentName : string) (existing : APIExport)
  : M control APIExport :=
  let annotations := <[AgentNameAnnotation := agentName]> (default ∅ (ae_Annotations existing)) in
  let newSchemas := mergeResourceSchemas (ae_LatestResourceSchemas existing) availableResourceSchemas in
  let* _ := createSchemaEvents (ae_Name existing) (ae_LatestResourceSchemas existing) newSchemas in
  let toAdd := claimsToAdd existing claimedResourceKinds in
  let claims := ae_PermissionClaims existing ++ (fullClaim <$> toAdd) in
  let* _ := (if decide (0 < size (claimedResourceKinds ∖ existingClaims existing)) then
               emitControlEvent (AboutAPIExport (ae_Name existing)) EventTypeNormal "AddingPermissionClaims"
                 ("Added new permission claim(s) for all " +:+ Join (permissionClaim_String <$> toAdd) ", " +:+ ".")
             else retM tt) in
  retM (MkAPIExport (ae_Name existing) (Some annotations) newSchemas (SortSlice permission_le claims) (ae_Other existing)).

End Merge.

(** ** The reconciling package

    [EnsureNamedObject] of k8c.io/reconciler, with the wrappers that set the
    name of the object. *)

Definition ObjectReconciler : Type := option APIExport -> M control APIExport.

Class ReconcilerLib : Type := {
  CreateWithNamespace : string -> ObjectReconciler -> ObjectReconciler;
  CreateWithName : string -> ObjectReconciler -> ObjectReconciler;
  EnsureNamedObject : string -> string -> ObjectReconciler -> M control unit
}.

Definition emptyAPIExport : APIExport := MkAPIExport "" None [] [] ∅.

Definition APIExportObjectWrapper (reconciler : APIExport -> M control APIExport) : ObjectReconciler :=
  fun existing => match existing with
                  | Some e => reconciler e
                  | None => reconciler emptyAPIExport
                  end.

Fixpoint ReconcileAPIExports {RL : ReconcilerLib}
    (namedFactories : list (string * (APIExport -> M control APIExport))) (namespace : string) : M control unit :=
  match namedFactories with
  | [] => retM tt
  | (name, reconciler) :: factories' =>
      let reconcileObject := APIExportObjectWrapper reconciler in
      let reconcileObject := CreateWithNamespace namespace reconcileObject in
      let reconcileObject := CreateWithName name reconcileObject in
      let* _ := wrapM ("failed to ensure APIExport " +:+ namespace +:+ "/" +:+ name)
                  (EnsureNamedObject namespace name reconcileObject) in
      ReconcileAPIExports factories' namespace
  end.

(** ** [controller.go] *)

Section Controller.
Context {SL : SchemaLib} {L : DiscoveryLib} {K : KubeVersions} {R : SetRange} {SO : SliceSort} {C : ClaimRange} {RL : ReconcilerLib}.

Record Reconciler : Type := MkExportReconciler {
  x_apiExportName : string;
  x_agentName : string;
  x_prFilter : Selector
}.

Definition getSchemaName (pubRes : PublishedResource) : M control string :=
  if decide (pst_ResourceSchemaName (pr_Status pubRes) <> "") then retM (pst_ResourceSchemaName (pr_Status pubRes))
  else
    let* projectedCRD := wrapM "failed to apply projection rules" (ProjectPublishedResource pubRes) in
    retM (GetAPIResourceSchemaName projectedCRD).

(** Ready schemas and all schemas. *)
Definition collectStep (acc : gset string * gset string) (pubResource : PublishedResource)
  : M control (gset string * gset string) :=
  let '(ready, all) := acc in
  let* schemaName := wrapM ("failed to determine schema name for PublishedResource " +:+ pr_Name pubResource)
                       (getSchemaName pubResource) in
  let all := {[schemaName]} ∪ all in
  if decide (pst_ResourceSchemaName (pr_Status pubResource) <> "")
  then retM ({[schemaName]} ∪ ready, all) else retM (ready, all).

Definition collectSchemaNames (pubResources : list PublishedResource) : M control (gset string * gset string) :=
  foldM collectStep (∅, ∅) pubResources.

Definition ownResources (schemaNames : list string) : outcome (gset GroupResource) :=
  ofoldM (fun (own : gset GroupResource) schemaName =>
            let! gvr := wrapErr "failed to assemble own resources" (parseSchemaName schemaName) in
            Ok ({[gvrGroupResource gvr]} ∪ own)) ∅ schemaNames.

Definition namespacesClaim : permissionClaim := MkPermissionClaim "" "namespaces" "".
Definition logicalclustersClaim : permissionClaim := MkPermissionClaim "core.kcp.io" "logicalclusters" "".
Definition eventsClaim : permissionClaim := MkPermissionClaim "" "events" "".

Definition relatedClaims (own : gset GroupResource) (claimed : gset permissionClaim) (rr : RelatedResourceSpec)
  : gset permissionClaim :=
  let kcpGVR := RelatedResourceKcpGVR rr in
  let claimed := {[namespacesClaim]} ∪ claimed in
  if decide (gvrGroupResource kcpGVR ∉ own) then
    {[MkPermissionClaim (gvr_group kcpGVR) (gvr_resource kcpGVR) (rr_IdentityHash rr)]} ∪ claimed
  else claimed.

Definition hasNamespaceFilter (pubRes : PublishedResource) : bool :=
  match ps_Filter (pr_Spec pubRes) with
  | Some f => match f_Namespace f with Some _ => true | None => false end
  | None => false
  end.

Definition pubResClaims (own : gset GroupResource) (claimed : gset permissionClaim) (pubRes : PublishedResource)
  : gset permissionClaim :=
  let claimed := if hasNamespaceFilter pubRes then {[namespacesClaim]} ∪ claimed else claimed in
  let claimed := if ps_EnableWorkspacePaths (pr_Spec pubRes) then {[logicalclustersClaim]} ∪ claimed else claimed in
  foldl (relatedClaims own) claimed (ps_Related (pr_Spec pubRes)).

Definition claimedResources (own : gset GroupResource) (pubResources : list PublishedResource)
  : gset permissionClaim :=
  {[eventsClaim]} ∪ foldl (pubResClaims own) ∅ pubResources.

Definition reconcile (r : Reconciler) (apiExport : APIExport) : M control unit :=
  let* pubResources := wrapM "failed to list PublishedResources" (listPublishedResources (x_prFilter r)) in
  let* _ := setGauge PublishedResourcesManaged (length pubResources) in
  let* (readySchemaNames, allSchemaNames) := collectSchemaNames pubResources in
  let mergedSchemaNames := mergeResourceSchemas (ae_LatestResourceSchemas apiExport) allSchemaNames in
  let* ourOwnResources := liftO (ownResources mergedSchemaNames) in
  let claimed := claimedResources ourOwnResources pubResources in
  wrapM "failed to reconcile APIExport"
    (ReconcileAPIExports
       [(x_apiExportName r, createAPIExportReconciler readySchemaNames claimed (x_agentName r))] "").

Definition Reconcile (r : Reconciler) : M control unit :=
  let* found := tryM (getAPIExport None (x_apiExportName r)) in
  match found with
  | inr err => match ignoreNotFound err with None => retM tt | Some e => failM e end
  | inl apiExport => reconcile r apiExport
  end.

(** The filter of the watch on PublishedResources. *)
Definition hasARS (pubRes : PublishedResource) : bool :=
  bool_decide (pst_ResourceSchemaName (pr_Status pubRes) <> "").

End Controller.

(** ** Lemmas on schema names *)

Lemma all_hex_no_dot s : all_hex s = true -> char_in "."%char s = false.
Proof.
  induction s as [|a s IH]; [done|]. simpl. intros [Ha Hs]%andb_prop.
  rewrite char_in_cons, IH by done. rewrite bool_decide_false; [done|]. by intros ->.
Qed.

(** The parts of a name come apart at the first two dots. *)
Lemma parseSchemaName_parts version resource group :
  char_in "."%char version = false -> char_in "."%char resource = false ->
  parseSchemaName (version +:+ "." +:+ resource +:+ "." +:+ group) = Ok (GVR group version resource).
Proof.
  intros Hv Hr. unfold parseSchemaName.
  change ("." +:+ resource +:+ "." +:+ group) with (String "."%char (resource +:+ "." +:+ group)).
  cbn [SplitN]. rewrite Cut_app by done.
  change ("." +:+ group) with (String "."%char group). by rewrite Cut_app.
Qed.

Lemma schemaName_parts {SL : SchemaLib} crd :
  char_in "."%char (cn_Plural (cs_Names (crd_Spec crd))) = false ->
  exists checksum, String.length checksum = 8 /\ all_hex checksum = true /\
    parseSchemaName (GetAPIResourceSchemaName crd)
    = Ok (GVR (cs_Group (crd_Spec crd)) ("v" +:+ checksum) (cn_Plural (cs_Names (crd_Spec crd)))).
Proof.
  intros Hp. destruct (GetAPIResourceSchemaName_checksum crd) as (ck & -> & Hlen & Hhex).
  exists ck. split_and!; [done..|].
  change ("v" +:+ ck +:+ "." +:+ cn_Plural (cs_Names (crd_Spec crd)) +:+ "." +:+ cs_Group (crd_Spec crd))
    with (("v" +:+ ck) +:+ "." +:+ cn_Plural (cs_Names (crd_Spec crd)) +:+ "." +:+ cs_Group (crd_Spec crd)).
  apply parseSchemaName_parts; [|done]. rewrite char_in_app. simpl. by apply all_hex_no_dot.
Qed.

(** C30: the name that the schema controller gives to a schema is taken
    apart again by the export controller, into the version made of the
    content's hash, the resource and the group, dots of the group included. *)
Theorem schemaName_roundtrip {SL : SchemaLib} crd :
  char_in "."%char (cn_Plural (cs_Names (crd_Spec crd))) = false ->
  exists checksum, String.length checksum = 8 /\ all_hex checksum = true /\
    parseSchemaName (GetAPIResourceSchemaName crd)
    = Ok (GVR (cs_Group (crd_Spec crd)) ("v" +:+ checksum) (cn_Plural (cs_Names (crd_Spec crd)))).
Proof. apply schemaName_parts. Qed.

(** ** Lemmas on merging *)

Section MergeFacts.
Context {R : SetRange} {RL : SetRangeLaws R} {SO : SliceSort} {SOL : SliceSortLaws SO}.

(** Resources for which PublishedResources provide a schema. *)
Definition resources_of (configured : gset string) : gset string := set_map parseResourceGroup configured.

Definition unmanaged (configured : gset string) (existing : list string) : list string :=
  List.filter (fun s => bool_decide (parseResourceGroup s ∉ resources_of configured)) existing.

Lemma known_resources configured :
  (list_to_set (parseResourceGroup <$> UnsortedList configured) : gset string) = resources_of configured.
Proof.
  apply set_eq. intros x. unfold resources_of. rewrite elem_of_list_to_set, elem_of_map, list_elem_of_fmap.
  setoid_rewrite (UnsortedList_perm configured). setoid_rewrite elem_of_elements. naive_solver.
Qed.

Lemma mergeResourceSchemas_perm existing configured :
  mergeResourceSchemas existing configured ≡ₚ elements configured ++ unmanaged configured existing.
Proof.
  unfold mergeResourceSchemas. rewrite SortSlice_Permutation, known_resources, UnsortedList_perm. done.
Qed.

Lemma elem_of_unmanaged configured existing s :
  s ∈ unmanaged configured existing <-> s ∈ existing /\ parseResourceGroup s ∉ resources_of configured.
Proof. unfold unmanaged. rewrite !list_elem_of_In, filter_In, bool_decide_eq_true. done. Qed.

Lemma elem_of_mergeResourceSchemas existing configured s :
  s ∈ mergeResourceSchemas existing configured <->
  s ∈ configured \/ (s ∈ existing /\ parseResourceGroup s ∉ resources_of configured).
Proof. rewrite mergeResourceSchemas_perm, elem_of_app, elem_of_elements, elem_of_unmanaged. done. Qed.

Lemma schema_le_total a b : schema_le a b = true \/ schema_le b a = true.
Proof. apply string_leb_total. Qed.

Lemma schema_le_trans a b c : schema_le a b = true -> schema_le b c = true -> schema_le a c = true.
Proof. apply string_leb_trans. Qed.

Lemma mergeResourceSchemas_Sorted existing configured :
  Sorted (fun a b => schema_le a b = true) (mergeResourceSchemas existing configured).
Proof. apply SortSlice_Sorted; [apply schema_le_total|apply schema_le_trans]. Qed.

Lemma List_filter_perm {A} (f : A -> bool) l l' : l ≡ₚ l' -> List.filter f l ≡ₚ List.filter f l'.
Proof. induction 1; simpl; repeat case_match; eauto using perm_trans, perm_skip, perm_swap. Qed.

Lemma List_filter_none {A} (f : A -> bool) l : (forall x, x ∈ l -> f x = false) -> List.filter f l = [].
Proof. induction l as [|x l IH]; intros H; simpl; [done|]. rewrite H by set_solver. apply IH. set_solver. Qed.

Lemma List_filter_all {A} (f : A -> bool) l : (forall x, x ∈ l -> f x = true) -> List.filter f l = l.
Proof. induction l as [|x l IH]; intros H; simpl; [done|]. rewrite H by set_solver. rewrite IH; set_solver. Qed.

Lemma unmanaged_merge existing configured :
  unmanaged configured (mergeResourceSchemas existing configured) ≡ₚ unmanaged configured existing.
Proof.
  unfold unmanaged at 1. rewrite (List_filter_perm _ _ _ (mergeResourceSchemas_perm existing configured)).
  rewrite List.filter_app, List_filter_none, List_filter_all; [done|..].
  - intros s. rewrite elem_of_unmanaged, bool_decide_eq_true. tauto.
  - intros s Hs. apply bool_decide_eq_false. intros Hn. apply Hn. unfold resources_of. set_solver.
Qed.

End MergeFacts.

(** One schema per resource. *)
Definition one_per_resource (l : list string) : Prop :=
  forall a b, a ∈ l -> b ∈ l -> parseResourceGroup a = parseResourceGroup b -> a = b.

Lemma string_leb_antisym' a b : String.leb a b = true -> String.leb b a = true -> a = b.
Proof. apply String.leb_antisym. Qed.

(** Merging again, whatever the orders, gives the same schemas. *)
Lemma mergeResourceSchemas_again (R R' : SetRange) (SO SO' : SliceSort)
    `{!SetRangeLaws R, !SetRangeLaws R', !SliceSortLaws SO, !SliceSortLaws SO'} existing configured :
  mergeResourceSchemas (R := R') (SO := SO') (mergeResourceSchemas (R := R) (SO := SO) existing configured) configured
  ≡ₚ mergeResourceSchemas (R := R) (SO := SO) existing configured.
Proof.
  etrans; [apply mergeResourceSchemas_perm|]. rewrite unmanaged_merge. symmetry. apply mergeResourceSchemas_perm.
Qed.

(** With one schema per resource their order is the same, too. *)
Lemma mergeResourceSchemas_settled (R R' : SetRange) (SO SO' : SliceSort)
    `{!SetRangeLaws R, !SetRangeLaws R', !SliceSortLaws SO, !SliceSortLaws SO'} existing configured :
  one_per_resource (elements configured) -> one_per_resource existing ->
  mergeResourceSchemas (R := R') (SO := SO') (mergeResourceSchemas (R := R) (SO := SO) existing configured) configured
  = mergeResourceSchemas (R := R) (SO := SO) existing configured.
Proof.
  intros Hc He. apply (sorted_perm_unique schema_le);
    [apply schema_le_trans| |apply mergeResourceSchemas_Sorted..|by apply mergeResourceSchemas_again].
  intros a b. rewrite mergeResourceSchemas_again, !elem_of_mergeResourceSchemas by done. intros Ha Hb H1 H2.
  pose proof (string_leb_antisym' _ _ H1 H2) as Heq.
  destruct Ha as [Ha|[Ha Hna]], Hb as [Hb|[Hb Hnb]]; [apply Hc; by rewrite ?elem_of_elements| | |by apply He].
  + exfalso. apply Hnb. rewrite <- Heq. unfold resources_of. set_solver.
  + exfalso. apply Hna. rewrite Heq. unfold resources_of. set_solver.
Qed.

(** ** Lemmas on claims *)

Lemma string_leb_refl a : String.leb a a = true.
Proof. by destruct (string_leb_total a a). Qed.

Lemma permission_le_spec a b :
  permission_le a b = true <->
  (pc_Group a <> pc_Group b /\ String.leb (pc_Group a) (pc_Group b) = true) \/
  (pc_Group a = pc_Group b /\ String.leb (pc_Resource a) (pc_Resource b) = true).
Proof.
  unfold permission_le. destruct (decide (pc_Group a = pc_Group b)) as [E|E].
  - rewrite decide_False by congruence. destruct (decide (pc_Resource a = pc_Resource b)) as [E'|E'].
    + rewrite decide_False by congruence. rewrite E', string_leb_refl. naive_solver.
    + rewrite decide_True by congruence. naive_solver.
  - rewrite decide_True by done. naive_solver.
Qed.

Lemma permission_le_total a b : permission_le a b = true \/ permission_le b a = true.
Proof.
  rewrite !permission_le_spec. destruct (decide (pc_Group a = pc_Group b)) as [E|E].
  - destruct (string_leb_total (pc_Resource a) (pc_Resource b)); naive_solver.
  - destruct (string_leb_total (pc_Group a) (pc_Group b)); naive_solver congruence.
Qed.

Lemma permission_le_trans a b c :
  permission_le a b = true -> permission_le b c = true -> permission_le a c = true.
Proof.
  rewrite !permission_le_spec. intros [[H1 H2]|[H1 H2]] [[H3 H4]|[H3 H4]].
  - left. split; [|by eapply string_leb_trans]. intros E. apply H1. apply string_leb_antisym'; [done|]. by rewrite E.
  - left. rewrite <- H3. auto.
  - left. rewrite H1. auto.
  - right. split; [congruence|]. by eapply string_leb_trans.
Qed.

Lemma elem_of_existingClaims e c :
  c ∈ existingClaims e <-> exists pc, pc ∈ ae_PermissionClaims e /\ unrestricted pc = true /\ trimClaim pc = c.
Proof.
  unfold existingClaims. rewrite elem_of_list_to_set, list_elem_of_fmap.
  setoid_rewrite list_elem_of_In. setoid_rewrite filter_In. naive_solver.
Qed.

(** A claim is granted by an unrestricted claim of the export. *)
Definition granted (e : APIExport) (c : permissionClaim) : Prop := c ∈ existingClaims e.

(** ** The function of the reconciler *)

Section Reconciled.
Context {R : SetRange} {SO : SliceSort} {C : ClaimRange}.

Definition reconciled (ready : gset string) (claimed : gset permissionClaim) (agentName : string) (e : APIExport)
  : APIExport :=
  MkAPIExport (ae_Name e)
    (Some (<[AgentNameAnnotation := agentName]> (default ∅ (ae_Annotations e))))
    (mergeResourceSchemas (ae_LatestResourceSchemas e) ready)
    (SortSlice permission_le (ae_PermissionClaims e ++ (fullClaim <$> claimsToAdd e claimed)))
    (ae_Other e).

Lemma emit_event_inv about ty reason msg tr o :
  exec (emitControlEvent about ty reason msg) tr o ->
  tr = [Ev (S := control) (CEvent about ty reason msg) tt] /\ o = Ok tt.
Proof. unfold emitControlEvent. intros H. apply exec_call_inv in H as ([] & tr' & -> & H). by repeat exec_step. Qed.

Lemma maybe_event_inv (P : Prop) (dec : Decision P) about ty reason msg tr o :
  exec (if dec then emitControlEvent about ty reason msg else retM tt) tr o ->
  o = Ok tt /\ (~ P -> tr = []).
Proof. destruct dec; intros H; [apply emit_event_inv in H as [-> ->]; tauto|by repeat exec_step]. Qed.

Lemma maybe_event_bind_inv {A} (P : Prop) (dec : Decision P) about ty reason msg (k : M control A) tr o :
  exec (let* _ := (if dec then emitControlEvent about ty reason msg else retM tt) in k) tr o ->
  exists tr1 tr2, tr = tr1 ++ tr2 /\ (~ P -> tr1 = []) /\ exec k tr2 o.
Proof.
  intros [(t1 & t2 & a & -> & H1 & H2)|[(e & -> & H1)|(p & -> & H1)]]%exec_bindM_inv;
    apply maybe_event_inv in H1 as [Ho H1]; simplify_eq; eauto.
Qed.

Lemma createSchemaEvents_inv obj old new tr o :
  exec (createSchemaEvents obj old new) tr o -> o = Ok tt /\ (new ≡ₚ old -> tr = []).
Proof.
  unfold createSchemaEvents. cbv zeta. intros (t1 & t2 & -> & H1 & H)%maybe_event_bind_inv.
  apply maybe_event_inv in H as [-> H2]. split; [done|].
  intros HP. rewrite (list_to_set_perm_L (C := gset string) _ _ HP) in H1, H2.
  rewrite difference_diag_L in H1, H2. rewrite H1, H2; [done|..]; vm_compute; lia.
Qed.

(** The function computes [reconciled], and is silent when there is nothing
    to add. *)
Lemma createAPIExportReconciler_result ready claimed agentName e tr o :
  exec (createAPIExportReconciler ready claimed agentName e) tr o ->
  o = Ok (reconciled ready claimed agentName e) /\
  (mergeResourceSchemas (ae_LatestResourceSchemas e) ready ≡ₚ ae_LatestResourceSchemas e ->
   claimed ⊆ existingClaims e -> tr = []).
Proof.
  intros H. unfold createAPIExportReconciler in H. cbv zeta in H.
  apply exec_bindM_inv in H as [(t1 & t2 & a & -> & H1 & H)|[(e' & -> & H1)|(p & -> & H1)]];
    apply createSchemaEvents_inv in H1 as [Ho H1]; simplify_eq.
  apply maybe_event_bind_inv in H as (t3 & t4 & -> & H2 & H). repeat exec_step. split; [done|].
  intros Hs Hc. rewrite H1, H2; [done| |done].
  assert (claimed ∖ existingClaims e = ∅) as -> by set_solver. rewrite size_empty. lia.
Qed.

Context {RL : SetRangeLaws R} {SOL : SliceSortLaws SO} {CL : ClaimRangeLaws C}.

Lemma claimsToAdd_perm e claimed : claimsToAdd e claimed ≡ₚ elements (claimed ∖ existingClaims e).
Proof. unfold claimsToAdd. by rewrite SortFunc_Permutation, UnsortedClaims_perm. Qed.

Lemma reconciled_claims_perm ready claimed agentName e :
  ae_PermissionClaims (reconciled ready claimed agentName e)
  ≡ₚ ae_PermissionClaims e ++ (fullClaim <$> elements (claimed ∖ existingClaims e)).
Proof. simpl. by rewrite SortSlice_Permutation, claimsToAdd_perm. Qed.

Lemma reconciled_granted ready claimed agentName e c :
  granted (reconciled ready claimed agentName e) c <-> granted e c \/ c ∈ claimed.
Proof.
  unfold granted. rewrite !elem_of_existingClaims. setoid_rewrite reconciled_claims_perm.
  setoid_rewrite elem_of_app. setoid_rewrite list_elem_of_fmap. setoid_rewrite elem_of_elements. split.
  - intros (pc & [Hpc|(c' & -> & Hc')] & Hu & <-); [left; eauto|right].
    destruct c'. simpl. set_solver.
  - intros [(pc & ? & ? & <-)|Hc]; [eauto 8|].
    destruct (decide (c ∈ existingClaims e)) as [Hin|Hin].
    + apply elem_of_existingClaims in Hin as (pc & ? & ? & ?). eauto 8.
    + exists (fullClaim c). split; [right; exists c; set_solver|]. by destruct c.
Qed.

(** C31: the reconciler of the APIExport refines a specification on sets.  It
    exports every ready schema, and keeps the schemas of every resource for
    which there is no PublishedResource, so that no resource ever disappears
    from the export.  It keeps every permission claim, restricted ones
    included, and adds exactly the claims that no unrestricted claim grants
    yet.  Everything else of the APIExport stays as it is, but for the
    agent's name. *)
Theorem APIExport_refines ready claimed agentName e tr o :
  exec (createAPIExportReconciler ready claimed agentName e) tr o ->
  exists e', o = Ok e' /\
    (forall s, s ∈ ae_LatestResourceSchemas e' <->
       s ∈ ready \/ (s ∈ ae_LatestResourceSchemas e /\ parseResourceGroup s ∉ resources_of ready)) /\
    (forall s, s ∈ ae_LatestResourceSchemas e ->
       exists s', s' ∈ ae_LatestResourceSchemas e' /\ parseResourceGroup s' = parseResourceGroup s) /\
    ae_PermissionClaims e' ≡ₚ ae_PermissionClaims e ++ (fullClaim <$> elements (claimed ∖ existingClaims e)) /\
    (forall c, granted e' c <-> granted e c \/ c ∈ claimed) /\
    ae_Name e' = ae_Name e /\ ae_Other e' = ae_Other e /\
    (forall k, k <> AgentNameAnnotation ->
       lookup_map (ae_Annotations e') k = lookup_map (ae_Annotations e) k) /\
    Sorted (fun a b => schema_le a b = true) (ae_LatestResourceSchemas e') /\
    Sorted (fun a b => permission_le a b = true) (ae_PermissionClaims e').
Proof.
  intros [-> _]%createAPIExportReconciler_result. eexists. split; [done|]. split_and!; try done.
  - apply elem_of_mergeResourceSchemas.
  - intros s Hs. simpl. setoid_rewrite elem_of_mergeResourceSchemas.
    destruct (decide (parseResourceGroup s ∈ resources_of ready)) as [Hin|Hin]; [|by exists s; auto].
    unfold resources_of in Hin. apply elem_of_map in Hin as (s' & ? & ?). exists s'. auto.
  - apply reconciled_claims_perm.
  - apply reconciled_granted.
  - intros k Hk. unfold lookup_map. simpl. rewrite lookup_insert_ne by done. by destruct (ae_Annotations e).
  - apply mergeResourceSchemas_Sorted.
  - apply SortSlice_Sorted; [apply permission_le_total|apply permission_le_trans].
Qed.

End Reconciled.

(** Reconciling again adds no claim, whatever the orders. *)
Lemma reconciled_again (R R' : SetRange) (SO SO' : SliceSort) (C C' : ClaimRange)
    `{!SetRangeLaws R, !SetRangeLaws R', !SliceSortLaws SO, !SliceSortLaws SO', !ClaimRangeLaws C, !ClaimRangeLaws C'}
    ready claimed agentName e :
  let e' := reconciled (R := R) (SO := SO) (C := C) ready claimed agentName e in
  claimed ⊆ existingClaims e' /\
  reconciled (R := R') (SO := SO') (C := C') ready claimed agentName e'
  = MkAPIExport (ae_Name e') (ae_Annotations e')
      (mergeResourceSchemas (R := R') (SO := SO') (ae_LatestResourceSchemas e') ready)
      (ae_PermissionClaims e') (ae_Other e').
Proof.
  intros e'. assert (claimed ⊆ existingClaims e') as Hc by (intros c Hc; apply reconciled_granted; auto).
  split; [done|]. unfold reconciled at 1.
  assert (claimsToAdd (C := C') e' claimed = []) as ->.
  { apply Permutation_nil_r. rewrite claimsToAdd_perm.
    assert (claimed ∖ existingClaims e' = ∅) as -> by set_solver. by rewrite elements_empty. }
  simpl. rewrite insert_insert_eq, app_nil_r. f_equal. apply SortSlice_sorted_id, SortSlice_Sorted;
    [apply permission_le_total|apply permission_le_trans].
Qed.

Lemma reconciled_settled (R R' : SetRange) (SO SO' : SliceSort) (C C' : ClaimRange)
    `{!SetRangeLaws R, !SetRangeLaws R', !SliceSortLaws SO, !SliceSortLaws SO', !ClaimRangeLaws C, !ClaimRangeLaws C'}
    ready claimed agentName e :
  one_per_resource (elements ready) -> one_per_resource (ae_LatestResourceSchemas e) ->
  let e' := reconciled (R := R) (SO := SO) (C := C) ready claimed agentName e in
  mergeResourceSchemas (R := R') (SO := SO') (ae_LatestResourceSchemas e') ready = ae_LatestResourceSchemas e' /\
  claimed ⊆ existingClaims e' /\ reconciled (R := R') (SO := SO') (C := C') ready claimed agentName e' = e'.
Proof.
  intros Hr He e'.
  assert (mergeResourceSchemas (R := R') (SO := SO') (ae_LatestResourceSchemas e') ready = ae_LatestResourceSchemas e')
    as Hm by (by apply mergeResourceSchemas_settled).
  destruct (reconciled_again R R' SO SO' C C' ready claimed agentName e) as [Hc Heq].
  split_and!; [done..|]. fold e' in Heq. rewrite Heq, Hm. by destruct e'.
Qed.


(** ** What is claimed *)

(** The claims that one related resource needs. *)
Definition related_needs (own : gset GroupResource) (rr : RelatedResourceSpec) (c : permissionClaim) : Prop :=
  c = namespacesClaim \/
  ((gvrGroupResource (RelatedResourceKcpGVR rr) ∉ own) /\
   c = MkPermissionClaim (gvr_group (RelatedResourceKcpGVR rr)) (gvr_resource (RelatedResourceKcpGVR rr))
         (rr_IdentityHash rr)).

(** The claims that one PublishedResource needs. *)
Definition pubRes_needs (own : gset GroupResource) (pr : PublishedResource) (c : permissionClaim) : Prop :=
  (hasNamespaceFilter pr = true /\ c = namespacesClaim) \/
  (ps_EnableWorkspacePaths (pr_Spec pr) = true /\ c = logicalclustersClaim) \/
  (exists rr, rr ∈ ps_Related (pr_Spec pr) /\ related_needs own rr c).

Lemma elem_of_relatedClaims own claimed rr c :
  c ∈ relatedClaims own claimed rr <-> c ∈ claimed \/ related_needs own rr c.
Proof. unfold relatedClaims, related_needs. case_decide; set_solver. Qed.

Lemma elem_of_foldl_claims {A} (f : gset permissionClaim -> A -> gset permissionClaim)
    (needs : A -> permissionClaim -> Prop) l claimed c :
  (forall claimed x c, c ∈ f claimed x <-> c ∈ claimed \/ needs x c) ->
  c ∈ foldl f claimed l <-> c ∈ claimed \/ exists x, x ∈ l /\ needs x c.
Proof.
  intros Hf. revert claimed. induction l as [|x l IH]; intros claimed; simpl.
  - split; [by left|]. intros [?|(? & ?%elem_of_nil & _)]; done.
  - rewrite IH, Hf. setoid_rewrite elem_of_cons. naive_solver.
Qed.

Lemma elem_of_pubResClaims own claimed pr c :
  c ∈ pubResClaims own claimed pr <-> c ∈ claimed \/ pubRes_needs own pr c.
Proof.
  unfold pubResClaims, pubRes_needs.
  rewrite (elem_of_foldl_claims _ _ _ _ _ (elem_of_relatedClaims own)).
  destruct (hasNamespaceFilter pr), (ps_EnableWorkspacePaths (pr_Spec pr)); set_solver.
Qed.

Lemma elem_of_claimedResources own prs c :
  c ∈ claimedResources own prs <-> c = eventsClaim \/ exists pr, pr ∈ prs /\ pubRes_needs own pr c.
Proof.
  unfold claimedResources. rewrite elem_of_union, elem_of_singleton.
  rewrite (elem_of_foldl_claims _ _ _ _ _ (elem_of_pubResClaims own)). set_solver.
Qed.

(** ** The whole controller *)

(** What the reconciling package promises of a function that sends nothing
    but events: it reads the object by its name, calls the function with what
    it read, and writes the object only as the function returned it. *)
Definition ensure_request (n : string) (f : ObjectReconciler) (h : list (event control)) (q : creq) : Prop :=
  match q with
  | CCreateAPIExport e =>
      (exists err, Ev (S := control) (CGetAPIExport None n) (Err err) ∈ h) /\ exists tr, exec (f None) tr (Ok e)
  | CUpdateAPIExport e =>
      exists existing tr, Ev (S := control) (CGetAPIExport None n) (Ok existing) ∈ h /\
        exec (f (Some existing)) tr (Ok e)
  | CGetAPIExport _ _ | CEvent _ _ _ _ => True
  | _ => False
  end.

(** A reconciler function that sends nothing but events. *)
Definition only_events (f : ObjectReconciler) : Prop :=
  forall x, always (S := control) (fun q => exists a t s m, q = CEvent a t s m) (f x).

Class ReconcilerLaws (RL : ReconcilerLib) : Prop := {
  ensure_writes ns n f h : only_events f -> traced (ensure_request n f) h (EnsureNamedObject ns n f);
  with_namespace_result ns f x tr e : exec (CreateWithNamespace ns f x) tr (Ok e) -> exec (f x) tr (Ok e);
  with_namespace_events ns f : only_events f -> only_events (CreateWithNamespace ns f);
  with_name_result n f x tr e :
    exec (CreateWithName n f x) tr (Ok e) ->
    exists e', exec (f x) tr (Ok e') /\
      e = MkAPIExport n (ae_Annotations e') (ae_LatestResourceSchemas e') (ae_PermissionClaims e') (ae_Other e');
  with_name_events n f : only_events f -> only_events (CreateWithName n f)
}.

Section Whole.
Context {SL : SchemaLib} {L : DiscoveryLib} {K : KubeVersions} {R : SetRange} {SO : SliceSort} {C : ClaimRange} {RL : ReconcilerLib}.
Context {SRL : SetRangeLaws R} {SOL : SliceSortLaws SO} {CRL : ClaimRangeLaws C} {RLaws : ReconcilerLaws RL}.

(** The names that the PublishedResources already have in their status. *)
Definition ready_names (prs : list PublishedResource) (s : string) : Prop :=
  exists pr, pr ∈ prs /\ pst_ResourceSchemaName (pr_Status pr) = s /\ s <> "".

Lemma getSchemaName_ready pr tr name :
  exec (getSchemaName pr) tr (Ok name) -> pst_ResourceSchemaName (pr_Status pr) <> "" ->
  name = pst_ResourceSchemaName (pr_Status pr).
Proof. unfold getSchemaName. intros H Hne. rewrite decide_True in H by done. by repeat exec_step. Qed.

Lemma collectSchemaNames_ready prs tr ready all :
  exec (collectSchemaNames prs) tr (Ok (ready, all)) -> forall s, s ∈ ready <-> ready_names prs s.
Proof.
  unfold collectSchemaNames, ready_names.
  enough (forall acc tr res, exec (foldM collectStep acc prs) tr (Ok res) ->
    forall s, s ∈ res.1 <-> s ∈ acc.1 \/
      exists pr, pr ∈ prs /\ pst_ResourceSchemaName (pr_Status pr) = s /\ s <> "") as H.
  { intros Hx s. rewrite (H _ _ _ Hx s). set_solver. }
  clear. induction prs as [|pr prs IH]; intros acc tr res H s; simpl in H.
  { repeat exec_step. split; [by left|]. intros [?|(? & ?%elem_of_nil & _)]; done. }
  apply exec_bindM_ok_inv in H as (t1 & t2 & acc' & -> & H1 & H2). rewrite (IH _ _ _ H2 s). clear IH H2.
  destruct acc as [ready0 all0]. unfold collectStep in H1. apply exec_bindM_ok_inv in H1 as (t3 & t4 & name & -> & H3%exec_wrapM_ok_inv & H).
  cbv zeta in H. setoid_rewrite elem_of_cons. case_decide as Hst.
  - repeat exec_step. apply getSchemaName_ready in H3; [|done]. subst name. set_solver.
  - repeat exec_step. naive_solver.
Qed.

Lemma getSchemaName_reads pr : always (S := control) (fun q => control_read q = true) (getSchemaName pr).
Proof.
  unfold getSchemaName. repeat always_step; try done. apply ProjectPublishedResource_reads.
Qed.

(** A write of the controller, for the PublishedResources it has seen and
    the resources it takes for its own: of the APIExport as it was read, or
    of a new one.  The schemas are those that are ready, and those of other
    resources; the claims granted are those granted before and those needed. *)
Definition export_write (r : Reconciler) (prs : list PublishedResource) (own : gset GroupResource)
    (h : list (event control)) (q : creq) : Prop :=
  match q with
  | CCreateAPIExport e | CUpdateAPIExport e =>
      ae_Name e = x_apiExportName r /\
      index_map (ae_Annotations e) AgentNameAnnotation = x_agentName r /\
      exists old,
        (Ev (S := control) (CGetAPIExport None (x_apiExportName r)) (Ok old) ∈ h \/ old = emptyAPIExport) /\
        (forall s, s ∈ ae_LatestResourceSchemas e <->
           ready_names prs s \/
           (s ∈ ae_LatestResourceSchemas old /\
            forall s', ready_names prs s' -> parseResourceGroup s' <> parseResourceGroup s)) /\
        (forall c, granted e c <->
           granted old c \/ c = eventsClaim \/ exists pr, pr ∈ prs /\ pubRes_needs own pr c)
  | CEvent _ _ _ _ => True
  | _ => control_read q = true
  end.

Definition export_factory (r : Reconciler) (ready : gset string) (claimed : gset permissionClaim) : ObjectReconciler :=
  CreateWithName (x_apiExportName r)
    (CreateWithNamespace "" (APIExportObjectWrapper (createAPIExportReconciler ready claimed (x_agentName r)))).

Lemma export_factory_events r ready claimed : only_events (export_factory r ready claimed).
Proof.
  apply with_name_events, with_namespace_events. intros x.
  assert (forall e, always (S := control) (fun q => exists a t s m, q = CEvent a t s m)
            (createAPIExportReconciler ready claimed (x_agentName r) e)) as H; [|destruct x; apply H].
  intros e. unfold createAPIExportReconciler, createSchemaEvents, emitControlEvent.
  repeat (always_step; simpl); eauto.
Qed.

Lemma resources_of_ready prs ready s :
  (forall s, s ∈ ready <-> ready_names prs s) ->
  parseResourceGroup s ∉ resources_of ready <->
  forall s', ready_names prs s' -> parseResourceGroup s' <> parseResourceGroup s.
Proof.
  intros Hready. unfold resources_of. rewrite elem_of_map. split.
  - intros Hn s' Hs' E. apply Hn. exists s'. split; [done|]. by apply Hready.
  - intros H (s' & E & Hs'%Hready). by apply (H s').
Qed.

Lemma export_factory_result r prs ready own existing tr e :
  (forall s, s ∈ ready <-> ready_names prs s) ->
  exec (export_factory r ready (claimedResources own prs) existing) tr (Ok e) ->
  let old := default emptyAPIExport existing in
  ae_Name e = x_apiExportName r /\ index_map (ae_Annotations e) AgentNameAnnotation = x_agentName r /\
  (forall s, s ∈ ae_LatestResourceSchemas e <-> ready_names prs s \/
     (s ∈ ae_LatestResourceSchemas old /\
      forall s', ready_names prs s' -> parseResourceGroup s' <> parseResourceGroup s)) /\
  (forall c, granted e c <-> granted old c \/ c = eventsClaim \/ exists pr, pr ∈ prs /\ pubRes_needs own pr c).
Proof.
  intros Hready (e' & H & ->)%with_name_result old. apply with_namespace_result in H.
  assert (exec (createAPIExportReconciler ready (claimedResources own prs) (x_agentName r) old) tr (Ok e')) as Hc
    by (by destruct existing).
  apply createAPIExportReconciler_result in Hc as [Hc _]. simplify_eq. simpl. split_and!; [done| | |].
  - apply index_map_insert_eq.
  - intros s. rewrite elem_of_mergeResourceSchemas, Hready. by rewrite (resources_of_ready prs ready s Hready).
  - intros c. rewrite <- elem_of_claimedResources.
    exact (reconciled_granted ready (claimedResources own prs) (x_agentName r) old c).
Qed.

Lemma export_factory_write r prs ready own h q :
  (forall s, s ∈ ready <-> ready_names prs s) ->
  ensure_request (x_apiExportName r) (export_factory r ready (claimedResources own prs)) h q ->
  export_write r prs own h q.
Proof.
  intros Hready Hq. destruct q; simpl in Hq; try done; simpl.
  - destruct Hq as (_ & tr & (? & ? & ? & ?)%(export_factory_result r prs)); [|done].
    split_and!; [done..|]. eexists. split; [by right|]. done.
  - destruct Hq as (old & tr & Hin & (? & ? & ? & ?)%(export_factory_result r prs)); [|done].
    split_and!; [done..|]. exists old. split; [by left|]. done.
Qed.

Lemma collectSchemaNames_reads prs : always (S := control) (fun q => control_read q = true) (collectSchemaNames prs).
Proof.
  unfold collectSchemaNames. apply always_foldM. intros [ready all] pr _. unfold collectStep.
  apply always_bindM; [apply always_wrapM, getSchemaName_reads|]. intros name. cbv zeta. by case_decide.
Qed.

(** The part of [reconcile] that follows the list of PublishedResources and the gauge. *)
Definition afterList (r : Reconciler) (apiExport : APIExport) (prs : list PublishedResource) : M control unit :=
  let* (readySchemaNames, allSchemaNames) := collectSchemaNames prs in
  let* own := liftO (ownResources (mergeResourceSchemas (ae_LatestResourceSchemas apiExport) allSchemaNames)) in
  wrapM "failed to reconcile APIExport"
    (ReconcileAPIExports
       [(x_apiExportName r, createAPIExportReconciler readySchemaNames (claimedResources own prs) (x_agentName r))] "").

(** The name of the schema that a PublishedResource has, or is going to have:
    the name for the CRD that its projection gave. *)
Definition schema_name_of (h : list (event control)) (pr : PublishedResource) (s : string) : Prop :=
  if decide (pst_ResourceSchemaName (pr_Status pr) <> "") then s = pst_ResourceSchemaName (pr_Status pr)
  else exists h1 tr h2 crd, h = h1 ++ tr ++ h2 /\ exec (ProjectPublishedResource pr) tr (Ok crd) /\
         s = GetAPIResourceSchemaName crd.

(** The resources of the export: those of the schemas that the
    PublishedResources have or are going to have, and those of other
    schemas of the export. *)
Definition own_of (apiExport : APIExport) (prs : list PublishedResource) (h : list (event control))
    (own : gset GroupResource) : Prop :=
  exists names, Forall2 (schema_name_of h) prs names /\
    forall g, g ∈ own <-> exists s gvr, parseSchemaName s = Ok gvr /\ gvrGroupResource gvr = g /\
      (s ∈ names \/ (s ∈ ae_LatestResourceSchemas apiExport /\
                     forall s', s' ∈ names -> parseResourceGroup s' <> parseResourceGroup s)).

Lemma ownResources_elem names own g :
  ownResources names = Ok own ->
  g ∈ own <-> exists s gvr, s ∈ names /\ parseSchemaName s = Ok gvr /\ gvrGroupResource gvr = g.
Proof.
  unfold ownResources.
  enough (forall acc : gset GroupResource, ofoldM (fun (own : gset GroupResource) schemaName =>
            let! gvr := wrapErr "failed to assemble own resources" (parseSchemaName schemaName) in
            Ok ({[gvrGroupResource gvr]} ∪ own)) acc names = Ok own ->
          g ∈ own <-> g ∈ acc \/ exists s gvr, s ∈ names /\ parseSchemaName s = Ok gvr /\ gvrGroupResource gvr = g) as H.
  { intros H1. rewrite (H _ H1). set_solver. }
  induction names as [|n names IH]; intros acc H; simpl in H; [simplify_eq; set_solver|].
  destruct (parseSchemaName n) as [gvr| |] eqn:E; simpl in H; [|done..]. rewrite (IH _ H). clear IH H.
  setoid_rewrite elem_of_cons. rewrite elem_of_union, elem_of_singleton. split.
  - intros [[->|?]|(s & gvr' & ? & ? & ?)]; eauto 8.
  - intros [?|(s & gvr' & [->|?] & Hp & <-)]; [by auto| |by eauto 8].
    rewrite E in Hp. injection Hp as ->. auto.
Qed.

Lemma schema_name_of_later h1 h h2 pr s : schema_name_of h pr s -> schema_name_of (h1 ++ h ++ h2) pr s.
Proof.
  unfold schema_name_of. case_decide; [done|]. intros (a & tr & b & crd & -> & ? & ?).
  exists (h1 ++ a), tr, (b ++ h2), crd. split_and!; [|done..]. by rewrite <- !(assoc_L (++)).
Qed.

Lemma own_of_later apiExport prs h1 h h2 own :
  own_of apiExport prs h own -> own_of apiExport prs (h1 ++ h ++ h2) own.
Proof.
  intros (names & Hn & Ho). exists names. split; [|done]. eapply Forall2_impl; [done|].
  intros. by apply schema_name_of_later.
Qed.

Lemma getSchemaName_name pr tr name : exec (getSchemaName pr) tr (Ok name) -> schema_name_of tr pr name.
Proof.
  unfold getSchemaName, schema_name_of. case_decide; [by intros; repeat exec_step|].
  intros (t1 & t2 & crd & -> & Hp%exec_wrapM_ok_inv & H2)%exec_bindM_ok_inv. repeat exec_step.
  by exists [], t1, [], crd.
Qed.

Lemma collectStep_names ready all pr tr res :
  exec (collectStep (ready, all) pr) tr (Ok res) -> exists name, schema_name_of tr pr name /\ res.2 = {[name]} ∪ all.
Proof.
  unfold collectStep. intros (t1 & t2 & name & -> & H%exec_wrapM_ok_inv & H2)%exec_bindM_ok_inv.
  exists name. apply getSchemaName_name in H. cbv zeta in H2.
  split; [by apply (schema_name_of_later [])|]. case_decide; by repeat exec_step.
Qed.

Lemma collectSchemaNames_names prs tr ready all :
  exec (collectSchemaNames prs) tr (Ok (ready, all)) ->
  exists names, Forall2 (schema_name_of tr) prs names /\ forall s, s ∈ all <-> s ∈ names.
Proof.
  unfold collectSchemaNames.
  enough (forall acc tr res, exec (foldM collectStep acc prs) tr (Ok res) ->
    exists names, Forall2 (schema_name_of tr) prs names /\ forall s, s ∈ res.2 <-> s ∈ names \/ s ∈ acc.2) as H.
  { intros (names & ? & Hs)%H. exists names. split; [done|]. intros s. rewrite (Hs s). set_solver. }
  clear. induction prs as [|pr prs IH]; intros acc tr res H; simpl in H.
  { repeat exec_step. exists []. split; [constructor|]. set_solver. }
  apply exec_bindM_ok_inv in H as (t1 & t2 & acc' & -> & H1 & (names & Hn & Hs)%IH).
  destruct acc as [ready0 all0]. apply collectStep_names in H1 as (name & Hname & Hall).
  exists (name :: names). split; [|intros s; rewrite Hs, Hall; set_solver]. constructor.
  - by apply (schema_name_of_later []).
  - eapply Forall2_impl; [exact Hn|]. intros pr' s. rewrite <- (app_nil_r t2) at 2. apply schema_name_of_later.
Qed.

(** What the controller may send after what it has seen. *)
Definition export_request (r : Reconciler) (h : list (event control)) (q : creq) : Prop :=
  control_read q = true \/
  (exists prs, Ev (S := control) (CListPublishedResources (x_prFilter r)) (Ok prs) ∈ h /\
     q = CSetGauge PublishedResourcesManaged (length prs)) \/
  exists apiExport prs own,
    Ev (S := control) (CGetAPIExport None (x_apiExportName r)) (Ok apiExport) ∈ h /\
    Ev (S := control) (CListPublishedResources (x_prFilter r)) (Ok prs) ∈ h /\
    own_of apiExport prs h own /\ export_write r prs own h q.

Lemma export_reads {A} r h (m : M control A) :
  always (S := control) (fun q => control_read q = true) m -> traced (export_request r) h m.
Proof. apply traced_always. by left. Qed.

Lemma afterList_traced r apiExport prs h :
  Ev (S := control) (CGetAPIExport None (x_apiExportName r)) (Ok apiExport) ∈ h ->
  Ev (S := control) (CListPublishedResources (x_prFilter r)) (Ok prs) ∈ h ->
  traced (export_request r) h (afterList r apiExport prs).
Proof.
  intros Hget Hlist. unfold afterList. apply traced_bindM; [apply export_reads, collectSchemaNames_reads|].
  intros tr [ready all] H. apply traced_bindM; [done|]. intros tr1 own Hown.
  apply exec_ret_inv in Hown as [-> Hown]. symmetry in Hown. rewrite app_nil_r.
  assert (own_of apiExport prs tr own) as Hof.
  { destruct (collectSchemaNames_names _ _ _ _ H) as (names & Hn & Hs). exists names. split; [done|].
    intros g. rewrite (ownResources_elem _ _ _ Hown). setoid_rewrite elem_of_mergeResourceSchemas.
    setoid_rewrite Hs. unfold resources_of. setoid_rewrite elem_of_map. setoid_rewrite Hs. naive_solver. }
  apply traced_wrapM. simpl. apply traced_bindM; [|done]. apply traced_wrapM.
  fold (export_factory r ready (claimedResources own prs)).
  eapply traced_mono; [|apply ensure_writes, export_factory_events]. intros h' q Hq. do 2 right.
  exists apiExport, prs, own. split_and!; [set_solver..| |].
  - rewrite <- (assoc_L (++)). by apply own_of_later.
  - eapply export_factory_write; [|exact Hq]. by eapply collectSchemaNames_ready.
Qed.

Lemma export_traced r h : traced (export_request r) h (Reconcile r).
Proof.
  unfold Reconcile. apply traced_bindM; [by apply export_reads; unfold getAPIExport; always_solve|].
  intros tr found (o & H & Ho)%exec_tryM_inv. apply exec_call_inv in H as (x & tr' & -> & [-> ->]%exec_ret_inv).
  destruct x as [apiExport|err|m]; simplify_eq/=; [|by destruct (ignoreNotFound err)].
  unfold reconcile. apply traced_bindM; [by apply export_reads; unfold listPublishedResources; always_solve|].
  intros tr prs H%exec_wrapM_ok_inv. apply exec_call_inv in H as (y & tr' & -> & [-> <-]%exec_ret_inv).
  apply traced_bindM.
  { unfold setGauge. split; [|done]. right. left. exists prs. split; [set_solver|done]. }
  intros tr [] _. fold (afterList r apiExport prs). apply afterList_traced; set_solver.
Qed.

(** C33: every write of the export controller is to the configured APIExport,
    under the agent's name, and follows reading the APIExport and the
    PublishedResources.  It leaves the APIExport as it was read but for this:
    it has the schema of every PublishedResource that has one, in place of
    other schemas of the same resource; and it grants exactly what was
    granted and what these PublishedResources need: events always,
    namespaces and workspace paths when they are used, and every related
    resource that is not one of the export's own.  Its own are the resources
    of the schemas that the PublishedResources have or, by the projection that
    was computed for them, are going to have, and of the other schemas of the
    export.  Apart from that it sets the gauge to their number. *)
Theorem Reconcile_exports r tr o tr1 q x tr2 :
  exec (Reconcile r) tr o -> tr = tr1 ++ Ev (S := control) q x :: tr2 ->
  control_read q = true \/
  (exists prs, Ev (S := control) (CListPublishedResources (x_prFilter r)) (Ok prs) ∈ tr1 /\
     q = CSetGauge PublishedResourcesManaged (length prs)) \/
  exists apiExport prs own,
    Ev (S := control) (CGetAPIExport None (x_apiExportName r)) (Ok apiExport) ∈ tr1 /\
    Ev (S := control) (CListPublishedResources (x_prFilter r)) (Ok prs) ∈ tr1 /\
    own_of apiExport prs tr1 own /\ export_write r prs own tr1 q.
Proof. intros H Htr. exact (traced_exec (export_request r) [] _ _ _ _ _ _ (export_traced r []) H Htr). Qed.

End Whole.

(** ** Witnesses *)

Module SampleExport.

#[export] Existing Instance SampleDiscovery.lib.
#[export] Existing Instance SampleDiscovery.range.
#[export] Existing Instance SampleDiscovery.range_laws.
#[export] Existing Instance SampleCRD.versions.
#[export] Existing Instance SampleSchema.lib.
#[export] Existing Instance stableSort.
#[export] Existing Instance stableSort_laws.

#[export] Instance claims : ClaimRange := fun s => elements s.
#[export] Instance claims_laws : ClaimRangeLaws claims.
Proof. intros s. unfold UnsortedClaims, claims. reflexivity. Qed.

(** Read the object, apply the function, write the result back if it is
    different. *)
Definition named (n : string) (f : ObjectReconciler) : ObjectReconciler := fun x =>
  let* e := f x in
  retM (MkAPIExport n (ae_Annotations e) (ae_LatestResourceSchemas e) (ae_PermissionClaims e) (ae_Other e)).

Definition ensure (ns n : string) (f : ObjectReconciler) : M control unit :=
  let* found := tryM (getAPIExport None n) in
  match found with
  | inr err =>
      if IsNotFound err then let* e := f None in createAPIExport e else failM err
  | inl e => let* e' := f (Some e) in if decide (e = e') then retM tt else updateAPIExport e'
  end.

#[export] Instance lib : ReconcilerLib := {|
  CreateWithNamespace := fun _ f => f;
  CreateWithName := named;
  EnsureNamedObject := ensure
|}.

#[export] Instance laws : ReconcilerLaws lib.
Proof.
  split.
  - intros ns n f h Hf.
    assert (forall x h, traced (ensure_request n f) h (f x)) as Hf'.
    { intros x h'. eapply (traced_always (S := control)); [|apply Hf]. by intros ? q (a & t & s & m & ->). }
    simpl. unfold ensure. apply traced_bindM; [by split|].
    intros tr found (o & H & Ho)%exec_tryM_inv. apply exec_call_inv in H as (x & tr' & -> & [-> ->]%exec_ret_inv).
    destruct x as [e|err|m]; simplify_eq/=; [|destruct (IsNotFound err); [|done]].
    + apply traced_bindM; [apply Hf'|]. intros tr e' H. case_decide; [done|]. split; [|done].
      exists e, tr. split; [set_solver|done].
    + apply traced_bindM; [apply Hf'|]. intros tr e' H. split; [|done]. split; [exists err; set_solver|by exists tr].
  - done.
  - done.
  - intros n f x tr e H. simpl in H. unfold named in H.
    apply exec_bindM_ok_inv in H as (t1 & t2 & e' & -> & H1 & H). repeat exec_step. rewrite app_nil_r. eauto.
  - intros n f Hf x. simpl. unfold named. apply always_bindM; [apply Hf|done].
Qed.

(** An export that an administrator has extended by hand, and two
    PublishedResources, one of which is not ready. *)
Definition export : APIExport :=
  MkAPIExport "eksempel.no" None ["v0.legacy.eksempel.no"; "v0.backups.eksempel.no"]
    [MkClaim "" "secrets" false [VStr "name"] ""; MkClaim "" "events" true [] ""] ∅.

Definition related : RelatedResourceSpec :=
  MkRelated "credentials" "kcp" "" "v1" "secrets" "" "" false "" None
    (MkRelatedObject (MkObjectSpec None None None) None) None None false.

Definition pubRes (name : string) (status : string) : PublishedResource :=
  MkPubRes (Meta name "" None None None None None 0 [] "1" [] "" "" ∅)
    (MkPubResSpec (MkSource "apps" "v1" [] "Deployment") None None true None None [related] None)
    (MkPubResStatus status).

Definition server : server (S := control) unit := fun r w =>
  match r return cresp r * unit with
  | CGetAPIExport _ _ => (Ok export, tt)
  | CListPublishedResources _ => (Ok [pubRes "a" "v1.backups.eksempel.no"; pubRes "b" ""], tt)
  | r => SampleDiscovery.cluster r w
  end.

Definition reconciler : Reconciler := MkExportReconciler "eksempel.no" "agent" Everything.
Definition pass := run server (Reconcile reconciler) tt.

Definition ready : gset string := {["v1.backups.eksempel.no"]}.
Definition claimed : gset permissionClaim := {[eventsClaim; namespacesClaim]}.
Definition once := run server (createAPIExportReconciler ready claimed "agent" export) tt.
Definition onceResult : APIExport := match once.1.2 with Ok e => e | _ => export end.
Definition twice := run server (createAPIExportReconciler (R := SampleDiscovery.backwards) ready claimed "agent" onceResult) tt.

Example once_schemas :
  ae_LatestResourceSchemas onceResult = ["v1.backups.eksempel.no"; "v0.legacy.eksempel.no"].
Proof. vm_compute. reflexivity. Qed.

End SampleExport.
Import SampleExport.

Lemma schemaName_roundtrip_witness :
  exists checksum, parseSchemaName (GetAPIResourceSchemaName SampleCRD.crd)
    = Ok (GVR "eksempel.no" ("v" +:+ checksum) "backups").
Proof.
  destruct (schemaName_roundtrip SampleCRD.crd) as (ck & _ & _ & H); [reflexivity|].
  exists ck. exact H.
Defined.

Lemma APIExport_refines_witness :
  exists e', once.1.2 = Ok e' /\ granted e' namespacesClaim.
Proof.
  destruct (APIExport_refines ready claimed "agent" export once.1.1 once.1.2 (run_execution server _ tt))
    as (e' & He & _ & _ & _ & Hg & _).
  exists e'. split; [exact He|]. apply Hg. right. set_solver.
Defined.

Lemma one_per_resource_dec (l : list string) :
  bool_decide (NoDup (parseResourceGroup <$> l)) = true -> one_per_resource l.
Proof.
  intros Hnd%bool_decide_eq_true a b Ha Hb E.
  apply list_elem_of_lookup in Ha as [i Hi], Hb as [j Hj].
  assert (i = j) as ->; [|congruence].
  eapply NoDup_lookup; [exact Hnd|rewrite list_lookup_fmap, Hi; reflexivity|].
  rewrite list_lookup_fmap, Hj. simpl. by rewrite E.
Qed.


Definition is_update (q : creq) : bool := match q with CUpdateAPIExport _ => true | _ => false end.

Lemma Reconcile_exports_witness :
  exists e tr1 apiExport prs own, CUpdateAPIExport e ∈ requests pass.1.1 /\
    Ev (S := control) (CGetAPIExport None "eksempel.no") (Ok apiExport) ∈ tr1 /\
    own_of apiExport prs tr1 own /\ export_write reconciler prs own tr1 (CUpdateAPIExport e).
Proof.
  assert (existsb is_update (requests pass.1.1) = true) as (q & Hin & Hq)%existsb_exists
    by (vm_cast_no_check (eq_refl true)).
  apply list_elem_of_In in Hin. pose proof Hin as Hev.
  apply list_elem_of_fmap in Hev as (ev & -> & (tr1 & tr2 & Htr)%list_elem_of_split). destruct ev as [q x].
  destruct (Reconcile_exports reconciler pass.1.1 pass.1.2 tr1 q x tr2 (run_execution server _ tt) Htr)
    as [Hr|[(prs & _ & Hr)|(apiExport & prs & own & H1 & _ & Ho & Hw)]]; destruct q; try discriminate Hq;
    try discriminate Hr.
  exists e, tr1, apiExport, prs, own. split; [exact Hin|]. split; [exact H1|]. split; [exact Ho|exact Hw].
Defined.
