(* ===== verification/Publishing.v ===== *)
(** From PublishedResources to the APIExport: the schema controller and the
    export controller at work on the same clusters.

    Each of them is run whenever something changes, in any order.
    [ControlPlane] states what the clusters do with their requests.  Every
    history of reconciliations in which each PublishedResource is reconciled
    once, and the APIExport after that, ends with everything published, and
    after that both controllers are at rest. *)

From S2P Require Import Prelude Effects Kube Crypto ApiTypes Projection Control Discovery.
From S2P Require Import ApiResourceSchema ApiExport Triples.

(** ** The clusters *)

Definition status (p : PublishedResource) : string := pst_ResourceSchemaName (pr_Status p).

Section Publishing.
Context {SL : SchemaLib} {L : DiscoveryLib} {K : KubeVersions} {R : SetRange} {SO : SliceSort} {C : ClaimRange} {RL : ReconcilerLib}.
Context {SRL : SetRangeLaws R} {SOL : SliceSortLaws SO} {CRL : ClaimRangeLaws C}.

(** The two controllers. *)
Context (r : ApiResourceSchema.Reconciler) (x : ApiExport.Reconciler).

(** The clusters: the PublishedResources that the agent is responsible for,
    the schemas in kcp, and the APIExport. *)
Context {W : Type} (h : server (S := control) W).
Context (pubs : W -> gmap NamespacedName PublishedResource).
Context (schemas : W -> gmap string APIResourceSchema) (export : W -> APIExport).

Record same (w w' : W) : Prop := {
  same_pubs : pubs w = pubs w';
  same_schemas : schemas w = schemas w';
  same_export : export w = export w'
}.

#[export] Instance same_equivalence : Equivalence same.
Proof.
  split.
  - by split.
  - intros w w' []. by split.
  - intros w w' w'' [] []. split; congruence.
Qed.

(** Reads see the last write and change nothing; what there is to discover
    does not change; writes have the effect that their names say.  Patching
    the status leaves the spec alone; other metadata, like the resource
    version, may change. *)
Class ControlPlane : Prop := {
  cp_quiet q w : control_read q = true -> same (h q w).2 w;
  cp_event a t s m w : same (h (CEvent a t s m) w).2 w;
  cp_gauge g n w : same (h (CSetGauge g n) w).2 w;
  cp_discovery q w w' : discovery q = true -> (h q w).1 = (h q w').1;
  cp_get_pub w key p : pubs w !! key = Some p -> (h (CGetPublishedResource key) w).1 = Ok p;
  cp_list w : exists l, (h (CListPublishedResources (x_prFilter x)) w).1 = Ok l /\
    forall p, p ∈ l <-> exists key, pubs w !! key = Some p;
  cp_get_schema w name : (h (CGetAPIResourceSchema name) w).1
    = match schemas w !! name with Some ars => Ok ars | None => Err errNotFound end;
  cp_schema_name w name ars : schemas w !! name = Some ars -> ars_Name ars = name;
  cp_get_export w : (h (CGetAPIExport None (ae_Name (export w))) w).1 = Ok (export w);
  cp_create w ars : schemas w !! ars_Name ars = None ->
    exists w', h (CCreateAPIResourceSchema ars) w = (Ok tt, w') /\
      pubs w' = pubs w /\ schemas w' = <[ars_Name ars := ars]> (schemas w) /\ export w' = export w;
  cp_update w ars : is_Some (schemas w !! ars_Name ars) ->
    exists w', h (CUpdateAPIResourceSchema ars) w = (Ok tt, w') /\
      pubs w' = pubs w /\ schemas w' = <[ars_Name ars := ars]> (schemas w) /\ export w' = export w;
  cp_patch w key p st : pubs w !! key = Some p ->
    exists w' p', h (CPatchPublishedResourceStatus (MkPubRes (pr_Meta p) (pr_Spec p) st) p) w = (Ok tt, w') /\
      pubs w' = <[key := p']> (pubs w) /\ pr_Spec p' = pr_Spec p /\ pr_Status p' = st /\
      om_deletionTimestamp (pr_Meta p') = om_deletionTimestamp (pr_Meta p) /\
      schemas w' = schemas w /\ export w' = export w
}.

Definition renamed (n : string) (e : APIExport) : APIExport :=
  MkAPIExport n (ae_Annotations e) (ae_LatestResourceSchemas e) (ae_PermissionClaims e) (ae_Other e).

(** What the reconciling package does with an object that exists: it calls
    the function, which may send events, and writes what it returns, if that
    is different. *)
Class ReconcilerRuns : Prop := {
  rr_namespaced f e w : run h (CreateWithNamespace "" f e) w = run h (f e) w;
  rr_named n f e w tr e' w1 :
    run h (f e) w = (tr, Ok e', w1) -> run h (CreateWithName n f e) w = (tr, Ok (renamed n e'), w1);
  rr_ensure n f w e' (P : creq -> Prop) :
    ae_Name (export w) = n -> ae_Name e' = n ->
    (forall w1, same w1 w -> exists tr w2,
       run h (f (Some (export w))) w1 = (tr, Ok e', w2) /\ same w2 w /\ Forall P (requests tr)) ->
    exists tr w', run h (EnsureNamedObject "" n f) w = (tr, Ok tt, w') /\
      pubs w' = pubs w /\ schemas w' = schemas w /\ export w' = e' /\
      (e' = export w -> Forall (fun q => control_read q = true \/ P q) (requests tr))
}.

Context {CP : ControlPlane} {RR : ReconcilerRuns}.

(** ** Programs that change nothing *)

Definition quiet (q : creq) : Prop := forall w, same (h q w).2 w.

Lemma run_quiet {A} (m : prog control A) w : always (S := control) quiet m -> same (run h m w).2 w.
Proof. intros Hm. apply (run_preserves h quiet same); [|done]. intros q w1 Hq. apply Hq. Qed.

Lemma reads_quiet q : control_read q = true -> quiet q.
Proof. intros Hq w. by apply cp_quiet. Qed.

Lemma run_static {A} (m : prog control A) w w' :
  always (S := control) (fun q => discovery q = true) m -> (run h m w).1 = (run h m w').1.
Proof. apply (run_same_answers h). apply cp_discovery. Qed.

(** ** Projections *)

(** The CRD that a PublishedResource stands for, and the name of its schema. *)
Definition projected (w : W) (p : PublishedResource) : outcome CustomResourceDefinition :=
  (run h (ProjectPublishedResource p) w).1.2.

Definition schemaName (w : W) (p : PublishedResource) : string :=
  match projected w p with Ok crd => GetAPIResourceSchemaName crd | _ => "" end.

Lemma ProjectPublishedResource_discovers p :
  always (S := control) (fun q => discovery q = true) (ProjectPublishedResource p).
Proof. unfold ProjectPublishedResource, RetrieveCRD, getPreferredVersion. repeat always_step; try done. Qed.

Lemma projected_static w w' p : projected w p = projected w' p.
Proof. unfold projected. by rewrite (run_static _ w w' (ProjectPublishedResource_discovers p)). Qed.

Lemma projected_spec w p p' : pr_Spec p = pr_Spec p' -> projected w p = projected w p'.
Proof. destruct p as [m s st], p' as [m' s' st']. simpl. by intros ->. Qed.

Lemma schemaName_static w w' p p' : pr_Spec p = pr_Spec p' -> schemaName w p = schemaName w' p'.
Proof. intros H. unfold schemaName. by rewrite (projected_static w w' p), (projected_spec w' p p' H). Qed.

Lemma project_succeeds w p crd (Q : list (event control) -> _ -> _ -> Prop) :
  projected w p = Ok crd ->
  (forall (tr : list (event control)) w1, same w1 w -> Forall (fun q => control_read q = true) (requests tr) -> Q tr crd w1) ->
  succeeds h (ProjectPublishedResource p) w Q.
Proof.
  intros Hp HQ. unfold projected in Hp.
  pose proof (run_quiet (ProjectPublishedResource p) w
    (always_mono (S := control) _ _ _ reads_quiet (ProjectPublishedResource_reads p))) as Hs.
  pose proof (always_exec (S := control) _ _ _ _ (ProjectPublishedResource_reads p)
    (run_execution h (ProjectPublishedResource p) w)) as Hr.
  destruct (run h (ProjectPublishedResource p) w) as [[tr o] w1] eqn:E. simpl in *. subst o.
  exists tr, crd, w1. split; [done|]. by apply HQ.
Qed.

(** ** Steps *)

Definition only_reads (tr : list (event control)) : Prop := Forall (fun q => control_read q = true) (requests tr).

Lemma only_reads_app tr tr' : only_reads tr -> only_reads tr' -> only_reads (tr ++ tr').
Proof. unfold only_reads, requests. rewrite fmap_app. by apply Forall_app_2. Qed.

(** A request that changes nothing, with the answer that the state determines. *)
Lemma succeeds_quiet {A} q (k : resp control q -> M control A) w (Q : list (event control) -> A -> W -> Prop) :
  quiet q ->
  (forall w1, same w1 w -> succeeds h (k (h q w).1) w1 (fun tr a w' => Q (Ev (S := control) q (h q w).1 :: tr) a w')) ->
  succeeds h (Call (S := control) q k) w Q.
Proof.
  intros Hq HQ. specialize (Hq w). destruct (h q w) as [a w1] eqn:E. destruct (HQ w1 Hq) as (tr & b & w' & Hr & H).
  exists (Ev (S := control) q a :: tr), b, w'. split; [|done]. simpl. simpl in Hr. by rewrite E, Hr.
Qed.

Lemma succeeds_read {A} q (k : resp control q -> M control A) w (Q : list (event control) -> A -> W -> Prop) :
  control_read q = true ->
  (forall w1, same w1 w -> succeeds h (k (h q w).1) w1 (fun tr a w' => Q (Ev (S := control) q (h q w).1 :: tr) a w')) ->
  succeeds h (Call (S := control) q k) w Q.
Proof. intros Hq. by apply succeeds_quiet, reads_quiet. Qed.

(** *** The schema *)

Lemma fixAgent_valid agent ars : validAgent agent (fixAgent agent ars) = true.
Proof. unfold validAgent, fixAgent. simpl. rewrite !index_map_insert_eq. by rewrite !bool_decide_true. Qed.

Lemma CreateAPIResourceSchema_valid crd name agent ars :
  CreateAPIResourceSchema crd name agent = Ok ars -> validAgent agent ars = true.
Proof.
  unfold CreateAPIResourceSchema. destruct (CRDToAPIResourceSchema _ _); [|done]. intros [= <-].
  unfold validAgent, index_map. simpl. rewrite lookup_singleton_eq, lookup_insert_ne, lookup_singleton_eq by done.
  simpl. by rewrite bool_decide_true.
Qed.

(** What [ensureSchema] leaves behind under the name of a CRD. *)
Definition ensured (crd : CustomResourceDefinition) (w : W) (tr : list (event control)) (w' : W) : Prop :=
  let name := GetAPIResourceSchemaName crd in
  pubs w' = pubs w /\ export w' = export w /\
  exists ars, schemas w' = <[name := ars]> (schemas w) /\ ars_Name ars = name /\ validAgent (r_agentName r) ars = true /\
    match schemas w !! name with
    | Some old => ars_Spec ars = ars_Spec old /\ (validAgent (r_agentName r) old = true -> ars = old /\ only_reads tr)
    | None => CreateAPIResourceSchema crd name (r_agentName r) = Ok ars
    end.

Lemma ensureSchema_succeeds crd w spec :
  CRDToAPIResourceSchema crd "irrelevant" = inl spec ->
  succeeds h (ensureSchema r crd (GetAPIResourceSchemaName crd)) w (fun tr _ w' => ensured crd w tr w').
Proof.
  intros Hspec. set (name := GetAPIResourceSchemaName crd). unfold ensureSchema, getAPIResourceSchema, tryM, bindM.
  simpl. apply succeeds_read; [done|]. intros w1 [Hp Hs He]. rewrite cp_get_schema.
  destruct (schemas w !! name) as [ars|] eqn:E; simpl.
  - pose proof (cp_schema_name w _ _ E) as Hn. destruct (validAgent (r_agentName r) ars) eqn:Hv.
    + apply succeeds_ret. split_and!; [done..|]. exists ars. fold name. rewrite E, Hs, insert_id by done.
      split_and!; try done. intros _. split; [done|]. by repeat constructor.
    + apply succeeds_wrap. destruct (cp_update w1 (fixAgent (r_agentName r) ars)) as (w2 & Hu & Hp2 & Hs2 & He2).
      { simpl. rewrite Hn, Hs, E. done. }
      exists [Ev (S := control) (CUpdateAPIResourceSchema (fixAgent (r_agentName r) ars)) (Ok tt)], tt, w2.
      split; [simpl; by rewrite Hu|]. split_and!; [congruence..|]. exists (fixAgent (r_agentName r) ars).
      fold name. rewrite E, Hs2, Hs. simpl. rewrite Hn. split_and!; try done; [apply fixAgent_valid|congruence].
  - assert (exists ars, CreateAPIResourceSchema crd name (r_agentName r) = Ok ars) as [ars Ha]
      by (unfold CreateAPIResourceSchema; rewrite Hspec; eauto).
    change (succeeds h (let* ars := liftO (wrapErr "failed to construct APIResourceSchema"
                             (CreateAPIResourceSchema crd name (r_agentName r))) in
        wrapM "failed to create APIResourceSchema" (createAPIResourceSchema ars)) w1
      (fun tr _ w' => ensured crd w (Ev (S := control) (CGetAPIResourceSchema name) (Err errNotFound) :: tr) w')).
    rewrite Ha. simpl wrapErr. rewrite bindM_liftO. apply succeeds_wrap.
    pose proof (CreateAPIResourceSchema_name _ _ _ _ Ha) as Hn.
    destruct (cp_create w1 ars) as (w2 & Hu & Hp2 & Hs2 & He2); [by rewrite Hn, Hs|].
    exists [Ev (S := control) (CCreateAPIResourceSchema ars) (Ok tt)], tt, w2.
    split; [simpl; by rewrite Hu|]. split_and!; [congruence..|]. exists ars. fold name. rewrite E, Hs2, Hs, Hn.
    split_and!; try done. by eapply CreateAPIResourceSchema_valid.
Qed.

(** ** What has been achieved, and what is always true *)

(** The schema of a PublishedResource exists and is noted in its status. *)
Definition schema_done (w : W) (key : NamespacedName) : Prop :=
  forall p, pubs w !! key = Some p ->
    status p = schemaName w p /\
    exists ars, schemas w !! schemaName w p = Some ars /\ validAgent (r_agentName r) ars = true.

(** A PublishedResource whose kind exists and can be projected and converted. *)
Record publishable (w : W) (p : PublishedResource) : Prop := {
  pb_alive : om_deletionTimestamp (pr_Meta p) = None;
  pb_crd : exists crd spec, projected w p = Ok crd /\ CRDToAPIResourceSchema crd "irrelevant" = inl spec /\
    char_in "."%char (cn_Plural (cs_Names (crd_Spec crd))) = false;
  pb_status : status p <> "" -> is_ok (parseSchemaName (status p)) = true
}.

(** The names of schemas that belong to a PublishedResource: the one it is
    going to have, and the one it may still have. *)
Definition belongs (w : W) (p : PublishedResource) (s : string) : Prop :=
  s = schemaName w p \/ (s = status p /\ s <> "").

(** A schema that exists under the name of a CRD has the content of the CRD. *)
Definition content_of (crd : CustomResourceDefinition) (ars : APIResourceSchema) : Prop :=
  forall agent ars0, CreateAPIResourceSchema crd (GetAPIResourceSchemaName crd) agent = Ok ars0 ->
    ars_Spec ars = ars_Spec ars0.

Record inv (w : W) : Prop := {
  inv_name : ae_Name (export w) = x_apiExportName x;
  inv_publishable key p : pubs w !! key = Some p -> publishable w p;
  inv_content key p crd ars :
    pubs w !! key = Some p -> projected w p = Ok crd -> schemas w !! GetAPIResourceSchemaName crd = Some ars ->
    content_of crd ars;
  (* no two of them publish the same resource *)
  inv_distinct k1 k2 p1 p2 s1 s2 :
    pubs w !! k1 = Some p1 -> pubs w !! k2 = Some p2 -> belongs w p1 s1 -> belongs w p2 s2 ->
    parseResourceGroup s1 = parseResourceGroup s2 -> k1 = k2;
  inv_parses s : s ∈ ae_LatestResourceSchemas (export w) -> is_ok (parseSchemaName s) = true;
  inv_one : one_per_resource (ae_LatestResourceSchemas (export w))
}.

(** PublishedResources keep their specs, and what is done stays done. *)
Definition evolves (w w' : W) : Prop :=
  forall key, (schema_done w key -> schema_done w' key) /\
    match pubs w !! key, pubs w' !! key with
    | Some p, Some p' => pr_Spec p' = pr_Spec p
    | None, None => True
    | _, _ => False
    end.

Lemma schemaName_parses w p :
  publishable w p -> schemaName w p <> "" /\ is_ok (parseSchemaName (schemaName w p)) = true.
Proof.
  intros [_ (crd & spec & Hc & _ & Hp) _]. unfold schemaName. rewrite Hc.
  destruct (schemaName_parts crd Hp) as (ck & _ & _ & H). split; [done|]. by rewrite H.
Qed.

Lemma content_of_created crd agent ars :
  CreateAPIResourceSchema crd (GetAPIResourceSchemaName crd) agent = Ok ars -> content_of crd ars.
Proof.
  unfold content_of, CreateAPIResourceSchema. destruct (CRDToAPIResourceSchema _ _); [|done].
  intros [= <-] agent' ars0 [= <-]. done.
Qed.

#[local] Instance evolves_trans : Transitive evolves.
Proof.
  intros w1 w2 w3 H12 H23 key. destruct (H12 key) as [Hd1 Hp1], (H23 key) as [Hd2 Hp2]. split; [auto|].
  destruct (pubs w1 !! key), (pubs w2 !! key), (pubs w3 !! key); try done. congruence.
Qed.

(** All of it depends on the clusters only. *)
Lemma schema_done_same w w' key : same w' w -> schema_done w key -> schema_done w' key.
Proof.
  intros [Hp Hs He] Hd p. rewrite Hp, Hs, (schemaName_static w' w p p eq_refl). apply Hd.
Qed.

Lemma evolves_same w w' : same w' w -> evolves w w'.
Proof.
  intros H key. split; [by apply schema_done_same|]. destruct H as [-> _ _]. by destruct (pubs w !! key).
Qed.

Lemma publishable_spec w w' p p' :
  pr_Spec p' = pr_Spec p -> om_deletionTimestamp (pr_Meta p') = om_deletionTimestamp (pr_Meta p) ->
  (status p' = status p \/ status p' = schemaName w p) -> publishable w p -> publishable w' p'.
Proof.
  intros Hs Hd Hst Hp. split.
  - rewrite Hd. apply Hp.
  - rewrite (projected_static w' w p'), (projected_spec w p' p Hs). apply Hp.
  - intros Hne. destruct Hst as [Hst|Hst]; rewrite Hst in *; [by apply Hp|]. by apply schemaName_parses.
Qed.

Lemma belongs_same w w' p s : belongs w' p s <-> belongs w p s.
Proof. unfold belongs. by rewrite (schemaName_static w' w p p eq_refl). Qed.

Lemma inv_same w w' : same w' w -> inv w -> inv w'.
Proof.
  intros [Hp Hs He] Hi. split; rewrite ?Hp, ?Hs, ?He; try apply Hi.
  - intros key p H. apply (publishable_spec w w' p p); auto. by eapply inv_publishable.
  - intros key p crd ars H. rewrite (projected_static w' w). by apply (inv_content w Hi key).
  - intros k1 k2 p1 p2 s1 s2 H1 H2. rewrite !(belongs_same w w'). by apply (inv_distinct w Hi).
Qed.

(** ** The schema controller *)

Section SchemaStep.
Context (w w' : W) (key : NamespacedName) (p p' : PublishedResource) (crd : CustomResourceDefinition).
Context (ars : APIResourceSchema).
Context (Hi : inv w) (Hp : pubs w !! key = Some p) (Hcrd : projected w p = Ok crd).
Context (Hspec : pr_Spec p' = pr_Spec p) (Hstatus : status p' = GetAPIResourceSchemaName crd).
Context (Hmeta : om_deletionTimestamp (pr_Meta p') = om_deletionTimestamp (pr_Meta p)).
Context (Hpubs : pubs w' = <[key := p']> (pubs w)) (Hexport : export w' = export w).
Context (Hschemas : schemas w' = <[GetAPIResourceSchemaName crd := ars]> (schemas w)).
Context (Hvalid : validAgent (r_agentName r) ars = true) (Hcontent : content_of crd ars).

Lemma stepped_name q : pr_Spec q = pr_Spec p -> schemaName w' q = GetAPIResourceSchemaName crd.
Proof. intros Hq. rewrite (schemaName_static w' w q p Hq). unfold schemaName. by rewrite Hcrd. Qed.

Lemma stepped_done : schema_done w' key.
Proof.
  intros q. rewrite Hpubs, lookup_insert_eq. intros [= <-]. rewrite (stepped_name p' Hspec), Hstatus, Hschemas.
  split; [done|]. exists ars. by rewrite lookup_insert_eq.
Qed.

Lemma stepped_evolves : evolves w w'.
Proof.
  intros k. destruct (decide (k = key)) as [->|Hk].
  - split; [intros _; apply stepped_done|]. by rewrite Hpubs, lookup_insert_eq, Hp.
  - rewrite Hpubs, lookup_insert_ne by done. split; [|by destruct (pubs w !! k)].
    intros Hd q. rewrite Hpubs, lookup_insert_ne by done. intros Hq. destruct (Hd q Hq) as (Hst & a & Ha & Hv).
    rewrite (schemaName_static w' w q q eq_refl). split; [done|]. rewrite Hschemas.
    destruct (decide (GetAPIResourceSchemaName crd = schemaName w q)) as [->|Hne].
    + exists ars. by rewrite lookup_insert_eq.
    + exists a. by rewrite lookup_insert_ne.
Qed.

(** Every PublishedResource of the new state, and the one it was before. *)
Lemma stepped_pub k q :
  pubs w' !! k = Some q ->
  exists q0, pubs w !! k = Some q0 /\ pr_Spec q = pr_Spec q0 /\
    om_deletionTimestamp (pr_Meta q) = om_deletionTimestamp (pr_Meta q0) /\
    (status q = status q0 \/ status q = schemaName w q0) /\ forall s, belongs w' q s -> belongs w q0 s.
Proof.
  rewrite Hpubs, lookup_insert_Some. intros [[<- <-]|[_ Hq]].
  - exists p. split_and!; [done..|right; unfold schemaName; by rewrite Hcrd|].
    unfold belongs. rewrite (schemaName_static w' w p' p Hspec).
    assert (schemaName w p = GetAPIResourceSchemaName crd) as -> by (unfold schemaName; by rewrite Hcrd).
    rewrite Hstatus. naive_solver.
  - exists q. split_and!; auto. intros s. by rewrite (belongs_same w w').
Qed.

Lemma stepped_inv : inv w'.
Proof.
  split; rewrite ?Hexport; try apply Hi.
  - intros k q (q0 & H0 & Hs & Hd & Hst & _)%stepped_pub.
    apply (publishable_spec w w' q0 q); try done. by eapply inv_publishable.
  - intros k q c a (q0 & H0 & Hs & _ & _ & Hb)%stepped_pub Hc.
    rewrite (projected_static w' w), (projected_spec w q q0 Hs) in Hc.
    rewrite Hschemas, lookup_insert_Some. intros [[Hn <-]|[_ Ha]]; [|by eapply (inv_content w Hi k q0)].
    assert (key = k) as <-.
    { apply (inv_distinct w Hi key k p q0 (schemaName w p) (schemaName w q0)); try done; [by left..|].
      unfold schemaName. by rewrite Hcrd, Hc, Hn. }
    rewrite Hp in H0. injection H0 as <-. rewrite Hcrd in Hc. by injection Hc as <-.
  - intros k1 k2 q1 q2 s1 s2 (q1' & H1 & _ & _ & _ & Hb1)%stepped_pub (q2' & H2 & _ & _ & _ & Hb2)%stepped_pub B1 B2.
    by apply (inv_distinct w Hi k1 k2 q1' q2' s1 s2); auto.
Qed.

End SchemaStep.

Context (HC : NewClient (r_restConfig r) = Ok tt).

Lemma updateStatus_succeeds w key p name :
  pubs w !! key = Some p ->
  succeeds h (updateStatus p name) w (fun tr _ w' => schemas w' = schemas w /\ export w' = export w /\
    exists p', pubs w' = <[key := p']> (pubs w) /\ pr_Spec p' = pr_Spec p /\ status p' = name /\
      om_deletionTimestamp (pr_Meta p') = om_deletionTimestamp (pr_Meta p) /\
      (status p = name -> p' = p /\ tr = [])).
Proof.
  intros Hp. unfold updateStatus. case_decide as Hn.
  - apply succeeds_wrap. destruct (cp_patch w key p (MkPubResStatus name) Hp) as (w' & p' & Hr & H1 & H2 & H3 & H4 & H5 & H6).
    eexists _, tt, w'. split; [unfold withSchemaName; simpl; by rewrite Hr|]. split_and!; [done..|].
    exists p'. split_and!; try done. unfold status. by rewrite H3.
  - apply succeeds_ret. split_and!; [done..|]. exists p. rewrite insert_id by done.
    split_and!; try done.
Qed.

(** One reconciliation of a PublishedResource. *)
Lemma schema_step w key p :
  inv w -> pubs w !! key = Some p ->
  succeeds h (ApiResourceSchema.Reconcile r key) w (fun tr _ w' =>
    inv w' /\ evolves w w' /\ schema_done w' key /\ export w' = export w /\
    (schema_done w key -> same w' w /\ only_reads tr)).
Proof.
  intros Hi Hp. destruct (inv_publishable w Hi key p Hp) as [Hal (crd & spec & Hcrd & Hconv & _) _].
  unfold ApiResourceSchema.Reconcile, getPublishedResource, tryM at 1, bindM at 1. simpl.
  apply succeeds_read; [done|]. intros w1 Hs1. rewrite (cp_get_pub w key p Hp). simpl.
  rewrite decide_False by (rewrite Hal; by intros [? [=]]). apply succeeds_bind, succeeds_try.
  unfold ApiResourceSchema.reconcile. rewrite HC. simpl wrapErr. rewrite bindM_liftO.
  run_step. run_step. apply (project_succeeds _ _ crd); [by rewrite (projected_static w1 w)|].
  intros tr2 w2 Hs2 Hr2. cbv zeta. run_step. eapply succeeds_mono; [by apply (ensureSchema_succeeds crd w2 spec)|].
  assert (same w2 w) as [Hpw Hsw Hew] by (by transitivity w1). simpl.
  intros tr3 _ w3 (Hp3 & He3 & ars & Hs3 & Hn3 & Hv3 & Hold).
  eapply succeeds_mono; [apply (updateStatus_succeeds w3 key p); by rewrite Hp3, Hpw|]. simpl.
  intros tr4 _ w4 (Hs4 & He4 & p' & Hp4 & Hsp & Hst & Hm & Hsame). apply succeeds_ret.
  rewrite Hp3, Hpw in Hp4. rewrite Hs3, Hsw in Hs4. rewrite He3, Hew in He4. rewrite Hsw in Hold.
  assert (content_of crd ars) as Hc.
  { destruct (schemas w !! GetAPIResourceSchemaName crd) as [old|] eqn:Eo; [|by eapply content_of_created].
    intros agent a Ha. destruct Hold as [-> _]. by eapply (inv_content w Hi key p crd old). }
  assert (schemaName w p = GetAPIResourceSchemaName crd) as Hname by (unfold schemaName; by rewrite Hcrd).
  split_and!; [by eapply stepped_inv|by eapply stepped_evolves|by eapply stepped_done|done|].
  intros Hd. destruct (Hd p Hp) as (Hst' & old & Ho & Hv). rewrite Hname in *. rewrite Ho in Hold.
  destruct Hold as [_ Hold]. destruct (Hold Hv) as [-> Hr3]. destruct (Hsame Hst') as [-> ->].
  split; [split; rewrite ?Hp4, ?Hs4, ?insert_id; done|].
  rewrite !app_nil_r. apply (only_reads_app [_]); [by repeat constructor|]. by apply only_reads_app.
Qed.

(** ** The export controller *)

(** The names that are ready, and all names, as the controller collects them. *)
Definition nameOf (w : W) (p : PublishedResource) : string :=
  if decide (status p <> "") then status p else schemaName w p.
Definition ready_of (l : list PublishedResource) : gset string :=
  list_to_set (List.filter (fun s => bool_decide (s <> "")) (status <$> l)).
Definition all_of (w : W) (l : list PublishedResource) : gset string := list_to_set (nameOf w <$> l).

Lemma elem_of_ready_of l s : s ∈ ready_of l <-> exists p, p ∈ l /\ status p = s /\ s <> "".
Proof.
  unfold ready_of. rewrite elem_of_list_to_set, list_elem_of_In, filter_In, <- list_elem_of_In.
  rewrite list_elem_of_fmap, bool_decide_eq_true. naive_solver.
Qed.

Lemma elem_of_all_of w l s : s ∈ all_of w l <-> exists p, p ∈ l /\ s = nameOf w p.
Proof. unfold all_of. rewrite elem_of_list_to_set, list_elem_of_fmap. naive_solver. Qed.

Lemma getSchemaName_succeeds w p (Q : list (event control) -> _ -> _ -> Prop) :
  publishable w p ->
  (forall tr w1, same w1 w -> only_reads tr -> Q tr (nameOf w p) w1) ->
  succeeds h (getSchemaName p) w Q.
Proof.
  intros Hp HQ. unfold getSchemaName, nameOf in *. fold (status p). case_decide.
  - apply succeeds_ret, HQ; [reflexivity|constructor].
  - destruct (pb_crd _ _ Hp) as (crd & _ & Hc & _). run_step. run_step. apply (project_succeeds _ _ crd); [done|].
    intros tr w1 Hs Hr. apply succeeds_ret. rewrite app_nil_r. unfold schemaName in HQ. rewrite Hc in HQ. by apply HQ.
Qed.

Lemma nameOf_same w w1 p : nameOf w1 p = nameOf w p.
Proof. unfold nameOf. by rewrite (schemaName_static w1 w p p eq_refl). Qed.

Lemma all_of_same w w1 l : all_of w1 l = all_of w l.
Proof. unfold all_of. f_equal. apply list_fmap_ext. intros i q _. apply nameOf_same. Qed.

Lemma collect_succeeds l w acc :
  (forall p, p ∈ l -> publishable w p) ->
  succeeds h (foldM collectStep acc l) w (fun tr res w' =>
    same w' w /\ only_reads tr /\ res = (ready_of l ∪ acc.1, all_of w l ∪ acc.2)).
Proof.
  revert w acc. induction l as [|p l IH]; intros w [ready all] Hl; simpl.
  { apply succeeds_ret. split_and!; [reflexivity|constructor|]. f_equal; set_solver. }
  apply succeeds_bind. unfold collectStep at 1. apply succeeds_bind, succeeds_wrap, getSchemaName_succeeds; [set_solver|].
  intros tr1 w1 Hs1 Hr1. cbv zeta. fold (status p).
  assert (forall acc', succeeds h (foldM collectStep acc' l) w1 (fun tr res w' =>
    same w' w /\ only_reads (tr1 ++ tr) /\ res = (ready_of l ∪ acc'.1, all_of w l ∪ acc'.2))) as Hrest.
  { intros acc'. eapply succeeds_mono; [apply IH; intros q Hq; apply (publishable_spec w w1 q q); auto; set_solver|].
    intros tr2 res w' (Hs & Hr & ->). split_and!; [by transitivity w1|by apply only_reads_app|].
    by rewrite (all_of_same w w1). }
  assert (forall s, s ∈ ready_of (p :: l) <-> (s = status p /\ s <> "") \/ s ∈ ready_of l) as Hready.
  { intros s. rewrite !elem_of_ready_of. setoid_rewrite elem_of_cons. naive_solver. }
  case_decide as Hst; apply succeeds_ret; rewrite app_nil_r;
    (eapply succeeds_mono; [apply Hrest|]); intros tr res w' (Hs & Hr & ->); (split_and!; [done..|]); simpl; f_equal.
  - apply set_eq. intros s. unfold nameOf. rewrite decide_True by done. set_solver.
  - set_solver.
  - apply set_eq. intros s. set_solver.
  - set_solver.
Qed.

Lemma ownResources_total names :
  (forall s, s ∈ names -> is_ok (parseSchemaName s) = true) -> exists own, ownResources names = Ok own.
Proof.
  unfold ownResources. generalize (∅ : gset GroupResource).
  induction names as [|s names IH]; intros acc H; simpl; [eauto|].
  destruct (parseSchemaName s) as [gvr| |] eqn:E; [|specialize (H s ltac:(set_solver)); by rewrite E in H..].
  simpl. apply IH. set_solver.
Qed.

Definition is_event (q : creq) : Prop := exists a t s m, q = CEvent a t s m.

Lemma createAPIExportReconciler_events ready claimed agent e :
  always (S := control) is_event (createAPIExportReconciler ready claimed agent e).
Proof.
  unfold is_event, createAPIExportReconciler, createSchemaEvents, emitControlEvent. repeat (always_step; simpl); eauto.
Qed.

(** The function that the controller hands to the reconciling package: it
    returns the reconciled export, and is silent if that is the old one. *)
Lemma export_factory_runs ready claimed w w1 :
  ae_Name (export w) = x_apiExportName x -> same w1 w ->
  let e' := reconciled ready claimed (x_agentName x) (export w) in
  exists tr w2, run h (export_factory x ready claimed (Some (export w))) w1 = (tr, Ok e', w2) /\ same w2 w /\
    Forall (fun _ => mergeResourceSchemas (ae_LatestResourceSchemas (export w)) ready
                       <> ae_LatestResourceSchemas (export w) \/ ~ claimed ⊆ existingClaims (export w)) (requests tr).
Proof.
  intros Hn Hs e'. set (m := createAPIExportReconciler ready claimed (x_agentName x) (export w)).
  pose proof (createAPIExportReconciler_events ready claimed (x_agentName x) (export w)) as Hev.
  assert (same (run h m w1).2 w1) as Hq.
  { apply run_quiet. eapply (always_mono (S := control)); [|exact Hev]. intros q (a & t & s & n & ->) v. apply cp_event. }
  destruct (createAPIExportReconciler_result _ _ _ _ _ _ (run_execution h m w1)) as [Ho Htr].
  destruct (run h m w1) as [[tr o] w2] eqn:E. simpl in *. subst o. exists tr, w2. split_and!.
  - unfold export_factory. erewrite rr_named; [|rewrite rr_namespaced; exact E]. unfold e', renamed, reconciled.
    by rewrite <- Hn.
  - by transitivity w1.
  - destruct (decide (mergeResourceSchemas (ae_LatestResourceSchemas (export w)) ready
                       = ae_LatestResourceSchemas (export w))) as [Hm|Hm];
      [destruct (decide (claimed ⊆ existingClaims (export w))) as [Hc|Hc]|].
    + rewrite Htr by (done || by rewrite Hm). constructor.
    + apply Forall_forall. auto.
    + apply Forall_forall. auto.
Qed.

(** Nothing is written but the gauge. *)
Definition at_rest (tr : list (event control)) : Prop :=
  Forall (fun q => control_read q = true \/ exists n, q = CSetGauge PublishedResourcesManaged n) (requests tr).

Lemma at_rest_app tr tr' : at_rest tr -> at_rest tr' -> at_rest (tr ++ tr').
Proof. unfold at_rest, requests. rewrite fmap_app. by apply Forall_app_2. Qed.

Lemma only_reads_at_rest tr : only_reads tr -> at_rest tr.
Proof. intros H. eapply Forall_impl; [exact H|]. auto. Qed.

Definition listed (w : W) (l : list PublishedResource) : Prop :=
  forall p, p ∈ l <-> exists key, pubs w !! key = Some p.

(** What a reconciliation makes of the export, for the PublishedResources
    and the resources it takes for its own. *)
Definition target (w : W) (l : list PublishedResource) (own : gset GroupResource) : APIExport :=
  reconciled (ready_of l) (claimedResources own l) (x_agentName x) (export w).

Definition exported (w : W) (tr : list (event control)) (w' : W) : Prop :=
  exists l own, listed w l /\
    ownResources (mergeResourceSchemas (ae_LatestResourceSchemas (export w)) (all_of w l)) = Ok own /\
    pubs w' = pubs w /\ schemas w' = schemas w /\ export w' = target w l own /\
    (mergeResourceSchemas (ae_LatestResourceSchemas (export w)) (ready_of l) = ae_LatestResourceSchemas (export w) ->
     claimedResources own l ⊆ existingClaims (export w) -> target w l own = export w -> at_rest tr).

Lemma listed_publishable w l : inv w -> listed w l -> forall p, p ∈ l -> publishable w p.
Proof. intros Hi Hl p (key & Hk)%Hl. by eapply inv_publishable. Qed.

Lemma nameOf_parses w p : publishable w p -> is_ok (parseSchemaName (nameOf w p)) = true.
Proof. intros Hp. unfold nameOf. case_decide; [by apply Hp|by apply schemaName_parses]. Qed.

Lemma own_succeeds w l :
  inv w -> listed w l ->
  exists own, ownResources (mergeResourceSchemas (ae_LatestResourceSchemas (export w)) (all_of w l)) = Ok own.
Proof.
  intros Hi Hl. apply ownResources_total. intros s. rewrite elem_of_mergeResourceSchemas.
  intros [(p & Hp & ->)%elem_of_all_of|[Hs _]]; [|by apply (inv_parses w Hi)].
  by eapply nameOf_parses, listed_publishable.
Qed.

Lemma export_step w : inv w -> succeeds h (ApiExport.Reconcile x) w (fun tr _ w' => exported w tr w').
Proof.
  intros Hi. unfold ApiExport.Reconcile, getAPIExport, tryM at 1, bindM at 1. simpl.
  rewrite <- (inv_name w Hi). apply succeeds_read; [done|]. intros w1 Hs1. rewrite cp_get_export. simpl.
  unfold ApiExport.reconcile, listPublishedResources, wrapM at 1, bindM at 1. simpl.
  apply succeeds_read; [done|]. intros w2 Hs2. destruct (cp_list w1) as (l & Hl & Hlist). rewrite Hl. simpl.
  unfold setGauge, bindM at 1. simpl. apply succeeds_quiet; [intros v; apply cp_gauge|]. intros w3 Hs3.
  assert (same w3 w) as Hs by (etransitivity; [exact Hs3|]; by transitivity w1).
  assert (listed w l) as Hlw by (intros p; rewrite Hlist; by rewrite (same_pubs _ _ Hs1)).
  destruct (own_succeeds w l Hi Hlw) as [own Hown].
  change (succeeds h (afterList x (export w) l) w3 (fun tr _ w' =>
    exported w (Ev (S := control) (CGetAPIExport None (ae_Name (export w))) (Ok (export w)) ::
      Ev (S := control) (CListPublishedResources (x_prFilter x)) (Ok l) ::
      Ev (S := control) (CSetGauge PublishedResourcesManaged (length l)) tt :: tr) w')).
  unfold afterList. apply succeeds_bind. eapply succeeds_mono; [apply collect_succeeds|].
  { intros p Hp. apply (publishable_spec w w3 p p); auto. by eapply listed_publishable. }
  intros tr4 res w4 (Hs4 & Hr4 & ->). simpl.
  rewrite !(right_id_L ∅ (∪)), (all_of_same w w3), Hown. rewrite bindM_liftO.
  assert (same w4 w) as Hs' by (by transitivity w3). pose proof (same_export _ _ Hs') as He4.
  apply succeeds_wrap. run_step. apply succeeds_wrap.
  destruct (rr_ensure (x_apiExportName x) (export_factory x (ready_of l) (claimedResources own l)) w4 (target w l own)
    (fun _ => mergeResourceSchemas (ae_LatestResourceSchemas (export w)) (ready_of l)
                       <> ae_LatestResourceSchemas (export w) \/ ~ claimedResources own l ⊆ existingClaims (export w)))
    as (tr5 & w5 & Hr5 & Hp5 & Hsc5 & He5 & Hq5).
  { rewrite He4. apply Hi. }
  { apply Hi. }
  { rewrite He4. intros v Hv. destruct (export_factory_runs (ready_of l) (claimedResources own l) w v)
      as (tr & v2 & Hr & Hv2 & Hf); [apply Hi|by transitivity w4|]. exists tr, v2. split_and!; [done| |done].
    etransitivity; [exact Hv2|]. by symmetry. }
  exists tr5, tt, w5. split; [exact Hr5|]. apply succeeds_ret. rewrite app_nil_r. exists l, own.
  split_and!; [done|done|by rewrite Hp5, (same_pubs _ _ Hs')|by rewrite Hsc5, (same_schemas _ _ Hs')|done|].
  intros Hm Hc Ht. apply (at_rest_app [_; _; _]); [|apply at_rest_app];
    [do 2 (constructor; [by left|]); constructor; [right; by exists (length l)|constructor]|by apply only_reads_at_rest|].
  eapply Forall_impl; [apply Hq5; by rewrite He4|].
  intros q [?|[?|?]]; [by left|done..].
Qed.

(** ** What a reconciliation of the export achieves *)

Lemma one_per_merge existing ready :
  one_per_resource (elements ready) -> one_per_resource existing ->
  one_per_resource (mergeResourceSchemas existing ready).
Proof.
  intros Hr He a b. rewrite !elem_of_mergeResourceSchemas. unfold one_per_resource, resources_of in *.
  intros [Ha|[Ha Hna]] [Hb|[Hb Hnb]] E; [apply Hr; set_solver| | |auto].
  - exfalso. apply Hnb. rewrite <- E. set_solver.
  - exfalso. apply Hna. rewrite E. set_solver.
Qed.

Lemma ready_one w l : inv w -> listed w l -> one_per_resource (elements (ready_of l)).
Proof.
  intros Hi Hl a b. rewrite !elem_of_elements, !elem_of_ready_of.
  intros (p1 & [k1 H1]%Hl & <- & Hn1) (p2 & [k2 H2]%Hl & <- & Hn2) E.
  assert (k1 = k2) as -> by (apply (inv_distinct w Hi k1 k2 p1 p2 (status p1) (status p2)); auto; right; auto).
  by simplify_eq.
Qed.

Lemma exported_inv w tr w' : inv w -> exported w tr w' -> inv w' /\ evolves w w'.
Proof.
  intros Hi (l & own & Hl & _ & Hp & Hs & He & _). split.
  - split; rewrite ?Hp, ?Hs, ?He; try apply Hi.
    + intros key p H. apply (publishable_spec w w' p p); auto. by eapply inv_publishable.
    + intros key p crd ars H. rewrite (projected_static w' w). by apply (inv_content w Hi key).
    + intros k1 k2 p1 p2 s1 s2 H1 H2. rewrite !(belongs_same w w'). by apply (inv_distinct w Hi).
    + intros s. simpl. rewrite elem_of_mergeResourceSchemas.
      intros [(p & Hin & <- & Hne)%elem_of_ready_of|[H _]]; [|by apply (inv_parses w Hi)].
      by eapply pb_status; [eapply listed_publishable|].
    + apply one_per_merge; [by eapply ready_one|apply Hi].
  - intros key. split; [|rewrite Hp; by destruct (pubs w !! key)].
    intros Hd p. rewrite Hp, Hs, (schemaName_static w' w p p eq_refl). apply Hd.
Qed.

Definition all_done (w : W) : Prop := forall key, schema_done w key.

(** Reconciling the export would not change it. *)
Definition export_done (w : W) : Prop :=
  forall l own, listed w l ->
    ownResources (mergeResourceSchemas (ae_LatestResourceSchemas (export w)) (ready_of l)) = Ok own ->
    mergeResourceSchemas (ae_LatestResourceSchemas (export w)) (ready_of l) = ae_LatestResourceSchemas (export w) /\
    claimedResources own l ⊆ existingClaims (export w) /\ target w l own = export w.

Lemma done_names w l : inv w -> all_done w -> listed w l -> all_of w l = ready_of l.
Proof.
  intros Hi Hd Hl. apply set_eq. intros s. rewrite elem_of_all_of, elem_of_ready_of.
  assert (forall p, p ∈ l -> nameOf w p = status p /\ status p <> "") as Hn.
  { intros p Hp. pose proof (listed_publishable w l Hi Hl p Hp) as Hpb. apply Hl in Hp as [key Hk].
    destruct (Hd key p Hk) as [Hst _]. pose proof (schemaName_parses w p Hpb) as [Hne _].
    unfold nameOf. rewrite decide_True; by rewrite Hst. }
  split; intros (p & Hp & H); destruct (Hn p Hp) as [Hx Hy]; exists p.
  - rewrite Hx in H. by subst.
  - destruct H as [<- _]. by rewrite Hx.
Qed.

Lemma ready_of_listed w w' l l' : pubs w' = pubs w -> listed w l -> listed w' l' -> forall p, p ∈ l' <-> p ∈ l.
Proof. intros Hp Hl Hl' p. by rewrite (Hl p), (Hl' p), Hp. Qed.

Lemma ready_of_ext l l' : (forall p, p ∈ l' <-> p ∈ l) -> ready_of l' = ready_of l.
Proof. intros H. apply set_eq. intros s. rewrite !elem_of_ready_of. by setoid_rewrite H. Qed.

Lemma claimedResources_ext own l l' : (forall p, p ∈ l' <-> p ∈ l) -> claimedResources own l' = claimedResources own l.
Proof. intros H. apply set_eq. intros c. rewrite !elem_of_claimedResources. by setoid_rewrite H. Qed.

Lemma exported_done w tr w' : inv w -> all_done w -> exported w tr w' -> export_done w'.
Proof.
  intros Hi Hd (l & own & Hl & Hown & Hp & Hs & He & _) l' own' Hl' Hown'.
  pose proof (ready_of_listed w w' l l' Hp Hl Hl') as Hin. rewrite (done_names w l Hi Hd Hl) in Hown.
  destruct (reconciled_settled R R SO SO C C (ready_of l) (claimedResources own l) (x_agentName x) (export w))
    as (Hm & Hc & Ht); [by eapply ready_one|apply Hi|].
  unfold target in *. rewrite (ready_of_ext _ _ Hin), He in *. rewrite Hm in Hown'. simpl in Hown'.
  rewrite Hown in Hown'. injection Hown' as <-. rewrite (claimedResources_ext _ _ _ Hin). auto.
Qed.

Lemma exported_rests w tr w' :
  inv w -> all_done w -> export_done w -> exported w tr w' -> same w' w /\ at_rest tr.
Proof.
  intros Hi Hd Hed (l & own & Hl & Hown & Hp & Hs & He & Hq). rewrite (done_names w l Hi Hd Hl) in Hown.
  destruct (Hed l own Hl Hown) as (Hm & Hc & Ht). split; [|by apply Hq]. split; [done|done|congruence].
Qed.

(** ** Histories *)

Inductive action : Type :=
| ReconcileSchema (key : NamespacedName)
| ReconcileExport.

Definition perform (a : action) : M control unit :=
  match a with
  | ReconcileSchema key => ApiResourceSchema.Reconcile r key
  | ReconcileExport => ApiExport.Reconcile x
  end.

(** The reconciliations of the list, one after the other, none of which
    fails. *)
Inductive performs : W -> list action -> W -> Prop :=
| performs_nil w : performs w [] w
| performs_cons w a l tr w1 w' :
    run h (perform a) w = (tr, Ok tt, w1) -> performs w1 l w' -> performs w (a :: l) w'.

(** The agent is responsible for what is reconciled. *)
Definition known (w : W) (a : action) : Prop :=
  match a with ReconcileSchema key => is_Some (pubs w !! key) | ReconcileExport => True end.

(** No resource and no permission disappears from the export. *)
Definition keeps (e e' : APIExport) : Prop :=
  (forall s, s ∈ ae_LatestResourceSchemas e ->
     exists s', s' ∈ ae_LatestResourceSchemas e' /\ parseResourceGroup s' = parseResourceGroup s) /\
  (forall c, granted e c -> granted e' c).

#[local] Instance keeps_preorder : PreOrder keeps.
Proof.
  split.
  - intros e. split; [|done]. intros s Hs. by exists s.
  - intros e1 e2 e3 [H1 G1] [H2 G2]. split; [|auto]. intros s (s1 & (s2 & ? & <-)%H2 & <-)%H1. by exists s2.
Qed.

Lemma target_keeps w l own : keeps (export w) (target w l own).
Proof.
  split; [|intros c Hc; apply reconciled_granted; by left]. intros s Hs. unfold target. simpl.
  setoid_rewrite elem_of_mergeResourceSchemas.
  destruct (decide (parseResourceGroup s ∈ resources_of (ready_of l))) as [Hin|Hin]; [|by exists s; auto].
  unfold resources_of in Hin. apply elem_of_map in Hin as (s' & ? & ?). exists s'. auto.
Qed.

Lemma evolves_known w w' a : evolves w w' -> known w a -> known w' a.
Proof.
  destruct a as [key|]; [|done]. intros He [p Hp]. destruct (He key) as [_ H]. rewrite Hp in H. simpl.
  by destruct (pubs w' !! key).
Qed.

(** One reconciliation, of either controller. *)
Lemma action_step w a :
  inv w -> known w a ->
  exists tr w', run h (perform a) w = (tr, Ok tt, w') /\ inv w' /\ evolves w w' /\ keeps (export w) (export w') /\
    (forall key, a = ReconcileSchema key -> schema_done w' key) /\
    (all_done w -> a = ReconcileExport -> export_done w') /\
    (all_done w -> export_done w -> same w' w /\ at_rest tr).
Proof.
  intros Hi Hk. destruct a as [key|].
  - destruct Hk as [p Hp]. destruct (schema_step w key p Hi Hp) as (tr & [] & w' & Hr & Hi' & Hev & Hd & He & Hq).
    exists tr, w'. split_and!; [done..|by rewrite He| |done|].
    + by intros key' [= <-].
    + intros Hall _. destruct (Hq (Hall key)). split; [done|]. by apply only_reads_at_rest.
  - destruct (export_step w Hi) as (tr & [] & w' & Hr & Hex). destruct (exported_inv w tr w' Hi Hex) as [Hi' Hev].
    exists tr, w'. split_and!; [done..| |done| |].
    + destruct Hex as (l & own & _ & _ & _ & _ & -> & _). apply target_keeps.
    + intros Hall _. by apply (exported_done w tr w').
    + intros Hall Hd. by apply (exported_rests w tr w').
Qed.

Lemma performs_app w l1 l2 w1 w2 : performs w l1 w1 -> performs w1 l2 w2 -> performs w (l1 ++ l2) w2.
Proof. induction 1; intros H2; simpl; [done|]. econstructor; eauto. Qed.

Lemma evolves_specs w w' : evolves w w' -> pr_Spec <$> pubs w' = pr_Spec <$> pubs w.
Proof.
  intros H. apply map_eq. intros key. rewrite !lookup_fmap. destruct (H key) as [_ Hk].
  destruct (pubs w !! key), (pubs w' !! key); simpl; congruence || done.
Qed.

Lemma export_done_same w w' : same w' w -> export_done w -> export_done w'.
Proof. intros [Hp Hs He] H l own. unfold target, listed. rewrite Hp, He. apply H. Qed.

(** Any number of them. *)
Lemma performs_step w l :
  inv w -> Forall (known w) l ->
  exists w', performs w l w' /\ inv w' /\ evolves w w' /\ keeps (export w) (export w') /\
    (forall key, ReconcileSchema key ∈ l -> schema_done w' key) /\
    (all_done w -> export_done w -> same w' w).
Proof.
  revert w. induction l as [|a l IH]; intros w Hi Hk.
  { exists w. split_and!; [constructor|done|apply evolves_same|..]; try reflexivity. intros key H. by apply elem_of_nil in H. }
  apply Forall_cons in Hk as [Ha Hk]. destruct (action_step w a Hi Ha) as (tr & w1 & Hr & Hi1 & Hev & Hke & Hd & _ & Hq).
  destruct (IH w1 Hi1) as (w' & Hp & Hi' & Hev' & Hke' & Hd' & Hq').
  { eapply Forall_impl; [exact Hk|]. intros b. by apply evolves_known. }
  exists w'. split_and!; [by econstructor|done|by transitivity w1|by transitivity (export w1)|..].
  - intros key [<-|Hin]%elem_of_cons; [|auto]. apply Hev', Hd. done.
  - intros Hall Hed. destruct (Hq Hall Hed) as [Hs _]. etransitivity; [|exact Hs]. apply Hq'.
    + intros key. by eapply schema_done_same.
    + by eapply export_done_same.
Qed.

(** Everything is published: the status of every PublishedResource names the
    schema of its CRD, which exists under the agent's name and is exported,
    and every claim is granted that the PublishedResources need for the
    resources that the export does not provide itself. *)
Record published (w : W) : Prop := {
  pd_schema key p : pubs w !! key = Some p ->
    exists crd ars, projected w p = Ok crd /\ status p = GetAPIResourceSchemaName crd /\
      schemas w !! status p = Some ars /\ content_of crd ars /\ validAgent (r_agentName r) ars = true /\
      status p ∈ ae_LatestResourceSchemas (export w);
  pd_events : granted (export w) eventsClaim;
  pd_claims own key p c :
    ownResources (ae_LatestResourceSchemas (export w)) = Ok own ->
    pubs w !! key = Some p -> pubRes_needs own p c -> granted (export w) c
}.

Lemma done_published w : inv w -> all_done w -> export_done w -> published w.
Proof.
  intros Hi Hall Hed. destruct (cp_list w) as (l & _ & Hl). fold (listed w l) in Hl.
  destruct (own_succeeds w l Hi Hl) as [own Hown]. rewrite (done_names w l Hi Hall Hl) in Hown.
  destruct (Hed l own Hl Hown) as (Hm & Hc & _). rewrite Hm in Hown. split.
  - intros key p Hp. destruct (Hall key p Hp) as (Hst & ars & Ha & Hv).
    destruct (pb_crd _ _ (inv_publishable w Hi key p Hp)) as (crd & spec & Hcrd & _).
    assert (schemaName w p = GetAPIResourceSchemaName crd) as Hn by (unfold schemaName; by rewrite Hcrd).
    rewrite Hst, Hn in *. exists crd, ars. split_and!; try done; [by eapply (inv_content w Hi)|].
    rewrite <- Hm. apply elem_of_mergeResourceSchemas. left. apply elem_of_ready_of.
    exists p. split_and!; [apply Hl; eauto|done|]. rewrite <- Hn. apply schemaName_parses. by eapply inv_publishable.
  - apply Hc, elem_of_claimedResources. by left.
  - intros own' key p c Hown' Hp Hneed. rewrite Hown in Hown'. injection Hown' as <-.
    apply Hc, elem_of_claimedResources. right. exists p. split; [apply Hl; eauto|done].
Qed.

(** C4: publishing converges, whatever the order in which the two controllers
    are run, from any state in which [inv] holds: kinds exist and can be
    projected, no two PublishedResources are for one resource, and schemas
    and their names are in order.  A history of reconciliations in which every PublishedResource
    is reconciled at least once, and the APIExport after that, succeeds step
    by step and ends with everything published; no resource and no permission
    has disappeared from the export, and no spec was touched.  From then on
    both controllers only read and set the gauge. *)
Theorem publishing_converges w l1 l2 :
  inv w ->
  (forall key, is_Some (pubs w !! key) -> ReconcileSchema key ∈ l1) -> Forall (known w) (l1 ++ l2) ->
  exists w', performs w (l1 ++ ReconcileExport :: l2) w' /\ published w' /\
    keeps (export w) (export w') /\ (pr_Spec <$> pubs w') = (pr_Spec <$> pubs w) /\
    forall a, known w a -> exists tr w'', run h (perform a) w' = (tr, Ok tt, w'') /\ same w'' w' /\ at_rest tr.
Proof.
  intros Hi Hcover [Hk1 Hk2]%Forall_app.
  destruct (performs_step w l1 Hi Hk1) as (w1 & P1 & Hi1 & Hev1 & Hke1 & Hd1 & _).
  assert (all_done w1) as Hall1.
  { intros key p Hp. destruct (Hev1 key) as [_ Hev]. rewrite Hp in Hev. destruct (pubs w !! key) eqn:E; [|done].
    apply (Hd1 key); [|done]. apply Hcover. by rewrite E. }
  destruct (action_step w1 ReconcileExport Hi1 I) as (tr & w2 & Hr & Hi2 & Hev2 & Hke2 & _ & Hex & _).
  assert (all_done w2) as Hall2 by (intros key; apply Hev2, Hall1). pose proof (Hex Hall1 eq_refl) as Hed2.
  assert (evolves w w2) as Hev by (by transitivity w1).
  destruct (performs_step w2 l2 Hi2) as (w3 & P3 & Hi3 & Hev3 & Hke3 & _ & Hs3).
  { eapply Forall_impl; [exact Hk2|]. intros b. by apply evolves_known. }
  specialize (Hs3 Hall2 Hed2).
  assert (all_done w3) as Hall3 by (intros key; apply Hev3, Hall2).
  assert (export_done w3) as Hed3 by (by eapply export_done_same).
  assert (evolves w w3) as Hev' by (by transitivity w2).
  exists w3. split_and!; [|by apply done_published|etransitivity; [|exact Hke3]; by transitivity (export w1)|..].
  - eapply performs_app; [exact P1|]. by econstructor.
  - by apply evolves_specs.
  - intros a Ha. destruct (action_step w3 a Hi3) as (tr3 & w4 & Hr3 & _ & _ & _ & _ & _ & Hq);
      [by eapply evolves_known|]. exists tr3, w4. split; [done|]. by apply Hq.
Qed.

End Publishing.

(** ** Witness: a cluster in memory *)

Module SamplePlane.

#[export] Existing Instance SampleDiscovery.lib.
#[export] Existing Instance SampleDiscovery.range.
#[export] Existing Instance SampleDiscovery.range_laws.
#[export] Existing Instance SampleCRD.versions.
#[export] Existing Instance SampleSchema.lib.
#[export] Existing Instance stableSort.
#[export] Existing Instance stableSort_laws.
#[export] Existing Instance SampleExport.claims.
#[export] Existing Instance SampleExport.claims_laws.
#[export] Existing Instance SampleExport.lib.

(** Every object ever written, the latest first. *)
Record state : Type := MkState {
  st_pubs : list PublishedResource;
  st_schemas : list APIResourceSchema;
  st_export : APIExport
}.

Definition pubs (w : state) : gmap NamespacedName PublishedResource :=
  list_to_map ((fun p => (prKey p, p)) <$> st_pubs w).
Definition schemas (w : state) : gmap string APIResourceSchema :=
  list_to_map ((fun a => (ars_Name a, a)) <$> st_schemas w).

Definition found {A} (a : option A) : outcome A := match a with Some a => Ok a | None => Err errNotFound end.

Definition plane : server (S := control) state := fun q w =>
  match q return cresp q * state with
  | CGetPublishedResource key => (found (pubs w !! key), w)
  | CListPublishedResources _ => (Ok (map_to_list (pubs w)).*2, w)
  | CPatchPublishedResourceStatus new _ => (Ok tt, MkState (new :: st_pubs w) (st_schemas w) (st_export w))
  | CGetAPIResourceSchema name => (found (schemas w !! name), w)
  | CCreateAPIResourceSchema ars | CUpdateAPIResourceSchema ars =>
      (Ok tt, MkState (st_pubs w) (ars :: st_schemas w) (st_export w))
  | CGetAPIExport _ name =>
      (if decide (name = ae_Name (st_export w)) then Ok (st_export w) else Err errNotFound, w)
  | CUpdateAPIExport e => (Ok tt, MkState (st_pubs w) (st_schemas w) e)
  | q => ((SampleDiscovery.cluster q tt).1, w)
  end.

Lemma pubs_key w key p : pubs w !! key = Some p -> prKey p = key.
Proof. intros H%elem_of_list_to_map_2. apply list_elem_of_fmap in H as (q & [= -> ->] & _). done. Qed.

Lemma schemas_name w name ars : schemas w !! name = Some ars -> ars_Name ars = name.
Proof. intros H%elem_of_list_to_map_2. apply list_elem_of_fmap in H as (q & [= -> ->] & _). done. Qed.

#[export] Instance plane_laws : ControlPlane SampleExport.reconciler plane pubs schemas st_export.
Proof.
  split.
  - intros q w Hq. destruct q; by try discriminate Hq.
  - by intros.
  - by intros.
  - intros q w w' Hq. by destruct q; try discriminate Hq.
  - intros w key p Hp. simpl. by rewrite Hp.
  - intros w. exists (map_to_list (pubs w)).*2. split; [done|]. intros p. rewrite list_elem_of_fmap. split.
    + intros ([key q] & -> & Hin%elem_of_map_to_list). by exists key.
    + intros [key Hk]. exists (key, p). by rewrite elem_of_map_to_list.
  - done.
  - apply schemas_name.
  - intros w. simpl. by rewrite decide_True.
  - intros w ars _. eexists. by split.
  - intros w ars _. eexists. by split.
  - intros w key p st Hp. eexists _, (MkPubRes (pr_Meta p) (pr_Spec p) st). split; [done|]. simpl. split_and!; try done.
    by rewrite <- (pubs_key w key p Hp).
Qed.

#[export] Instance plane_ensures : ReconcilerRuns plane pubs schemas st_export.
Proof.
  split.
  - done.
  - intros n f e w tr e' w1 H. simpl. unfold SampleExport.named. rewrite (run_bindM_ok _ _ _ _ _ _ _ H). simpl.
    by rewrite app_nil_r.
  - intros n f w e' P <- Hn Hf. simpl. unfold SampleExport.ensure, getAPIExport, tryM, bindM at 1. simpl.
    rewrite decide_True by done. simpl.
    destruct (Hf w) as (tr & w2 & Hr & [Hp Hs He] & HP); [reflexivity|].
    rewrite run_pbind, Hr. case_decide as Heq; simpl; eexists _, _; (split; [done|]); split_and!; try done.
    + congruence.
    + intros _. rewrite app_nil_r. constructor; [by left|]. eapply Forall_impl; [exact HP|]. auto.
Qed.

Definition key : NamespacedName := NN "" "deployments".
Definition deployments : PublishedResource :=
  MkPubRes (Meta "deployments" "" None None None None None 0 [] "1" [] "" "" ∅)
    (pr_Spec SampleDiscovery.pubRes) (MkPubResStatus "").
Definition start : state := MkState [deployments] [] SampleExport.export.

Definition deploymentsCRD : CustomResourceDefinition :=
  Eval vm_compute in match projected plane start deployments with Ok c => c | _ => SampleCRD.crd end.

Lemma start_pub k p : pubs start !! k = Some p -> k = key /\ p = deployments.
Proof.
  intros H%elem_of_list_to_map_2. apply list_elem_of_fmap in H as (q & [= -> ->] & Hin).
  apply list_elem_of_singleton in Hin as ->. done.
Qed.

Lemma start_projected : projected plane start deployments = Ok deploymentsCRD.
Proof. vm_compute. reflexivity. Qed.

Lemma start_inv : inv SampleExport.reconciler plane pubs schemas st_export start.
Proof.
  split.
  - done.
  - intros k p [-> ->]%start_pub. split; [done| |done].
    eexists deploymentsCRD, _. split_and!; [exact start_projected|done|by vm_compute].
  - done.
  - intros k1 k2 p1 p2 s1 s2 [-> _]%start_pub [-> _]%start_pub. done.
  - intros s Hs. by repeat (apply elem_of_cons in Hs as [->|Hs]; [by vm_compute|]); apply elem_of_nil in Hs.
  - apply one_per_resource_dec. by vm_compute.
Qed.

End SamplePlane.
Import SamplePlane.

(** The export is reconciled before and after the PublishedResource. *)
Lemma publishing_converges_witness :
  exists w', performs SampleSchema.reconciler SampleExport.reconciler plane start
    [ReconcileExport; ReconcileSchema key; ReconcileExport; ReconcileSchema key] w' /\
    status (default deployments (pubs w' !! key)) ∈ ae_LatestResourceSchemas (st_export w').
Proof.
  assert (NewClient (r_restConfig SampleSchema.reconciler) = Ok tt) as Hclient by reflexivity.
  destruct (publishing_converges SampleSchema.reconciler SampleExport.reconciler plane pubs schemas st_export Hclient
    start [ReconcileExport; ReconcileSchema key] [ReconcileSchema key] start_inv) as (w' & Hp & Hpub & _ & Hspec & _).
  - intros k [p [-> _]%start_pub]. apply elem_of_cons. right. apply elem_of_cons. by left.
  - repeat constructor; by exists deployments.
  - exists w'. split; [exact Hp|].
    destruct (pubs w' !! key) as [p|] eqn:E.
    + destruct (pd_schema _ _ _ _ _ _ Hpub key p E) as (crd & ars & _ & _ & _ & _ & _ & H). exact H.
    + apply (f_equal (fun m => m !! key)) in Hspec. rewrite !lookup_fmap, E in Hspec. discriminate Hspec.
Defined.
