(* ===== verification/MultiCluster.v ===== *)
(** The dynamic multicluster manager: [internal/kcp/multicluster.go].

    Sync controllers come and go, and so do clusters (kcp workspaces).  The
    manager makes sure that every running controller is engaged with every
    cluster: a new cluster is announced to all running controllers, and a new
    controller is introduced to all known clusters.  Both happen in
    goroutines of their own, under two read-write locks.

    The goroutines are the threads of a transition system.  A thread is its
    program counter with its local variables; a step of a thread is one
    statement: it takes a lock, or accesses one of the two maps ([access]),
    and moves the locks as [runnablesMode] and [trackerMode] say for the two
    program counters.  Contexts are numbers, a [cluster.Cluster] is identified
    with the context it was engaged with, and a controller with the key under
    which it is registered.  The environment is not restricted: any
    controller may be started and any cluster announced at any time. *)

From S2P Require Import Prelude.
From stdpp Require Import relations.

Abbreviation controllerId := nat (only parsing).
Abbreviation contextId := nat (only parsing).
Abbreviation threadId := nat (only parsing).

(** ** Shared data *)

(** [DynamicMultiClusterManager.runnables], [clusterTracker.clusters], and
    the calls of [Engage] that controllers have answered without an error. *)
Record shared : Type := Shared {
  sh_runnables : gset controllerId;
  sh_clusters : gmap string contextId;
  sh_engaged : gset (controllerId * (string * contextId))
}.

(** ** Threads *)

Inductive thread : Type :=
(* [StartController] and [PreSeedController] *)
| StartBegin (c : controllerId)
| StartLocked (c : controllerId)
| StartRegistered (c : controllerId)
| StartReading (c : controllerId)
| StartSeeding (c : controllerId) (rest : list (string * contextId))
| StartDone (c : controllerId) (ok : bool)
(* the goroutine that [StartController] starts *)
| Running (c : controllerId)
| RunnerLocking (c : controllerId)
| RunnerRemoving (c : controllerId)
(* [clusterTracker.Engage] *)
| EngageBegin (name : string) (ctx : contextId)
| EngageInsert (name : string) (ctx : contextId)
| EngageWriting (name : string) (ctx : contextId)
| EngageForward (name : string) (ctx : contextId)
| EngageReading (name : string) (ctx : contextId)
| EngageLoop (name : string) (ctx : contextId) (rest : list controllerId)
| EngageDone (name : string) (ctx : contextId) (ok : bool)
(* the goroutine that [Engage] starts *)
| AwaitDone (name : string) (ctx : contextId)
| TrackerLocking (name : string)
| TrackerRemoving (name : string)
| Gone.

(** ** Accesses to the maps *)

Inductive variable : Type := Runnables | Clusters.
Inductive operation : Type := Read | Write.

#[export] Instance variable_eq_dec : EqDecision variable.
Proof. solve_decision. Defined.
#[export] Instance operation_eq_dec : EqDecision operation.
Proof. solve_decision. Defined.

(** The map that the next statement of a thread accesses, and how.  Each
    iteration of a loop over a map reads it. *)
Definition access (pc : thread) : option (variable * operation) :=
  match pc with
  | StartLocked _ | RunnerRemoving _ => Some (Runnables, Write)
  | EngageReading _ _ | EngageLoop _ _ _ => Some (Runnables, Read)
  | EngageWriting _ _ | TrackerRemoving _ => Some (Clusters, Write)
  | StartReading _ | StartSeeding _ _ | EngageBegin _ _ => Some (Clusters, Read)
  | _ => None
  end.

(** Two threads are about to access the same map, and one of them writes. *)
Definition conflict (x : variable) (pc1 pc2 : thread) : Prop :=
  exists o1 o2, access pc1 = Some (x, o1) /\ access pc2 = Some (x, o2) /\ (o1 = Write \/ o2 = Write).

(** ** Locks *)

Inductive mode : Type := Unlocked | Reading | Writing.

#[export] Instance mode_eq_dec : EqDecision mode.
Proof. solve_decision. Defined.

(** [sync.RWMutex]: the threads that hold it for reading; and the thread that
    has called [Lock], with whether it holds the lock already.  While it is
    waiting for the readers to finish, it keeps new readers out. *)
Record RWMutex : Type := MkRWMutex { mu_readers : gset threadId; mu_writer : option (threadId * bool) }.

#[export] Instance RWMutex_eq_dec : EqDecision RWMutex.
Proof. solve_decision. Defined.

Definition unlockedMutex : RWMutex := MkRWMutex ∅ None.

(** How a thread holds [runnablesLock], and the tracker's [lock]. *)
Definition runnablesMode (pc : thread) : mode :=
  match pc with
  | StartLocked _ | StartRegistered _ | StartReading _ | StartSeeding _ _ | RunnerRemoving _ => Writing
  | EngageReading _ _ | EngageLoop _ _ _ => Reading
  | _ => Unlocked
  end.

Definition trackerMode (pc : thread) : mode :=
  match pc with
  | StartReading _ | StartSeeding _ _ => Reading
  | EngageWriting _ _ | TrackerRemoving _ => Writing
  | _ => Unlocked
  end.

(** The next statement is a call of [Lock]. *)
Definition wantsRunnables (pc : thread) : bool :=
  match pc with StartBegin _ | RunnerLocking _ => true | _ => false end.

Definition wantsTracker (pc : thread) : bool :=
  match pc with EngageInsert _ _ | TrackerLocking _ => true | _ => false end.

(** [Lock], [RLock], [Unlock] and [RUnlock] of thread [t]; a thread that waits
    in [Lock] gets the lock when the last reader is gone. *)
Inductive lockMove (t : threadId) : mode -> mode -> RWMutex -> RWMutex -> Prop :=
| move_none m l : lockMove t m m l l
| move_lock : lockMove t Unlocked Writing unlockedMutex (MkRWMutex ∅ (Some (t, true)))
| move_acquire : lockMove t Unlocked Writing (MkRWMutex ∅ (Some (t, false))) (MkRWMutex ∅ (Some (t, true)))
| move_rlock rd : lockMove t Unlocked Reading (MkRWMutex rd None) (MkRWMutex ({[t]} ∪ rd) None)
| move_unlock l : lockMove t Writing Unlocked l (MkRWMutex (mu_readers l) None)
| move_runlock l : lockMove t Reading Unlocked l (MkRWMutex (mu_readers l ∖ {[t]}) (mu_writer l)).

(** [Lock] starts to wait: it closes the lock for new readers. *)
Definition announced (t : threadId) (l : RWMutex) : RWMutex := MkRWMutex (mu_readers l) (Some (t, false)).

(** ** Steps *)

Section Local.
Context (cancelled : gset contextId) (stopped : gset controllerId).

(** What a thread does to the shared data, and the goroutine it starts. *)
Inductive local : thread -> shared -> thread -> shared -> option thread -> Prop :=
(* [StartController] and [PreSeedController] *)
| start_lock c d : local (StartBegin c) d (StartLocked c) d None
| start_register c d :
    local (StartLocked c) d (StartRegistered c)
      (Shared ({[c]} ∪ sh_runnables d) (sh_clusters d) (sh_engaged d)) (Some (Running c))
| start_rlock c d : local (StartRegistered c) d (StartReading c) d None
| start_snapshot c d l :
    l ≡ₚ map_to_list (sh_clusters d) -> local (StartReading c) d (StartSeeding c l) d None
| seed_ok c d x l :
    local (StartSeeding c (x :: l)) d (StartSeeding c l)
      (Shared (sh_runnables d) (sh_clusters d) ({[(c, x)]} ∪ sh_engaged d)) None
| seed_error c d x l : local (StartSeeding c (x :: l)) d (StartDone c false) d None
| seed_done c d : local (StartSeeding c []) d (StartDone c true) d None
(* the goroutine of a controller *)
| runner_stopped c d : c ∈ stopped -> local (Running c) d (RunnerLocking c) d None
| runner_lock c d : local (RunnerLocking c) d (RunnerRemoving c) d None
| runner_remove c d :
    local (RunnerRemoving c) d Gone (Shared (sh_runnables d ∖ {[c]}) (sh_clusters d) (sh_engaged d)) None
(* [Engage] *)
| engage_known name ctx d :
    is_Some (sh_clusters d !! name) -> local (EngageBegin name ctx) d (EngageForward name ctx) d None
| engage_unknown name ctx d :
    sh_clusters d !! name = None -> local (EngageBegin name ctx) d (EngageInsert name ctx) d None
| engage_lock name ctx d : local (EngageInsert name ctx) d (EngageWriting name ctx) d None
| engage_insert name ctx d :
    local (EngageWriting name ctx) d (EngageForward name ctx)
      (Shared (sh_runnables d) (<[name := ctx]> (sh_clusters d)) (sh_engaged d)) (Some (AwaitDone name ctx))
| engage_rlock name ctx d : local (EngageForward name ctx) d (EngageReading name ctx) d None
| engage_snapshot name ctx d l :
    l ≡ₚ elements (sh_runnables d) -> local (EngageReading name ctx) d (EngageLoop name ctx l) d None
| forward_ok name ctx d c l :
    local (EngageLoop name ctx (c :: l)) d (EngageLoop name ctx l)
      (Shared (sh_runnables d) (sh_clusters d) ({[(c, (name, ctx))]} ∪ sh_engaged d)) None
| forward_error name ctx d c l : local (EngageLoop name ctx (c :: l)) d (EngageDone name ctx false) d None
| forward_done name ctx d : local (EngageLoop name ctx []) d (EngageDone name ctx true) d None
(* the goroutine of a cluster *)
| context_done name ctx d : ctx ∈ cancelled -> local (AwaitDone name ctx) d (TrackerLocking name) d None
| tracker_lock name d : local (TrackerLocking name) d (TrackerRemoving name) d None
| tracker_remove name d :
    local (TrackerRemoving name) d Gone (Shared (sh_runnables d) (delete name (sh_clusters d)) (sh_engaged d)) None.

End Local.

Record state : Type := State {
  st_shared : shared;
  st_runnablesLock : RWMutex;
  st_trackerLock : RWMutex;
  st_cancelled : gset contextId;
  st_stopped : gset controllerId;
  st_threads : gmap threadId thread
}.

Definition initial : state :=
  State (Shared ∅ ∅ ∅) unlockedMutex unlockedMutex ∅ ∅ ∅.

Definition spawn (t : threadId) (p : option thread) (ts : gmap threadId thread) : gmap threadId thread :=
  match p with Some pc => <[t := pc]> ts | None => ts end.

Inductive step : state -> state -> Prop :=
| step_thread s t t' pc pc' d' p rl' tl' :
    st_threads s !! t = Some pc ->
    local (st_cancelled s) (st_stopped s) pc (st_shared s) pc' d' p ->
    lockMove t (runnablesMode pc) (runnablesMode pc') (st_runnablesLock s) rl' ->
    lockMove t (trackerMode pc) (trackerMode pc') (st_trackerLock s) tl' ->
    st_threads s !! t' = None ->
    step s (State d' rl' tl' (st_cancelled s) (st_stopped s) (spawn t' p (<[t := pc']> (st_threads s))))
(* a thread starts to wait in [Lock] *)
| step_announceRunnables s t pc :
    st_threads s !! t = Some pc -> wantsRunnables pc = true -> mu_writer (st_runnablesLock s) = None ->
    step s (State (st_shared s) (announced t (st_runnablesLock s)) (st_trackerLock s) (st_cancelled s)
              (st_stopped s) (st_threads s))
| step_announceTracker s t pc :
    st_threads s !! t = Some pc -> wantsTracker pc = true -> mu_writer (st_trackerLock s) = None ->
    step s (State (st_shared s) (st_runnablesLock s) (announced t (st_trackerLock s)) (st_cancelled s)
              (st_stopped s) (st_threads s))
(* the sync manager starts a controller; the provider engages a cluster *)
| step_StartController s t c :
    st_threads s !! t = None ->
    step s (State (st_shared s) (st_runnablesLock s) (st_trackerLock s) (st_cancelled s) (st_stopped s)
              (<[t := StartBegin c]> (st_threads s)))
| step_Engage s t name ctx :
    st_threads s !! t = None ->
    step s (State (st_shared s) (st_runnablesLock s) (st_trackerLock s) (st_cancelled s) (st_stopped s)
              (<[t := EngageBegin name ctx]> (st_threads s)))
(* the context of a cluster ends; [Start] of a controller returns *)
| step_cancel s ctx :
    step s (State (st_shared s) (st_runnablesLock s) (st_trackerLock s) ({[ctx]} ∪ st_cancelled s)
              (st_stopped s) (st_threads s))
| step_stop s c :
    step s (State (st_shared s) (st_runnablesLock s) (st_trackerLock s) (st_cancelled s)
              ({[c]} ∪ st_stopped s) (st_threads s)).

Definition reachable (s : state) : Prop := rtc step initial s.

(** Induction over reachable states. *)
Lemma reachable_ind (P : state -> Prop) :
  P initial -> (forall s s', reachable s -> P s -> step s s' -> P s') -> forall s, reachable s -> P s.
Proof.
  intros H0 Hstep. apply (rtc_ind_r P initial); [done|]. intros s s' Hr Hst Hs. by eapply Hstep.
Qed.

(** ** Mutual exclusion *)

(** A lock is held, and waited for, as the program counters say. *)
Definition lockInv (md : thread -> mode) (wants : thread -> bool) (l : RWMutex) (ts : gmap threadId thread) : Prop :=
  (forall t, t ∈ mu_readers l <-> exists pc, ts !! t = Some pc /\ md pc = Reading) /\
  (forall t, mu_writer l = Some (t, true) <-> exists pc, ts !! t = Some pc /\ md pc = Writing) /\
  (forall t, mu_writer l = Some (t, true) -> mu_readers l = ∅) /\
  (forall t, mu_writer l = Some (t, false) -> exists pc, ts !! t = Some pc /\ wants pc = true).

Lemma lockInv_move md wants l l' ts t pc pc' :
  lockInv md wants l ts -> ts !! t = Some pc -> (wants pc = true -> md pc = Unlocked /\ md pc' = Writing) ->
  lockMove t (md pc) (md pc') l l' -> lockInv md wants l' (<[t := pc']> ts).
Proof.
  intros (Hr & Hw & Hx & Hp) Ht Hwant Hm.
  assert (forall t' m, (exists q, <[t := pc']> ts !! t' = Some q /\ md q = m) <->
            (t' = t /\ md pc' = m) \/ (t' <> t /\ exists q, ts !! t' = Some q /\ md q = m)) as Hins.
  { intros t' m. destruct (decide (t' = t)) as [->|Hne].
    - rewrite lookup_insert_eq. naive_solver.
    - rewrite lookup_insert_ne by done. naive_solver. }
  assert (t ∈ mu_readers l <-> md pc = Reading) as Hrt by (rewrite Hr; naive_solver).
  assert (mu_writer l = Some (t, true) <-> md pc = Writing) as Hwt by (rewrite Hw; naive_solver).
  assert (forall t', mu_writer l = Some (t', false) -> t' <> t ->
            exists q, <[t := pc']> ts !! t' = Some q /\ wants q = true) as Hother
    by (intros t' Hl Hne; rewrite lookup_insert_ne by done; auto).
  assert (mu_writer l = Some (t, false) -> md pc = Unlocked /\ md pc' = Writing) as Hmine
    by (intros (q & Hq & ?)%Hp; simplify_eq; auto).
  unfold lockInv. setoid_rewrite Hins. setoid_rewrite <- Hr. setoid_rewrite <- Hw. clear Hins Hr Hw Ht Hwant Hp.
  remember (md pc) as m1. remember (md pc') as m2. clear Heqm1 Heqm2.
  destruct Hm as [m l| | |rd|l|l]; simpl in *.
  - split_and!; [..|done|].
    + intros t'. destruct (decide (t' = t)) as [->|]; naive_solver.
    + intros t'. destruct (decide (t' = t)) as [->|]; naive_solver.
    + intros t' Hl. apply Hother; [done|]. intros ->. destruct (Hmine Hl); congruence.
  - split_and!; [set_solver|naive_solver|done|done].
  - split_and!; [set_solver|naive_solver|done|done].
  - split_and!; [|naive_solver|done|done]. intros t'. destruct (decide (t' = t)) as [->|]; set_solver.
  - assert (mu_writer l = Some (t, true)) as Hl by naive_solver. split_and!; [|intros t'|done|done].
    + intros t'. rewrite (Hx t Hl). set_solver.
    + rewrite Hl. naive_solver.
  - split_and!.
    + intros t'. rewrite elem_of_difference, elem_of_singleton. naive_solver.
    + intros t'. split; [|naive_solver]. intros Hl. rewrite (Hx t' Hl) in Hrt. set_solver.
    + intros t' Hl. rewrite (Hx t' Hl). set_solver.
    + intros t' Hl. apply Hother; [done|]. intros ->. destruct (Hmine Hl); congruence.
Qed.

Lemma lockInv_spawn md wants l ts t pc :
  lockInv md wants l ts -> ts !! t = None -> md pc = Unlocked -> lockInv md wants l (<[t := pc]> ts).
Proof.
  intros (Hr & Hw & Hx & Hp) Ht Hmd.
  assert (forall t' m, m <> Unlocked -> (exists q, <[t := pc]> ts !! t' = Some q /\ md q = m) <->
            exists q, ts !! t' = Some q /\ md q = m) as Hins.
  { intros t' m Hm. destruct (decide (t' = t)) as [->|Hne].
    - rewrite lookup_insert_eq, Ht. naive_solver.
    - by rewrite lookup_insert_ne. }
  split_and!; [intros t'; by rewrite Hins..|done|].
  intros t' (q & Hq & ?)%Hp. exists q. rewrite lookup_insert_ne; [done|congruence].
Qed.

Lemma lockInv_announce md wants l ts t pc :
  lockInv md wants l ts -> ts !! t = Some pc -> wants pc = true -> mu_writer l = None ->
  lockInv md wants (announced t l) ts.
Proof.
  intros (Hr & Hw & Hx & Hp) Ht Hpc Hl. rewrite Hl in Hw. split_and!; simpl; [done|naive_solver|done|].
  intros t' [= <-]. eauto.
Qed.

(** A new goroutine holds no lock. *)
Lemma spawned_unlocked cancelled stopped pc d pc' d' q :
  local cancelled stopped pc d pc' d' (Some q) -> runnablesMode q = Unlocked /\ trackerMode q = Unlocked.
Proof. by inversion 1; subst. Qed.

(** A thread that waits in [Lock] goes on with the lock. *)
Lemma wants_lock cancelled stopped pc d pc' d' q :
  local cancelled stopped pc d pc' d' q ->
  (wantsRunnables pc = true -> runnablesMode pc = Unlocked /\ runnablesMode pc' = Writing) /\
  (wantsTracker pc = true -> trackerMode pc = Unlocked /\ trackerMode pc' = Writing).
Proof. by destruct 1. Qed.

Definition locksInv (s : state) : Prop :=
  lockInv runnablesMode wantsRunnables (st_runnablesLock s) (st_threads s) /\
  lockInv trackerMode wantsTracker (st_trackerLock s) (st_threads s).

Lemma locksInv_reachable s : reachable s -> locksInv s.
Proof.
  revert s. apply reachable_ind.
  - split; (split_and!; [..|done|done]); intros t; simpl; rewrite lookup_empty; set_solver.
  - intros s s' _ [H1 H2] Hst. unfold locksInv.
    destruct Hst as [s t t' pc pc' d' p rl' tl' Ht Hl Hrl Htl Ht'|s t pc Ht Hpc Hw|s t pc Ht Hpc Hw
      |s t c Ht|s t name ctx Ht|s ctx|s c]; simpl;
      [|split; [by eapply lockInv_announce|done]|split; [done|by eapply lockInv_announce]
       |split; by apply lockInv_spawn..|done|done].
    assert (t' <> t) as Hne by congruence. destruct (wants_lock _ _ _ _ _ _ _ Hl) as [Hw1 Hw2].
    destruct p as [q|]; simpl; [|split; by eapply lockInv_move].
    destruct (spawned_unlocked _ _ _ _ _ _ _ Hl) as [? ?].
    split; (apply lockInv_spawn; [by eapply lockInv_move|by rewrite lookup_insert_ne|done]).
Qed.

(** A writer is alone. *)
Lemma lockInv_exclusive md wants l ts t1 t2 pc1 pc2 :
  lockInv md wants l ts -> ts !! t1 = Some pc1 -> ts !! t2 = Some pc2 -> t1 <> t2 ->
  md pc1 = Writing -> md pc2 = Unlocked.
Proof.
  intros (Hr & Hw & Hx & _) Ht1 Ht2 Hne Hm.
  assert (mu_writer l = Some (t1, true)) as Hw1 by (apply Hw; eauto). destruct (md pc2) eqn:E; [done|..]; exfalso.
  - assert (t2 ∈ mu_readers l) as Hr2 by (apply Hr; eauto). rewrite (Hx _ Hw1) in Hr2. set_solver.
  - assert (mu_writer l = Some (t2, true)) as Hw2 by (apply Hw; eauto). congruence.
Qed.

(** ** Coverage *)

(** Some thread is going to engage the controller with the cluster, or has
    reported an error for one of them. *)
Definition going_to (pc : thread) (c : controllerId) (name : string) (ctx : contextId) : Prop :=
  match pc with
  | StartRegistered c' | StartReading c' | StartDone c' false => c' = c
  | StartSeeding c' rest => c' = c /\ (name, ctx) ∈ rest
  | EngageForward n x | EngageReading n x | EngageDone n x false => n = name /\ x = ctx
  | EngageLoop n x rest => n = name /\ x = ctx /\ c ∈ rest
  | _ => False
  end.

#[export] Instance going_to_dec pc c name ctx : Decision (going_to pc c name ctx).
Proof. destruct pc as [| | | | |? []| | | | | | | | | |? ? []| | | |]; simpl; apply _. Defined.

Definition pending (ts : gmap threadId thread) (c : controllerId) (name : string) (ctx : contextId) : Prop :=
  exists t pc, ts !! t = Some pc /\ going_to pc c name ctx.

Definition covered (d : shared) (ts : gmap threadId thread) : Prop :=
  forall c name ctx, c ∈ sh_runnables d -> sh_clusters d !! name = Some ctx ->
    (c, (name, ctx)) ∈ sh_engaged d \/ pending ts c name ctx.

Lemma pending_insert ts t pc c name ctx :
  going_to pc c name ctx -> pending (<[t := pc]> ts) c name ctx.
Proof. intros H. exists t, pc. by rewrite lookup_insert_eq. Qed.

Lemma pending_fresh ts t pc c name ctx :
  ts !! t = None -> pending ts c name ctx -> pending (<[t := pc]> ts) c name ctx.
Proof.
  intros Ht (t0 & pc0 & H0 & Hg). exists t0, pc0. split; [|done].
  rewrite lookup_insert_ne; [done|congruence].
Qed.

(** A thread moves on: what it was going to do is done or still ahead. *)
Lemma pending_move ts t pc pc' c name ctx (done_ : Prop) :
  ts !! t = Some pc -> pending ts c name ctx ->
  (going_to pc c name ctx -> done_ \/ going_to pc' c name ctx) ->
  done_ \/ pending (<[t := pc']> ts) c name ctx.
Proof.
  intros Ht (t0 & pc0 & H0 & Hg) Hmove. destruct (decide (t0 = t)) as [->|Hne].
  - rewrite Ht in H0. simplify_eq. destruct (Hmove Hg); [by left|right]. by apply pending_insert.
  - right. exists t0, pc0. by rewrite lookup_insert_ne.
Qed.

Lemma covered_local cancelled stopped pc d pc' d' q ts t :
  local cancelled stopped pc d pc' d' q -> ts !! t = Some pc ->
  covered d ts -> covered d' (<[t := pc']> ts).
Proof.
  intros Hl Ht Hc c name ctx Hr Hn.
  assert (c ∈ sh_runnables d -> sh_clusters d !! name = Some ctx ->
    (going_to pc c name ctx -> (c, (name, ctx)) ∈ sh_engaged d' \/ going_to pc' c name ctx) ->
    (c, (name, ctx)) ∈ sh_engaged d' \/ pending (<[t := pc']> ts) c name ctx) as Hmove.
  { intros Hr' Hn' Hg. destruct (Hc c name ctx Hr' Hn') as [He|Hp]; [|by apply (pending_move _ _ _ _ _ _ _ _ Ht Hp)].
    left. destruct Hl; simpl; set_solver. }
  destruct Hl as [c' d|c' d|c' d|c' d l Hs|c' d x l|c' d x l|c' d|c' d Hst|c' d|c' d|n x d Hk|n x d Hk|n x d|n x d
    |n x d|n x d l Hs|n x d c' l|n x d c' l|n x d|n x d Hca|n d|n d]; simpl in *; auto.
  - (* a controller is registered: its pairs become pending *)
    apply elem_of_union in Hr as [->%elem_of_singleton|Hr]; [right; by apply pending_insert|]. apply Hmove; tauto.
  - apply Hmove; [done..|]. intros ->. right. split; [done|]. rewrite Hs. by apply elem_of_map_to_list.
  - apply Hmove; [done..|]. intros [-> [<-|Hin]%elem_of_cons]; [left; set_solver|by right].
  - apply Hmove; [done..|]. tauto.
  - apply Hmove; [done..|]. intros [_ []%elem_of_nil].
  - apply elem_of_difference in Hr as [Hr _]. apply Hmove; tauto.
  - apply Hmove; tauto.
  - (* a cluster is inserted *)
    destruct (decide (n = name)) as [->|Hne].
    + rewrite lookup_insert_eq in Hn. simplify_eq. right. by apply pending_insert.
    + rewrite lookup_insert_ne in Hn by done. apply Hmove; tauto.
  - apply Hmove; [done..|]. intros [-> ->]. right. split_and!; [done..|]. by rewrite Hs, elem_of_elements.
  - apply Hmove; [done..|]. intros (-> & -> & [<-|Hin]%elem_of_cons); [left; set_solver|by right].
  - apply Hmove; [done..|]. tauto.
  - apply Hmove; [done..|]. intros (_ & _ & []%elem_of_nil).
  - apply lookup_delete_Some in Hn as [_ Hn]. apply Hmove; tauto.
Qed.

Lemma covered_reachable s : reachable s -> covered (st_shared s) (st_threads s).
Proof.
  revert s. apply reachable_ind; [intros c name ctx []%elem_of_empty|].
  assert (forall d ts t pc, covered d ts -> ts !! t = None -> covered d (<[t := pc]> ts)) as Hfresh.
  { intros d ts t pc H Ht c name ctx Hr Hn. destruct (H c name ctx Hr Hn); [by left|right]. by apply pending_fresh. }
  intros s s' _ H Hst.
  destruct Hst as [s t t' pc pc' d' p rl' tl' Ht Hl Hrl Htl Ht'|s t pc Ht Hpc Hw|s t pc Ht Hpc Hw
    |s t c Ht|s t name ctx Ht|s ctx|s c]; simpl; auto.
  pose proof (covered_local _ _ _ _ _ _ _ _ _ Hl Ht H) as H'. destruct p as [q|]; simpl; [|done].
  apply Hfresh; [done|]. rewrite lookup_insert_ne; [done|congruence].
Qed.

(** ** Progress *)

(** A thread that is finished, or waits for something outside: its context,
    or its controller to stop. *)
Definition resting (s : state) (pc : thread) : Prop :=
  match pc with
  | StartDone _ _ | EngageDone _ _ _ | Gone => True
  | Running c => c ∉ st_stopped s
  | AwaitDone _ ctx => ctx ∉ st_cancelled s
  | _ => False
  end.

#[export] Instance resting_dec s pc : Decision (resting s pc).
Proof. destruct pc; simpl; apply _. Defined.

(** Thread [t] can take a step. *)
Definition can_step (s : state) (t : threadId) : Prop :=
  exists pc pc' d' p rl' tl', st_threads s !! t = Some pc /\
    local (st_cancelled s) (st_stopped s) pc (st_shared s) pc' d' p /\
    lockMove t (runnablesMode pc) (runnablesMode pc') (st_runnablesLock s) rl' /\
    lockMove t (trackerMode pc) (trackerMode pc') (st_trackerLock s) tl'.

Lemma can_step_step s t : can_step s t -> exists s', step s s'.
Proof.
  intros (pc & pc' & d' & p & rl' & tl' & Ht & Hl & H1 & H2).
  assert (st_threads s !! fresh (dom (st_threads s)) = None) as Hf by (apply not_elem_of_dom, is_fresh).
  eexists. by eapply step_thread.
Qed.

(** Threads that hold the tracker's lock never wait. *)
Lemma tracker_holder_steps s t pc :
  st_threads s !! t = Some pc -> trackerMode pc <> Unlocked -> can_step s t.
Proof.
  intros Ht Hm. destruct pc as [| | |c|c [|x l]| | | | | | |name ctx| | | | | | |name|]; try done;
    eexists _, _, _, _, _, _; split_and!; try eassumption; by econstructor.
Qed.

(** What a lock that somebody waits for looks like: it is free for readers,
    or some thread holds it, or some thread waits in [Lock] and can have it. *)
Lemma lock_cases md wants l ts :
  lockInv md wants l ts ->
  l = MkRWMutex (mu_readers l) None \/
  (exists t pc, ts !! t = Some pc /\ md pc <> Unlocked) \/
  (exists t pc, ts !! t = Some pc /\ wants pc = true /\ l = MkRWMutex ∅ (Some (t, false))).
Proof.
  intros (Hr & Hw & _ & Hp). destruct l as [rd [[t []]|]]; simpl in *; [right; left|right|by left].
  - destruct (proj1 (Hw t) eq_refl) as (pc & ? & ?). exists t, pc. split; congruence.
  - destruct (decide (rd = ∅)) as [->|Hne].
    + right. destruct (Hp t eq_refl) as (pc & ? & ?). eauto.
    + left. apply set_choose_L in Hne as [t' (pc & ? & ?)%Hr]. exists t', pc. split; congruence.
Qed.

Lemma no_readers md wants rd ts :
  lockInv md wants (MkRWMutex rd None) ts ->
  rd = ∅ \/ exists t pc, ts !! t = Some pc /\ md pc <> Unlocked.
Proof.
  intros (Hr & _). simpl in Hr. destruct (decide (rd = ∅)) as [|Hne]; [by left|right].
  apply set_choose_L in Hne as [t (pc & ? & ?)%Hr]. exists t, pc. split; congruence.
Qed.

(** A thread that waits in [Lock] gets a lock that is closed for readers and
    has none left. *)
Lemma announced_tracker_steps s t pc :
  st_threads s !! t = Some pc -> wantsTracker pc = true ->
  st_trackerLock s = MkRWMutex ∅ (Some (t, false)) -> can_step s t.
Proof.
  intros Ht Hpc Hl. destruct pc as [| | | | | | | | | |name ctx| | | | | | |name| |]; try done.
  - eexists _, (EngageWriting name ctx), _, _, _, _. rewrite Hl. split_and!; [exact Ht|constructor..].
  - eexists _, (TrackerRemoving name), _, _, _, _. rewrite Hl. split_and!; [exact Ht|constructor..].
Qed.

Lemma announced_runnables_steps s t pc :
  st_threads s !! t = Some pc -> wantsRunnables pc = true ->
  st_runnablesLock s = MkRWMutex ∅ (Some (t, false)) -> can_step s t.
Proof.
  intros Ht Hpc Hl. destruct pc as [c| | | | | | |c| | | | | | | | | | | |]; try done.
  - eexists _, (StartLocked c), _, _, _, _. rewrite Hl. split_and!; [exact Ht|constructor..].
  - eexists _, (RunnerRemoving c), _, _, _, _. rewrite Hl. split_and!; [exact Ht|constructor..].
Qed.

(** Waiting for the tracker: the thread itself can go on, or another one. *)
Lemma wait_tracker s t pc pc' d' p :
  locksInv s -> st_threads s !! t = Some pc ->
  local (st_cancelled s) (st_stopped s) pc (st_shared s) pc' d' p ->
  runnablesMode pc = runnablesMode pc' -> trackerMode pc = Unlocked -> exists t', can_step s t'.
Proof.
  intros [_ H2] Ht Hl Hr Ht1.
  assert (forall tl', lockMove t (trackerMode pc) (trackerMode pc') (st_trackerLock s) tl' -> can_step s t) as Hgo.
  { intros tl' Hm. exists pc, pc', d', p, (st_runnablesLock s), tl'. rewrite Hr. split_and!; [done..|constructor|done]. }
  destruct (lock_cases _ _ _ _ H2) as [Hf|[(t' & q & Hq & Hm)|(t' & q & Hq & Hw & Hf)]].
  - rewrite Hf in H2. destruct (no_readers _ _ _ _ H2) as [E|(t' & q & Hq & Hm)]; [|exists t'; by eapply tracker_holder_steps].
    exists t. rewrite Ht1, Hf, E in Hgo. destruct (trackerMode pc'); eapply Hgo; constructor.
  - exists t'. by eapply tracker_holder_steps.
  - exists t'. by eapply announced_tracker_steps.
Qed.

(** Threads that hold the lock of the runnables wait for the tracker at
    most, and the tracker's lock is never held while waiting. *)
Lemma runnables_holder_steps s t pc :
  locksInv s -> st_threads s !! t = Some pc -> runnablesMode pc <> Unlocked -> exists t', can_step s t'.
Proof.
  intros Hs Ht Hm.
  destruct (decide (trackerMode pc = Unlocked)) as [E|E]; [|exists t; by eapply tracker_holder_steps].
  destruct pc as [|c|c| | | | | |c| | | | |name ctx|name ctx [|x l]| | | | |]; try done.
  - exists t. eexists _, (StartRegistered c), _, _, _, _. split_and!; [eassumption|constructor..].
  - eapply wait_tracker; [done|exact Ht|constructor|done..].
  - exists t. eexists _, Gone, _, _, _, _. split_and!; [eassumption|constructor..].
  - exists t. eexists _, (EngageLoop name ctx (elements (sh_runnables (st_shared s)))), _, _, _, _.
    split_and!; [eassumption|by constructor|constructor..].
  - exists t. eexists _, (EngageDone name ctx true), _, _, _, _. split_and!; [eassumption|constructor..].
  - exists t. eexists _, (EngageLoop name ctx l), _, _, _, _. split_and!; [eassumption|constructor..].
Qed.

Lemma wait_runnables s t pc pc' d' p :
  locksInv s -> st_threads s !! t = Some pc ->
  local (st_cancelled s) (st_stopped s) pc (st_shared s) pc' d' p ->
  trackerMode pc = trackerMode pc' -> runnablesMode pc = Unlocked -> exists t', can_step s t'.
Proof.
  intros Hlocks Ht Hl Htr Hr1. destruct (Hlocks) as [H1 _].
  assert (forall rl', lockMove t (runnablesMode pc) (runnablesMode pc') (st_runnablesLock s) rl' -> can_step s t) as Hgo.
  { intros rl' Hm. exists pc, pc', d', p, rl', (st_trackerLock s). rewrite Htr. split_and!; [done..|constructor]. }
  destruct (lock_cases _ _ _ _ H1) as [Hf|[(t' & q & Hq & Hm)|(t' & q & Hq & Hw & Hf)]].
  - rewrite Hf in H1. destruct (no_readers _ _ _ _ H1) as [E|(t' & q & Hq & Hm)]; [|by eapply runnables_holder_steps].
    exists t. rewrite Hr1, Hf, E in Hgo. destruct (runnablesMode pc'); eapply Hgo; constructor.
  - by eapply runnables_holder_steps.
  - exists t'. by eapply announced_runnables_steps.
Qed.

(** ** Accesses

    The table of accesses is complete: a step that changes a map is
    listed as a write, and a step that is not listed as an access to a map
    can be taken whatever the map holds. *)
Definition accounts (cancelled : gset contextId) (stopped : gset controllerId) (pc : thread) : Prop :=
  forall d pc' d' p, local cancelled stopped pc d pc' d' p ->
    (sh_runnables d' <> sh_runnables d -> access pc = Some (Runnables, Write)) /\
    (sh_clusters d' <> sh_clusters d -> access pc = Some (Clusters, Write)) /\
    (forall r, fst <$> access pc <> Some Runnables ->
       exists d'', local cancelled stopped pc (Shared r (sh_clusters d) (sh_engaged d)) pc' d'' p) /\
    (forall m, fst <$> access pc <> Some Clusters ->
       exists d'', local cancelled stopped pc (Shared (sh_runnables d) m (sh_engaged d)) pc' d'' p).

Lemma access_complete cancelled stopped pc : accounts cancelled stopped pc.
Proof.
  intros d pc' d' p Hl. split_and!; [by destruct Hl..| |];
    (intros m Hm; destruct Hl; simpl in Hm; try done; eexists; econstructor; eauto).
Qed.

(** Every access but one is made under the lock of the map, for writing if it
    writes. *)
Definition guarded (md : mode) (o : operation) : Prop :=
  match o with Read => md <> Unlocked | Write => md = Writing end.

Lemma runnables_guarded pc o : access pc = Some (Runnables, o) -> guarded (runnablesMode pc) o.
Proof. destruct pc; simpl; intros; by simplify_eq. Qed.

Lemma clusters_guarded pc o :
  access pc = Some (Clusters, o) -> (exists name ctx, pc = EngageBegin name ctx) \/ guarded (trackerMode pc) o.
Proof. destruct pc; simpl; intros; simplify_eq; eauto; by right. Qed.

Lemma guarded_no_conflict md wants l ts t1 t2 pc1 pc2 o1 o2 :
  lockInv md wants l ts -> ts !! t1 = Some pc1 -> ts !! t2 = Some pc2 -> t1 <> t2 ->
  guarded (md pc1) o1 -> guarded (md pc2) o2 -> o1 = Write \/ o2 = Write -> False.
Proof.
  intros H Ht1 Ht2 Hne H1 H2 [->| ->]; simpl in *.
  - pose proof (lockInv_exclusive _ _ _ _ _ _ _ _ H Ht1 Ht2 Hne H1) as E. destruct o2; simpl in *; congruence.
  - pose proof (lockInv_exclusive _ _ _ _ _ _ _ _ H Ht2 Ht1 (not_eq_sym Hne) H2) as E. destruct o1; simpl in *; congruence.
Qed.

(** ** Properties *)

(** C34: where the program has data races.  Over all interleavings, two
    goroutines are never about to access the map of running controllers at
    the same time unless both only read it; and if they are about to access
    the map of clusters so, one of them is [Engage] at its first
    statement, which reads that map without the lock.  The accesses meant are all
    there are: a step that changes a map, or depends on what it holds, is
    counted as one. *)
Theorem only_data_race s t1 t2 pc1 pc2 :
  reachable s -> st_threads s !! t1 = Some pc1 -> st_threads s !! t2 = Some pc2 -> t1 <> t2 ->
  ~ conflict Runnables pc1 pc2 /\
  (conflict Clusters pc1 pc2 -> exists name ctx, pc1 = EngageBegin name ctx \/ pc2 = EngageBegin name ctx) /\
  accounts (st_cancelled s) (st_stopped s) pc1.
Proof.
  intros [H1 H2]%locksInv_reachable Ht1 Ht2 Hne. split_and!; [..|apply access_complete].
  - intros (o1 & o2 & Ha1%runnables_guarded & Ha2%runnables_guarded & Ho).
    exact (guarded_no_conflict _ _ _ _ _ _ _ _ _ _ H1 Ht1 Ht2 Hne Ha1 Ha2 Ho).
  - intros (o1 & o2 & [(name & ctx & ->)|Ha1]%clusters_guarded & [(name' & ctx' & ->)|Ha2]%clusters_guarded & Ho); eauto.
    destruct (guarded_no_conflict _ _ _ _ _ _ _ _ _ _ H2 Ht1 Ht2 Hne Ha1 Ha2 Ho).
Qed.

(** C35: whatever the interleaving of controllers that start and clusters
    that are announced, once all calls have returned without an error every
    running controller is engaged with every tracked cluster. *)
Theorem controllers_engaged s c name ctx :
  reachable s -> (forall t pc, st_threads s !! t = Some pc -> ~ going_to pc c name ctx) ->
  c ∈ sh_runnables (st_shared s) -> sh_clusters (st_shared s) !! name = Some ctx ->
  (c, (name, ctx)) ∈ sh_engaged (st_shared s).
Proof.
  intros Hr%covered_reachable Hidle Hc Hn. destruct (Hr c name ctx Hc Hn) as [?|(t & pc & Ht & Hg)]; [done|].
  by destruct (Hidle t pc Ht).
Qed.

(** C36: the two locks cannot deadlock: unless every thread is finished or
    waits for a context or a controller to end, some thread can go on. *)
Theorem no_deadlock s :
  reachable s -> (forall t pc, st_threads s !! t = Some pc -> resting s pc) \/ exists t, can_step s t.
Proof.
  intros Hs%locksInv_reachable.
  destruct (decide (map_Forall (fun _ pc => resting s pc) (st_threads s))) as [H|H]; [by left|right].
  apply map_not_Forall in H as (t & pc & Ht & Hrest); [|intros; apply _].
  destruct (decide (trackerMode pc = Unlocked)) as [Etr|Etr]; [|exists t; by eapply tracker_holder_steps].
  destruct (decide (runnablesMode pc = Unlocked)) as [Er|Er]; [|by eapply runnables_holder_steps].
  destruct pc as [c|c|c|c|c l| |c|c|c|name ctx|name ctx|name ctx|name ctx|name ctx|name ctx l| |name ctx|name|name|];
    simpl in Hrest, Etr, Er; try done; try tauto.
  - eapply wait_runnables; [done|exact Ht|constructor|done..].
  - exists t. eexists _, (RunnerLocking c), _, _, _, _. split_and!;
      [exact Ht|constructor; by apply dec_stable|constructor..].
  - eapply wait_runnables; [done|exact Ht|constructor|done..].
  - exists t. destruct (sh_clusters (st_shared s) !! name) as [x|] eqn:E.
    + eexists _, (EngageForward name ctx), _, _, _, _. split_and!; [exact Ht|by constructor|constructor..].
    + eexists _, (EngageInsert name ctx), _, _, _, _. split_and!; [exact Ht|by constructor|constructor..].
  - eapply wait_tracker; [done|exact Ht|constructor|done..].
  - eapply wait_runnables; [done|exact Ht|by constructor|done..].
  - exists t. eexists _, (TrackerLocking name), _, _, _, _. split_and!;
      [exact Ht|constructor; by apply dec_stable|constructor..].
  - eapply wait_tracker; [done|exact Ht|constructor|done..].
Qed.

(** ** Running the system

    A scheduler picks the next step; [fire] performs it. *)

Inductive choice : Type :=
| Go (t spawned : threadId)
| WaitRunnables (t : threadId)
| WaitTracker (t : threadId)
| CallStart (t : threadId) (c : controllerId)
| CallEngage (t : threadId) (name : string) (ctx : contextId)
| Cancel (ctx : contextId)
| Stop (c : controllerId).

Definition localF (cancelled : gset contextId) (stopped : gset controllerId) (pc : thread) (d : shared)
  : option (thread * shared * option thread) :=
  match pc with
  | StartBegin c => Some (StartLocked c, d, None)
  | StartLocked c =>
      Some (StartRegistered c, Shared ({[c]} ∪ sh_runnables d) (sh_clusters d) (sh_engaged d), Some (Running c))
  | StartRegistered c => Some (StartReading c, d, None)
  | StartReading c => Some (StartSeeding c (map_to_list (sh_clusters d)), d, None)
  | StartSeeding c (x :: l) =>
      Some (StartSeeding c l, Shared (sh_runnables d) (sh_clusters d) ({[(c, x)]} ∪ sh_engaged d), None)
  | StartSeeding c [] => Some (StartDone c true, d, None)
  | Running c => if decide (c ∈ stopped) then Some (RunnerLocking c, d, None) else None
  | RunnerLocking c => Some (RunnerRemoving c, d, None)
  | RunnerRemoving c => Some (Gone, Shared (sh_runnables d ∖ {[c]}) (sh_clusters d) (sh_engaged d), None)
  | EngageBegin name ctx =>
      match sh_clusters d !! name with
      | Some _ => Some (EngageForward name ctx, d, None)
      | None => Some (EngageInsert name ctx, d, None)
      end
  | EngageInsert name ctx => Some (EngageWriting name ctx, d, None)
  | EngageWriting name ctx =>
      Some (EngageForward name ctx, Shared (sh_runnables d) (<[name := ctx]> (sh_clusters d)) (sh_engaged d),
            Some (AwaitDone name ctx))
  | EngageForward name ctx => Some (EngageReading name ctx, d, None)
  | EngageReading name ctx => Some (EngageLoop name ctx (elements (sh_runnables d)), d, None)
  | EngageLoop name ctx (c :: l) =>
      Some (EngageLoop name ctx l,
            Shared (sh_runnables d) (sh_clusters d) ({[(c, (name, ctx))]} ∪ sh_engaged d), None)
  | EngageLoop name ctx [] => Some (EngageDone name ctx true, d, None)
  | AwaitDone name ctx => if decide (ctx ∈ cancelled) then Some (TrackerLocking name, d, None) else None
  | TrackerLocking name => Some (TrackerRemoving name, d, None)
  | TrackerRemoving name => Some (Gone, Shared (sh_runnables d) (delete name (sh_clusters d)) (sh_engaged d), None)
  | StartDone _ _ | EngageDone _ _ _ | Gone => None
  end.

Definition lockF (t : threadId) (m m' : mode) (l : RWMutex) : option RWMutex :=
  match m, m' with
  | Unlocked, Writing =>
      if decide (l = unlockedMutex \/ l = announced t unlockedMutex) then Some (MkRWMutex ∅ (Some (t, true))) else None
  | Unlocked, Reading => match l with MkRWMutex rd None => Some (MkRWMutex ({[t]} ∪ rd) None) | _ => None end
  | Writing, Unlocked => Some (MkRWMutex (mu_readers l) None)
  | Reading, Unlocked => Some (MkRWMutex (mu_readers l ∖ {[t]}) (mu_writer l))
  | Unlocked, Unlocked | Reading, Reading | Writing, Writing => Some l
  | _, _ => None
  end.

Definition fire (s : state) (ch : choice) : option state :=
  let with_threads ts := State (st_shared s) (st_runnablesLock s) (st_trackerLock s) (st_cancelled s) (st_stopped s) ts in
  match ch with
  | Go t t' =>
      pc ← st_threads s !! t;
      '(pc', d', p) ← localF (st_cancelled s) (st_stopped s) pc (st_shared s);
      rl' ← lockF t (runnablesMode pc) (runnablesMode pc') (st_runnablesLock s);
      tl' ← lockF t (trackerMode pc) (trackerMode pc') (st_trackerLock s);
      if decide (st_threads s !! t' = None) then
        Some (State d' rl' tl' (st_cancelled s) (st_stopped s) (spawn t' p (<[t := pc']> (st_threads s))))
      else None
  | WaitRunnables t =>
      pc ← st_threads s !! t;
      if decide (wantsRunnables pc = true /\ mu_writer (st_runnablesLock s) = None) then
        Some (State (st_shared s) (announced t (st_runnablesLock s)) (st_trackerLock s) (st_cancelled s)
                (st_stopped s) (st_threads s))
      else None
  | WaitTracker t =>
      pc ← st_threads s !! t;
      if decide (wantsTracker pc = true /\ mu_writer (st_trackerLock s) = None) then
        Some (State (st_shared s) (st_runnablesLock s) (announced t (st_trackerLock s)) (st_cancelled s)
                (st_stopped s) (st_threads s))
      else None
  | CallStart t c =>
      if decide (st_threads s !! t = None) then Some (with_threads (<[t := StartBegin c]> (st_threads s))) else None
  | CallEngage t name ctx =>
      if decide (st_threads s !! t = None) then Some (with_threads (<[t := EngageBegin name ctx]> (st_threads s)))
      else None
  | Cancel ctx => Some (State (st_shared s) (st_runnablesLock s) (st_trackerLock s) ({[ctx]} ∪ st_cancelled s)
                          (st_stopped s) (st_threads s))
  | Stop c => Some (State (st_shared s) (st_runnablesLock s) (st_trackerLock s) (st_cancelled s)
                      ({[c]} ∪ st_stopped s) (st_threads s))
  end.

Fixpoint fireAll (s : state) (l : list choice) : option state :=
  match l with
  | [] => Some s
  | ch :: l' => s' ← fire s ch; fireAll s' l'
  end.

Lemma localF_sound cancelled stopped pc d pc' d' p :
  localF cancelled stopped pc d = Some (pc', d', p) -> local cancelled stopped pc d pc' d' p.
Proof.
  intros H. destruct pc as [| | | |? []| | | | | | | | | |? ? []| | | | |]; simpl in H; try case_decide; try case_match;
    simplify_eq; by constructor.
Qed.

Lemma lockF_sound t m m' l l' : lockF t m m' l = Some l' -> lockMove t m m' l l'.
Proof.
  intros H. destruct m, m'; simpl in H; try (by simplify_eq; constructor).
  - destruct l as [rd [w|]]; simplify_eq. constructor.
  - case_decide as E; simplify_eq. destruct E as [-> | ->]; constructor.
Qed.

Lemma fire_sound s ch s' : fire s ch = Some s' -> step s s'.
Proof.
  destruct ch as [t t'|t|t|t c|t name ctx|ctx|c]; simpl; intros H.
  - destruct (st_threads s !! t) as [pc|] eqn:Et; simpl in H; [|done].
    destruct (localF _ _ _ _) as [[[pc' d'] p]|] eqn:El; simpl in H; [|done].
    destruct (lockF _ _ _ (st_runnablesLock s)) as [rl'|] eqn:E1; simpl in H; [|done].
    destruct (lockF _ _ _ (st_trackerLock s)) as [tl'|] eqn:E2; simpl in H; [|done].
    case_decide; simplify_eq. eapply step_thread; eauto using localF_sound, lockF_sound.
  - destruct (st_threads s !! t) as [pc|] eqn:Et; simpl in H; [|done]. case_decide as Hd; simplify_eq.
    destruct Hd. by eapply step_announceRunnables.
  - destruct (st_threads s !! t) as [pc|] eqn:Et; simpl in H; [|done]. case_decide as Hd; simplify_eq.
    destruct Hd. by eapply step_announceTracker.
  - case_decide; simplify_eq. by constructor.
  - case_decide; simplify_eq. by constructor.
  - simplify_eq. constructor.
  - simplify_eq. constructor.
Qed.

Lemma fireAll_reachable l s s' : reachable s -> fireAll s l = Some s' -> reachable s'.
Proof.
  revert s. induction l as [|ch l IH]; intros s Hs H; simpl in H; [by simplify_eq|].
  destruct (fire s ch) as [s1|] eqn:E; simpl in H; [|done].
  apply (IH s1); [|done]. eapply rtc_r; [exact Hs|]. by eapply fire_sound.
Qed.

(** A schedule with a known end. *)
Definition ending (l : list choice) : state := default initial (fireAll initial l).

Lemma ending_reachable l : reachable (ending l).
Proof.
  unfold ending. destruct (fireAll initial l) as [s|] eqn:E; simpl; [|apply rtc_refl].
  eapply fireAll_reachable; [apply rtc_refl|exact E].
Qed.

(** ** Where the code falls short *)

(** [Engage] looks a cluster up before it takes the lock: there is a
    reachable state in which one thread is about to read the map of clusters
    without the lock while another one, which has the lock, is about to
    change it, and both can go on. *)
Definition racing : list choice := [CallEngage 1 "a" 1; Go 1 9; Go 1 9; CallEngage 2 "b" 2].

Lemma clusters_read_unlocked :
  exists s, reachable s /\
    st_threads s !! 1 = Some (EngageWriting "a" 1) /\ st_threads s !! 2 = Some (EngageBegin "b" 2) /\
    conflict Clusters (EngageWriting "a" 1) (EngageBegin "b" 2) /\ can_step s 1 /\ can_step s 2.
Proof.
  exists (ending racing). split; [apply ending_reachable|]. split_and!; try reflexivity.
  - by exists Write, Read; auto.
  - eexists (EngageWriting "a" 1), (EngageForward "a" 1), _, _, _, _.
    split_and!; [reflexivity|constructor..].
  - eexists (EngageBegin "b" 2), (EngageInsert "b" 2), _, _, _, _.
    split_and!; [reflexivity|by constructor|constructor..].
Qed.

(** A cluster that is announced again before its old entry is gone gets
    lost: its entry is not replaced, and then removed because of the old
    context.  A controller that starts afterwards is not engaged with the
    cluster, although the cluster's context is alive, all calls have
    returned without an error and no thread has anything left to do. *)
Lemma reengaged_cluster_lost :
  exists s, reachable s /\
    (forall t pc, st_threads s !! t = Some pc -> resting s pc) /\
    st_threads s !! 2 = Some (EngageDone "a" 2 true) /\ (2 ∉ st_cancelled s) /\
    st_threads s !! 4 = Some (StartDone 7 true) /\ 7 ∈ sh_runnables (st_shared s) /\
    (7, ("a", 2)) ∉ sh_engaged (st_shared s).
Proof.
  pose (l := [CallEngage 1 "a" 1; Go 1 9; Go 1 9; Go 1 3; Go 1 9; Go 1 9; Go 1 9; Cancel 1;
              CallEngage 2 "a" 2; Go 2 9; Go 2 9; Go 2 9; Go 2 9; Go 3 9; Go 3 9; Go 3 9;
              CallStart 4 7; Go 4 9; Go 4 5; Go 4 9; Go 4 9; Go 4 9]).
  exists (ending l). split; [apply ending_reachable|]. split_and!.
  - change (map_Forall (fun _ pc => resting (ending l) pc) (st_threads (ending l))).
    apply (bool_decide_unpack _). vm_compute. exact I.
  - reflexivity.
  - apply (bool_decide_unpack _). vm_compute. exact I.
  - reflexivity.
  - apply (bool_decide_unpack _). vm_compute. exact I.
  - apply (bool_decide_unpack _). vm_compute. exact I.
Qed.

(** A thread that waits in [Lock] keeps new readers out, and goes on when the
    readers before it are done. *)
Definition queueing : list choice :=
  [CallEngage 1 "a" 1; Go 1 9; Go 1 9; Go 1 3; Go 1 9; CallStart 2 7; WaitRunnables 2;
   CallEngage 4 "b" 4; Go 4 9; Go 4 9; Go 4 5].

Example waiting_writer_first :
  let s := ending queueing in
  st_threads s !! 4 = Some (EngageForward "b" 4) /\ fire s (Go 4 9) = None /\ fire s (Go 2 9) = None /\
  is_Some (fireAll s [Go 1 9; Go 1 9; Go 2 9]).
Proof. split_and!; [reflexivity..|]. apply (bool_decide_unpack _). vm_compute. exact I. Qed.

(** ** Witnesses *)

(** A cluster is announced while a controller starts. *)
Definition meeting : list choice :=
  [CallEngage 1 "a" 1; Go 1 9; Go 1 9; CallStart 2 7; Go 2 9; Go 2 3; Go 1 4;
   Go 2 9; Go 2 9; Go 2 9; Go 2 9; Go 1 9; Go 1 9; Go 1 9; Go 1 9].

Lemma only_data_race_witness :
  conflict Clusters (EngageWriting "a" 1) (EngageBegin "b" 2) /\
  exists name ctx, EngageWriting "a" 1 = EngageBegin name ctx \/ EngageBegin "b" 2 = EngageBegin name ctx.
Proof.
  assert (conflict Clusters (EngageWriting "a" 1) (EngageBegin "b" 2)) as Hc
    by (exists Write, Read; split; [reflexivity|split; [reflexivity|left; reflexivity]]).
  split; [exact Hc|].
  destruct (only_data_race (ending racing) 1 2 (EngageWriting "a" 1) (EngageBegin "b" 2)) as (_ & H & _).
  - apply ending_reachable.
  - reflexivity.
  - reflexivity.
  - lia.
  - exact (H Hc).
Defined.

Lemma controllers_engaged_witness : (7, ("a", 1)) ∈ sh_engaged (st_shared (ending meeting)).
Proof.
  apply (controllers_engaged (ending meeting) 7 "a" 1).
  - apply ending_reachable.
  - change (map_Forall (fun _ pc => ~ going_to pc 7 "a" 1) (st_threads (ending meeting))).
    apply (bool_decide_unpack _). vm_compute. exact I.
  - apply (bool_decide_unpack _). vm_compute. exact I.
  - reflexivity.
Defined.

Lemma no_deadlock_witness :
  (forall t pc, st_threads (ending (firstn 6 meeting)) !! t = Some pc -> resting (ending (firstn 6 meeting)) pc) \/
  exists t, can_step (ending (firstn 6 meeting)) t.
Proof. exact (no_deadlock _ (ending_reachable _)). Defined.
