(* ===== verification/SyncController.v ===== *)
(** The sync controller: [internal/controller/sync/].

    There is one controller for each PublishedResource.  [Create] sets up its
    watches, [Reconcile] synchronises one object of a workspace: it reads the
    object, applies the filter of the PublishedResource and hands the object
    to the resource syncer.  The event handlers turn events on related
    objects into requests for their primary objects. *)

From S2P Require Import Prelude Effects Kube Crypto ApiTypes Meta Metadata StateStore ObjectSyncer.
From S2P Require Import Projection Templating Related Syncer Mutation Control Discovery.

(** [labels.Selector.Matches] *)
Class Matcher : Type := Selector_Matches : Selector -> gmap string string -> bool.

Definition ControllerName : string := "syncagent-sync".
(** The name of the LogicalCluster object, and the annotation with its path. *)
Definition LogicalClusterName : string := "cluster".
Definition LogicalClusterPathAnnotationKey : string := "kcp.io/path".

(** ** [related_handlers.go] *)

Inductive watchEvent : Type :=
| CreateEvent (o : Unstructured)
| UpdateEvent (old new : Unstructured)
| DeleteEvent (o : Unstructured)
| GenericEvent (o : Unstructured).

(** The object that the four methods of a handler pass on. *)
Definition eventObject (e : watchEvent) : Unstructured :=
  match e with CreateEvent o | UpdateEvent _ o | DeleteEvent o | GenericEvent o => o end.

Record byOwnerEventHandler : Type := MkByOwner { bo_clusterName : string; bo_ownerGVK : GroupVersionKind }.

Section Handlers.
Context {J : JsonLib} {L : DiscoveryLib} {T : TemplateEngine} {X : TextLib}.

(** Whether an owner reference names an object of this kind. *)
Definition refersTo (gvk : GroupVersionKind) (ref : OwnerReference) : bool :=
  match ParseGroupVersion (or_apiVersion ref) with
  | inl (group, version) =>
      bool_decide (group = gvk_group gvk /\ version = gvk_version gvk /\ or_kind ref = gvk_kind gvk)
  | inr _ => false
  end.

Definition byOwner_enqueue (h : byOwnerEventHandler) (obj : Unstructured) : list Request :=
  match find (refersTo (bo_ownerGVK h)) (GetOwnerReferences obj) with
  | Some ref => [Req (bo_clusterName h) (NN (GetNamespace obj) (or_name ref))]
  | None => []
  end.

Record bySelectorEventHandler : Type := MkBySelector {
  bs_clusterName : string;
  bs_client : client;
  bs_primaryDummy : GroupVersionKind;
  bs_labelSelector : LabelSelector
}.

Definition listKind (g : GroupVersionKind) : string * string := (gvkAPIVersion g, gvk_kind g +:+ "List").

Definition bySelector_enqueue (h : bySelectorEventHandler) : M kube (list Request) :=
  match LabelSelectorAsSelector (bs_labelSelector h) with
  | Ok selector =>
      let* found := tryM (clientList (bs_client h) (listKind (bs_primaryDummy h)) (ListOpts selector "" 0)) in
      match found with
      | inr _ => retM []
      | inl items => retM ((fun p => Req (bs_clusterName h) (ObjectKeyFromObject p)) <$> items)
      end
  | Err _ => retM []
  | Panic m => panicM m
  end.

(** ** [controller.go]: handlers on the service cluster *)

Definition requestOf (o : option Request) : list Request := match o with Some r => [r] | None => [] end.

(** The first matching owner decides, whether or not it can be fetched. *)
Definition serviceByOwner (localClient : client) (ownerGVK : GroupVersionKind) (obj : Unstructured)
  : M kube (list Request) :=
  match find (refersTo ownerGVK) (GetOwnerReferences obj) with
  | None => retM []
  | Some ref =>
      let* localPrimary := tryM (clientGet localClient (gvkAPIVersion ownerGVK, gvk_kind ownerGVK)
                                   (NN (GetNamespace obj) (or_name ref))) in
      match localPrimary with
      | inr _ => retM []
      | inl p => retM (requestOf (RemoteNameForLocalObject p))
      end
  end.

Definition serviceBySelector (localClient : client) (primary : GroupVersionKind) (selector : Selector)
  : M kube (list Request) :=
  let* found := tryM (clientList localClient (listKind primary) (ListOpts selector "" 0)) in
  match found with
  | inr _ => retM []
  | inl items => retM (concat ((fun p => requestOf (RemoteNameForLocalObject p)) <$> items))
  end.

(** ** [controller.go]: [Create] *)

(** The reader that bypasses the cache is another view of the client. *)
Record Reconciler : Type := MkSyncReconciler {
  sc_localClient : client;
  sc_remoteDummy : GroupVersionKind;
  sc_pubRes : PublishedResource;
  sc_localCRD : CustomResourceDefinition;
  sc_stateNamespace : string;
  sc_agentName : string;
  sc_enableServerSideApply : bool
}.

Definition buildKcpRelatedHandler (watch : RelatedResourceWatch) (remoteDummy : GroupVersionKind)
  : outcome watchHandler :=
  match w_ByOwner watch, w_BySelector watch with
  | Some _, _ => Ok (KcpByOwner remoteDummy)
  | None, Some labelSelector => Ok (KcpBySelector remoteDummy labelSelector)
  | None, None => Err (ErrorString "related resource has Watch set but neither byOwner nor bySelector configured")
  end.

Definition buildServiceRelatedHandler (watch : RelatedResourceWatch) (localDummy : GroupVersionKind)
  : outcome watchHandler :=
  match w_ByOwner watch, w_BySelector watch with
  | Some _, _ => Ok (ServiceByOwner localDummy)
  | None, Some labelSelector =>
      let! selector := wrapErr "failed to convert bySelector for service-origin related resource"
                         (LabelSelectorAsSelector labelSelector) in
      Ok (ServiceBySelector localDummy selector)
  | None, None => Err (ErrorString "related resource has Watch set but neither byOwner nor bySelector configured")
  end.

Definition watched : Type := list GroupVersionKind * list GroupVersionKind.

Definition isKcpOrigin (rr : RelatedResourceSpec) : bool := bool_decide (rr_Origin rr = RelatedResourceOriginKcp).

Definition setupRelatedWatch (c : nat) (localDummy remoteDummy : GroupVersionKind) (seen : watched)
    (relRes : RelatedResourceSpec) : M control watched :=
  match rr_Watch relRes with
  | None => retM seen
  | Some watch =>
      let '(watchedKcpGVKs, watchedServiceGVKs) := seen in
      let gvr := RelatedResourceGVR relRes in
      let* gvk := wrapM "failed to determine Kind for related resource"
                    (controlKindFor (if isKcpOrigin relRes then KcpCluster else ServiceCluster) gvr) in
      if isKcpOrigin relRes then
        if decide (gvk ∈ watchedKcpGVKs) then retM seen
        else
          let* handler := liftO (buildKcpRelatedHandler watch remoteDummy) in
          let* _ := wrapM "failed to setup watch for kcp-origin related resource" (MultiClusterWatch c gvk handler) in
          retM (gvk :: watchedKcpGVKs, watchedServiceGVKs)
      else
        if decide (gvk ∈ watchedServiceGVKs) then retM seen
        else
          let* handler := liftO (buildServiceRelatedHandler watch localDummy) in
          let* _ := wrapM "failed to setup watch for service-origin related resource" (Watch c gvk handler) in
          retM (watchedKcpGVKs, gvk :: watchedServiceGVKs)
  end.

Definition setupRelatedResourceWatches (c : nat) (pubRes : PublishedResource) (localDummy remoteDummy : GroupVersionKind)
  : M control unit :=
  let* _ := foldM (setupRelatedWatch c localDummy remoteDummy) ([], []) (ps_Related (pr_Spec pubRes)) in
  retM tt.

Context {K : KubeVersions} {R : SetRange}.

(** The client of the local manager. *)
Definition localManagerClient : client := Client ServiceCluster CachedRead.

(** The controller and the reconciler it runs; the watches are requests. *)
Definition Create (pubRes : PublishedResource) (stateNamespace agentName : string) (enableServerSideApply : bool)
  : M control (nat * Reconciler) :=
  let* localCRD := wrapM "failed to find local CRD" (RetrieveCRD (PublishedResourceSourceGK pubRes)) in
  let* localGVK := liftO (PublishedResourceSourceGVK localCRD pubRes) in
  let* remoteGVK := liftO (PublishedResourceProjectedGVK localCRD pubRes) in
  let reconciler := MkSyncReconciler localManagerClient remoteGVK pubRes localCRD stateNamespace agentName
                      enableServerSideApply in
  let* c := wrapM "failed to instantiate new controller" (NewUnmanaged ControllerName) in
  let* _ := wrapM "failed to setup remote-side watch" (MultiClusterWatch c remoteGVK EnqueueObject) in
  let* _ := wrapM "failed to setup local-side watch" (Watch c localGVK (EnqueueRemoteName agentName)) in
  let* _ := setupRelatedResourceWatches c pubRes localGVK remoteGVK in
  retM (c, reconciler).

(** The objects that a mapping function sees: for an update both versions;
    the queue collapses requests that are the same. *)
Definition mappedObjects (e : watchEvent) : list Unstructured :=
  match e with UpdateEvent old new => [old; new] | CreateEvent o | DeleteEvent o | GenericEvent o => [o] end.

Definition mapEvent (f : Unstructured -> M kube (list Request)) (e : watchEvent) : M kube (list Request) :=
  foldM (fun reqs o => let* rs := f o in retM (reqs ++ rs)) [] (mappedObjects e).

(** What a watch does with an event from a workspace or from the service
    cluster.  The local watch ignores objects of other agents. *)
Definition dispatch (h : watchHandler) (clusterName : string) (vwClient : client) (e : watchEvent)
  : M kube (list Request) :=
  match h with
  | EnqueueObject => retM [Req clusterName (ObjectKeyFromObject (eventObject e))]
  | EnqueueRemoteName agentName =>
      if OwnedBy (eventObject e) agentName
      then mapEvent (fun o => retM (requestOf (RemoteNameForLocalObject o))) e
      else retM []
  | KcpByOwner ownerGVK => retM (byOwner_enqueue (MkByOwner clusterName ownerGVK) (eventObject e))
  | KcpBySelector primary sel => bySelector_enqueue (MkBySelector clusterName vwClient primary sel)
  | ServiceByOwner ownerGVK => mapEvent (serviceByOwner localManagerClient ownerGVK) e
  | ServiceBySelector primary sel => mapEvent (fun _ => serviceBySelector localManagerClient primary sel) e
  end.

End Handlers.

(** ** [controller.go]: [Reconcile] *)

Section Reconcile.
Context {J : JsonLib} {PJ : PathJSON} {T : TemplateEngine} {X : TextLib} {MR : MapRange} {K : KubeVersions}.
Context {ML : MutationLib} {Ma : Matcher}.
Context (r : Reconciler).

(** An object may be a nil pointer, whose labels cannot be read. *)
Definition matchesFilter (obj : option (option (gmap string string))) (selector : option LabelSelector)
  : outcome bool :=
  match selector with
  | None => Ok true
  | Some selector =>
      let! s := LabelSelectorAsSelector selector in
      match obj with
      | None => Panic "invalid memory address or nil pointer dereference"
      | Some labels => Ok (Selector_Matches s (default ∅ labels))
      end
  end.

Definition objectMatchesFilter (remoteObj : Unstructured) (namespace : option Namespace) : outcome bool :=
  match ps_Filter (pr_Spec (sc_pubRes r)) with
  | None => Ok true
  | Some filter =>
      let! objMatches := matchesFilter (Some (GetLabels remoteObj)) (f_Resource filter) in
      if objMatches then matchesFilter (ns_labels <$> namespace) (f_Namespace filter) else Ok false
  end.

Definition needsNamespace (remoteObj : Unstructured) : bool :=
  match ps_Filter (pr_Spec (sc_pubRes r)) with
  | Some filter => bool_decide (is_Some (f_Namespace filter)) && bool_decide (GetNamespace remoteObj <> "")
  | None => false
  end.

Definition syncerOptions : list ResourceSyncerOption :=
  [WithLiveReaders true true] ++ (if sc_enableServerSideApply r then [WithServerSideApply] else []).

(** [fmt.Errorf] after an event for the user. *)
Definition failWithEvent {A} (remoteObj : Unstructured) (msg : string) (err : gerror) : M kube A :=
  let* _ := emitEvent (Some remoteObj) EventTypeWarning "ReconcilingError" msg in
  failM err.

(** The virtual workspace client of the request's cluster. *)
Definition vwClient : client := Client KcpCluster CachedRead.

Definition syncObject (clusterName : string) (remoteObj : Unstructured) : M kube bool :=
  let ctx := WithEventRecorder (WithClusterName Background clusterName) in
  let* ctx :=
    if ps_EnableWorkspacePaths (pr_Spec (sc_pubRes r)) then
      let* lc := tryM (getLogicalClusterAnnotations vwClient LogicalClusterName) in
      match lc with
      | inr err =>
          failWithEvent remoteObj "Failed to retrieve workspace path, cannot process object."
            (Wrapped "failed to retrieve remote logicalcluster" err)
      | inl annotations => retM (WithWorkspacePath ctx (index_map annotations LogicalClusterPathAnnotationKey))
      end
    else retM ctx in
  match NewResourceSyncer (sc_localClient r) vwClient (sc_pubRes r) (sc_localCRD r) NewMutator
          (sc_stateNamespace r) (sc_agentName r) syncerOptions with
  | Err err =>
      failWithEvent remoteObj "Failed to process object: a provider-side issue has occurred."
        (Wrapped "failed to create syncer" err)
  | Panic m => panicM m
  | Ok syncer =>
      let* requeue := tryM (Process syncer ctx remoteObj) in
      match requeue with
      | inr err => failWithEvent remoteObj "Failed to process object: a provider-side issue has occurred." err
      | inl requeue => retM requeue
      end
  end.

(** The result says whether the request is to be repeated after 5 seconds. *)
Definition Reconcile (request : Request) : M kube bool :=
  let* _ := wrapM "failed to get cluster" (getCluster (rq_ClusterName request)) in
  let* found := tryM (clientGet vwClient (gvkAPIVersion (sc_remoteDummy r), gvk_kind (sc_remoteDummy r))
                        (rq_NamespacedName request)) in
  let* remoteObj := match found with
                    | inl o => retM o
                    | inr err =>
                        match ignoreNotFound err with
                        | Some e => failM (Wrapped "failed to retrieve remote object" e)
                        | None => retM (SetGroupVersionKind (sc_remoteDummy r) emptyObject)
                        end
                    end in
  if decide (GetName remoteObj = "") then retM false
  else
    let* namespace :=
      if needsNamespace remoteObj then
        let* ns := wrapM "failed to retrieve remote object's namespace"
                     (getNamespace vwClient (GetNamespace remoteObj)) in
        retM (Some ns)
      else retM None in
    let* include := liftO (wrapErr "failed to apply filtering rules" (objectMatchesFilter remoteObj namespace)) in
    if (include : bool) then syncObject (rq_ClusterName request) remoteObj else retM false.

End Reconcile.
