(* ===== verification/SyncControllerProofs.v ===== *)
(** Properties of the sync controller: which objects it works on, what it
    may write, and where it panics. *)

From S2P Require Import Prelude Effects Kube Crypto ApiTypes Meta Metadata StateStore ObjectSyncer Samples ObjectSyncerProofs.
From S2P Require Import Projection Templating Related RelatedProofs Syncer SyncerProofs Mutation Control Discovery SyncController.

Section Reconcile.
Context {J : JsonLib} {PJ : PathJSON} {T : TemplateEngine} {X : TextLib} {MR : MapRange} {K : KubeVersions}.
Context {ML : MutationLib} {Ma : Matcher}.
Context (r : Reconciler).

(** The requests before the filter: the workspace, the object and, for a
    namespace filter, its namespace. *)
Inductive inspects (request : Request) : kreq -> Prop :=
| inspects_cluster : inspects request (RGetCluster (rq_ClusterName request))
| inspects_object :
    inspects request (RGet vwClient (gvkAPIVersion (sc_remoteDummy r), gvk_kind (sc_remoteDummy r))
                        (rq_NamespacedName request))
| inspects_namespace name : inspects request (RGetNamespace vwClient name).

Definition object_read (request : Request) (obj : Unstructured) : event kube :=
  Ev (S := kube) (RGet vwClient (gvkAPIVersion (sc_remoteDummy r), gvk_kind (sc_remoteDummy r))
                    (rq_NamespacedName request)) (Ok obj).

(** The namespace that the filter sees. *)
Definition namespace_read (obj : Unstructured) (namespace : option Namespace) (tr : list (event kube)) : Prop :=
  match namespace with
  | Some ns => needsNamespace r obj = true /\ Ev (S := kube) (RGetNamespace vwClient (GetNamespace obj)) (Ok ns) ∈ tr
  | None => needsNamespace r obj = false
  end.

(** *** [Reconcile] step by step *)

Definition filtered (request : Request) (remoteObj : Unstructured) (namespace : option Namespace) : M kube bool :=
  let* include := liftO (wrapErr "failed to apply filtering rules" (objectMatchesFilter r remoteObj namespace)) in
  if (include : bool) then syncObject r (rq_ClusterName request) remoteObj else retM false.

Definition withNamespace (request : Request) (remoteObj : Unstructured) : M kube bool :=
  let* namespace :=
    if needsNamespace r remoteObj then
      let* ns := wrapM "failed to retrieve remote object's namespace"
                   (getNamespace vwClient (GetNamespace remoteObj)) in
      retM (Some ns)
    else retM None in
  filtered request remoteObj namespace.

(** What happens once the object has been read. *)
Definition outcome_of (request : Request) (tr : list (event kube)) (o : outcome bool) : Prop :=
  (Forall (inspects request) (requests tr) /\ o <> Ok true) \/
  exists tr1 tr2 obj namespace, tr = tr1 ++ tr2 /\ Forall (inspects request) (requests tr1) /\
    object_read request obj ∈ tr1 /\ GetName obj <> "" /\ namespace_read obj namespace tr1 /\
    objectMatchesFilter r obj namespace = Ok true /\
    exec (syncObject r (rq_ClusterName request) obj) tr2 o.

Lemma filtered_inv request obj namespace tr o :
  exec (filtered request obj namespace) tr o ->
  (tr = [] /\ o <> Ok true) \/
  (objectMatchesFilter r obj namespace = Ok true /\ exec (syncObject r (rq_ClusterName request) obj) tr o).
Proof.
  unfold filtered. intros H%exec_bindM_liftO_inv.
  destruct (objectMatchesFilter r obj namespace) as [[]|e|m] eqn:E; simpl in H; [by right|left..].
  - exec_step. done.
  - destruct H as [-> ->]. done.
  - destruct H as [-> ->]. done.
Qed.

Lemma withNamespace_inv request obj tr o :
  exec (withNamespace request obj) tr o ->
  (Forall (inspects request) (requests tr) /\ o <> Ok true) \/
  exists tr1 tr2 namespace, tr = tr1 ++ tr2 /\ Forall (inspects request) (requests tr1) /\
    namespace_read obj namespace tr1 /\ objectMatchesFilter r obj namespace = Ok true /\
    exec (syncObject r (rq_ClusterName request) obj) tr2 o.
Proof.
  unfold withNamespace, namespace_read. destruct (needsNamespace r obj) eqn:En; intros H.
  - apply exec_bindM_inv in H as [(t1 & t2 & ns & -> & H1 & H2)|[(e & -> & H1)|(m & -> & H1)]].
    2,3: left; split; [|done]; eapply (always_exec (S := kube)); [|exact H1];
      by unfold getNamespace; always_solve; constructor.
    repeat exec_step. unfold getNamespace in Hx. repeat exec_step.
    apply filtered_inv in H2 as [[-> Ho]|[Hf Hs]]; [left|right].
    + split; [|done]. repeat constructor.
    + eexists _, t2, (Some a). split; [done|]. repeat split; try done; [repeat constructor|by left].
  - rewrite bindM_retM in H. apply filtered_inv in H as [[-> Ho]|[Hf Hs]]; [by left|right].
    exists [], tr, None. repeat split; try done.
Qed.

Lemma Reconcile_inv request tr o :
  exec (Reconcile r request) tr o -> outcome_of request tr o.
Proof.
  unfold Reconcile. intros H.
  apply exec_bindM_inv in H as [(t1 & t2 & [] & -> & H1 & H)|[(e & -> & H1)|(m & -> & H1)]].
  2,3: left; split; [|done]; eapply (always_exec (S := kube)); [|exact H1];
    by unfold getCluster; always_solve; constructor.
  unfold getCluster in H1. repeat exec_step.
  apply exec_bindM_inv in H as [(t1 & t3 & found & -> & H1 & H)|[(e & -> & H1)|(m & -> & H1)]].
  2,3: left; split; [|done]; simpl; constructor; [constructor|]; eapply (always_exec (S := kube)); [|exact H1];
    by unfold clientGet; always_solve; constructor.
  unfold clientGet in H1. repeat exec_step.
  - destruct (decide (GetName a = "")) as [Hn|Hn].
    { rewrite bindM_retM, decide_True in H by done. repeat exec_step. left. split; [repeat constructor|done]. }
    rewrite bindM_retM, decide_False in H by done. change (exec (withNamespace request a) t3 o) in H.
    apply withNamespace_inv in H as [[Hi Ho]|(t1 & t2 & ns & -> & Hi & Hns & Hm & Hs)]; [left|right].
    + split; [|done]. simpl. repeat (constructor; [constructor|]). done.
    + eexists (_ :: _ :: t1), t2, a, ns. split; [done|]. split; [by repeat (constructor; [constructor|])|].
      split; [by right; left|]. split; [done|]. split; [|done].
      unfold namespace_read in *. destruct ns; [|done]. destruct Hns. split; [done|]. by do 2 right.
  - left. destruct (ignoreNotFound e) as [e'|] eqn:E.
    + apply exec_inv in H as [-> ->]. split; [repeat constructor|done].
    + rewrite bindM_retM in H. simpl in H. repeat exec_step. split; [repeat constructor|done].
Qed.

(** ** What the controller works on *)

(** The filter of a PublishedResource, as it is documented: the object's
    labels match one selector, the labels of its namespace the other. *)
Definition selected_by (selector : option LabelSelector) (labels : option (gmap string string)) : Prop :=
  match selector with
  | None => True
  | Some selector => exists s, LabelSelectorAsSelector selector = Ok s /\ Selector_Matches s (default ∅ labels) = true
  end.

Definition selected (obj : Unstructured) (namespace : option Namespace) : Prop :=
  match ps_Filter (pr_Spec (sc_pubRes r)) with
  | None => True
  | Some filter =>
      selected_by (f_Resource filter) (GetLabels obj) /\
      (f_Namespace filter = None \/ exists ns, namespace = Some ns /\ selected_by (f_Namespace filter) (ns_labels ns))
  end.

Lemma matchesFilter_true obj selector :
  matchesFilter obj selector = Ok true <->
  selector = None \/ exists labels, obj = Some labels /\ selected_by selector labels.
Proof.
  unfold matchesFilter, selected_by. destruct selector as [sel|]; [|naive_solver].
  destruct (LabelSelectorAsSelector sel) as [s|e|m] eqn:E; simpl; [|naive_solver..].
  destruct obj as [labels|]; [|naive_solver].
  split; [intros [= Hm]; right; naive_solver|]. intros [|(l & [= ->] & s' & [= ->] & ->)]; done.
Qed.

Lemma objectMatchesFilter_true obj namespace :
  objectMatchesFilter r obj namespace = Ok true <-> selected obj namespace.
Proof.
  unfold objectMatchesFilter, selected. destruct (ps_Filter _) as [f|]; [|done].
  assert (matchesFilter (Some (GetLabels obj)) (f_Resource f) = Ok true <-> selected_by (f_Resource f) (GetLabels obj))
    as <-.
  { rewrite matchesFilter_true. unfold selected_by. destruct (f_Resource f); naive_solver. }
  assert (matchesFilter (ns_labels <$> namespace) (f_Namespace f) = Ok true <->
    f_Namespace f = None \/ exists ns, namespace = Some ns /\ selected_by (f_Namespace f) (ns_labels ns)) as <-.
  { rewrite matchesFilter_true. destruct namespace; simpl; naive_solver. }
  destruct (matchesFilter (Some _) _) as [[]|e|m]; simpl; naive_solver.
Qed.

(** *** What it writes *)

Lemma syncerOptions_keep : Forall keeps_store (syncerOptions r).
Proof.
  unfold syncerOptions. apply Forall_app. split; [by repeat constructor|].
  case_match; by repeat constructor.
Qed.

Lemma quiet_no_write (tr : list (event kube)) q :
  Forall (fun q => writes_to q = None) (requests tr) -> q ∈ requests tr -> writes_to q <> None -> False.
Proof. rewrite Forall_forall. naive_solver. Qed.

(** A reconciliation that writes has read the object and, where the filter
    needs it, its namespace, and the filter selects them. *)
Lemma Reconcile_write_inv request tr o q :
  exec (Reconcile r request) tr o -> q ∈ requests tr -> writes_to q <> None ->
  exists tr1 tr2 obj namespace, tr = tr1 ++ tr2 /\ Forall (inspects request) (requests tr1) /\
    object_read request obj ∈ tr1 /\ namespace_read obj namespace tr1 /\ selected obj namespace /\
    exec (syncObject r (rq_ClusterName request) obj) tr2 o /\ q ∈ requests tr2.
Proof.
  assert (forall t : list (event kube), Forall (inspects request) (requests t) -> q ∈ requests t -> writes_to q <> None -> False)
    as Hquiet.
  { intros t Ht. apply quiet_no_write. eapply Forall_impl; [exact Ht|]. by intros ? []. }
  intros [[Hi _]|(tr1 & tr2 & obj & ns & -> & Hi & Ho & _ & Hn & Hm & Hs)]%Reconcile_inv Hq Hw; [naive_solver|].
  exists tr1, tr2, obj, ns. do 4 (split; [done|]). split; [by apply objectMatchesFilter_true|]. split; [done|].
  unfold requests in Hq. rewrite fmap_app, elem_of_app in Hq. naive_solver.
Qed.

(** C22: the controller writes nothing, on either side, on behalf of an
    object that its filter does not select: before the first write the
    object has been read from the workspace of the request, together with
    its namespace where a namespace filter is configured, and their labels
    match the selectors of the PublishedResource.  What precedes the
    synchronisation only reads. *)
Theorem Reconcile_filtered request tr o q :
  exec (Reconcile r request) tr o -> q ∈ requests tr -> writes_to q <> None ->
  exists tr1 tr2 obj namespace, tr = tr1 ++ tr2 /\ Forall (inspects request) (requests tr1) /\
    object_read request obj ∈ tr1 /\ namespace_read obj namespace tr1 /\ selected obj namespace /\
    q ∈ requests tr2.
Proof.
  intros H Hq Hw. destruct (Reconcile_write_inv _ _ _ _ H Hq Hw) as (tr1 & tr2 & obj & ns & ? & ? & ? & ? & ? & _ & ?).
  by exists tr1, tr2, obj, ns.
Qed.

(** In kcp the controller creates, replaces, applies or deletes an object
    only as a copy of a related resource. *)
Definition kcp_copy (h : list (event kube)) (q : kreq) : Prop :=
  request_client q = Some vwClient ->
  exists syncer rr gvk,
    NewResourceSyncer (sc_localClient r) vwClient (sc_pubRes r) (sc_localCRD r) NewMutator
      (sc_stateNamespace r) (sc_agentName r) (syncerOptions r) = Ok syncer /\
    rr ∈ ps_Related (pr_Spec (sc_pubRes r)) /\ rr_Origin rr = RelatedResourceOriginService /\
    Ev (S := kube) (RKindFor vwClient (RelatedResourceProjectedGVR rr)) (Ok gvk) ∈ h /\
    copy_placement syncer rr vwClient gvk h q.

Lemma kcp_copy_quiet {A} h (m : M kube A) :
  always (S := kube) (fun q => request_client q = None) m -> traced kcp_copy h m.
Proof. apply traced_always. intros h' q Hq Hp. congruence. Qed.

Lemma failWithEvent_traced {A} h obj msg err : traced kcp_copy h (failWithEvent (A := A) obj msg err).
Proof. apply kcp_copy_quiet. unfold failWithEvent, emitEvent. always_solve. Qed.

Lemma syncObject_traced h cluster obj :
  sc_localClient r <> vwClient -> traced kcp_copy h (syncObject r cluster obj).
Proof.
  intros Hc. unfold syncObject. cbv zeta. apply traced_bindM.
  { apply kcp_copy_quiet. unfold getLogicalClusterAnnotations, failWithEvent, emitEvent. always_solve. }
  intros tr ctx _. destruct (NewResourceSyncer _ _ _ _ _ _ _ _) as [syncer|e|m] eqn:E; [|apply failWithEvent_traced|done].
  pose proof (NewResourceSyncer_factory _ _ _ _ _ _ _ _ _ syncerOptions_keep E).
  destruct (NewResourceSyncer_fields _ _ _ _ _ _ _ _ _ syncerOptions_keep E) as (_ & Hl & Hr & Hpr).
  apply traced_bindM; [|intros tr' [] _; [done|apply failWithEvent_traced]].
  apply traced_tryM. eapply traced_mono; [|apply Process_traced; congruence].
  intros h' q Hq Hp. unfold kcp_placement in Hq. rewrite Hr, Hpr in Hq.
  destruct (Hq Hp) as (rr & gvk & Hin & Ho & Hk & Hcp). by exists syncer, rr, gvk.
Qed.

Lemma Reconcile_kcp_traced h request :
  sc_localClient r <> vwClient -> traced kcp_copy h (Reconcile r request).
Proof.
  intros Hc. unfold Reconcile, getCluster, clientGet, getNamespace.
  repeat (traced_step; simpl); try done. by apply syncObject_traced.
Qed.


(** The object that a read has answered with. *)
Definition answer (ev : event kube) : option Unstructured :=
  match ev with Ev (RGet _ _ _) (Ok o) => Some o | _ => None end.

(** A filter for namespaces takes the controller down when the
    published resource is cluster-scoped: the object has no namespace to
    look at, and the nil namespace is dereferenced. *)
Lemma namespace_filter_panics request filter selector s tr o obj :
  ps_Filter (pr_Spec (sc_pubRes r)) = Some filter -> f_Namespace filter = Some selector ->
  LabelSelectorAsSelector selector = Ok s -> selected_by (f_Resource filter) (GetLabels obj) ->
  GetName obj <> "" -> GetNamespace obj = "" ->
  exec (Reconcile r request) tr o -> tr !! 1 = Some (object_read request obj) ->
  length tr = 2 /\ o = Panic "invalid memory address or nil pointer dereference".
Proof.
  intros Hf Hn Hs Hsel Hname Hns H Htr.
  assert (exec (withNamespace request obj) (drop 2 tr) o) as Hw.
  { unfold Reconcile in H.
    apply exec_bindM_inv in H as [(t1 & t2 & [] & -> & H1 & H)|[(e & -> & H1)|(m & -> & H1)]].
    2,3: apply exec_wrapM_inv in H1 as (? & H1 & _); unfold getCluster in H1; repeat exec_step; done.
    unfold getCluster in H1. repeat exec_step. simpl in Htr.
    apply exec_bindM_inv in H as [(t1 & t3 & found & -> & H1 & H)|[(e & -> & H1)|(m & -> & H1)]];
      apply exec_tryM_inv in H1 as (o' & H1 & Ho); unfold clientGet in H1; repeat exec_step;
      apply (f_equal (fun o => o ≫= answer)) in Htr; simplify_eq/=; destruct x; simplify_eq/=.
    rewrite bindM_retM, decide_False in H by done. exact H. }
  unfold withNamespace, needsNamespace in Hw. rewrite Hf, Hns, andb_false_r, bindM_retM in Hw.
  apply exec_bindM_liftO_inv in Hw. unfold objectMatchesFilter in Hw. rewrite Hf in Hw.
  assert (matchesFilter (Some (GetLabels obj)) (f_Resource filter) = Ok true) as Hres
    by (apply matchesFilter_true; right; eauto).
  rewrite Hres, Hn in Hw. simpl in Hw. rewrite Hs in Hw. simpl in Hw. destruct Hw as [Hd ->].
  split; [|done]. apply (f_equal length) in Hd. rewrite length_drop in Hd.
  apply lookup_lt_Some in Htr. simpl in Hd. lia.
Qed.

End Reconcile.

(** ** Events *)

Section Events.
Context {J : JsonLib} {L : DiscoveryLib} {T : TemplateEngine} {X : TextLib}.

(** A mapping function that asks nobody. *)
Lemma mapEvent_pure (f : Unstructured -> list Request) e tr o :
  exec (mapEvent (fun obj => retM (f obj)) e) tr o -> tr = [] /\ o = Ok (concat (f <$> mappedObjects e)).
Proof.
  unfold mapEvent. assert (forall l acc, exec (foldM (S := kube) (fun reqs obj => let* rs := retM (f obj) in retM (reqs ++ rs)) acc l) tr o ->
    tr = [] /\ o = Ok (acc ++ concat (f <$> l))) as H; [|apply (H (mappedObjects e) [])].
  induction l as [|x l IH]; intros acc H; simpl in H.
  - exec_step. by rewrite app_nil_r.
  - rewrite bindM_retM in H. rewrite bindM_retM in H. apply IH in H as [-> ->]. split; [done|].
    simpl. by rewrite app_assoc.
Qed.

Lemma eventObject_mapped e : eventObject e ∈ mappedObjects e.
Proof. destruct e; simpl; set_solver. Qed.

(** What the agent reads of a copy when it sees it again. *)
Definition stamp (o : Unstructured) : list string :=
  [index_map (GetLabels o) agentNameLabel; index_map (GetLabels o) remoteObjectClusterLabel;
   index_map (GetAnnotations o) remoteObjectNamespaceAnnotation;
   index_map (GetAnnotations o) remoteObjectNameAnnotation].

Lemma stamp_owned o o' agent : stamp o = stamp o' -> OwnedBy o agent = OwnedBy o' agent.
Proof. unfold OwnedBy. by intros [= -> _ _ _]. Qed.

Lemma stamp_remote o o' : stamp o = stamp o' -> RemoteNameForLocalObject o = RemoteNameForLocalObject o'.
Proof. unfold RemoteNameForLocalObject. by intros [= _ -> -> ->]. Qed.

(** C8: whatever happens to a copy on the service cluster, its source is
    reconciled: an event on an object whose agent, cluster, namespace and name
    stamps are those that the agent puts onto a new copy, whatever else the
    API server and others have written to it since, passes the filter of the
    local watch and enqueues, without asking any server, a request with the
    workspace, namespace and name of the source, whatever labels and
    annotations the source itself carries. *)
Theorem copy_event_finds_source (s : objectSyncer) source src obj cluster c e tr res :
  syn_metadataOnDestination s = true -> extra_metadata_free s ->
  syn_agentName s <> "" -> syn_destLabels s !! agentNameLabel = None ->
  sd_clusterName source <> "" -> GetName src <> "" ->
  stamp (eventObject e) = stamp (linkToSource s source src (stripped obj)) ->
  exec (dispatch (EnqueueRemoteName (syn_agentName s)) cluster c e) tr res ->
  tr = [] /\ exists requests, res = Ok requests /\ Req (sd_clusterName source) (ObjectKeyFromObject src) ∈ requests.
Proof.
  intros Hm Hf Ha Hl Hc Hn He H. unfold dispatch in H. rewrite (stamp_owned _ _ _ He), linkToSource_owned in H by done.
  apply mapEvent_pure in H as [-> ->]. split; [done|]. eexists. split; [done|].
  pose proof (linkToSource_roundtrip s source src obj Hm Hf Hc Hn) as Hr. rewrite <- (stamp_remote _ _ He) in Hr.
  apply list_elem_of_In, in_concat. exists (requestOf (RemoteNameForLocalObject (eventObject e))).
  split; [|rewrite Hr; by left].
  apply list_elem_of_In, (list_elem_of_fmap_2 (fun o => requestOf (RemoteNameForLocalObject o)) _ _ (eventObject_mapped e)).
Qed.

End Events.

(** ** Witnesses *)

Module SampleController.

#[export] Existing Instance SampleRelated.engine.
#[export] Existing Instance SampleRelated.text.
#[export] Existing Instance SampleRelated.range.
#[export] Existing Instance SampleCRD.versions.
#[export] Existing Instance Sample.path.
#[export] Existing Instance TreeJson.lib.
#[export] Existing Instance SampleMutation.lib.
#[export] Existing Instance SampleDiscovery.lib.

(** Selectors are sets of labels. *)
#[export] Instance matcher : Matcher := fun s labels =>
  match s with
  | SelectorFromSet m | SelectorFromLabelSelector (LSel m _) => bool_decide (m ⊆ labels)
  end.

Definition selector : LabelSelector := LSel {[ "app" := "demo" ]} [].
Definition filter : ResourceFilter := MkFilter (Some (LSel ∅ [])) (Some selector).

Definition pubRes : PublishedResource :=
  MkPubRes (Sample.meta "" "publish-backups" None None)
    (MkPubResSpec (MkSource "eksempel.no" "" [] "Backup") (Some filter) None false None None
       [SampleRelated.related "service" "OnPrimaryDeletion" "settings"] None) (MkPubResStatus "").

Definition reconciler : Reconciler :=
  MkSyncReconciler Sample.serviceClient (GVK "eksempel.no" "v1" "Backup") pubRes SampleCRD.crd "kcp-system" "agent" false.

Definition request : Request := Req "2gz9" (NN "ns" "nightly").

(** A workspace with one object in deletion, whose copy still exists. *)
Definition workspace (o : Unstructured) : server (S := kube) unit := fun r w =>
  match r return kresp r * unit with
  | RGet _ _ key => (if decide (nn_name key = "nightly") then Ok o else Ok (SampleRelated.configMap "settings"), tt)
  | RGetNamespace _ n => (Ok (Ns n None), tt)
  | RList _ _ _ => (Ok [Sample.backup "tenant" None None], tt)
  | r => echo r tt
  end.

Definition deleted : Unstructured := Sample.backup "ns" (Some [deletionFinalizer]) (Some 7%Z).
Definition pass := run (workspace deleted) (Reconcile reconciler request) tt.
Definition unscoped := run (workspace (Sample.backup "" None None)) (Reconcile reconciler request) tt.

End SampleController.
Import SampleController.

(** An update of a copy that came from [claimed]. *)
(** The copy as the API server has stored it. *)
Definition storedCopy : Unstructured :=
  SetUID "0d9f" (SetResourceVersion "17" (ensureLabels {["team" := "blue"]} claimedCopy)).

Lemma copy_event_finds_source_witness :
  exists requests,
    (run echo (dispatch (EnqueueRemoteName "agent") "" vwClient (UpdateEvent (Sample.backup "tenant" None None) storedCopy))
       tt).1.2 = Ok requests /\ Req "2gz9" (NN "ns" "nightly") ∈ requests.
Proof.
  destruct (copy_event_finds_source (knowing true) (Sample.kcpSide claimed) claimed claimed "" vwClient
    (UpdateEvent (Sample.backup "tenant" None None) storedCopy)
    (run echo (dispatch (EnqueueRemoteName "agent") "" vwClient
                 (UpdateEvent (Sample.backup "tenant" None None) storedCopy)) tt).1.1
    (run echo (dispatch (EnqueueRemoteName "agent") "" vwClient
                 (UpdateEvent (Sample.backup "tenant" None None) storedCopy)) tt).1.2
    eq_refl sample_extra_metadata_free) as [_ H]; try (discriminate || reflexivity || exact H).
  exact (run_execution echo _ tt).
Defined.

(** The deletion of a copy in kcp. *)
Definition deletion : kreq := RDelete vwClient (SampleRelated.configMap "settings") DeletePropagationBackground.

Lemma Reconcile_filtered_witness : exists obj namespace, selected SampleController.reconciler obj namespace.
Proof.
  destruct (Reconcile_filtered SampleController.reconciler SampleController.request SampleController.pass.1.1
    SampleController.pass.1.2 deletion) as (tr1 & tr2 & obj & ns & _ & _ & _ & _ & H & _).
  - exact (run_execution (SampleController.workspace SampleController.deleted) _ tt).
  - apply (list_elem_of_lookup_2 _ 9). vm_cast_no_check (eq_refl (Some deletion)).
  - discriminate.
  - exists obj, ns. exact H.
Defined.


Lemma namespace_filter_panics_witness :
  length SampleController.unscoped.1.1 = 2 /\
  SampleController.unscoped.1.2 = Panic "invalid memory address or nil pointer dereference".
Proof.
  apply (namespace_filter_panics SampleController.reconciler SampleController.request SampleController.filter
    (LSel ∅ []) (SelectorFromLabelSelector (LSel ∅ [])) SampleController.unscoped.1.1
    SampleController.unscoped.1.2 (Sample.backup "" None None)); try reflexivity.
  - exists (SelectorFromLabelSelector SampleController.selector). split; [reflexivity|].
    apply bool_decide_eq_true, (bool_decide_unpack _). vm_compute. exact I.
  - discriminate.
  - exact (run_execution (SampleController.workspace (Sample.backup "" None None)) _ tt).
Defined.
