(* ===== verification/SyncManager.v ===== *)
(** The sync manager: [internal/controller/syncmanager/controller.go].

    It runs one sync controller for each PublishedResource that is ready for
    synchronisation.  [syncCancels] maps the key of a PublishedResource (its
    UID and resource version) to the function that cancels the context of
    its controller; a context is named by a number.  The map outlives errors,
    so a handler answers with its result and the map.  The manager is built
    with the default of one worker: calls of [Reconcile] follow one another. *)

From S2P Require Import Prelude Effects Kube Crypto ApiTypes Meta Metadata StateStore ObjectSyncer Samples.
From S2P Require Import Projection Templating Related RelatedProofs Control Discovery SyncController.

(** ** Handlers with the map *)

Definition syncCancels : Type := gmap string nat.

Definition handler (A : Type) : Type := syncCancels -> prog control (outcome A * syncCancels).

Definition retH {A} (a : A) : handler A := fun s => Ret (Ok a, s).
Definition failH {A} (e : gerror) : handler A := fun s => Ret (Err e, s).
Definition liftH {A} (m : M control A) : handler A := fun s => pbind m (fun o => Ret (o, s)).
Definition bindH {A B} (m : handler A) (k : A -> handler B) : handler B := fun s =>
  pbind (m s) (fun '(o, s') =>
    match o with
    | Ok a => k a s'
    | Err e => Ret (Err e, s')
    | Panic msg => Ret (Panic msg, s')
    end).
Definition getH : handler syncCancels := fun s => Ret (Ok s, s).
Definition putH (s' : syncCancels) : handler unit := fun _ => Ret (Ok tt, s').

Notation "'do' x <- m ';' k" := (bindH m (fun x => k))
  (at level 10, x pattern, m at level 100, k at level 200) : go_scope.

(** ** [controller.go] *)

Record Reconciler : Type := MkSyncManager {
  sm_resourceProber : ResourceProber;
  sm_prFilter : Selector;
  sm_stateNamespace : string;
  sm_agentName : string;
  sm_enableServerSideApply : bool
}.

Section Manager.
Context {J : JsonLib} {L : DiscoveryLib} {T : TemplateEngine} {X : TextLib} {K : KubeVersions} {R : SetRange}.
Context (r : Reconciler).

Definition getPublishedResourceKey (pr : PublishedResource) : string :=
  om_uid (pr_Meta pr) +:+ "-" +:+ om_resourceVersion (pr_Meta pr).

Definition isSyncEnabled (pr : PublishedResource) : bool :=
  match ps_Synchronization (pr_Spec pr) with
  | None => true
  | Some s => sy_Enabled s
  end.

Definition checkResourceIsBoundEverywhere (pubRes : PublishedResource) : M control bool :=
  let* projectedGVK := wrapM "failed to determine projected primary GVK" (ProjectPublishedResourceGVK pubRes) in
  HasGVK (sm_resourceProber r) projectedGVK.

Definition cleanupController (pubRes : PublishedResource) : handler unit :=
  let key := getPublishedResourceKey pubRes in
  do cancels <- getH;
  match cancels !! key with
  | Some cancel => do _ <- liftH (cancelContext cancel); putH (delete key cancels)
  | None => retH tt
  end.

(** [err] after the context has been cancelled. *)
Definition cancelAndFail {A} (ctrlCtx : nat) (err : gerror) : handler A :=
  do _ <- liftH (cancelContext ctrlCtx); failH err.

(** The result says whether the request is to be repeated after a second. *)
Definition ensureSyncController (pubRes : PublishedResource) : handler bool :=
  let key := getPublishedResourceKey pubRes in
  do cancels <- getH;
  if decide (is_Some (cancels !! key)) then retH false
  else
    do resourceBound <- liftH (wrapM "failed to probe for existence of resource in virtual workspace"
                                 (checkResourceIsBoundEverywhere pubRes));
    if negb resourceBound then retH true
    else
      do ctrlCtx <- liftH WithCancelCause;
      do created <- liftH (tryM (Create pubRes (sm_stateNamespace r) (sm_agentName r) (sm_enableServerSideApply r)));
      match created with
      | inr err => cancelAndFail ctrlCtx (Wrapped "failed to create sync controller" err)
      | inl (syncController, _) =>
          do _ <- putH (<[key := ctrlCtx]> cancels);
          do started <- liftH (tryM (StartController ctrlCtx syncController));
          match started with
          | inr err => cancelAndFail ctrlCtx (Wrapped "failed to start sync controller" err)
          | inl _ => retH false
          end
      end.

(** Whether a PublishedResource is to be synchronised. *)
Definition toBeSynced (pubRes : PublishedResource) : bool :=
  bool_decide (om_deletionTimestamp (pr_Meta pubRes) = None) &&
  bool_decide (pst_ResourceSchemaName (pr_Status pubRes) <> "") && isSyncEnabled pubRes.

Definition Reconcile (req : NamespacedName) : handler bool :=
  do found <- liftH (tryM (getPublishedResource req));
  match found with
  | inr err => match ignoreNotFound err with Some e => failH e | None => retH false end
  | inl pubRes =>
      if negb (toBeSynced pubRes) then do _ <- cleanupController pubRes; retH false
      else ensureSyncController pubRes
  end.

End Manager.

(** ** Executions of handlers *)

Lemma exec_bindH_inv {A B} (m : handler A) (k : A -> handler B) s tr res :
  exec (bindH m k s) tr res ->
  exists tr1 tr2 o s1, tr = tr1 ++ tr2 /\ exec (m s) tr1 (o, s1) /\
    match o with
    | Ok a => exec (k a s1) tr2 res
    | Err e => tr2 = [] /\ res = (Err e, s1)
    | Panic msg => tr2 = [] /\ res = (Panic msg, s1)
    end.
Proof.
  unfold bindH. intros (tr1 & tr2 & [o s1] & -> & H1 & H2)%exec_pbind_inv.
  exists tr1, tr2, o, s1. split; [done|]. split; [done|].
  destruct o; [done|by apply exec_ret_inv in H2..].
Qed.

Lemma exec_liftH_inv {A} (m : M control A) s tr o s' : exec (liftH m s) tr (o, s') -> s' = s /\ exec m tr o.
Proof.
  unfold liftH. intros (tr1 & tr2 & o' & -> & H1 & [-> [= -> ->]]%exec_ret_inv)%exec_pbind_inv.
  by rewrite app_nil_r.
Qed.

(** A handler that starts by asking the servers. *)
Lemma exec_lift_bindH_inv {A B} (m : M control A) (k : A -> handler B) s tr res :
  exec (bindH (liftH m) k s) tr res ->
  exists tr1 tr2 o, tr = tr1 ++ tr2 /\ exec m tr1 o /\
    match o with
    | Ok a => exec (k a s) tr2 res
    | Err e => tr2 = [] /\ res = (Err e, s)
    | Panic msg => tr2 = [] /\ res = (Panic msg, s)
    end.
Proof.
  intros (tr1 & tr2 & o & s1 & -> & [-> H1]%exec_liftH_inv & H2)%exec_bindH_inv. eauto 8.
Qed.

Lemma bindH_getH {B} (k : syncCancels -> handler B) s : bindH getH k s = k s s.
Proof. done. Qed.
Lemma bindH_putH {B} (k : unit -> handler B) s s' : bindH (putH s') k s = k tt s'.
Proof. done. Qed.

Section Facts.
Context {J : JsonLib} {L : DiscoveryLib} {T : TemplateEngine} {X : TextLib} {K : KubeVersions} {R : SetRange}.
Context (r : Reconciler).

(** Requests that concern neither PublishedResources nor contexts. *)
Definition neutral (q : creq) : Prop :=
  match q with
  | CGetPublishedResource _ | CWithCancel | CCancel _ | CStartController _ _ => False
  | _ => True
  end.

Lemma RetrieveCRD_neutral gk : always (S := control) neutral (RetrieveCRD gk).
Proof.
  unfold RetrieveCRD, ServerGroupsAndResources, callLib, getCRD, OpenAPISchema, getPreferredVersion, ServerPreferredResources.
  always_solve.
Qed.

Lemma hasInAll_neutral m endpoints : always (S := control) neutral (hasInAll m endpoints).
Proof.
  induction endpoints as [|ep eps IH]; simpl; [done|].
  unfold hasAPIThingInEndpoint, callLib, ServerGroupsAndResources. always_solve.
Qed.

Lemma check_neutral pubRes : always (S := control) neutral (checkResourceIsBoundEverywhere r pubRes).
Proof.
  unfold checkResourceIsBoundEverywhere, ProjectPublishedResourceGVK, HasGVK, hasAPIThing, getEndpointSlice.
  pose proof RetrieveCRD_neutral. pose proof hasInAll_neutral. always_solve.
Qed.

Lemma Create_neutral pubRes namespace agent ssa :
  always (S := control) neutral (Create pubRes namespace agent ssa).
Proof.
  unfold Create, setupRelatedResourceWatches, setupRelatedWatch, NewUnmanaged, MultiClusterWatch, Watch, controlKindFor.
  pose proof RetrieveCRD_neutral. always_solve.
Qed.

(** What one call of [Reconcile] amounts to. *)
Inductive reconciled (req : NamespacedName) (s : syncCancels)
  : list (event control) -> outcome bool -> syncCancels -> Prop :=
(* the PublishedResource cannot be read *)
| rec_unread (x : outcome PublishedResource) o : is_ok x = false -> reconciled req s [Ev (S := control) (CGetPublishedResource req) x] o s
(* nothing to do *)
| rec_idle pr :
    toBeSynced pr = true \/ s !! getPublishedResourceKey pr = None ->
    reconciled req s [Ev (S := control) (CGetPublishedResource req) (Ok pr)] (Ok false) s
(* the controller is stopped *)
| rec_stopped pr ctx :
    toBeSynced pr = false -> s !! getPublishedResourceKey pr = Some ctx ->
    reconciled req s [Ev (S := control) (CGetPublishedResource req) (Ok pr); Ev (S := control) (CCancel ctx) tt]
      (Ok false) (delete (getPublishedResourceKey pr) s)
(* the resource is not available everywhere *)
| rec_unbound pr tr o :
    exec (checkResourceIsBoundEverywhere r pr) tr o -> o <> Ok true ->
    reconciled req s (Ev (S := control) (CGetPublishedResource req) (Ok pr) :: tr)
      (match wrapErr "failed to probe for existence of resource in virtual workspace" o with
       | Ok _ => Ok true | Err e => Err e | Panic m => Panic m end) s
(* no controller could be created *)
| rec_uncreated pr ctx tr1 (tr2 tr3 : list (event control)) o :
    exec (checkResourceIsBoundEverywhere r pr) tr1 (Ok true) -> Forall neutral (requests tr2) ->
    tr3 = [] \/ tr3 = [Ev (S := control) (CCancel ctx) tt] -> is_ok o = false ->
    reconciled req s
      (Ev (S := control) (CGetPublishedResource req) (Ok pr) :: tr1 ++ Ev (S := control) CWithCancel ctx :: tr2 ++ tr3) o s
(* a controller was created, and started unless that failed *)
| rec_created pr ctx c rec tr1 tr2 (x : outcome unit) tr3 o :
    toBeSynced pr = true -> s !! getPublishedResourceKey pr = None ->
    exec (checkResourceIsBoundEverywhere r pr) tr1 (Ok true) ->
    exec (Create pr (sm_stateNamespace r) (sm_agentName r) (sm_enableServerSideApply r)) tr2 (Ok (c, rec)) ->
    (if is_ok x then tr3 = [] /\ o = Ok false
     else (tr3 = [] \/ tr3 = [Ev (S := control) (CCancel ctx) tt]) /\ is_ok o = false) ->
    reconciled req s
      (Ev (S := control) (CGetPublishedResource req) (Ok pr) :: tr1 ++ Ev (S := control) CWithCancel ctx :: tr2 ++
         Ev (S := control) (CStartController ctx c) x :: tr3) o (<[getPublishedResourceKey pr := ctx]> s).

Lemma cancelAndFail_inv {A} ctx err s tr (o : outcome A) s' :
  exec (cancelAndFail ctx err s) tr (o, s') ->
  tr = [Ev (S := control) (CCancel ctx) tt] /\ o = Err err /\ s' = s.
Proof.
  unfold cancelAndFail, cancelContext. intros (t1 & t2 & o' & -> & H1 & H2)%exec_lift_bindH_inv.
  repeat exec_step. destruct x. unfold failH in H2. by exec_step.
Qed.

Lemma ensureSyncController_inv req pr s tr o s' :
  toBeSynced pr = true -> exec (ensureSyncController r pr s) tr (o, s') ->
  reconciled req s (Ev (S := control) (CGetPublishedResource req) (Ok pr) :: tr) o s'.
Proof.
  intros Hs. unfold ensureSyncController. rewrite bindH_getH. destruct (decide _) as [|Hk]; intros H.
  { unfold retH in H. exec_step. apply rec_idle. by left. }
  apply eq_None_not_Some in Hk.
  apply exec_lift_bindH_inv in H as (t1 & t2 & ob & -> & (o1 & H1 & ->)%exec_wrapM_inv & H).
  destruct o1 as [[]|e|m]; simpl in H; [|unfold retH in H; try destruct H as [-> H]; simplify_eq; try exec_step;
    rewrite ?app_nil_r; by apply (rec_unbound req s pr t1 _ H1)..].
  apply exec_lift_bindH_inv in H as (t3 & t4 & ox & -> & Hc & H).
  unfold WithCancelCause in Hc. repeat exec_step. rename x into ctx.
  apply exec_lift_bindH_inv in H as (t3 & t5 & o2 & -> & (o3 & H2 & ->)%exec_tryM_inv & H).
  pose proof (always_exec (S := control) _ _ _ _ (Create_neutral pr _ _ _) H2) as Hn.
  destruct o3 as [[c rec]|e|m].
  - rewrite bindH_putH in H.
    apply exec_lift_bindH_inv in H as (t6 & t7 & o4 & -> & (o5 & H4 & ->)%exec_tryM_inv & H).
    unfold StartController in H4. repeat exec_step. simpl.
    destruct x as [[]|e|m].
    + unfold retH in H. exec_step. by eapply rec_created.
    + apply cancelAndFail_inv in H as (-> & -> & ->). eapply rec_created; simpl; eauto.
    + destruct H as [-> [= -> ->]]. eapply rec_created; simpl; eauto.
  - apply cancelAndFail_inv in H as (-> & -> & ->). by apply (rec_uncreated req s pr ctx t1 t3); auto.
  - destruct H as [-> [= -> ->]]. by apply (rec_uncreated req s pr ctx t1 t3); auto.
Qed.

Lemma Reconcile_cases req s tr o s' :
  exec (Reconcile r req s) tr (o, s') -> reconciled req s tr o s'.
Proof.
  unfold Reconcile. intros (t1 & t2 & o1 & -> & (o2 & H1 & ->)%exec_tryM_inv & H)%exec_lift_bindH_inv.
  unfold getPublishedResource in H1. repeat exec_step. destruct x as [pr|e|m].
  - destruct (toBeSynced pr) eqn:E; simpl in H; [by apply ensureSyncController_inv|].
    apply exec_bindH_inv in H as (t3 & t4 & o3 & s1 & -> & H1 & H).
    unfold cleanupController in H1. rewrite bindH_getH in H1. destruct (s !! _) as [ctx|] eqn:Ek.
    + apply exec_lift_bindH_inv in H1 as (t5 & t6 & o4 & -> & H2 & H1).
      unfold cancelContext in H2. repeat exec_step. unfold putH in H1. destruct x. repeat exec_step.
      unfold retH in H. exec_step. by apply rec_stopped.
    + unfold retH in *. repeat exec_step. apply rec_idle. by right.
  - destruct (ignoreNotFound e); unfold failH, retH in H; exec_step; by apply rec_unread.
  - destruct H as [-> [= -> ->]]. by apply rec_unread.
Qed.

Lemma check_trace pr tr o : exec (checkResourceIsBoundEverywhere r pr) tr o -> Forall neutral (requests tr).
Proof. apply (always_exec (S := control)), check_neutral. Qed.

Lemma create_trace pr tr o :
  exec (Create pr (sm_stateNamespace r) (sm_agentName r) (sm_enableServerSideApply r)) tr o ->
  Forall neutral (requests tr).
Proof. apply (always_exec (S := control)), Create_neutral. Qed.

Lemma check_inv pr tr :
  exec (checkResourceIsBoundEverywhere r pr) tr (Ok true) ->
  exists tr1 crd gvk slice answers,
    exec (RetrieveCRD (PublishedResourceSourceGK pr)) tr1 (Ok crd) /\
    PublishedResourceProjectedGVK crd pr = Ok gvk /\
    tr = tr1 ++ Ev (S := control) (CGetEndpointSlice (rp_config (sm_resourceProber r)) (rp_name (sm_resourceProber r))) (Ok slice)
           :: zip_with probe (es_Endpoints slice) answers /\
    length answers = length (es_Endpoints slice) /\ Forall (gvk_served gvk) answers.
Proof.
  unfold checkResourceIsBoundEverywhere, ProjectPublishedResourceGVK. intros H.
  apply exec_bindM_ok_inv in H as (t1 & t2 & gvk & -> & H1%exec_wrapM_ok_inv & H).
  apply exec_bindM_ok_inv in H1 as (t3 & t4 & crd & -> & H1%exec_wrapM_ok_inv & H2).
  apply exec_ret_inv in H2 as [-> H2].
  apply HasGVK_everywhere in H as (slice & answers & -> & Hlen & HF).
  exists t3, crd, gvk, slice, answers. by rewrite app_nil_r.
Qed.

(** The call that starts a controller. *)
Lemma Reconcile_created req s tr o s' ctx c :
  exec (Reconcile r req s) tr (o, s') -> CStartController ctx c ∈ requests tr ->
  exists pr tr1 tr2, tr = Ev (S := control) (CGetPublishedResource req) (Ok pr) :: tr1 ++ tr2 /\
    toBeSynced pr = true /\ s !! getPublishedResourceKey pr = None /\
    exec (checkResourceIsBoundEverywhere r pr) tr1 (Ok true) /\ s' = <[getPublishedResourceKey pr := ctx]> s.
Proof.
  intros H%Reconcile_cases Hc.
  assert (forall t : list (event control), Forall neutral (requests t) -> CStartController ctx c ∈ requests t -> False)
    as Hquiet by (intros t Ht; rewrite Forall_forall in Ht; apply Ht).
  destruct H as [x o Hx|pr Hi|pr ctx' Hs Hk|pr t o Ht Ho|pr ctx' t1 t2 t3 o H1 H2 H3 Ho|pr ctx' c' rec t1 t2 x t3 o Hs Hk H1 H2 Hx].
  - set_solver.
  - set_solver.
  - set_solver.
  - exfalso. apply elem_of_cons in Hc as [|Hc]; [done|]. by apply (Hquiet t); [eapply check_trace|].
  - exfalso. apply check_trace in H1. revert Hc. unfold requests in *. rewrite fmap_cons, fmap_app, fmap_cons, fmap_app.
    rewrite elem_of_cons, elem_of_app, elem_of_cons, elem_of_app.
    intros [|[Hc|[|[Hc|Hc]]]]; [done|exact (Hquiet _ H1 Hc)|done|exact (Hquiet _ H2 Hc)|destruct H3; set_solver].
  - assert (ctx' = ctx) as ->.
    { pose proof (check_trace _ _ _ H1) as Q1. pose proof (create_trace _ _ _ H2) as Q2. revert Hc.
      unfold requests in *. rewrite fmap_cons, fmap_app, fmap_cons, fmap_app, fmap_cons.
      rewrite elem_of_cons, elem_of_app, elem_of_cons, elem_of_app, elem_of_cons.
      intros [|[Hc|[|[Hc|[Hc|Hc]]]]]; [done|by destruct (Hquiet _ Q1 Hc)|done|by destruct (Hquiet _ Q2 Hc)|by simplify_eq/=|].
      destruct (is_ok x), Hx as [Hx _]; [|destruct Hx as [Hx|Hx]]; subst t3; set_solver. }
    by eexists pr, t1, _.
Qed.

(** C24: a controller is started only for a PublishedResource that was just
    read, is ready, enabled and not in deletion, and has no controller under
    its key; before that, every endpoint of the APIExport was asked and
    lists the kind under which the resource is published.  The context of
    the controller is then registered under the key. *)
Theorem Reconcile_starts req s tr o s' ctx c :
  exec (Reconcile r req s) tr (o, s') -> CStartController ctx c ∈ requests tr ->
  exists pr tr0 crd gvk slice answers tr1,
    tr = Ev (S := control) (CGetPublishedResource req) (Ok pr) :: tr0 ++
         Ev (S := control) (CGetEndpointSlice (rp_config (sm_resourceProber r)) (rp_name (sm_resourceProber r))) (Ok slice) ::
         zip_with probe (es_Endpoints slice) answers ++ tr1 /\
    toBeSynced pr = true /\ s !! getPublishedResourceKey pr = None /\
    exec (RetrieveCRD (PublishedResourceSourceGK pr)) tr0 (Ok crd) /\
    PublishedResourceProjectedGVK crd pr = Ok gvk /\
    length answers = length (es_Endpoints slice) /\ Forall (gvk_served gvk) answers /\
    s' = <[getPublishedResourceKey pr := ctx]> s.
Proof.
  intros H Hc. destruct (Reconcile_created _ _ _ _ _ _ _ H Hc) as (pr & t1 & t2 & -> & Hs & Hk & H1 & ->).
  destruct (check_inv _ _ H1) as (t0 & crd & gvk & slice & answers & Hcrd & Hgvk & -> & Hlen & HF).
  exists pr, t0, crd, gvk, slice, answers, t2. split; [by rewrite <- app_assoc|]. done.
Qed.

(** ** A history of calls *)

Inductive history : list (event control) -> syncCancels -> Prop :=
| history_start : history [] ∅
| history_call tr s req tr' o s' :
    history tr s -> exec (Reconcile r req s) tr' (o, s') -> history (tr ++ tr') s'.

(** The contexts that were made, those of controllers that were started,
    those that were cancelled, and the PublishedResources that were read. *)
Definition made (e : event control) : option nat :=
  match e with Ev CWithCancel ctx => Some ctx | _ => None end.
Definition started (e : event control) : option nat :=
  match e with Ev (CStartController ctx _) (Ok _) => Some ctx | _ => None end.
Definition cancelled (e : event control) : option nat :=
  match e with Ev (CCancel ctx) _ => Some ctx | _ => None end.
Definition seen (e : event control) : option PublishedResource :=
  match e with Ev (CGetPublishedResource _) (Ok pr) => Some pr | _ => None end.

(** The contexts of controllers that were started and are still running. *)
Definition running (tr : list (event control)) : list nat :=
  List.filter (fun ctx => bool_decide (ctx ∉ omap cancelled tr)) (omap started tr).

(** The resource version stands for the content of an object. *)
Definition versions_identify (prs : list PublishedResource) : Prop :=
  (forall p, p ∈ prs -> char_in "-"%char (om_resourceVersion (pr_Meta p)) = false) /\
  (forall p p', p ∈ prs -> p' ∈ prs -> om_uid (pr_Meta p) = om_uid (pr_Meta p') ->
     om_resourceVersion (pr_Meta p) = om_resourceVersion (pr_Meta p') -> p = p').

Lemma key_identifies prs p p' :
  versions_identify prs -> p ∈ prs -> p' ∈ prs ->
  getPublishedResourceKey p = getPublishedResourceKey p' -> p = p'.
Proof. intros [Hd Hv] Hp Hp' [Hu Hr]%dash_split; auto. Qed.

Lemma neutral_views (tr : list (event control)) :
  Forall neutral (requests tr) ->
  omap made tr = [] /\ omap started tr = [] /\ omap cancelled tr = [] /\ omap seen tr = [].
Proof.
  induction tr as [|[q x] tr IH]; intros H; [done|]. inversion H as [|?? Hq Ht]; subst.
  destruct (IH Ht) as (E1 & E2 & E3 & E4). rewrite !omap_cons, E1, E2, E3, E4. by destruct q.
Qed.

(** The map holds contexts of PublishedResources that were to be synchronised. *)
Definition remembers (tr : list (event control)) (s : syncCancels) : Prop :=
  forall key ctx, s !! key = Some ctx ->
    exists pr, pr ∈ omap seen tr /\ toBeSynced pr = true /\ key = getPublishedResourceKey pr.

(** Contexts are made before they are used, and no controller that was
    started is cancelled. *)
Definition history_inv (tr : list (event control)) (s : syncCancels) : Prop :=
  remembers tr s /\
  (forall ctx, ctx ∈ omap started tr \/ ctx ∈ omap cancelled tr -> ctx ∈ omap made tr) /\
  (forall ctx, ctx ∈ omap started tr -> ctx ∉ omap cancelled tr).

Lemma remembers_app tr tr' s : remembers tr s -> remembers (tr ++ tr') s.
Proof.
  intros Ha key ctx Hk. destruct (Ha key ctx Hk) as (pr & ? & ?). exists pr. rewrite omap_app. set_solver.
Qed.

Lemma remembers_insert tr s pr ctx :
  remembers tr s -> pr ∈ omap seen tr -> toBeSynced pr = true ->
  remembers tr (<[getPublishedResourceKey pr := ctx]> s).
Proof. intros Ha Hp Hs key ctx' [[<- _]|[_ Hk]]%lookup_insert_Some; eauto. Qed.

(** A call that makes no context. *)
Lemma history_inv_quiet tr s tr' :
  omap started tr' = [] -> omap cancelled tr' = [] -> history_inv tr s -> history_inv (tr ++ tr') s.
Proof.
  intros E2 E3 (Ha & Hb & Hc). split; [by apply remembers_app|]. rewrite !omap_app, E2, E3, !app_nil_r.
  split; [|done]. intros ctx Hx. apply elem_of_app. left. auto.
Qed.

(** A call that makes a context, and starts its controller or cancels it. *)
Lemma history_inv_fresh tr s tr' s' ctx (ok : bool) :
  omap made tr' = [ctx] -> ctx ∉ omap made tr ->
  (if ok then omap cancelled tr' = [] /\ omap started tr' = [ctx]
   else omap started tr' = [] /\ (omap cancelled tr' = [] \/ omap cancelled tr' = [ctx])) ->
  remembers (tr ++ tr') s' -> history_inv tr s -> history_inv (tr ++ tr') s'.
Proof.
  intros E1 Hf E Ha' (_ & Hb & Hc). split; [done|]. rewrite !omap_app, E1.
  assert (forall x, x ∈ omap started tr \/ x ∈ omap cancelled tr -> x <> ctx) as Hd by (intros x Hx ->; auto).
  destruct ok; [destruct E as [-> ->]|destruct E as [-> [-> | ->]]]; rewrite ?app_nil_r; set_solver.
Qed.

Lemma fresh_made (l l' : list nat) ctx : NoDup (l ++ ctx :: l') -> ctx ∉ l.
Proof. intros (_ & Hd & _)%NoDup_app Hin. apply (Hd ctx Hin). by left. Qed.

Lemma history_step tr s req tr' o s' :
  history_inv tr s -> exec (Reconcile r req s) tr' (o, s') ->
  NoDup (omap made (tr ++ tr')) -> versions_identify (omap seen (tr ++ tr')) -> history_inv (tr ++ tr') s'.
Proof.
  intros HI H%Reconcile_cases Hnd Hv.
  destruct H as [x o Hx|pr Hi|pr ctx Hs Hk|pr t o Ht Ho|pr ctx t1 t2 t3 o H1 H2 H3 Ho|pr ctx c rec t1 t2 x t3 o Hs Hk H1 H2 Hx].
  - by apply history_inv_quiet.
  - by apply history_inv_quiet.
  - exfalso. destruct HI as [Ha _]. destruct (Ha _ _ Hk) as (pr' & Hin & Hs' & Hkey).
    assert (pr = pr') as ->; [|congruence].
    apply (key_identifies _ _ _ Hv); [..|done]; rewrite omap_app; simpl; set_solver.
  - apply check_trace, neutral_views in Ht as (_ & E2 & E3 & _).
    apply history_inv_quiet; [by rewrite omap_cons, E2|by rewrite omap_cons, E3|done].
  - apply check_trace, neutral_views in H1 as (E1 & E2 & E3 & _).
    apply neutral_views in H2 as (F1 & F2 & F3 & _).
    assert (omap made t3 = [] /\ omap started t3 = [] /\ (omap cancelled t3 = [] \/ omap cancelled t3 = [ctx]))
      as (G1 & G2 & G3) by (destruct H3 as [-> | ->]; auto).
    apply (history_inv_fresh tr s _ s ctx false); [..|by apply remembers_app; destruct HI|done].
    + by rewrite omap_cons, omap_app, omap_cons, omap_app, E1, F1, G1.
    + revert Hnd. rewrite omap_app, omap_cons, omap_app, omap_cons, E1. apply fresh_made.
    + rewrite !omap_cons, !omap_app, !omap_cons, !omap_app, E2, E3, F2, F3, G2. auto.
  - pose proof (check_trace _ _ _ H1) as (E1 & E2 & E3 & _)%neutral_views.
    pose proof (create_trace _ _ _ H2) as (F1 & F2 & F3 & _)%neutral_views.
    assert (omap made t3 = [] /\ omap started t3 = [] /\
      if is_ok x then omap cancelled t3 = [] else omap cancelled t3 = [] \/ omap cancelled t3 = [ctx])
      as (G1 & G2 & G3).
    { destruct (is_ok x), Hx as [Hx _]; [|destruct Hx as [Hx|Hx]]; subst t3; auto. }
    apply (history_inv_fresh tr s _ _ ctx (is_ok x)); [..|done].
    + by rewrite omap_cons, omap_app, omap_cons, omap_app, omap_cons, E1, F1, G1.
    + revert Hnd. rewrite omap_app, omap_cons, omap_app, omap_cons, E1. apply fresh_made.
    + rewrite !omap_cons, !omap_app, !omap_cons, !omap_app, !omap_cons, E2, E3, F2, F3, G2.
      destruct x; simpl in *; rewrite ?G3; auto.
    + apply remembers_insert; [by apply remembers_app; destruct HI| |done]. rewrite omap_app, omap_cons. set_solver.
Qed.

Lemma history_invariant tr s :
  history tr s -> NoDup (omap made tr) -> versions_identify (omap seen tr) -> history_inv tr s.
Proof.
  induction 1 as [|tr s req tr' o s' Hh IH He]; intros Hnd Hv.
  - split; [done|]. split; [|by intros ctx Hx; apply elem_of_nil in Hx]. intros ctx [Hx|Hx]; by apply elem_of_nil in Hx.
  - apply (history_step tr s req tr' o s'); [apply IH|done..].
    + rewrite omap_app in Hnd. by apply NoDup_app in Hnd as [? _].
    + rewrite omap_app in Hv. destruct Hv as [Hd Hv]. split; intros; [apply Hd|apply Hv]; set_solver.
Qed.

(** C26: a controller that has been started is never stopped by the manager,
    because the key of a PublishedResource changes with every change of the
    object: when synchronisation is switched off, when the object is being
    deleted or when its configuration changes, the controller to stop is
    looked up under a key that was never used.  So every controller that was
    ever started is still running, next to those for newer versions. *)
Theorem controllers_never_stopped tr s :
  history tr s -> NoDup (omap made tr) -> versions_identify (omap seen tr) ->
  running tr = omap started tr.
Proof.
  intros Hh Hnd Hv. destruct (history_invariant tr s Hh Hnd Hv) as (_ & _ & Hc).
  unfold running. revert Hc. generalize (omap cancelled tr) as l. intros l Hc.
  induction (omap started tr) as [|ctx cs IH]; [done|]. simpl.
  rewrite bool_decide_true by (apply Hc; by left). f_equal. apply IH. intros x Hx. apply Hc. by right.
Qed.

(** The key stays registered when a controller could not be started: from
    then on the PublishedResource is only read. *)
Lemma failed_start_sticks req s tr o s' ctx c pr tr' o' s'' :
  exec (Reconcile r req s) tr (o, s') -> CStartController ctx c ∈ requests tr ->
  exec (ensureSyncController r pr s') tr' (o', s'') -> Some pr = (seen <$> head tr) ≫= id ->
  tr' = [] /\ o' = Ok false /\ s'' = s'.
Proof.
  intros H Hc He Hp.
  destruct (Reconcile_created _ _ _ _ _ _ _ H Hc) as (pr' & t1 & t2 & -> & _ & _ & _ & ->).
  simpl in Hp. injection Hp as ->.
  unfold ensureSyncController in He. rewrite bindH_getH in He.
  destruct (decide _) as [_|Hn]; [|by destruct Hn; eexists; apply lookup_insert_eq].
  unfold retH in He. by exec_step.
Qed.

End Facts.

(** ** Witnesses *)

Module SampleManager.

#[export] Existing Instance SampleRelated.engine.
#[export] Existing Instance SampleRelated.text.
#[export] Existing Instance TreeJson.lib.
#[export] Existing Instance SampleDiscovery.lib.
#[export] Existing Instance SampleDiscovery.range.
#[export] Existing Instance SampleCRD.versions.

(** A PublishedResource, by resource version; [enabled] is a setting. *)
Definition pubRes (version : string) (enabled : bool) : PublishedResource :=
  MkPubRes (Meta "publish" "" None None None None None 1 [] version [] "uid-7" "" ∅)
    (MkPubResSpec (MkSource "apps" "v1beta1" [] "Deployment") None None false None None []
       (Some (MkSynchronization enabled)))
    (MkPubResStatus "v1.deployments.apps").

(** The object is edited before every call; its third version is disabled. *)
Definition cluster : server (S := control) nat := fun q w =>
  match q return cresp q * nat with
  | CGetPublishedResource _ =>
      (Ok match w with 0 => pubRes "10" true | 1 => pubRes "20" true | _ => pubRes "30" false end, S w)
  | CWithCancel => (w, w)
  | q => ((SampleDiscovery.cluster q tt).1, w)
  end.

Definition manager : Reconciler := MkSyncManager SampleDiscovery.prober Everything "kcp-system" "agent" false.
Definition request : NamespacedName := NN "" "publish".

Definition call (s : syncCancels) (w : nat) := run cluster (Reconcile manager request s) w.
Definition first := call ∅ 0.
Definition second := call first.1.2.2 first.2.
Definition third := call second.1.2.2 second.2.
Definition trace : list (event control) := (([] ++ first.1.1) ++ second.1.1) ++ third.1.1.

Lemma calls : history manager trace third.1.2.2.
Proof.
  eapply history_call; [eapply history_call; [eapply history_call; [constructor|]|]|].
  - rewrite <- surjective_pairing. apply (run_execution cluster).
  - rewrite <- surjective_pairing. apply (run_execution cluster).
  - rewrite <- surjective_pairing. apply (run_execution cluster).
Qed.

End SampleManager.
Import SampleManager.

Lemma Reconcile_starts_witness :
  exists pr, toBeSynced pr = true /\ SampleManager.first.1.2.2 = <[getPublishedResourceKey pr := 1]> ∅.
Proof.
  destruct (Reconcile_starts SampleManager.manager SampleManager.request ∅ SampleManager.first.1.1
    SampleManager.first.1.2.1 SampleManager.first.1.2.2 1 0)
    as (pr & tr0 & crd & gvk & slice & answers & tr1 & _ & Hs & _ & _ & _ & _ & _ & H).
  - rewrite <- surjective_pairing. exact (run_execution SampleManager.cluster _ 0).
  - apply (list_elem_of_lookup_2 _ 15). vm_cast_no_check (eq_refl (Some (CStartController 1 0))).
  - exists pr. split; [exact Hs|exact H].
Defined.

Lemma controllers_never_stopped_witness : running SampleManager.trace = [1; 2].
Proof.
  assert (omap started SampleManager.trace = [1; 2]) as <- by (vm_cast_no_check (eq_refl [1; 2])).
  apply (controllers_never_stopped SampleManager.manager SampleManager.trace SampleManager.third.1.2.2
    SampleManager.calls).
  - assert (omap made SampleManager.trace = [1; 2]) as -> by (vm_cast_no_check (eq_refl [1; 2])).
    repeat constructor; set_solver.
  - assert (omap seen SampleManager.trace =
      [SampleManager.pubRes "10" true; SampleManager.pubRes "20" true; SampleManager.pubRes "30" false]) as ->
      by (vm_cast_no_check (eq_refl
        [SampleManager.pubRes "10" true; SampleManager.pubRes "20" true; SampleManager.pubRes "30" false])).
    split.
    + intros p. rewrite !elem_of_cons, elem_of_nil. intros [->|[->|[->|[]]]]; reflexivity.
    + intros p p'. rewrite !elem_of_cons, !elem_of_nil.
      intros [->|[->|[->|[]]]] [->|[->|[->|[]]]] _ Hv; (reflexivity || discriminate Hv).
Defined.
