(* ===== verification/SyncManagerLive.v ===== *)
(** The sync manager does its work: against clusters that answer, a call of
    [Reconcile] for a PublishedResource that is ready starts its controller,
    if kcp serves the resource everywhere, and asks to be called again if
    not.

    [ManagerPlane] states what the clusters and the manager of controllers do
    with the requests. *)

From S2P Require Import Prelude Effects Kube ApiTypes Samples Projection Templating Related RelatedProofs Control Discovery.
From S2P Require Import SyncController SyncManager Triples.

Section Live.
Context {J : JsonLib} {L : DiscoveryLib} {T : TemplateEngine} {X : TextLib} {K : KubeVersions} {R : SetRange}.
Context (r : SyncManager.Reconciler).

(** The state: the PublishedResources, the endpoints of the APIExport, what
    each of them serves, and the controllers that are running with their
    contexts. *)
Context {W : Type} (h : server (S := control) W).
Context (pubs : W -> gmap NamespacedName PublishedResource).
Context (slice : W -> APIExportEndpointSlice) (resources : W -> string -> list APIResourceList).
Context (controllers : W -> list (nat * nat)).

Record same (w w' : W) : Prop := {
  same_pubs : pubs w = pubs w';
  same_slice : slice w = slice w';
  same_resources : resources w = resources w';
  same_controllers : controllers w = controllers w'
}.

#[export] Instance same_equivalence : Equivalence same.
Proof.
  split.
  - by split.
  - intros w w' []. by split.
  - intros w w' w'' [] []. split; congruence.
Qed.

Class ManagerPlane : Prop := {
  mp_quiet q w : neutral q -> same (h q w).2 w;
  mp_discovery q w w' : discovery q = true -> (h q w).1 = (h q w').1;
  mp_get_pub w key p : pubs w !! key = Some p -> exists w', h (CGetPublishedResource key) w = (Ok p, w') /\ same w' w;
  mp_slice w : (h (CGetEndpointSlice (rp_config (sm_resourceProber r)) (rp_name (sm_resourceProber r))) w).1 = Ok (slice w);
  mp_client host : exists c, NewDiscoveryClientForConfig host = inl c;
  mp_resources w ep : (h (CServerGroupsAndResources (Some (ep +:+ "/clusters/*"))) w).1 = Ok (resources w ep);
  mp_wellformed w ep l : l ∈ resources w ep -> exists gv, parseGV (arl_GroupVersion l) = Ok gv;
  mp_kind w c gvr : exists gvk, (h (CKindFor c gvr) w).1 = Ok gvk;
  mp_new w name : exists c, (h (CNewUnmanaged name) w).1 = Ok c;
  mp_multi_watch w c gvk f : (h (CMultiClusterWatch c gvk f) w).1 = Ok tt;
  mp_watch w c gvk f : (h (CWatch c gvk f) w).1 = Ok tt;
  mp_context w : exists ctx w', h CWithCancel w = (ctx, w') /\ (ctx ∉ (controllers w).*1) /\ same w' w;
  mp_start w ctx c : exists w', h (CStartController ctx c) w = (Ok tt, w') /\
    pubs w' = pubs w /\ slice w' = slice w /\ resources w' = resources w /\ controllers w' = (ctx, c) :: controllers w
}.

Context {MP : ManagerPlane}.

(** ** Steps *)

(** A request that changes nothing. *)
Lemma succeeds_ask q (A : Type) (k : resp control q -> M control A) a w (Q : list (event control) -> A -> W -> Prop) :
  neutral q -> (h q w).1 = a ->
  (forall w1, same w1 w -> succeeds h (k a) w1 (fun tr b w' => Q (Ev (S := control) q a :: tr) b w')) ->
  succeeds h (Call (S := control) q k) w Q.
Proof.
  intros Hq Ha HQ. pose proof (mp_quiet q w Hq) as Hs. destruct (h q w) as [x w1] eqn:E. simpl in Ha, Hs. subst a.
  destruct (HQ w1 Hs) as (tr & b & w' & Hr & H). exists (Ev (S := control) q x :: tr), b, w'. split; [|done].
  simpl. simpl in Hr. by rewrite E, Hr.
Qed.

(** A program ends with a result and without changes. *)
Definition answers {A} (m : M control A) (w : W) (a : A) : Prop :=
  succeeds h m w (fun _ b w' => b = a /\ same w' w).

Lemma answers_ret {A} (a : A) w : answers (retM a) w a.
Proof. apply succeeds_ret. done. Qed.

Lemma answers_lift {A} (o : outcome A) a w : o = Ok a -> answers (liftO o) w a.
Proof. intros ->. by apply (succeeds_lift h (Ok a) a). Qed.

Lemma answers_ask {A} q (k : resp control q -> M control A) x (a : A) w :
  neutral q -> (h q w).1 = x -> k x = Ret (Ok a) -> answers (Call (S := control) q k) w a.
Proof.
  intros Hq Hx Hk. eapply succeeds_ask; [done..|]. intros w1 Hs. rewrite Hk.
  by apply (succeeds_ret h a).
Qed.

Lemma answers_bind {A B} (m : M control A) (k : A -> M control B) a b w :
  answers m w a -> (forall w1, same w1 w -> answers (k a) w1 b) -> answers (bindM m k) w b.
Proof.
  intros Hm Hk. apply succeeds_bind. apply (succeeds_mono h _ _ _ _ Hm). intros tr ? w1 [-> Hs].
  apply (succeeds_mono h _ _ _ _ (Hk w1 Hs)). intros tr' ? w2 [-> Hs']. split; [done|]. by transitivity w1.
Qed.

Lemma answers_wrap {A} msg (m : M control A) w a : answers m w a -> answers (wrapM msg m) w a.
Proof. apply succeeds_wrap. Qed.

(** ** Discovery *)

Definition discovered (w : W) (p : PublishedResource) : outcome CustomResourceDefinition :=
  (run h (RetrieveCRD (PublishedResourceSourceGK p)) w).1.2.

Lemma RetrieveCRD_discovers gk : always (S := control) (fun q => discovery q = true) (RetrieveCRD gk).
Proof. unfold RetrieveCRD, getPreferredVersion. repeat always_step; done. Qed.

Lemma RetrieveCRD_answers p crd w w' :
  discovered w' p = Ok crd -> answers (RetrieveCRD (PublishedResourceSourceGK p)) w crd.
Proof.
  unfold discovered. rewrite (run_same_answers h _ _ w' w mp_discovery (RetrieveCRD_discovers _)).
  pose proof (run_preserves h neutral same _ w mp_quiet (RetrieveCRD_neutral (PublishedResourceSourceGK p))) as Hs.
  destruct (run h _ w) as [[tr o] w1] eqn:E. simpl in *. intros ->. by exists tr, crd, w1.
Qed.

(** ** Probing *)

Definition available (w : W) (gvk : GroupVersionKind) : Prop :=
  Forall (fun ep => gvk_served gvk (resources w ep)) (es_Endpoints (slice w)).

Lemma matchLists_total m (lists : list APIResourceList) :
  (forall l, l ∈ lists -> exists gv, parseGV (arl_GroupVersion l) = Ok gv) -> exists b, matchLists m lists = Ok b.
Proof.
  induction lists as [|l lists IH]; intros Hw; simpl; [eauto|].
  destruct (Hw l) as [[g v] ->]; [set_solver|]. simpl. case_match; [eauto|]. apply IH. set_solver.
Qed.

Lemma hasInAll_answers gvk endpoints w :
  exists b, answers (hasInAll (fun apiGroup version _ kind =>
      bool_decide (apiGroup = gvk_group gvk /\ version = gvk_version gvk /\ kind = gvk_kind gvk)) endpoints) w b /\
    (b = true <-> Forall (fun ep => gvk_served gvk (resources w ep)) endpoints).
Proof.
  revert w. induction endpoints as [|ep eps IH]; intros w; simpl.
  { exists true. split; [apply answers_ret|]. done. }
  destruct (matchLists_total (fun apiGroup version _ kind =>
    bool_decide (apiGroup = gvk_group gvk /\ version = gvk_version gvk /\ kind = gvk_kind gvk)) _ (mp_wellformed w ep))
    as [b Hb].
  assert (forall w1, same w1 w -> answers (hasAPIThingInEndpoint ep (fun apiGroup version _ kind =>
    bool_decide (apiGroup = gvk_group gvk /\ version = gvk_version gvk /\ kind = gvk_kind gvk))) w1 b) as Hep.
  { intros w1 Hs. unfold hasAPIThingInEndpoint, callLib, ServerGroupsAndResources.
    destruct (mp_client (Some (ep +:+ "/clusters/*"))) as [c ->].
    eapply answers_bind; [by apply answers_wrap, answers_lift|]. intros w2 Hs2.
    eapply answers_bind; [apply answers_wrap; eapply answers_ask; [done|apply mp_resources|done]|]. intros w3 _.
    apply answers_lift. by rewrite (same_resources _ _ Hs2), (same_resources _ _ Hs). }
  pose proof (matchLists_gvk _ _ _ Hb) as Hserved. destruct b.
  - destruct (IH w) as (b & Hb2 & Hiff). exists b. split.
    + eapply answers_bind; [apply Hep; reflexivity|]. intros w1 Hs. simpl.
      destruct (IH w1) as (b1 & Hb1 & Hiff1). rewrite (same_resources _ _ Hs) in Hiff1.
      assert (b1 = b) as ->; [|done]. destruct b1, b; naive_solver.
    + rewrite Forall_cons. tauto.
  - exists false. split.
    + eapply answers_bind; [apply Hep; reflexivity|]. intros w1 Hs. apply answers_ret.
    + rewrite Forall_cons. split; [discriminate|tauto].
Qed.

Lemma check_answers p crd gvk w :
  discovered w p = Ok crd -> PublishedResourceProjectedGVK crd p = Ok gvk ->
  exists b, answers (checkResourceIsBoundEverywhere r p) w b /\ (b = true <-> available w gvk).
Proof.
  intros Hd Hg. unfold available. destruct (hasInAll_answers gvk (es_Endpoints (slice w)) w) as (b & Hb & Hiff).
  exists b. split; [|done]. unfold checkResourceIsBoundEverywhere, ProjectPublishedResourceGVK.
  eapply answers_bind; [apply answers_wrap; eapply answers_bind; [by apply answers_wrap, (RetrieveCRD_answers _ _ w w)|]|].
  { intros w1 _. by apply answers_lift. }
  intros w1 Hs1. unfold HasGVK, hasAPIThing, getEndpointSlice.
  eapply answers_bind; [apply answers_wrap; eapply answers_ask; [done|apply mp_slice|done]|]. intros w2 Hs2.
  rewrite (same_slice _ _ Hs1).
  destruct (hasInAll_answers gvk (es_Endpoints (slice w)) w2) as (b2 & Hb2 & Hiff2).
  assert (same w2 w) as Hs by (by transitivity w1). rewrite (same_resources _ _ Hs) in Hiff2.
  assert (b2 = b) as ->; [|done]. destruct b2, b; naive_solver.
Qed.

(** ** Creating a controller *)

Lemma answers_bind_ex {A B} (m : M control A) (k : A -> M control B) a w :
  answers m w a -> (forall w1, same w1 w -> exists b, answers (k a) w1 b) -> exists b, answers (bindM m k) w b.
Proof.
  intros (tr & ? & w1 & Hr & -> & Hs) Hk. destruct (Hk w1 Hs) as (b & tr' & ? & w2 & Hr' & -> & Hs').
  exists b. apply succeeds_bind. exists tr, a, w1. split; [done|]. exists tr', b, w2. split_and!; [done..|]. by transitivity w1.
Qed.

(** The configured watch of a related resource makes sense. *)
Definition watchable (gs gr : GroupVersionKind) (rr : RelatedResourceSpec) : Prop :=
  match rr_Watch rr with
  | None => True
  | Some watch =>
      exists f, (if isKcpOrigin rr then buildKcpRelatedHandler watch gr else buildServiceRelatedHandler watch gs) = Ok f
  end.

Lemma setupRelatedWatch_answers c gs gr seen rr w :
  watchable gs gr rr -> exists b, answers (setupRelatedWatch c gs gr seen rr) w b.
Proof.
  unfold watchable, setupRelatedWatch, controlKindFor, MultiClusterWatch, Watch.
  destruct (rr_Watch rr) as [watch|]; [|intros _; eexists; apply answers_ret].
  intros [f Hf]. destruct seen as [ks ss].
  destruct (mp_kind w (if isKcpOrigin rr then KcpCluster else ServiceCluster) (RelatedResourceGVR rr)) as [gvk Hk].
  eapply answers_bind_ex; [apply answers_wrap; eapply answers_ask; [done|exact Hk|done]|]. intros w1 _.
  destruct (isKcpOrigin rr); (case_decide; [eexists; apply answers_ret|]);
    (eapply answers_bind_ex; [by apply answers_lift|]); intros w2 _;
    (eapply answers_bind_ex; [apply answers_wrap; eapply answers_ask; [done|apply mp_multi_watch || apply mp_watch|done]|]);
    intros w3 _; eexists; apply answers_ret.
Qed.

Lemma foldM_answers {A B} (f : B -> A -> M control B) l b w :
  (forall a, a ∈ l -> forall b w, exists b', answers (f b a) w b') -> exists b', answers (foldM f b l) w b'.
Proof.
  revert b w. induction l as [|a l IH]; intros b w Hf; simpl; [eexists; apply answers_ret|].
  destruct (Hf a ltac:(set_solver) b w) as [b1 Hb1]. eapply answers_bind_ex; [exact Hb1|].
  intros w1 _. apply IH. set_solver.
Qed.

(** Everything that [Create] asks for has an answer; the resource is served
    by kcp as [gr]. *)
Definition creatable (w : W) (p : PublishedResource) (gr : GroupVersionKind) : Prop :=
  exists crd gs, discovered w p = Ok crd /\ PublishedResourceSourceGVK crd p = Ok gs /\
    PublishedResourceProjectedGVK crd p = Ok gr /\ Forall (watchable gs gr) (ps_Related (pr_Spec p)).

Lemma creatable_static w w' p gr : creatable w p gr -> creatable w' p gr.
Proof.
  intros (crd & gs & Hd & H). exists crd, gs. split; [|done]. rewrite <- Hd. unfold discovered.
  by rewrite (run_same_answers h _ _ w w' mp_discovery (RetrieveCRD_discovers _)).
Qed.

Lemma Create_answers p gr w ns agent ssa :
  creatable w p gr -> exists c, answers (Create p ns agent ssa) w c.
Proof.
  intros (crd & gs & Hd & Hs & Hp & Hw). unfold Create, NewUnmanaged, MultiClusterWatch, Watch, setupRelatedResourceWatches.
  eapply answers_bind_ex; [by apply answers_wrap, (RetrieveCRD_answers _ _ w w)|]. intros w1 _.
  eapply answers_bind_ex; [by apply answers_lift|]. intros w2 _.
  eapply answers_bind_ex; [by apply answers_lift|]. intros w3 _. cbv zeta.
  destruct (mp_new w3 ControllerName) as [c Hc].
  eapply answers_bind_ex; [apply answers_wrap; eapply answers_ask; [done|exact Hc|done]|]. intros w4 _.
  eapply answers_bind_ex; [apply answers_wrap; eapply answers_ask; [done|apply mp_multi_watch|done]|]. intros w5 _.
  eapply answers_bind_ex; [apply answers_wrap; eapply answers_ask; [done|apply mp_watch|done]|]. intros w6 _.
  destruct (foldM_answers (setupRelatedWatch c gs gr) (ps_Related (pr_Spec p)) ([], []) w6) as [b Hb].
  { intros rr Hrr b w7. apply setupRelatedWatch_answers. by apply (proj1 (Forall_forall _ _) Hw). }
  eapply answers_bind_ex; [eapply answers_bind; [exact Hb|]; intros; apply answers_ret|].
  intros w7 _. eexists. apply answers_ret.
Qed.

(** ** Handlers *)

Lemma run_bind_lift {A B} (m : M control A) (k : A -> handler B) s w tr a w1 tr2 res w2 :
  run h m w = (tr, Ok a, w1) -> run h (k a s) w1 = (tr2, res, w2) ->
  run h (bindH (liftH m) k s) w = (tr ++ tr2, res, w2).
Proof.
  intros Hm Hk. unfold bindH, liftH. rewrite run_pbind, run_pbind, Hm. simpl. by rewrite Hk, app_nil_r.
Qed.

Lemma Reconcile_reads key s p w :
  pubs w !! key = Some p -> toBeSynced p = true ->
  exists w1, same w1 w /\ forall tr res w',
    run h (ensureSyncController r p s) w1 = (tr, res, w') -> exists tr', run h (Reconcile r key s) w = (tr', res, w').
Proof.
  intros Hp Ht. destruct (mp_get_pub w key p Hp) as (w1 & Hg & Hs). exists w1. split; [done|]. intros tr res w' Hk.
  assert (run h (tryM (getPublishedResource key)) w
    = ([Ev (S := control) (CGetPublishedResource key) (Ok p)], Ok (inl p), w1)) as Hr.
  { unfold tryM, getPublishedResource. simpl. by rewrite Hg. }
  eexists. unfold Reconcile. eapply run_bind_lift; [exact Hr|]. simpl. by rewrite Ht.
Qed.

Lemma run_try {A} (m : M control A) w tr a w' : run h m w = (tr, Ok a, w') -> run h (tryM m) w = (tr, Ok (inl a), w').
Proof. intros H. unfold tryM. rewrite run_pbind, H. simpl. by rewrite app_nil_r. Qed.

Lemma ensure_waits p gr s w :
  creatable w p gr -> ~ available w gr -> s !! getPublishedResourceKey p = None ->
  exists tr w', run h (ensureSyncController r p s) w = (tr, (Ok true, s), w') /\ same w' w.
Proof.
  intros (crd & gs & Hd & _ & Hp & _) Ha Hk. destruct (check_answers p crd gr w Hd Hp) as (b & Hb & Hiff).
  destruct b; [tauto|]. apply (succeeds_wrap h "failed to probe for existence of resource in virtual workspace") in Hb
    as (tr & ? & w1 & Hr & -> & Hs).
  unfold ensureSyncController. rewrite bindH_getH, decide_False by (rewrite Hk; apply is_Some_None).
  eexists _, _. split; [|exact Hs]. eapply run_bind_lift; [exact Hr|]. done.
Qed.

Lemma ensure_starts p gr s w :
  creatable w p gr -> available w gr -> s !! getPublishedResourceKey p = None ->
  exists tr w' ctx c, run h (ensureSyncController r p s) w = (tr, (Ok false, <[getPublishedResourceKey p := ctx]> s), w') /\
    pubs w' = pubs w /\ controllers w' = (ctx, c) :: controllers w /\ (ctx ∉ (controllers w).*1).
Proof.
  intros Hcr Ha Hk. pose proof Hcr as (crd & gs & Hd & _ & Hp & _).
  destruct (check_answers p crd gr w Hd Hp) as (b & Hb & Hiff). assert (b = true) as -> by tauto.
  apply (succeeds_wrap h "failed to probe for existence of resource in virtual workspace") in Hb
    as (tr1 & ? & w1 & Hr1 & -> & Hs1).
  destruct (mp_context w1) as (ctx & w2 & Hr2 & Hf & Hs2).
  destruct (Create_answers p gr w2 (sm_stateNamespace r) (sm_agentName r) (sm_enableServerSideApply r)
    (creatable_static w w2 p gr Hcr)) as ([c rec] & tr3 & ? & w3 & Hr3 & -> & Hs3).
  destruct (mp_start w3 ctx c) as (w4 & Hr4 & Hp4 & _ & _ & Hc4).
  assert (same w3 w) as Hs by (transitivity w2; [done|by transitivity w1]).
  assert (run h WithCancelCause w1 = ([Ev (S := control) CWithCancel ctx], Ok ctx, w2)) as Hx
    by (unfold WithCancelCause; simpl; by rewrite Hr2).
  assert (run h (StartController ctx c) w3 = ([Ev (S := control) (CStartController ctx c) (Ok tt)], Ok tt, w4)) as Hy
    by (unfold StartController; simpl; by rewrite Hr4).
  eexists _, w4, ctx, c. split.
  - unfold ensureSyncController. rewrite bindH_getH, decide_False by (rewrite Hk; apply is_Some_None).
    eapply run_bind_lift; [exact Hr1|]. cbn [negb]. eapply run_bind_lift; [exact Hx|].
    eapply run_bind_lift; [apply run_try, Hr3|]. cbv iota. rewrite bindH_putH.
    eapply run_bind_lift; [apply run_try, Hy|]. done.
  - rewrite Hp4, Hc4, (same_pubs _ _ Hs), (same_controllers _ _ Hs).
    by rewrite (same_controllers _ _ Hs1) in Hf.
Qed.

Lemma ensure_known p s w :
  is_Some (s !! getPublishedResourceKey p) -> run h (ensureSyncController r p s) w = ([], (Ok false, s), w).
Proof. intros Hk. unfold ensureSyncController. by rewrite bindH_getH, decide_True. Qed.

(** C25: the sync manager starts what is ready.  Take a PublishedResource that
    is published, enabled and not in deletion, whose CRD is found, and that
    has no controller yet.  If every endpoint of the APIExport serves its
    kind, one call of [Reconcile] starts exactly one controller for it, under
    a context of its own that is registered under its key, and further calls
    change nothing.  If not, the call changes nothing and asks to be called
    again. *)
Theorem ready_gets_started key p gr s w :
  pubs w !! key = Some p -> toBeSynced p = true -> creatable w p gr -> s !! getPublishedResourceKey p = None ->
  (available w gr ->
   exists tr ctx c w', run h (Reconcile r key s) w = (tr, (Ok false, <[getPublishedResourceKey p := ctx]> s), w') /\
     pubs w' = pubs w /\ controllers w' = (ctx, c) :: controllers w /\ (ctx ∉ (controllers w).*1) /\
     exists tr' w'', run h (Reconcile r key (<[getPublishedResourceKey p := ctx]> s)) w'
                     = (tr', (Ok false, <[getPublishedResourceKey p := ctx]> s), w'') /\ same w'' w') /\
  (~ available w gr -> exists tr w', run h (Reconcile r key s) w = (tr, (Ok true, s), w') /\ same w' w).
Proof.
  intros Hp Ht Hcr Hk. destruct (Reconcile_reads key s p w Hp Ht) as (w1 & Hs & Hread).
  pose proof (creatable_static w w1 p gr Hcr) as Hcr1.
  assert (available w1 gr <-> available w gr) as Hav
    by (unfold available; by rewrite (same_slice _ _ Hs), (same_resources _ _ Hs)).
  split; intros Ha.
  - destruct (ensure_starts p gr s w1 Hcr1 (proj2 Hav Ha) Hk) as (tr & w' & ctx & c & Hr & Hp' & Hc & Hf).
    destruct (Hread _ _ _ Hr) as [tr' Hr']. exists tr', ctx, c, w'.
    rewrite (same_pubs _ _ Hs) in Hp'. rewrite (same_controllers _ _ Hs) in Hc, Hf. split_and!; [done..|].
    destruct (Reconcile_reads key (<[getPublishedResourceKey p := ctx]> s) p w') as (w2 & Hs2 & Hread2);
      [by rewrite Hp'|done|].
    destruct (Hread2 _ _ _ (ensure_known p _ w2 (ex_intro _ ctx (lookup_insert_eq s _ ctx)))) as [tr2 Hr2].
    by exists tr2, w2.
  - destruct (ensure_waits p gr s w1 Hcr1 ltac:(tauto) Hk) as (tr & w' & Hr & Hs').
    destruct (Hread _ _ _ Hr) as [tr' Hr']. exists tr', w'. split; [done|]. by transitivity w1.
Qed.

End Live.

(** ** Witness *)

Module SampleServing.

#[export] Existing Instance SampleRelated.engine.
#[export] Existing Instance SampleRelated.text.
#[export] Existing Instance TreeJson.lib.
#[export] Existing Instance SampleDiscovery.lib.
#[export] Existing Instance SampleDiscovery.range.
#[export] Existing Instance SampleCRD.versions.

(** The sample cluster of Discovery.v; the state is the list of running
    controllers. *)
Definition state : Type := list (nat * nat).
Definition key : NamespacedName := NN "" "publish".
Definition pubRes : PublishedResource := SampleManager.pubRes "10" true.

Definition plane : server (S := control) state := fun q w =>
  match q return cresp q * state with
  | CGetPublishedResource k => (if decide (k = key) then Ok pubRes else Err errNotFound, w)
  | CWithCancel => (fresh (w.*1), w)
  | CCancel ctx => (tt, filter (fun c => c.1 <> ctx) w)
  | CStartController ctx c => (Ok tt, (ctx, c) :: w)
  | q => ((SampleDiscovery.cluster q tt).1, w)
  end.

Definition manager : SyncManager.Reconciler := SampleManager.manager.
Definition pubs (w : state) : gmap NamespacedName PublishedResource := {[key := pubRes]}.
Definition slice (w : state) : APIExportEndpointSlice :=
  MkEndpointSlice (rp_name (sm_resourceProber manager)) "" "" ["https://kcp"].
Definition resources (w : state) (ep : string) : list APIResourceList := SampleDiscovery.apis.

#[export] Instance serving : ManagerPlane manager plane pubs slice resources id.
Proof.
  split.
  - intros q w Hq. by destruct q.
  - intros q w w' Hq. by destruct q.
  - intros w k p H. unfold pubs in H. apply lookup_singleton_Some in H as [<- <-]. by exists w.
  - done.
  - by exists tt.
  - done.
  - intros w ep l Hl. unfold resources, SampleDiscovery.apis in Hl. rewrite !elem_of_cons, elem_of_nil in Hl.
    destruct Hl as [->|[->|[->|[]]]]; vm_compute; eauto.
  - intros w c gvr. by eexists.
  - intros w name. by eexists.
  - done.
  - done.
  - intros w. exists (fresh (w.*1)), w. split; [done|]. split; [apply infinite_is_fresh|done].
  - intros w ctx c. by exists ((ctx, c) :: w).
Qed.

End SampleServing.
Import SampleServing.

Lemma ready_gets_started_witness :
  exists gr, creatable plane [] pubRes gr /\ available slice resources [] gr /\
  exists tr ctx c w', run plane (Reconcile manager key ∅) [] = (tr, (Ok false, {[getPublishedResourceKey pubRes := ctx]}), w') /\
    w' = [(ctx, c)].
Proof.
  set (gr := GVK "apps" "v1beta1" "Deployment").
  assert (creatable plane [] pubRes gr) as Hc.
  { destruct (discovered plane [] pubRes) as [crd|e|m] eqn:E; [|vm_compute in E; discriminate E..].
    exists crd, (GVK "apps" "v1" "Deployment"). split; [exact E|]. vm_compute in E. injection E as <-. split_and!; [vm_compute; reflexivity..|constructor]. }
  assert (available slice resources [] gr) as Ha.
  { repeat constructor. exists (MkAPIResourceList "apps/v1beta1" [SampleDiscovery.deployments "deployments"]),
      (SampleDiscovery.deployments "deployments"). split_and!; [set_solver|reflexivity|set_solver|reflexivity]. }
  exists gr. split; [exact Hc|]. split; [exact Ha|].
  destruct (proj1 (ready_gets_started manager plane pubs slice resources id key pubRes gr ∅ [] eq_refl eq_refl Hc
    (lookup_empty _)) Ha)
    as (tr & ctx & c & w' & Hr & _ & Hw & _).
  exists tr, ctx, c, w'. split; [exact Hr|exact Hw].
Defined.
