(* ===== verification/Flags.v ===== *)
(** Flags, log formats and versions: [internal/options/],
    [internal/log/zap.go] and [internal/version/app.go]. *)

From S2P Require Import Prelude.

(** ** [set_flag.go] *)

Section SetFlag.
Context {R : SetRange}.

(** [sort.StringSlice(l)] is a conversion: it does not sort. *)
Definition StringSlice (l : list string) : list string := l.

Definition setFlag_String (set : gset string) : string := Join (StringSlice (UnsortedList set)) ",".

Definition setFlag_Set (value : string) (set : gset string) : gset string :=
  let set := set ∖ list_to_set (UnsortedList set) in
  if decide (value = "") then set
  else foldl (fun set val =>
         let val := TrimSpace val in
         if decide (val <> "") then {[val]} ∪ set else set) set (Split ","%char value).

Definition setFlag_Type : string := "stringset".

End SetFlag.

(** ** [options.go] *)

Record ControllerRunOptions : Type := MkRunOptions {
  ro_MetricsAddr : string;
  ro_HealthAddr : string;
  ro_EnableLeaderElection : bool;
  ro_LeaderElectionWorkspace : string;
  ro_LeaderElectionNamespace : string;
  ro_WorkerCount : Z;
  ro_EnabledControllers : gset string;
  ro_DisabledControllers : gset string
}.

(** [fmt.Sprintf("%d", n)] *)
Definition format_d (n : Z) : string := pretty n.

Definition NewDefaultOptions (portIndex : Z) : ControllerRunOptions :=
  MkRunOptions ("127.0.0.1:8" +:+ format_d portIndex +:+ "85") ("127.0.0.1:8" +:+ format_d portIndex +:+ "86")
    true "root" "default" 4 ∅ ∅.

Definition EffectiveControllers (opts : ControllerRunOptions) (allControllerNames : gset string) : gset string :=
  if decide (0 < size (ro_EnabledControllers opts)) then ro_EnabledControllers opts
  else if decide (0 < size (ro_DisabledControllers opts)) then allControllerNames ∖ ro_DisabledControllers opts
  else allControllerNames.

(** ** [zap.go] *)

Definition Format : Type := string.
Definition FormatJSON : Format := "JSON".
Definition FormatConsole : Format := "Console".
Definition AvailableFormats : list Format := [FormatJSON; FormatConsole].

Record log_Options : Type := MkLogOptions { lo_Debug : bool; lo_Format : Format }.

Definition log_NewDefaultOptions : log_Options := MkLogOptions false FormatJSON.

Definition Format_Type : string := "string".
Definition Format_String (f : Format) : string := f.

Definition Format_Set (s : string) : outcome Format :=
  let l := ToLower s in
  if decide (l = "json") then Ok FormatJSON
  else if decide (l = "console") then Ok FormatConsole
  else Err (ErrorString ("invalid format '" +:+ s +:+ "'")).

(** [strings.TrimPrefix] *)
Definition TrimPrefix (s prefix : string) : string :=
  if HasPrefix s prefix then drop_string (String.length prefix) s else s.

Definition Formats_String (f : list Format) : string :=
  let separator := ", " in
  TrimPrefix (foldl (fun s format => s +:+ separator +:+ format) "" f) separator.

Fixpoint Formats_Contains (f : list Format) (s : Format) : bool :=
  match f with
  | [] => false
  | format :: f => if decide (s = format) then true else Formats_Contains f s
  end.

Definition log_Options_Validate (o : log_Options) : outcome unit :=
  if negb (Formats_Contains AvailableFormats (lo_Format o))
  then Err (ErrorString ("invalid log-format " +:+ lo_Format o +:+ " specified; available: "
                         +:+ Formats_String AvailableFormats))
  else Ok tt.

(** What a logger is made of. *)
Inductive Level : Type := InfoLevel | DebugLevel.
Inductive Encoder : Type := JSONEncoder | ConsoleEncoder.
Record Logger : Type := MkLogger {
  lg_level : Level;
  lg_encoder : Encoder;
  lg_timeKey : string;
  lg_sink : string;
  lg_caller : bool
}.

Definition log_New (debug : bool) (format : Format) : Logger :=
  let lvl := if debug then DebugLevel else InfoLevel in
  let enc := if decide (format = FormatJSON) then JSONEncoder else ConsoleEncoder in
  MkLogger lvl enc "time" "stderr" true.

Definition NewFromOptions (o : log_Options) : Logger := log_New (lo_Debug o) (lo_Format o).
Definition NewDefault : Logger := log_New false FormatJSON.

(** ** [app.go] *)

Record AppVersion : Type := MkAppVersion { GitVersion : string; GitHead : string }.

(** The variables are set when the program is linked. *)
Definition NewAppVersion (gitVersion gitHead : string) : AppVersion := MkAppVersion gitVersion gitHead.
Definition NewFakeAppVersion : AppVersion :=
  MkAppVersion "v0.0.0-42-test" "d9c09114135c62e207b30891899e7e1ad2493f38".

(** ** Lemmas: trimming *)

Lemma rev_app_spec s t : String.rev_app s t = String.rev s +:+ t.
Proof.
  revert t. unfold String.rev. induction s as [|a s IH]; intros t; simpl; [done|].
  rewrite IH, (IH (String a "")). by rewrite string_app_assoc.
Qed.

Lemma string_app_nil s : s +:+ "" = s.
Proof. unfold String.app. induction s; simpl; congruence. Qed.

Lemma rev_app_string a b : String.rev (a +:+ b) = String.rev b +:+ String.rev a.
Proof.
  induction a as [|x a IH]; [by rewrite string_app_nil|]. change (String x a +:+ b) with (String x (a +:+ b)).
  unfold String.rev in *. simpl. rewrite (rev_app_spec (a +:+ b)), (rev_app_spec a). unfold String.rev.
  by rewrite IH, string_app_assoc.
Qed.

Lemma rev_rev_string s : String.rev (String.rev s) = s.
Proof.
  induction s as [|a s IH]; [done|]. unfold String.rev at 2. simpl. rewrite rev_app_spec, rev_app_string, IH. done.
Qed.

Lemma char_in_rev c s : char_in c (String.rev s) = char_in c s.
Proof.
  induction s as [|a s IH]; [done|]. unfold String.rev. simpl.
  rewrite rev_app_spec, char_in_app, IH, !char_in_cons. change (char_in c "") with false.
  by rewrite orb_false_r, orb_comm.
Qed.

(** Trimming on the left cuts off a beginning. *)
Lemma TrimLeftSpace_split s : exists x, s = x +:+ TrimLeftSpace s.
Proof.
  induction s as [|a s [x IH]]; [by exists ""|]. simpl.
  destruct (Ascii.is_space a); [|by exists ""].
  exists (String a x). change (String a x +:+ ?t) with (String a (x +:+ t)). by rewrite <- IH.
Qed.

Definition starts_clean (s : string) : bool :=
  match s with EmptyString => true | String a _ => negb (Ascii.is_space a) end.

Lemma TrimLeftSpace_clean s : starts_clean (TrimLeftSpace s) = true.
Proof. induction s as [|a s IH]; simpl; [done|]. destruct (Ascii.is_space a) eqn:E; simpl; [done|by rewrite E]. Qed.

Lemma TrimLeftSpace_id s : starts_clean s = true -> TrimLeftSpace s = s.
Proof. destruct s as [|a s]; simpl; [done|]. by destruct (Ascii.is_space a). Qed.

Lemma starts_clean_prefix a b : starts_clean (a +:+ b) = true -> starts_clean a = true.
Proof. by destruct a. Qed.

Lemma TrimSpace_split s : exists x y, s = x +:+ TrimSpace s +:+ y.
Proof.
  unfold TrimSpace. destruct (TrimLeftSpace_split s) as [x Hx].
  destruct (TrimLeftSpace_split (String.rev (TrimLeftSpace s))) as [y Hy].
  exists x, (String.rev y). rewrite Hx at 1. f_equal.
  rewrite <- (rev_rev_string (TrimLeftSpace s)) at 1. rewrite Hy at 1. apply rev_app_string.
Qed.

Lemma TrimSpace_idemp s : TrimSpace (TrimSpace s) = TrimSpace s.
Proof.
  unfold TrimSpace. set (a := TrimLeftSpace s). set (b := TrimLeftSpace (String.rev a)).
  assert (starts_clean (String.rev b) = true) as Hb.
  { destruct (TrimLeftSpace_split (String.rev a)) as [y Hy]. fold b in Hy.
    apply (starts_clean_prefix _ (String.rev y)). rewrite <- rev_app_string, <- Hy, rev_rev_string.
    apply TrimLeftSpace_clean. }
  rewrite (TrimLeftSpace_id _ Hb), rev_rev_string. f_equal. apply TrimLeftSpace_id, TrimLeftSpace_clean.
Qed.

Lemma TrimSpace_char_in c s : char_in c s = false -> char_in c (TrimSpace s) = false.
Proof.
  destruct (TrimSpace_split s) as (x & y & H). intros Hc. rewrite H, !char_in_app in Hc.
  apply orb_false_iff in Hc as [_ Hc]. by apply orb_false_iff in Hc as [Hc _].
Qed.

(** *** Splitting and joining *)

Lemma SplitN_parts c n s : String.length s + 2 <= n -> Forall (fun x => char_in c x = false) (SplitN c n s).
Proof.
  revert s. induction n as [|n IH]; intros s Hn; [lia|]. cbn [SplitN]. destruct n as [|n]; [lia|].
  destruct (Cut c s) as [[x y]|] eqn:E.
  - apply Cut_Some in E as [-> Hx]. constructor; [done|]. apply IH.
    rewrite string_length_app in Hn. simpl in Hn. lia.
  - constructor; [by apply Cut_None|constructor].
Qed.

Lemma SplitN_Join c l n :
  l <> [] -> Forall (fun x => char_in c x = false) l -> length l < n ->
  SplitN c n (Join l (String c "")) = l.
Proof.
  revert l. induction n as [|n IH]; intros l Hl Hf Hn; [lia|].
  destruct l as [|x [|y l]]; [done|..]; cbn [SplitN]; (destruct n as [|n]; [simpl in Hn; lia|]).
  - apply Forall_cons in Hf as [Hx _]. change (Join [x] (String c "")) with x.
    by rewrite (proj2 (Cut_None c x) Hx).
  - apply Forall_cons in Hf as [Hx Hf]. rewrite Join_cons2.
    change (String c "" +:+ ?t) with (String c t). rewrite Cut_app by done.
    f_equal. apply IH; [done|done|]. simpl in *. lia.
Qed.

Lemma Join_length c l : l <> [] -> length l <= S (String.length (Join l (String c ""))).
Proof.
  induction l as [|x [|y l] IH]; intros Hl; [done|simpl; lia|].
  rewrite Join_cons2, !string_length_app. specialize (IH ltac:(done)). simpl in *. lia.
Qed.

Lemma Split_Join c l :
  l <> [] -> Forall (fun x => char_in c x = false) l -> Split c (Join l (String c "")) = l.
Proof. intros Hl Hf. apply SplitN_Join; [done..|]. pose proof (Join_length c l Hl). lia. Qed.

(** ** The flag *)

Section FlagFacts.
Context {R : SetRange} {RL : SetRangeLaws R}.

(** What can be an element of a set that was parsed. *)
Definition flag_element (x : string) : Prop := x <> "" /\ char_in ","%char x = false /\ TrimSpace x = x.

Lemma setFlag_clears set : set ∖ list_to_set (UnsortedList set) = (∅ : gset string).
Proof. rewrite UnsortedList_perm. set_solver. Qed.

Lemma setFlag_loop_elem l (set : gset string) x :
  x ∈ foldl (fun set val => let val := TrimSpace val in if decide (val <> "") then {[val]} ∪ set else set) set l
  <-> x ∈ set \/ exists val, val ∈ l /\ x = TrimSpace val /\ x <> "".
Proof.
  revert set. induction l as [|v l IH]; intros set; cbn [foldl]; [set_solver|]. rewrite IH. cbv zeta.
  case_decide as Hv; set_unfold; naive_solver.
Qed.

Lemma setFlag_Set_elem value set x :
  x ∈ setFlag_Set value set <-> exists val, value <> "" /\ val ∈ Split ","%char value /\ x = TrimSpace val /\ x <> "".
Proof.
  unfold setFlag_Set. rewrite setFlag_clears. case_decide as Hv.
  - split; [set_solver|]. naive_solver.
  - rewrite setFlag_loop_elem. split; [intros [?|?]; [set_solver|naive_solver]|naive_solver].
Qed.

Lemma setFlag_Set_elements value set x : x ∈ setFlag_Set value set -> flag_element x.
Proof.
  rewrite setFlag_Set_elem. intros (val & _ & Hin & -> & Hne). split_and!; [done| |apply TrimSpace_idemp].
  apply TrimSpace_char_in. assert (Forall (fun x => char_in ","%char x = false) (Split ","%char value)) as Hf.
  { apply SplitN_parts. lia. }
  rewrite Forall_forall in Hf. auto.
Qed.

(** Printing a parsed set and parsing it again gives the same set, in
    whichever order its elements are printed; what was in the set before is
    gone, and no element is empty, contains a comma or is surrounded by
    spaces. *)
Lemma setFlag_roundtrip value set set' :
  let parsed := setFlag_Set value set in
  setFlag_Set (setFlag_String parsed) set' = parsed /\ forall x, x ∈ parsed -> flag_element x.
Proof.
  intros parsed. split; [|apply setFlag_Set_elements]. apply set_eq. intros x.
  rewrite setFlag_Set_elem. unfold setFlag_String, StringSlice.
  assert (forall y, y ∈ UnsortedList parsed <-> y ∈ parsed) as Hin.
  { intros y. by rewrite UnsortedList_perm, elem_of_elements. }
  assert (Forall (fun x => char_in ","%char x = false) (UnsortedList parsed)) as Hf.
  { apply Forall_forall. intros y Hy%Hin. by apply (setFlag_Set_elements value set). }
  destruct (decide (UnsortedList parsed = [])) as [E|E].
  - rewrite E. simpl. split; [naive_solver|]. intros Hx%Hin. rewrite E in Hx. set_solver.
  - rewrite Split_Join by done. split.
    + intros (val & _ & Hv & -> & _). apply Hin in Hv.
      destruct (setFlag_Set_elements value set val Hv) as (_ & _ & ->). done.
    + intros Hx. destruct (setFlag_Set_elements value set x Hx) as (Hne & _ & Ht).
      exists x. split_and!; [|by apply Hin|done|done].
      intros HJ. pose proof (Split_Join ","%char _ E Hf) as HS. rewrite HJ in HS.
      apply Hin in Hx. rewrite <- HS in Hx. set_solver.
Qed.

End FlagFacts.

(** The controllers that run: those that are enabled if there are any, else
    all but the disabled ones. *)
Lemma EffectiveControllers_spec opts all c :
  c ∈ EffectiveControllers opts all <->
    if decide (ro_EnabledControllers opts = ∅) then c ∈ all /\ c ∉ ro_DisabledControllers opts
    else c ∈ ro_EnabledControllers opts.
Proof.
  unfold EffectiveControllers.
  assert (forall X : gset string, 0 < size X <-> X <> ∅) as Hs.
  { intros X. split; intros H; [intros ->; rewrite size_empty in H; lia|].
    destruct (decide (size X = 0)) as [H0|H0]; [|lia]. by apply size_empty_inv in H0; apply leibniz_equiv in H0. }
  destruct (decide (ro_EnabledControllers opts = ∅)) as [He|He].
  - rewrite decide_False by (rewrite Hs; naive_solver).
    case_decide as Hd; [set_solver|]. rewrite Hs in Hd. destruct (decide (ro_DisabledControllers opts = ∅)); set_solver.
  - by rewrite decide_True by (by apply Hs).
Qed.

(** A format the flag accepts is one of the available formats, prints as
    itself and is accepted again; upper and lower case do not matter. *)
Lemma Format_Set_valid s f debug :
  Format_Set s = Ok f ->
  log_Options_Validate (MkLogOptions debug f) = Ok tt /\ Format_Set (Format_String f) = Ok f /\
  Format_Set (ToLower s) = Ok f.
Proof.
  unfold Format_Set. intros H.
  assert (forall s, ToLower (ToLower s) = ToLower s) as Hl.
  { induction s0 as [|a s0 IH]; simpl; [done|]. rewrite IH. f_equal.
    destruct a as [[] [] [] [] [] [] [] []]; reflexivity. }
  rewrite Hl. repeat case_decide; simplify_eq; by split_and!.
Qed.
