(* ===== verification/Cmd.v ===== *)
(** Start-up: [cmd/api-syncagent], [internal/kubeconfig] and
    [internal/controllerutil].

    The options are validated and completed, the endpoint slice and its
    APIExport are looked up, and the parts of the agent are set up and
    registered with the manager in a fixed order. *)

From S2P Require Import Prelude Effects Kube ApiTypes Projection Control SyncController.
From S2P Require Import Flags.

(** ** [internal/controllerutil] *)

(** A predicate of controller-runtime; a function that is not set lets every
    event pass. *)
Record predicateFuncs : Type := MkPredicate {
  CreateFunc : option (Unstructured -> bool);
  UpdateFunc : option (Unstructured -> Unstructured -> bool);
  DeleteFunc : option (Unstructured -> bool)
}.

Definition Factory (filter : option (Unstructured -> bool)) : predicateFuncs :=
  match filter with
  | None => MkPredicate None None None
  | Some filter => MkPredicate (Some filter) (Some (fun old new => filter old || filter new)) (Some filter)
  end.

Definition ByLabels {Ma : Matcher} (selector : Selector) : predicateFuncs :=
  Factory (Some (fun o => Selector_Matches selector (default ∅ (GetLabels o)))).

(** Whether an event passes; there is no function for generic events. *)
Definition passes (p : predicateFuncs) (e : watchEvent) : bool :=
  match e with
  | CreateEvent o => match CreateFunc p with Some f => f o | None => true end
  | UpdateEvent old new => match UpdateFunc p with Some f => f old new | None => true end
  | DeleteEvent o => match DeleteFunc p with Some f => f o | None => true end
  | GenericEvent _ => true
  end.

Definition EnqueueConst (value : string) (obj : Unstructured) : list NamespacedName := [NN "" value].

(** ** [kubeconfig/check.go] *)

Definition kubeconfig_Validate (c : option RestConfig) : outcome RestConfig :=
  match c with
  | None => Err (ErrorString "no kubeconfig was found. Have you set current-context?")
  | Some c =>
      if Contains (rc_Host c) "/clusters/" then Ok c
      else Err (ErrorString "kcp kubeconfig does not point to a specific workspace")
  end.

(** ** [options.go] *)

(** [labels.Parse], and the complaints of [validation.IsDNS1035Label]. *)
Class OptionsLib : Type := {
  labels_Parse : string -> Selector + gerror;
  IsDNS1035Label : string -> list string
}.

Record Options : Type := MkOptions {
  o_KcpKubeconfig : string;
  o_Namespace : string;
  o_EnableLeaderElection : bool;
  o_AgentName : string;
  o_APIExportEndpointSliceRef : string;
  o_PublishedResourceSelectorString : string;
  o_PublishedResourceSelector : Selector;
  o_KubeconfigHostOverride : string;
  o_KubeconfigCAFileOverride : string;
  o_LogOptions : log_Options;
  o_MetricsAddr : string;
  o_HealthAddr : string;
  o_DisabledControllers : list string;
  o_EnableServerSideApply : bool
}.

Definition NewOptions : Options :=
  MkOptions "" "" false "" "" "" Everything "" "" log_NewDefaultOptions "127.0.0.1:8085" "" [] false.

Definition availableControllers : gset string := {["apiexport"; "apiresourceschema"; "sync"]}.

Definition gerror_string (e : gerror) : string :=
  match e with ErrorString m => m | APIStatus _ => "API error" | Wrapped m _ => m end.

(** [utilerrors.NewAggregate] is nil for an empty list. *)
Definition NewAggregate (errs : list gerror) : outcome unit :=
  match errs with
  | [] => Ok tt
  | _ => Err (ErrorString (Join (gerror_string <$> errs) ", "))
  end.

(** [if bad { errs = append(errs, err) }] *)
Definition complain (bad : bool) (msg : string) : list gerror := if bad then [ErrorString msg] else [].

Section Options.
Context {OL : OptionsLib}.

Definition invalidSelector (o : Options) : bool :=
  bool_decide (o_PublishedResourceSelectorString o <> "") &&
  match labels_Parse (o_PublishedResourceSelectorString o) with inl _ => false | inr _ => true end.

Definition validationErrors (o : Options) : list gerror :=
  complain (negb (is_ok (log_Options_Validate (o_LogOptions o))))
    "invalid log-format specified" ++
  complain (bool_decide (o_Namespace o = "")) "--namespace is required" ++
  complain (bool_decide (o_AgentName o <> "") && bool_decide (IsDNS1035Label (o_AgentName o) <> []))
    "--agent-name is invalid" ++
  complain (bool_decide (o_APIExportEndpointSliceRef o = "")) "--apiexportendpointslice-ref is required" ++
  complain (bool_decide (o_KcpKubeconfig o = "")) "--kcp-kubeconfig is required" ++
  complain (invalidSelector o) "invalid --published-resource-selector" ++
  complain (bool_decide (list_to_set (o_DisabledControllers o) ∖ availableControllers <> (∅ : gset string)))
    "unknown controller(s)".

Definition Options_Validate (o : Options) : outcome unit := NewAggregate (validationErrors o).

Definition with_agentName (n : string) (o : Options) : Options :=
  MkOptions (o_KcpKubeconfig o) (o_Namespace o) (o_EnableLeaderElection o) n (o_APIExportEndpointSliceRef o)
    (o_PublishedResourceSelectorString o) (o_PublishedResourceSelector o) (o_KubeconfigHostOverride o)
    (o_KubeconfigCAFileOverride o) (o_LogOptions o) (o_MetricsAddr o) (o_HealthAddr o)
    (o_DisabledControllers o) (o_EnableServerSideApply o).
Definition with_selector (s : Selector) (o : Options) : Options :=
  MkOptions (o_KcpKubeconfig o) (o_Namespace o) (o_EnableLeaderElection o) (o_AgentName o)
    (o_APIExportEndpointSliceRef o) (o_PublishedResourceSelectorString o) s (o_KubeconfigHostOverride o)
    (o_KubeconfigCAFileOverride o) (o_LogOptions o) (o_MetricsAddr o) (o_HealthAddr o)
    (o_DisabledControllers o) (o_EnableServerSideApply o).

Definition Complete (o : Options) : outcome Options :=
  let o := if decide (o_AgentName o = "") then with_agentName (o_APIExportEndpointSliceRef o +:+ "-syncagent") o else o in
  if decide (o_PublishedResourceSelectorString o = "") then Ok o
  else
    match labels_Parse (o_PublishedResourceSelectorString o) with
    | inl selector => Ok (with_selector selector o)
    | inr err => Err (ErrorString "invalid --published-resource-selector")
    end.

End Options.

(** ** [kcp.go]: workspaces in URLs *)

(** The expression [/clusters/([^/]+)]: the group that it finds at the
    beginning of a string. *)
Definition clusterPrefix : string := "/clusters/".

Fixpoint until_slash (s : string) : string :=
  match s with
  | EmptyString => EmptyString
  | String a s' => if decide (a = "/"%char) then EmptyString else String a (until_slash s')
  end.

Definition matchHere (s : string) : option string :=
  if HasPrefix s clusterPrefix then
    let group := until_slash (drop_string 10 s) in
    if decide (group = "") then None else Some group
  else None.

(** [FindAllStringSubmatch(s, -1)]: the groups of the matches from left to
    right; the next match is looked for behind the last one, so the first
    [skip] bytes are passed over. *)
Fixpoint findAll (skip : nat) (s : string) : list string :=
  match s with
  | EmptyString => []
  | String _ s' =>
      match skip with
      | S skip' => findAll skip' s'
      | 0 =>
          match matchHere s with
          | Some group => group :: findAll (9 + String.length group) s'
          | None => findAll 0 s'
          end
      end
  end.

(** [ReplaceAllString(s, repl)], with [repl] rendered for each match. *)
Fixpoint replaceAll (expand : string -> string) (skip : nat) (s : string) : string :=
  match s with
  | EmptyString => EmptyString
  | String a s' =>
      match skip with
      | S skip' => replaceAll expand skip' s'
      | 0 =>
          match matchHere s with
          | Some group => expand group +:+ replaceAll expand (9 + String.length group) s'
          | None => String a (replaceAll expand 0 s')
          end
      end
  end.

(** [Regexp.Expand]: [$name] and [${name}] stand for groups, [$$] for a
    dollar sign.  Names are ASCII letters, digits and underscores; the
    expression has one group, without a name. *)
Definition is_word (a : ascii) : bool :=
  let n := N_of_ascii a in
  ((48 <=? n) && (n <=? 57) || (65 <=? n) && (n <=? 90) || (97 <=? n) && (n <=? 122) || (n =? 95))%N.

Fixpoint word (s : string) : string :=
  match s with
  | String a s' => if is_word a then String a (word s') else EmptyString
  | EmptyString => EmptyString
  end.

(** The name after a dollar sign, and the bytes it takes. *)
Definition extract (s : string) : option (string * nat) :=
  match s with
  | String "{" s' =>
      let name := word s' in
      if decide (name = "") then None
      else match drop_string (String.length name) s' with
           | String "}" _ => Some (name, String.length name + 2)
           | _ => None
           end
  | _ => let name := word s in if decide (name = "") then None else Some (name, String.length name)
  end.

Definition groupValue (group name : string) : string :=
  if decide (name = "0") then clusterPrefix +:+ group else if decide (name = "1") then group else "".

Fixpoint Expand (group : string) (skip : nat) (template : string) : string :=
  match template with
  | EmptyString => EmptyString
  | String a t =>
      match skip with
      | S skip' => Expand group skip' t
      | 0 =>
          if decide (a = "$"%char) then
            match t with
            | String "$" _ => String "$" (Expand group 1 t)
            | _ => match extract t with
                   | Some (name, n) => groupValue group name +:+ Expand group n t
                   | None => String "$" (Expand group 0 t)
                   end
            end
          else String a (Expand group 0 t)
      end
  end.

Definition with_Host (host : string) (cfg : RestConfig) : RestConfig :=
  MkRestConfig host (rc_CAData cfg) (rc_CAFile cfg) (rc_Other cfg).

Definition retargetRestConfig (cfg : RestConfig) (destination : string) : outcome RestConfig :=
  if decide (destination = "") then Ok cfg
  else
    match findAll 0 (rc_Host cfg) with
    | [] => Err (ErrorString "URL must point to a cluster/workspace")
    | [current] =>
        if decide (current = destination) then Ok cfg
        else
          let newCluster := "/clusters/" +:+ destination in
          Ok (with_Host (replaceAll (fun group => Expand group 0 newCluster) 0 (rc_Host cfg)) cfg)
    | _ => Err (ErrorString "invalid URL: URL contains more than one cluster path")
    end.

(** ** [kcp.go]: the sync endpoint *)

Definition IdentityClusterName : string := "cluster".

Record qualifiedCluster : Type := MkQualifiedCluster {
  qc_Cluster : string;
  qc_Path : string;
  qc_Config : RestConfig
}.

Record syncEndpoint : Type := MkSyncEndpoint {
  se_APIExport : APIExport;
  se_APIExportCluster : qualifiedCluster;
  se_EndpointSlice : APIExportEndpointSlice;
  se_EndpointSliceCluster : qualifiedCluster
}.

Definition resolveCurrentCluster (host : string) : M control (string * string) :=
  let* lc := wrapM "failed to resolve current workspace" (getLogicalCluster host IdentityClusterName) in
  retM (lcl_ClusterName lc, index_map (lcl_Annotations lc) LogicalClusterPathAnnotationKey).

Definition resolveAPIExportEndpointSlice (cfg : RestConfig) (ref : string)
  : M control (APIExportEndpointSlice * qualifiedCluster) :=
  let* endpointSlice := wrapM "failed to get APIExportEndpointSlice" (getEndpointSlice (rc_Host cfg) ref) in
  let* (lcName, lcPath) := wrapM "failed to resolve APIExportEndpointSlice cluster" (resolveCurrentCluster (rc_Host cfg)) in
  retM (endpointSlice, MkQualifiedCluster lcName lcPath cfg).

Definition resolveAPIExport (cfg : RestConfig) (ref : string) : M control (APIExport * qualifiedCluster) :=
  let* apiExport := wrapM "failed to get APIExport" (getAPIExport (Some (rc_Host cfg)) ref) in
  let* (lcName, lcPath) := wrapM "failed to resolve APIExport cluster" (resolveCurrentCluster (rc_Host cfg)) in
  retM (apiExport, MkQualifiedCluster lcName lcPath cfg).

Definition resolveSyncEndpoint (initialRestConfig : RestConfig) (endpointSliceRef : string) : M control syncEndpoint :=
  let* (endpointSlice, sliceCluster) := wrapM "failed to resolve APIExportEndpointSlice"
                                          (resolveAPIExportEndpointSlice initialRestConfig endpointSliceRef) in
  let* restConfig := liftO (wrapErr "failed to re-target the given kubeconfig"
                              (retargetRestConfig initialRestConfig (es_ExportPath endpointSlice))) in
  let* (apiExport, exportCluster) := wrapM "failed to resolve APIExport"
                                       (resolveAPIExport restConfig (es_ExportName endpointSlice)) in
  retM (MkSyncEndpoint apiExport exportCluster endpointSlice sliceCluster).

(** ** [main.go] *)

Definition localConfig (opts : Options) (cfg : RestConfig) : RestConfig :=
  let cfg := if decide (o_KubeconfigHostOverride opts = "") then cfg else with_Host (o_KubeconfigHostOverride opts) cfg in
  if decide (o_KubeconfigCAFileOverride opts = "") then cfg
  else MkRestConfig (rc_Host cfg) "" (o_KubeconfigCAFileOverride opts) (rc_Other cfg).

Definition setupLocalManager (opts : Options) : M control unit :=
  let* restConfig := GetConfigOrDie in
  setup (SetupManager (localConfig opts restConfig) (o_MetricsAddr opts) (o_HealthAddr opts)
           (o_EnableLeaderElection opts) ("syncagent." +:+ o_AgentName opts) (o_Namespace opts)).

Definition startController (opts : Options) (name : string) : M control unit :=
  if decide (name ∈ o_DisabledControllers opts) then retM tt
  else wrapM ("failed to add " +:+ name +:+ " controller") (setup (AddController name)).

Definition runAgent (opts : Options) : M control unit :=
  let* _ := wrapM "failed to setup local manager" (setupLocalManager opts) in
  let* kcpRestConfig := wrapM "failed to load kcp kubeconfig" (loadKubeconfig (o_KcpKubeconfig opts)) in
  let* kcpRestConfig := liftO (wrapErr "failed to check kcp kubeconfig" (kubeconfig_Validate kcpRestConfig)) in
  let* endpoint := wrapM "failed to resolve APIExport/EndpointSlice"
                     (resolveSyncEndpoint kcpRestConfig (o_APIExportEndpointSliceRef opts)) in
  let exportHost := rc_Host (qc_Config (se_APIExportCluster endpoint)) in
  let sliceHost := rc_Host (qc_Config (se_EndpointSliceCluster endpoint)) in
  let sliceName := es_Name (se_EndpointSlice endpoint) in
  let* _ := wrapM "failed to initialize managed kcp cluster"
              (setup (SetupManagedCluster exportHost (ae_Name (se_APIExport endpoint)))) in
  let* _ := wrapM "failed to add managed kcp cluster runnable" (setup (AddRunnable "managed kcp cluster")) in
  let* _ :=
    if decide (qc_Cluster (se_EndpointSliceCluster endpoint) = qc_Cluster (se_APIExportCluster endpoint)) then retM tt
    else
      let* _ := wrapM "failed to initialize endpoint kcp cluster" (setup (SetupEndpointCluster sliceHost sliceName)) in
      wrapM "failed to add endpoint kcp cluster runnable" (setup (AddRunnable "endpoint kcp cluster")) in
  let* _ := wrapM "failed to start dynamic multi cluster manager" (setup (SetupMultiCluster sliceHost sliceName)) in
  let* _ := wrapM "failed to add endpoint kcp cluster runnable" (setup (AddRunnable "multi cluster manager")) in
  let* _ := startController opts "apiresourceschema" in
  let* _ := startController opts "apiexport" in
  let* _ := startController opts "sync" in
  setup StartManager.

(** The loggers that [main] installs are made of the options; [log.Fatal]
    ends the program. *)
Definition agentMain {OL : OptionsLib} (opts : Options) : M control Logger :=
  let* _ := liftO (wrapErr "Invalid command line" (Options_Validate opts)) in
  let log := NewFromOptions (o_LogOptions opts) in
  let* opts := liftO (wrapErr "Invalid command line" (Complete opts)) in
  let* _ := wrapM "Sync Agent has encountered an error" (runAgent opts) in
  retM log.

(** ** Lemmas on the expression *)

Lemma string_app_cons a s t : String a s +:+ t = String a (s +:+ t).
Proof. done. Qed.

(** A group ends at a slash or at the end. *)
Definition ends (b : string) : Prop := b = "" \/ exists b', b = String "/" b'.

Lemma until_slash_split s :
  exists b, s = until_slash s +:+ b /\ ends b /\ char_in "/"%char (until_slash s) = false.
Proof.
  induction s as [|a s (b & Hb & He & Hc)]; simpl; [by exists ""; repeat split; left|].
  case_decide as Ha; [subst; eexists; split; [done|]; split; [by right; eexists|done]|].
  exists b. split; [by rewrite string_app_cons, <- Hb|]. split; [done|].
  rewrite char_in_cons, Hc, bool_decide_false by done. done.
Qed.

Lemma until_slash_app g b : char_in "/"%char g = false -> ends b -> until_slash (g +:+ b) = g.
Proof.
  induction g as [|a g IH]; intros Hg Hb.
  - destruct Hb as [->|[b' ->]]; [done|]. done.
  - rewrite char_in_cons in Hg. apply orb_false_iff in Hg as [Ha Hg]. apply bool_decide_eq_false in Ha.
    rewrite string_app_cons. simpl. rewrite decide_False by done. by rewrite IH.
Qed.

Lemma matchHere_Some s g :
  matchHere s = Some g <->
  exists b, s = clusterPrefix +:+ g +:+ b /\ g <> "" /\ char_in "/"%char g = false /\ ends b.
Proof.
  unfold matchHere. split.
  - destruct (HasPrefix s clusterPrefix) eqn:Hp; [|done]. apply HasPrefix_spec in Hp as [t ->].
    change 10 with (String.length clusterPrefix). rewrite drop_string_app.
    destruct (until_slash_split t) as (b & Hb & He & Hc). case_decide; [done|]. intros [= <-].
    exists b. split; [by rewrite <- Hb|]. done.
  - intros (b & -> & Hg & Hc & He).
    assert (HasPrefix (clusterPrefix +:+ g +:+ b) clusterPrefix = true) as -> by (apply HasPrefix_spec; by eexists).
    change 10 with (String.length clusterPrefix). rewrite drop_string_app, until_slash_app by done.
    by rewrite decide_False.
Qed.

(** Passing over a prefix. *)
Lemma findAll_skip a b : findAll (String.length a) (a +:+ b) = findAll 0 b.
Proof. induction a as [|x a IH]; [done|]. exact IH. Qed.

Lemma replaceAll_skip f a b : replaceAll f (String.length a) (a +:+ b) = replaceAll f 0 b.
Proof. induction a as [|x a IH]; [done|]. exact IH. Qed.

Lemma findAll_match g b :
  g <> "" -> char_in "/"%char g = false -> ends b ->
  findAll 0 (clusterPrefix +:+ g +:+ b) = g :: findAll 0 b.
Proof.
  intros Hg Hc He. assert (matchHere (clusterPrefix +:+ g +:+ b) = Some g) as Hm by (apply matchHere_Some; eauto).
  change (clusterPrefix +:+ g +:+ b) with (String "/" (("clusters/" +:+ g) +:+ b)) in *.
  cbn [findAll]. rewrite Hm. f_equal.
  change (9 + String.length g) with (String.length ("clusters/" +:+ g)). apply findAll_skip.
Qed.

Lemma replaceAll_match f g b :
  g <> "" -> char_in "/"%char g = false -> ends b ->
  replaceAll f 0 (clusterPrefix +:+ g +:+ b) = f g +:+ replaceAll f 0 b.
Proof.
  intros Hg Hc He. assert (matchHere (clusterPrefix +:+ g +:+ b) = Some g) as Hm by (apply matchHere_Some; eauto).
  change (clusterPrefix +:+ g +:+ b) with (String "/" (("clusters/" +:+ g) +:+ b)) in *.
  cbn [replaceAll]. rewrite Hm. f_equal.
  change (9 + String.length g) with (String.length ("clusters/" +:+ g)). apply replaceAll_skip.
Qed.

Lemma app_split p y q z :
  p +:+ y = q +:+ z -> String.length q <= String.length p -> exists t, p = q +:+ t /\ z = t +:+ y.
Proof.
  revert p. induction q as [|a q IH]; intros p H Hl; [by exists p|].
  destruct p as [|a' p]; [simpl in Hl; lia|]. injection H as -> H.
  destruct (IH p H) as (t & -> & ->); [simpl in Hl; lia|]. by exists t.
Qed.

Lemma matchHere_None s :
  matchHere s = None <-> ~ exists c t, c <> "/"%char /\ s = clusterPrefix +:+ String c t.
Proof.
  split.
  - intros H (c & t & Hc & ->). unfold matchHere in H.
    assert (HasPrefix (clusterPrefix +:+ String c t) clusterPrefix = true) as E by (apply HasPrefix_spec; by eexists).
    rewrite E in H. change 10 with (String.length clusterPrefix) in H. rewrite drop_string_app in H.
    assert (until_slash (String c t) = String c (until_slash t)) as E2 by (simpl; by rewrite decide_False).
    rewrite E2, decide_False in H; done.
  - intros H. destruct (matchHere s) as [g|] eqn:E; [|done]. apply matchHere_Some in E as (b & -> & Hg & Hc & He).
    destruct g as [|c g]; [done|]. destruct H. exists c, (g +:+ b). split; [|done].
    rewrite char_in_cons in Hc. by apply orb_false_iff in Hc as [Hc%bool_decide_eq_false _].
Qed.

(** Whether the expression matches before a given match does not depend on
    the workspace that is matched there. *)
Lemma matchHere_local x a y y' :
  matchHere (String x a +:+ clusterPrefix +:+ y) = None -> matchHere (String x a +:+ clusterPrefix +:+ y') = None.
Proof.
  rewrite !matchHere_None. intros H (c & t & Hc & Ht). apply H.
  rewrite <- string_app_assoc in Ht.
  destruct (app_split (String x a +:+ clusterPrefix) y' (clusterPrefix +:+ String c "") t) as (u & Hu & ->).
  - rewrite Ht. by rewrite string_app_assoc.
  - rewrite !string_length_app. simpl. lia.
  - exists c, (u +:+ y). split; [done|]. rewrite <- string_app_assoc, Hu. by rewrite string_app_assoc.
Qed.

(** No match starts in [a], which is followed by [rest]. *)
Fixpoint quiet (a rest : string) : Prop :=
  match a with
  | EmptyString => True
  | String _ a' => matchHere (a +:+ rest) = None /\ quiet a' rest
  end.

Lemma quiet_local a y y' : quiet a (clusterPrefix +:+ y) -> quiet a (clusterPrefix +:+ y').
Proof.
  induction a as [|x a IH]; [done|]. intros [Hm Hq]. split; [|by apply IH]. revert Hm. apply matchHere_local.
Qed.

Lemma findAll_quiet a rest : quiet a rest -> findAll 0 (a +:+ rest) = findAll 0 rest.
Proof.
  induction a as [|x a IH]; [done|]. intros [Hm Hq]. rewrite string_app_cons in *. cbn [findAll]. rewrite Hm. auto.
Qed.

Lemma replaceAll_quiet f a rest : quiet a rest -> replaceAll f 0 (a +:+ rest) = a +:+ replaceAll f 0 rest.
Proof.
  induction a as [|x a IH]; [done|]. intros [Hm Hq]. rewrite !string_app_cons in *. cbn [replaceAll]. rewrite Hm.
  f_equal. auto.
Qed.

(** A host with its first workspace. *)
Lemma findAll_cons s g gs :
  findAll 0 s = g :: gs ->
  exists a b, s = a +:+ clusterPrefix +:+ g +:+ b /\ quiet a (clusterPrefix +:+ g +:+ b) /\
    g <> "" /\ char_in "/"%char g = false /\ ends b /\ findAll 0 b = gs.
Proof.
  induction s as [|x s IH]; intros H; [done|]. cbn [findAll] in H.
  destruct (matchHere (String x s)) as [h|] eqn:Hm.
  - injection H as -> H. apply matchHere_Some in Hm as (b & Hs & Hg & Hc & He).
    exists "", b. split; [done|]. split; [done|]. do 3 (split; [done|]).
    rewrite <- H. change (clusterPrefix +:+ g +:+ b) with (String "/" (("clusters/" +:+ g) +:+ b)) in Hs.
    injection Hs as -> ->. symmetry. change (9 + String.length g) with (String.length ("clusters/" +:+ g)).
    apply findAll_skip.
  - destruct (IH H) as (a & b & -> & Hq & ?). exists (String x a), b. split; [done|]. by split; [split|].
Qed.

Lemma findAll_nil f s : findAll 0 s = [] -> replaceAll f 0 s = s.
Proof.
  induction s as [|x s IH]; intros H; [done|]. cbn [findAll] in H. cbn [replaceAll].
  destruct (matchHere (String x s)); [done|]. by rewrite IH.
Qed.

Lemma Expand_plain group t : char_in "$"%char t = false -> Expand group 0 t = t.
Proof.
  induction t as [|a t IH]; intros H; [done|]. rewrite char_in_cons in H.
  apply orb_false_iff in H as [Ha%bool_decide_eq_false Ht]. cbn [Expand]. rewrite decide_False by done. by rewrite IH.
Qed.

(** ** Properties *)

(** The workspaces that a URL names. *)
Definition workspaces (cfg : RestConfig) : list string := findAll 0 (rc_Host cfg).

(** The URL names the workspace [g], between [a] and [b]. *)
Definition located (cfg : RestConfig) (g a b : string) : Prop :=
  rc_Host cfg = a +:+ clusterPrefix +:+ g +:+ b /\ quiet a (clusterPrefix +:+ g +:+ b) /\
  g <> "" /\ char_in "/"%char g = false /\ ends b /\ findAll 0 b = [].

Lemma workspaces_located cfg g : workspaces cfg = [g] <-> exists a b, located cfg g a b.
Proof.
  unfold workspaces, located. split; [apply findAll_cons|].
  intros (a & b & -> & Hq & Hg & Hc & He & Hb). by rewrite findAll_quiet, findAll_match, Hb.
Qed.

Lemma located_retarget cfg g a b d :
  located cfg g a b -> d <> "" -> char_in "/"%char d = false -> char_in "$"%char d = false ->
  retargetRestConfig cfg d = Ok (with_Host (a +:+ clusterPrefix +:+ d +:+ b) cfg) /\
  located (with_Host (a +:+ clusterPrefix +:+ d +:+ b) cfg) d a b.
Proof.
  intros Hl Hd Hs Hx. assert (workspaces cfg = [g]) as Hw by (apply workspaces_located; eauto).
  destruct Hl as (Hh & Hq & Hg & Hc & He & Hb). split.
  - unfold retargetRestConfig. rewrite decide_False by done. unfold workspaces in Hw. rewrite Hw. case_decide as E.
    + subst d. rewrite <- Hh. by destruct cfg.
    + rewrite Hh, replaceAll_quiet, replaceAll_match, findAll_nil by done.
      rewrite Expand_plain; [by rewrite string_app_assoc|]. by rewrite char_in_app, Hx.
  - split; [done|]. split; [by apply (quiet_local a (g +:+ b))|]. done.
Qed.

(** C40: retargeting a kubeconfig to another workspace succeeds exactly for
    URLs that name one workspace; it replaces that workspace and nothing else
    of the configuration, the new URL names exactly the destination, and
    retargeting back restores the configuration.  Destinations are names of
    workspaces: not empty, without slashes and dollar signs. *)
Theorem retarget_roundtrip cfg destination :
  destination <> "" -> char_in "/"%char destination = false -> char_in "$"%char destination = false ->
  (length (workspaces cfg) <> 1 -> is_ok (retargetRestConfig cfg destination) = false) /\
  (forall current, workspaces cfg = [current] ->
     exists cfg', retargetRestConfig cfg destination = Ok cfg' /\ workspaces cfg' = [destination] /\
       with_Host (rc_Host cfg) cfg' = cfg /\
       (char_in "$"%char current = false -> retargetRestConfig cfg' current = Ok cfg)).
Proof.
  intros Hd Hs Hx. split.
  - unfold retargetRestConfig, workspaces. rewrite decide_False by done.
    destruct (findAll 0 (rc_Host cfg)) as [|? [|]]; done.
  - intros current (a & b & Hl)%workspaces_located. pose proof Hl as (Hh & _ & Hg & Hc & _).
    destruct (located_retarget _ _ _ _ _ Hl Hd Hs Hx) as [-> Hl']. eexists. split; [done|].
    split; [apply workspaces_located; eauto|]. split; [by destruct cfg|]. intros Hx'.
    destruct (located_retarget _ _ _ _ _ Hl' Hg Hc Hx') as [-> _]. rewrite <- Hh. by destruct cfg.
Qed.

(** What the start-up sets up, in order. *)
Definition action (e : event control) : option setupAction :=
  match e with Ev (CSetup a) _ => Some a | _ => None end.

Definition enabled (opts : Options) (names : list string) : list string :=
  List.filter (fun n => bool_decide (n ∉ o_DisabledControllers opts)) names.

Lemma setup_inv a tr o : exec (setup a) tr o -> omap action tr = [a].
Proof. unfold setup. intros H. by repeat exec_step. Qed.

Lemma wrap_setup_inv msg a tr o : exec (wrapM msg (setup a)) tr (Ok o) -> omap action tr = [a].
Proof. intros H%exec_wrapM_ok_inv. by apply setup_inv in H. Qed.

Lemma startController_inv opts name tr o :
  exec (startController opts name) tr (Ok o) -> omap action tr = AddController <$> enabled opts [name].
Proof.
  unfold startController, enabled. simpl. case_decide as Hd; intros H.
  - rewrite bool_decide_false by tauto. by exec_step.
  - rewrite bool_decide_true by done. by apply wrap_setup_inv in H.
Qed.

(** Looking the endpoint up only reads: first the slice, in the workspace of
    the kubeconfig, then the APIExport in the workspace that the slice names. *)
Lemma resolveSyncEndpoint_inv cfg ref tr e :
  exec (resolveSyncEndpoint cfg ref) tr (Ok e) ->
  omap action tr = [] /\ qc_Config (se_EndpointSliceCluster e) = cfg /\
  retargetRestConfig cfg (es_ExportPath (se_EndpointSlice e)) = Ok (qc_Config (se_APIExportCluster e)) /\
  exists l1 l2, tr =
    [Ev (S := control) (CGetEndpointSlice (rc_Host cfg) ref) (Ok (se_EndpointSlice e));
     Ev (S := control) (CGetLogicalCluster (rc_Host cfg) IdentityClusterName) (Ok l1);
     Ev (S := control) (CGetAPIExport (Some (rc_Host (qc_Config (se_APIExportCluster e))))
                          (es_ExportName (se_EndpointSlice e))) (Ok (se_APIExport e));
     Ev (S := control) (CGetLogicalCluster (rc_Host (qc_Config (se_APIExportCluster e))) IdentityClusterName) (Ok l2)].
Proof.
  unfold resolveSyncEndpoint, resolveAPIExportEndpointSlice, resolveAPIExport, resolveCurrentCluster,
    getEndpointSlice, getLogicalCluster, getAPIExport. intros H.
  exec_inv. match goal with H : Ok _ = wrapErr _ _ |- _ => symmetry in H; apply wrapErr_ok_inv in H end.
  repeat split; try done. by eexists _, _.
Qed.

(** The start-up, if it comes to its end, has set up exactly these parts in
    this order: the manager, the caches of the APIExport and, if it lives in
    another workspace, of the endpoint slice, the multicluster manager, the
    controllers that are not disabled; then the manager was started. *)
Lemma runAgent_wiring opts tr :
  exec (runAgent opts) tr (Ok tt) ->
  exists cfg kcp endpoint,
    Contains (rc_Host kcp) "/clusters/" = true /\
    qc_Config (se_EndpointSliceCluster endpoint) = kcp /\
    retargetRestConfig kcp (es_ExportPath (se_EndpointSlice endpoint)) = Ok (qc_Config (se_APIExportCluster endpoint)) /\
    omap action tr =
      [SetupManager (localConfig opts cfg) (o_MetricsAddr opts) (o_HealthAddr opts) (o_EnableLeaderElection opts)
         ("syncagent." +:+ o_AgentName opts) (o_Namespace opts);
       SetupManagedCluster (rc_Host (qc_Config (se_APIExportCluster endpoint))) (ae_Name (se_APIExport endpoint));
       AddRunnable "managed kcp cluster"] ++
      (if decide (qc_Cluster (se_EndpointSliceCluster endpoint) = qc_Cluster (se_APIExportCluster endpoint)) then []
       else [SetupEndpointCluster (rc_Host kcp) (es_Name (se_EndpointSlice endpoint)); AddRunnable "endpoint kcp cluster"]) ++
      [SetupMultiCluster (rc_Host kcp) (es_Name (se_EndpointSlice endpoint)); AddRunnable "multi cluster manager"] ++
      (AddController <$> enabled opts ["apiresourceschema"; "apiexport"; "sync"]) ++ [StartManager].
Proof.
  unfold runAgent, setupLocalManager, GetConfigOrDie, loadKubeconfig. intros H.
  apply exec_bindM_ok_inv in H as (t1 & t2 & ? & -> & H1%exec_wrapM_ok_inv & H).
  apply exec_bindM_ok_inv in H1 as (? & ? & cfg & -> & H0 & H1%setup_inv). repeat exec_step.
  apply resolveSyncEndpoint_inv in Hx0 as (Hr & Hs & He & _).
  repeat match goal with
  | H : exec (setup _) _ _ |- _ => apply setup_inv in H
  | H : exec (startController _ _) _ _ |- _ => apply startController_inv in H
  end.
  assert (omap action tr3 =
    if decide (qc_Cluster (se_EndpointSliceCluster a1) = qc_Cluster (se_APIExportCluster a1)) then []
    else [SetupEndpointCluster (rc_Host a0) (es_Name (se_EndpointSlice a1)); AddRunnable "endpoint kcp cluster"]) as Hep.
  { rewrite Hs in Hx3. case_decide; [by exec_step|]. unfold setup in Hx3. by repeat exec_step. }
  exists x2, a0, a1. split.
  { symmetry in H2. apply wrapErr_ok_inv in H2. destruct a as [c|]; [|done]. simpl in H2. destruct (Contains (rc_Host c) "/clusters/") eqn:E; by simplify_eq. }
  do 2 (split; [done|]). rewrite !omap_app, H1, Hr, Hx1, Hx2, Hep, Hx4, Hx5, Hx6, Hx7, Hx8, H, Hs.
  simpl. unfold enabled. simpl. do 3 f_equal. case_decide; repeat case_match; done.
Qed.

Lemma complain_nil b msg : complain b msg = [] -> b = false.
Proof. by destruct b. Qed.

(** Options that pass the validation can be completed, and the agent then
    has a name. *)
Lemma Validate_Complete {OL : OptionsLib} o :
  Options_Validate o = Ok tt ->
  exists o', Complete o = Ok o' /\ o_AgentName o' <> "" /\
    (o_AgentName o <> "" -> o_AgentName o' = o_AgentName o /\ IsDNS1035Label (o_AgentName o') = []) /\
    (o_PublishedResourceSelectorString o <> "" ->
     labels_Parse (o_PublishedResourceSelectorString o) = inl (o_PublishedResourceSelector o')).
Proof.
  unfold Options_Validate. destruct (validationErrors o) eqn:E; [intros _|done].
  unfold validationErrors in E.
  apply app_nil in E as [_ E]. apply app_nil in E as [_ E]. apply app_nil in E as [Hname%complain_nil E].
  apply app_nil in E as [Href%complain_nil%bool_decide_eq_false E]. apply app_nil in E as [_ E].
  apply app_nil in E as [Hsel%complain_nil _].
  set (o1 := if decide (o_AgentName o = "") then with_agentName (o_APIExportEndpointSliceRef o +:+ "-syncagent") o else o).
  assert (o_AgentName o1 <> "" /\ (o_AgentName o <> "" -> o_AgentName o1 = o_AgentName o)) as [Hn1 Hn2].
  { unfold o1. case_decide; [|done]. split; [|done]. simpl. by destruct (o_APIExportEndpointSliceRef o). }
  assert (o_PublishedResourceSelectorString o1 = o_PublishedResourceSelectorString o) as Hs by (unfold o1; by case_decide).
  assert (o_AgentName o <> "" -> IsDNS1035Label (o_AgentName o) = []) as Hdns.
  { intros Hn. rewrite bool_decide_true in Hname by done. simpl in Hname. apply bool_decide_eq_false in Hname.
    destruct (IsDNS1035Label (o_AgentName o)); [done|by destruct Hname]. }
  unfold Complete. fold o1. rewrite Hs. unfold invalidSelector in Hsel.
  destruct (decide (o_PublishedResourceSelectorString o = "")) as [H0|H0].
  - exists o1. repeat split; try done; [by apply Hn2|]. rewrite Hn2 by done. by apply Hdns.
  - rewrite bool_decide_true in Hsel by done. simpl in Hsel. destruct (labels_Parse _) as [sel|err]; [|done].
    exists (with_selector sel o1). repeat split; try done; [by apply Hn2|]. simpl. rewrite Hn2 by done. by apply Hdns.
Qed.

(** With invalid options the program ends before it has sent anything; with
    valid ones it runs under a name, and the only controllers it leaves out
    are known ones. *)
Lemma agentMain_validates {OL : OptionsLib} opts tr o :
  exec (agentMain opts) tr o ->
  (tr = [] /\ exists e, o = Err e) \/
  exists opts' o', Options_Validate opts = Ok tt /\ Complete opts = Ok opts' /\ o_AgentName opts' <> "" /\
    (forall name, name ∈ o_DisabledControllers opts -> name ∈ availableControllers) /\
    exec (runAgent opts') tr o'.
Proof.
  unfold agentMain. intros H%exec_bindM_liftO_inv. unfold Options_Validate in *.
  destruct (validationErrors opts) eqn:E; [|simpl in H; naive_solver]. simpl in H.
  assert (Options_Validate opts = Ok tt) as (opts' & Hc & Hn & _)%Validate_Complete
    by (unfold Options_Validate; by rewrite E).
  rewrite Hc in H. simpl in H. right. apply exec_bindM_liftO_inv in H. simpl in H.
  unfold validationErrors in E. do 6 apply app_nil in E as [_ E].
  apply complain_nil, bool_decide_eq_false, dec_stable in E.
  assert (forall name, name ∈ o_DisabledControllers opts -> name ∈ availableControllers) as Hd.
  { intros name Hin. destruct (decide (name ∈ availableControllers)); [done|]. set_solver. }
  apply exec_bindM_inv in H as [(t1 & t2 & u & -> & H1%exec_wrapM_ok_inv & H)|[(e & -> & H1)|(p & -> & H1)]].
  - apply exec_ret_inv in H as [-> _]. rewrite app_nil_r. by exists opts', (Ok u).
  - apply exec_wrapM_inv in H1 as (o' & H1 & _). by exists opts', o'.
  - apply exec_wrapM_inv in H1 as (o' & H1 & _). by exists opts', o'.
Qed.

(** ** Witnesses *)

Definition providerConfig : RestConfig := MkRestConfig "https://kcp:6443/clusters/root:provider/apis" "" "" ∅.

Lemma retarget_roundtrip_witness :
  exists cfg', retargetRestConfig providerConfig "root:org" = Ok cfg' /\
    rc_Host cfg' = "https://kcp:6443/clusters/root:org/apis" /\
    retargetRestConfig cfg' "root:provider" = Ok providerConfig.
Proof.
  assert ("root:org" <> "") as Hd by discriminate.
  destruct (retarget_roundtrip providerConfig "root:org" Hd eq_refl eq_refl) as [_ H].
  destruct (H "root:provider" eq_refl) as (cfg' & E & _ & _ & Hb).
  exists cfg'. split; [exact E|]. split; [|exact (Hb eq_refl)].
  assert (Ok cfg' = Ok (with_Host "https://kcp:6443/clusters/root:org/apis" providerConfig)) as [= ->].
  { rewrite <- E. reflexivity. }
  reflexivity.
Defined.
