(* ===== verification/Toolkit.v ===== *)
(** The toolkit: [cmd/pubres-toolkit].

    Its command prints the CRD, or the APIResourceSchema, that a
    PublishedResource in a file stands for: what the agent would publish. *)

From S2P Require Import Prelude Effects Kube Crypto ApiTypes Projection Control Discovery ApiResourceSchema.

Record toolkitOptions : Type := MkToolkitOptions {
  to_KubeconfigFile : string;
  to_Context : string;
  to_NoProjection : bool;
  to_APIResourceSchema : bool
}.

Definition newDefaultOptions : toolkitOptions := MkToolkitOptions "" "" false false.

Definition with_KubeconfigFile (f : string) (o : toolkitOptions) : toolkitOptions :=
  MkToolkitOptions f (to_Context o) (to_NoProjection o) (to_APIResourceSchema o).

Definition toolkitComplete (o : toolkitOptions) : M control toolkitOptions :=
  if decide (to_KubeconfigFile o = "") then
    let* file := Getenv "KUBECONFIG" in
    retM (with_KubeconfigFile file o)
  else retM o.

Definition toolkitValidate (o : toolkitOptions) : outcome unit :=
  if decide (to_KubeconfigFile o = "")
  then Err (ErrorString "--kubeconfig or $KUBECONFIG are required for this command") else Ok tt.

Section Toolkit.
Context {L : DiscoveryLib} {K : KubeVersions} {R : SetRange} {SL : SchemaLib}.

Definition toolkitRun (o : toolkitOptions) (pubResFile : string) : M control unit :=
  let* pubResource := wrapM "failed to read" (ReadPublishedResourceFile pubResFile) in
  let* kubeconfig := wrapM "invalid kubeconfig" (ReadKubeconfig (to_KubeconfigFile o) (to_Context o)) in
  let* _ := liftO kubeconfig in
  let* _ := liftO (wrapErr "failed to create discovery client" (NewClient None)) in
  let localGK := PublishedResourceSourceGK pubResource in
  let* crd := wrapM "failed to discover CRD defined in PublishedResource" (RetrieveCRD localGK) in
  let* crd := if to_NoProjection o then retM crd
              else liftO (wrapErr "failed to apply projection rules" (ProjectCRD crd pubResource)) in
  if negb (to_APIResourceSchema o) then wrapM "failed to encode CRD as YAML" (println (PrintCRD crd))
  else
    let arsName := GetAPIResourceSchemaName crd in
    let* ars := liftO (wrapErr "failed to create APIResourceSchema"
                         (CreateAPIResourceSchema crd arsName "pubres-toolkit")) in
    wrapM "failed to encode APIResourceSchema as YAML" (println (PrintARS ars)).

(** [RunE] of the command. *)
Definition runE (o : toolkitOptions) (args : list string) : M control unit :=
  let* o := toolkitComplete o in
  let* _ := liftO (toolkitValidate o) in
  match args with
  | [file] => toolkitRun o file
  | _ => failM (ErrorString "expected exactly one argument")
  end.

(** What the toolkit prints is what the schema controller would create for
    the same answers of the cluster, but for the name of the agent: the
    schema has the same name, which is the one that ends up in the status of
    the PublishedResource, and the same content. *)
Lemma toolkit_previews o file tr :
  to_NoProjection o = false -> to_APIResourceSchema o = true -> exec (toolkitRun o file) tr (Ok tt) ->
  exists pubRes crd tr0 ars,
    exec (ProjectPublishedResource pubRes) tr0 (Ok crd) /\
    tr = Ev (S := control) (CReadPublishedResourceFile file) (Ok pubRes) ::
         Ev (S := control) (CReadKubeconfig (to_KubeconfigFile o) (to_Context o)) (Ok (Ok tt)) ::
         tr0 ++ [Ev (S := control) (CPrintln (PrintARS ars)) (Ok tt)] /\
    forall agent ars', CreateAPIResourceSchema crd (GetAPIResourceSchemaName crd) agent = Ok ars' ->
      ars_Name ars' = ars_Name ars /\ ars_Spec ars' = ars_Spec ars.
Proof.
  intros Hp Ha H. unfold toolkitRun in H. rewrite Hp, Ha in H.
  apply exec_bindM_ok_inv in H as (t1 & t2 & pubRes & -> & H1%exec_wrapM_ok_inv & H).
  apply exec_bindM_ok_inv in H as (t3 & t4 & cfg & -> & H2%exec_wrapM_ok_inv & H).
  apply exec_bindM_ok_inv in H as (t5 & t6 & [] & -> & H3 & H). apply exec_ret_inv in H3 as [-> <-].
  apply exec_bindM_ok_inv in H as (t7 & t8 & [] & -> & H4 & H). apply exec_ret_inv in H4 as [-> _].
  apply exec_bindM_ok_inv in H as (t9 & t10 & crd & -> & H5%exec_wrapM_ok_inv & H).
  apply exec_bindM_ok_inv in H as (t11 & t12 & projected & -> & H6 & H). apply exec_ret_inv in H6 as [-> H6].
  apply exec_bindM_ok_inv in H as (t13 & t14 & ars & -> & H7 & H). apply exec_ret_inv in H7 as [-> H7].
  unfold ReadPublishedResourceFile in H1. unfold ReadKubeconfig in H2. unfold println in H.
  apply exec_wrapM_ok_inv in H. exec_inv.
  exists pubRes, projected, (t9 ++ []), ars. split; [|split; [by rewrite app_nil_r|]].
  - unfold ProjectPublishedResource. eapply exec_bindM.
    + apply (exec_wrapM _ _ _ (Ok crd)), H5.
    + rewrite H6. constructor.
  - symmetry in H7. apply wrapErr_ok_inv in H7. revert H7. unfold CreateAPIResourceSchema.
    destruct (CRDToAPIResourceSchema projected "irrelevant"); [|done]. intros [= <-] agent ars' [= <-]. done.
Qed.

End Toolkit.
