(* ===== verification/Memory.v ===== *)
(** Go memory, as far as copying depends on it.

    A variable holds strings, booleans and structs by value; a pointer, a
    slice and a map hold a location.  [has T m v t D] says that [v] is a value
    of type [T] in memory [m], that the tree [t] is what one sees following
    all its references, and that [D] is the set of locations on the way.
    A copy is deep if it shows the same tree and shares no location with
    anything that was there before ([copies]). *)

From S2P Require Import Prelude.

(** ** Values, cells, memory *)

Abbreviation loc := positive.

Inductive mval : Type :=
| MString (s : string)
| MBool (b : bool)
| MStruct (fields : list (string * mval))
| MNil
| MPtr (l : loc)
| MSlice (l : loc) (off len : nat)
| MMap (l : loc).

(** What is at a location: a variable, a backing array, a map of strings. *)
Inductive cell : Type :=
| CVar (v : mval)
| CArray (vs : list mval)
| CStrings (m : gmap string string).

Abbreviation mem := (gmap loc cell).

(** ** Programs on memory

    [None] is a run-time panic: a reference that leads nowhere. *)
Definition heapM (A : Type) : Type := mem -> option (A * mem).
#[export] Instance heapM_ret : MRet heapM := fun A a m => Some (a, m).
#[export] Instance heapM_bind : MBind heapM := fun A B k p m =>
  match p m with Some (a, m') => k a m' | None => None end.
Definition panics {A} : heapM A := fun _ => None.
Definition lift {A} (o : option A) : heapM A := fun m => match o with Some a => Some (a, m) | None => None end.

Definition load (l : loc) : heapM cell := fun m => match m !! l with Some c => Some (c, m) | None => None end.
(** [new] and [make]: a location that is not in use. *)
Definition alloc (c : cell) : heapM loc := fun m => let l := fresh (dom m) in Some (l, <[l := c]> m).

Fixpoint mapH {A B} (f : A -> heapM B) (l : list A) : heapM (list B) :=
  match l with
  | [] => mret []
  | a :: l => b ← f a; bs ← mapH f l; mret (b :: bs)
  end.

(** ** Fields of structs *)

Fixpoint get_field (n : string) (fs : list (string * mval)) : option mval :=
  match fs with
  | [] => None
  | (k, v) :: fs => if decide (k = n) then Some v else get_field n fs
  end.

Fixpoint set_field (n : string) (v : mval) (fs : list (string * mval)) : list (string * mval) :=
  match fs with
  | [] => []
  | (k, w) :: fs => if decide (k = n) then (k, v) :: fs else (k, w) :: set_field n v fs
  end.

(** The elements of a slice. *)
Definition slice_of (vs : list mval) (off len : nat) : list mval := take len (drop off vs).

(** ** Statements of copying functions *)

(** How one field is copied: from its value in [*in] to its value in [*out]. *)
Definition copier : Type := mval -> heapM mval.

(** [out.F = in.F], and [**out = **in] *)
Definition assign : copier := mret.

(** [if in.F != nil { *out = new(T); copy into *out }] *)
Definition ifNew (f : copier) : copier := fun v =>
  match v with
  | MNil => mret MNil
  | MPtr l =>
      c ← load l;
      match c with
      | CVar w => w' ← f w; l' ← alloc (CVar w'); mret (MPtr l')
      | _ => panics
      end
  | _ => panics
  end.

(** [if in.F != nil { *out = make([]T, len); for i := range *in { ... } }] *)
Definition ifMake (f : copier) : copier := fun v =>
  match v with
  | MNil => mret MNil
  | MSlice l off len =>
      c ← load l;
      match c with
      | CArray vs => ws ← mapH f (slice_of vs off len); l' ← alloc (CArray ws); mret (MSlice l' 0 len)
      | _ => panics
      end
  | _ => panics
  end.

(** [if in.F != nil { *out = make(map[string]string, len); for key, val := range *in { ... } }] *)
Definition ifMakeMap : copier := fun v =>
  match v with
  | MNil => mret MNil
  | MMap l =>
      c ← load l;
      match c with
      | CStrings kv => l' ← alloc (CStrings kv); mret (MMap l')
      | _ => panics
      end
  | _ => panics
  end.

(** One statement per field. *)
Fixpoint copy_fields (fs : list (string * mval)) (stmts : list (string * copier)) (out : list (string * mval))
  : heapM (list (string * mval)) :=
  match stmts with
  | [] => mret out
  | (n, f) :: stmts => w ← lift (get_field n fs); w' ← f w; copy_fields fs stmts (set_field n w' out)
  end.

(** [*out = *in], then the statements.  [in] is only read. *)
Definition copy_struct (stmts : list (string * copier)) : copier := fun v =>
  match v with
  | MStruct fs => out ← copy_fields fs stmts fs; mret (MStruct out)
  | _ => panics
  end.

(** ** Types and what values show *)

Inductive ty : Type :=
| TString
| TBool
| TStruct (fields : list (string * ty))
| TPtr (t : ty)
| TSlice (t : ty)
| TStrings                  (* map[string]string *)
| TExtern (name : string).  (* a struct of another module *)

Inductive tree : Type :=
| NString (s : string)
| NBool (b : bool)
| NStruct (fields : list (string * tree))
| NNil
| NPtr (t : tree)
| NSlice (ts : list tree)
| NStrings (m : gmap string string)
| NExtern (d : tree).

(** Structs of other modules: what they show, and on which locations that
    depends. *)
Class Externs : Type := {
  ext_has : string -> mem -> mval -> tree -> gset loc -> Prop;
  ext_agree n m m' v d D :
    (forall l, l ∈ D -> m !! l = m' !! l) -> ext_has n m v d D -> ext_has n m' v d D;
  ext_dom n m v d D : ext_has n m v d D -> D ⊆ dom m
}.

Section Types.
Context {E : Externs}.

Fixpoint has_all (P : mval -> tree -> gset loc -> Prop) (vs : list mval) (ts : list tree) (D : gset loc) : Prop :=
  match vs, ts with
  | [], [] => D = ∅
  | v :: vs, t :: ts => exists D1 D2, P v t D1 /\ has_all P vs ts D2 /\ D = D1 ∪ D2
  | _, _ => False
  end.

Fixpoint has (T : ty) (m : mem) (v : mval) (t : tree) (D : gset loc) {struct T} : Prop :=
  match T with
  | TString => exists s, v = MString s /\ t = NString s /\ D = ∅
  | TBool => exists b, v = MBool b /\ t = NBool b /\ D = ∅
  | TStruct Ts => exists fs ts, v = MStruct fs /\ t = NStruct ts /\
      (fix go (Ts : list (string * ty)) (fs : list (string * mval)) (ts : list (string * tree)) (D : gset loc) : Prop :=
         match Ts, fs, ts with
         | [], [], [] => D = ∅
         | (n, T) :: Ts, (n1, v) :: fs, (n2, t) :: ts =>
             n1 = n /\ n2 = n /\ exists D1 D2, has T m v t D1 /\ go Ts fs ts D2 /\ D = D1 ∪ D2
         | _, _, _ => False
         end) Ts fs ts D
  | TPtr T => (v = MNil /\ t = NNil /\ D = ∅) \/
      exists l w t' D', v = MPtr l /\ t = NPtr t' /\ m !! l = Some (CVar w) /\ has T m w t' D' /\ D = {[l]} ∪ D'
  | TSlice T => (v = MNil /\ t = NNil /\ D = ∅) \/
      exists l off len vs ts D', v = MSlice l off len /\ t = NSlice ts /\ m !! l = Some (CArray vs) /\
        length (slice_of vs off len) = len /\ has_all (has T m) (slice_of vs off len) ts D' /\ D = {[l]} ∪ D'
  | TStrings => (v = MNil /\ t = NNil /\ D = ∅) \/
      exists l kv, v = MMap l /\ t = NStrings kv /\ m !! l = Some (CStrings kv) /\ D = {[l]}
  | TExtern n => exists d, t = NExtern d /\ ext_has n m v d D
  end.

Fixpoint has_fields (m : mem) (Ts : list (string * ty)) (fs : list (string * mval)) (ts : list (string * tree))
    (D : gset loc) : Prop :=
  match Ts, fs, ts with
  | [], [], [] => D = ∅
  | (n, T) :: Ts, (n1, v) :: fs, (n2, t) :: ts =>
      n1 = n /\ n2 = n /\ exists D1 D2, has T m v t D1 /\ has_fields m Ts fs ts D2 /\ D = D1 ∪ D2
  | _, _, _ => False
  end.

Lemma has_struct Ts m v t D :
  has (TStruct Ts) m v t D <-> exists fs ts, v = MStruct fs /\ t = NStruct ts /\ has_fields m Ts fs ts D.
Proof.
  simpl. do 2 (apply exist_proper; intros ?). do 2 (apply and_iff_compat_l).
  rename x into fs, x0 into ts. revert fs ts D.
  induction Ts as [|[n T] Ts IH]; intros [|[n1 w] fs] [|[n2 u] ts] D; simpl; try done.
  do 2 apply and_iff_compat_l. do 2 (apply exist_proper; intros ?). by rewrite IH.
Qed.

(** Types without references: what a plain assignment copies. *)
Fixpoint flat (T : ty) : bool :=
  match T with
  | TString | TBool => true
  | TStruct Ts => forallb (fun nT => flat nT.2) Ts
  | _ => false
  end.

Lemma ty_nested_ind (P : ty -> Prop) :
  P TString -> P TBool -> (forall Ts, Forall (fun nT => P nT.2) Ts -> P (TStruct Ts)) ->
  (forall T, P T -> P (TPtr T)) -> (forall T, P T -> P (TSlice T)) -> P TStrings -> (forall n, P (TExtern n)) ->
  forall T, P T.
Proof.
  intros Hs Hb Hst Hp Hsl Hm He. fix IH 1.
  intros [| |Ts|T|T| |n]; [exact Hs|exact Hb| |apply Hp, IH|apply Hsl, IH|exact Hm|apply He].
  apply Hst. induction Ts as [|[n T] Ts IHTs]; constructor; [apply IH|exact IHTs].
Qed.

(** What is seen depends on the locations on the way only. *)
Lemma has_all_agree P Q vs ts D (A : gset loc) :
  (forall v t D, D ⊆ A -> P v t D -> Q v t D) -> D ⊆ A -> has_all P vs ts D -> has_all Q vs ts D.
Proof.
  intros HPQ. revert ts D. induction vs as [|v vs IH]; intros [|t ts] D HD; simpl; try done.
  intros (D1 & D2 & H1 & H2 & ->). exists D1, D2. split_and!; [apply HPQ; [set_solver|done]|apply IH; [set_solver|done]|done].
Qed.

Lemma has_agree T m m' v t D :
  (forall l, l ∈ D -> m !! l = m' !! l) -> has T m v t D -> has T m' v t D.
Proof.
  revert v t D. induction T as [| |Ts IH|T IH|T IH| |n] using ty_nested_ind; intros v t D Hag; simpl; try done.
  - intros (fs & ts & -> & -> & H). exists fs, ts. split_and!; [done..|]. revert fs ts D Hag H.
    induction IH as [|[n T] Ts IHT _ IHTs]; intros [|[n1 v] fs] [|[n2 t] ts] D Hag; try done.
    intros (-> & -> & D1 & D2 & H1 & H2 & ->). split_and!; [done..|]. exists D1, D2.
    split_and!; [apply IHT; [set_solver|done]|apply IHTs; [set_solver|done]|done].
  - intros [?|(l & w & t' & D' & -> & -> & Hl & Hh & ->)]; [by left|right]. exists l, w, t', D'.
    rewrite <- Hag by set_solver. split_and!; try done. apply IH; [set_solver|done].
  - intros [?|(l & off & len & vs & ts & D' & -> & -> & Hl & Hlen & Hh & ->)]; [by left|right].
    exists l, off, len, vs, ts, D'. rewrite <- Hag by set_solver. split_and!; try done.
    eapply has_all_agree; [|reflexivity|exact Hh]. intros v t D HD. apply IH. set_solver.
  - intros [?|(l & kv & -> & -> & Hl & ->)]; [by left|right]. exists l, kv. by rewrite <- Hag by set_solver.
  - intros (d & -> & Hd). exists d. split; [done|]. by eapply ext_agree.
Qed.

Lemma has_all_dom P vs ts D (A : gset loc) :
  (forall v t D, P v t D -> D ⊆ A) -> has_all P vs ts D -> D ⊆ A.
Proof.
  intros HP. revert ts D. induction vs as [|v vs IH]; intros [|t ts] D; simpl; try done.
  - by intros ->.
  - intros (D1 & D2 & H1%HP & H2%IH & ->). set_solver.
Qed.

Lemma has_dom T m v t D : has T m v t D -> D ⊆ dom m.
Proof.
  revert v t D. induction T as [| |Ts IH|T IH|T IH| |n] using ty_nested_ind; intros v t D; simpl.
  - intros (? & _ & _ & ->). set_solver.
  - intros (? & _ & _ & ->). set_solver.
  - intros (fs & ts & -> & -> & H). revert fs ts D H.
    induction IH as [|[n T] Ts IHT _ IHTs]; intros [|[n1 v] fs] [|[n2 t] ts] D; try done; [by intros ->|].
    intros (_ & _ & D1 & D2 & H1%IHT & H2%IHTs & ->). set_solver.
  - intros [(_ & _ & ->)|(l & w & t' & D' & _ & _ & Hl%elem_of_dom_2 & Hh%IH & ->)]; set_solver.
  - intros [(_ & _ & ->)|(l & off & len & vs & ts & D' & _ & _ & Hl%elem_of_dom_2 & _ & Hh & ->)]; [set_solver|].
    apply (has_all_dom _ _ _ _ (dom m)) in Hh; [set_solver|]. intros ???. apply IH.
  - intros [(_ & _ & ->)|(l & kv & _ & _ & Hl%elem_of_dom_2 & ->)]; set_solver.
  - intros (d & _ & Hd%ext_dom). done.
Qed.

Lemma flat_has T m v t D : flat T = true -> has T m v t D -> D = ∅.
Proof.
  revert v t D. induction T as [| |Ts IH|T IH|T IH| |n] using ty_nested_ind; intros v t D; simpl; try done.
  - intros _ (? & _ & _ & ->). done.
  - intros _ (? & _ & _ & ->). done.
  - intros Hf (fs & ts & -> & -> & H). revert fs ts D Hf H.
    induction IH as [|[n T] Ts IHT _ IHTs]; intros [|[n1 v] fs] [|[n2 t] ts] D; try done.
    simpl. intros [Hf1 Hf2]%andb_prop (_ & _ & D1 & D2 & H1%IHT & H2%IHTs & ->); try done. set_solver.
Qed.

(** ** Deep copies *)

Definition copies (T : ty) (f : copier) : Prop :=
  forall m v t D, has T m v t D ->
    exists v' m' D', f v m = Some (v', m') /\ m ⊆ m' /\ has T m' v' t D' /\ D' ## dom m.

Lemma has_weaken T m m' v t D : m ⊆ m' -> has T m v t D -> has T m' v t D.
Proof.
  intros Hm Hh. pose proof (has_dom _ _ _ _ _ Hh) as HD. eapply has_agree; [|exact Hh].
  intros l Hl%HD. apply elem_of_dom in Hl as [c Hc]. rewrite Hc. symmetry. by eapply lookup_weaken.
Qed.

(** A new cell. *)
Lemma alloc_fresh c m :
  exists l, alloc c m = Some (l, <[l := c]> m) /\ (l ∉ dom m) /\ (m ⊆ <[l := c]> m).
Proof.
  exists (fresh (dom m)). pose proof (is_fresh (dom m)) as Hl. split_and!; [done..|].
  apply insert_subseteq. by apply not_elem_of_dom.
Qed.

Lemma bind_ok {A B} (p : heapM A) (k : A -> heapM B) m a m' : p m = Some (a, m') -> (p ≫= k) m = k a m'.
Proof. intros Hp. unfold mbind, heapM_bind. by rewrite Hp. Qed.

Lemma load_ok l m c : m !! l = Some c -> load l m = Some (c, m).
Proof. intros Hl. unfold load. by rewrite Hl. Qed.

Lemma copies_assign T : flat T = true -> copies T assign.
Proof.
  intros HT m v t D Hh. exists v, m, ∅. pose proof (flat_has _ _ _ _ _ HT Hh) as ->. split_and!; done || set_solver.
Qed.

Lemma copies_ifNew T f : copies T f -> copies (TPtr T) (ifNew f).
Proof.
  intros Hf m v t D [(-> & -> & ->)|(l & w & t' & D' & -> & -> & Hl & Hh & ->)].
  - exists MNil, m, ∅. split_and!; [done..|by left|set_solver].
  - destruct (Hf m w t' D' Hh) as (w' & m1 & D1 & Hr & Hm & Hh1 & HD1).
    destruct (alloc_fresh (CVar w') m1) as (l' & Ha & Hl' & Hm1). pose proof (has_dom _ _ _ _ _ Hh1) as Hd.
    exists (MPtr l'), (<[l' := CVar w']> m1), ({[l']} ∪ D1). split_and!.
    + unfold ifNew. rewrite (bind_ok _ _ _ _ _ (load_ok _ _ _ Hl)). by rewrite (bind_ok _ _ _ _ _ Hr), (bind_ok _ _ _ _ _ Ha).
    + by transitivity m1.
    + right. exists l', w', t', D1. split_and!; [done..|by rewrite lookup_insert_eq|by eapply has_weaken|done].
    + apply subseteq_dom in Hm. set_solver.
Qed.

Lemma copies_all T f m vs ts D :
  copies T f -> has_all (has T m) vs ts D ->
  exists vs' m' D', mapH f vs m = Some (vs', m') /\ m ⊆ m' /\ has_all (has T m') vs' ts D' /\ D' ## dom m /\
    length vs' = length vs.
Proof.
  intros Hf. revert m ts D. induction vs as [|v vs IH]; intros m [|t ts] D; simpl; try done.
  { intros _. exists [], m, ∅. split_and!; done || set_solver. }
  intros (D1 & D2 & H1 & H2 & ->). destruct (Hf m v t D1 H1) as (v' & m1 & D1' & Hr & Hm & Hh & HD1).
  destruct (IH m1 ts D2) as (vs' & m2 & D2' & Hr2 & Hm2 & Hh2 & HD2 & Hlen).
  { eapply has_all_agree; [|reflexivity|exact H2]. intros w u D _. by apply has_weaken. }
  exists (v' :: vs'), m2, (D1' ∪ D2'). split_and!.
  - by rewrite (bind_ok _ _ _ _ _ Hr), (bind_ok _ _ _ _ _ Hr2).
  - by transitivity m1.
  - exists D1', D2'. split_and!; [by eapply has_weaken|done..].
  - apply subseteq_dom in Hm. set_solver.
  - simpl. by rewrite Hlen.
Qed.

Lemma copies_ifMake T f : copies T f -> copies (TSlice T) (ifMake f).
Proof.
  intros Hf m v t D [(-> & -> & ->)|(l & off & len & vs & ts & D' & -> & -> & Hl & Hlen & Hh & ->)].
  - exists MNil, m, ∅. split_and!; [done..|by left|set_solver].
  - destruct (copies_all T f m _ ts D' Hf Hh) as (ws & m1 & D1 & Hr & Hm & Hh1 & HD1 & Hlen').
    destruct (alloc_fresh (CArray ws) m1) as (l' & Ha & Hl' & Hm1).
    pose proof (has_all_dom _ _ _ _ (dom m1) (fun v t D => has_dom T m1 v t D) Hh1) as Hd.
    assert (slice_of ws 0 len = ws) as Hws by (unfold slice_of; rewrite drop_0; apply take_ge; lia).
    exists (MSlice l' 0 len), (<[l' := CArray ws]> m1), ({[l']} ∪ D1). split_and!.
    + unfold ifMake. rewrite (bind_ok _ _ _ _ _ (load_ok _ _ _ Hl)).
      by rewrite (bind_ok _ _ _ _ _ Hr), (bind_ok _ _ _ _ _ Ha).
    + by transitivity m1.
    + right. exists l', 0, len, ws, ts, D1. rewrite Hws. split_and!; [done..|by rewrite lookup_insert_eq|lia| |done].
      eapply has_all_agree; [|reflexivity|exact Hh1]. intros v t D _. by apply has_weaken.
    + apply subseteq_dom in Hm. set_solver.
Qed.

Lemma copies_ifMakeMap : copies TStrings ifMakeMap.
Proof.
  intros m v t D [(-> & -> & ->)|(l & kv & -> & -> & Hl & ->)].
  - exists MNil, m, ∅. split_and!; [done..|by left|set_solver].
  - destruct (alloc_fresh (CStrings kv) m) as (l' & Ha & Hl' & Hm).
    exists (MMap l'), (<[l' := CStrings kv]> m), {[l']}. split_and!; [|done| |set_solver].
    + unfold ifMakeMap. rewrite (bind_ok _ _ _ _ _ (load_ok _ _ _ Hl)). by rewrite (bind_ok _ _ _ _ _ Ha).
    + right. exists l', kv. by rewrite lookup_insert_eq.
Qed.

(** *** Structs *)

(** Every field is copied by a statement, or is flat, so that [*out = *in]
    has copied it. *)
Inductive covers : list (string * ty) -> list (string * copier) -> Prop :=
| covers_nil : covers [] []
| covers_stmt n T f Ts ss : copies T f -> covers Ts ss -> covers ((n, T) :: Ts) ((n, f) :: ss)
| covers_flat n T Ts ss : flat T = true -> covers Ts ss -> covers ((n, T) :: Ts) ss.

Lemma get_field_app n pre v rest : n ∉ pre.*1 -> get_field n (pre ++ (n, v) :: rest) = Some v.
Proof.
  induction pre as [|[k w] pre IH]; simpl; intros Hn; [by rewrite decide_True|].
  rewrite decide_False by set_solver. apply IH. set_solver.
Qed.

Lemma set_field_app n pre v w rest :
  n ∉ pre.*1 -> set_field n w (pre ++ (n, v) :: rest) = (pre ++ [(n, w)]) ++ rest.
Proof.
  induction pre as [|[k u] pre IH]; simpl; intros Hn; [by rewrite decide_True|].
  rewrite decide_False by set_solver. f_equal. apply IH. set_solver.
Qed.

Lemma has_fields_weaken m m' Ts fs ts D : m ⊆ m' -> has_fields m Ts fs ts D -> has_fields m' Ts fs ts D.
Proof.
  intros Hm. revert fs ts D. induction Ts as [|[n T] Ts IH]; intros [|[n1 v] fs] [|[n2 t] ts] D; simpl; try done.
  intros (-> & -> & D1 & D2 & H1 & H2 & ->). split_and!; [done..|]. exists D1, D2.
  split_and!; [by eapply has_weaken|by apply IH|done].
Qed.

Lemma has_fields_names m Ts fs ts D : has_fields m Ts fs ts D -> fs.*1 = Ts.*1.
Proof.
  revert fs ts D. induction Ts as [|[n T] Ts IH]; intros [|[n1 v] fs] [|[n2 t] ts] D; simpl; try done.
  intros (-> & _ & D1 & D2 & _ & H%IH & _). by f_equal.
Qed.

(** The statements from some field on: [pre] has been read, and [pre'] is
    what has been written for it. *)
Lemma copy_fields_correct Ts ss : covers Ts ss ->
  forall m pre pre' rest ts D, NoDup (pre ++ rest).*1 -> pre'.*1 = pre.*1 -> has_fields m Ts rest ts D ->
    exists rest' m' D', copy_fields (pre ++ rest) ss (pre' ++ rest) m = Some (pre' ++ rest', m') /\
      m ⊆ m' /\ has_fields m' Ts rest' ts D' /\ D' ## dom m.
Proof.
  induction 1 as [|n T f Ts ss Hf _ IH|n T Ts ss HT _ IH]; intros m pre pre' rest ts D Hnd Hpre Hh.
  - destruct rest as [|[]], ts as [|[]]; try done. exists [], m, ∅. split_and!; done || set_solver.
  - destruct rest as [|[n1 v] rest], ts as [|[n2 t] ts]; try done.
    destruct Hh as (-> & -> & D1 & D2 & H1 & H2 & ->).
    destruct (Hf m v t D1 H1) as (v' & m1 & D1' & Hr & Hm & Hh & HD1).
    assert (n ∉ pre.*1) as Hn.
    { rewrite fmap_app in Hnd. apply NoDup_app in Hnd as (_ & Hnd & _). intros Hin. apply (Hnd n Hin). simpl. set_solver. }
    destruct (IH m1 (pre ++ [(n, v)]) (pre' ++ [(n, v')]) rest ts D2) as (rest' & m2 & D2' & Hr2 & Hm2 & Hh2 & HD2).
    { by rewrite <- (assoc_L (++)). }
    { by rewrite !fmap_app, Hpre. }
    { by eapply has_fields_weaken. }
    exists ((n, v') :: rest'), m2, (D1' ∪ D2'). split_and!.
    + simpl. rewrite get_field_app by done.
      rewrite (bind_ok (lift (Some v)) _ m v m eq_refl), (bind_ok _ _ _ _ _ Hr).
      rewrite set_field_app by (by rewrite Hpre). rewrite <- (assoc_L (++)) in Hr2. simpl in Hr2.
      rewrite <- (assoc_L (++) pre' [_] rest') in Hr2. exact Hr2.
    + by transitivity m1.
    + split_and!; [done..|]. exists D1', D2'. split_and!; [by eapply has_weaken|done..].
    + apply subseteq_dom in Hm. set_solver.
  - destruct rest as [|[n1 v] rest], ts as [|[n2 t] ts]; try done.
    destruct Hh as (-> & -> & D1 & D2 & H1 & H2 & ->). pose proof (flat_has _ _ _ _ _ HT H1) as ->.
    destruct (IH m (pre ++ [(n, v)]) (pre' ++ [(n, v)]) rest ts D2) as (rest' & m2 & D2' & Hr2 & Hm2 & Hh2 & HD2); try done.
    { by rewrite <- (assoc_L (++)). }
    { by rewrite !fmap_app, Hpre. }
    exists ((n, v) :: rest'), m2, D2'. rewrite <- !(assoc_L (++)) in Hr2. split_and!; [exact Hr2|done| |done].
    split_and!; [done..|]. exists ∅, D2'. split_and!; [by eapply has_weaken|done|set_solver].
Qed.

Lemma copies_struct Ts ss : NoDup Ts.*1 -> covers Ts ss -> copies (TStruct Ts) (copy_struct ss).
Proof.
  intros Hnd Hc m v t D (fs & ts & -> & -> & Hh)%has_struct.
  destruct (copy_fields_correct Ts ss Hc m [] [] fs ts D) as (fs' & m' & D' & Hr & Hm & Hh' & HD); [|done..|].
  { simpl. by rewrite (has_fields_names _ _ _ _ _ Hh). }
  exists (MStruct fs'), m', D'. split_and!; [|done| |done].
  - simpl in *. by rewrite (bind_ok _ _ _ _ _ Hr).
  - apply has_struct. by exists fs', ts.
Qed.

(** ** Independence *)

(** What is written through a copy is not seen through the original, and the
    other way round. *)
Lemma copies_independent T f m v t D :
  copies T f -> has T m v t D ->
  exists v' m' D', f v m = Some (v', m') /\ has T m' v t D /\ has T m' v' t D' /\ D ## D' /\
    forall m'', ((forall l, l ∉ D' -> m'' !! l = m' !! l) -> has T m'' v t D) /\
                ((forall l, l ∉ D -> m'' !! l = m' !! l) -> has T m'' v' t D').
Proof.
  intros Hf Hh. destruct (Hf m v t D Hh) as (v' & m' & D' & Hr & Hm & Hh' & HD).
  pose proof (has_dom _ _ _ _ _ Hh) as Hd. pose proof (has_weaken _ _ _ _ _ _ Hm Hh) as Hv.
  exists v', m', D'. split_and!; [done..|set_solver|]. intros m''.
  split; intros Hag; (eapply has_agree; [|done]); intros l Hl; symmetry; apply Hag; set_solver.
Qed.

End Types.
