(* ===== verification/DeepCopy.v ===== *)
(** Deep copies: the generated functions of
    [sdk/apis/syncagent/v1alpha1/zz_generated.deepcopy.go] and
    [internal/sync/apis/dummy/v1alpha1/zz_generated.deepcopy.go].

    The agent reads PublishedResources from a cache that all controllers
    share, and copies an object before it changes it.  [X_type] is the Go type
    with its fields, [X_DeepCopyInto] what the function leaves in [*out] for
    what it finds in [*in], one entry per statement. *)

From S2P Require Import Prelude Memory.

(** ** Types *)

Definition TypeMeta_type : ty := TStruct [("Kind", TString); ("APIVersion", TString)].

Definition SourceResourceDescriptor_type : ty := TStruct
  [("APIGroup", TString);
   ("Version", TString);
   ("Versions", TSlice TString);
   ("Kind", TString)].
Definition ResourceFilter_type : ty := TStruct
  [("Namespace", TPtr (TExtern "LabelSelector"));
   ("Resource", TPtr (TExtern "LabelSelector"))].
Definition ResourceNaming_type : ty := TStruct
  [("Name", TString);
   ("Namespace", TString)].
Definition ResourceProjection_type : ty := TStruct
  [("Group", TString);
   ("Version", TString);
   ("Versions", TStrings);
   ("Scope", TString);
   ("Kind", TString);
   ("Plural", TString);
   ("ShortNames", TSlice TString);
   ("Categories", TSlice TString)].
Definition ResourceDeleteMutation_type : ty := TStruct
  [("Path", TString)].
Definition ResourceRegexMutation_type : ty := TStruct
  [("Path", TString);
   ("Pattern", TString);
   ("Replacement", TString)].
Definition ResourceTemplateMutation_type : ty := TStruct
  [("Path", TString);
   ("Template", TString)].
Definition ResourceCELMutation_type : ty := TStruct
  [("Path", TString);
   ("Expression", TString)].
Definition ResourceMutation_type : ty := TStruct
  [("Delete", TPtr ResourceDeleteMutation_type);
   ("Regex", TPtr ResourceRegexMutation_type);
   ("Template", TPtr ResourceTemplateMutation_type);
   ("CEL", TPtr ResourceCELMutation_type)].
Definition ResourceMutationSpec_type : ty := TStruct
  [("Spec", TSlice ResourceMutation_type);
   ("Status", TSlice ResourceMutation_type)].
Definition RelatedResourceProjection_type : ty := TStruct
  [("Group", TString);
   ("Version", TString);
   ("Resource", TString)].
Definition RegularExpression_type : ty := TStruct
  [("Pattern", TString);
   ("Replacement", TString)].
Definition TemplateExpression_type : ty := TStruct
  [("Template", TString)].
Definition RelatedResourceSelectorRewrite_type : ty := TStruct
  [("Regex", TPtr RegularExpression_type);
   ("Template", TPtr TemplateExpression_type)].
Definition RelatedResourceObjectSelector_type : ty := TStruct
  [("LabelSelector", TExtern "LabelSelector");
   ("Rewrite", RelatedResourceSelectorRewrite_type)].
Definition RelatedResourceObjectReference_type : ty := TStruct
  [("Path", TString);
   ("Regex", TPtr RegularExpression_type)].
Definition RelatedResourceObjectSpec_type : ty := TStruct
  [("Selector", TPtr RelatedResourceObjectSelector_type);
   ("Reference", TPtr RelatedResourceObjectReference_type);
   ("Template", TPtr TemplateExpression_type)].
Definition RelatedResourceObject_type : ty := TStruct
  [("RelatedResourceObjectSpec", RelatedResourceObjectSpec_type);
   ("Namespace", TPtr RelatedResourceObjectSpec_type)].
Definition RelatedResourceWatchByOwner_type : ty := TStruct [].
Definition RelatedResourceWatch_type : ty := TStruct
  [("ByOwner", TPtr RelatedResourceWatchByOwner_type);
   ("BySelector", TPtr (TExtern "LabelSelector"))].
Definition RelatedResourceSpec_type : ty := TStruct
  [("Identifier", TString);
   ("Origin", TString);
   ("Group", TString);
   ("Version", TString);
   ("Resource", TString);
   ("Kind", TString);
   ("IdentityHash", TString);
   ("Cleanup", TBool);
   ("CleanupPolicy", TString);
   ("Projection", TPtr RelatedResourceProjection_type);
   ("Object", RelatedResourceObject_type);
   ("Mutation", TPtr ResourceMutationSpec_type);
   ("Watch", TPtr RelatedResourceWatch_type);
   ("SyncStatus", TBool)].
Definition SynchronizationSpec_type : ty := TStruct
  [("Enabled", TBool)].
Definition PublishedResourceSpec_type : ty := TStruct
  [("Resource", SourceResourceDescriptor_type);
   ("Filter", TPtr ResourceFilter_type);
   ("Naming", TPtr ResourceNaming_type);
   ("EnableWorkspacePaths", TBool);
   ("Projection", TPtr ResourceProjection_type);
   ("Mutation", TPtr ResourceMutationSpec_type);
   ("Related", TSlice RelatedResourceSpec_type);
   ("Synchronization", TPtr SynchronizationSpec_type)].
Definition PublishedResourceStatus_type : ty := TStruct
  [("ResourceSchemaName", TString)].
Definition PublishedResource_type : ty := TStruct
  [("TypeMeta", TypeMeta_type);
   ("ObjectMeta", TExtern "ObjectMeta");
   ("Spec", PublishedResourceSpec_type);
   ("Status", PublishedResourceStatus_type)].
Definition PublishedResourceList_type : ty := TStruct
  [("TypeMeta", TypeMeta_type);
   ("ListMeta", TExtern "ListMeta");
   ("Items", TSlice PublishedResource_type)].

(** The objects that the tests of [internal/sync] synchronise. *)
Definition ThingSpec_type : ty := TStruct
  [("Username", TString);
   ("Kink", TString);
   ("Address", TString)].
Definition Thing_type : ty := TStruct
  [("TypeMeta", TypeMeta_type);
   ("ObjectMeta", TExtern "ObjectMeta");
   ("Spec", ThingSpec_type)].
Definition ThingList_type : ty := TStruct
  [("TypeMeta", TypeMeta_type);
   ("ListMeta", TExtern "ListMeta");
   ("Items", TSlice Thing_type)].
Definition NamespacedThing_type : ty := TStruct
  [("TypeMeta", TypeMeta_type);
   ("ObjectMeta", TExtern "ObjectMeta");
   ("Spec", ThingSpec_type)].
Definition NamespacedThingList_type : ty := TStruct
  [("TypeMeta", TypeMeta_type);
   ("ListMeta", TExtern "ListMeta");
   ("Items", TSlice NamespacedThing_type)].
Definition ThingStatus_type : ty := TStruct
  [("CurrentVersion", TString)].
Definition ThingWithStatusSubresource_type : ty := TStruct
  [("TypeMeta", TypeMeta_type);
   ("ObjectMeta", TExtern "ObjectMeta");
   ("Spec", ThingSpec_type);
   ("Status", ThingStatus_type)].
Definition ThingWithStatusSubresourceList_type : ty := TStruct
  [("TypeMeta", TypeMeta_type);
   ("ListMeta", TExtern "ListMeta");
   ("Items", TSlice ThingWithStatusSubresource_type)].
Definition ThingWithStatus_type : ty := TStruct
  [("TypeMeta", TypeMeta_type);
   ("ObjectMeta", TExtern "ObjectMeta");
   ("Spec", ThingSpec_type);
   ("Status", ThingStatus_type)].
Definition ThingWithStatusList_type : ty := TStruct
  [("TypeMeta", TypeMeta_type);
   ("ListMeta", TExtern "ListMeta");
   ("Items", TSlice ThingWithStatus_type)].

(** ** Functions *)

(** [DeepCopyInto] of the metadata and the label selectors of Kubernetes. *)
Class ExternCode : Type := DeepCopyInto_of : string -> copier.

Section Generated.
Context {X : ExternCode}.

(** [if c := in.DeepCopy(); c != nil { return c }; return nil] *)
Definition DeepCopyObject_of (f : copier) : copier := fun v =>
  c ← f v;
  match c with MNil => mret MNil | c => mret c end.

Definition SourceResourceDescriptor_DeepCopyInto : copier := copy_struct
  [("Versions", ifMake assign)].
Definition SourceResourceDescriptor_DeepCopy : copier := ifNew SourceResourceDescriptor_DeepCopyInto.
Definition ResourceFilter_DeepCopyInto : copier := copy_struct
  [("Namespace", ifNew (DeepCopyInto_of "LabelSelector"));
   ("Resource", ifNew (DeepCopyInto_of "LabelSelector"))].
Definition ResourceFilter_DeepCopy : copier := ifNew ResourceFilter_DeepCopyInto.
Definition ResourceNaming_DeepCopyInto : copier := copy_struct [].
Definition ResourceNaming_DeepCopy : copier := ifNew ResourceNaming_DeepCopyInto.
Definition ResourceProjection_DeepCopyInto : copier := copy_struct
  [("Versions", ifMakeMap);
   ("ShortNames", ifMake assign);
   ("Categories", ifMake assign)].
Definition ResourceProjection_DeepCopy : copier := ifNew ResourceProjection_DeepCopyInto.
Definition ResourceDeleteMutation_DeepCopyInto : copier := copy_struct [].
Definition ResourceDeleteMutation_DeepCopy : copier := ifNew ResourceDeleteMutation_DeepCopyInto.
Definition ResourceRegexMutation_DeepCopyInto : copier := copy_struct [].
Definition ResourceRegexMutation_DeepCopy : copier := ifNew ResourceRegexMutation_DeepCopyInto.
Definition ResourceTemplateMutation_DeepCopyInto : copier := copy_struct [].
Definition ResourceTemplateMutation_DeepCopy : copier := ifNew ResourceTemplateMutation_DeepCopyInto.
Definition ResourceCELMutation_DeepCopyInto : copier := copy_struct [].
Definition ResourceCELMutation_DeepCopy : copier := ifNew ResourceCELMutation_DeepCopyInto.
Definition ResourceMutation_DeepCopyInto : copier := copy_struct
  [("Delete", ifNew assign);
   ("Regex", ifNew assign);
   ("Template", ifNew assign);
   ("CEL", ifNew assign)].
Definition ResourceMutation_DeepCopy : copier := ifNew ResourceMutation_DeepCopyInto.
Definition ResourceMutationSpec_DeepCopyInto : copier := copy_struct
  [("Spec", ifMake ResourceMutation_DeepCopyInto);
   ("Status", ifMake ResourceMutation_DeepCopyInto)].
Definition ResourceMutationSpec_DeepCopy : copier := ifNew ResourceMutationSpec_DeepCopyInto.
Definition RelatedResourceProjection_DeepCopyInto : copier := copy_struct [].
Definition RelatedResourceProjection_DeepCopy : copier := ifNew RelatedResourceProjection_DeepCopyInto.
Definition RegularExpression_DeepCopyInto : copier := copy_struct [].
Definition RegularExpression_DeepCopy : copier := ifNew RegularExpression_DeepCopyInto.
Definition TemplateExpression_DeepCopyInto : copier := copy_struct [].
Definition TemplateExpression_DeepCopy : copier := ifNew TemplateExpression_DeepCopyInto.
Definition RelatedResourceSelectorRewrite_DeepCopyInto : copier := copy_struct
  [("Regex", ifNew assign);
   ("Template", ifNew assign)].
Definition RelatedResourceSelectorRewrite_DeepCopy : copier := ifNew RelatedResourceSelectorRewrite_DeepCopyInto.
Definition RelatedResourceObjectSelector_DeepCopyInto : copier := copy_struct
  [("LabelSelector", DeepCopyInto_of "LabelSelector");
   ("Rewrite", RelatedResourceSelectorRewrite_DeepCopyInto)].
Definition RelatedResourceObjectSelector_DeepCopy : copier := ifNew RelatedResourceObjectSelector_DeepCopyInto.
Definition RelatedResourceObjectReference_DeepCopyInto : copier := copy_struct
  [("Regex", ifNew assign)].
Definition RelatedResourceObjectReference_DeepCopy : copier := ifNew RelatedResourceObjectReference_DeepCopyInto.
Definition RelatedResourceObjectSpec_DeepCopyInto : copier := copy_struct
  [("Selector", ifNew RelatedResourceObjectSelector_DeepCopyInto);
   ("Reference", ifNew RelatedResourceObjectReference_DeepCopyInto);
   ("Template", ifNew assign)].
Definition RelatedResourceObjectSpec_DeepCopy : copier := ifNew RelatedResourceObjectSpec_DeepCopyInto.
Definition RelatedResourceObject_DeepCopyInto : copier := copy_struct
  [("RelatedResourceObjectSpec", RelatedResourceObjectSpec_DeepCopyInto);
   ("Namespace", ifNew RelatedResourceObjectSpec_DeepCopyInto)].
Definition RelatedResourceObject_DeepCopy : copier := ifNew RelatedResourceObject_DeepCopyInto.
Definition RelatedResourceWatchByOwner_DeepCopyInto : copier := copy_struct [].
Definition RelatedResourceWatchByOwner_DeepCopy : copier := ifNew RelatedResourceWatchByOwner_DeepCopyInto.
Definition RelatedResourceWatch_DeepCopyInto : copier := copy_struct
  [("ByOwner", ifNew assign);
   ("BySelector", ifNew (DeepCopyInto_of "LabelSelector"))].
Definition RelatedResourceWatch_DeepCopy : copier := ifNew RelatedResourceWatch_DeepCopyInto.
Definition RelatedResourceSpec_DeepCopyInto : copier := copy_struct
  [("Projection", ifNew assign);
   ("Object", RelatedResourceObject_DeepCopyInto);
   ("Mutation", ifNew ResourceMutationSpec_DeepCopyInto);
   ("Watch", ifNew RelatedResourceWatch_DeepCopyInto)].
Definition RelatedResourceSpec_DeepCopy : copier := ifNew RelatedResourceSpec_DeepCopyInto.
Definition SynchronizationSpec_DeepCopyInto : copier := copy_struct [].
Definition SynchronizationSpec_DeepCopy : copier := ifNew SynchronizationSpec_DeepCopyInto.
Definition PublishedResourceSpec_DeepCopyInto : copier := copy_struct
  [("Resource", SourceResourceDescriptor_DeepCopyInto);
   ("Filter", ifNew ResourceFilter_DeepCopyInto);
   ("Naming", ifNew assign);
   ("Projection", ifNew ResourceProjection_DeepCopyInto);
   ("Mutation", ifNew ResourceMutationSpec_DeepCopyInto);
   ("Related", ifMake RelatedResourceSpec_DeepCopyInto);
   ("Synchronization", ifNew assign)].
Definition PublishedResourceSpec_DeepCopy : copier := ifNew PublishedResourceSpec_DeepCopyInto.
Definition PublishedResourceStatus_DeepCopyInto : copier := copy_struct [].
Definition PublishedResourceStatus_DeepCopy : copier := ifNew PublishedResourceStatus_DeepCopyInto.
Definition PublishedResource_DeepCopyInto : copier := copy_struct
  [("TypeMeta", assign);
   ("ObjectMeta", DeepCopyInto_of "ObjectMeta");
   ("Spec", PublishedResourceSpec_DeepCopyInto);
   ("Status", assign)].
Definition PublishedResource_DeepCopy : copier := ifNew PublishedResource_DeepCopyInto.
Definition PublishedResource_DeepCopyObject : copier := DeepCopyObject_of PublishedResource_DeepCopy.
Definition PublishedResourceList_DeepCopyInto : copier := copy_struct
  [("TypeMeta", assign);
   ("ListMeta", DeepCopyInto_of "ListMeta");
   ("Items", ifMake PublishedResource_DeepCopyInto)].
Definition PublishedResourceList_DeepCopy : copier := ifNew PublishedResourceList_DeepCopyInto.
Definition PublishedResourceList_DeepCopyObject : copier := DeepCopyObject_of PublishedResourceList_DeepCopy.

Definition ThingSpec_DeepCopyInto : copier := copy_struct [].
Definition ThingSpec_DeepCopy : copier := ifNew ThingSpec_DeepCopyInto.
Definition Thing_DeepCopyInto : copier := copy_struct
  [("TypeMeta", assign);
   ("ObjectMeta", DeepCopyInto_of "ObjectMeta");
   ("Spec", assign)].
Definition Thing_DeepCopy : copier := ifNew Thing_DeepCopyInto.
Definition Thing_DeepCopyObject : copier := DeepCopyObject_of Thing_DeepCopy.
Definition ThingList_DeepCopyInto : copier := copy_struct
  [("TypeMeta", assign);
   ("ListMeta", DeepCopyInto_of "ListMeta");
   ("Items", ifMake Thing_DeepCopyInto)].
Definition ThingList_DeepCopy : copier := ifNew ThingList_DeepCopyInto.
Definition ThingList_DeepCopyObject : copier := DeepCopyObject_of ThingList_DeepCopy.
Definition NamespacedThing_DeepCopyInto : copier := copy_struct
  [("TypeMeta", assign);
   ("ObjectMeta", DeepCopyInto_of "ObjectMeta");
   ("Spec", assign)].
Definition NamespacedThing_DeepCopy : copier := ifNew NamespacedThing_DeepCopyInto.
Definition NamespacedThing_DeepCopyObject : copier := DeepCopyObject_of NamespacedThing_DeepCopy.
Definition NamespacedThingList_DeepCopyInto : copier := copy_struct
  [("TypeMeta", assign);
   ("ListMeta", DeepCopyInto_of "ListMeta");
   ("Items", ifMake NamespacedThing_DeepCopyInto)].
Definition NamespacedThingList_DeepCopy : copier := ifNew NamespacedThingList_DeepCopyInto.
Definition NamespacedThingList_DeepCopyObject : copier := DeepCopyObject_of NamespacedThingList_DeepCopy.
Definition ThingStatus_DeepCopyInto : copier := copy_struct [].
Definition ThingStatus_DeepCopy : copier := ifNew ThingStatus_DeepCopyInto.
Definition ThingWithStatusSubresource_DeepCopyInto : copier := copy_struct
  [("TypeMeta", assign);
   ("ObjectMeta", DeepCopyInto_of "ObjectMeta");
   ("Spec", assign);
   ("Status", assign)].
Definition ThingWithStatusSubresource_DeepCopy : copier := ifNew ThingWithStatusSubresource_DeepCopyInto.
Definition ThingWithStatusSubresource_DeepCopyObject : copier := DeepCopyObject_of ThingWithStatusSubresource_DeepCopy.
Definition ThingWithStatusSubresourceList_DeepCopyInto : copier := copy_struct
  [("TypeMeta", assign);
   ("ListMeta", DeepCopyInto_of "ListMeta");
   ("Items", ifMake ThingWithStatusSubresource_DeepCopyInto)].
Definition ThingWithStatusSubresourceList_DeepCopy : copier := ifNew ThingWithStatusSubresourceList_DeepCopyInto.
Definition ThingWithStatusSubresourceList_DeepCopyObject : copier := DeepCopyObject_of ThingWithStatusSubresourceList_DeepCopy.
Definition ThingWithStatus_DeepCopyInto : copier := copy_struct
  [("TypeMeta", assign);
   ("ObjectMeta", DeepCopyInto_of "ObjectMeta");
   ("Spec", assign);
   ("Status", assign)].
Definition ThingWithStatus_DeepCopy : copier := ifNew ThingWithStatus_DeepCopyInto.
Definition ThingWithStatus_DeepCopyObject : copier := DeepCopyObject_of ThingWithStatus_DeepCopy.
Definition ThingWithStatusList_DeepCopyInto : copier := copy_struct
  [("TypeMeta", assign);
   ("ListMeta", DeepCopyInto_of "ListMeta");
   ("Items", ifMake ThingWithStatus_DeepCopyInto)].
Definition ThingWithStatusList_DeepCopy : copier := ifNew ThingWithStatusList_DeepCopyInto.
Definition ThingWithStatusList_DeepCopyObject : copier := DeepCopyObject_of ThingWithStatusList_DeepCopy.

(** All of them, with the type of what they copy. *)
Definition generated : list (string * ty * copier) :=
  [("SourceResourceDescriptor", SourceResourceDescriptor_type, SourceResourceDescriptor_DeepCopy);
   ("ResourceFilter", ResourceFilter_type, ResourceFilter_DeepCopy);
   ("ResourceNaming", ResourceNaming_type, ResourceNaming_DeepCopy);
   ("ResourceProjection", ResourceProjection_type, ResourceProjection_DeepCopy);
   ("ResourceDeleteMutation", ResourceDeleteMutation_type, ResourceDeleteMutation_DeepCopy);
   ("ResourceRegexMutation", ResourceRegexMutation_type, ResourceRegexMutation_DeepCopy);
   ("ResourceTemplateMutation", ResourceTemplateMutation_type, ResourceTemplateMutation_DeepCopy);
   ("ResourceCELMutation", ResourceCELMutation_type, ResourceCELMutation_DeepCopy);
   ("ResourceMutation", ResourceMutation_type, ResourceMutation_DeepCopy);
   ("ResourceMutationSpec", ResourceMutationSpec_type, ResourceMutationSpec_DeepCopy);
   ("RelatedResourceProjection", RelatedResourceProjection_type, RelatedResourceProjection_DeepCopy);
   ("RegularExpression", RegularExpression_type, RegularExpression_DeepCopy);
   ("TemplateExpression", TemplateExpression_type, TemplateExpression_DeepCopy);
   ("RelatedResourceSelectorRewrite", RelatedResourceSelectorRewrite_type, RelatedResourceSelectorRewrite_DeepCopy);
   ("RelatedResourceObjectSelector", RelatedResourceObjectSelector_type, RelatedResourceObjectSelector_DeepCopy);
   ("RelatedResourceObjectReference", RelatedResourceObjectReference_type, RelatedResourceObjectReference_DeepCopy);
   ("RelatedResourceObjectSpec", RelatedResourceObjectSpec_type, RelatedResourceObjectSpec_DeepCopy);
   ("RelatedResourceObject", RelatedResourceObject_type, RelatedResourceObject_DeepCopy);
   ("RelatedResourceWatchByOwner", RelatedResourceWatchByOwner_type, RelatedResourceWatchByOwner_DeepCopy);
   ("RelatedResourceWatch", RelatedResourceWatch_type, RelatedResourceWatch_DeepCopy);
   ("RelatedResourceSpec", RelatedResourceSpec_type, RelatedResourceSpec_DeepCopy);
   ("SynchronizationSpec", SynchronizationSpec_type, SynchronizationSpec_DeepCopy);
   ("PublishedResourceSpec", PublishedResourceSpec_type, PublishedResourceSpec_DeepCopy);
   ("PublishedResourceStatus", PublishedResourceStatus_type, PublishedResourceStatus_DeepCopy);
   ("PublishedResource", PublishedResource_type, PublishedResource_DeepCopy);
   ("PublishedResourceList", PublishedResourceList_type, PublishedResourceList_DeepCopy);
   ("ThingSpec", ThingSpec_type, ThingSpec_DeepCopy);
   ("Thing", Thing_type, Thing_DeepCopy);
   ("ThingList", ThingList_type, ThingList_DeepCopy);
   ("NamespacedThing", NamespacedThing_type, NamespacedThing_DeepCopy);
   ("NamespacedThingList", NamespacedThingList_type, NamespacedThingList_DeepCopy);
   ("ThingStatus", ThingStatus_type, ThingStatus_DeepCopy);
   ("ThingWithStatusSubresource", ThingWithStatusSubresource_type, ThingWithStatusSubresource_DeepCopy);
   ("ThingWithStatusSubresourceList", ThingWithStatusSubresourceList_type, ThingWithStatusSubresourceList_DeepCopy);
   ("ThingWithStatus", ThingWithStatus_type, ThingWithStatus_DeepCopy);
   ("ThingWithStatusList", ThingWithStatusList_type, ThingWithStatusList_DeepCopy)].
Definition generatedObjects : list (string * ty * copier) :=
  [("PublishedResource", PublishedResource_type, PublishedResource_DeepCopyObject);
   ("PublishedResourceList", PublishedResourceList_type, PublishedResourceList_DeepCopyObject);
   ("Thing", Thing_type, Thing_DeepCopyObject);
   ("ThingList", ThingList_type, ThingList_DeepCopyObject);
   ("NamespacedThing", NamespacedThing_type, NamespacedThing_DeepCopyObject);
   ("NamespacedThingList", NamespacedThingList_type, NamespacedThingList_DeepCopyObject);
   ("ThingWithStatusSubresource", ThingWithStatusSubresource_type, ThingWithStatusSubresource_DeepCopyObject);
   ("ThingWithStatusSubresourceList", ThingWithStatusSubresourceList_type, ThingWithStatusSubresourceList_DeepCopyObject);
   ("ThingWithStatus", ThingWithStatus_type, ThingWithStatus_DeepCopyObject);
   ("ThingWithStatusList", ThingWithStatusList_type, ThingWithStatusList_DeepCopyObject)].

End Generated.

(** ** They are deep *)

Create HintDb deepcopy.
#[export] Hint Resolve copies_ifNew copies_ifMake copies_ifMakeMap : deepcopy.
#[export] Hint Extern 1 (copies _ assign) => (apply copies_assign; reflexivity) : deepcopy.

(** Walk over the fields of a struct: a field is flat, or it has a statement. *)
Ltac deep :=
  apply copies_struct; [apply (bool_decide_unpack _); reflexivity|];
  repeat first [apply covers_nil | apply covers_stmt; [solve [eauto 4 with deepcopy]|] | apply covers_flat; [reflexivity|]].

Class ExternLaws (E : Externs) (X : ExternCode) : Prop :=
  extern_copies n : copies (TExtern n) (DeepCopyInto_of n).

Section Deep.
Context {E : Externs} {X : ExternCode} {XL : ExternLaws E X}.

Hint Resolve extern_copies : deepcopy.

Lemma SourceResourceDescriptor_deep : copies SourceResourceDescriptor_type SourceResourceDescriptor_DeepCopyInto.
Proof. deep. Qed.
Hint Resolve SourceResourceDescriptor_deep : deepcopy.
Lemma ResourceFilter_deep : copies ResourceFilter_type ResourceFilter_DeepCopyInto.
Proof. deep. Qed.
Hint Resolve ResourceFilter_deep : deepcopy.
Lemma ResourceNaming_deep : copies ResourceNaming_type ResourceNaming_DeepCopyInto.
Proof. deep. Qed.
Hint Resolve ResourceNaming_deep : deepcopy.
Lemma ResourceProjection_deep : copies ResourceProjection_type ResourceProjection_DeepCopyInto.
Proof. deep. Qed.
Hint Resolve ResourceProjection_deep : deepcopy.
Lemma ResourceDeleteMutation_deep : copies ResourceDeleteMutation_type ResourceDeleteMutation_DeepCopyInto.
Proof. deep. Qed.
Hint Resolve ResourceDeleteMutation_deep : deepcopy.
Lemma ResourceRegexMutation_deep : copies ResourceRegexMutation_type ResourceRegexMutation_DeepCopyInto.
Proof. deep. Qed.
Hint Resolve ResourceRegexMutation_deep : deepcopy.
Lemma ResourceTemplateMutation_deep : copies ResourceTemplateMutation_type ResourceTemplateMutation_DeepCopyInto.
Proof. deep. Qed.
Hint Resolve ResourceTemplateMutation_deep : deepcopy.
Lemma ResourceCELMutation_deep : copies ResourceCELMutation_type ResourceCELMutation_DeepCopyInto.
Proof. deep. Qed.
Hint Resolve ResourceCELMutation_deep : deepcopy.
Lemma ResourceMutation_deep : copies ResourceMutation_type ResourceMutation_DeepCopyInto.
Proof. deep. Qed.
Hint Resolve ResourceMutation_deep : deepcopy.
Lemma ResourceMutationSpec_deep : copies ResourceMutationSpec_type ResourceMutationSpec_DeepCopyInto.
Proof. deep. Qed.
Hint Resolve ResourceMutationSpec_deep : deepcopy.
Lemma RelatedResourceProjection_deep : copies RelatedResourceProjection_type RelatedResourceProjection_DeepCopyInto.
Proof. deep. Qed.
Hint Resolve RelatedResourceProjection_deep : deepcopy.
Lemma RegularExpression_deep : copies RegularExpression_type RegularExpression_DeepCopyInto.
Proof. deep. Qed.
Hint Resolve RegularExpression_deep : deepcopy.
Lemma TemplateExpression_deep : copies TemplateExpression_type TemplateExpression_DeepCopyInto.
Proof. deep. Qed.
Hint Resolve TemplateExpression_deep : deepcopy.
Lemma RelatedResourceSelectorRewrite_deep : copies RelatedResourceSelectorRewrite_type RelatedResourceSelectorRewrite_DeepCopyInto.
Proof. deep. Qed.
Hint Resolve RelatedResourceSelectorRewrite_deep : deepcopy.
Lemma RelatedResourceObjectSelector_deep : copies RelatedResourceObjectSelector_type RelatedResourceObjectSelector_DeepCopyInto.
Proof. deep. Qed.
Hint Resolve RelatedResourceObjectSelector_deep : deepcopy.
Lemma RelatedResourceObjectReference_deep : copies RelatedResourceObjectReference_type RelatedResourceObjectReference_DeepCopyInto.
Proof. deep. Qed.
Hint Resolve RelatedResourceObjectReference_deep : deepcopy.
Lemma RelatedResourceObjectSpec_deep : copies RelatedResourceObjectSpec_type RelatedResourceObjectSpec_DeepCopyInto.
Proof. deep. Qed.
Hint Resolve RelatedResourceObjectSpec_deep : deepcopy.
Lemma RelatedResourceObject_deep : copies RelatedResourceObject_type RelatedResourceObject_DeepCopyInto.
Proof. deep. Qed.
Hint Resolve RelatedResourceObject_deep : deepcopy.
Lemma RelatedResourceWatchByOwner_deep : copies RelatedResourceWatchByOwner_type RelatedResourceWatchByOwner_DeepCopyInto.
Proof. deep. Qed.
Hint Resolve RelatedResourceWatchByOwner_deep : deepcopy.
Lemma RelatedResourceWatch_deep : copies RelatedResourceWatch_type RelatedResourceWatch_DeepCopyInto.
Proof. deep. Qed.
Hint Resolve RelatedResourceWatch_deep : deepcopy.
Lemma RelatedResourceSpec_deep : copies RelatedResourceSpec_type RelatedResourceSpec_DeepCopyInto.
Proof. deep. Qed.
Hint Resolve RelatedResourceSpec_deep : deepcopy.
Lemma SynchronizationSpec_deep : copies SynchronizationSpec_type SynchronizationSpec_DeepCopyInto.
Proof. deep. Qed.
Hint Resolve SynchronizationSpec_deep : deepcopy.
Lemma PublishedResourceSpec_deep : copies PublishedResourceSpec_type PublishedResourceSpec_DeepCopyInto.
Proof. deep. Qed.
Hint Resolve PublishedResourceSpec_deep : deepcopy.
Lemma PublishedResourceStatus_deep : copies PublishedResourceStatus_type PublishedResourceStatus_DeepCopyInto.
Proof. deep. Qed.
Hint Resolve PublishedResourceStatus_deep : deepcopy.
Lemma PublishedResource_deep : copies PublishedResource_type PublishedResource_DeepCopyInto.
Proof. deep. Qed.
Hint Resolve PublishedResource_deep : deepcopy.
Lemma PublishedResourceList_deep : copies PublishedResourceList_type PublishedResourceList_DeepCopyInto.
Proof. deep. Qed.
Hint Resolve PublishedResourceList_deep : deepcopy.
Lemma ThingSpec_deep : copies ThingSpec_type ThingSpec_DeepCopyInto.
Proof. deep. Qed.
Hint Resolve ThingSpec_deep : deepcopy.
Lemma Thing_deep : copies Thing_type Thing_DeepCopyInto.
Proof. deep. Qed.
Hint Resolve Thing_deep : deepcopy.
Lemma ThingList_deep : copies ThingList_type ThingList_DeepCopyInto.
Proof. deep. Qed.
Hint Resolve ThingList_deep : deepcopy.
Lemma NamespacedThing_deep : copies NamespacedThing_type NamespacedThing_DeepCopyInto.
Proof. deep. Qed.
Hint Resolve NamespacedThing_deep : deepcopy.
Lemma NamespacedThingList_deep : copies NamespacedThingList_type NamespacedThingList_DeepCopyInto.
Proof. deep. Qed.
Hint Resolve NamespacedThingList_deep : deepcopy.
Lemma ThingStatus_deep : copies ThingStatus_type ThingStatus_DeepCopyInto.
Proof. deep. Qed.
Hint Resolve ThingStatus_deep : deepcopy.
Lemma ThingWithStatusSubresource_deep : copies ThingWithStatusSubresource_type ThingWithStatusSubresource_DeepCopyInto.
Proof. deep. Qed.
Hint Resolve ThingWithStatusSubresource_deep : deepcopy.
Lemma ThingWithStatusSubresourceList_deep : copies ThingWithStatusSubresourceList_type ThingWithStatusSubresourceList_DeepCopyInto.
Proof. deep. Qed.
Hint Resolve ThingWithStatusSubresourceList_deep : deepcopy.
Lemma ThingWithStatus_deep : copies ThingWithStatus_type ThingWithStatus_DeepCopyInto.
Proof. deep. Qed.
Hint Resolve ThingWithStatus_deep : deepcopy.
Lemma ThingWithStatusList_deep : copies ThingWithStatusList_type ThingWithStatusList_DeepCopyInto.
Proof. deep. Qed.
Hint Resolve ThingWithStatusList_deep : deepcopy.

Lemma DeepCopyObject_copies T f : copies (TPtr T) f -> copies (TPtr T) (DeepCopyObject_of f).
Proof.
  intros Hf m v t D Hh. destruct (Hf m v t D Hh) as (v' & m' & D' & Hr & H). exists v', m', D'. split; [|done].
  unfold DeepCopyObject_of. rewrite (bind_ok _ _ _ _ _ Hr). by destruct v'.
Qed.

Lemma generated_copies : Forall (fun g => copies (TPtr g.1.2) g.2) generated.
Proof. unfold generated. repeat (constructor; [eauto 4 with deepcopy|]). constructor. Qed.

Lemma generatedObjects_copies : Forall (fun g => copies (TPtr g.1.2) g.2) generatedObjects.
Proof.
  unfold generatedObjects. repeat (constructor; [apply DeepCopyObject_copies; eauto 4 with deepcopy|]). constructor.
Qed.

(** C37: deep copies are deep.  [DeepCopy] and [DeepCopyObject] of every type
    return, for any value of the type, nil included, a value that shows the
    same contents and shares no memory with the original: whatever is written
    afterwards to the memory of the copy, the original shows what it showed
    before, and the other way round. *)
Theorem DeepCopy_independent name T f m v t D :
  (name, T, f) ∈ generated ++ generatedObjects -> has (TPtr T) m v t D ->
  exists v' m' D', f v m = Some (v', m') /\ has (TPtr T) m' v t D /\ has (TPtr T) m' v' t D' /\ D ## D' /\
    forall m'', ((forall l, l ∉ D' -> m'' !! l = m' !! l) -> has (TPtr T) m'' v t D) /\
                ((forall l, l ∉ D -> m'' !! l = m' !! l) -> has (TPtr T) m'' v' t D').
Proof.
  intros Hin. apply copies_independent.
  pose proof (Forall_app_2 _ _ _ generated_copies generatedObjects_copies) as HF.
  by apply (proj1 (Forall_forall _ _) HF (name, T, f)).
Qed.

End Deep.

(** ** Witness *)

Module SampleMemory.

(** Metadata and selectors are maps of strings here. *)
#[export] Instance externs : Externs.
Proof.
  refine {| ext_has := fun _ m v d D => exists l kv, v = MMap l /\ d = NStrings kv /\ m !! l = Some (CStrings kv) /\ D = {[l]} |}.
  - intros n m m' v d D Hag (l & kv & -> & -> & Hl & ->). exists l, kv. by rewrite <- Hag by set_solver.
  - intros n m v d D (l & kv & -> & -> & Hl%elem_of_dom_2 & ->). set_solver.
Defined.

#[export] Instance code : ExternCode := fun _ => ifMakeMap.
#[export] Instance laws : ExternLaws externs code.
Proof.
  intros n m v t D (d & -> & l & kv & -> & -> & Hl & ->).
  destruct (copies_ifMakeMap m (MMap l) (NStrings kv) {[l]}) as (v' & m' & D' & Hr & Hm & Hh & HD).
  { right. by exists l, kv. }
  exists v', m', D'. split_and!; [done..| |done]. exists (NStrings kv). split; [done|].
  destruct Hh as [(_ & [=] & _)|(l' & kv' & -> & [= <-] & Hl' & ->)]. by exists l', kv.
Qed.

(** A filter with a selector for namespaces, and one for objects that is not set. *)
Definition selector : gmap string string := {["team" := "blue"]}.
Definition memory : mem :=
  {[1%positive := CVar (MStruct [("Namespace", MPtr 2%positive); ("Resource", MNil)]);
    2%positive := CVar (MMap 3%positive); 3%positive := CStrings selector]}.
Definition shows : tree := NPtr (NStruct [("Namespace", NPtr (NExtern (NStrings selector))); ("Resource", NNil)]).

Lemma memory_has : has (TPtr ResourceFilter_type) memory (MPtr 1%positive) shows {[1%positive; 2%positive; 3%positive]}.
Proof.
  right. eexists 1%positive, _, _, ({[2%positive; 3%positive]}). split_and!; [done..| |set_solver].
  apply has_struct. eexists _, _. split_and!; [done..|].
  split_and!; [done..|]. exists {[2%positive; 3%positive]}, ∅. split_and!; [| |set_solver].
  - right. eexists 2%positive, _, _, {[3%positive]}. split_and!; [done..| |set_solver].
    eexists. split; [done|]. eexists 3%positive, _. done.
  - split_and!; [done..|]. exists ∅, ∅. split_and!; [by left|done|set_solver].
Qed.

End SampleMemory.
Import SampleMemory.

Lemma DeepCopy_independent_witness :
  exists v' m' D', ResourceFilter_DeepCopy (MPtr 1%positive) memory = Some (v', m') /\
    has (TPtr ResourceFilter_type) m' v' shows D' /\ D' ## {[1%positive; 2%positive; 3%positive]}.
Proof.
  destruct (DeepCopy_independent "ResourceFilter" ResourceFilter_type ResourceFilter_DeepCopy memory (MPtr 1%positive)
    shows {[1%positive; 2%positive; 3%positive]}) as (v' & m' & D' & Hr & _ & Hh & HD & _).
  - apply elem_of_app. left. apply elem_of_cons. right. apply elem_of_cons. left. reflexivity.
  - exact memory_has.
  - exists v', m', D'. split; [exact Hr|]. split; [exact Hh|]. symmetry. exact HD.
Defined.
