(* ===== verification/Informers.v ===== *)
(** Informers: [sdk/informers/externalversions] and
    [sdk/listers/syncagent/v1alpha1], the caches that other programs use to
    watch PublishedResources.

    A factory is shared by goroutines; its methods hold the lock for their
    whole body, so that each is one atomic step.  [Start] spawns a goroutine
    per informer, [Shutdown] waits for them with a wait group. *)

From S2P Require Import Prelude Kube Control ApiTypes.

(** Third-party parts: list options, clients, informers, which are created
    from the functions that list and watch (by one constructor for all
    workspaces and by another for one), and the stores behind informers, with
    look-up by key and lists by selector.  A waiting goroutine learns whether
    the cache of an informer was filled before the stop channel was closed. *)
Class InformerLib : Type := {
  ListOptions : Type;
  Client : Type;
  Informer : Type;
  Transform : Type;
  Indexer : Type;
  client_List : Client -> ListOptions -> outcome value;
  client_Watch : Client -> ListOptions -> outcome value;
  kcp_NewSharedIndexInformer :
    (ListOptions -> outcome value) -> (ListOptions -> outcome value) -> Z -> list string -> Informer;
  cache_NewSharedIndexInformer :
    (ListOptions -> outcome value) -> (ListOptions -> outcome value) -> Z -> list string -> Informer;
  SetTransform : option Transform -> Informer -> Informer;
  GetIndexer : Informer -> Indexer;
  informer_Cluster : string -> Informer -> Informer;
  cache_WaitForCacheSync : Informer -> bool;
  GetByKey : Indexer -> string -> outcome (option PublishedResource);
  ListAll : Indexer -> Selector -> outcome (list PublishedResource);
  ListAllByCluster : Indexer -> string -> Selector -> outcome (list PublishedResource);
  ToClusterAwareKey : string -> string -> string -> string
}.

(** The order in which Go ranges over the map of informers. *)
Class InformerRange (L : InformerLib) : Type := range_informers : gmap string Informer -> list (string * Informer).
Class InformerRangeLaws `(R : InformerRange) : Prop := range_informers_perm m : range_informers m ≡ₚ map_to_list m.

Section Informers.
Context {L : InformerLib} {R : InformerRange L}.

(** ** Options *)

Definition TweakListOptionsFunc : Type := ListOptions -> ListOptions.

Record SharedInformerOptions : Type := MkSharedInformerOptions {
  io_customResync : gmap string Z;
  io_tweakListOptions : option TweakListOptionsFunc;
  io_transform : option Transform;
  io_namespace : string
}.

Definition SharedInformerOption : Type := SharedInformerOptions -> SharedInformerOptions.

Definition WithCustomResyncConfig (resyncConfig : list (string * Z)) : SharedInformerOption := fun o =>
  MkSharedInformerOptions (foldl (fun m '(k, v) => <[k := v]> m) (io_customResync o) resyncConfig)
    (io_tweakListOptions o) (io_transform o) (io_namespace o).
Definition WithTweakListOptions (t : option TweakListOptionsFunc) : SharedInformerOption := fun o =>
  MkSharedInformerOptions (io_customResync o) t (io_transform o) (io_namespace o).
Definition WithTransform (t : option Transform) : SharedInformerOption := fun o =>
  MkSharedInformerOptions (io_customResync o) (io_tweakListOptions o) t (io_namespace o).
Definition WithNamespace (namespace : string) : SharedInformerOption := fun o =>
  MkSharedInformerOptions (io_customResync o) (io_tweakListOptions o) (io_transform o) namespace.

Definition emptyOptions : SharedInformerOptions := MkSharedInformerOptions ∅ None None "".

(** ** The factory for all workspaces *)

Record sharedInformerFactory : Type := MkFactory {
  sf_client : Client;
  sf_tweakListOptions : option TweakListOptionsFunc;
  sf_defaultResync : Z;
  sf_customResync : gmap string Z;
  sf_transform : option Transform;
  sf_informers : gmap string Informer;
  sf_startedInformers : gmap string bool;
  sf_wg : nat;
  sf_shuttingDown : bool
}.

Definition NewSharedInformerFactoryWithOptions (client : Client) (defaultResync : Z) (options : list SharedInformerOption)
  : sharedInformerFactory :=
  let opts := foldl (fun opts opt => opt opts) emptyOptions options in
  MkFactory client (io_tweakListOptions opts) defaultResync (io_customResync opts) (io_transform opts) ∅ ∅ 0 false.

Definition NewSharedInformerFactory (client : Client) (defaultResync : Z) : sharedInformerFactory :=
  NewSharedInformerFactoryWithOptions client defaultResync [].

(** [m[key]] of a map of booleans. *)
Definition is_started (m : gmap string bool) (t : string) : bool := default false (m !! t).

Definition with_started (m : gmap string bool) (wg : nat) (f : sharedInformerFactory) : sharedInformerFactory :=
  MkFactory (sf_client f) (sf_tweakListOptions f) (sf_defaultResync f) (sf_customResync f) (sf_transform f)
    (sf_informers f) m wg (sf_shuttingDown f).
Definition with_informers (m : gmap string Informer) (f : sharedInformerFactory) : sharedInformerFactory :=
  MkFactory (sf_client f) (sf_tweakListOptions f) (sf_defaultResync f) (sf_customResync f) (sf_transform f)
    m (sf_startedInformers f) (sf_wg f) (sf_shuttingDown f).
Definition with_shutdown (f : sharedInformerFactory) : sharedInformerFactory :=
  MkFactory (sf_client f) (sf_tweakListOptions f) (sf_defaultResync f) (sf_customResync f) (sf_transform f)
    (sf_informers f) (sf_startedInformers f) (sf_wg f) true.

(** One round of the loop of [Start]; the list has the goroutines that were
    spawned, each running an informer. *)
Definition startInformer (acc : list (string * Informer) * sharedInformerFactory) (ti : string * Informer)
  : list (string * Informer) * sharedInformerFactory :=
  let '(spawned, f) := acc in
  let '(informerType, informer) := ti in
  if negb (is_started (sf_startedInformers f) informerType) then
    (spawned ++ [ti], with_started (<[informerType := true]> (sf_startedInformers f)) (S (sf_wg f)) f)
  else (spawned, f).

Definition factory_Start (f : sharedInformerFactory) : list (string * Informer) * sharedInformerFactory :=
  if sf_shuttingDown f then ([], f) else foldl startInformer ([], f) (range_informers (sf_informers f)).

(** [Shutdown] sets the flag and returns once the wait group is empty. *)
Definition Shutdown_mark (f : sharedInformerFactory) : sharedInformerFactory := with_shutdown f.
Definition Shutdown_returns (f : sharedInformerFactory) : bool := bool_decide (sf_wg f = 0).

(** [f.wg.Done()] at the end of a goroutine. *)
Definition wg_Done (f : sharedInformerFactory) : sharedInformerFactory :=
  with_started (sf_startedInformers f) (pred (sf_wg f)) f.

Definition startedOnly (started : gmap string bool) (informers : gmap string Informer) : gmap string Informer :=
  filter (fun ti => is_started started ti.1 = true) informers.

Definition WaitForCacheSync (f : sharedInformerFactory) : gmap string bool :=
  cache_WaitForCacheSync <$> startedOnly (sf_startedInformers f) (sf_informers f).

Definition resyncPeriod (custom : gmap string Z) (defaultResync : Z) (informerType : string) : Z :=
  match custom !! informerType with Some d => d | None => defaultResync end.

Definition InformerFor (informerType : string) (newFunc : Client -> Z -> Informer) (f : sharedInformerFactory)
  : Informer * sharedInformerFactory :=
  match sf_informers f !! informerType with
  | Some informer => (informer, f)
  | None =>
      let informer := newFunc (sf_client f) (resyncPeriod (sf_customResync f) (sf_defaultResync f) informerType) in
      (informer, with_informers (<[informerType := informer]> (sf_informers f)) f)
  end.

(** ** The factory for one workspace *)

Record sharedScopedInformerFactory : Type := MkScopedFactory {
  ssf_client : Client;
  ssf_namespace : string;
  ssf_tweakListOptions : option TweakListOptionsFunc;
  ssf_defaultResync : Z;
  ssf_customResync : gmap string Z;
  ssf_transform : option Transform;
  ssf_informers : gmap string Informer;
  ssf_startedInformers : gmap string bool
}.

Definition NewSharedScopedInformerFactoryWithOptions (client : Client) (defaultResync : Z)
    (options : list SharedInformerOption) : sharedScopedInformerFactory :=
  let opts := foldl (fun opts opt => opt opts) emptyOptions options in
  MkScopedFactory client (io_namespace opts) (io_tweakListOptions opts) defaultResync (io_customResync opts) None ∅ ∅.

Definition NewSharedScopedInformerFactory (client : Client) (defaultResync : Z) (namespace : string)
  : sharedScopedInformerFactory :=
  NewSharedScopedInformerFactoryWithOptions client defaultResync [WithNamespace namespace].

Definition with_scoped (informers : gmap string Informer) (started : gmap string bool) (f : sharedScopedInformerFactory)
  : sharedScopedInformerFactory :=
  MkScopedFactory (ssf_client f) (ssf_namespace f) (ssf_tweakListOptions f) (ssf_defaultResync f) (ssf_customResync f)
    (ssf_transform f) informers started.

Definition scopedStartInformer (acc : list (string * Informer) * sharedScopedInformerFactory) (ti : string * Informer)
  : list (string * Informer) * sharedScopedInformerFactory :=
  let '(spawned, f) := acc in
  if negb (is_started (ssf_startedInformers f) ti.1) then
    (spawned ++ [ti], with_scoped (ssf_informers f) (<[ti.1 := true]> (ssf_startedInformers f)) f)
  else (spawned, f).

Definition scoped_Start (f : sharedScopedInformerFactory) : list (string * Informer) * sharedScopedInformerFactory :=
  foldl scopedStartInformer ([], f) (range_informers (ssf_informers f)).

Definition scoped_WaitForCacheSync (f : sharedScopedInformerFactory) : gmap string bool :=
  cache_WaitForCacheSync <$> startedOnly (ssf_startedInformers f) (ssf_informers f).

Definition scoped_InformerFor (informerType : string) (newFunc : Client -> Z -> Informer) (f : sharedScopedInformerFactory)
  : Informer * sharedScopedInformerFactory :=
  match ssf_informers f !! informerType with
  | Some informer => (informer, f)
  | None =>
      let informer := newFunc (ssf_client f) (resyncPeriod (ssf_customResync f) (ssf_defaultResync f) informerType) in
      let informer := SetTransform (ssf_transform f) informer in
      (informer, with_scoped (<[informerType := informer]> (ssf_informers f)) (ssf_startedInformers f) f)
  end.

(** ** Listers *)

(** A lister for all workspaces, for one of them, and one whose store only has
    the objects of one workspace. *)
Record publishedResourceClusterLister : Type := NewPublishedResourceClusterLister { cl_indexer : Indexer }.
Record publishedResourceLister : Type := MkLister { pl_indexer : Indexer; pl_clusterName : string }.
Record publishedResourceScopedLister : Type := NewPublishedResourceLister { sl_indexer : Indexer }.

Definition clusterLister_List (s : publishedResourceClusterLister) (selector : Selector)
  : outcome (list PublishedResource) :=
  ListAll (cl_indexer s) selector.

Definition clusterLister_Cluster (s : publishedResourceClusterLister) (clusterName : string) : publishedResourceLister :=
  MkLister (cl_indexer s) clusterName.

Definition lister_List (s : publishedResourceLister) (selector : Selector) : outcome (list PublishedResource) :=
  ListAllByCluster (pl_indexer s) (pl_clusterName s) selector.

Definition lister_Get (s : publishedResourceLister) (name : string) : outcome PublishedResource :=
  let key := ToClusterAwareKey (pl_clusterName s) "" name in
  let! obj := GetByKey (pl_indexer s) key in
  match obj with Some obj => Ok obj | None => Err errNotFound end.

Definition scopedLister_List (s : publishedResourceScopedLister) (selector : Selector) : outcome (list PublishedResource) :=
  ListAll (sl_indexer s) selector.

Definition scopedLister_Get (s : publishedResourceScopedLister) (name : string) : outcome PublishedResource :=
  let key := name in
  let! obj := GetByKey (sl_indexer s) key in
  match obj with Some obj => Ok obj | None => Err errNotFound end.

(** ** Informers of PublishedResources *)

Definition tweaked (tweak : option TweakListOptionsFunc) (o : ListOptions) : ListOptions :=
  match tweak with Some f => f o | None => o end.

Definition NewFilteredPublishedResourceClusterInformer (client : Client) (resync : Z) (indexers : list string)
    (tweak : option TweakListOptionsFunc) : Informer :=
  kcp_NewSharedIndexInformer (fun options => client_List client (tweaked tweak options))
    (fun options => client_Watch client (tweaked tweak options)) resync indexers.

Definition NewPublishedResourceClusterInformer (client : Client) (resync : Z) (indexers : list string) : Informer :=
  NewFilteredPublishedResourceClusterInformer client resync indexers None.

Definition NewFilteredPublishedResourceInformer (client : Client) (resync : Z) (indexers : list string)
    (tweak : option TweakListOptionsFunc) : Informer :=
  cache_NewSharedIndexInformer (fun options => client_List client (tweaked tweak options))
    (fun options => client_Watch client (tweaked tweak options)) resync indexers.

Definition NewPublishedResourceInformer (client : Client) (resync : Z) (indexers : list string) : Informer :=
  NewFilteredPublishedResourceInformer client resync indexers None.

Definition ClusterIndexName : string := "cluster".
Definition PublishedResourceType : string := "*v1alpha1.PublishedResource".

(** The accessors on the way from a factory to an informer.  Each has a
    pointer to the factory; here the factory is passed along as state. *)
Record publishedResourceClusterInformer : Type := MkClusterInformer { ci_tweakListOptions : option TweakListOptionsFunc }.
Record version : Type := MkVersion { v_tweakListOptions : option TweakListOptionsFunc }.
Record group : Type := MkGroup { g_tweakListOptions : option TweakListOptionsFunc }.

Definition defaultInformer (i : publishedResourceClusterInformer) (client : Client) (resync : Z) : Informer :=
  NewFilteredPublishedResourceClusterInformer client resync [ClusterIndexName] (ci_tweakListOptions i).

Definition clusterInformer_Informer (i : publishedResourceClusterInformer) (f : sharedInformerFactory)
  : Informer * sharedInformerFactory :=
  InformerFor PublishedResourceType (defaultInformer i) f.

Definition clusterInformer_Lister (i : publishedResourceClusterInformer) (f : sharedInformerFactory)
  : publishedResourceClusterLister * sharedInformerFactory :=
  let '(informer, f) := clusterInformer_Informer i f in
  (NewPublishedResourceClusterLister (GetIndexer informer), f).

Record publishedResourceInformer : Type := MkPublishedResourceInformer {
  pi_informer : Informer;
  pi_lister : publishedResourceLister
}.

Definition clusterInformer_Cluster (clusterName : string) (i : publishedResourceClusterInformer) (f : sharedInformerFactory)
  : publishedResourceInformer * sharedInformerFactory :=
  let '(informer, f) := clusterInformer_Informer i f in
  let '(lister, f) := clusterInformer_Lister i f in
  (MkPublishedResourceInformer (informer_Cluster clusterName informer) (clusterLister_Cluster lister clusterName), f).

Definition version_PublishedResources (v : version) : publishedResourceClusterInformer :=
  MkClusterInformer (v_tweakListOptions v).
Definition group_V1alpha1 (g : group) : version := MkVersion (g_tweakListOptions g).
Definition Syncagent (f : sharedInformerFactory) : group := MkGroup (sf_tweakListOptions f).

(** [f.Syncagent().V1alpha1().PublishedResources().Informer()] *)
Definition PublishedResources_Informer (f : sharedInformerFactory) : Informer * sharedInformerFactory :=
  clusterInformer_Informer (version_PublishedResources (group_V1alpha1 (Syncagent f))) f.

(** The same for one workspace.  The namespace is not passed on to the
    informer: PublishedResources are cluster-scoped. *)
Record publishedResourceScopedInformer : Type := MkScopedInformer { si_tweakListOptions : option TweakListOptionsFunc }.
Record scopedVersion : Type := MkScopedVersion { sv_tweakListOptions : option TweakListOptionsFunc; sv_namespace : string }.
Record scopedGroup : Type := MkScopedGroup { sg_tweakListOptions : option TweakListOptionsFunc; sg_namespace : string }.

Definition scoped_defaultInformer (i : publishedResourceScopedInformer) (client : Client) (resync : Z) : Informer :=
  NewFilteredPublishedResourceInformer client resync [] (si_tweakListOptions i).

Definition scopedInformer_Informer (i : publishedResourceScopedInformer) (f : sharedScopedInformerFactory)
  : Informer * sharedScopedInformerFactory :=
  scoped_InformerFor PublishedResourceType (scoped_defaultInformer i) f.

Definition scopedInformer_Lister (i : publishedResourceScopedInformer) (f : sharedScopedInformerFactory)
  : publishedResourceScopedLister * sharedScopedInformerFactory :=
  let '(informer, f) := scopedInformer_Informer i f in
  (NewPublishedResourceLister (GetIndexer informer), f).

Definition scopedVersion_PublishedResources (v : scopedVersion) : publishedResourceScopedInformer :=
  MkScopedInformer (sv_tweakListOptions v).
Definition scopedGroup_V1alpha1 (g : scopedGroup) : scopedVersion :=
  MkScopedVersion (sg_tweakListOptions g) (sg_namespace g).
Definition scoped_Syncagent (f : sharedScopedInformerFactory) : scopedGroup :=
  MkScopedGroup (ssf_tweakListOptions f) (ssf_namespace f).

Definition scoped_PublishedResources_Informer (f : sharedScopedInformerFactory) : Informer * sharedScopedInformerFactory :=
  scopedInformer_Informer (scopedVersion_PublishedResources (scopedGroup_V1alpha1 (scoped_Syncagent f))) f.

(** ** [generic.go] *)

Record genericClusterInformer : Type := MkGenericClusterInformer {
  gci_informer : Informer;
  gci_resource : GroupResource
}.

(** A generic lister has a store, the resource and, when it comes from an
    informer for all workspaces, the workspace. *)
Record genericInformer : Type := MkGenericInformer {
  gi_informer : Informer;
  gi_lister : Indexer * GroupResource * option string
}.

Definition genericClusterInformer_Lister (i : genericClusterInformer) : Indexer * GroupResource :=
  (GetIndexer (gci_informer i), gci_resource i).

Definition genericClusterInformer_Cluster (i : genericClusterInformer) (clusterName : string) : genericInformer :=
  MkGenericInformer (informer_Cluster clusterName (gci_informer i)) (genericClusterInformer_Lister i, Some clusterName).

(** [GroupVersionResource.String()] *)
Definition gvrString (g : GroupVersionResource) : string :=
  gvr_group g +:+ "/" +:+ gvr_version g +:+ ", Resource=" +:+ gvr_resource g.

Definition publishedresources : GroupVersionResource := GVR "syncagent.kcp.io" "v1alpha1" "publishedresources".

Definition ForResource (resource : GroupVersionResource) (f : sharedInformerFactory)
  : outcome (genericClusterInformer * sharedInformerFactory) :=
  if decide (resource = publishedresources) then
    let '(informer, f) := PublishedResources_Informer f in
    Ok (MkGenericClusterInformer informer (GR (gvr_group resource) (gvr_resource resource)), f)
  else Err (ErrorString ("no informer found for " +:+ gvrString resource)).

Definition scoped_ForResource (resource : GroupVersionResource) (f : sharedScopedInformerFactory)
  : outcome (genericInformer * sharedScopedInformerFactory) :=
  if decide (resource = publishedresources) then
    let '(informer, f) := scoped_PublishedResources_Informer f in
    Ok (MkGenericInformer informer (GetIndexer informer, GR (gvr_group resource) (gvr_resource resource), None), f)
  else Err (ErrorString ("no informer found for " +:+ gvrString resource)).

(** [factory.Cluster(name).ForResource(resource)] *)
Definition dynamic_ForResource (clusterName : string) (resource : GroupVersionResource) (f : sharedInformerFactory)
  : outcome (genericInformer * sharedInformerFactory) :=
  let! clusterInformer := ForResource resource f in
  Ok (genericClusterInformer_Cluster clusterInformer.1 clusterName, clusterInformer.2).

(** ** Histories of a factory *)

(** What other goroutines see: the factory, the goroutines that are running,
    and those ever started. *)
Record world : Type := MkWorld {
  w_factory : sharedInformerFactory;
  w_running : list (string * Informer);
  w_log : list (string * Informer)
}.

Inductive step : world -> world -> Prop :=
| step_InformerFor t new f running log :
    step (MkWorld f running log) (MkWorld (InformerFor t new f).2 running log)
| step_Start f running log :
    step (MkWorld f running log)
      (MkWorld (factory_Start f).2 (running ++ (factory_Start f).1) (log ++ (factory_Start f).1))
| step_Shutdown f running log : step (MkWorld f running log) (MkWorld (Shutdown_mark f) running log)
| step_finish f before ti after log :
    step (MkWorld f (before ++ ti :: after) log) (MkWorld (wg_Done f) (before ++ after) log).

Definition initial (client : Client) (defaultResync : Z) (options : list SharedInformerOption) : world :=
  MkWorld (NewSharedInformerFactoryWithOptions client defaultResync options) [] [].

(** The wait group counts the running goroutines; what is marked as started
    was started once, with the informer that everybody gets. *)
Record factory_inv (w : world) : Prop := {
  fi_wg : sf_wg (w_factory w) = length (w_running w);
  fi_once : NoDup (w_log w).*1;
  fi_started t : is_started (sf_startedInformers (w_factory w)) t = true <-> t ∈ (w_log w).*1;
  fi_informer ti : ti ∈ w_log w -> sf_informers (w_factory w) !! ti.1 = Some ti.2;
  fi_running ti : ti ∈ w_running w -> ti ∈ w_log w
}.

Lemma is_started_insert m t u : is_started (<[t := true]> m) u = bool_decide (t = u) || is_started m u.
Proof.
  unfold is_started. destruct (decide (t = u)) as [->|Hne].
  - rewrite lookup_insert_eq, bool_decide_true by done. done.
  - rewrite lookup_insert_ne, bool_decide_false by done. done.
Qed.

Context {RL : InformerRangeLaws R}.

Lemma start_fold l f spawned :
  NoDup l.*1 ->
  exists new, foldl startInformer (spawned, f) l =
      (spawned ++ new, with_started (foldl (fun m ti => <[ti.1 := true]> m) (sf_startedInformers f) new)
                         (length new + sf_wg f) f) /\
    new = List.filter (fun ti => negb (is_started (sf_startedInformers f) ti.1)) l.
Proof.
  revert f spawned. induction l as [|[t i] l IH]; intros f spawned Hnd; simpl.
  { exists []. rewrite app_nil_r. by destruct f. }
  apply NoDup_cons in Hnd as [Hni Hnd]. destruct (is_started (sf_startedInformers f) t) eqn:E; simpl.
  - by apply IH.
  - edestruct (IH (with_started (<[t := true]> (sf_startedInformers f)) (S (sf_wg f)) f) (spawned ++ [(t, i)]) Hnd)
      as (new & Hf & Hnew). exists ((t, i) :: new). split.
    + rewrite Hf. simpl. rewrite <- (assoc_L (++)). simpl. unfold with_started. simpl. do 2 f_equal. lia.
    + rewrite Hnew. f_equal. apply List.filter_ext_in. intros [u j] Hin. simpl. rewrite is_started_insert.
      rewrite bool_decide_false; [done|]. intros ->. apply Hni. apply list_elem_of_fmap. exists (u, j).
      by rewrite list_elem_of_In.
Qed.

Lemma started_fold (l : list (string * Informer)) m t :
  is_started (foldl (fun m ti => <[ti.1 := true]> m) m l) t = true <-> t ∈ l.*1 \/ is_started m t = true.
Proof.
  revert m. induction l as [|[u i] l IH]; intros m; simpl; [set_solver|].
  rewrite IH, is_started_insert, orb_true_iff, bool_decide_eq_true, elem_of_cons. naive_solver.
Qed.

(** What a call of [Start] does while the factory is not shut down. *)
Lemma factory_Start_spec f :
  sf_shuttingDown f = false ->
  exists new, factory_Start f =
      (new, with_started (foldl (fun m ti => <[ti.1 := true]> m) (sf_startedInformers f) new) (length new + sf_wg f) f) /\
    NoDup new.*1 /\
    (forall ti, ti ∈ new <-> sf_informers f !! ti.1 = Some ti.2 /\ is_started (sf_startedInformers f) ti.1 = false).
Proof.
  intros Hs. unfold factory_Start. rewrite Hs.
  assert (NoDup (range_informers (sf_informers f)).*1) as Hnd.
  { rewrite range_informers_perm. apply NoDup_fst_map_to_list. }
  destruct (start_fold (range_informers (sf_informers f)) f [] Hnd) as (new & Hf & Hnew).
  exists new. rewrite Hf. split_and!; [done|..].
  - rewrite Hnew. clear -Hnd. induction (range_informers (sf_informers f)) as [|[t i] l IH]; simpl; [constructor|].
    apply NoDup_cons in Hnd as [Hni Hnd]. destruct (is_started _ t); simpl; [by apply IH|].
    apply NoDup_cons. split; [|by apply IH]. intros Hin. apply Hni.
    apply list_elem_of_fmap in Hin as (ti & -> & Hin). apply list_elem_of_fmap. exists ti. split; [done|].
    rewrite list_elem_of_In in *. by apply filter_In in Hin as [? _].
  - intros [t i]. rewrite Hnew, list_elem_of_In, filter_In, <- list_elem_of_In, range_informers_perm, elem_of_map_to_list.
    simpl. by rewrite negb_true_iff.
Qed.

Lemma InformerFor_grows t new f u i :
  sf_informers f !! u = Some i -> sf_informers (InformerFor t new f).2 !! u = Some i.
Proof.
  unfold InformerFor. destruct (sf_informers f !! t) as [j|] eqn:E; simpl; [done|].
  intros Hu. rewrite lookup_insert_ne; [done|]. by intros ->; rewrite E in Hu.
Qed.

Lemma step_inv w w' : step w w' -> factory_inv w -> factory_inv w'.
Proof.
  intros H. destruct H as [t new f running log|f running log|f running log|f before ti after log]; intros [Hwg Ho Hs Hi Hr];
    simpl in *.
  - split; simpl; try done.
    + unfold InformerFor. by destruct (sf_informers f !! t).
    + unfold InformerFor. by destruct (sf_informers f !! t).
    + intros ti Hin. by apply InformerFor_grows, Hi.
  - destruct (sf_shuttingDown f) eqn:Esd.
    { unfold factory_Start. rewrite Esd. simpl. rewrite !app_nil_r. by split. }
    destruct (factory_Start_spec f Esd) as (new & -> & Hnd & Hnew). split; simpl.
    + rewrite length_app, Hwg. lia.
    + rewrite fmap_app. apply NoDup_app. split_and!; [done| |done]. intros t Ht (ti & -> & Hin)%list_elem_of_fmap.
      apply Hnew in Hin as [_ Hin]. apply Hs in Ht. congruence.
    + intros t. rewrite started_fold, Hs, fmap_app, elem_of_app. tauto.
    + intros ti [Hin|Hin]%elem_of_app; [by apply Hi|]. by apply Hnew in Hin as [? _].
    + intros ti [Hin|Hin]%elem_of_app; apply elem_of_app; auto.
  - by split.
  - split; simpl; try done.
    + rewrite Hwg, !length_app. simpl. lia.
    + intros tj Hin. apply Hr. set_solver.
Qed.

Lemma reachable_inv client d options w : rtc step (initial client d options) w -> factory_inv w.
Proof.
  intros H. remember (initial client d options) as w0 eqn:E.
  assert (factory_inv w0) as H0.
  { subst. split; simpl; try done; [constructor| |by intros ? ?%elem_of_nil..]. intros t. split; [done|by intros ?%elem_of_nil]. }
  clear E. induction H as [|w0 w1 w2 H1 _ IH]; [done|]. by eapply IH, step_inv.
Qed.

(** Informers stay what they are, and none is started after [Shutdown]. *)
Lemma step_keeps w w' :
  step w w' ->
  (forall t i, sf_informers (w_factory w) !! t = Some i -> sf_informers (w_factory w') !! t = Some i) /\
  (sf_shuttingDown (w_factory w) = true -> sf_shuttingDown (w_factory w') = true /\ w_log w' = w_log w).
Proof.
  intros H. destruct H as [t new f running log|f running log|f running log|f before ti after log]; simpl.
  - split; [intros u i; apply InformerFor_grows|]. intros Hs. unfold InformerFor. by destruct (sf_informers f !! t).
  - destruct (sf_shuttingDown f) eqn:Esd.
    + unfold factory_Start. rewrite Esd. simpl. by rewrite app_nil_r.
    + destruct (factory_Start_spec f Esd) as (new & -> & _). by split.
  - done.
  - done.
Qed.

Lemma steps_keep w w' :
  rtc step w w' ->
  (forall t i, sf_informers (w_factory w) !! t = Some i -> sf_informers (w_factory w') !! t = Some i) /\
  (sf_shuttingDown (w_factory w) = true -> w_log w' = w_log w).
Proof.
  induction 1 as [|w w1 w2 H1 _ [IHi IHs]]; [done|]. destruct (step_keeps _ _ H1) as [Hi Hs]. split; [auto|].
  intros Hd. destruct (Hs Hd) as [Hd1 <-]. auto.
Qed.

(** C39: informers are shared and run once.  Over any history of calls and of
    goroutines that end, every informer that was ever started was started
    once, and is the one that everybody gets for its type, now and later.
    [WaitForCacheSync] asks exactly the started ones.  [Shutdown] returns
    exactly when no goroutine is running any more, and once it was called
    none is started. *)
Theorem informers_run_once client d options w :
  rtc step (initial client d options) w ->
  NoDup (w_log w).*1 /\
  (forall t i, (t, i) ∈ w_log w -> forall w', rtc step w w' -> sf_informers (w_factory w') !! t = Some i) /\
  dom (WaitForCacheSync (w_factory w)) = list_to_set (w_log w).*1 /\
  (Shutdown_returns (w_factory w) = true <-> w_running w = []) /\
  (sf_shuttingDown (w_factory w) = true -> forall w', rtc step w w' -> w_log w' = w_log w).
Proof.
  intros Hi%reachable_inv. split_and!.
  - apply Hi.
  - intros t i Hin w' Hw. apply (steps_keep w w' Hw). by apply (fi_informer w Hi (t, i)).
  - unfold WaitForCacheSync, startedOnly. rewrite dom_fmap_L. apply set_eq. intros t.
    rewrite elem_of_dom, elem_of_list_to_set, <- (fi_started w Hi). split.
    + intros [i [_ Hs]%map_lookup_filter_Some]. done.
    + intros Hs. pose proof Hs as ([u i] & -> & Hin)%(fi_started w Hi)%list_elem_of_fmap. exists i.
      apply map_lookup_filter_Some. split; [by apply (fi_informer w Hi (u, i))|done].
  - unfold Shutdown_returns. rewrite bool_decide_eq_true, (fi_wg w Hi). by destruct (w_running w).
  - intros Hd w' Hw. by apply (steps_keep w w').
Qed.

(** ** The option that has no effect *)

(** Whatever transform is configured, informers of all workspaces are made
    without it, and the factory of one workspace does not keep it. *)
Lemma transform_ignored client d options x t new :
  (InformerFor t new (NewSharedInformerFactoryWithOptions client d (options ++ [WithTransform x]))).1
  = (InformerFor t new (NewSharedInformerFactoryWithOptions client d options)).1 /\
  ssf_transform (NewSharedScopedInformerFactoryWithOptions client d (options ++ [WithTransform x])) = None.
Proof. unfold NewSharedInformerFactoryWithOptions, InformerFor. rewrite foldl_app. done. Qed.

(** A lister answers with what is stored, with an error of the store, or
    with a not-found error exactly if the key has nothing. *)
Lemma lister_Get_exact s name :
  match GetByKey (pl_indexer s) (ToClusterAwareKey (pl_clusterName s) "" name) with
  | Ok (Some p) => lister_Get s name = Ok p
  | Ok None => exists e, lister_Get s name = Err e /\ IsNotFound e = true
  | Err e => lister_Get s name = Err e
  | Panic m => lister_Get s name = Panic m
  end.
Proof. unfold lister_Get. destruct (GetByKey _ _) as [[p|]| |]; simpl; eauto. Qed.

(** Whichever way one asks for it, all get the informer and the store that
    the factory shares: once it exists, nothing is created. *)
Lemma informer_shared clusterName f i :
  sf_informers f !! PublishedResourceType = Some i ->
  PublishedResources_Informer f = (i, f) /\
  ForResource publishedresources f = Ok (MkGenericClusterInformer i (GR "syncagent.kcp.io" "publishedresources"), f) /\
  dynamic_ForResource clusterName publishedresources f
  = Ok (MkGenericInformer (informer_Cluster clusterName i)
          (GetIndexer i, GR "syncagent.kcp.io" "publishedresources", Some clusterName), f) /\
  forall a, clusterInformer_Cluster clusterName a f
  = (MkPublishedResourceInformer (informer_Cluster clusterName i) (MkLister (GetIndexer i) clusterName), f).
Proof.
  intros Hi.
  assert (forall a, clusterInformer_Informer a f = (i, f)) as Hc
    by (intros a; unfold clusterInformer_Informer, InformerFor; by rewrite Hi).
  assert (ForResource publishedresources f = Ok (MkGenericClusterInformer i (GR "syncagent.kcp.io" "publishedresources"), f))
    as Hf by (unfold ForResource, PublishedResources_Informer; by rewrite decide_True, Hc by done).
  split_and!; [apply Hc|exact Hf|unfold dynamic_ForResource; by rewrite Hf|].
  intros a. unfold clusterInformer_Cluster, clusterInformer_Lister. by rewrite !Hc.
Qed.

End Informers.

(** ** Witness *)

Module SampleInformers.

(** Informers are numbered by their resync period. *)
#[export] Instance lib : InformerLib := {|
  ListOptions := unit; Client := unit; Informer := Z; Transform := unit; Indexer := unit;
  client_List := fun _ _ => Ok VNull; client_Watch := fun _ _ => Ok VNull;
  kcp_NewSharedIndexInformer := fun _ _ resync _ => resync; cache_NewSharedIndexInformer := fun _ _ resync _ => resync;
  SetTransform := fun _ i => i; GetIndexer := fun _ => tt; informer_Cluster := fun _ i => i;
  cache_WaitForCacheSync := fun _ => true;
  GetByKey := fun _ _ => Ok None; ListAll := fun _ _ => Ok []; ListAllByCluster := fun _ _ _ => Ok [];
  ToClusterAwareKey := fun c ns n => c +:+ "|" +:+ n
|}.
#[export] Instance range : InformerRange lib := fun m => map_to_list m.
#[export] Instance range_laws : InformerRangeLaws range.
Proof. intros m. reflexivity. Qed.

(** An informer is requested, the factory started twice and shut down. *)
Definition f1 := (PublishedResources_Informer (NewSharedInformerFactory (L := lib) tt 30%Z)).2.
Definition w1 : world (L := lib) := MkWorld f1 [] [].
Definition after_start (w : world (L := lib)) : world (L := lib) :=
  MkWorld (factory_Start (w_factory w)).2 (w_running w ++ (factory_Start (w_factory w)).1)
    (w_log w ++ (factory_Start (w_factory w)).1).
Definition w2 : world (L := lib) := after_start (after_start w1).
Definition w3 : world (L := lib) := MkWorld (Shutdown_mark (w_factory w2)) (w_running w2) (w_log w2).

Lemma w3_reachable : rtc (step (L := lib)) (initial (L := lib) tt 30%Z []) w3.
Proof.
  eapply rtc_l; [apply (step_InformerFor PublishedResourceType (defaultInformer (MkClusterInformer None)))|].
  eapply rtc_l; [apply step_Start|]. eapply rtc_l; [apply step_Start|]. eapply rtc_l; [apply step_Shutdown|]. apply rtc_refl.
Qed.

End SampleInformers.
Import SampleInformers.

Lemma informers_run_once_witness :
  w_log w3 = [(PublishedResourceType, 30%Z)] /\ NoDup (w_log w3).*1 /\ Shutdown_returns (w_factory w3) = false.
Proof.
  destruct (informers_run_once (L := lib) tt 30%Z [] w3 w3_reachable) as (Hnd & _ & _ & Hret & _).
  assert (w_log w3 = [(PublishedResourceType, 30%Z)]) as Hlog by (vm_compute; reflexivity).
  split; [exact Hlog|]. split; [exact Hnd|].
  apply not_true_is_false. intros E. apply Hret in E. vm_compute in E. discriminate E.
Defined.
