(* ===== verification/ApplyConfig.v ===== *)
(** Apply configurations, [sdk/applyconfiguration]: the builders with which
    other programs describe PublishedResources for server-side apply, and the
    JSON documents that are sent.

    A configuration has optional fields; a [With] function sets one and
    returns its receiver.  Configurations are values here: a configuration
    that was handed to another one is not changed afterwards.  The struct tags
    of the Go types are written out as encoders of the configurations
    ([omitempty] everywhere) and as decoders of the types in
    [sdk/apis/syncagent/v1alpha1/published_resource.go], which is how the API
    server and the agent read the documents. *)

From S2P Require Import Prelude Kube Control ApiTypes.

(** [type RelatedResourceWatchByOwner struct{}] *)
Abbreviation RelatedResourceWatchByOwner := unit (only parsing).

(** Types of client-go. *)
Class ApplyTypes : Type := {
  Time : Type;
  OwnerReferenceApplyConfiguration : Type;
  LabelSelectorRequirementApplyConfiguration : Type
}.

Section Configurations.
Context {T : ApplyTypes}.

(** ** Structs of client-go with the fields that the builders set *)

Record LabelSelectorApplyConfiguration : Type := MkLabelSelectorC {
  lsc_MatchLabels : option (gmap string string);
  lsc_MatchExpressions : list LabelSelectorRequirementApplyConfiguration
}.

Record TypeMetaApplyConfiguration : Type := MkTypeMetaC { tmc_Kind : option string; tmc_APIVersion : option string }.

Record ObjectMetaApplyConfiguration : Type := MkObjectMetaC {
  omc_Name : option string;
  omc_GenerateName : option string;
  omc_Namespace : option string;
  omc_UID : option string;
  omc_ResourceVersion : option string;
  omc_Generation : option Z;
  omc_CreationTimestamp : option Time;
  omc_DeletionTimestamp : option Time;
  omc_DeletionGracePeriodSeconds : option Z;
  omc_Labels : option (gmap string string);
  omc_Annotations : option (gmap string string);
  omc_OwnerReferences : list OwnerReferenceApplyConfiguration;
  omc_Finalizers : list string
}.

(** ** Loops of the builders *)

(** [for i := range values { l = append(l, values[i]) }] *)
Definition appendValues {A} (l values : list A) : list A := foldl (fun l v => l ++ [v]) l values.

(** The same with pointers, none of which may be nil. *)
Definition appendConfigs {A} (name : string) (l : list A) (values : list (option A)) : outcome (list A) :=
  ofoldM (fun l v =>
    match v with
    | None => Panic ("nil value passed to " +:+ name)
    | Some c => Ok (l ++ [c])
    end) l values.

(** [m[k] = v]; writing to a nil map panics. *)
Definition putEntry (m : option (gmap string string)) (kv : string * string) : outcome (option (gmap string
    string)) :=
  match m with
  | None => Panic "assignment to entry in nil map"
  | Some m => Ok (Some (<[kv.1 := kv.2]> m))
  end.

(** [if m == nil && len(entries) > 0 { m = make(...) }; for k, v := range entries { m[k] = v }] *)
Definition putEntries (m : option (gmap string string)) (entries : gmap string string)
  : outcome (option (gmap string string)) :=
  let m := match m with
           | None => if decide (0 < size entries) then Some ∅ else None
           | Some m => Some m
           end in
  ofoldM putEntry m (map_to_list entries).

(** ** Configurations and their builders *)

Record SourceResourceDescriptorApplyConfiguration : Type := MkSourceResourceDescriptorC {
  src_APIGroup : option string;
  src_Version : option string;
  src_Versions : list string;
  src_Kind : option string
}.
Definition SourceResourceDescriptor_new : SourceResourceDescriptorApplyConfiguration :=
  MkSourceResourceDescriptorC None None [] None.
Definition SourceResourceDescriptor_WithAPIGroup (value : string) (b : SourceResourceDescriptorApplyConfiguration)
  : SourceResourceDescriptorApplyConfiguration :=
  MkSourceResourceDescriptorC (Some value) (src_Version b) (src_Versions b) (src_Kind b).
Definition SourceResourceDescriptor_WithVersion (value : string) (b : SourceResourceDescriptorApplyConfiguration)
  : SourceResourceDescriptorApplyConfiguration :=
  MkSourceResourceDescriptorC (src_APIGroup b) (Some value) (src_Versions b) (src_Kind b).
Definition SourceResourceDescriptor_WithVersions (values : list string)
    (b : SourceResourceDescriptorApplyConfiguration) : SourceResourceDescriptorApplyConfiguration :=
  MkSourceResourceDescriptorC (src_APIGroup b) (src_Version b) (appendValues (src_Versions b) values) (src_Kind b).
Definition SourceResourceDescriptor_WithKind (value : string) (b : SourceResourceDescriptorApplyConfiguration)
  : SourceResourceDescriptorApplyConfiguration :=
  MkSourceResourceDescriptorC (src_APIGroup b) (src_Version b) (src_Versions b) (Some value).

Record ResourceFilterApplyConfiguration : Type := MkResourceFilterC {
  fc_Namespace : option LabelSelectorApplyConfiguration;
  fc_Resource : option LabelSelectorApplyConfiguration
}.
Definition ResourceFilter_new : ResourceFilterApplyConfiguration := MkResourceFilterC None None.
Definition ResourceFilter_WithNamespace (value : option LabelSelectorApplyConfiguration)
    (b : ResourceFilterApplyConfiguration) : ResourceFilterApplyConfiguration :=
  MkResourceFilterC value (fc_Resource b).
Definition ResourceFilter_WithResource (value : option LabelSelectorApplyConfiguration)
    (b : ResourceFilterApplyConfiguration) : ResourceFilterApplyConfiguration :=
  MkResourceFilterC (fc_Namespace b) value.

Record ResourceNamingApplyConfiguration : Type := MkResourceNamingC {
  rnc_Name : option string;
  rnc_Namespace : option string
}.
Definition ResourceNaming_new : ResourceNamingApplyConfiguration := MkResourceNamingC None None.
Definition ResourceNaming_WithName (value : string) (b : ResourceNamingApplyConfiguration)
  : ResourceNamingApplyConfiguration :=
  MkResourceNamingC (Some value) (rnc_Namespace b).
Definition ResourceNaming_WithNamespace (value : string) (b : ResourceNamingApplyConfiguration)
  : ResourceNamingApplyConfiguration :=
  MkResourceNamingC (rnc_Name b) (Some value).

Record ResourceProjectionApplyConfiguration : Type := MkResourceProjectionC {
  pjc_Group : option string;
  pjc_Version : option string;
  pjc_Versions : option (gmap string string);
  pjc_Scope : option string;
  pjc_Kind : option string;
  pjc_Plural : option string;
  pjc_ShortNames : list string;
  pjc_Categories : list string
}.
Definition ResourceProjection_new : ResourceProjectionApplyConfiguration :=
  MkResourceProjectionC None None None None None None [] [].
Definition ResourceProjection_WithGroup (value : string) (b : ResourceProjectionApplyConfiguration)
  : ResourceProjectionApplyConfiguration :=
  MkResourceProjectionC (Some value) (pjc_Version b) (pjc_Versions b) (pjc_Scope b) (pjc_Kind b) (pjc_Plural b)
    (pjc_ShortNames b) (pjc_Categories b).
Definition ResourceProjection_WithVersion (value : string) (b : ResourceProjectionApplyConfiguration)
  : ResourceProjectionApplyConfiguration :=
  MkResourceProjectionC (pjc_Group b) (Some value) (pjc_Versions b) (pjc_Scope b) (pjc_Kind b) (pjc_Plural b)
    (pjc_ShortNames b) (pjc_Categories b).
Definition ResourceProjection_WithVersions (entries : gmap string string) (b : ResourceProjectionApplyConfiguration)
  : outcome ResourceProjectionApplyConfiguration :=
  let! m := putEntries (pjc_Versions b) entries in
  Ok (MkResourceProjectionC (pjc_Group b) (pjc_Version b) m (pjc_Scope b) (pjc_Kind b) (pjc_Plural b)
    (pjc_ShortNames b) (pjc_Categories b)).
Definition ResourceProjection_WithScope (value : string) (b : ResourceProjectionApplyConfiguration)
  : ResourceProjectionApplyConfiguration :=
  MkResourceProjectionC (pjc_Group b) (pjc_Version b) (pjc_Versions b) (Some value) (pjc_Kind b) (pjc_Plural b)
    (pjc_ShortNames b) (pjc_Categories b).
Definition ResourceProjection_WithKind (value : string) (b : ResourceProjectionApplyConfiguration)
  : ResourceProjectionApplyConfiguration :=
  MkResourceProjectionC (pjc_Group b) (pjc_Version b) (pjc_Versions b) (pjc_Scope b) (Some value) (pjc_Plural b)
    (pjc_ShortNames b) (pjc_Categories b).
Definition ResourceProjection_WithPlural (value : string) (b : ResourceProjectionApplyConfiguration)
  : ResourceProjectionApplyConfiguration :=
  MkResourceProjectionC (pjc_Group b) (pjc_Version b) (pjc_Versions b) (pjc_Scope b) (pjc_Kind b) (Some value)
    (pjc_ShortNames b) (pjc_Categories b).
Definition ResourceProjection_WithShortNames (values : list string) (b : ResourceProjectionApplyConfiguration)
  : ResourceProjectionApplyConfiguration :=
  MkResourceProjectionC (pjc_Group b) (pjc_Version b) (pjc_Versions b) (pjc_Scope b) (pjc_Kind b) (pjc_Plural b)
    (appendValues (pjc_ShortNames b) values) (pjc_Categories b).
Definition ResourceProjection_WithCategories (values : list string) (b : ResourceProjectionApplyConfiguration)
  : ResourceProjectionApplyConfiguration :=
  MkResourceProjectionC (pjc_Group b) (pjc_Version b) (pjc_Versions b) (pjc_Scope b) (pjc_Kind b) (pjc_Plural b)
    (pjc_ShortNames b) (appendValues (pjc_Categories b) values).

Record ResourceDeleteMutationApplyConfiguration : Type := MkResourceDeleteMutationC {
  dmc_Path : option string
}.
Definition ResourceDeleteMutation_new : ResourceDeleteMutationApplyConfiguration := MkResourceDeleteMutationC None.
Definition ResourceDeleteMutation_WithPath (value : string) (b : ResourceDeleteMutationApplyConfiguration)
  : ResourceDeleteMutationApplyConfiguration :=
  MkResourceDeleteMutationC (Some value).

Record ResourceRegexMutationApplyConfiguration : Type := MkResourceRegexMutationC {
  rmc_Path : option string;
  rmc_Pattern : option string;
  rmc_Replacement : option string
}.
Definition ResourceRegexMutation_new : ResourceRegexMutationApplyConfiguration :=
  MkResourceRegexMutationC None None None.
Definition ResourceRegexMutation_WithPath (value : string) (b : ResourceRegexMutationApplyConfiguration)
  : ResourceRegexMutationApplyConfiguration :=
  MkResourceRegexMutationC (Some value) (rmc_Pattern b) (rmc_Replacement b).
Definition ResourceRegexMutation_WithPattern (value : string) (b : ResourceRegexMutationApplyConfiguration)
  : ResourceRegexMutationApplyConfiguration :=
  MkResourceRegexMutationC (rmc_Path b) (Some value) (rmc_Replacement b).
Definition ResourceRegexMutation_WithReplacement (value : string) (b : ResourceRegexMutationApplyConfiguration)
  : ResourceRegexMutationApplyConfiguration :=
  MkResourceRegexMutationC (rmc_Path b) (rmc_Pattern b) (Some value).

Record ResourceTemplateMutationApplyConfiguration : Type := MkResourceTemplateMutationC {
  tmc_Path : option string;
  tmc_Template : option string
}.
Definition ResourceTemplateMutation_new : ResourceTemplateMutationApplyConfiguration :=
  MkResourceTemplateMutationC None None.
Definition ResourceTemplateMutation_WithPath (value : string) (b : ResourceTemplateMutationApplyConfiguration)
  : ResourceTemplateMutationApplyConfiguration :=
  MkResourceTemplateMutationC (Some value) (tmc_Template b).
Definition ResourceTemplateMutation_WithTemplate (value : string) (b : ResourceTemplateMutationApplyConfiguration)
  : ResourceTemplateMutationApplyConfiguration :=
  MkResourceTemplateMutationC (tmc_Path b) (Some value).

Record ResourceCELMutationApplyConfiguration : Type := MkResourceCELMutationC {
  cmc_Path : option string;
  cmc_Expression : option string
}.
Definition ResourceCELMutation_new : ResourceCELMutationApplyConfiguration := MkResourceCELMutationC None None.
Definition ResourceCELMutation_WithPath (value : string) (b : ResourceCELMutationApplyConfiguration)
  : ResourceCELMutationApplyConfiguration :=
  MkResourceCELMutationC (Some value) (cmc_Expression b).
Definition ResourceCELMutation_WithExpression (value : string) (b : ResourceCELMutationApplyConfiguration)
  : ResourceCELMutationApplyConfiguration :=
  MkResourceCELMutationC (cmc_Path b) (Some value).

Record ResourceMutationApplyConfiguration : Type := MkResourceMutationC {
  mutc_Delete : option ResourceDeleteMutationApplyConfiguration;
  mutc_Regex : option ResourceRegexMutationApplyConfiguration;
  mutc_Template : option ResourceTemplateMutationApplyConfiguration;
  mutc_CEL : option ResourceCELMutationApplyConfiguration
}.
Definition ResourceMutation_new : ResourceMutationApplyConfiguration := MkResourceMutationC None None None None.
Definition ResourceMutation_WithDelete (value : option ResourceDeleteMutationApplyConfiguration)
    (b : ResourceMutationApplyConfiguration) : ResourceMutationApplyConfiguration :=
  MkResourceMutationC value (mutc_Regex b) (mutc_Template b) (mutc_CEL b).
Definition ResourceMutation_WithRegex (value : option ResourceRegexMutationApplyConfiguration)
    (b : ResourceMutationApplyConfiguration) : ResourceMutationApplyConfiguration :=
  MkResourceMutationC (mutc_Delete b) value (mutc_Template b) (mutc_CEL b).
Definition ResourceMutation_WithTemplate (value : option ResourceTemplateMutationApplyConfiguration)
    (b : ResourceMutationApplyConfiguration) : ResourceMutationApplyConfiguration :=
  MkResourceMutationC (mutc_Delete b) (mutc_Regex b) value (mutc_CEL b).
Definition ResourceMutation_WithCEL (value : option ResourceCELMutationApplyConfiguration)
    (b : ResourceMutationApplyConfiguration) : ResourceMutationApplyConfiguration :=
  MkResourceMutationC (mutc_Delete b) (mutc_Regex b) (mutc_Template b) value.

Record ResourceMutationSpecApplyConfiguration : Type := MkResourceMutationSpecC {
  msc_Spec : list ResourceMutationApplyConfiguration;
  msc_Status : list ResourceMutationApplyConfiguration
}.
Definition ResourceMutationSpec_new : ResourceMutationSpecApplyConfiguration := MkResourceMutationSpecC [] [].
Definition ResourceMutationSpec_WithSpec (values : list (option ResourceMutationApplyConfiguration))
    (b : ResourceMutationSpecApplyConfiguration) : outcome ResourceMutationSpecApplyConfiguration :=
  let! l := appendConfigs "WithSpec" (msc_Spec b) values in
  Ok (MkResourceMutationSpecC l (msc_Status b)).
Definition ResourceMutationSpec_WithStatus (values : list (option ResourceMutationApplyConfiguration))
    (b : ResourceMutationSpecApplyConfiguration) : outcome ResourceMutationSpecApplyConfiguration :=
  let! l := appendConfigs "WithStatus" (msc_Status b) values in
  Ok (MkResourceMutationSpecC (msc_Spec b) l).

Record RelatedResourceProjectionApplyConfiguration : Type := MkRelatedResourceProjectionC {
  rpc_Group : option string;
  rpc_Version : option string;
  rpc_Resource : option string
}.
Definition RelatedResourceProjection_new : RelatedResourceProjectionApplyConfiguration :=
  MkRelatedResourceProjectionC None None None.
Definition RelatedResourceProjection_WithGroup (value : string) (b : RelatedResourceProjectionApplyConfiguration)
  : RelatedResourceProjectionApplyConfiguration :=
  MkRelatedResourceProjectionC (Some value) (rpc_Version b) (rpc_Resource b).
Definition RelatedResourceProjection_WithVersion (value : string) (b : RelatedResourceProjectionApplyConfiguration)
  : RelatedResourceProjectionApplyConfiguration :=
  MkRelatedResourceProjectionC (rpc_Group b) (Some value) (rpc_Resource b).
Definition RelatedResourceProjection_WithResource (value : string) (b : RelatedResourceProjectionApplyConfiguration)
  : RelatedResourceProjectionApplyConfiguration :=
  MkRelatedResourceProjectionC (rpc_Group b) (rpc_Version b) (Some value).

Record RegularExpressionApplyConfiguration : Type := MkRegularExpressionC {
  rec_Pattern : option string;
  rec_Replacement : option string
}.
Definition RegularExpression_new : RegularExpressionApplyConfiguration := MkRegularExpressionC None None.
Definition RegularExpression_WithPattern (value : string) (b : RegularExpressionApplyConfiguration)
  : RegularExpressionApplyConfiguration :=
  MkRegularExpressionC (Some value) (rec_Replacement b).
Definition RegularExpression_WithReplacement (value : string) (b : RegularExpressionApplyConfiguration)
  : RegularExpressionApplyConfiguration :=
  MkRegularExpressionC (rec_Pattern b) (Some value).

Record TemplateExpressionApplyConfiguration : Type := MkTemplateExpressionC {
  tec_Template : option string
}.
Definition TemplateExpression_new : TemplateExpressionApplyConfiguration := MkTemplateExpressionC None.
Definition TemplateExpression_WithTemplate (value : string) (b : TemplateExpressionApplyConfiguration)
  : TemplateExpressionApplyConfiguration :=
  MkTemplateExpressionC (Some value).

Record RelatedResourceSelectorRewriteApplyConfiguration : Type := MkRelatedResourceSelectorRewriteC {
  rwc_Regex : option RegularExpressionApplyConfiguration;
  rwc_Template : option TemplateExpressionApplyConfiguration
}.
Definition RelatedResourceSelectorRewrite_new : RelatedResourceSelectorRewriteApplyConfiguration :=
  MkRelatedResourceSelectorRewriteC None None.
Definition RelatedResourceSelectorRewrite_WithRegex (value : option RegularExpressionApplyConfiguration)
    (b : RelatedResourceSelectorRewriteApplyConfiguration) : RelatedResourceSelectorRewriteApplyConfiguration :=
  MkRelatedResourceSelectorRewriteC value (rwc_Template b).
Definition RelatedResourceSelectorRewrite_WithTemplate (value : option TemplateExpressionApplyConfiguration)
    (b : RelatedResourceSelectorRewriteApplyConfiguration) : RelatedResourceSelectorRewriteApplyConfiguration :=
  MkRelatedResourceSelectorRewriteC (rwc_Regex b) value.

Record RelatedResourceObjectSelectorApplyConfiguration : Type := MkRelatedResourceObjectSelectorC {
  selc_LabelSelectorApplyConfiguration : LabelSelectorApplyConfiguration;
  selc_Rewrite : option RelatedResourceSelectorRewriteApplyConfiguration
}.
Definition RelatedResourceObjectSelector_new : RelatedResourceObjectSelectorApplyConfiguration :=
  MkRelatedResourceObjectSelectorC (MkLabelSelectorC None []) None.
Definition RelatedResourceObjectSelector_WithMatchLabels (entries : gmap string string) (b :
    RelatedResourceObjectSelectorApplyConfiguration)
  : outcome RelatedResourceObjectSelectorApplyConfiguration :=
  let! m := putEntries (lsc_MatchLabels (selc_LabelSelectorApplyConfiguration b)) entries in
  Ok (MkRelatedResourceObjectSelectorC (MkLabelSelectorC m (lsc_MatchExpressions
    (selc_LabelSelectorApplyConfiguration b))) (selc_Rewrite b)).
Definition RelatedResourceObjectSelector_WithMatchExpressions (values : list (option
    LabelSelectorRequirementApplyConfiguration))
    (b : RelatedResourceObjectSelectorApplyConfiguration) : outcome RelatedResourceObjectSelectorApplyConfiguration :=
  let! l := appendConfigs "WithMatchExpressions" (lsc_MatchExpressions (selc_LabelSelectorApplyConfiguration
    b)) values in
  Ok (MkRelatedResourceObjectSelectorC (MkLabelSelectorC (lsc_MatchLabels
    (selc_LabelSelectorApplyConfiguration b)) l) (selc_Rewrite b)).
Definition RelatedResourceObjectSelector_WithRewrite (value : option RelatedResourceSelectorRewriteApplyConfiguration)
    (b : RelatedResourceObjectSelectorApplyConfiguration) : RelatedResourceObjectSelectorApplyConfiguration :=
  MkRelatedResourceObjectSelectorC (selc_LabelSelectorApplyConfiguration b) value.

Record RelatedResourceObjectReferenceApplyConfiguration : Type := MkRelatedResourceObjectReferenceC {
  refc_Path : option string;
  refc_Regex : option RegularExpressionApplyConfiguration
}.
Definition RelatedResourceObjectReference_new : RelatedResourceObjectReferenceApplyConfiguration :=
  MkRelatedResourceObjectReferenceC None None.
Definition RelatedResourceObjectReference_WithPath (value : string)
    (b : RelatedResourceObjectReferenceApplyConfiguration) : RelatedResourceObjectReferenceApplyConfiguration :=
  MkRelatedResourceObjectReferenceC (Some value) (refc_Regex b).
Definition RelatedResourceObjectReference_WithRegex (value : option RegularExpressionApplyConfiguration)
    (b : RelatedResourceObjectReferenceApplyConfiguration) : RelatedResourceObjectReferenceApplyConfiguration :=
  MkRelatedResourceObjectReferenceC (refc_Path b) value.

Record RelatedResourceObjectSpecApplyConfiguration : Type := MkRelatedResourceObjectSpecC {
  osc_Selector : option RelatedResourceObjectSelectorApplyConfiguration;
  osc_Reference : option RelatedResourceObjectReferenceApplyConfiguration;
  osc_Template : option TemplateExpressionApplyConfiguration
}.
Definition RelatedResourceObjectSpec_new : RelatedResourceObjectSpecApplyConfiguration :=
  MkRelatedResourceObjectSpecC None None None.
Definition RelatedResourceObjectSpec_WithSelector (value : option RelatedResourceObjectSelectorApplyConfiguration)
    (b : RelatedResourceObjectSpecApplyConfiguration) : RelatedResourceObjectSpecApplyConfiguration :=
  MkRelatedResourceObjectSpecC value (osc_Reference b) (osc_Template b).
Definition RelatedResourceObjectSpec_WithReference (value : option RelatedResourceObjectReferenceApplyConfiguration)
    (b : RelatedResourceObjectSpecApplyConfiguration) : RelatedResourceObjectSpecApplyConfiguration :=
  MkRelatedResourceObjectSpecC (osc_Selector b) value (osc_Template b).
Definition RelatedResourceObjectSpec_WithTemplate (value : option TemplateExpressionApplyConfiguration)
    (b : RelatedResourceObjectSpecApplyConfiguration) : RelatedResourceObjectSpecApplyConfiguration :=
  MkRelatedResourceObjectSpecC (osc_Selector b) (osc_Reference b) value.

Record RelatedResourceObjectApplyConfiguration : Type := MkRelatedResourceObjectC {
  roc_RelatedResourceObjectSpecApplyConfiguration : RelatedResourceObjectSpecApplyConfiguration;
  roc_Namespace : option RelatedResourceObjectSpecApplyConfiguration
}.
Definition RelatedResourceObject_new : RelatedResourceObjectApplyConfiguration :=
  MkRelatedResourceObjectC RelatedResourceObjectSpec_new None.
Definition RelatedResourceObject_WithSelector (value : option RelatedResourceObjectSelectorApplyConfiguration)
    (b : RelatedResourceObjectApplyConfiguration) : RelatedResourceObjectApplyConfiguration :=
  MkRelatedResourceObjectC
    (RelatedResourceObjectSpec_WithSelector value (roc_RelatedResourceObjectSpecApplyConfiguration b))
    (roc_Namespace b).
Definition RelatedResourceObject_WithReference (value : option RelatedResourceObjectReferenceApplyConfiguration)
    (b : RelatedResourceObjectApplyConfiguration) : RelatedResourceObjectApplyConfiguration :=
  MkRelatedResourceObjectC
    (RelatedResourceObjectSpec_WithReference value (roc_RelatedResourceObjectSpecApplyConfiguration b))
    (roc_Namespace b).
Definition RelatedResourceObject_WithTemplate (value : option TemplateExpressionApplyConfiguration)
    (b : RelatedResourceObjectApplyConfiguration) : RelatedResourceObjectApplyConfiguration :=
  MkRelatedResourceObjectC
    (RelatedResourceObjectSpec_WithTemplate value (roc_RelatedResourceObjectSpecApplyConfiguration b))
    (roc_Namespace b).
Definition RelatedResourceObject_WithNamespace (value : option RelatedResourceObjectSpecApplyConfiguration)
    (b : RelatedResourceObjectApplyConfiguration) : RelatedResourceObjectApplyConfiguration :=
  MkRelatedResourceObjectC (roc_RelatedResourceObjectSpecApplyConfiguration b) value.

Record RelatedResourceWatchApplyConfiguration : Type := MkRelatedResourceWatchC {
  wc_ByOwner : option RelatedResourceWatchByOwner;
  wc_BySelector : option LabelSelectorApplyConfiguration
}.
Definition RelatedResourceWatch_new : RelatedResourceWatchApplyConfiguration := MkRelatedResourceWatchC None None.
Definition RelatedResourceWatch_WithByOwner (value : RelatedResourceWatchByOwner)
    (b : RelatedResourceWatchApplyConfiguration) : RelatedResourceWatchApplyConfiguration :=
  MkRelatedResourceWatchC (Some value) (wc_BySelector b).
Definition RelatedResourceWatch_WithBySelector (value : option LabelSelectorApplyConfiguration)
    (b : RelatedResourceWatchApplyConfiguration) : RelatedResourceWatchApplyConfiguration :=
  MkRelatedResourceWatchC (wc_ByOwner b) value.

Record RelatedResourceSpecApplyConfiguration : Type := MkRelatedResourceSpecC {
  rrc_Identifier : option string;
  rrc_Origin : option string;
  rrc_Group : option string;
  rrc_Version : option string;
  rrc_Resource : option string;
  rrc_Kind : option string;
  rrc_IdentityHash : option string;
  rrc_Cleanup : option bool;
  rrc_CleanupPolicy : option string;
  rrc_Projection : option RelatedResourceProjectionApplyConfiguration;
  rrc_Object : option RelatedResourceObjectApplyConfiguration;
  rrc_Mutation : option ResourceMutationSpecApplyConfiguration;
  rrc_Watch : option RelatedResourceWatchApplyConfiguration;
  rrc_SyncStatus : option bool
}.
Definition RelatedResourceSpec_new : RelatedResourceSpecApplyConfiguration :=
  MkRelatedResourceSpecC None None None None None None None None None None None None None None.
Definition RelatedResourceSpec_WithIdentifier (value : string) (b : RelatedResourceSpecApplyConfiguration)
  : RelatedResourceSpecApplyConfiguration :=
  MkRelatedResourceSpecC (Some value) (rrc_Origin b) (rrc_Group b) (rrc_Version b) (rrc_Resource b) (rrc_Kind b)
    (rrc_IdentityHash b) (rrc_Cleanup b) (rrc_CleanupPolicy b) (rrc_Projection b) (rrc_Object b) (rrc_Mutation b)
    (rrc_Watch b) (rrc_SyncStatus b).
Definition RelatedResourceSpec_WithOrigin (value : string) (b : RelatedResourceSpecApplyConfiguration)
  : RelatedResourceSpecApplyConfiguration :=
  MkRelatedResourceSpecC (rrc_Identifier b) (Some value) (rrc_Group b) (rrc_Version b) (rrc_Resource b)
    (rrc_Kind b) (rrc_IdentityHash b) (rrc_Cleanup b) (rrc_CleanupPolicy b) (rrc_Projection b) (rrc_Object b)
    (rrc_Mutation b) (rrc_Watch b) (rrc_SyncStatus b).
Definition RelatedResourceSpec_WithGroup (value : string) (b : RelatedResourceSpecApplyConfiguration)
  : RelatedResourceSpecApplyConfiguration :=
  MkRelatedResourceSpecC (rrc_Identifier b) (rrc_Origin b) (Some value) (rrc_Version b) (rrc_Resource b)
    (rrc_Kind b) (rrc_IdentityHash b) (rrc_Cleanup b) (rrc_CleanupPolicy b) (rrc_Projection b) (rrc_Object b)
    (rrc_Mutation b) (rrc_Watch b) (rrc_SyncStatus b).
Definition RelatedResourceSpec_WithVersion (value : string) (b : RelatedResourceSpecApplyConfiguration)
  : RelatedResourceSpecApplyConfiguration :=
  MkRelatedResourceSpecC (rrc_Identifier b) (rrc_Origin b) (rrc_Group b) (Some value) (rrc_Resource b)
    (rrc_Kind b) (rrc_IdentityHash b) (rrc_Cleanup b) (rrc_CleanupPolicy b) (rrc_Projection b) (rrc_Object b)
    (rrc_Mutation b) (rrc_Watch b) (rrc_SyncStatus b).
Definition RelatedResourceSpec_WithResource (value : string) (b : RelatedResourceSpecApplyConfiguration)
  : RelatedResourceSpecApplyConfiguration :=
  MkRelatedResourceSpecC (rrc_Identifier b) (rrc_Origin b) (rrc_Group b) (rrc_Version b) (Some value)
    (rrc_Kind b) (rrc_IdentityHash b) (rrc_Cleanup b) (rrc_CleanupPolicy b) (rrc_Projection b) (rrc_Object b)
    (rrc_Mutation b) (rrc_Watch b) (rrc_SyncStatus b).
Definition RelatedResourceSpec_WithKind (value : string) (b : RelatedResourceSpecApplyConfiguration)
  : RelatedResourceSpecApplyConfiguration :=
  MkRelatedResourceSpecC (rrc_Identifier b) (rrc_Origin b) (rrc_Group b) (rrc_Version b) (rrc_Resource b)
    (Some value) (rrc_IdentityHash b) (rrc_Cleanup b) (rrc_CleanupPolicy b) (rrc_Projection b) (rrc_Object b)
    (rrc_Mutation b) (rrc_Watch b) (rrc_SyncStatus b).
Definition RelatedResourceSpec_WithIdentityHash (value : string) (b : RelatedResourceSpecApplyConfiguration)
  : RelatedResourceSpecApplyConfiguration :=
  MkRelatedResourceSpecC (rrc_Identifier b) (rrc_Origin b) (rrc_Group b) (rrc_Version b) (rrc_Resource b)
    (rrc_Kind b) (Some value) (rrc_Cleanup b) (rrc_CleanupPolicy b) (rrc_Projection b) (rrc_Object b)
    (rrc_Mutation b) (rrc_Watch b) (rrc_SyncStatus b).
Definition RelatedResourceSpec_WithCleanup (value : bool) (b : RelatedResourceSpecApplyConfiguration)
  : RelatedResourceSpecApplyConfiguration :=
  MkRelatedResourceSpecC (rrc_Identifier b) (rrc_Origin b) (rrc_Group b) (rrc_Version b) (rrc_Resource b)
    (rrc_Kind b) (rrc_IdentityHash b) (Some value) (rrc_CleanupPolicy b) (rrc_Projection b) (rrc_Object b)
    (rrc_Mutation b) (rrc_Watch b) (rrc_SyncStatus b).
Definition RelatedResourceSpec_WithCleanupPolicy (value : string) (b : RelatedResourceSpecApplyConfiguration)
  : RelatedResourceSpecApplyConfiguration :=
  MkRelatedResourceSpecC (rrc_Identifier b) (rrc_Origin b) (rrc_Group b) (rrc_Version b) (rrc_Resource b)
    (rrc_Kind b) (rrc_IdentityHash b) (rrc_Cleanup b) (Some value) (rrc_Projection b) (rrc_Object b)
    (rrc_Mutation b) (rrc_Watch b) (rrc_SyncStatus b).
Definition RelatedResourceSpec_WithProjection (value : option RelatedResourceProjectionApplyConfiguration)
    (b : RelatedResourceSpecApplyConfiguration) : RelatedResourceSpecApplyConfiguration :=
  MkRelatedResourceSpecC (rrc_Identifier b) (rrc_Origin b) (rrc_Group b) (rrc_Version b) (rrc_Resource b)
    (rrc_Kind b) (rrc_IdentityHash b) (rrc_Cleanup b) (rrc_CleanupPolicy b) value (rrc_Object b) (rrc_Mutation b)
    (rrc_Watch b) (rrc_SyncStatus b).
Definition RelatedResourceSpec_WithObject (value : option RelatedResourceObjectApplyConfiguration)
    (b : RelatedResourceSpecApplyConfiguration) : RelatedResourceSpecApplyConfiguration :=
  MkRelatedResourceSpecC (rrc_Identifier b) (rrc_Origin b) (rrc_Group b) (rrc_Version b) (rrc_Resource b)
    (rrc_Kind b) (rrc_IdentityHash b) (rrc_Cleanup b) (rrc_CleanupPolicy b) (rrc_Projection b) value
    (rrc_Mutation b) (rrc_Watch b) (rrc_SyncStatus b).
Definition RelatedResourceSpec_WithMutation (value : option ResourceMutationSpecApplyConfiguration)
    (b : RelatedResourceSpecApplyConfiguration) : RelatedResourceSpecApplyConfiguration :=
  MkRelatedResourceSpecC (rrc_Identifier b) (rrc_Origin b) (rrc_Group b) (rrc_Version b) (rrc_Resource b)
    (rrc_Kind b) (rrc_IdentityHash b) (rrc_Cleanup b) (rrc_CleanupPolicy b) (rrc_Projection b) (rrc_Object b)
    value (rrc_Watch b) (rrc_SyncStatus b).
Definition RelatedResourceSpec_WithWatch (value : option RelatedResourceWatchApplyConfiguration)
    (b : RelatedResourceSpecApplyConfiguration) : RelatedResourceSpecApplyConfiguration :=
  MkRelatedResourceSpecC (rrc_Identifier b) (rrc_Origin b) (rrc_Group b) (rrc_Version b) (rrc_Resource b)
    (rrc_Kind b) (rrc_IdentityHash b) (rrc_Cleanup b) (rrc_CleanupPolicy b) (rrc_Projection b) (rrc_Object b)
    (rrc_Mutation b) value (rrc_SyncStatus b).
Definition RelatedResourceSpec_WithSyncStatus (value : bool) (b : RelatedResourceSpecApplyConfiguration)
  : RelatedResourceSpecApplyConfiguration :=
  MkRelatedResourceSpecC (rrc_Identifier b) (rrc_Origin b) (rrc_Group b) (rrc_Version b) (rrc_Resource b)
    (rrc_Kind b) (rrc_IdentityHash b) (rrc_Cleanup b) (rrc_CleanupPolicy b) (rrc_Projection b) (rrc_Object b)
    (rrc_Mutation b) (rrc_Watch b) (Some value).

Record SynchronizationSpecApplyConfiguration : Type := MkSynchronizationSpecC {
  syc_Enabled : option bool
}.
Definition SynchronizationSpec_new : SynchronizationSpecApplyConfiguration := MkSynchronizationSpecC None.
Definition SynchronizationSpec_WithEnabled (value : bool) (b : SynchronizationSpecApplyConfiguration)
  : SynchronizationSpecApplyConfiguration :=
  MkSynchronizationSpecC (Some value).

Record PublishedResourceSpecApplyConfiguration : Type := MkPublishedResourceSpecC {
  psc_Resource : option SourceResourceDescriptorApplyConfiguration;
  psc_Filter : option ResourceFilterApplyConfiguration;
  psc_Naming : option ResourceNamingApplyConfiguration;
  psc_EnableWorkspacePaths : option bool;
  psc_Projection : option ResourceProjectionApplyConfiguration;
  psc_Mutation : option ResourceMutationSpecApplyConfiguration;
  psc_Related : list RelatedResourceSpecApplyConfiguration;
  psc_Synchronization : option SynchronizationSpecApplyConfiguration
}.
Definition PublishedResourceSpec_new : PublishedResourceSpecApplyConfiguration :=
  MkPublishedResourceSpecC None None None None None None [] None.
Definition PublishedResourceSpec_WithResource (value : option SourceResourceDescriptorApplyConfiguration)
    (b : PublishedResourceSpecApplyConfiguration) : PublishedResourceSpecApplyConfiguration :=
  MkPublishedResourceSpecC value (psc_Filter b) (psc_Naming b) (psc_EnableWorkspacePaths b) (psc_Projection b)
    (psc_Mutation b) (psc_Related b) (psc_Synchronization b).
Definition PublishedResourceSpec_WithFilter (value : option ResourceFilterApplyConfiguration)
    (b : PublishedResourceSpecApplyConfiguration) : PublishedResourceSpecApplyConfiguration :=
  MkPublishedResourceSpecC (psc_Resource b) value (psc_Naming b) (psc_EnableWorkspacePaths b) (psc_Projection b)
    (psc_Mutation b) (psc_Related b) (psc_Synchronization b).
Definition PublishedResourceSpec_WithNaming (value : option ResourceNamingApplyConfiguration)
    (b : PublishedResourceSpecApplyConfiguration) : PublishedResourceSpecApplyConfiguration :=
  MkPublishedResourceSpecC (psc_Resource b) (psc_Filter b) value (psc_EnableWorkspacePaths b) (psc_Projection b)
    (psc_Mutation b) (psc_Related b) (psc_Synchronization b).
Definition PublishedResourceSpec_WithEnableWorkspacePaths (value : bool)
    (b : PublishedResourceSpecApplyConfiguration) : PublishedResourceSpecApplyConfiguration :=
  MkPublishedResourceSpecC (psc_Resource b) (psc_Filter b) (psc_Naming b) (Some value) (psc_Projection b)
    (psc_Mutation b) (psc_Related b) (psc_Synchronization b).
Definition PublishedResourceSpec_WithProjection (value : option ResourceProjectionApplyConfiguration)
    (b : PublishedResourceSpecApplyConfiguration) : PublishedResourceSpecApplyConfiguration :=
  MkPublishedResourceSpecC (psc_Resource b) (psc_Filter b) (psc_Naming b) (psc_EnableWorkspacePaths b) value
    (psc_Mutation b) (psc_Related b) (psc_Synchronization b).
Definition PublishedResourceSpec_WithMutation (value : option ResourceMutationSpecApplyConfiguration)
    (b : PublishedResourceSpecApplyConfiguration) : PublishedResourceSpecApplyConfiguration :=
  MkPublishedResourceSpecC (psc_Resource b) (psc_Filter b) (psc_Naming b) (psc_EnableWorkspacePaths b)
    (psc_Projection b) value (psc_Related b) (psc_Synchronization b).
Definition PublishedResourceSpec_WithRelated (values : list (option RelatedResourceSpecApplyConfiguration))
    (b : PublishedResourceSpecApplyConfiguration) : outcome PublishedResourceSpecApplyConfiguration :=
  let! l := appendConfigs "WithRelated" (psc_Related b) values in
  Ok (MkPublishedResourceSpecC (psc_Resource b) (psc_Filter b) (psc_Naming b) (psc_EnableWorkspacePaths b)
    (psc_Projection b) (psc_Mutation b) l (psc_Synchronization b)).
Definition PublishedResourceSpec_WithSynchronization (value : option SynchronizationSpecApplyConfiguration)
    (b : PublishedResourceSpecApplyConfiguration) : PublishedResourceSpecApplyConfiguration :=
  MkPublishedResourceSpecC (psc_Resource b) (psc_Filter b) (psc_Naming b) (psc_EnableWorkspacePaths b)
    (psc_Projection b) (psc_Mutation b) (psc_Related b) value.

Record PublishedResourceStatusApplyConfiguration : Type := MkPublishedResourceStatusC {
  pstc_ResourceSchemaName : option string
}.
Definition PublishedResourceStatus_new : PublishedResourceStatusApplyConfiguration := MkPublishedResourceStatusC None.
Definition PublishedResourceStatus_WithResourceSchemaName (value : string)
    (b : PublishedResourceStatusApplyConfiguration) : PublishedResourceStatusApplyConfiguration :=
  MkPublishedResourceStatusC (Some value).

Record PublishedResourceApplyConfiguration : Type := MkPublishedResourceC {
  prc_TypeMeta : TypeMetaApplyConfiguration;
  prc_ObjectMeta : option ObjectMetaApplyConfiguration;
  prc_Spec : option PublishedResourceSpecApplyConfiguration;
  prc_Status : option PublishedResourceStatusApplyConfiguration
}.

(** The embedded pointer to the metadata, which is created when it is first
    needed. *)
Definition emptyObjectMeta : ObjectMetaApplyConfiguration :=
  MkObjectMetaC None None None None None None None None None None None [] [].
Definition ensureObjectMetaApplyConfigurationExists (b : PublishedResourceApplyConfiguration)
  : PublishedResourceApplyConfiguration :=
  match prc_ObjectMeta b with
  | None => MkPublishedResourceC (prc_TypeMeta b) (Some emptyObjectMeta) (prc_Spec b) (prc_Status b)
  | Some _ => b
  end.

(** [b.ObjectMetaApplyConfiguration.F = ...] *)
Definition updateMeta (f : ObjectMetaApplyConfiguration -> ObjectMetaApplyConfiguration)
    (b : PublishedResourceApplyConfiguration) : PublishedResourceApplyConfiguration :=
  MkPublishedResourceC (prc_TypeMeta b) (f <$> prc_ObjectMeta b) (prc_Spec b) (prc_Status b).
Definition objectMeta (b : PublishedResourceApplyConfiguration)
  : ObjectMetaApplyConfiguration := default emptyObjectMeta (prc_ObjectMeta b).

Definition PublishedResource_WithKind (value : string) (b : PublishedResourceApplyConfiguration)
  : PublishedResourceApplyConfiguration :=
  MkPublishedResourceC (MkTypeMetaC (Some value) (tmc_APIVersion (prc_TypeMeta b))) (prc_ObjectMeta b)
    (prc_Spec b) (prc_Status b).
Definition PublishedResource_WithAPIVersion (value : string) (b : PublishedResourceApplyConfiguration)
  : PublishedResourceApplyConfiguration :=
  MkPublishedResourceC (MkTypeMetaC (tmc_Kind (prc_TypeMeta b)) (Some value)) (prc_ObjectMeta b) (prc_Spec b)
    (prc_Status b).
Definition PublishedResource_WithName (value : string) (b : PublishedResourceApplyConfiguration)
  : PublishedResourceApplyConfiguration :=
  let b := ensureObjectMetaApplyConfigurationExists b in
  updateMeta (fun m =>
  MkObjectMetaC (Some value) (omc_GenerateName m) (omc_Namespace m) (omc_UID m) (omc_ResourceVersion m)
    (omc_Generation m) (omc_CreationTimestamp m) (omc_DeletionTimestamp m) (omc_DeletionGracePeriodSeconds m)
    (omc_Labels m) (omc_Annotations m) (omc_OwnerReferences m) (omc_Finalizers m) ) b.
Definition PublishedResource_WithGenerateName (value : string) (b : PublishedResourceApplyConfiguration)
  : PublishedResourceApplyConfiguration :=
  let b := ensureObjectMetaApplyConfigurationExists b in
  updateMeta (fun m =>
  MkObjectMetaC (omc_Name m) (Some value) (omc_Namespace m) (omc_UID m) (omc_ResourceVersion m)
    (omc_Generation m) (omc_CreationTimestamp m) (omc_DeletionTimestamp m) (omc_DeletionGracePeriodSeconds m)
    (omc_Labels m) (omc_Annotations m) (omc_OwnerReferences m) (omc_Finalizers m) ) b.
Definition PublishedResource_WithNamespace (value : string) (b : PublishedResourceApplyConfiguration)
  : PublishedResourceApplyConfiguration :=
  let b := ensureObjectMetaApplyConfigurationExists b in
  updateMeta (fun m =>
  MkObjectMetaC (omc_Name m) (omc_GenerateName m) (Some value) (omc_UID m) (omc_ResourceVersion m)
    (omc_Generation m) (omc_CreationTimestamp m) (omc_DeletionTimestamp m) (omc_DeletionGracePeriodSeconds m)
    (omc_Labels m) (omc_Annotations m) (omc_OwnerReferences m) (omc_Finalizers m) ) b.
Definition PublishedResource_WithUID (value : string) (b : PublishedResourceApplyConfiguration)
  : PublishedResourceApplyConfiguration :=
  let b := ensureObjectMetaApplyConfigurationExists b in
  updateMeta (fun m =>
  MkObjectMetaC (omc_Name m) (omc_GenerateName m) (omc_Namespace m) (Some value) (omc_ResourceVersion m)
    (omc_Generation m) (omc_CreationTimestamp m) (omc_DeletionTimestamp m) (omc_DeletionGracePeriodSeconds m)
    (omc_Labels m) (omc_Annotations m) (omc_OwnerReferences m) (omc_Finalizers m) ) b.
Definition PublishedResource_WithResourceVersion (value : string) (b : PublishedResourceApplyConfiguration)
  : PublishedResourceApplyConfiguration :=
  let b := ensureObjectMetaApplyConfigurationExists b in
  updateMeta (fun m =>
  MkObjectMetaC (omc_Name m) (omc_GenerateName m) (omc_Namespace m) (omc_UID m) (Some value) (omc_Generation m)
    (omc_CreationTimestamp m) (omc_DeletionTimestamp m) (omc_DeletionGracePeriodSeconds m) (omc_Labels m)
    (omc_Annotations m) (omc_OwnerReferences m) (omc_Finalizers m) ) b.
Definition PublishedResource_WithGeneration (value : Z) (b : PublishedResourceApplyConfiguration)
  : PublishedResourceApplyConfiguration :=
  let b := ensureObjectMetaApplyConfigurationExists b in
  updateMeta (fun m =>
  MkObjectMetaC (omc_Name m) (omc_GenerateName m) (omc_Namespace m) (omc_UID m) (omc_ResourceVersion m)
    (Some value) (omc_CreationTimestamp m) (omc_DeletionTimestamp m) (omc_DeletionGracePeriodSeconds m)
    (omc_Labels m) (omc_Annotations m) (omc_OwnerReferences m) (omc_Finalizers m) ) b.
Definition PublishedResource_WithCreationTimestamp (value : Time) (b : PublishedResourceApplyConfiguration)
  : PublishedResourceApplyConfiguration :=
  let b := ensureObjectMetaApplyConfigurationExists b in
  updateMeta (fun m =>
  MkObjectMetaC (omc_Name m) (omc_GenerateName m) (omc_Namespace m) (omc_UID m) (omc_ResourceVersion m)
    (omc_Generation m) (Some value) (omc_DeletionTimestamp m) (omc_DeletionGracePeriodSeconds m) (omc_Labels m)
    (omc_Annotations m) (omc_OwnerReferences m) (omc_Finalizers m) ) b.
Definition PublishedResource_WithDeletionTimestamp (value : Time) (b : PublishedResourceApplyConfiguration)
  : PublishedResourceApplyConfiguration :=
  let b := ensureObjectMetaApplyConfigurationExists b in
  updateMeta (fun m =>
  MkObjectMetaC (omc_Name m) (omc_GenerateName m) (omc_Namespace m) (omc_UID m) (omc_ResourceVersion m)
    (omc_Generation m) (omc_CreationTimestamp m) (Some value) (omc_DeletionGracePeriodSeconds m) (omc_Labels m)
    (omc_Annotations m) (omc_OwnerReferences m) (omc_Finalizers m) ) b.
Definition PublishedResource_WithDeletionGracePeriodSeconds (value : Z) (b : PublishedResourceApplyConfiguration)
  : PublishedResourceApplyConfiguration :=
  let b := ensureObjectMetaApplyConfigurationExists b in
  updateMeta (fun m =>
  MkObjectMetaC (omc_Name m) (omc_GenerateName m) (omc_Namespace m) (omc_UID m) (omc_ResourceVersion m)
    (omc_Generation m) (omc_CreationTimestamp m) (omc_DeletionTimestamp m) (Some value) (omc_Labels m)
    (omc_Annotations m) (omc_OwnerReferences m) (omc_Finalizers m) ) b.
Definition PublishedResource_WithLabels (entries : gmap string string) (b : PublishedResourceApplyConfiguration)
  : outcome PublishedResourceApplyConfiguration :=
  let b := ensureObjectMetaApplyConfigurationExists b in
  let! e := putEntries (omc_Labels (objectMeta b)) entries in
  Ok (updateMeta (fun m =>
  MkObjectMetaC (omc_Name m) (omc_GenerateName m) (omc_Namespace m) (omc_UID m) (omc_ResourceVersion m)
    (omc_Generation m) (omc_CreationTimestamp m) (omc_DeletionTimestamp m) (omc_DeletionGracePeriodSeconds m) e
    (omc_Annotations m) (omc_OwnerReferences m) (omc_Finalizers m) ) b).
Definition PublishedResource_WithAnnotations (entries : gmap string string) (b : PublishedResourceApplyConfiguration)
  : outcome PublishedResourceApplyConfiguration :=
  let b := ensureObjectMetaApplyConfigurationExists b in
  let! e := putEntries (omc_Annotations (objectMeta b)) entries in
  Ok (updateMeta (fun m =>
  MkObjectMetaC (omc_Name m) (omc_GenerateName m) (omc_Namespace m) (omc_UID m) (omc_ResourceVersion m)
    (omc_Generation m) (omc_CreationTimestamp m) (omc_DeletionTimestamp m) (omc_DeletionGracePeriodSeconds m)
    (omc_Labels m) e (omc_OwnerReferences m) (omc_Finalizers m) ) b).
Definition PublishedResource_WithOwnerReferences (values : list (option OwnerReferenceApplyConfiguration))
    (b : PublishedResourceApplyConfiguration) : outcome PublishedResourceApplyConfiguration :=
  let b := ensureObjectMetaApplyConfigurationExists b in
  let! l := appendConfigs "WithOwnerReferences" (omc_OwnerReferences (objectMeta b)) values in
  Ok (updateMeta (fun m =>
  MkObjectMetaC (omc_Name m) (omc_GenerateName m) (omc_Namespace m) (omc_UID m) (omc_ResourceVersion m)
    (omc_Generation m) (omc_CreationTimestamp m) (omc_DeletionTimestamp m) (omc_DeletionGracePeriodSeconds m)
    (omc_Labels m) (omc_Annotations m) l (omc_Finalizers m) ) b).
Definition PublishedResource_WithFinalizers (values : list string) (b : PublishedResourceApplyConfiguration)
  : PublishedResourceApplyConfiguration :=
  let b := ensureObjectMetaApplyConfigurationExists b in
  updateMeta (fun m =>
  MkObjectMetaC (omc_Name m) (omc_GenerateName m) (omc_Namespace m) (omc_UID m) (omc_ResourceVersion m)
    (omc_Generation m) (omc_CreationTimestamp m) (omc_DeletionTimestamp m) (omc_DeletionGracePeriodSeconds m)
    (omc_Labels m) (omc_Annotations m) (omc_OwnerReferences m) (appendValues (omc_Finalizers m) values) ) b.
Definition PublishedResource_WithSpec (value : option PublishedResourceSpecApplyConfiguration) (b :
    PublishedResourceApplyConfiguration)
  : PublishedResourceApplyConfiguration :=
  MkPublishedResourceC (prc_TypeMeta b) (prc_ObjectMeta b) value (prc_Status b).
Definition PublishedResource_WithStatus (value : option PublishedResourceStatusApplyConfiguration) (b :
    PublishedResourceApplyConfiguration)
  : PublishedResourceApplyConfiguration :=
  MkPublishedResourceC (prc_TypeMeta b) (prc_ObjectMeta b) (prc_Spec b) value.

(** The constructor. *)
Definition PublishedResource_new (name : string) : PublishedResourceApplyConfiguration :=
  let b := MkPublishedResourceC (MkTypeMetaC None None) None None None in
  let b := PublishedResource_WithName name b in
  let b := PublishedResource_WithKind "PublishedResource" b in
  PublishedResource_WithAPIVersion "syncagent.kcp.io/v1alpha1" b.

Definition PublishedResource_GetName (b : PublishedResourceApplyConfiguration) : option string *
    PublishedResourceApplyConfiguration :=
  let b := ensureObjectMetaApplyConfigurationExists b in
  (omc_Name (objectMeta b), b).

(** ** [utils.go] *)

(** A pointer to some configuration. *)
Inductive anyConfiguration : Type :=
| AnyPublishedResource (c : PublishedResourceApplyConfiguration)
| AnyPublishedResourceSpec (c : PublishedResourceSpecApplyConfiguration)
| AnyPublishedResourceStatus (c : PublishedResourceStatusApplyConfiguration)
| AnyRegularExpression (c : RegularExpressionApplyConfiguration)
| AnyRelatedResourceObject (c : RelatedResourceObjectApplyConfiguration)
| AnyRelatedResourceObjectReference (c : RelatedResourceObjectReferenceApplyConfiguration)
| AnyRelatedResourceObjectSelector (c : RelatedResourceObjectSelectorApplyConfiguration)
| AnyRelatedResourceObjectSpec (c : RelatedResourceObjectSpecApplyConfiguration)
| AnyRelatedResourceProjection (c : RelatedResourceProjectionApplyConfiguration)
| AnyRelatedResourceSelectorRewrite (c : RelatedResourceSelectorRewriteApplyConfiguration)
| AnyRelatedResourceSpec (c : RelatedResourceSpecApplyConfiguration)
| AnyRelatedResourceWatch (c : RelatedResourceWatchApplyConfiguration)
| AnyResourceCELMutation (c : ResourceCELMutationApplyConfiguration)
| AnyResourceDeleteMutation (c : ResourceDeleteMutationApplyConfiguration)
| AnyResourceFilter (c : ResourceFilterApplyConfiguration)
| AnyResourceMutation (c : ResourceMutationApplyConfiguration)
| AnyResourceMutationSpec (c : ResourceMutationSpecApplyConfiguration)
| AnyResourceNaming (c : ResourceNamingApplyConfiguration)
| AnyResourceProjection (c : ResourceProjectionApplyConfiguration)
| AnyResourceRegexMutation (c : ResourceRegexMutationApplyConfiguration)
| AnyResourceTemplateMutation (c : ResourceTemplateMutationApplyConfiguration)
| AnySourceResourceDescriptor (c : SourceResourceDescriptorApplyConfiguration)
| AnySynchronizationSpec (c : SynchronizationSpecApplyConfiguration)
| AnyTemplateExpression (c : TemplateExpressionApplyConfiguration).

Definition ForKind (kind : GroupVersionKind) : option anyConfiguration :=
  if decide (gvk_group kind = "syncagent.kcp.io" /\ gvk_version kind = "v1alpha1") then
    if decide (gvk_kind kind = "PublishedResource") then
        Some (AnyPublishedResource (MkPublishedResourceC (MkTypeMetaC None None) None None None))
    else if decide (gvk_kind kind = "PublishedResourceSpec") then
        Some (AnyPublishedResourceSpec PublishedResourceSpec_new)
    else if decide (gvk_kind kind = "PublishedResourceStatus") then
        Some (AnyPublishedResourceStatus PublishedResourceStatus_new)
    else if decide (gvk_kind kind = "RegularExpression") then Some (AnyRegularExpression RegularExpression_new)
    else if decide (gvk_kind kind = "RelatedResourceObject") then
        Some (AnyRelatedResourceObject RelatedResourceObject_new)
    else if decide (gvk_kind kind = "RelatedResourceObjectReference") then
        Some (AnyRelatedResourceObjectReference RelatedResourceObjectReference_new)
    else if decide (gvk_kind kind = "RelatedResourceObjectSelector") then
        Some (AnyRelatedResourceObjectSelector RelatedResourceObjectSelector_new)
    else if decide (gvk_kind kind = "RelatedResourceObjectSpec") then
        Some (AnyRelatedResourceObjectSpec RelatedResourceObjectSpec_new)
    else if decide (gvk_kind kind = "RelatedResourceProjection") then
        Some (AnyRelatedResourceProjection RelatedResourceProjection_new)
    else if decide (gvk_kind kind = "RelatedResourceSelectorRewrite") then
        Some (AnyRelatedResourceSelectorRewrite RelatedResourceSelectorRewrite_new)
    else if decide (gvk_kind kind = "RelatedResourceSpec") then Some (AnyRelatedResourceSpec RelatedResourceSpec_new)
    else if decide (gvk_kind kind = "RelatedResourceWatch") then
        Some (AnyRelatedResourceWatch RelatedResourceWatch_new)
    else if decide (gvk_kind kind = "ResourceCELMutation") then Some (AnyResourceCELMutation ResourceCELMutation_new)
    else if decide (gvk_kind kind = "ResourceDeleteMutation") then
        Some (AnyResourceDeleteMutation ResourceDeleteMutation_new)
    else if decide (gvk_kind kind = "ResourceFilter") then Some (AnyResourceFilter ResourceFilter_new)
    else if decide (gvk_kind kind = "ResourceMutation") then Some (AnyResourceMutation ResourceMutation_new)
    else if decide (gvk_kind kind = "ResourceMutationSpec") then
        Some (AnyResourceMutationSpec ResourceMutationSpec_new)
    else if decide (gvk_kind kind = "ResourceNaming") then Some (AnyResourceNaming ResourceNaming_new)
    else if decide (gvk_kind kind = "ResourceProjection") then Some (AnyResourceProjection ResourceProjection_new)
    else if decide (gvk_kind kind = "ResourceRegexMutation") then
        Some (AnyResourceRegexMutation ResourceRegexMutation_new)
    else if decide (gvk_kind kind = "ResourceTemplateMutation") then
        Some (AnyResourceTemplateMutation ResourceTemplateMutation_new)
    else if decide (gvk_kind kind = "SourceResourceDescriptor") then
        Some (AnySourceResourceDescriptor SourceResourceDescriptor_new)
    else if decide (gvk_kind kind = "SynchronizationSpec") then Some (AnySynchronizationSpec SynchronizationSpec_new)
    else if decide (gvk_kind kind = "TemplateExpression") then Some (AnyTemplateExpression TemplateExpression_new)
    else None
  else None.

End Configurations.

(** ** Documents *)

(** An object from its fields; fields without value are left out. *)
Definition omit (fields : list (string * option value)) : gmap string value :=
  foldr (fun f m => match f.2 with Some v => <[f.1 := v]> m | None => m end) ∅ fields.

(** [omitempty] for the kinds of Go types. *)
Definition json_string (o : option string) : option value := VStr <$> o.
Definition json_bool (o : option bool) : option value := VBool <$> o.
Definition json_strings (l : list string) : option value :=
  match l with [] => None | _ => Some (VArr (VStr <$> l)) end.
Definition json_map (o : option (gmap string string)) : option value :=
  let m := default ∅ o in if decide (m = ∅) then None else Some (VObj (VStr <$> m)).
Definition json_ptr {C} (encode : C -> gmap string value) (o : option C) : option value :=
  (fun c => VObj (encode c)) <$> o.
Definition json_slice {C} (encode : C -> gmap string value) (l : list C) : option value :=
  match l with [] => None | _ => Some (VArr ((fun c => VObj (encode c)) <$> l)) end.

(** Reading a field: a missing one and [null] give the zero value. *)
Definition errUnmarshal : gerror := ErrorString "json: cannot unmarshal".
Definition read_string (m : gmap string value) (k : string) : outcome string :=
  match m !! k with None | Some VNull => Ok "" | Some (VStr s) => Ok s | Some _ => Err errUnmarshal end.
Definition read_bool (m : gmap string value) (k : string) : outcome bool :=
  match m !! k with None | Some VNull => Ok false | Some (VBool b) => Ok b | Some _ => Err errUnmarshal end.
Definition as_string (v : value) : outcome string :=
  match v with VStr s => Ok s | VNull => Ok "" | _ => Err errUnmarshal end.
Definition as_object {A} (decode : gmap string value -> outcome A) (v : value) : outcome A :=
  match v with VObj m => decode m | VNull => decode ∅ | _ => Err errUnmarshal end.
(** [None] is a nil slice. *)
Definition read_slice {A} (decode : value -> outcome A) (m : gmap string value) (k : string) : outcome (option
    (list A)) :=
  match m !! k with
  | None | Some VNull => Ok None
  | Some (VArr l) => let! l := omapM decode l in Ok (Some l)
  | Some _ => Err errUnmarshal
  end.
Definition read_list {A} (decode : value -> outcome A) (m : gmap string value) (k : string) : outcome (list A) :=
  let! l := read_slice decode m k in Ok (default [] l).
Definition read_map (m : gmap string value) (k : string) : outcome (gmap string string) :=
  match m !! k with
  | None | Some VNull => Ok ∅
  | Some (VObj e) =>
      let! l := omapM (fun kv : string * value => let! s := as_string kv.2 in Ok (kv.1, s)) (map_to_list e) in
      Ok (list_to_map l)
  | Some _ => Err errUnmarshal
  end.
Definition read_ptr {A} (decode : gmap string value -> outcome A) (m : gmap string value) (k : string)
  : outcome (option A) :=
  match m !! k with
  | None | Some VNull => Ok None
  | Some v => let! a := as_object decode v in Ok (Some a)
  end.
Definition read_struct {A} (decode : gmap string value -> outcome A) (m : gmap string value) (k : string) :
    outcome A :=
  match m !! k with None => decode ∅ | Some v => as_object decode v end.

(** JSON of the structs of client-go and apimachinery: how metadata is
    written, and how label selectors are written and read. *)
Class ApplyJson (T : ApplyTypes) : Type := {
  meta_value : ObjectMetaApplyConfiguration -> value;
  requirement_config : LabelSelectorRequirement -> LabelSelectorRequirementApplyConfiguration;
  LabelSelector_encode : LabelSelectorApplyConfiguration -> gmap string value;
  LabelSelector_decode : gmap string value -> outcome LabelSelector
}.

Section Documents.
Context {T : ApplyTypes} {J : ApplyJson T}.

(** *** What a configuration sends *)

Definition SourceResourceDescriptor_fields (c : SourceResourceDescriptorApplyConfiguration) : list (string *
    option value) :=
  [("apiGroup", json_string (src_APIGroup c));
     ("version", json_string (src_Version c));
     ("versions", json_strings (src_Versions c));
     ("kind", json_string (src_Kind c))].
Definition SourceResourceDescriptor_encode (c : SourceResourceDescriptorApplyConfiguration) : gmap string value :=
  omit (SourceResourceDescriptor_fields c).
Definition ResourceFilter_fields (c : ResourceFilterApplyConfiguration) : list (string * option value) :=
  [("namespace", json_ptr LabelSelector_encode (fc_Namespace c));
     ("resource", json_ptr LabelSelector_encode (fc_Resource c))].
Definition ResourceFilter_encode (c : ResourceFilterApplyConfiguration) : gmap string value :=
  omit (ResourceFilter_fields c).
Definition ResourceNaming_fields (c : ResourceNamingApplyConfiguration) : list (string * option value) :=
  [("name", json_string (rnc_Name c));
     ("namespace", json_string (rnc_Namespace c))].
Definition ResourceNaming_encode (c : ResourceNamingApplyConfiguration) : gmap string value :=
  omit (ResourceNaming_fields c).
Definition ResourceProjection_fields (c : ResourceProjectionApplyConfiguration) : list (string * option value) :=
  [("group", json_string (pjc_Group c));
     ("version", json_string (pjc_Version c));
     ("versions", json_map (pjc_Versions c));
     ("scope", json_string (pjc_Scope c));
     ("kind", json_string (pjc_Kind c));
     ("plural", json_string (pjc_Plural c));
     ("shortNames", json_strings (pjc_ShortNames c));
     ("categories", json_strings (pjc_Categories c))].
Definition ResourceProjection_encode (c : ResourceProjectionApplyConfiguration) : gmap string value :=
  omit (ResourceProjection_fields c).
Definition ResourceDeleteMutation_fields (c : ResourceDeleteMutationApplyConfiguration) : list (string * option
    value) :=
  [("path", json_string (dmc_Path c))].
Definition ResourceDeleteMutation_encode (c : ResourceDeleteMutationApplyConfiguration) : gmap string value :=
  omit (ResourceDeleteMutation_fields c).
Definition ResourceRegexMutation_fields (c : ResourceRegexMutationApplyConfiguration) : list (string * option
    value) :=
  [("path", json_string (rmc_Path c));
     ("pattern", json_string (rmc_Pattern c));
     ("replacement", json_string (rmc_Replacement c))].
Definition ResourceRegexMutation_encode (c : ResourceRegexMutationApplyConfiguration) : gmap string value :=
  omit (ResourceRegexMutation_fields c).
Definition ResourceTemplateMutation_fields (c : ResourceTemplateMutationApplyConfiguration) : list (string *
    option value) :=
  [("path", json_string (tmc_Path c));
     ("template", json_string (tmc_Template c))].
Definition ResourceTemplateMutation_encode (c : ResourceTemplateMutationApplyConfiguration) : gmap string value :=
  omit (ResourceTemplateMutation_fields c).
Definition ResourceCELMutation_fields (c : ResourceCELMutationApplyConfiguration) : list (string * option value) :=
  [("path", json_string (cmc_Path c));
     ("expression", json_string (cmc_Expression c))].
Definition ResourceCELMutation_encode (c : ResourceCELMutationApplyConfiguration) : gmap string value :=
  omit (ResourceCELMutation_fields c).
Definition ResourceMutation_fields (c : ResourceMutationApplyConfiguration) : list (string * option value) :=
  [("delete", json_ptr ResourceDeleteMutation_encode (mutc_Delete c));
     ("regex", json_ptr ResourceRegexMutation_encode (mutc_Regex c));
     ("template", json_ptr ResourceTemplateMutation_encode (mutc_Template c));
     ("cel", json_ptr ResourceCELMutation_encode (mutc_CEL c))].
Definition ResourceMutation_encode (c : ResourceMutationApplyConfiguration) : gmap string value :=
  omit (ResourceMutation_fields c).
Definition ResourceMutationSpec_fields (c : ResourceMutationSpecApplyConfiguration) : list (string * option value) :=
  [("spec", json_slice ResourceMutation_encode (msc_Spec c));
     ("status", json_slice ResourceMutation_encode (msc_Status c))].
Definition ResourceMutationSpec_encode (c : ResourceMutationSpecApplyConfiguration) : gmap string value :=
  omit (ResourceMutationSpec_fields c).
Definition RelatedResourceProjection_fields (c : RelatedResourceProjectionApplyConfiguration) : list (string *
    option value) :=
  [("group", json_string (rpc_Group c));
     ("version", json_string (rpc_Version c));
     ("resource", json_string (rpc_Resource c))].
Definition RelatedResourceProjection_encode (c : RelatedResourceProjectionApplyConfiguration) : gmap string value :=
  omit (RelatedResourceProjection_fields c).
Definition RegularExpression_fields (c : RegularExpressionApplyConfiguration) : list (string * option value) :=
  [("pattern", json_string (rec_Pattern c));
     ("replacement", json_string (rec_Replacement c))].
Definition RegularExpression_encode (c : RegularExpressionApplyConfiguration) : gmap string value :=
  omit (RegularExpression_fields c).
Definition TemplateExpression_fields (c : TemplateExpressionApplyConfiguration) : list (string * option value) :=
  [("template", json_string (tec_Template c))].
Definition TemplateExpression_encode (c : TemplateExpressionApplyConfiguration) : gmap string value :=
  omit (TemplateExpression_fields c).
Definition RelatedResourceSelectorRewrite_fields (c : RelatedResourceSelectorRewriteApplyConfiguration) : list
    (string * option value) :=
  [("regex", json_ptr RegularExpression_encode (rwc_Regex c));
     ("template", json_ptr TemplateExpression_encode (rwc_Template c))].
Definition RelatedResourceSelectorRewrite_encode (c : RelatedResourceSelectorRewriteApplyConfiguration) : gmap
    string value :=
  omit (RelatedResourceSelectorRewrite_fields c).
Definition RelatedResourceObjectSelector_encode (c : RelatedResourceObjectSelectorApplyConfiguration) : gmap
    string value :=
  LabelSelector_encode (selc_LabelSelectorApplyConfiguration c) ∪ omit [("rewrite", json_ptr
    RelatedResourceSelectorRewrite_encode (selc_Rewrite c))].
Definition RelatedResourceObjectReference_fields (c : RelatedResourceObjectReferenceApplyConfiguration) : list
    (string * option value) :=
  [("path", json_string (refc_Path c));
     ("regex", json_ptr RegularExpression_encode (refc_Regex c))].
Definition RelatedResourceObjectReference_encode (c : RelatedResourceObjectReferenceApplyConfiguration) : gmap
    string value :=
  omit (RelatedResourceObjectReference_fields c).
Definition RelatedResourceObjectSpec_fields (c : RelatedResourceObjectSpecApplyConfiguration) : list (string *
    option value) :=
  [("selector", json_ptr RelatedResourceObjectSelector_encode (osc_Selector c));
     ("reference", json_ptr RelatedResourceObjectReference_encode (osc_Reference c));
     ("template", json_ptr TemplateExpression_encode (osc_Template c))].
Definition RelatedResourceObjectSpec_encode (c : RelatedResourceObjectSpecApplyConfiguration) : gmap string value :=
  omit (RelatedResourceObjectSpec_fields c).
Definition RelatedResourceObject_fields (c : RelatedResourceObjectApplyConfiguration) : list (string * option
    value) :=
  RelatedResourceObjectSpec_fields (roc_RelatedResourceObjectSpecApplyConfiguration c) ++ [("namespace",
    json_ptr RelatedResourceObjectSpec_encode (roc_Namespace c))].
Definition RelatedResourceObject_encode (c : RelatedResourceObjectApplyConfiguration) : gmap string value :=
  omit (RelatedResourceObject_fields c).
Definition RelatedResourceWatch_fields (c : RelatedResourceWatchApplyConfiguration) : list (string * option value) :=
  [("byOwner", json_ptr (fun _ => ∅) (wc_ByOwner c));
     ("bySelector", json_ptr LabelSelector_encode (wc_BySelector c))].
Definition RelatedResourceWatch_encode (c : RelatedResourceWatchApplyConfiguration) : gmap string value :=
  omit (RelatedResourceWatch_fields c).
Definition RelatedResourceSpec_fields (c : RelatedResourceSpecApplyConfiguration) : list (string * option value) :=
  [("identifier", json_string (rrc_Identifier c));
     ("origin", json_string (rrc_Origin c));
     ("group", json_string (rrc_Group c));
     ("version", json_string (rrc_Version c));
     ("resource", json_string (rrc_Resource c));
     ("kind", json_string (rrc_Kind c));
     ("identityHash", json_string (rrc_IdentityHash c));
     ("cleanup", json_bool (rrc_Cleanup c));
     ("cleanupPolicy", json_string (rrc_CleanupPolicy c));
     ("projection", json_ptr RelatedResourceProjection_encode (rrc_Projection c));
     ("object", json_ptr RelatedResourceObject_encode (rrc_Object c));
     ("mutation", json_ptr ResourceMutationSpec_encode (rrc_Mutation c));
     ("watch", json_ptr RelatedResourceWatch_encode (rrc_Watch c));
     ("syncStatus", json_bool (rrc_SyncStatus c))].
Definition RelatedResourceSpec_encode (c : RelatedResourceSpecApplyConfiguration) : gmap string value :=
  omit (RelatedResourceSpec_fields c).
Definition SynchronizationSpec_fields (c : SynchronizationSpecApplyConfiguration) : list (string * option value) :=
  [("enabled", json_bool (syc_Enabled c))].
Definition SynchronizationSpec_encode (c : SynchronizationSpecApplyConfiguration) : gmap string value :=
  omit (SynchronizationSpec_fields c).
Definition PublishedResourceSpec_fields (c : PublishedResourceSpecApplyConfiguration) : list (string * option
    value) :=
  [("resource", json_ptr SourceResourceDescriptor_encode (psc_Resource c));
     ("filter", json_ptr ResourceFilter_encode (psc_Filter c));
     ("naming", json_ptr ResourceNaming_encode (psc_Naming c));
     ("enableWorkspacePaths", json_bool (psc_EnableWorkspacePaths c));
     ("projection", json_ptr ResourceProjection_encode (psc_Projection c));
     ("mutation", json_ptr ResourceMutationSpec_encode (psc_Mutation c));
     ("related", json_slice RelatedResourceSpec_encode (psc_Related c));
     ("synchronization", json_ptr SynchronizationSpec_encode (psc_Synchronization c))].
Definition PublishedResourceSpec_encode (c : PublishedResourceSpecApplyConfiguration) : gmap string value :=
  omit (PublishedResourceSpec_fields c).
Definition PublishedResourceStatus_fields (c : PublishedResourceStatusApplyConfiguration) : list (string *
    option value) :=
  [("resourceSchemaName", json_string (pstc_ResourceSchemaName c))].
Definition PublishedResourceStatus_encode (c : PublishedResourceStatusApplyConfiguration) : gmap string value :=
  omit (PublishedResourceStatus_fields c).
Definition PublishedResource_encode (c : PublishedResourceApplyConfiguration) : gmap string value :=
  omit [("kind", json_string (tmc_Kind (prc_TypeMeta c)));
     ("apiVersion", json_string (tmc_APIVersion (prc_TypeMeta c)));
     ("metadata", meta_value <$> prc_ObjectMeta c);
     ("spec", json_ptr PublishedResourceSpec_encode (prc_Spec c));
     ("status", json_ptr PublishedResourceStatus_encode (prc_Status c))].

(** *** How a PublishedResource is read *)

Definition SourceResourceDescriptor_decode (m : gmap string value) : outcome SourceResourceDescriptor :=
  let! x_APIGroup := read_string m "apiGroup" in
  let! x_Version := read_string m "version" in
  let! x_Versions := read_list as_string m "versions" in
  let! x_Kind := read_string m "kind" in
  Ok (MkSource x_APIGroup x_Version x_Versions x_Kind).
Definition ResourceFilter_decode (m : gmap string value) : outcome ResourceFilter :=
  let! x_Namespace := read_ptr LabelSelector_decode m "namespace" in
  let! x_Resource := read_ptr LabelSelector_decode m "resource" in
  Ok (MkFilter x_Namespace x_Resource).
Definition ResourceNaming_decode (m : gmap string value) : outcome ResourceNaming :=
  let! x_Name := read_string m "name" in
  let! x_Namespace := read_string m "namespace" in
  Ok (MkNaming x_Name x_Namespace).
Definition ResourceProjection_decode (m : gmap string value) : outcome ResourceProjection :=
  let! x_Group := read_string m "group" in
  let! x_Version := read_string m "version" in
  let! x_Versions := read_map m "versions" in
  let! x_Scope := read_string m "scope" in
  let! x_Kind := read_string m "kind" in
  let! x_Plural := read_string m "plural" in
  let! x_ShortNames := read_slice as_string m "shortNames" in
  let! x_Categories := read_slice as_string m "categories" in
  Ok (MkProjection x_Group x_Version x_Versions x_Scope x_Kind x_Plural x_ShortNames x_Categories).
Definition ResourceDeleteMutation_decode (m : gmap string value) : outcome ResourceDeleteMutation :=
  let! x_Path := read_string m "path" in
  Ok (MkDeleteMutation x_Path).
Definition ResourceRegexMutation_decode (m : gmap string value) : outcome ResourceRegexMutation :=
  let! x_Path := read_string m "path" in
  let! x_Pattern := read_string m "pattern" in
  let! x_Replacement := read_string m "replacement" in
  Ok (MkRegexMutation x_Path x_Pattern x_Replacement).
Definition ResourceTemplateMutation_decode (m : gmap string value) : outcome ResourceTemplateMutation :=
  let! x_Path := read_string m "path" in
  let! x_Template := read_string m "template" in
  Ok (MkTemplateMutation x_Path x_Template).
Definition ResourceCELMutation_decode (m : gmap string value) : outcome ResourceCELMutation :=
  let! x_Path := read_string m "path" in
  let! x_Expression := read_string m "expression" in
  Ok (MkCELMutation x_Path x_Expression).
Definition ResourceMutation_decode (m : gmap string value) : outcome ResourceMutation :=
  let! x_Delete := read_ptr ResourceDeleteMutation_decode m "delete" in
  let! x_Regex := read_ptr ResourceRegexMutation_decode m "regex" in
  let! x_Template := read_ptr ResourceTemplateMutation_decode m "template" in
  let! x_CEL := read_ptr ResourceCELMutation_decode m "cel" in
  Ok (MkMutation x_Delete x_Regex x_Template x_CEL).
Definition ResourceMutationSpec_decode (m : gmap string value) : outcome ResourceMutationSpec :=
  let! x_Spec := read_list (as_object ResourceMutation_decode) m "spec" in
  let! x_Status := read_list (as_object ResourceMutation_decode) m "status" in
  Ok (MkMutationSpec x_Spec x_Status).
Definition RelatedResourceProjection_decode (m : gmap string value) : outcome RelatedResourceProjection :=
  let! x_Group := read_string m "group" in
  let! x_Version := read_string m "version" in
  let! x_Resource := read_string m "resource" in
  Ok (MkRelatedProjection x_Group x_Version x_Resource).
Definition RegularExpression_decode (m : gmap string value) : outcome RegularExpression :=
  let! x_Pattern := read_string m "pattern" in
  let! x_Replacement := read_string m "replacement" in
  Ok (MkRegex x_Pattern x_Replacement).
Definition TemplateExpression_decode (m : gmap string value) : outcome TemplateExpression :=
  let! x_Template := read_string m "template" in
  Ok (MkTemplate x_Template).
Definition RelatedResourceSelectorRewrite_decode (m : gmap string value) : outcome RelatedResourceSelectorRewrite :=
  let! x_Regex := read_ptr RegularExpression_decode m "regex" in
  let! x_Template := read_ptr TemplateExpression_decode m "template" in
  Ok (MkRewrite x_Regex x_Template).
Definition RelatedResourceObjectSelector_decode (m : gmap string value) : outcome RelatedResourceObjectSelector :=
  let! x_LabelSelector := LabelSelector_decode m in
  let! x_Rewrite := read_struct RelatedResourceSelectorRewrite_decode m "rewrite" in
  Ok (MkObjectSelector x_LabelSelector x_Rewrite).
Definition RelatedResourceObjectReference_decode (m : gmap string value) : outcome RelatedResourceObjectReference :=
  let! x_Path := read_string m "path" in
  let! x_Regex := read_ptr RegularExpression_decode m "regex" in
  Ok (MkReference x_Path x_Regex).
Definition RelatedResourceObjectSpec_decode (m : gmap string value) : outcome RelatedResourceObjectSpec :=
  let! x_Selector := read_ptr RelatedResourceObjectSelector_decode m "selector" in
  let! x_Reference := read_ptr RelatedResourceObjectReference_decode m "reference" in
  let! x_Template := read_ptr TemplateExpression_decode m "template" in
  Ok (MkObjectSpec x_Selector x_Reference x_Template).
Definition RelatedResourceObject_decode (m : gmap string value) : outcome RelatedResourceObject :=
  let! x_RelatedResourceObjectSpec := RelatedResourceObjectSpec_decode m in
  let! x_Namespace := read_ptr RelatedResourceObjectSpec_decode m "namespace" in
  Ok (MkRelatedObject x_RelatedResourceObjectSpec x_Namespace).
Definition RelatedResourceWatch_decode (m : gmap string value) : outcome RelatedResourceWatch :=
  let! x_ByOwner := read_ptr (fun _ => Ok tt) m "byOwner" in
  let! x_BySelector := read_ptr LabelSelector_decode m "bySelector" in
  Ok (MkWatch x_ByOwner x_BySelector).
Definition RelatedResourceSpec_decode (m : gmap string value) : outcome RelatedResourceSpec :=
  let! x_Identifier := read_string m "identifier" in
  let! x_Origin := read_string m "origin" in
  let! x_Group := read_string m "group" in
  let! x_Version := read_string m "version" in
  let! x_Resource := read_string m "resource" in
  let! x_Kind := read_string m "kind" in
  let! x_IdentityHash := read_string m "identityHash" in
  let! x_Cleanup := read_bool m "cleanup" in
  let! x_CleanupPolicy := read_string m "cleanupPolicy" in
  let! x_Projection := read_ptr RelatedResourceProjection_decode m "projection" in
  let! x_Object := read_struct RelatedResourceObject_decode m "object" in
  let! x_Mutation := read_ptr ResourceMutationSpec_decode m "mutation" in
  let! x_Watch := read_ptr RelatedResourceWatch_decode m "watch" in
  let! x_SyncStatus := read_bool m "syncStatus" in
  Ok
    (MkRelated x_Identifier x_Origin x_Group x_Version x_Resource x_Kind x_IdentityHash x_Cleanup
      x_CleanupPolicy x_Projection x_Object x_Mutation x_Watch x_SyncStatus).
Definition SynchronizationSpec_decode (m : gmap string value) : outcome SynchronizationSpec :=
  let! x_Enabled := read_bool m "enabled" in
  Ok (MkSynchronization x_Enabled).
Definition PublishedResourceSpec_decode (m : gmap string value) : outcome PublishedResourceSpec :=
  let! x_Resource := read_struct SourceResourceDescriptor_decode m "resource" in
  let! x_Filter := read_ptr ResourceFilter_decode m "filter" in
  let! x_Naming := read_ptr ResourceNaming_decode m "naming" in
  let! x_EnableWorkspacePaths := read_bool m "enableWorkspacePaths" in
  let! x_Projection := read_ptr ResourceProjection_decode m "projection" in
  let! x_Mutation := read_ptr ResourceMutationSpec_decode m "mutation" in
  let! x_Related := read_list (as_object RelatedResourceSpec_decode) m "related" in
  let! x_Synchronization := read_ptr SynchronizationSpec_decode m "synchronization" in
  Ok
    (MkPubResSpec x_Resource x_Filter x_Naming x_EnableWorkspacePaths x_Projection x_Mutation x_Related
      x_Synchronization).
Definition PublishedResourceStatus_decode (m : gmap string value) : outcome PublishedResourceStatus :=
  let! x_ResourceSchemaName := read_string m "resourceSchemaName" in
  Ok (MkPubResStatus x_ResourceSchemaName).

End Documents.
