(* ===== verification/ApplyConfigProofs.v ===== *)
(** What can be described with the apply configurations of ApplyConfig.v.

    A client program goes over a [PublishedResource] and calls the builder
    of every field ([_config]).  The document it sends is read back as the
    same value, with one exception, which no use of the builders can avoid:
    the empty lists of short names and categories, which tell the agent to
    remove them. *)

From S2P Require Import Prelude Kube Control ApiTypes ApplyConfig.

(** ** Fields of documents *)

Fixpoint field_of (k : string) (l : list (string * option value)) : option value :=
  match l with
  | [] => None
  | (k', o) :: l => if String.eqb k k' then o else field_of k l
  end.

Lemma field_of_absent k l : k ∉ l.*1 -> field_of k l = None.
Proof.
  induction l as [|[k' o] l IH]; simpl; [done|]. rewrite not_elem_of_cons. intros [Hk Hl].
  destruct (String.eqb_spec k k'); [done|auto].
Qed.

Lemma lookup_omit l k : NoDup l.*1 -> omit l !! k = field_of k l.
Proof.
  induction l as [|[k' o] l IH]; simpl; [done|]. intros [Hk' Hnd]%NoDup_cons.
  destruct (String.eqb_spec k k') as [->|Hk].
  - destruct o as [v|]; simpl; [by rewrite lookup_insert_eq|]. by rewrite IH, field_of_absent.
  - destruct o as [v|]; simpl; [rewrite lookup_insert_ne by done|]; auto.
Qed.

(** Keys are written out, so that they are compared by computation. *)
Ltac distinct_keys := apply (bool_decide_unpack _); vm_compute; exact I.
Ltac field := rewrite lookup_omit by distinct_keys; reflexivity.

Lemma read_string_ok m k s : m !! k = json_string (Some s) -> read_string m k = Ok s.
Proof. unfold read_string. by intros ->. Qed.

Lemma read_bool_ok m k b : m !! k = json_bool (Some b) -> read_bool m k = Ok b.
Proof. unfold read_bool. by intros ->. Qed.

Lemma omapM_ok {A B C} (f : C -> outcome B) (g : A -> C) (h : A -> B) l :
  (forall a, f (g a) = Ok (h a)) -> omapM f (g <$> l) = Ok (h <$> l).
Proof.
  intros Hf. induction l as [|a l IH]; [done|].
  rewrite !fmap_cons. cbn [omapM]. rewrite Hf. cbn [obind]. by rewrite IH.
Qed.

Lemma read_slice_strings m k l :
  m !! k = json_strings l -> read_slice as_string m k = Ok (match l with [] => None | _ => Some l end).
Proof.
  unfold read_slice. intros ->. destruct l as [|s l]; [done|].
  unfold json_strings. rewrite (omapM_ok _ _ id) by done. by rewrite list_fmap_id.
Qed.

Lemma read_strings_ok m k l : m !! k = json_strings l -> read_list as_string m k = Ok l.
Proof. unfold read_list. intros ->%read_slice_strings. by destruct l. Qed.

Lemma read_map_ok m k o : m !! k = json_map o -> read_map m k = Ok (default ∅ o).
Proof.
  unfold read_map, json_map. intros ->. case_decide as E; [by rewrite E|].
  rewrite map_to_list_fmap, (omapM_ok _ _ id) by (by intros []). simpl.
  by rewrite list_fmap_id, list_to_map_to_list.
Qed.

Lemma read_ptr_ok {A C} (enc : C -> gmap string value) (dec : gmap string value -> outcome A) m k o o' :
  m !! k = json_ptr enc o' -> option_Forall2 (fun c a => dec (enc c) = Ok a) o' o -> read_ptr dec m k = Ok o.
Proof. unfold read_ptr. intros -> [c a Hd|]; simpl; [by rewrite Hd|done]. Qed.

Lemma read_struct_ok {A C} (enc : C -> gmap string value) (dec : gmap string value -> outcome A) m k c a :
  m !! k = json_ptr enc (Some c) -> dec (enc c) = Ok a -> read_struct dec m k = Ok a.
Proof. unfold read_struct. by intros -> Hd. Qed.

Lemma read_configs_ok {A C} (enc : C -> gmap string value) (dec : gmap string value -> outcome A) m k cs l :
  m !! k = json_slice enc cs -> Forall2 (fun c a => dec (enc c) = Ok a) cs l -> read_list (as_object dec) m k = Ok l.
Proof.
  unfold read_list, read_slice. intros -> HF.
  assert (omapM (as_object dec) ((fun c => VObj (enc c)) <$> cs) = Ok l) as E.
  { induction HF as [|c a cs l Hc _ IH]; [done|].
    rewrite fmap_cons. cbn [omapM as_object]. rewrite Hc. cbn [obind]. by rewrite IH. }
  destruct cs; [by inversion HF|]. unfold json_slice. by rewrite E.
Qed.

Lemma obind_step {A B} (m : outcome A) (k : A -> outcome B) a b : m = Ok a -> k a = Ok b -> obind m k = Ok b.
Proof. by intros ->. Qed.

(** ** Loops of the builders *)

Lemma appendValues_app {A} (l values : list A) : appendValues l values = l ++ values.
Proof.
  unfold appendValues. revert l. induction values as [|v values IH]; intros l; simpl; [by rewrite app_nil_r|].
  by rewrite IH, <- app_assoc.
Qed.

Lemma appendConfigs_some {A} name (l cs : list A) : appendConfigs name l (Some <$> cs) = Ok (l ++ cs).
Proof.
  unfold appendConfigs. revert l. induction cs as [|c cs IH]; intros l; simpl; [by rewrite app_nil_r|].
  by rewrite IH, <- app_assoc.
Qed.

Lemma putEntry_fold l (m : gmap string string) :
  ofoldM putEntry (Some m) l = Ok (Some (foldl (fun m kv => <[kv.1 := kv.2]> m) m l)).
Proof. revert m. induction l as [|kv l IH]; intros m; simpl; [done|]. apply IH. Qed.

Lemma foldl_insert_union (l : list (string * string)) (m : gmap string string) :
  NoDup l.*1 -> foldl (fun m kv => <[kv.1 := kv.2]> m) m l = list_to_map l ∪ m.
Proof.
  revert m. induction l as [|[k v] l IH]; intros m; simpl; [by rewrite (left_id_L ∅ (∪))|].
  intros [Hk Hnd]%NoDup_cons. rewrite IH by done. simpl.
  rewrite <- insert_union_l, <- insert_union_r; [done|]. by apply not_elem_of_list_to_map.
Qed.

Lemma read_appended_ok m k l : m !! k = json_strings (appendValues [] l) -> read_list as_string m k = Ok l.
Proof. rewrite appendValues_app. apply read_strings_ok. Qed.

(** A builder for a map never writes to a nil map, and puts all entries. *)
Lemma putEntries_ok m entries :
  putEntries m entries = Ok (if decide (m = None /\ entries = ∅) then None else Some (entries ∪ default ∅ m)).
Proof.
  unfold putEntries.
  assert (forall m', ofoldM putEntry (Some m') (map_to_list entries) = Ok (Some (entries ∪ m'))) as Hf.
  { intros m'. rewrite putEntry_fold, foldl_insert_union by apply NoDup_fst_map_to_list. by rewrite list_to_map_to_list. }
  destruct m as [m|]; [rewrite decide_False by naive_solver; apply Hf|].
  case_decide as Hs.
  - rewrite decide_False; [apply Hf|]. intros [_ ->]. rewrite map_size_empty in Hs. lia.
  - assert (entries = ∅) as -> by (apply map_size_empty_iff; lia). by rewrite decide_True.
Qed.

(** ** Describing values *)

Section Describe.
Context {T : ApplyTypes} {J : ApplyJson T}.

Definition opt_config {X C} (config : X -> outcome C) (o : option X) : outcome (option C) :=
  match o with None => Ok None | Some x => let! c := config x in Ok (Some c) end.

(** A label selector, as described with the builders of client-go. *)
Definition LabelSelector_config (s : LabelSelector) : LabelSelectorApplyConfiguration :=
  MkLabelSelectorC (if decide (MatchLabels s = ∅) then None else Some (MatchLabels s))
    (requirement_config <$> MatchExpressions s).

Definition SourceResourceDescriptor_config (x : SourceResourceDescriptor)
  : outcome SourceResourceDescriptorApplyConfiguration :=
  let b := SourceResourceDescriptor_new in
  let b := SourceResourceDescriptor_WithAPIGroup (sr_APIGroup x) b in
  let b := SourceResourceDescriptor_WithVersion (sr_Version x) b in
  let b := SourceResourceDescriptor_WithVersions (sr_Versions x) b in
  let b := SourceResourceDescriptor_WithKind (sr_Kind x) b in
  Ok b.
Definition ResourceFilter_config (x : ResourceFilter) : outcome ResourceFilterApplyConfiguration :=
  let b := ResourceFilter_new in
  let b := ResourceFilter_WithNamespace (LabelSelector_config <$> (f_Namespace x)) b in
  let b := ResourceFilter_WithResource (LabelSelector_config <$> (f_Resource x)) b in
  Ok b.
Definition ResourceNaming_config (x : ResourceNaming) : outcome ResourceNamingApplyConfiguration :=
  let b := ResourceNaming_new in
  let b := ResourceNaming_WithName (rn_Name x) b in
  let b := ResourceNaming_WithNamespace (rn_Namespace x) b in
  Ok b.
Definition ResourceProjection_config (x : ResourceProjection) : outcome ResourceProjectionApplyConfiguration :=
  let b := ResourceProjection_new in
  let b := ResourceProjection_WithGroup (pj_Group x) b in
  let b := ResourceProjection_WithVersion (pj_Version x) b in
  let! b := ResourceProjection_WithVersions (pj_Versions x) b in
  let b := ResourceProjection_WithScope (pj_Scope x) b in
  let b := ResourceProjection_WithKind (pj_Kind x) b in
  let b := ResourceProjection_WithPlural (pj_Plural x) b in
  let b := match (pj_ShortNames x) with None => b | Some l => ResourceProjection_WithShortNames l b end in
  let b := match (pj_Categories x) with None => b | Some l => ResourceProjection_WithCategories l b end in
  Ok b.
Definition ResourceDeleteMutation_config (x : ResourceDeleteMutation)
  : outcome ResourceDeleteMutationApplyConfiguration :=
  let b := ResourceDeleteMutation_new in
  let b := ResourceDeleteMutation_WithPath (dm_Path x) b in
  Ok b.
Definition ResourceRegexMutation_config (x : ResourceRegexMutation)
  : outcome ResourceRegexMutationApplyConfiguration :=
  let b := ResourceRegexMutation_new in
  let b := ResourceRegexMutation_WithPath (rm_Path x) b in
  let b := ResourceRegexMutation_WithPattern (rm_Pattern x) b in
  let b := ResourceRegexMutation_WithReplacement (rm_Replacement x) b in
  Ok b.
Definition ResourceTemplateMutation_config (x : ResourceTemplateMutation)
  : outcome ResourceTemplateMutationApplyConfiguration :=
  let b := ResourceTemplateMutation_new in
  let b := ResourceTemplateMutation_WithPath (tm_Path x) b in
  let b := ResourceTemplateMutation_WithTemplate (tm_Template x) b in
  Ok b.
Definition ResourceCELMutation_config (x : ResourceCELMutation) : outcome ResourceCELMutationApplyConfiguration :=
  let b := ResourceCELMutation_new in
  let b := ResourceCELMutation_WithPath (cm_Path x) b in
  let b := ResourceCELMutation_WithExpression (cm_Expression x) b in
  Ok b.
Definition ResourceMutation_config (x : ResourceMutation) : outcome ResourceMutationApplyConfiguration :=
  let b := ResourceMutation_new in
  let! c := opt_config ResourceDeleteMutation_config (mut_Delete x) in
  let b := ResourceMutation_WithDelete c b in
  let! c := opt_config ResourceRegexMutation_config (mut_Regex x) in
  let b := ResourceMutation_WithRegex c b in
  let! c := opt_config ResourceTemplateMutation_config (mut_Template x) in
  let b := ResourceMutation_WithTemplate c b in
  let! c := opt_config ResourceCELMutation_config (mut_CEL x) in
  let b := ResourceMutation_WithCEL c b in
  Ok b.
Definition ResourceMutationSpec_config (x : ResourceMutationSpec) : outcome ResourceMutationSpecApplyConfiguration :=
  let b := ResourceMutationSpec_new in
  let! cs := omapM ResourceMutation_config (ms_Spec x) in
  let! b := ResourceMutationSpec_WithSpec (Some <$> cs) b in
  let! cs := omapM ResourceMutation_config (ms_Status x) in
  let! b := ResourceMutationSpec_WithStatus (Some <$> cs) b in
  Ok b.
Definition RelatedResourceProjection_config (x : RelatedResourceProjection)
  : outcome RelatedResourceProjectionApplyConfiguration :=
  let b := RelatedResourceProjection_new in
  let b := RelatedResourceProjection_WithGroup (rp_Group x) b in
  let b := RelatedResourceProjection_WithVersion (rp_Version x) b in
  let b := RelatedResourceProjection_WithResource (rp_Resource x) b in
  Ok b.
Definition RegularExpression_config (x : RegularExpression) : outcome RegularExpressionApplyConfiguration :=
  let b := RegularExpression_new in
  let b := RegularExpression_WithPattern (re_Pattern x) b in
  let b := RegularExpression_WithReplacement (re_Replacement x) b in
  Ok b.
Definition TemplateExpression_config (x : TemplateExpression) : outcome TemplateExpressionApplyConfiguration :=
  let b := TemplateExpression_new in
  let b := TemplateExpression_WithTemplate (te_Template x) b in
  Ok b.
Definition RelatedResourceSelectorRewrite_config (x : RelatedResourceSelectorRewrite)
  : outcome RelatedResourceSelectorRewriteApplyConfiguration :=
  let b := RelatedResourceSelectorRewrite_new in
  let! c := opt_config RegularExpression_config (rw_Regex x) in
  let b := RelatedResourceSelectorRewrite_WithRegex c b in
  let! c := opt_config TemplateExpression_config (rw_Template x) in
  let b := RelatedResourceSelectorRewrite_WithTemplate c b in
  Ok b.
Definition RelatedResourceObjectSelector_config (x : RelatedResourceObjectSelector)
  : outcome RelatedResourceObjectSelectorApplyConfiguration :=
  let b := RelatedResourceObjectSelector_new in
  let! b := RelatedResourceObjectSelector_WithMatchLabels (MatchLabels (sel_LabelSelector x)) b in
  let! b := RelatedResourceObjectSelector_WithMatchExpressions
    (Some <$> (requirement_config <$> MatchExpressions (sel_LabelSelector x))) b in
  let! c := RelatedResourceSelectorRewrite_config (sel_Rewrite x) in
  let b := RelatedResourceObjectSelector_WithRewrite (Some c) b in
  Ok b.
Definition RelatedResourceObjectReference_config (x : RelatedResourceObjectReference)
  : outcome RelatedResourceObjectReferenceApplyConfiguration :=
  let b := RelatedResourceObjectReference_new in
  let b := RelatedResourceObjectReference_WithPath (ref_Path x) b in
  let! c := opt_config RegularExpression_config (ref_Regex x) in
  let b := RelatedResourceObjectReference_WithRegex c b in
  Ok b.
Definition RelatedResourceObjectSpec_config (x : RelatedResourceObjectSpec)
  : outcome RelatedResourceObjectSpecApplyConfiguration :=
  let b := RelatedResourceObjectSpec_new in
  let! c := opt_config RelatedResourceObjectSelector_config (os_Selector x) in
  let b := RelatedResourceObjectSpec_WithSelector c b in
  let! c := opt_config RelatedResourceObjectReference_config (os_Reference x) in
  let b := RelatedResourceObjectSpec_WithReference c b in
  let! c := opt_config TemplateExpression_config (os_Template x) in
  let b := RelatedResourceObjectSpec_WithTemplate c b in
  Ok b.
Definition RelatedResourceObject_config (x : RelatedResourceObject)
  : outcome RelatedResourceObjectApplyConfiguration :=
  let b := RelatedResourceObject_new in
  let! c := opt_config RelatedResourceObjectSelector_config (os_Selector (ro_Spec x)) in
  let b := RelatedResourceObject_WithSelector c b in
  let! c := opt_config RelatedResourceObjectReference_config (os_Reference (ro_Spec x)) in
  let b := RelatedResourceObject_WithReference c b in
  let! c := opt_config TemplateExpression_config (os_Template (ro_Spec x)) in
  let b := RelatedResourceObject_WithTemplate c b in
  let! c := opt_config RelatedResourceObjectSpec_config (ro_Namespace x) in
  let b := RelatedResourceObject_WithNamespace c b in
  Ok b.
Definition RelatedResourceWatch_config (x : RelatedResourceWatch) : outcome RelatedResourceWatchApplyConfiguration :=
  let b := RelatedResourceWatch_new in
  let b := match (w_ByOwner x) with None => b | Some o => RelatedResourceWatch_WithByOwner o b end in
  let b := RelatedResourceWatch_WithBySelector (LabelSelector_config <$> (w_BySelector x)) b in
  Ok b.
Definition RelatedResourceSpec_config (x : RelatedResourceSpec) : outcome RelatedResourceSpecApplyConfiguration :=
  let b := RelatedResourceSpec_new in
  let b := RelatedResourceSpec_WithIdentifier (rr_Identifier x) b in
  let b := RelatedResourceSpec_WithOrigin (rr_Origin x) b in
  let b := RelatedResourceSpec_WithGroup (rr_Group x) b in
  let b := RelatedResourceSpec_WithVersion (rr_Version x) b in
  let b := RelatedResourceSpec_WithResource (rr_Resource x) b in
  let b := RelatedResourceSpec_WithKind (rr_Kind x) b in
  let b := RelatedResourceSpec_WithIdentityHash (rr_IdentityHash x) b in
  let b := RelatedResourceSpec_WithCleanup (rr_Cleanup x) b in
  let b := RelatedResourceSpec_WithCleanupPolicy (rr_CleanupPolicy x) b in
  let! c := opt_config RelatedResourceProjection_config (rr_Projection x) in
  let b := RelatedResourceSpec_WithProjection c b in
  let! c := RelatedResourceObject_config (rr_Object x) in
  let b := RelatedResourceSpec_WithObject (Some c) b in
  let! c := opt_config ResourceMutationSpec_config (rr_Mutation x) in
  let b := RelatedResourceSpec_WithMutation c b in
  let! c := opt_config RelatedResourceWatch_config (rr_Watch x) in
  let b := RelatedResourceSpec_WithWatch c b in
  let b := RelatedResourceSpec_WithSyncStatus (rr_SyncStatus x) b in
  Ok b.
Definition SynchronizationSpec_config (x : SynchronizationSpec) : outcome SynchronizationSpecApplyConfiguration :=
  let b := SynchronizationSpec_new in
  let b := SynchronizationSpec_WithEnabled (sy_Enabled x) b in
  Ok b.
Definition PublishedResourceSpec_config (x : PublishedResourceSpec)
  : outcome PublishedResourceSpecApplyConfiguration :=
  let b := PublishedResourceSpec_new in
  let! c := SourceResourceDescriptor_config (ps_Resource x) in
  let b := PublishedResourceSpec_WithResource (Some c) b in
  let! c := opt_config ResourceFilter_config (ps_Filter x) in
  let b := PublishedResourceSpec_WithFilter c b in
  let! c := opt_config ResourceNaming_config (ps_Naming x) in
  let b := PublishedResourceSpec_WithNaming c b in
  let b := PublishedResourceSpec_WithEnableWorkspacePaths (ps_EnableWorkspacePaths x) b in
  let! c := opt_config ResourceProjection_config (ps_Projection x) in
  let b := PublishedResourceSpec_WithProjection c b in
  let! c := opt_config ResourceMutationSpec_config (ps_Mutation x) in
  let b := PublishedResourceSpec_WithMutation c b in
  let! cs := omapM RelatedResourceSpec_config (ps_Related x) in
  let! b := PublishedResourceSpec_WithRelated (Some <$> cs) b in
  let! c := opt_config SynchronizationSpec_config (ps_Synchronization x) in
  let b := PublishedResourceSpec_WithSynchronization c b in
  Ok b.
Definition PublishedResourceStatus_config (x : PublishedResourceStatus)
  : outcome PublishedResourceStatusApplyConfiguration :=
  let b := PublishedResourceStatus_new in
  let b := PublishedResourceStatus_WithResourceSchemaName (pst_ResourceSchemaName x) b in
  Ok b.

Definition PublishedResource_config (p : PublishedResource) : outcome PublishedResourceApplyConfiguration :=
  let b := PublishedResource_new (pr_Name p) in
  let! spec := PublishedResourceSpec_config (pr_Spec p) in
  let! status := PublishedResourceStatus_config (pr_Status p) in
  let b := PublishedResource_WithSpec (Some spec) b in
  Ok (PublishedResource_WithStatus (Some status) b).

(** ** Reading back *)

(** The documented format of label selectors: they have two fields, which
    are read back, whatever other fields there are. *)
Class ApplyJsonLaws : Prop := {
  selector_keys c k : k ∉ ["matchLabels"; "matchExpressions"] -> LabelSelector_encode c !! k = None;
  selector_roundtrip s extra :
    (forall k, k ∈ ["matchLabels"; "matchExpressions"] -> extra !! k = None) ->
    LabelSelector_decode (LabelSelector_encode (LabelSelector_config s) ∪ extra) = Ok s
}.

(** A value is described without a panic, and what is sent is read as it. *)
Definition expresses {X C} (config : X -> outcome C) (encode : C -> gmap string value)
    (decode : gmap string value -> outcome X) (x : X) : Prop :=
  exists c, config x = Ok c /\ decode (encode c) = Ok x.

Class Expressible {X C} (config : X -> outcome C) (encode : C -> gmap string value)
    (decode : gmap string value -> outcome X) : Prop := expressible x : expresses config encode decode x.

Lemma opt_expressible {X C} {config : X -> outcome C} {enc dec} {E : Expressible config enc dec} o :
  exists o', opt_config config o = Ok o' /\ option_Forall2 (fun c x => dec (enc c) = Ok x) o' o.
Proof.
  destruct o as [x|]; [|exists None; split; [done|constructor]].
  destruct (expressible (config := config) x) as (c & Hc & Hd). exists (Some c). simpl. rewrite Hc.
  split; [done|by constructor].
Qed.

Lemma list_expressible {X C} {config : X -> outcome C} {enc dec} {E : Expressible config enc dec} l :
  exists cs, omapM config l = Ok cs /\ Forall2 (fun c x => dec (enc c) = Ok x) cs l.
Proof.
  induction l as [|x l (cs & Hcs & HF)]; [by exists []; split; [|constructor]|].
  destruct (expressible (config := config) x) as (c & Hc & Hd). exists (c :: cs). simpl. rewrite Hc. simpl. rewrite Hcs.
  split; [done|by constructor].
Qed.

Context {JL : ApplyJsonLaws}.

Lemma selector_ptr_ok o :
  option_Forall2 (fun c s => LabelSelector_decode (LabelSelector_encode c) = Ok s) (LabelSelector_config <$> o) o.
Proof.
  destruct o as [s|]; constructor. rewrite <- (right_id_L ∅ (∪) (LabelSelector_encode _)). by apply selector_roundtrip.
Qed.

(** The steps of a description, and those of reading it. *)
Ltac describe :=
  repeat (cbn [obind]; match goal with
  | |- context [opt_config ?f ?o] => destruct (opt_expressible (config := f) o) as (? & -> & ?)
  | |- context [omapM ?f ?l] => destruct (list_expressible (config := f) l) as (? & -> & ?)
  | |- context [appendConfigs _ _ (Some <$> ?cs)] => rewrite (appendConfigs_some _ _ cs)
  | |- context [putEntries ?m ?e] => rewrite (putEntries_ok m e)
  end).
Ltac read_field :=
  first [ eapply read_string_ok; field | eapply read_bool_ok; field
        | eapply read_appended_ok; field
        | eapply read_ptr_ok; [field|first [eassumption | apply selector_ptr_ok]]
        | eapply read_configs_ok; [field|eassumption]
        | eapply read_struct_ok; [field|eassumption] ].
Ltac read_fields := repeat (eapply obind_step; [read_field|]); cbn [obind].
Ltac expresses := cbn [obind]; eexists; (split; [reflexivity|]); read_fields; reflexivity.
Tactic Notation "solve_expressible" reference(config) reference(enc) reference(dec) :=
  intros []; unfold expresses, config, enc, dec; describe; expresses.

#[local] Instance SourceResourceDescriptor_expressible :
  Expressible SourceResourceDescriptor_config SourceResourceDescriptor_encode SourceResourceDescriptor_decode.
Proof. solve_expressible SourceResourceDescriptor_config SourceResourceDescriptor_encode SourceResourceDescriptor_decode. Qed.
#[local] Instance ResourceFilter_expressible :
  Expressible ResourceFilter_config ResourceFilter_encode ResourceFilter_decode.
Proof. solve_expressible ResourceFilter_config ResourceFilter_encode ResourceFilter_decode. Qed.
#[local] Instance ResourceNaming_expressible :
  Expressible ResourceNaming_config ResourceNaming_encode ResourceNaming_decode.
Proof. solve_expressible ResourceNaming_config ResourceNaming_encode ResourceNaming_decode. Qed.
#[local] Instance ResourceDeleteMutation_expressible :
  Expressible ResourceDeleteMutation_config ResourceDeleteMutation_encode ResourceDeleteMutation_decode.
Proof. solve_expressible ResourceDeleteMutation_config ResourceDeleteMutation_encode ResourceDeleteMutation_decode. Qed.
#[local] Instance ResourceRegexMutation_expressible :
  Expressible ResourceRegexMutation_config ResourceRegexMutation_encode ResourceRegexMutation_decode.
Proof. solve_expressible ResourceRegexMutation_config ResourceRegexMutation_encode ResourceRegexMutation_decode. Qed.
#[local] Instance ResourceTemplateMutation_expressible :
  Expressible ResourceTemplateMutation_config ResourceTemplateMutation_encode ResourceTemplateMutation_decode.
Proof. solve_expressible ResourceTemplateMutation_config ResourceTemplateMutation_encode ResourceTemplateMutation_decode. Qed.
#[local] Instance ResourceCELMutation_expressible :
  Expressible ResourceCELMutation_config ResourceCELMutation_encode ResourceCELMutation_decode.
Proof. solve_expressible ResourceCELMutation_config ResourceCELMutation_encode ResourceCELMutation_decode. Qed.
#[local] Instance ResourceMutation_expressible :
  Expressible ResourceMutation_config ResourceMutation_encode ResourceMutation_decode.
Proof. solve_expressible ResourceMutation_config ResourceMutation_encode ResourceMutation_decode. Qed.
#[local] Instance ResourceMutationSpec_expressible :
  Expressible ResourceMutationSpec_config ResourceMutationSpec_encode ResourceMutationSpec_decode.
Proof.
  intros []. unfold expresses, ResourceMutationSpec_config, ResourceMutationSpec_encode, ResourceMutationSpec_decode, ResourceMutationSpec_WithSpec,
    ResourceMutationSpec_WithStatus. describe. expresses.
Qed.
#[local] Instance RelatedResourceProjection_expressible :
  Expressible RelatedResourceProjection_config RelatedResourceProjection_encode RelatedResourceProjection_decode.
Proof. solve_expressible RelatedResourceProjection_config RelatedResourceProjection_encode RelatedResourceProjection_decode. Qed.
#[local] Instance RegularExpression_expressible :
  Expressible RegularExpression_config RegularExpression_encode RegularExpression_decode.
Proof. solve_expressible RegularExpression_config RegularExpression_encode RegularExpression_decode. Qed.
#[local] Instance TemplateExpression_expressible :
  Expressible TemplateExpression_config TemplateExpression_encode TemplateExpression_decode.
Proof. solve_expressible TemplateExpression_config TemplateExpression_encode TemplateExpression_decode. Qed.
#[local] Instance RelatedResourceSelectorRewrite_expressible :
  Expressible RelatedResourceSelectorRewrite_config RelatedResourceSelectorRewrite_encode RelatedResourceSelectorRewrite_decode.
Proof. solve_expressible RelatedResourceSelectorRewrite_config RelatedResourceSelectorRewrite_encode RelatedResourceSelectorRewrite_decode. Qed.

(** The embedded selector is described by the same two fields as a selector
    of its own. *)
#[local] Instance RelatedResourceObjectSelector_expressible :
  Expressible RelatedResourceObjectSelector_config RelatedResourceObjectSelector_encode RelatedResourceObjectSelector_decode.
Proof.
  intros [s rw]. destruct (expressible (config := RelatedResourceSelectorRewrite_config) rw) as (c & Hc & Hd).
  exists (MkRelatedResourceObjectSelectorC (LabelSelector_config s) (Some c)). split.
  - unfold RelatedResourceObjectSelector_config, RelatedResourceObjectSelector_WithMatchLabels,
      RelatedResourceObjectSelector_WithMatchExpressions. describe. cbn [sel_Rewrite]. rewrite Hc. cbn [obind].
    unfold LabelSelector_config. do 2 f_equal. simpl. f_equal.
    rewrite (right_id_L ∅ (∪)). repeat case_decide; naive_solver.
  - unfold RelatedResourceObjectSelector_decode, RelatedResourceObjectSelector_encode.
    eapply obind_step; [apply selector_roundtrip|].
    { intros k Hk. rewrite lookup_omit by distinct_keys. simpl.
      destruct (String.eqb_spec k "rewrite") as [->|]; [|done]. apply (bool_decide_pack _) in Hk. by vm_compute in Hk. }
    eapply obind_step; [eapply read_struct_ok; [|eassumption]|reflexivity].
    rewrite lookup_union_r; [field|]. apply selector_keys. distinct_keys.
Qed.
#[local] Instance RelatedResourceObjectReference_expressible :
  Expressible RelatedResourceObjectReference_config RelatedResourceObjectReference_encode RelatedResourceObjectReference_decode.
Proof. solve_expressible RelatedResourceObjectReference_config RelatedResourceObjectReference_encode RelatedResourceObjectReference_decode. Qed.
#[local] Instance RelatedResourceObjectSpec_expressible :
  Expressible RelatedResourceObjectSpec_config RelatedResourceObjectSpec_encode RelatedResourceObjectSpec_decode.
Proof. solve_expressible RelatedResourceObjectSpec_config RelatedResourceObjectSpec_encode RelatedResourceObjectSpec_decode. Qed.
#[local] Instance RelatedResourceObject_expressible :
  Expressible RelatedResourceObject_config RelatedResourceObject_encode RelatedResourceObject_decode.
Proof.
  intros [[] ns]. unfold expresses, RelatedResourceObject_config, RelatedResourceObject_encode, RelatedResourceObject_decode.
  describe. eexists. split; [reflexivity|].
  eapply obind_step; [unfold RelatedResourceObjectSpec_decode; read_fields; reflexivity|]. read_fields. reflexivity.
Qed.
#[local] Instance RelatedResourceWatch_expressible :
  Expressible RelatedResourceWatch_config RelatedResourceWatch_encode RelatedResourceWatch_decode.
Proof.
  intros [o s]. unfold expresses, RelatedResourceWatch_config, RelatedResourceWatch_encode, RelatedResourceWatch_decode.
  eexists. split; [reflexivity|].
  eapply obind_step; [apply (read_ptr_ok (fun _ => ∅) _ _ _ o o)|].
  - destruct o as [[]|]; field.
  - destruct o as [[]|]; by constructor.
  - destruct o as [[]|]; read_fields; reflexivity.
Qed.
#[local] Instance SynchronizationSpec_expressible :
  Expressible SynchronizationSpec_config SynchronizationSpec_encode SynchronizationSpec_decode.
Proof. solve_expressible SynchronizationSpec_config SynchronizationSpec_encode SynchronizationSpec_decode. Qed.
#[local] Instance PublishedResourceStatus_expressible :
  Expressible PublishedResourceStatus_config PublishedResourceStatus_encode PublishedResourceStatus_decode.
Proof. solve_expressible PublishedResourceStatus_config PublishedResourceStatus_encode PublishedResourceStatus_decode. Qed.
#[local] Instance RelatedResourceSpec_expressible :
  Expressible RelatedResourceSpec_config RelatedResourceSpec_encode RelatedResourceSpec_decode.
Proof.
  intros x. destruct (expressible (config := RelatedResourceObject_config) (rr_Object x)) as (c & Hc & Hd).
  unfold expresses, RelatedResourceSpec_config, RelatedResourceSpec_encode, RelatedResourceSpec_decode.
  describe. rewrite Hc. describe. destruct x. expresses.
Qed.

(** ** What cannot be described *)

(** Lists of short names and categories that are there are not empty. *)
Definition proj_describable (p : ResourceProjection) : Prop := pj_ShortNames p <> Some [] /\ pj_Categories p <> Some [].
Definition describable (s : PublishedResourceSpec) : Prop :=
  match ps_Projection s with None => True | Some p => proj_describable p end.

Lemma read_optional_ok m k (o : option (list string)) l :
  o <> Some [] -> l = default [] o -> m !! k = json_strings l -> read_slice as_string m k = Ok o.
Proof. intros Ho -> ->%read_slice_strings. by destruct o as [[]|]. Qed.

(** What a builder makes of the entries of a map. *)
Definition entriesOf (e : gmap string string) : option (gmap string string) :=
  if decide (@None (gmap string string) = None /\ e = ∅) then None else Some (e ∪ ∅).

Lemma read_entries_ok m k e : m !! k = json_map (entriesOf e) -> read_map m k = Ok e.
Proof.
  intros ->%read_map_ok. unfold entriesOf. rewrite (right_id_L ∅ (∪)). case_decide as E; [|done]. by destruct E as [_ ->].
Qed.

Lemma ResourceProjection_expressible p :
  proj_describable p -> expresses ResourceProjection_config ResourceProjection_encode ResourceProjection_decode p.
Proof.
  intros [Hs Hc]. destruct p as [g v vs sc ki pl sn ca]. simpl in Hs, Hc.
  unfold expresses, ResourceProjection_config, ResourceProjection_WithVersions, ResourceProjection_encode,
    ResourceProjection_decode.
  describe. exists (MkResourceProjectionC (Some g) (Some v) (entriesOf vs) (Some sc) (Some ki) (Some pl) (default [] sn)
    (default [] ca)). split.
  - destruct sn, ca; simpl; unfold ResourceProjection_WithShortNames, ResourceProjection_WithCategories; simpl;
      rewrite ?appendValues_app; reflexivity.
  - repeat (eapply obind_step; [first [read_field | eapply read_entries_ok; field]|]).
    eapply obind_step; [apply (read_optional_ok _ _ sn _ Hs eq_refl); field|].
    eapply obind_step; [apply (read_optional_ok _ _ ca _ Hc eq_refl); field|]. reflexivity.
Qed.

Lemma ResourceProjection_decode_describable c p :
  ResourceProjection_decode (ResourceProjection_encode c) = Ok p -> proj_describable p.
Proof.
  unfold ResourceProjection_decode, ResourceProjection_encode. intros Hd.
  rewrite (read_slice_strings _ "shortNames" (pjc_ShortNames c)),
    (read_slice_strings _ "categories" (pjc_Categories c)) in Hd by field.
  repeat (apply obind_ok_inv in Hd as (? & ? & Hd)). injection Hd as <-. simplify_eq.
  split; simpl; [by destruct (pjc_ShortNames c)|by destruct (pjc_Categories c)].
Qed.

Lemma PublishedResourceSpec_expressible s :
  describable s -> expresses PublishedResourceSpec_config PublishedResourceSpec_encode PublishedResourceSpec_decode s.
Proof.
  intros Hp. destruct (expressible (config := SourceResourceDescriptor_config) (ps_Resource s)) as (r & Hr & Hrd).
  assert (exists o, opt_config ResourceProjection_config (ps_Projection s) = Ok o /\
    option_Forall2 (fun c x => ResourceProjection_decode (ResourceProjection_encode c) = Ok x) o (ps_Projection s))
    as (o & Ho & Hod).
  { unfold describable in Hp. destruct (ps_Projection s) as [p|]; [|exists None; split; [done|constructor]].
    destruct (ResourceProjection_expressible p Hp) as (c & Hc & Hd). exists (Some c). simpl. rewrite Hc.
    split; [done|by constructor]. }
  unfold expresses, PublishedResourceSpec_config, PublishedResourceSpec_WithRelated, PublishedResourceSpec_encode,
    PublishedResourceSpec_decode.
  rewrite Hr, Ho. describe. destruct s. expresses.
Qed.

Lemma PublishedResourceSpec_decode_describable c s :
  PublishedResourceSpec_decode (PublishedResourceSpec_encode c) = Ok s -> describable s.
Proof.
  unfold PublishedResourceSpec_decode, PublishedResourceSpec_encode. intros Hd.
  repeat (apply obind_ok_inv in Hd as (? & ? & Hd)). injection Hd as <-. unfold describable. simpl.
  match goal with H : read_ptr ResourceProjection_decode _ _ = Ok ?o |- _ => rename H into Hp, o into q end.
  unfold read_ptr in Hp. rewrite lookup_omit in Hp by distinct_keys. simpl in Hp.
  destruct (psc_Projection c) as [pc|]; simpl in Hp; [|by injection Hp as <-].
  apply obind_ok_inv in Hp as (p & Hp & [= <-]). by eapply ResourceProjection_decode_describable.
Qed.

(** C38: every PublishedResource whose projection does not ask for an empty
    list of short names or categories can be described with the apply
    configurations: the builders do not panic, the document carries kind,
    version and name, and reading it gives back its spec and its status.  For
    all others no configuration, however it was built, is read back as their
    spec. *)
Theorem apply_roundtrip p :
  (describable (pr_Spec p) ->
   exists c, PublishedResource_config p = Ok c /\
     PublishedResource_encode c !! "kind" = Some (VStr "PublishedResource") /\
     PublishedResource_encode c !! "apiVersion" = Some (VStr "syncagent.kcp.io/v1alpha1") /\
     (PublishedResource_GetName c).1 = Some (pr_Name p) /\
     read_struct PublishedResourceSpec_decode (PublishedResource_encode c) "spec" = Ok (pr_Spec p) /\
     read_struct PublishedResourceStatus_decode (PublishedResource_encode c) "status" = Ok (pr_Status p)) /\
  (~ describable (pr_Spec p) ->
   forall c, PublishedResourceSpec_decode (PublishedResourceSpec_encode c) <> Ok (pr_Spec p)).
Proof.
  split; [|intros Hn c Hd; by apply Hn, (PublishedResourceSpec_decode_describable c)].
  intros (sc & Hsc & Hsd)%PublishedResourceSpec_expressible.
  destruct (expressible (config := PublishedResourceStatus_config) (pr_Status p)) as (tc & Htc & Htd).
  unfold PublishedResource_config, PublishedResource_encode. rewrite Hsc, Htc. cbn [obind].
  eexists. split; [reflexivity|]. split_and!; [field|field|reflexivity| |];
    (eapply read_struct_ok; [field|eassumption]).
Qed.

(** Nil among the values of a repeated field is a panic, never a value. *)
Lemma appendConfigs_nil {A} name (l : list A) values :
  None ∈ values -> appendConfigs name l values = Panic ("nil value passed to " +:+ name).
Proof.
  unfold appendConfigs. revert l. induction values as [|[c|] values IH]; intros l Hin; simpl.
  - by apply not_elem_of_nil in Hin.
  - apply IH. by apply elem_of_cons in Hin as [?|?].
  - done.
Qed.

(** [ForKind] knows the kinds of this group and version only. *)
Lemma ForKind_known kind c :
  ForKind kind = Some c -> gvk_group kind = "syncagent.kcp.io" /\ gvk_version kind = "v1alpha1".
Proof. unfold ForKind. case_decide; [done|discriminate]. Qed.

End Describe.

(** ** Witness *)

Module SampleApply.

#[export] Instance types : ApplyTypes := {|
  Time := Z; OwnerReferenceApplyConfiguration := string;
  LabelSelectorRequirementApplyConfiguration := LabelSelectorRequirement
|}.

Definition requirement_encode (r : LabelSelectorRequirement) : gmap string value :=
  omit [("key", Some (VStr (lsr_key r))); ("operator", Some (VStr (lsr_operator r)));
    ("values", json_strings (lsr_values r))].
Definition requirement_decode (m : gmap string value) : outcome LabelSelectorRequirement :=
  let! key := read_string m "key" in
  let! operator := read_string m "operator" in
  let! values := read_list as_string m "values" in
  Ok (SelReq key operator values).

Definition selector_encode (s : LabelSelectorApplyConfiguration) : gmap string value :=
  omit [("matchLabels", json_map (lsc_MatchLabels s));
    ("matchExpressions", json_slice requirement_encode (lsc_MatchExpressions s))].
Definition selector_decode (m : gmap string value) : outcome LabelSelector :=
  let! labels := read_map m "matchLabels" in
  let! expressions := read_list (as_object requirement_decode) m "matchExpressions" in
  Ok (LSel labels expressions).

#[export] Instance json : ApplyJson types := {|
  meta_value := fun m => VObj (omit [("name", json_string (omc_Name m))]);
  requirement_config := fun r => r;
  LabelSelector_encode := selector_encode;
  LabelSelector_decode := selector_decode
|}.

Lemma requirement_roundtrip r : requirement_decode (requirement_encode r) = Ok r.
Proof.
  destruct r. unfold requirement_decode, requirement_encode.
  repeat (eapply obind_step; [first [eapply read_string_ok; field | eapply read_strings_ok; field]|]). reflexivity.
Qed.

#[export] Instance json_laws : ApplyJsonLaws.
Proof.
  split.
  - intros c k Hk. change (selector_encode c !! k = None). unfold selector_encode.
    rewrite lookup_omit by distinct_keys. apply field_of_absent. exact Hk.
  - intros [ls es] extra Hx.
    change (selector_decode (selector_encode (LabelSelector_config (LSel ls es)) ∪ extra) = Ok (LSel ls es)).
    unfold selector_decode, selector_encode.
    assert (forall k, k ∈ ["matchLabels"; "matchExpressions"] ->
      forall m : gmap string value, (m ∪ extra) !! k = m !! k) as Hu.
    { intros k Hk m. rewrite lookup_union, Hx by done. by destruct (m !! k). }
    rewrite (read_map_ok _ _ (if decide (ls = ∅) then None else Some ls)); [|rewrite Hu by distinct_keys; field].
    cbn [obind]. rewrite (read_configs_ok requirement_encode _ _ _ es es); [|rewrite Hu by distinct_keys|].
    + simpl. case_decide as E; [by rewrite E|done].
    + rewrite lookup_omit by distinct_keys. simpl. by rewrite list_fmap_id.
    + induction es; constructor; [apply requirement_roundtrip|done].
Qed.

Definition sample : PublishedResource := MkPubRes
  (Meta "publish-certs" "" None None None None None 1 [] "" [] "" "" ∅)
  (MkPubResSpec (MkSource "cert-manager.io" "v1" [] "Certificate")
     (Some (MkFilter (Some (LSel {["team" := "a"]} [SelReq "env" "In" ["prod"; "dev"]])) None)) None false
     (Some (MkProjection "certs.example.com" "" {["v1" := "v1beta1"]} "" "" "" (Some ["crt"]) None)) None [] None)
  (MkPubResStatus "").

End SampleApply.
Import SampleApply.

Lemma apply_roundtrip_witness :
  exists c, PublishedResource_config sample = Ok c /\
    read_struct PublishedResourceSpec_decode (PublishedResource_encode c) "spec" = Ok (pr_Spec sample).
Proof.
  destruct (proj1 (apply_roundtrip sample)) as (c & Hc & _ & _ & _ & Hd & _); [by split|].
  exists c. split; [exact Hc|exact Hd].
Defined.
